(* ===== verification/_CoqProject ===== *)
-Q . S2P
Prelude.v
Bytes.v
Crc.v
TimeMath.v
RegMap.v
MbServer.v
MbSpec.v
MbTcp.v
RtuFrame.v
ConfigStore.v
StorageCfg.v
UdpCfg.v
FwUpg.v
Ws.v
Base64.v
WsFrames.v
History.v
Text.v
WebJson.v
FtpArgs.v
Channels.v
System.v
Outputs.v
Sampling.v
W25q.v
NorSpec.v
FwSession.v
FwCan.v
FwUdp.v
LfsNor.v
StMonad.v
Storage.v
RamFs.v
HistNames.v
StorageSafe.v
StorageFiles.v
StorageHist.v
StorageBoot.v
HttpReq.v
Web.v
WsSession.v
WebInv.v
WebText.v
WsOpen.v
NetUdp.v
FtpPaths.v
Ftpd.v
FtpSafe.v
FtpFiles.v
FtpUpload.v
Admission.v
Console.v
Shell.v
ShellSpec.v
ShellCmd.v
ShellSafe.v
ShellScreen.v
Heartbeat.v
Device.v
Persist.v
Libc.v
