(* ===== verification/Prelude.v ===== *)
(** * io-edge-hub: a verification library of the firmware

    The firmware of an industrial I/O gateway (STM32F407, embassy): eight outputs,
    sixteen digital and four analog inputs, reachable over Modbus TCP and RTU, UDP,
    HTTP and WebSocket, FTP, CAN and a serial console, with its parameters and history
    on a NOR flash.  The code is src/crates/proto (pure logic), src/crates/firmware
    (the tasks) and src/crates/littlefs2-sys (declarations and C string functions).

    ** How the parts interact

    All services act on one register map (regmap.rs) through the trait [RegHooks],
    behind which the statics of appstate.rs, systime.rs, reboot.rs and io_gpio.rs
    live.  What touches the flash goes as a command through one of two bounded
    channels to the storage task (storage.rs), which owns littlefs and the parameter
    slots; the firmware upgrade (fw.rs) writes the flash directly.  The heartbeat in
    main.rs keeps the clock, polls the link, carries out reboots and feeds the
    watchdog.

    ** Conventions

    - A value of w bits is a [Z]; casts and wrap-around are written out ([as_u16],
      [wrapping_sub_u32], ...).  The release profile has no overflow checks.
    - A computation that can panic returns an option: [None] is the panic.
      [Result<A, ()>] is [result].  Slices, checked indices and array stores are the
      functions of this file.
    - Code that threads state is written in the monad [M S] of StMonad.v, with rules
      [wp], or as explicit state passing.
    - Traits are classes ([RegHooks], [CfgHooks], [Flash], [Spi]); so are third-party
      parts: [Lfs] for littlefs, [FtpEnv] for what the FTP server calls.  Laws about
      them are classes of their own ([NorSpec], [LfsReads], [LfsDir], [LfsWrites],
      [LfsFrame]) with instances: the NOR driver on a model of its chip, a file system
      in memory ([RamFs]).
    - A task is its turn: one received chunk, frame, datagram or tick.  Scheduling
      inside a turn, waiting and logging are left out, as are the [probe] calls.

    ** Files

    Pure logic.  Bytes.v: bytes.rs.  Crc.v: crc.rs, with error detection.  TimeMath.v:
    time_math.rs, against the Gregorian calendar.  RegMap.v: regmap.rs, with the
    invariant [reg_inv].  MbServer.v: mb_server.rs, every function code; MbSpec.v: the
    specification [mb_spec] and the refinement [process_refines].  ConfigStore.v:
    config_store.rs, on a NOR image that can lose power after any byte.  UdpCfg.v:
    udp_cfg.rs with its specification [udp_spec].  FwUpg.v: fw_upg.rs.  Ws.v, WsFrames.v
    and Base64.v: ws.rs.  History.v: history.rs.  WebJson.v: web_json.rs.  FtpArgs.v:
    ftp.rs.  Text.v: the [str] methods the code uses.

    Shared state.  Channels.v: the command lanes.  System.v: the statics of systime.rs,
    reboot.rs, io_gpio.rs and appstate.rs as one record [Sys] and the instances of the
    hooks.  Outputs.v: from a request to the pins.  Sampling.v: adc_math.rs and
    sampling.rs.

    Modbus transports.  MbTcp.v: mbtcp_adu.rs and the connection of mbtcp.rs;
    RtuFrame.v: rtu_frame.rs and rtu.rs.

    Flash.  W25q.v: w25q.rs over an SPI bus, and the chip of the data sheet; NorSpec.v:
    the contract its clients use.  StorageCfg.v: the parameter slots (storage.rs).
    LfsNor.v: the block device of littlefs and the interface [Lfs].  Storage.v: the
    handlers and the loop of the storage task; StorageSafe.v: its file handles;
    StorageFiles.v: downloads; HistNames.v and StorageHist.v: retention; StorageBoot.v: the
    start of the task and its lanes.  RamFs.v: a file system to run it on.

    Upgrade.  FwSession.v: fw.rs; FwCan.v: fw_can.rs; FwUdp.v: the channel in net.rs.

    Web.  HttpReq.v: from the stream to requests; Web.v: routes and commands; WsSession.v:
    the WebSocket session; WsOpen.v: its opening and its slot; WebInv.v: what every client
    preserves; WebText.v: that no description is cut (httpd.rs).

    Network.  NetUdp.v: the UDP task (net.rs).  FtpPaths.v, Ftpd.v: ftpd.rs; FtpSafe.v: who
    may change files; FtpFiles.v and FtpUpload.v: transfers with the storage task behind.
    Admission.v: the serving and rejecting tasks of Modbus TCP and FTP (mbtcp.rs, ftpd.rs).

    Console.  Console.v: log.rs, uart_raw.rs, stackmark.rs.  Shell.v: the line editor of
    shell.rs; ShellSpec.v: the abstract editor it refines; ShellCmd.v: the commands;
    ShellSafe.v: what they can do; ShellScreen.v: what a terminal shows.

    Whole.  Heartbeat.v: the heartbeat of main.rs.  Device.v: the start and the turns of
    all tasks as one transition system.  Persist.v: parameters from a request to the next
    start.  Libc.v: the C string functions of littlefs2-sys.

    ** What the theorems show

    - Refinement of a specification: the PDU server ([process_refines]), the TCP and RTU
      layers ([adu_refines], [rtu_refines]), the UDP commands and their task
      ([udp_cmd_refines], [udp_task_contract]), the NOR driver ([w25q_refines_nor]), the
      upgrade over CAN ([can_upgrade]), the line editor ([shell_task_refines]).
    - The console: whatever is typed, the screen shows the line that Enter will run
      ([shell_screen]).
    - Streams: Modbus TCP and HTTP do not depend on how the stream is cut
      ([framing_chunk_independent], [http_requests_delivered]); WebSocket frames are
      delivered ([ws_stream_delivers]); the console ring loses nothing up to 255 bytes
      ([ring_delivers]).
    - End to end: an upgrade leaves the image and the trailer on the flash
      ([upgrade_end_to_end], [ws_upgrade], [udp_upgrade_go_back_n]); downloads and
      uploads over HTTP and FTP carry the files ([download_delivers],
      [ftp_retr_delivers], [ftp_stor_stores]).
    - Interleavings: nobody is turned away while a slot is free but for 50 ms
      ([turned_away_only_when_full]); one WebSocket session at a time ([ws_handshake]).
    - From a request to the next start: parameters saved over Modbus, HTTP or the console
      ([saved_parameters_survive]) and a factory reset ([factory_reset_restores]), with a
      loss of power at any byte.
    - Safety: a power cut never loses the parameters ([save_power_cut]); no allocation
      cell of littlefs is used twice, but when the history file itself fails
      ([storage_cells_safe]); paths stay below the root
      ([norm_path_confined]); files change only with rights ([ftp_changes_need_rights]);
      other subnets are ignored ([udp_subnet_isolation]); a lost link switches the
      outputs off ([link_loss_stops_outputs]).
    - The whole device: from any start, any order of turns of all tasks keeps the
      registers well formed, the outputs equal to the DO register and the queues bounded
      ([device_always_safe]).
    - Progress: the watchdog is fed ([watchdog_never_bites]), a requested reboot happens
      in exactly the turn it should ([reboot_happens]), loops end ([ws_feed_no_panic], [libc_strings]).
    - Where a panic or a loss is possible the theorem says exactly when
      ([shell_panic_iff], and the lemmas named after the fault in each file).

    ** Bounds and fuel

    Recursion that is not structural runs on fuel.  Where the code bounds the loop the
    fuel is that bound written out (the length of the buffer, plus one); the theorems
    about such functions say that they return a result, so the fuel is enough.  The FTP
    transfer loops and the downloads take their fuel as an argument, and the delivery
    theorems say how much suffices (a unit per 2048 bytes of a download, per chunk of an
    upload).  The C string functions need the lengths of both strings plus one.  The calendar
    is verified for every day a 32-bit time can name, the reboot up to the wrap of its
    counter.

    ** Not modelled

    The register set-up of clocks, pins, UART, CAN, ADC and network chip; the embassy
    executor, sockets and timers; littlefs itself (C, vendored under
    src/crates/littlefs2-sys/littlefs) and bindings.rs, its declarations, but for the
    limit of a file's size; build.rs, which runs on the build machine; the panic handler; log
    calls.  What they give the code are parameters: the event arguments of the turns,
    the build identification, the MAC address, the figures of the linker.  The tests
    inside the source files are not modelled either. *)
From Stdlib Require Import Ascii String.
From Stdlib Require Export ZArith Lia.
From stdpp Require Export base list option numbers.
From stdpp Require Import strings.
Export Stdlib.Strings.String.StringSyntax.

#[global] Open Scope Z_scope.

(** ** Machine integers

    u8/u16/u32/u64 values are mathematical integers; a cast [x as uN] is the
    residue written out.  The release profile of the workspace has no overflow
    checks, so [+]/[-]/[<<] on an N-bit value wrap. *)
Definition as_u8 (x : Z) : Z := x mod 256.
Definition as_u16 (x : Z) : Z := x mod 65536.
Definition as_u32 (x : Z) : Z := x mod 4294967296.
Definition as_u64 (x : Z) : Z := x mod 18446744073709551616.

Definition is_u8 (x : Z) : Prop := 0 <= x < 256.
Definition is_u16 (x : Z) : Prop := 0 <= x < 65536.
Definition is_u32 (x : Z) : Prop := 0 <= x < 4294967296.

Definition bytes_ok (l : list Z) : Prop := Forall is_u8 l.
Definition words_ok (l : list Z) : Prop := Forall is_u16 l.

Definition saturating_add_u16 (x y : Z) : Z := Z.min (x + y) 65535.
Definition wrapping_sub_u32 (x y : Z) : Z := as_u32 (x - y).

(** [!x] on a [u16]. *)
Definition not_u16 (x : Z) : Z := 65535 - x.

(** [Result<A, ()>]. *)
Inductive result (A : Type) : Type :=
| Ok (a : A)
| Err.
Arguments Ok {A} a.
Arguments Err {A}.

Definition is_ok {A} (r : result A) : bool := match r with Ok _ => true | Err => false end.

(** ** Slices and panics

    A computation that can panic returns an option: [None] is the panic.
    [l !! i] is the checked index [l[i]]; [upd l i v] the checked store
    [l[i] = v]; [slice l i j] the checked range [&l[i..j]]; [blit l i s] is
    [l[i..i + s.len()].copy_from_slice(s)]; [modify_slice l i j f] passes
    [&mut l[i..j]] to [f].  An index the type of a fixed-size array makes
    constant and in range ([holding[HOLDING_DO_IDX]]) is the total [l !!! i]. *)
Definition upd (l : list Z) (i : nat) (v : Z) : option (list Z) :=
  if decide (i < length l)%nat then Some (<[i := v]> l) else None.

Definition slice {A} (l : list A) (i j : nat) : option (list A) :=
  if decide (i <= j /\ j <= length l)%nat then Some (take (j - i) (drop i l)) else None.

Definition blit (l : list Z) (i : nat) (s : list Z) : option (list Z) :=
  if decide (i + length s <= length l)%nat then Some (list_inserts i s l) else None.

Definition modify_slice (l : list Z) (i j : nat)
    (f : list Z -> option (list Z)) : option (list Z) :=
  sub ← slice l i j; sub' ← f sub; Some (list_inserts i sub' l).

(** [iter().position(p)]: the index of the first element satisfying [p]. *)
Fixpoint position {A} (p : A -> bool) (l : list A) : option nat :=
  match l with
  | [] => None
  | x :: l' => if p x then Some O else S <$> position p l'
  end.

(** ASCII literals as bytes. *)
Definition bs (s : String.string) : list Z :=
  (fun c => Z.of_N (Ascii.N_of_ascii c)) <$> String.list_ascii_of_string s.

Arguments bs _%_string.

(** [slice::starts_with]. *)
Fixpoint starts_with (l p : list Z) : bool :=
  match p, l with
  | [], _ => true
  | y :: p', x :: l' => (x =? y) && starts_with l' p'
  | _ :: _, [] => false
  end.

(** [slice::split(|b| b == sep)] and [str::split(sep)]: always at least one piece. *)
Fixpoint split_on (sep : Z) (l : list Z) : list (list Z) :=
  match l with
  | [] => [[]]
  | x :: l' =>
      if x =? sep then [] :: split_on sep l'
      else match split_on sep l' with
           | h :: t => (x :: h) :: t
           | [] => [[x]]
           end
  end.

(** Lexicographic order on byte strings ([Ord] for slices). *)
Fixpoint bytes_ltb (a b : list Z) : bool :=
  match a, b with
  | _, [] => false
  | [], _ :: _ => true
  | x :: a', y :: b' => (x <? y) || ((x =? y) && bytes_ltb a' b')
  end.

Definition bytes_eqb (a b : list Z) : bool := bool_decide (a = b).

(** Bounded quantification over [lo, lo + n), evaluated by [vm_compute]. *)
Fixpoint forallZ (lo : Z) (n : nat) (f : Z -> bool) : bool :=
  match n with
  | O => true
  | S k => f lo && forallZ (lo + 1) k f
  end.

(** ** Automation *)

Create HintDb rust.
Create Rewrite HintDb lens.

Ltac zdm := Z.div_mod_to_equations; lia.

#[export] Hint Rewrite @length_app @length_insert @length_replicate @length_inserts
  @length_fmap @length_take @length_drop @length_cons @length_nil @length_reverse : lens.

(** Goals about lengths and indices. *)
Ltac len := autorewrite with lens in *; simpl length in *; lia.

(** Case analysis on the innermost [if]/[match] of the goal. *)
Ltac case_goal :=
  match goal with
  | |- context [if ?b then _ else _] => destruct b eqn:?
  | |- context [match ?x with _ => _ end] => destruct x eqn:?
  end.

(** An equation between comparisons that arithmetic decides. *)
Ltac ltb_cases :=
  repeat match goal with
  | |- context [?a <? ?b] => destruct (Z.ltb_spec a b)
  | |- context [?a <=? ?b] => destruct (Z.leb_spec a b)
  | |- context [?a =? ?b] => destruct (Z.eqb_spec a b)
  end; first [done | lia].

(** Boolean comparisons to propositions. *)
Ltac zbool :=
  repeat match goal with
  | H : (_ && _) = true |- _ => apply andb_true_iff in H; destruct H
  | H : (_ || _) = false |- _ => apply orb_false_iff in H; destruct H
  | H : (_ =? _) = true |- _ => apply Z.eqb_eq in H
  | H : (_ =? _) = false |- _ => apply Z.eqb_neq in H
  | H : (_ <? _) = true |- _ => apply Z.ltb_lt in H
  | H : (_ <? _) = false |- _ => apply Z.ltb_ge in H
  | H : (_ <=? _) = true |- _ => apply Z.leb_le in H
  | H : (_ <=? _) = false |- _ => apply Z.leb_gt in H
  | H : negb _ = true |- _ => apply negb_true_iff in H
  | H : negb _ = false |- _ => apply negb_false_iff in H
  | H : (_ =? _)%nat = true |- _ => apply Nat.eqb_eq in H
  | H : (_ =? _)%nat = false |- _ => apply Nat.eqb_neq in H
  | H : (_ <? _)%nat = true |- _ => apply Nat.ltb_lt in H
  | H : (_ <? _)%nat = false |- _ => apply Nat.ltb_ge in H
  | H : (_ <=? _)%nat = true |- _ => apply Nat.leb_le in H
  | H : (_ <=? _)%nat = false |- _ => apply Nat.leb_gt in H
  end.

(** Arithmetic under boolean guards. *)
Ltac blia :=
  zbool; repeat match goal with
  | H : (_ || _) = true |- _ => apply orb_true_iff in H as [H|H]; zbool
  | H : (_ && _) = false |- _ => apply andb_false_iff in H as [H|H]; zbool
  end; lia.

(** ** Generic lemmas *)

Lemma as_u8_range x : is_u8 (as_u8 x).
Proof. unfold is_u8, as_u8. apply Z.mod_pos_bound. lia. Qed.
Lemma as_u16_range x : is_u16 (as_u16 x).
Proof. unfold is_u16, as_u16. apply Z.mod_pos_bound. lia. Qed.
Lemma as_u32_range x : is_u32 (as_u32 x).
Proof. unfold is_u32, as_u32. apply Z.mod_pos_bound. lia. Qed.
Lemma bytes_ok_cons x l : is_u8 x -> bytes_ok l -> bytes_ok (x :: l).
Proof. by constructor. Qed.
Lemma bytes_ok_app a b : bytes_ok a -> bytes_ok b -> bytes_ok (a ++ b).
Proof. intros. by apply Forall_app_2. Qed.
Lemma bytes_ok_inv x l : bytes_ok (x :: l) -> is_u8 x /\ bytes_ok l.
Proof. apply Forall_cons_1. Qed.

(** Byte lists, decided. *)
Definition bytes_okb (l : list Z) : bool := forallb (fun x => (0 <=? x) && (x <? 256)) l.
Lemma bytes_okb_ok l : bytes_okb l = true -> bytes_ok l.
Proof.
  induction l as [|x l IH]; cbn; [constructor|]. intros H.
  apply andb_true_iff in H as [H Hl]. apply andb_true_iff in H as [H1 H2].
  apply bytes_ok_cons; [|by apply IH]. unfold is_u8. apply Z.leb_le in H1. apply Z.ltb_lt in H2. lia.
Qed.

Ltac bytes_inv :=
  repeat match goal with
  | H : bytes_ok (_ :: _) |- _ => apply bytes_ok_inv in H as [? H]
  end.

Lemma bytes_ok_app_inv a b : bytes_ok (a ++ b) -> bytes_ok a /\ bytes_ok b.
Proof. by intros [Ha Hb]%Forall_app. Qed.
Lemma as_u8_id x : is_u8 x -> as_u8 x = x.
Proof. unfold is_u8, as_u8. apply Z.mod_small. Qed.
Lemma as_u16_id x : is_u16 x -> as_u16 x = x.
Proof. unfold is_u16, as_u16. apply Z.mod_small. Qed.
Lemma as_u32_id x : is_u32 x -> as_u32 x = x.
Proof. unfold is_u32, as_u32. apply Z.mod_small. Qed.
Lemma is_u8_u16 x : is_u8 x -> is_u16 x.
Proof. unfold is_u8, is_u16. lia. Qed.
#[export] Hint Resolve as_u8_range as_u16_range as_u32_range is_u8_u16 : rust.

(** A high part shifted over a low part that fits below it is a sum. *)
Lemma lor_shiftl_add a b n :
  0 <= n -> 0 <= b < 2 ^ n -> Z.lor (Z.shiftl a n) b = a * 2 ^ n + b.
Proof.
  intros Hn Hb. rewrite Z.shiftl_mul_pow2 by lia.
  rewrite <- Z.add_lor_land.
  replace (Z.land (a * 2 ^ n) b) with 0; [lia|].
  symmetry. apply Z.bits_inj'. intros i Hi. rewrite Z.land_spec, Z.bits_0.
  destruct (decide (i < n)).
  - rewrite Z.mul_pow2_bits_low by lia. done.
  - rewrite <- (Z.mod_small b (2 ^ n)) by lia.
    rewrite Z.mod_pow2_bits_high by lia. apply andb_false_r.
Qed.

Lemma land_ones_mod x n : 0 <= n -> Z.land x (Z.ones n) = x mod 2 ^ n.
Proof. intros. by rewrite Z.land_ones. Qed.

Lemma land_1 x : Z.land x 1 = x mod 2.
Proof. exact (Z.land_ones x 1 ltac:(lia)). Qed.

Lemma land_255 x : Z.land x 255 = x mod 256.
Proof. exact (Z.land_ones x 8 ltac:(lia)). Qed.

Lemma shiftr_1 x : Z.shiftr x 1 = x / 2.
Proof. exact (Z.shiftr_div_pow2 x 1 ltac:(lia)). Qed.

Lemma shiftr_8 x : Z.shiftr x 8 = x / 256.
Proof. exact (Z.shiftr_div_pow2 x 8 ltac:(lia)). Qed.

Lemma mod_pow2_testbit x m q :
  0 <= m -> 0 <= q -> Z.testbit (x mod 2 ^ m) q = (q <? m) && Z.testbit x q.
Proof.
  intros Hm Hq. destruct (Z.ltb_spec q m).
  - by rewrite Z.mod_pow2_bits_low by lia.
  - by rewrite Z.mod_pow2_bits_high by lia.
Qed.

(** Bytes are equal when their eight bits are. *)
Lemma byte_eq x y :
  is_u8 x -> is_u8 y -> (forall j, 0 <= j < 8 -> Z.testbit x j = Z.testbit y j) -> x = y.
Proof.
  intros Hx Hy Hb.
  rewrite <- (as_u8_id x Hx), <- (as_u8_id y Hy). unfold as_u8. change 256 with (2 ^ 8).
  apply Z.bits_inj'. intros j Hj. rewrite !mod_pow2_testbit by lia.
  destruct (Z.ltb_spec j 8); [|done]. by rewrite Hb by lia.
Qed.

Lemma lor_u8 a b : is_u8 a -> is_u8 b -> is_u8 (Z.lor a b).
Proof.
  intros Ha Hb. rewrite <- (as_u8_id a Ha), <- (as_u8_id b Hb).
  unfold as_u8. rewrite <- !land_255, <- Z.land_lor_distr_l, land_255. apply as_u8_range.
Qed.

Lemma pow2_u8 j : 0 <= j < 8 -> is_u8 (2 ^ j).
Proof.
  intros Hj. unfold is_u8.
  assert (2 ^ j <= 2 ^ 7) by (apply Z.pow_le_mono_r; lia). change (2 ^ 7) with 128 in *.
  pose proof (Z.pow_pos_nonneg 2 j). lia.
Qed.

Lemma forallZ_spec lo n f :
  forallZ lo n f = true -> forall x, lo <= x < lo + Z.of_nat n -> f x = true.
Proof.
  revert lo. induction n as [|n IH]; intros lo H x Hx; simpl in *; [lia|].
  apply andb_true_iff in H as [H1 H2].
  destruct (decide (x = lo)) as [->|]; [done|]. apply (IH (lo + 1)); [done|lia].
Qed.

Lemma upd_ok l i v : (i < length l)%nat -> upd l i v = Some (<[i := v]> l).
Proof. intros. unfold upd. by rewrite decide_True. Qed.

Lemma slice_ok {A} (l : list A) i j :
  (i <= j)%nat -> (j <= length l)%nat -> slice l i j = Some (take (j - i) (drop i l)).
Proof. intros. unfold slice. by rewrite decide_True. Qed.

Lemma blit_ok l i s :
  (i + length s <= length l)%nat -> blit l i s = Some (list_inserts i s l).
Proof. intros. unfold blit. by rewrite decide_True. Qed.

Lemma upd_length l i v l' : upd l i v = Some l' -> length l' = length l.
Proof. unfold upd. case_decide; intros; simplify_eq. apply length_insert. Qed.

Lemma blit_length l i s l' : blit l i s = Some l' -> length l' = length l.
Proof. unfold blit. case_decide; intros; simplify_eq. apply length_inserts. Qed.

Lemma slice_length {A} (l : list A) i j s :
  slice l i j = Some s -> length s = (j - i)%nat.
Proof. unfold slice. case_decide; intros; simplify_eq. rewrite length_take, length_drop. lia. Qed.

(** Writing [s] at [i] cuts the buffer into three parts. *)
Lemma list_inserts_split (l : list Z) i s :
  (i + length s <= length l)%nat ->
  list_inserts i s l = take i l ++ s ++ drop (i + length s) l.
Proof.
  revert i. induction s as [|x s IH]; intros i Hi; simpl in *.
  - rewrite Nat.add_0_r. by rewrite take_drop.
  - rewrite IH by lia.
    destruct (lookup_lt_is_Some_2 l i) as [y Hy]; [lia|].
    rewrite (take_S_r l i y Hy), <- app_assoc.
    rewrite (insert_app_r_alt (take i l)) by len.
    replace (i - length (take i l))%nat with 0%nat by len.
    simpl. do 4 f_equal. lia.
Qed.

(** Writing back an unchanged tail is the same as not writing it. *)
Lemma list_inserts_tail (l : list Z) i s k :
  (i + length s <= length l)%nat ->
  list_inserts i (s ++ take k (drop (i + length s) l)) l = list_inserts i s l.
Proof.
  intros H. rewrite !list_inserts_split by (rewrite ?length_app, ?length_take, ?length_drop; lia).
  f_equal. rewrite <- app_assoc. f_equal.
  rewrite length_app, length_take, length_drop, Nat.add_assoc.
  rewrite <- (drop_drop l _ (i + length s)).
  destruct (decide (k <= length l - (i + length s))%nat).
  - rewrite Nat.min_l by done. apply take_drop.
  - rewrite Nat.min_r by lia.
    rewrite (take_ge _ k), (drop_ge _ (length l - _)) by (rewrite length_drop; lia).
    apply app_nil_r.
Qed.

Lemma drop_cons2 (l : list Z) i :
  (i + 2 <= length l)%nat -> exists x y, drop i l = x :: y :: drop (i + 2) l.
Proof.
  intros H. rewrite <- (drop_drop l 2 i).
  destruct (drop i l) as [|x [|y r]] eqn:E.
  1-2: apply (f_equal length) in E; rewrite length_drop in E; simpl in E; lia.
  eauto.
Qed.

(** ** Buffers written front to back

    [prefix_is out p]: the first bytes of the buffer [out] are [p]. *)
Definition prefix_is (out p : list Z) : Prop := take (length p) out = p.

Lemma prefix_is_nil out : prefix_is out [].
Proof. done. Qed.

Lemma prefix_is_app out p : prefix_is out p <-> exists r, out = p ++ r.
Proof.
  unfold prefix_is. split.
  - intros H. exists (drop (length p) out). rewrite <- H at 1. symmetry. apply take_drop.
  - intros [r ->]. apply take_app_length.
Qed.

Lemma blit_at_prefix out p s :
  prefix_is out p -> (length p + length s <= length out)%nat ->
  exists out', blit out (length p) s = Some out' /\ prefix_is out' (p ++ s) /\
    length out' = length out.
Proof.
  intros [r ->]%prefix_is_app Hl. rewrite blit_ok by done.
  eexists; split; [done|]. split; [|apply length_inserts].
  apply prefix_is_app. rewrite list_inserts_split by done.
  rewrite take_app_length. rewrite app_assoc. eauto.
Qed.

Lemma upd_at_prefix out p v :
  prefix_is out p -> (length p < length out)%nat ->
  exists out', upd out (length p) v = Some out' /\ prefix_is out' (p ++ [v]) /\
    length out' = length out.
Proof.
  intros Hp Hl. destruct (blit_at_prefix out p [v] Hp) as (out' & H1 & H2 & H3); [len|].
  exists out'. split; [|done]. rewrite upd_ok by done.
  rewrite blit_ok in H1 by len. done.
Qed.

Lemma slice_app_exact {A} (a s b : list A) i j :
  i = length a -> j = (length a + length s)%nat -> slice (a ++ s ++ b) i j = Some s.
Proof.
  intros -> ->. rewrite slice_ok by (rewrite ?length_app; lia).
  rewrite drop_app_length. replace (_ - _)%nat with (length s) by lia.
  by rewrite take_app_length.
Qed.

(** A list of known length, element by element. *)
Lemma list_tabulate (l : list Z) n : length l = n -> l = (fun i => l !!! i) <$> seq 0 n.
Proof.
  intros <-. apply list_eq_same_length with (length l); [by rewrite length_fmap, length_seq|done|].
  intros i x y Hi Hx. rewrite list_lookup_fmap, (proj2 (lookup_seq 0 (length l) i i)) by lia.
  simpl. rewrite (list_lookup_total_correct _ _ _ Hx). by intros [= <-].
Qed.

Lemma position_None {A} (p : A -> bool) l :
  position p l = None <-> Forall (fun x => p x = false) l.
Proof.
  induction l as [|x l IH]; simpl; [by split|].
  rewrite Forall_cons. destruct (p x); simpl.
  - split; [done|]. by intros [? _].
  - rewrite fmap_None, IH. split; [intros Hp; by split|by intros [_ Hp]].
Qed.

Lemma position_Some {A} (p : A -> bool) l i :
  position p l = Some i ->
  exists a x b, l = a ++ x :: b /\ length a = i /\ p x = true /\ Forall (fun x => p x = false) a.
Proof.
  revert i. induction l as [|x l IH]; intros i H; simpl in *; [done|].
  destruct (p x) eqn:Hx.
  - simplify_eq. exists [], x, l. done.
  - apply fmap_Some in H as (j & Hj & ->).
    destruct (IH j Hj) as (a & y & b & -> & <- & Hy & Ha).
    exists (x :: a), y, b. repeat split; auto.
Qed.

(** ** Counting *)

Lemma count_insert {A} (P : A -> Prop) `{!forall x, Decision (P x)} l k x y : l !! k = Some x ->
  (length (filter P (<[k := y]> l)) + (if decide (P x) then 1 else 0) = length (filter P l) + (if decide (P y) then 1 else 0))%nat.
Proof.
  revert k. induction l as [|z l IH]; intros [|k] Hk; [done..| |]; simpl in *.
  - injection Hk as ->. rewrite !filter_cons. repeat case_decide; cbn [length]; lia.
  - specialize (IH k Hk). rewrite !filter_cons. repeat case_decide; cbn [length] in *; lia.
Qed.
