(* ===== verification/Bytes.v ===== *)
(** * Byte-order helpers (crates/proto/src/bytes.rs) *)
From S2P Require Import Prelude.

Definition get_be16 (p : list Z) : option Z :=
  p0 ← p !! 0%nat; p1 ← p !! 1%nat;
  Some (Z.lor (Z.shiftl p0 8) p1).

Definition get_be32 (p : list Z) : option Z :=
  p0 ← p !! 0%nat; p1 ← p !! 1%nat; p2 ← p !! 2%nat; p3 ← p !! 3%nat;
  Some (Z.lor (Z.lor (Z.lor (Z.shiftl p0 24) (Z.shiftl p1 16)) (Z.shiftl p2 8)) p3).

Definition get_le32 (p : list Z) : option Z :=
  p3 ← p !! 3%nat; p2 ← p !! 2%nat; p1 ← p !! 1%nat; p0 ← p !! 0%nat;
  Some (Z.lor (Z.lor (Z.lor (Z.shiftl p3 24) (Z.shiftl p2 16)) (Z.shiftl p1 8)) p0).

Definition put_be16 (v : Z) (p : list Z) : option (list Z) :=
  p ← upd p 0 (as_u8 (Z.shiftr v 8));
  upd p 1 (as_u8 v).

Definition put_be32 (v : Z) (p : list Z) : option (list Z) :=
  p ← upd p 0 (as_u8 (Z.shiftr v 24));
  p ← upd p 1 (as_u8 (Z.shiftr v 16));
  p ← upd p 2 (as_u8 (Z.shiftr v 8));
  upd p 3 (as_u8 v).

Definition put_le32 (v : Z) (p : list Z) : option (list Z) :=
  p ← upd p 0 (as_u8 v);
  p ← upd p 1 (as_u8 (Z.shiftr v 8));
  p ← upd p 2 (as_u8 (Z.shiftr v 16));
  upd p 3 (as_u8 (Z.shiftr v 24)).

(** [uN::to_le_bytes], [uN::from_le_bytes] and [to_be_bytes] of the standard library. *)
Definition to_le_bytes16 (v : Z) : list Z := [v mod 256; v / 256 mod 256].
Definition to_le_bytes32 (v : Z) : list Z :=
  [v mod 256; v / 256 mod 256; v / 65536 mod 256; v / 16777216 mod 256].
Definition to_be_bytes16 (v : Z) : list Z := [v / 256 mod 256; v mod 256].
Definition to_be_bytes32 (v : Z) : list Z :=
  [v / 16777216 mod 256; v / 65536 mod 256; v / 256 mod 256; v mod 256].
Definition from_le_bytes16 (b0 b1 : Z) : Z := b0 + 256 * b1.
Definition from_le_bytes32 (b0 b1 b2 b3 : Z) : Z :=
  b0 + 256 * b1 + 65536 * b2 + 16777216 * b3.
Definition from_be_bytes32 (b0 b1 b2 b3 : Z) : Z := from_le_bytes32 b3 b2 b1 b0.

(** [uN::from_le_bytes(s.try_into().unwrap())] for a slice [s]. *)
Definition le16_of (s : list Z) : option Z :=
  match s with [b0; b1] => Some (from_le_bytes16 b0 b1) | _ => None end.
Definition le32_of (s : list Z) : option Z :=
  match s with [b0; b1; b2; b3] => Some (from_le_bytes32 b0 b1 b2 b3) | _ => None end.

(** ** Lemmas *)

Lemma get_be16_bytes a b r :
  is_u8 b -> get_be16 (a :: b :: r) = Some (a * 256 + b).
Proof.
  intros Hb. unfold get_be16. simpl.
  rewrite (lor_shiftl_add a b 8) by (unfold is_u8 in Hb; simpl; lia). done.
Qed.

Lemma get_be32_bytes a b c d r :
  is_u8 b -> is_u8 c -> is_u8 d ->
  get_be32 (a :: b :: c :: d :: r) = Some (a * 16777216 + b * 65536 + c * 256 + d).
Proof.
  unfold is_u8. intros Hb Hc Hd. unfold get_be32. simpl. f_equal.
  replace (Z.shiftl a 24) with (Z.shiftl (Z.shiftl a 8) 16) by (by rewrite Z.shiftl_shiftl).
  rewrite <- (Z.shiftl_lor _ b 16), (lor_shiftl_add a b 8) by (simpl; lia).
  replace (Z.shiftl (a * 2 ^ 8 + b) 16) with (Z.shiftl (Z.shiftl (a * 2 ^ 8 + b) 8) 8)
    by (by rewrite Z.shiftl_shiftl).
  rewrite <- (Z.shiftl_lor _ c 8), (lor_shiftl_add _ c 8) by (simpl; lia).
  rewrite (lor_shiftl_add _ d 8) by (simpl; lia). lia.
Qed.

(** [put_be16] into a range of a larger buffer stores the two bytes there. *)
Lemma put_be16_at v out i j :
  (i + 2 <= j)%nat -> (j <= length out)%nat ->
  modify_slice out i j (put_be16 v) = Some (list_inserts i (to_be_bytes16 v) out).
Proof.
  intros Hi Hj. unfold modify_slice. rewrite slice_ok by lia. simpl.
  unfold put_be16.
  destruct (drop_cons2 out i) as (x & y & E); [lia|].
  rewrite E. destruct (j - i)%nat as [|[|k]] eqn:Ek; [lia..|]. simpl.
  rewrite Z.shiftr_div_pow2 by lia. f_equal.
  apply (list_inserts_tail out i (to_be_bytes16 v) k). simpl. lia.
Qed.

Lemma be16_roundtrip v r :
  is_u16 v -> get_be16 (to_be_bytes16 v ++ r) = Some v.
Proof.
  unfold is_u16. intros Hv. unfold to_be_bytes16. simpl.
  rewrite get_be16_bytes by (unfold is_u8; zdm). f_equal. zdm.
Qed.

Lemma le16_roundtrip v : is_u16 v -> le16_of (to_le_bytes16 v) = Some v.
Proof. unfold is_u16. intros. simpl. f_equal. unfold from_le_bytes16. zdm. Qed.

Lemma le32_roundtrip v : is_u32 v -> le32_of (to_le_bytes32 v) = Some v.
Proof. unfold is_u32. intros. simpl. f_equal. unfold from_le_bytes32. zdm. Qed.

Lemma to_be_bytes16_ok v : bytes_ok (to_be_bytes16 v).
Proof. repeat constructor; zdm. Qed.
Lemma to_le_bytes16_ok v : bytes_ok (to_le_bytes16 v).
Proof. repeat constructor; zdm. Qed.
Lemma to_le_bytes32_ok v : bytes_ok (to_le_bytes32 v).
Proof. repeat constructor; zdm. Qed.

Lemma get_be16_two d i :
  bytes_ok d -> (i + 2 <= length d)%nat ->
  exists v, (s ← slice d i (i + 2); get_be16 s) = Some v /\ is_u16 v.
Proof.
  intros Hd Hi. rewrite slice_ok by lia. simpl.
  destruct (drop_cons2 d i Hi) as (x & y & E).
  assert (is_u8 x /\ is_u8 y) as [Hx Hy].
  { assert (H : bytes_ok (drop i d)) by (by apply Forall_drop).
    rewrite E in H. inversion H as [|? ? ? H1]; inversion H1; subst. done. }
  replace (i + 2 - i)%nat with 2%nat by lia. rewrite E. simpl.
  rewrite get_be16_bytes by done. eexists; split; [done|].
  unfold is_u8, is_u16 in *. lia.
Qed.
