(* ===== verification/Crc.v ===== *)
(** * CRCs (crates/proto/src/crc.rs)

    The three reflected CRCs of the firmware share the inner bit loop; each is
    a fold of [crc_byte] over the data.  Besides the functions the file proves
    the facts the framing and storage layers rely on: the value fits the
    register, a CRC can be computed piecewise, a frame that carries its own CRC
    has residue zero, and a change confined to one byte is always detected. *)
From S2P Require Import Prelude.

(** One turn of [for _ in 0..8]. *)
Definition crc_bit (poly crc : Z) : Z :=
  if negb (Z.land crc 1 =? 0)
  then Z.lxor (Z.shiftr crc 1) poly
  else Z.shiftr crc 1.

(** [crc ^= b; for _ in 0..8 {...}]. *)
Definition crc_byte (poly crc b : Z) : Z :=
  Nat.iter 8 (crc_bit poly) (Z.lxor crc b).

Definition crc16_modbus (data : list Z) : Z :=
  foldl (crc_byte 0xA001) 0xFFFF data.

Definition crc32_ieee (data : list Z) : Z :=
  Z.lxor (foldl (crc_byte 0xEDB88320) 0xFFFFFFFF data) 0xFFFFFFFF.

Definition crc16_ccitt_seed (data : list Z) (seed : Z) : Z :=
  foldl (crc_byte 0x8408) seed data.

Definition crc16_ccitt (data : list Z) : Z := crc16_ccitt_seed data 0.

(** ** The bit step on a [w]-bit register *)
Section Register.
Context (w poly : Z).
Hypothesis Hw : 8 <= w.
Hypothesis Hpoly : 2 ^ (w - 1) <= poly < 2 ^ w.

Let top : 2 ^ w = 2 * 2 ^ (w - 1).
Proof. rewrite <- Z.pow_succ_r by lia. f_equal. lia. Qed.

Lemma lxor_range x y : 0 <= x < 2 ^ w -> 0 <= y < 2 ^ w -> 0 <= Z.lxor x y < 2 ^ w.
Proof.
  intros Hx Hy. split; [apply Z.lxor_nonneg; lia|].
  destruct (decide (Z.lxor x y = 0)) as [->|Hn]; [lia|].
  assert (0 <= Z.lxor x y) by (apply Z.lxor_nonneg; lia).
  apply Z.log2_lt_pow2; [lia|].
  eapply Z.le_lt_trans; [apply Z.log2_lxor; lia|].
  apply Z.max_lub_lt; [destruct (decide (x = 0)) as [->|]|destruct (decide (y = 0)) as [->|]];
    try (simpl; lia); apply Z.log2_lt_pow2; lia.
Qed.

Lemma crc_bit_range x : 0 <= x < 2 ^ w -> 0 <= crc_bit poly x < 2 ^ w.
Proof.
  intros Hx. unfold crc_bit. rewrite shiftr_1.
  destruct (negb _); [apply lxor_range|]; zdm.
Qed.

(** The step is injective: the top bit of the result tells which branch ran. *)
Lemma crc_bit_inv x :
  0 <= x < 2 ^ w ->
  x = if 2 ^ (w - 1) <=? crc_bit poly x
      then 2 * Z.lxor (crc_bit poly x) poly + 1 else 2 * crc_bit poly x.
Proof.
  intros Hx. unfold crc_bit.
  rewrite land_1, shiftr_1.
  assert (Hh : 0 <= x / 2 < 2 ^ (w - 1)) by zdm.
  destruct (x mod 2 =? 0) eqn:E; simpl; zbool.
  - rewrite (proj2 (Z.leb_gt _ _)) by lia. zdm.
  - rewrite (proj2 (Z.leb_le _ _)).
    + rewrite Z.lxor_assoc, Z.lxor_nilpotent, Z.lxor_0_r. zdm.
    + assert (H0 : 0 <= Z.lxor (x / 2) poly < 2 ^ w) by (apply lxor_range; lia).
      apply Z.nlt_ge. intros Hlt.
      assert (Hb : Z.testbit (Z.lxor (x / 2) poly) (w - 1) = false).
      { rewrite <- (Z.mod_small (Z.lxor _ _) (2 ^ (w - 1))) by lia.
        apply Z.mod_pow2_bits_high. lia. }
      rewrite Z.lxor_spec in Hb.
      rewrite <- (Z.mod_small (x / 2) (2 ^ (w - 1))) in Hb by lia.
      rewrite Z.mod_pow2_bits_high in Hb by lia.
      assert (Hp : Z.testbit poly (w - 1) = true).
      { rewrite Z.testbit_true by lia.
        replace (poly / 2 ^ (w - 1)) with 1; [done|].
        apply Z.div_unique with (poly - 2 ^ (w - 1)); lia. }
      rewrite Hp in Hb. done.
Qed.

Lemma crc_bits_range n x : 0 <= x < 2 ^ w -> 0 <= Nat.iter n (crc_bit poly) x < 2 ^ w.
Proof. intros Hx. induction n; simpl; [done|]. by apply crc_bit_range. Qed.

Lemma crc_bits_inj n x y :
  0 <= x < 2 ^ w -> 0 <= y < 2 ^ w ->
  Nat.iter n (crc_bit poly) x = Nat.iter n (crc_bit poly) y -> x = y.
Proof.
  intros Hx Hy. induction n as [|n IH]; simpl; [done|]. intros H. apply IH.
  rewrite (crc_bit_inv (Nat.iter n _ x)) by by apply crc_bits_range.
  rewrite (crc_bit_inv (Nat.iter n _ y)) by by apply crc_bits_range.
  by rewrite H.
Qed.

Lemma u8_range b : is_u8 b -> 0 <= b < 2 ^ w.
Proof.
  unfold is_u8. intros. assert (2 ^ 8 <= 2 ^ w) by (apply Z.pow_le_mono_r; lia). lia.
Qed.

Lemma crc_byte_range x b : 0 <= x < 2 ^ w -> is_u8 b -> 0 <= crc_byte poly x b < 2 ^ w.
Proof. intros. apply crc_bits_range, lxor_range; [done|by apply u8_range]. Qed.

Lemma crc_fold_range data x :
  0 <= x < 2 ^ w -> bytes_ok data -> 0 <= foldl (crc_byte poly) x data < 2 ^ w.
Proof.
  revert x. induction data as [|b data IH]; intros x Hx Hd; simpl; [done|].
  inversion Hd; subst. apply IH; [by apply crc_byte_range|done].
Qed.

(** For a fixed byte the step is injective in the register, ... *)
Lemma crc_byte_inj x y b :
  0 <= x < 2 ^ w -> 0 <= y < 2 ^ w -> is_u8 b ->
  crc_byte poly x b = crc_byte poly y b -> x = y.
Proof.
  intros Hx Hy Hb%u8_range H%crc_bits_inj; try by apply lxor_range.
  apply (f_equal (fun z => Z.lxor z b)) in H.
  by rewrite !Z.lxor_assoc, !Z.lxor_nilpotent, !Z.lxor_0_r in H.
Qed.

(** ... and for a fixed register it is injective in the byte. *)
Lemma crc_byte_inj_data x b c :
  0 <= x < 2 ^ w -> is_u8 b -> is_u8 c ->
  crc_byte poly x b = crc_byte poly x c -> b = c.
Proof.
  intros Hx Hb%u8_range Hc%u8_range H%crc_bits_inj; try by apply lxor_range.
  apply (f_equal (Z.lxor x)) in H.
  by rewrite <- !Z.lxor_assoc, !Z.lxor_nilpotent, !Z.lxor_0_l in H.
Qed.

Lemma crc_fold_inj data x y :
  0 <= x < 2 ^ w -> 0 <= y < 2 ^ w -> bytes_ok data ->
  foldl (crc_byte poly) x data = foldl (crc_byte poly) y data -> x = y.
Proof.
  revert x y. induction data as [|b data IH]; intros x y Hx Hy Hd H; simpl in *; [done|].
  inversion Hd; subst.
  apply (crc_byte_inj x y b); [done..|]. apply IH; try done; by apply crc_byte_range.
Qed.

(** A change confined to one byte changes the register. *)
Lemma crc_fold_detects x pre b c post :
  0 <= x < 2 ^ w -> bytes_ok (pre ++ b :: post) -> is_u8 c -> b <> c ->
  foldl (crc_byte poly) x (pre ++ b :: post) <> foldl (crc_byte poly) x (pre ++ c :: post).
Proof.
  intros Hx Hd Hc Hbc H. apply Hbc.
  apply Forall_app in Hd as [Hpre Hd]. inversion Hd; subst.
  rewrite !foldl_app in H. simpl in H.
  apply (crc_byte_inj_data (foldl (crc_byte poly) x pre)); [by apply crc_fold_range|done..|].
  eapply crc_fold_inj; [..|done|exact H]; apply crc_byte_range; try done; by apply crc_fold_range.
Qed.

(** A register whose low byte is clear is only shifted. *)
Lemma crc_bits_shift n x :
  (n <= 8)%nat -> Nat.iter n (crc_bit poly) (256 * x) = 2 ^ (8 - Z.of_nat n) * x.
Proof.
  intros Hn. induction n as [|n IH]; [done|].
  change (Nat.iter (S n) (crc_bit poly) (256 * x))
    with (crc_bit poly (Nat.iter n (crc_bit poly) (256 * x))).
  rewrite IH by lia. unfold crc_bit.
  replace (8 - Z.of_nat n) with (Z.succ (8 - Z.of_nat (S n))) by lia.
  rewrite Z.pow_succ_r by lia.
  set (k := 2 ^ (8 - Z.of_nat (S n))).
  rewrite land_1, shiftr_1, <- Z.mul_assoc, (Z.mul_comm 2), Z.mod_mul by lia. simpl.
  by rewrite Z.div_mul by lia.
Qed.

Lemma lxor_low_byte x : Z.lxor x (x mod 256) = 256 * (x / 256).
Proof.
  apply Z.bits_inj'. intros i Hi. rewrite Z.lxor_spec.
  change 256 with (2 ^ 8). rewrite Z.mul_comm.
  destruct (decide (i < 8)).
  - rewrite Z.mod_pow2_bits_low, Z.mul_pow2_bits_low by lia. apply xorb_nilpotent.
  - rewrite Z.mod_pow2_bits_high, Z.mul_pow2_bits, Z.div_pow2_bits by lia.
    rewrite xorb_false_r. f_equal. lia.
Qed.

Lemma crc_byte_low x : crc_byte poly x (x mod 256) = x / 256.
Proof.
  unfold crc_byte. rewrite lxor_low_byte, crc_bits_shift by lia. simpl Z.of_nat.
  change (2 ^ (8 - 8)) with 1. lia.
Qed.
End Register.

(** ** The three CRCs *)

(** Closed arithmetic side conditions ([2 ^ (16 - 1) <= 0xA001 < 2 ^ 16]). *)
Local Ltac zc := simpl; lia.

Lemma crc16_modbus_range data : bytes_ok data -> is_u16 (crc16_modbus data).
Proof. intros. apply (crc_fold_range 16); [zc|zc|zc|done]. Qed.

Lemma crc32_ieee_range data : bytes_ok data -> is_u32 (crc32_ieee data).
Proof.
  intros. apply (lxor_range 32); [zc| |zc]. apply (crc_fold_range 32); [zc|zc|zc|done].
Qed.

Lemma crc16_ccitt_seed_range data seed :
  bytes_ok data -> is_u16 seed -> is_u16 (crc16_ccitt_seed data seed).
Proof. intros. apply (crc_fold_range 16); [zc|zc|done|done]. Qed.

(** The seed can be told from the result. *)
Lemma crc16_ccitt_seed_inj data x y :
  bytes_ok data -> is_u16 x -> is_u16 y -> crc16_ccitt_seed data x = crc16_ccitt_seed data y -> x = y.
Proof. intros. apply (crc_fold_inj 16 0x8408) with data; [zc|zc|done|done|done|done]. Qed.


(** Chaining: the CRC of a concatenation is the CRC of the tail seeded with the
    CRC of the head. *)
Lemma crc16_ccitt_seed_app a b seed :
  crc16_ccitt_seed (a ++ b) seed = crc16_ccitt_seed b (crc16_ccitt_seed a seed).
Proof. apply foldl_app. Qed.

(** Appending the little-endian CRC brings the Modbus register to zero. *)
Lemma crc16_modbus_residue data :
  bytes_ok data ->
  crc16_modbus (data ++ [crc16_modbus data mod 256; crc16_modbus data / 256]) = 0.
Proof.
  intros Hd. pose proof (crc16_modbus_range data Hd) as Hr. unfold is_u16 in Hr.
  unfold crc16_modbus at 1. rewrite foldl_app. fold (crc16_modbus data). simpl.
  rewrite (crc_byte_low 16).
  set (h := crc16_modbus data / 256).
  replace h with (h mod 256) at 2 by (apply Z.mod_small; unfold h; zdm).
  rewrite (crc_byte_low 16). unfold h. zdm.
Qed.

(** A change confined to one byte changes each CRC. *)
Lemma crc16_modbus_detects pre b c post :
  bytes_ok (pre ++ b :: post) -> is_u8 c -> b <> c ->
  crc16_modbus (pre ++ b :: post) <> crc16_modbus (pre ++ c :: post).
Proof. intros. apply (crc_fold_detects 16); first [zc | done]. Qed.

Lemma crc32_ieee_detects pre b c post :
  bytes_ok (pre ++ b :: post) -> is_u8 c -> b <> c ->
  crc32_ieee (pre ++ b :: post) <> crc32_ieee (pre ++ c :: post).
Proof.
  intros Hd Hc Hbc H. apply (f_equal (fun z => Z.lxor z 0xFFFFFFFF)) in H.
  unfold crc32_ieee in H. rewrite !Z.lxor_assoc, !Z.lxor_nilpotent, !Z.lxor_0_r in H.
  revert H. apply (crc_fold_detects 32); first [zc | done].
Qed.

Lemma crc16_modbus_check_value : crc16_modbus (bs "123456789") = 0x4B37.
Proof. reflexivity. Qed.
Lemma crc32_ieee_check_value : crc32_ieee (bs "123456789") = 0xCBF43926.
Proof. reflexivity. Qed.
