(* ===== verification/TimeMath.v ===== *)
(** * Calendar arithmetic (crates/proto/src/time_math.rs)

    Hinnant's civil-date algorithms.  The reference definition is the Gregorian
    calendar itself, as the successor function [next_day]; the algorithms are
    compared with it through the year that starts in March, for every day a 32-bit
    unix time can name. *)
From S2P Require Import Prelude.

Definition TS_MIN : Z := 946684800.
Definition TS_MAX : Z := 4102444800.
Definition TS_DEFAULT : Z := 1577836800.

Definition ts_valid (ts : Z) : bool := (TS_MIN <=? ts) && (ts <=? TS_MAX).

Record Civil := mkCivil {
  year : Z; month : Z; day : Z; hour : Z; min : Z; sec : Z }.

#[export] Instance Civil_eq_dec : EqDecision Civil.
Proof. solve_decision. Defined.

(** [i64] division truncates: [Z.quot]. *)
Definition days_from_civil (y m d : Z) : Z :=
  let y := if m <=? 2 then y - 1 else y in
  let era := Z.quot (if 0 <=? y then y else y - 399) 400 in
  let yoe := y - era * 400 in
  let mp := (m + 9) mod 12 in
  let doy := Z.quot (153 * mp + 2) 5 + d - 1 in
  let doe := yoe * 365 + Z.quot yoe 4 - Z.quot yoe 100 + doy in
  era * 146097 + doe - 719468.

Definition civil_from_days (z : Z) : Z * Z * Z :=
  let z := z + 719468 in
  let era := Z.quot (if 0 <=? z then z else z - 146096) 146097 in
  let doe := z - era * 146097 in
  let yoe := Z.quot (doe - Z.quot doe 1460 + Z.quot doe 36524 - Z.quot doe 146096) 365 in
  let y := yoe + era * 400 in
  let doy := doe - (365 * yoe + Z.quot yoe 4 - Z.quot yoe 100) in
  let mp := Z.quot (5 * doy + 2) 153 in
  let d := as_u32 (doy - Z.quot (153 * mp + 2) 5 + 1) in
  let m := as_u32 (if mp <? 10 then mp + 3 else mp - 9) in
  ((if m <=? 2 then y + 1 else y), m, d).

Definition civil_to_unix (c : Civil) : Z :=
  let days := days_from_civil (year c) (month c) (day c) in
  as_u32 (days * 86400 + hour c * 3600 + min c * 60 + sec c).

Definition unix_to_civil (ts : Z) : Civil :=
  let days := ts / 86400 in
  let rem := ts mod 86400 in
  let '(y, m, d) := civil_from_days days in
  mkCivil (as_u16 y) (as_u8 m) (as_u8 d)
    (as_u8 (rem / 3600)) (as_u8 (rem mod 3600 / 60)) (as_u8 (rem mod 60)).

(** ** The Gregorian calendar *)
Definition leap_year (y : Z) : bool :=
  (y mod 4 =? 0) && (negb (y mod 100 =? 0) || (y mod 400 =? 0)).

Definition days_in_month (y m : Z) : Z :=
  if m =? 2 then (if leap_year y then 29 else 28)
  else if (m =? 4) || (m =? 6) || (m =? 9) || (m =? 11) then 30 else 31.

Definition valid_date (y m d : Z) : Prop :=
  1 <= m <= 12 /\ 1 <= d <= days_in_month y m.

Definition next_day (c : Z * Z * Z) : Z * Z * Z :=
  let '(y, m, d) := c in
  if d <? days_in_month y m then (y, m, d + 1)
  else if m <? 12 then (y, m + 1, 1) else (y + 1, 1, 1).

(** A 32-bit unix time names the days 0 .. 49710; the local-time offset of the
    history file names can reach day 49711. *)
Definition LAST_DAY : nat := Z.to_nat 49712.

(** ** Lemmas *)

(** The year of an era of 400 years, and the day of a year that starts in March. *)
Lemma doe_split doe : 0 <= doe < 146097 ->
  let yoe := (doe - doe / 1460 + doe / 36524 - doe / 146096) / 365 in
  let doy := doe - (365 * yoe + yoe / 4 - yoe / 100) in
  0 <= yoe <= 399 /\ 0 <= doy <= 365 /\ (doy = 365 -> yoe mod 4 = 3 /\ (yoe mod 100 <> 99 \/ yoe = 399)).
Proof. intros H yoe doy. unfold doy, yoe. clear doy yoe. split_and!; intros; zdm. Qed.

Lemma doe_join yoe doy : 0 <= yoe <= 399 -> 0 <= doy <= 365 -> (doy = 365 -> yoe mod 4 = 3 /\ (yoe mod 100 <> 99 \/ yoe = 399)) ->
  let doe := 365 * yoe + yoe / 4 - yoe / 100 + doy in
  0 <= doe < 146097 /\ (doe - doe / 1460 + doe / 36524 - doe / 146096) / 365 = yoe.
Proof. intros H1 H2 H3 doe. unfold doe. clear doe. zdm. Qed.

Definition md_of (doy : Z) : Z * Z :=
  let mp := (5 * doy + 2) / 153 in ((if mp <? 10 then mp + 3 else mp - 9), doy - (153 * mp + 2) / 5 + 1).
Definition doy_of (m d : Z) : Z := (153 * ((m + 9) mod 12) + 2) / 5 + d - 1.
(** Days in a month of a year that starts in March. *)
Definition month_len (m : Z) : Z := if m =? 2 then 29 else if (m =? 4) || (m =? 6) || (m =? 9) || (m =? 11) then 30 else 31.

Lemma months doy : 0 <= doy <= 365 ->
  let '(m, d) := md_of doy in 1 <= m <= 12 /\ 1 <= d <= month_len m /\ doy_of m d = doy /\ (m <= 2 <-> 306 <= doy) .
Proof.
  intros H. assert (forallZ 0 366 (fun doy => let '(m, d) := md_of doy in
    (1 <=? m) && (m <=? 12) && (1 <=? d) && (d <=? month_len m) && (doy_of m d =? doy) && Bool.eqb (m <=? 2) (306 <=? doy)) = true) as A by (vm_compute; reflexivity).
  pose proof (forallZ_spec _ _ _ A doy ltac:(lia)) as B. cbv beta in B. destruct (md_of doy) as [m d]. zbool. split_and!; try lia. 
Qed.

Lemma md_of_doy m d : 1 <= m <= 12 -> 1 <= d <= month_len m -> md_of (doy_of m d) = (m, d) /\ 0 <= doy_of m d <= 365.
Proof.
  intros Hm Hd. assert (forallZ 1 12 (fun m => forallZ 1 31 (fun d => (month_len m <? d) ||
    let '(m', d') := md_of (doy_of m d) in (m' =? m) && (d' =? d) && (0 <=? doy_of m d) && (doy_of m d <=? 365))) = true) as A by (vm_compute; reflexivity).
  assert (month_len m <= 31) by (unfold month_len; repeat case_match; lia).
  pose proof (forallZ_spec _ _ _ (forallZ_spec _ _ _ A m ltac:(lia)) d ltac:(lia)) as B. cbv beta in B.
  rewrite (proj2 (Z.ltb_ge _ _)) in B by lia. cbn [orb] in B. destruct (md_of (doy_of m d)) as [m' d']. zbool. split; [f_equal; lia|lia].
Qed.

Lemma civil_eq z : 0 <= z -> let z' := z + 719468 in let era := z' / 146097 in let doe := z' mod 146097 in
  let yoe := (doe - doe / 1460 + doe / 36524 - doe / 146096) / 365 in
  let doy := doe - (365 * yoe + yoe / 4 - yoe / 100) in
  let '(m, d) := md_of doy in civil_from_days z = ((if m <=? 2 then yoe + era * 400 + 1 else yoe + era * 400), m, d).
Proof.
  intros Hz z' era doe yoe doy. unfold civil_from_days. fold z'. rewrite (proj2 (Z.leb_le 0 z')) by (unfold z'; lia).
  rewrite (Z.quot_div_nonneg z') by (unfold z'; lia). fold era.
  assert (z' - era * 146097 = doe) as -> by (unfold doe, era; zdm).
  assert (0 <= doe < 146097) as Hd by (unfold doe; zdm). destruct (doe_split doe Hd) as (H1 & H2 & _). fold yoe in H1, H2. fold doy in H2.
  rewrite !(Z.quot_div_nonneg doe) by lia. rewrite (Z.quot_div_nonneg (doe - _ + _ - _)) by (clear -Hd; zdm). fold yoe.
  rewrite !(Z.quot_div_nonneg yoe) by lia. fold doy. rewrite (Z.quot_div_nonneg (5 * doy + 2)) by lia.
  pose proof (months doy H2) as M. unfold md_of in *. cbv zeta in M. set (mp := (5 * doy + 2) / 153) in *.
  assert (0 <= mp) by (apply Z.div_pos; lia). rewrite (Z.quot_div_nonneg (153 * mp + 2)) by lia.
  destruct M as (M1 & M2 & _). assert (month_len (if mp <? 10 then mp + 3 else mp - 9) <= 31) by (unfold month_len; repeat case_match; lia).
  unfold as_u32. rewrite !(Z.mod_small _ 4294967296) by lia. done.
Qed.

Lemma days_eq y m d : 1 <= y -> 1 <= m <= 12 -> let y' := if m <=? 2 then y - 1 else y in
  days_from_civil y m d = y' / 400 * 146097 + (365 * (y' mod 400) + y' mod 400 / 4 - y' mod 400 / 100 + doy_of m d) - 719468.
Proof.
  intros Hy Hm y'. unfold days_from_civil, doy_of. fold y'. assert (0 <= y') by (unfold y'; case_match; lia).
  rewrite (proj2 (Z.leb_le 0 y')) by lia. rewrite (Z.quot_div_nonneg y') by lia.
  assert (y' - y' / 400 * 400 = y' mod 400) as -> by zdm. assert (0 <= y' mod 400) by zdm. assert (0 <= (m + 9) mod 12) by zdm.
  rewrite !(Z.quot_div_nonneg (y' mod 400)) by lia. rewrite (Z.quot_div_nonneg (153 * ((m + 9) mod 12) + 2)) by lia. lia.
Qed.

Lemma leap_spec y : leap_year y = true <-> y mod 4 = 0 /\ (y mod 100 <> 0 \/ y mod 400 = 0).
Proof. unfold leap_year. zbool. lia. Qed.

(** The leap day closes the year that starts in March. *)
Lemma leap_day y : 1 <= y -> leap_year y = true <-> (y - 1) mod 400 mod 4 = 3 /\ ((y - 1) mod 400 mod 100 <> 99 \/ (y - 1) mod 400 = 399).
Proof. intros Hy. rewrite leap_spec. split; intros; zdm. Qed.

Lemma month_len_max y m : days_in_month y m <= month_len m /\ (m <> 2 -> days_in_month y m = month_len m) /\ (leap_year y = true -> days_in_month y m = month_len m).
Proof. unfold days_in_month, month_len. destruct (m =? 2) eqn:E; [|done]. split; [by case_match|]. split; [lia|by intros ->]. Qed.

Lemma doy_365 m d : 1 <= m <= 12 -> 1 <= d <= month_len m -> doy_of m d = 365 <-> m = 2 /\ d = 29.
Proof.
  intros Hm Hd. split; [|by intros [-> ->]]. intros E. destruct (md_of_doy m d Hm Hd) as [H _]. rewrite E in H. vm_compute in H. by injection H as <- <-.
Qed.

Lemma civil_of_days y m d : 1 <= y -> valid_date y m d -> 0 <= days_from_civil y m d -> civil_from_days (days_from_civil y m d) = (y, m, d).
Proof.
  intros Hy [Hm Hd] Hz. destruct (month_len_max y m) as (L1 & L2 & L3). destruct (md_of_doy m d Hm ltac:(lia)) as [M1 M2].
  pose proof (civil_eq _ Hz) as C. rewrite (days_eq y m d Hy Hm) in C |- *. cbv zeta in C. set (y' := if m <=? 2 then y - 1 else y) in *.
  assert (0 <= y' mod 400 <= 399) as Hr by zdm.
  destruct (doe_join (y' mod 400) (doy_of m d) Hr M2) as [J1 J2].
  { intros E. apply doy_365 in E as [-> ->]; [|lia..]. apply leap_day; [lia|]. change (days_in_month y 2) with (if leap_year y then 29 else 28) in Hd.
    destruct (leap_year y); [done|lia]. }
  set (doe := 365 * (y' mod 400) + y' mod 400 / 4 - y' mod 400 / 100 + doy_of m d) in *.
  assert ((y' / 400 * 146097 + doe - 719468 + 719468) / 146097 = y' / 400 /\ (y' / 400 * 146097 + doe - 719468 + 719468) mod 146097 = doe) as [E1 E2] by (clear -J1; zdm).
  rewrite E1, E2, J2 in C. replace (doe - _) with (doy_of m d) in C by (unfold doe; lia). rewrite M1 in C. rewrite C.
  f_equal. f_equal. unfold y'. destruct (m <=? 2); zdm.
Qed.

Lemma feb_end y : 1 <= y -> days_from_civil y (2 + 1) 1 = days_from_civil y 2 (days_in_month y 2) + 1.
Proof.
  intros Hy. rewrite !days_eq by lia. change (2 + 1 <=? 2) with false. change (2 <=? 2) with true. cbv iota zeta.
  change (doy_of (2 + 1) 1) with 0. change (days_in_month y 2) with (if leap_year y then 29 else 28).
  pose proof (leap_day y Hy) as Hl. destruct (leap_year y).
  - destruct (proj1 Hl eq_refl) as [Ha Hb]. change (doy_of 2 29) with 365. clear Hl. zdm.
  - assert (~ ((y - 1) mod 400 mod 4 = 3 /\ ((y - 1) mod 400 mod 100 <> 99 \/ (y - 1) mod 400 = 399))) as Hn by (intros F; by apply Hl in F).
    change (doy_of 2 28) with 364. clear Hl. zdm.
Qed.

Lemma days_next y m d : 1 <= y -> valid_date y m d ->
  let '(y', m', d') := next_day (y, m, d) in valid_date y' m' d' /\ 1 <= y' /\ days_from_civil y' m' d' = days_from_civil y m d + 1.
Proof.
  intros Hy [Hm Hd]. unfold next_day. destruct (Z.ltb_spec d (days_in_month y m)) as [Hlt|Hge].
  - split; [split; lia|]. split; [lia|]. rewrite !days_eq by lia. unfold doy_of. lia.
  - assert (d = days_in_month y m) as -> by lia. destruct (Z.ltb_spec m 12) as [H12|H12].
    + assert (1 <= days_in_month y (m + 1)) by (unfold days_in_month; repeat case_match; lia).
      split; [split; lia|]. split; [lia|].
      destruct (decide (m = 2)) as [->|Hm2]; [exact (feb_end y Hy)|]. rewrite !days_eq by lia.
      rewrite (proj1 (proj2 (month_len_max y m))) by done.
      assert (m = 1 \/ m = 3 \/ m = 4 \/ m = 5 \/ m = 6 \/ m = 7 \/ m = 8 \/ m = 9 \/ m = 10 \/ m = 11) as Hc by lia.
      assert (doy_of (m + 1) 1 = doy_of m (month_len m) + 1 /\ (m + 1 <=? 2) = (m <=? 2)) as [-> ->]; [|lia].
      clear -Hc. repeat destruct Hc as [-> |Hc]; try subst m; split; reflexivity.
    + assert (m = 12) as -> by lia. split; [split; [lia|done]|]. split; [lia|]. rewrite !days_eq by lia.
      change (12 <=? 2) with false. change (1 <=? 2) with true. cbv iota. replace (y + 1 - 1) with y by lia. change (days_in_month y 12) with 31.
      change (doy_of 1 1) with 306. change (doy_of 12 31) with 305. lia.
Qed.

Lemma civil_from_days_facts z y m d :
  0 <= z < 49712 -> civil_from_days z = (y, m, d) ->
  days_from_civil y m d = z /\ civil_from_days (z + 1) = next_day (y, m, d) /\
  1970 <= y <= 2106 /\ valid_date y m d.
Proof.
  intros Hz E. pose proof (civil_eq z ltac:(lia)) as C. cbv zeta in C. set (doe := (z + 719468) mod 146097) in *. set (era := (z + 719468) / 146097) in *.
  assert (0 <= doe < 146097) as Hd by (unfold doe; zdm). assert (4 <= era <= 5) as He by (unfold era; zdm).
  destruct (doe_split doe Hd) as (H1 & H2 & H3). set (yoe := (doe - doe / 1460 + doe / 36524 - doe / 146096) / 365) in *.
  set (doy := doe - (365 * yoe + yoe / 4 - yoe / 100)) in *. pose proof (months doy H2) as M. destruct (md_of doy) as [m0 d0].
  rewrite E in C. injection C as -> -> ->. destruct M as (M1 & M2 & M3 & M4).
  set (y0 := if m0 <=? 2 then yoe + era * 400 + 1 else yoe + era * 400) in *.
  assert ((if m0 <=? 2 then y0 - 1 else y0) = yoe + era * 400) as Hy' by (unfold y0; case_match; lia).
  assert (1 <= y0) as Hy0 by (unfold y0; case_match; lia).
  assert (days_from_civil y0 m0 d0 = z) as F.
  { rewrite days_eq by done. cbv zeta. rewrite Hy', M3. assert ((yoe + era * 400) / 400 = era /\ (yoe + era * 400) mod 400 = yoe) as [-> ->] by (clear -H1; zdm).
    unfold doy, doe, era. zdm. }
  assert (valid_date y0 m0 d0) as V.
  { split; [done|]. split; [lia|]. destruct (month_len_max y0 m0) as (L1 & L2 & L3). destruct (decide (m0 = 2)) as [->|Hm]; [|rewrite L2 by done; lia].
    destruct (leap_year y0) eqn:El; [rewrite L3 by done; lia|]. change (days_in_month y0 2) with (if leap_year y0 then 29 else 28). rewrite El.
    assert (d0 <> 29); [|cbn in M2; lia]. intros ->. change (doy_of 2 29) with 365 in M3.
    destruct (H3 (eq_sym M3)) as [Ha Hb]. assert (leap_year y0 = true); [|congruence]. apply leap_day; [done|].
    change (2 <=? 2) with true in Hy'. cbv iota in Hy'. rewrite Hy'. assert ((yoe + era * 400) mod 400 = yoe) as -> by (clear -H1; zdm). done. }
  split; [done|]. split; [|split; [|done]].
  - pose proof (days_next y0 m0 d0 Hy0 V) as N. destruct (next_day (y0, m0, d0)) as [[y1 m1] d1]. destruct N as (N1 & N2 & N3).
    rewrite <- F, <- N3. apply civil_of_days; [done|done|lia].
  - clear E V. unfold y0. destruct (Z.leb_spec m0 2); unfold doy, yoe, doe, era in *; clear -Hz H M4; zdm.
Qed.

Lemma civil_from_days_spec n :
  (n <= LAST_DAY)%nat -> civil_from_days (Z.of_nat n) = Nat.iter n next_day (1970, 1, 1).
Proof.
  intros Hn. induction n as [|n IH]; [reflexivity|].
  change (Nat.iter (S n) next_day (1970, 1, 1)) with (next_day (Nat.iter n next_day (1970, 1, 1))).
  rewrite <- IH by lia. destruct (civil_from_days (Z.of_nat n)) as [[y m] d] eqn:E.
  assert (H49 : 0 <= Z.of_nat n < 49712) by (unfold LAST_DAY in Hn; lia).
  destruct (civil_from_days_facts _ _ _ _ H49 E) as (_ & H & _).
  rewrite <- H. f_equal. lia.
Qed.

Lemma days_in_month_le y m : days_in_month y m <= 31.
Proof. unfold days_in_month. repeat case_match; lia. Qed.

(** The casts of [unix_to_civil] lose nothing. *)
Lemma unix_to_civil_fields ts :
  is_u32 ts ->
  let c := unix_to_civil ts in
  (year c, month c, day c) = civil_from_days (ts / 86400) /\
  hour c = ts mod 86400 / 3600 /\ min c = ts mod 3600 / 60 /\ sec c = ts mod 60.
Proof.
  intros Hts c. unfold is_u32 in Hts. unfold c, unix_to_civil.
  destruct (civil_from_days (ts / 86400)) as [[y m] d] eqn:E. simpl.
  destruct (civil_from_days_facts (ts / 86400) y m d ltac:(zdm) E) as (_ & _ & Hy & Hm & Hd).
  pose proof (days_in_month_le y m).
  unfold as_u16, as_u8. rewrite !Z.mod_small by zdm. repeat split; zdm.
Qed.

(** C39: conversion to the civil calendar and back is the identity on every 32-bit
    unix time, and the date it goes through is a valid Gregorian date, the one
    reached by counting days from 1970-01-01. *)
Theorem unix_civil_roundtrip ts :
  is_u32 ts ->
  let c := unix_to_civil ts in
  civil_to_unix c = ts /\
  (year c, month c, day c) = Nat.iter (Z.to_nat (ts / 86400)) next_day (1970, 1, 1) /\
  valid_date (year c) (month c) (day c) /\
  0 <= hour c < 24 /\ 0 <= min c < 60 /\ 0 <= sec c < 60.
Proof.
  intros Hts c. destruct (unix_to_civil_fields ts Hts) as (Hd & Hh & Hm & Hs).
  fold c in Hd, Hh, Hm, Hs. unfold is_u32 in Hts.
  destruct (civil_from_days_facts (ts / 86400) _ _ _ ltac:(zdm) (eq_sym Hd)) as (H1 & _ & _ & H4).
  split; [|split; [|split; [done|rewrite Hh, Hm, Hs; zdm]]].
  - unfold civil_to_unix. rewrite H1, Hh, Hm, Hs. unfold as_u32.
    rewrite Z.mod_small; zdm.
  - rewrite Hd, <- civil_from_days_spec by (unfold LAST_DAY; zdm). f_equal. zdm.
Qed.

Lemma unix_civil_roundtrip_witness :
  is_u32 1709208000 /\ civil_to_unix (unix_to_civil 1709208000) = 1709208000.
Proof.
  split; [unfold is_u32; lia|].
  apply (unix_civil_roundtrip 1709208000 ltac:(unfold is_u32; lia)).
Defined.

(** The window accepted by [ts_valid] is closed: its last instant is in 2100. *)
Lemma ts_max_is_2100 :
  ts_valid TS_MAX = true /\ unix_to_civil TS_MAX = mkCivil 2100 1 1 0 0 0.
Proof. split; reflexivity. Qed.
