(* ===== verification/RegMap.v ===== *)
(** * Register map (crates/proto/src/regmap.rs)

    The single source of truth for parameters and sampled data.  The side
    effects of a write go through the trait [RegHooks], here a class over the
    state the hooks act on; [io_write_holding] and [io_write_do_bit] are the
    two operations every write path of the firmware ends in. *)
From S2P Require Import Prelude.

Definition DI_NUM : Z := 16.
Definition DO_NUM : Z := 8.
Definition AI_NUM : Z := 4.

Definition MODBUS_HOLDING_REGISTER_NUMBERS : nat := 18.
Definition MODBUS_INPUT_REGISTER_NUMBERS : nat := 6.

Definition INPUT_VER_IDX : nat := 0.
Definition INPUT_AI0_IDX : nat := 1.
Definition INPUT_AI1_IDX : nat := 2.
Definition INPUT_AI2_IDX : nat := 3.
Definition INPUT_AI3_IDX : nat := 4.
Definition INPUT_DI_IDX : nat := 5.

Definition HOLDING_DO_IDX : nat := 0.
Definition HOLDING_DI_ENABLE_IDX : nat := 1.
Definition HOLDING_AI_ENABLE_IDX : nat := 2.
Definition HOLDING_DI_SAMPLE_MS_IDX : nat := 3.
Definition HOLDING_AI_SAMPLE_MS_IDX : nat := 4.
Definition HOLDING_HISTORY_ENABLE_IDX : nat := 5.
Definition HOLDING_CAN_ID_IDX : nat := 6.
Definition HOLDING_CAN_BAUDRATE_IDX : nat := 7.
Definition HOLDING_RS485_BAUDRATE_IDX : nat := 8.
Definition HOLDING_SLAVE_ID_IDX : nat := 9.
Definition HOLDING_IP_OCTET1_IDX : nat := 10.
Definition HOLDING_IP_OCTET2_IDX : nat := 11.
Definition HOLDING_IP_OCTET3_IDX : nat := 12.
Definition HOLDING_IP_OCTET4_IDX : nat := 13.
Definition HOLDING_TIMESTAMP_HI_IDX : nat := 14.
Definition HOLDING_TIMESTAMP_LO_IDX : nat := 15.
Definition HOLDING_CONFIG_SAVE_IDX : nat := 16.
Definition HOLDING_REBOOT_IDX : nat := 17.

(** The trait [RegHooks]: each hook takes and returns the state it acts on. *)
Class RegHooks (H : Type) := {
  set_do : Z -> H -> H;
  history_enable_write : bool -> H -> H;
  set_timestamp : Z -> H -> bool * H;
  holding_save : H -> H;
  history_sync : H -> H;
  reboot_cold : H -> H;
  now_epoch : H -> Z
}.

(** [NoHooks]: the defaults of the trait. *)
#[export] Instance NoHooks : RegHooks unit := {|
  set_do := fun _ h => h;
  history_enable_write := fun _ h => h;
  set_timestamp := fun _ h => (false, h);
  holding_save := fun h => h;
  history_sync := fun h => h;
  reboot_cold := fun h => h;
  now_epoch := fun _ => 0
|}.

Record RegMap := mkRegMap { holding : list Z; input : list Z }.

#[export] Instance RegMap_eq_dec : EqDecision RegMap.
Proof. solve_decision. Defined.

Definition set_holding (f : list Z -> list Z) (r : RegMap) : RegMap :=
  mkRegMap (f (holding r)) (input r).
Definition set_input (f : list Z -> list Z) (r : RegMap) : RegMap :=
  mkRegMap (holding r) (f (input r)).

Definition RegMap_new (version_reg : Z) : RegMap :=
  let h := replicate MODBUS_HOLDING_REGISTER_NUMBERS 0 in
  let h := <[HOLDING_DI_ENABLE_IDX := 0xFFFF]> h in
  let h := <[HOLDING_AI_ENABLE_IDX := 0x000F]> h in
  let h := <[HOLDING_DI_SAMPLE_MS_IDX := 200]> h in
  let h := <[HOLDING_AI_SAMPLE_MS_IDX := 200]> h in
  let h := <[HOLDING_CAN_ID_IDX := 0x0111]> h in
  let h := <[HOLDING_CAN_BAUDRATE_IDX := 250]> h in
  let h := <[HOLDING_RS485_BAUDRATE_IDX := 9600]> h in
  let h := <[HOLDING_SLAVE_ID_IDX := 1]> h in
  let h := <[HOLDING_IP_OCTET1_IDX := 192]> h in
  let h := <[HOLDING_IP_OCTET2_IDX := 168]> h in
  let h := <[HOLDING_IP_OCTET3_IDX := 12]> h in
  let h := <[HOLDING_IP_OCTET4_IDX := 101]> h in
  let i := <[INPUT_VER_IDX := version_reg]> (replicate MODBUS_INPUT_REGISTER_NUMBERS 0) in
  mkRegMap h i.

Definition get_holding (r : RegMap) (addr : Z) : Z := default 0 (holding r !! Z.to_nat addr).

Definition get_input (r : RegMap) (addr : Z) : Z := default 0 (input r !! Z.to_nat addr).

Definition update_holding (addr reg : Z) (r : RegMap) : result unit * RegMap :=
  match holding r !! Z.to_nat addr with
  | None => (Err, r)
  | Some _ => (Ok tt, set_holding (<[Z.to_nat addr := reg]>) r)
  end.

Definition update_input (addr reg : Z) (r : RegMap) : result unit * RegMap :=
  match input r !! Z.to_nat addr with
  | None => (Err, r)
  | Some _ => (Ok tt, set_input (<[Z.to_nat addr := reg]>) r)
  end.

Section Hooked.
Context {H : Type} `{!RegHooks H}.

Definition io_read_holding (r : RegMap) (addr : Z) (hooks : H) : Z :=
  if (Z.to_nat addr =? HOLDING_TIMESTAMP_HI_IDX)%nat then as_u16 (Z.shiftr (now_epoch hooks) 16)
  else if (Z.to_nat addr =? HOLDING_TIMESTAMP_LO_IDX)%nat then as_u16 (now_epoch hooks)
  else get_holding r addr.

Definition io_write_holding (addr reg : Z) (r : RegMap) (hooks : H)
    : result unit * RegMap * H :=
  match holding r !! Z.to_nat addr with
  | None => (Err, r, hooks)
  | Some a =>
      if a =? reg then (Ok tt, r, hooks) else
      let i := Z.to_nat addr in
      let r := set_holding (<[i := reg]>) r in
      if (i =? HOLDING_DO_IDX)%nat then (Ok tt, r, set_do (as_u8 reg) hooks)
      else if (i =? HOLDING_SLAVE_ID_IDX)%nat then (Ok tt, r, hooks)
      else if (i =? HOLDING_HISTORY_ENABLE_IDX)%nat then
        (Ok tt, r, history_enable_write (negb (reg =? 0)) hooks)
      else if (i =? HOLDING_TIMESTAMP_LO_IDX)%nat then
        let ts := Z.lor (as_u32 (Z.shiftl (holding r !!! HOLDING_TIMESTAMP_HI_IDX) 16)) reg in
        (Ok tt, r, snd (set_timestamp ts hooks))
      else if (i =? HOLDING_CONFIG_SAVE_IDX)%nat then
        let r := set_holding (<[i := 0]>) r in
        (Ok tt, r, holding_save hooks)
      else if (i =? HOLDING_REBOOT_IDX)%nat then
        let r := set_holding (<[i := 0]>) r in
        if negb (reg =? 0) then (Ok tt, r, reboot_cold (history_sync hooks))
        else (Ok tt, r, hooks)
      else (Ok tt, r, hooks)
  end.

Definition io_write_do_bit (bit : Z) (state : bool) (r : RegMap) (hooks : H)
    : result unit * RegMap * H :=
  if DO_NUM <=? bit then (Err, r, hooks) else
  let val := holding r !!! HOLDING_DO_IDX in
  let val := if state then Z.lor val (Z.shiftl 1 bit)
             else Z.land val (not_u16 (Z.shiftl 1 bit)) in
  let hooks := set_do (as_u8 val) hooks in
  (Ok tt, set_holding (<[HOLDING_DO_IDX := Z.land val 0xFF]>) r, hooks).
End Hooked.

Definition io_coil_rd (r : RegMap) (addr : Z) : result bool :=
  if DO_NUM <=? addr then Err
  else Ok (negb (Z.land (Z.shiftr (holding r !!! HOLDING_DO_IDX) addr) 1 =? 0)).

Definition io_discrete_rd (r : RegMap) (addr : Z) : result bool :=
  if DI_NUM <=? addr then Err
  else Ok (negb (Z.land (Z.shiftr (input r !!! INPUT_DI_IDX) addr) 1 =? 0)).

Definition ip_octets (r : RegMap) : list Z :=
  [as_u8 (holding r !!! HOLDING_IP_OCTET1_IDX);
   as_u8 (holding r !!! (HOLDING_IP_OCTET1_IDX + 1)%nat);
   as_u8 (holding r !!! (HOLDING_IP_OCTET1_IDX + 2)%nat);
   as_u8 (holding r !!! (HOLDING_IP_OCTET1_IDX + 3)%nat)].

Definition ip_addr_valid (a b c d : Z) : bool :=
  if (d =? 0) || (d =? 0xFF) then false
  else if (a =? 0) || (a =? 127) || (224 <=? a) then false
  else true.

(** ** Invariant

    Fixed sizes, every word a [u16], and the two command registers
    (CONFIG_SAVE, REBOOT) always read back as zero. *)
Definition reg_wf (r : RegMap) : Prop :=
  length (holding r) = MODBUS_HOLDING_REGISTER_NUMBERS /\ words_ok (holding r) /\
  length (input r) = MODBUS_INPUT_REGISTER_NUMBERS /\ words_ok (input r).

Definition reg_inv (r : RegMap) : Prop :=
  reg_wf r /\
  holding r !! HOLDING_CONFIG_SAVE_IDX = Some 0 /\ holding r !! HOLDING_REBOOT_IDX = Some 0.

(** ** The write hooks as events

    What a write asks of the hooks depends on the registers and the request
    only.  [apply_event] runs one request on a hook state; [write_effect] and
    [do_effect] compute the new registers and the events of a write. *)
Inductive event :=
| EvSetDo (v : Z)
| EvHistory (en : bool)
| EvSetTime (ts : Z)
| EvSave
| EvSync
| EvReboot.

Definition apply_event {H} `{!RegHooks H} (h : H) (e : event) : H :=
  match e with
  | EvSetDo v => set_do v h
  | EvHistory en => history_enable_write en h
  | EvSetTime ts => snd (set_timestamp ts h)
  | EvSave => holding_save h
  | EvSync => history_sync h
  | EvReboot => reboot_cold h
  end.

Definition apply_events {H} `{!RegHooks H} (h : H) (es : list event) : H :=
  foldl apply_event h es.

(** A hook state that records every request, for concrete runs. *)
Record Trace := mkTrace { trace_events : list event; trace_epoch : Z }.

Definition record_event (e : event) (t : Trace) : Trace :=
  mkTrace (trace_events t ++ [e]) (trace_epoch t).

#[export] Instance TraceHooks : RegHooks Trace := {|
  set_do := fun v => record_event (EvSetDo v);
  history_enable_write := fun en => record_event (EvHistory en);
  set_timestamp := fun ts t => (true, record_event (EvSetTime ts) t);
  holding_save := record_event EvSave;
  history_sync := record_event EvSync;
  reboot_cold := record_event EvReboot;
  now_epoch := trace_epoch
|}.

(** What a write leaves in its register, and what it asks of the hooks. *)
Definition stored (i : nat) (reg : Z) : Z :=
  if decide (i = HOLDING_CONFIG_SAVE_IDX \/ i = HOLDING_REBOOT_IDX) then 0 else reg.

Definition write_events (r : RegMap) (i : nat) (reg : Z) : list event :=
  if decide (holding r !! i = Some reg) then [] else
  if decide (i = HOLDING_DO_IDX) then [EvSetDo (reg mod 256)]
  else if decide (i = HOLDING_HISTORY_ENABLE_IDX) then [EvHistory (negb (reg =? 0))]
  else if decide (i = HOLDING_TIMESTAMP_LO_IDX) then
    [EvSetTime (65536 * (holding r !!! HOLDING_TIMESTAMP_HI_IDX) + reg)]
  else if decide (i = HOLDING_CONFIG_SAVE_IDX) then [EvSave]
  else if decide (i = HOLDING_REBOOT_IDX) then
    if reg =? 0 then [] else [EvSync; EvReboot]
  else [].

Definition do_value (val bit : Z) (state : bool) : Z :=
  (if state then Z.setbit val bit else Z.clearbit val bit) mod 256.

(** ** Lemmas *)

Lemma set_holding_holding f r : holding (set_holding f r) = f (holding r).
Proof. done. Qed.
Lemma set_holding_input f r : input (set_holding f r) = input r.
Proof. done. Qed.
#[export] Hint Rewrite set_holding_holding set_holding_input : lens.

Lemma holding_word r i : reg_wf r -> is_u16 (holding r !!! i).
Proof.
  intros (_ & Hw & _). rewrite list_lookup_total_alt.
  destruct (holding r !! i) as [v|] eqn:E; simpl.
  - by eapply Forall_lookup_1.
  - unfold is_u16. simpl. lia.
Qed.

Lemma get_holding_u16 r a : reg_wf r -> is_u16 (get_holding r a).
Proof.
  intros (_ & Hw & _). unfold get_holding. destruct (holding r !! Z.to_nat a) eqn:E; cbn.
  - by eapply Forall_lookup_1.
  - unfold is_u16; lia.
Qed.

Lemma get_input_u16 r a : reg_wf r -> is_u16 (get_input r a).
Proof.
  intros (_ & _ & _ & Hw). unfold get_input. destruct (input r !! Z.to_nat a) eqn:E; cbn.
  - by eapply Forall_lookup_1.
  - unfold is_u16; lia.
Qed.

Lemma reg_wf_insert r i v : reg_wf r -> is_u16 v -> reg_wf (set_holding (<[i := v]>) r).
Proof.
  intros (Hl & Hw & Hi) Hv. split; [|split; [|done]]; simpl.
  - by rewrite length_insert.
  - by apply Forall_insert.
Qed.

Lemma RegMap_new_inv v : is_u16 v -> reg_inv (RegMap_new v).
Proof.
  intros Hv. unfold is_u16 in Hv.
  split; [|done]. repeat split; unfold words_ok, is_u16; simpl; repeat constructor; lia.
Qed.

Lemma ts_concat hi lo :
  is_u16 hi -> is_u16 lo -> Z.lor (as_u32 (Z.shiftl hi 16)) lo = 65536 * hi + lo.
Proof.
  unfold is_u16. intros Hh Hl.
  rewrite as_u32_id by (unfold is_u32; rewrite Z.shiftl_mul_pow2 by lia; lia).
  rewrite (lor_shiftl_add hi lo 16) by lia. lia.
Qed.

Lemma clear_mask_bit b n :
  0 <= b < 8 -> 0 <= n < 8 -> Z.testbit (not_u16 (Z.shiftl 1 b)) n = negb (b =? n).
Proof.
  intros Hb Hn.
  assert (forallZ 0 8 (fun b => forallZ 0 8 (fun n =>
    Bool.eqb (Z.testbit (not_u16 (Z.shiftl 1 b)) n) (negb (b =? n)))) = true) as C by done.
  apply (forallZ_spec 0 8 _ C b) in Hb.
  apply (forallZ_spec 0 8 _ Hb n) in Hn. by apply eqb_prop in Hn.
Qed.

Section HookedLemmas.
Context {H : Type} `{!RegHooks H}.

Lemma io_write_holding_oob addr reg r (h : H) :
  reg_wf r -> 18 <= addr -> io_write_holding addr reg r h = (Err, r, h).
Proof.
  intros (Hl & _) Ha. unfold io_write_holding.
  rewrite lookup_ge_None_2; [done|]. rewrite Hl. unfold MODBUS_HOLDING_REGISTER_NUMBERS. lia.
Qed.

Lemma io_write_holding_eq addr reg r (h : H) :
  reg_inv r -> 0 <= addr < 18 -> is_u16 reg ->
  io_write_holding addr reg r h =
    (Ok tt, set_holding (<[Z.to_nat addr := stored (Z.to_nat addr) reg]>) r,
     apply_events h (write_events r (Z.to_nat addr) reg)).
Proof.
  intros (Hwf & Hsave & Hreboot) Ha Hr. pose proof Hwf as (Hl & _).
  unfold io_write_holding, write_events, stored.
  destruct (lookup_lt_is_Some_2 (holding r) (Z.to_nat addr)) as [a Ea].
  { rewrite Hl. unfold MODBUS_HOLDING_REGISTER_NUMBERS. lia. }
  rewrite Ea. destruct (Z.eqb_spec a reg) as [->|Hne].
  - rewrite (decide_True (P := Some reg = Some reg)) by done.
    replace (if decide _ then 0 else reg) with reg.
    2:{ case_decide as D; [|done]. destruct D as [D|D]; rewrite D in Ea; congruence. }
    destruct r; unfold set_holding; simpl in *. by rewrite list_insert_id.
  - rewrite (decide_False (P := Some a = Some reg)) by congruence.
    set (i := Z.to_nat addr) in *.
    assert (i < 18)%nat as Hi by lia. clearbody i. clear Ea.
    pose proof (ts_concat (holding r !!! HOLDING_TIMESTAMP_HI_IDX) reg
      (holding_word _ _ Hwf) Hr) as Hts.
    do 18 try (destruct i as [|i];
      [unfold as_u8; simpl; unfold set_holding; simpl; try done|]); try lia.
    + rewrite list_lookup_total_insert_ne by done. by rewrite Hts.
    + by rewrite list_insert_insert_eq.
    + rewrite list_insert_insert_eq. by destruct (reg =? 0).
Qed.

Lemma io_write_holding_cases addr reg r (h : H) :
  reg_inv r -> 0 <= addr -> is_u16 reg ->
  (io_write_holding addr reg r h = (Err, r, h) /\ 18 <= addr) \/
  (exists r', io_write_holding addr reg r h =
     (Ok tt, r', apply_events h (write_events r (Z.to_nat addr) reg)) /\
     r' = set_holding (<[Z.to_nat addr := stored (Z.to_nat addr) reg]>) r /\
     reg_inv r' /\ addr < 18).
Proof.
  intros Hinv Ha Hr. destruct (decide (addr < 18)).
  - right. eexists. split; [by apply io_write_holding_eq|]. split; [done|]. split; [|done].
    destruct Hinv as (Hwf & Hs & Hb).
    assert (is_u16 (stored (Z.to_nat addr) reg)) as Hst.
    { unfold stored. case_decide; [unfold is_u16; lia|done]. }
    split; [by apply reg_wf_insert|]. simpl.
    destruct Hwf as (Hl & _). unfold MODBUS_HOLDING_REGISTER_NUMBERS in Hl.
    split; rewrite list_lookup_insert; case_decide as D; auto;
      destruct D as [D _]; unfold stored; rewrite decide_True by auto; done.
  - left. split; [|lia]. apply io_write_holding_oob; [apply Hinv|lia].
Qed.

Lemma io_write_do_bit_eq bit state r (h : H) :
  reg_wf r -> 0 <= bit < 8 ->
  io_write_do_bit bit state r h =
    (Ok tt, set_holding (<[HOLDING_DO_IDX := do_value (holding r !!! HOLDING_DO_IDX) bit state]>) r,
     set_do (do_value (holding r !!! HOLDING_DO_IDX) bit state) h).
Proof.
  intros Hwf Hb. unfold io_write_do_bit, DO_NUM, do_value, as_u8.
  rewrite (proj2 (Z.leb_gt 8 bit)) by lia.
  set (v := holding r !!! HOLDING_DO_IDX).
  assert (forall w, Z.land w 0xFF = w mod 256) as -> by (intros; apply land_255).
  assert ((if state then Z.lor v (Z.shiftl 1 bit) else Z.land v (not_u16 (Z.shiftl 1 bit)))
          mod 256 = (if state then Z.setbit v bit else Z.clearbit v bit) mod 256) as ->; [|done].
  destruct state; [by rewrite Z.setbit_spec'; rewrite Z.shiftl_1_l|].
  change 256 with (2 ^ 8). rewrite <- !Z.land_ones by lia.
  apply Z.bits_inj'. intros n Hn.
  rewrite !Z.land_spec, Z.clearbit_eqb, Z.testbit_ones by lia.
  destruct (decide (n < 8)); [|rewrite (proj2 (Z.ltb_ge n 8)) by lia; rewrite !andb_false_r; done].
  f_equal. f_equal. by rewrite clear_mask_bit by lia.
Qed.

Lemma do_value_bit v bit state n :
  is_u16 v -> 0 <= bit < 8 -> 0 <= n < 8 ->
  Z.testbit (do_value v bit state) n = if n =? bit then state else Z.testbit v n.
Proof.
  intros Hv Hb Hn. unfold do_value. change 256 with (2 ^ 8).
  rewrite Z.mod_pow2_bits_low by lia.
  destruct state; rewrite ?Z.setbit_eqb, ?Z.clearbit_eqb by lia;
    rewrite (Z.eqb_sym bit n); destruct (n =? bit); simpl; by rewrite ?andb_true_r, ?andb_false_r.
Qed.

Lemma do_value_u8 v bit state : is_u8 (do_value v bit state).
Proof. apply as_u8_range. Qed.

Lemma io_write_do_bit_inv bit state r (h : H) :
  reg_inv r -> 0 <= bit -> exists x r' h', io_write_do_bit bit state r h = (x, r', h') /\ reg_inv r'.
Proof.
  intros Hinv Hb. destruct (decide (bit < 8)).
  - rewrite io_write_do_bit_eq by (done || apply Hinv).
    do 3 eexists. split; [done|]. destruct Hinv as (Hwf & Hs & Hr).
    split; [apply reg_wf_insert; [done|apply is_u8_u16, do_value_u8]|].
    simpl. by rewrite !list_lookup_insert_ne.
  - unfold io_write_do_bit, DO_NUM. rewrite (proj2 (Z.leb_le 8 bit)) by lia. eauto.
Qed.
End HookedLemmas.

Lemma shift_bit v n : 0 <= n -> negb (Z.land (Z.shiftr v n) 1 =? 0) = Z.testbit v n.
Proof.
  intros Hn. rewrite land_1, Z.testbit_spec' || rewrite land_1.
  rewrite <- (Z.add_0_l n) at 2. rewrite <- Z.shiftr_spec by lia.
  rewrite <- Z.bit0_mod. by destruct (Z.testbit (Z.shiftr v n) 0).
Qed.

Lemma io_coil_rd_eq r addr :
  0 <= addr ->
  io_coil_rd r addr =
    if addr <? 8 then Ok (Z.testbit (holding r !!! HOLDING_DO_IDX) addr) else Err.
Proof.
  intros Ha. unfold io_coil_rd, DO_NUM. rewrite shift_bit by done.
  destruct (Z.leb_spec 8 addr), (Z.ltb_spec addr 8); (done || lia).
Qed.

Lemma io_discrete_rd_eq r addr :
  0 <= addr ->
  io_discrete_rd r addr =
    if addr <? 16 then Ok (Z.testbit (input r !!! INPUT_DI_IDX) addr) else Err.
Proof.
  intros Ha. unfold io_discrete_rd, DI_NUM. rewrite shift_bit by done.
  destruct (Z.leb_spec 16 addr), (Z.ltb_spec addr 16); (done || lia).
Qed.

(** ** Properties *)

(** a holding-register write.  Outside the map it fails and changes nothing.
    Inside, it succeeds, changes that register only (the command registers read
    back as zero), asks exactly [write_events] of the hooks, in that order
    (nothing at all when the value is already there), and keeps the invariant. *)
Theorem holding_write_contract {H} `{!RegHooks H} addr reg r (h : H)
    (Hinv : reg_inv r) (Ha : is_u16 addr) (Hr : is_u16 reg) :
  (18 <= addr -> io_write_holding addr reg r h = (Err, r, h)) /\
  (addr < 18 -> exists r',
     io_write_holding addr reg r h =
       (Ok tt, r', apply_events h (write_events r (Z.to_nat addr) reg)) /\
     reg_inv r' /\ input r' = input r /\
     get_holding r' addr = stored (Z.to_nat addr) reg /\
     (forall a, 0 <= a -> a <> addr -> get_holding r' a = get_holding r a)).
Proof.
  unfold is_u16 in Ha.
  destruct (io_write_holding_cases addr reg r h Hinv) as [[E Hge]|(r' & E & -> & Hinv' & Hlt)];
    [lia|done| |]; split; intros; try lia; [done|].
  eexists; split; [done|]. split; [done|]. split; [done|].
  destruct Hinv as ((Hl & _) & _). unfold MODBUS_HOLDING_REGISTER_NUMBERS in Hl.
  split; [|intros a Ha0 Hne]; unfold get_holding; simpl.
  - by rewrite list_lookup_insert_eq by lia.
  - by rewrite list_lookup_insert_ne by lia.
Qed.

Lemma holding_write_contract_witness :
  reg_inv (RegMap_new 7) /\
  (exists r', io_write_holding 17 1 (RegMap_new 7) (mkTrace [] 0) =
     (Ok tt, r', mkTrace [EvSync; EvReboot] 0) /\ get_holding r' 17 = 0).
Proof.
  assert (reg_inv (RegMap_new 7)) as Hi by (apply RegMap_new_inv; unfold is_u16; lia).
  split; [done|].
  destruct (holding_write_contract 17 1 (RegMap_new 7) (mkTrace [] 0)) as [_ Hc];
    [done|unfold is_u16; lia|unfold is_u16; lia|].
  destruct Hc as (r' & E & _ & _ & Hg & _); [lia|]. exists r'. split; [exact E|exact Hg].
Defined.

(** writing one DO bit and reading the coils back: the written coil has the
    written state, every other coil the state it had, and the outputs are
    driven with the byte the register then holds. *)
Theorem do_bit_roundtrip {H} `{!RegHooks H} bit state r (h : H)
    (Hinv : reg_inv r) (Hb : 0 <= bit < 8) :
  exists r' v, io_write_do_bit bit state r h = (Ok tt, r', set_do v h) /\
    get_holding r' 0 = v /\ is_u8 v /\ reg_inv r' /\
    forall a, 0 <= a < 8 ->
      io_coil_rd r' a = if a =? bit then Ok state else io_coil_rd r a.
Proof.
  rewrite io_write_do_bit_eq by (done || apply Hinv).
  pose proof Hinv as ((Hl & _) & _). unfold MODBUS_HOLDING_REGISTER_NUMBERS in Hl.
  do 2 eexists; split; [done|].
  destruct (io_write_do_bit_inv bit state r h Hinv ltac:(lia)) as (x & r' & h' & E & Hinv').
  rewrite io_write_do_bit_eq in E by (done || apply Hinv). simplify_eq.
  split; [unfold get_holding; simpl; by rewrite list_lookup_insert_eq by (unfold HOLDING_DO_IDX; lia)|].
  split; [apply do_value_u8|]. split; [done|]. intros a Ha.
  rewrite !io_coil_rd_eq by lia. rewrite (proj2 (Z.ltb_lt a 8)) by lia. simpl.
  rewrite list_lookup_total_insert_eq by (unfold HOLDING_DO_IDX; lia).
  rewrite do_value_bit by (done || apply holding_word, Hinv). by destruct (a =? bit).
Qed.

Lemma do_bit_roundtrip_witness :
  exists r' v, io_write_do_bit 3 true (RegMap_new 7) tt = (Ok tt, r', set_do v tt) /\
    io_coil_rd r' 3 = Ok true.
Proof.
  destruct (do_bit_roundtrip 3 true (RegMap_new 7) tt) as (r' & v & E & _ & _ & _ & Hc);
    [apply RegMap_new_inv; unfold is_u16; lia|lia|].
  exists r', v. split; [exact E|]. exact (Hc 3 ltac:(lia)).
Defined.
