(* ===== verification/MbServer.v ===== *)
(** * Modbus PDU server (crates/proto/src/mb_server.rs)

    One request PDU in, one response PDU written to [out], registers and
    diagnostic counters updated.  [None] is a panic (an index out of the
    caller's buffer); the result is the response length with the new server,
    buffer, registers and hook state. *)
From S2P Require Import Prelude Bytes RegMap.

Definition MB_SERVER_PDU_MAX : nat := 256.

Definition MB_FC01_COIL_RD : Z := 0x01.
Definition MB_FC02_DI_RD : Z := 0x02.
Definition MB_FC03_HOLDING_REG_RD : Z := 0x03.
Definition MB_FC04_IN_REG_RD : Z := 0x04.
Definition MB_FC05_COIL_WR : Z := 0x05.
Definition MB_FC06_HOLDING_REG_WR : Z := 0x06.
Definition MB_FC08_DIAGNOSTICS : Z := 0x08.
Definition MB_FC15_COILS_WR : Z := 0x0F.
Definition MB_FC16_HOLDING_REGS_WR : Z := 0x10.

Definition MB_FC08_SUBF_QUERY : Z := 0x0000.
Definition MB_FC08_SUBF_CLR_CTR : Z := 0x000A.
Definition MB_FC08_SUBF_BUS_MSG_CTR : Z := 0x000B.
Definition MB_FC08_SUBF_BUS_CRC_CTR : Z := 0x000C.
Definition MB_FC08_SUBF_BUS_EXCEPT_CTR : Z := 0x000D.
Definition MB_FC08_SUBF_SERVER_MSG_CTR : Z := 0x000E.
Definition MB_FC08_SUBF_SERVER_NO_RESP_CTR : Z := 0x000F.

Definition MB_EXC_ILLEGAL_FC : Z := 0x01.
Definition MB_EXC_ILLEGAL_DATA_ADDR : Z := 0x02.
Definition MB_EXC_ILLEGAL_DATA_VAL : Z := 0x03.

Definition MB_FP_EXTENSIONS_ADDR : Z := 5000.

Inductive MbDiag := BusMsg | CrcErr | Exc | SrvMsg | NoResp.

(** [c as usize]. *)
Definition diag_index (c : MbDiag) : nat :=
  match c with BusMsg => 0 | CrcErr => 1 | Exc => 2 | SrvMsg => 3 | NoResp => 4 end.

Record MbServer := mkMbServer { diag : list Z }.

Definition MbServer_new : MbServer := mkMbServer (replicate 5 0).

Definition diag_get (c : MbDiag) (s : MbServer) : Z := diag s !!! diag_index c.

Definition diag_count (c : MbDiag) (s : MbServer) : MbServer :=
  mkMbServer (<[diag_index c := saturating_add_u16 (diag_get c s) 1]> (diag s)).

Definition exc_rsp (fc code : Z) (s : MbServer) (out : list Z)
    : option (nat * MbServer * list Z) :=
  let s := diag_count Exc s in
  out ← upd out 0 (Z.lor fc 0x80);
  out ← upd out 1 code;
  Some (2%nat, s, out).

(** Both 16-bit fields of a four-byte request body. *)
Definition get_addr (d : list Z) : option Z := s ← slice d 0 2; get_be16 s.
Definition get_qty (d : list Z) : option Z := s ← slice d 2 4; get_be16 s.

(** [out[0] = fc; put_be16(a, &mut out[1..3]); put_be16(b, &mut out[3..5]); 5] *)
Definition echo_rsp (fc a b : Z) (s : MbServer) (out : list Z)
    : option (nat * MbServer * list Z) :=
  out ← upd out 0 fc;
  out ← modify_slice out 1 3 (put_be16 a);
  out ← modify_slice out 3 5 (put_be16 b);
  Some (5%nat, s, out).

(** The bit-reading loop of FC01/FC02 over [n] more bits from bit [i]:
    the flag tells whether every address could be read. *)
Fixpoint read_bits (rd : Z -> result bool) (n i : nat) (addr : Z) (out : list Z)
    : option (bool * list Z) :=
  match n with
  | O => Some (true, out)
  | S n =>
      match rd addr with
      | Err => Some (false, out)
      | Ok state =>
          let k := (2 + i / 8)%nat in
          out ← (if state : bool
                 then v ← out !! k; upd out k (Z.lor v (Z.shiftl 1 (Z.of_nat (i mod 8))))
                 else Some out);
          read_bits rd n (S i) (as_u16 (addr + 1)) out
      end
  end.

Definition fc01 (d : list Z) (s : MbServer) (out : list Z) (regs : RegMap)
    : option (nat * MbServer * list Z) :=
  if negb (length d =? 4)%nat then Some (0%nat, s, out) else
  coil_addr ← get_addr d;
  coil_qty ← get_qty d;
  if (coil_qty =? 0) || (2000 <? coil_qty) then
    exc_rsp MB_FC01_COIL_RD MB_EXC_ILLEGAL_DATA_VAL s out else
  let num_bytes := Z.to_nat ((coil_qty - 1) / 8 + 1) in
  out ← upd out 0 MB_FC01_COIL_RD;
  out ← upd out 1 (as_u8 (Z.of_nat num_bytes));
  out ← blit out 2 (replicate num_bytes 0);
  '(ok, out) ← read_bits (io_coil_rd regs) (Z.to_nat coil_qty) 0 coil_addr out;
  if negb ok then exc_rsp MB_FC01_COIL_RD MB_EXC_ILLEGAL_DATA_ADDR s out else
  Some ((num_bytes + 2)%nat, s, out).

Definition fc02 (d : list Z) (s : MbServer) (out : list Z) (regs : RegMap)
    : option (nat * MbServer * list Z) :=
  if negb (length d =? 4)%nat then Some (0%nat, s, out) else
  di_addr ← get_addr d;
  di_qty ← get_qty d;
  if (di_qty =? 0) || (2000 <? di_qty) then
    exc_rsp MB_FC02_DI_RD MB_EXC_ILLEGAL_DATA_VAL s out else
  let num_bytes := Z.to_nat ((di_qty - 1) / 8 + 1) in
  out ← upd out 0 MB_FC02_DI_RD;
  out ← upd out 1 (as_u8 (Z.of_nat num_bytes));
  out ← blit out 2 (replicate num_bytes 0);
  '(ok, out) ← read_bits (io_discrete_rd regs) (Z.to_nat di_qty) 0 di_addr out;
  if negb ok then exc_rsp MB_FC02_DI_RD MB_EXC_ILLEGAL_DATA_ADDR s out else
  Some ((num_bytes + 2)%nat, s, out).

(** The register-reading loop of FC03/FC04: [n] more registers from the [i]-th,
    [limit] the size of the table, [rd] the read. *)
Fixpoint read_regs (limit : Z) (rd : Z -> Z) (n i : nat) (addr : Z) (out : list Z)
    : option (bool * list Z) :=
  match n with
  | O => Some (true, out)
  | S n =>
      if limit <=? addr then Some (false, out) else
      let reg := rd addr in
      out ← modify_slice out (2 + i * 2) (4 + i * 2) (put_be16 reg);
      read_regs limit rd n (S i) (as_u16 (addr + 1)) out
  end.

Section Hooked.
Context {H : Type} `{!RegHooks H}.

Definition fc03 (d : list Z) (s : MbServer) (out : list Z) (regs : RegMap) (hooks : H)
    : option (nat * MbServer * list Z) :=
  if negb (length d =? 4)%nat then Some (0%nat, s, out) else
  reg_addr ← get_addr d;
  reg_qty ← get_qty d;
  if (reg_qty =? 0) || (125 <? reg_qty) then
    exc_rsp MB_FC03_HOLDING_REG_RD MB_EXC_ILLEGAL_DATA_VAL s out else
  if MB_FP_EXTENSIONS_ADDR <=? reg_addr then
    exc_rsp MB_FC03_HOLDING_REG_RD MB_EXC_ILLEGAL_FC s out else
  let num_bytes := (Z.to_nat reg_qty * 2)%nat in
  out ← upd out 0 MB_FC03_HOLDING_REG_RD;
  out ← upd out 1 (as_u8 (Z.of_nat num_bytes));
  '(ok, out) ← read_regs (Z.of_nat MODBUS_HOLDING_REGISTER_NUMBERS)
    (fun a => io_read_holding regs a hooks) (Z.to_nat reg_qty) 0 reg_addr out;
  if negb ok then exc_rsp MB_FC03_HOLDING_REG_RD MB_EXC_ILLEGAL_DATA_ADDR s out else
  Some ((num_bytes + 2)%nat, s, out).

Definition fc04 (d : list Z) (s : MbServer) (out : list Z) (regs : RegMap)
    : option (nat * MbServer * list Z) :=
  if negb (length d =? 4)%nat then Some (0%nat, s, out) else
  reg_addr ← get_addr d;
  reg_qty ← get_qty d;
  if (reg_qty =? 0) || (125 <? reg_qty) then
    exc_rsp MB_FC04_IN_REG_RD MB_EXC_ILLEGAL_DATA_VAL s out else
  if MB_FP_EXTENSIONS_ADDR <=? reg_addr then
    exc_rsp MB_FC04_IN_REG_RD MB_EXC_ILLEGAL_FC s out else
  let num_bytes := (Z.to_nat reg_qty * 2)%nat in
  out ← upd out 0 MB_FC04_IN_REG_RD;
  out ← upd out 1 (as_u8 (Z.of_nat num_bytes));
  '(ok, out) ← read_regs (Z.of_nat MODBUS_INPUT_REGISTER_NUMBERS)
    (get_input regs) (Z.to_nat reg_qty) 0 reg_addr out;
  if negb ok then exc_rsp MB_FC04_IN_REG_RD MB_EXC_ILLEGAL_DATA_ADDR s out else
  Some ((num_bytes + 2)%nat, s, out).

Definition fc05 (d : list Z) (s : MbServer) (out : list Z) (regs : RegMap) (hooks : H)
    : option (nat * MbServer * list Z * RegMap * H) :=
  if negb (length d =? 4)%nat then Some (0%nat, s, out, regs, hooks) else
  coil_addr ← get_addr d;
  coil_val ← get_qty d;
  let state := negb (coil_val =? 0x0000) in
  let '(r, regs, hooks) := io_write_do_bit coil_addr state regs hooks in
  rsp ← (if negb (is_ok r) then exc_rsp MB_FC05_COIL_WR MB_EXC_ILLEGAL_DATA_ADDR s out
         else echo_rsp MB_FC05_COIL_WR coil_addr coil_val s out);
  Some (rsp, regs, hooks).

Definition fc06 (d : list Z) (s : MbServer) (out : list Z) (regs : RegMap) (hooks : H)
    : option (nat * MbServer * list Z * RegMap * H) :=
  if negb (length d =? 4)%nat then Some (0%nat, s, out, regs, hooks) else
  reg_addr ← get_addr d;
  reg_val ← get_qty d;
  let '(r, regs, hooks) := io_write_holding reg_addr reg_val regs hooks in
  rsp ← (if negb (is_ok r) then exc_rsp MB_FC06_HOLDING_REG_WR MB_EXC_ILLEGAL_DATA_ADDR s out
         else echo_rsp MB_FC06_HOLDING_REG_WR reg_addr reg_val s out);
  Some (rsp, regs, hooks).

Definition fc08 (d : list Z) (s : MbServer) (out : list Z)
    : option (nat * MbServer * list Z) :=
  if negb (length d =? 4)%nat then Some (0%nat, s, out) else
  sfunc ← get_addr d;
  data ← get_qty d;
  if sfunc =? MB_FC08_SUBF_QUERY then echo_rsp MB_FC08_DIAGNOSTICS sfunc data s out
  else if sfunc =? MB_FC08_SUBF_CLR_CTR then
    echo_rsp MB_FC08_DIAGNOSTICS sfunc data (mkMbServer (replicate 5 0)) out
  else if sfunc =? MB_FC08_SUBF_BUS_MSG_CTR then
    echo_rsp MB_FC08_DIAGNOSTICS sfunc (diag_get BusMsg s) s out
  else if sfunc =? MB_FC08_SUBF_BUS_CRC_CTR then
    echo_rsp MB_FC08_DIAGNOSTICS sfunc (diag_get CrcErr s) s out
  else if sfunc =? MB_FC08_SUBF_BUS_EXCEPT_CTR then
    echo_rsp MB_FC08_DIAGNOSTICS sfunc (diag_get Exc s) s out
  else if sfunc =? MB_FC08_SUBF_SERVER_MSG_CTR then
    echo_rsp MB_FC08_DIAGNOSTICS sfunc (diag_get SrvMsg s) s out
  else if sfunc =? MB_FC08_SUBF_SERVER_NO_RESP_CTR then
    echo_rsp MB_FC08_DIAGNOSTICS sfunc (diag_get NoResp s) s out
  else exc_rsp MB_FC08_DIAGNOSTICS MB_EXC_ILLEGAL_FC s out.

(** The bit-writing loop of FC15: [n] more bits from bit [i], [temp] the
    remaining bits of the current data byte. *)
Fixpoint write_bits (d : list Z) (coil_addr : Z) (n i : nat) (temp : Z)
    (regs : RegMap) (hooks : H) : option (bool * RegMap * H) :=
  match n with
  | O => Some (true, regs, hooks)
  | S n =>
      temp ← (if (i mod 8 =? 0)%nat then d !! (5 + i / 8)%nat else Some temp);
      let state := negb (Z.land temp 1 =? 0) in
      let '(r, regs, hooks) :=
        io_write_do_bit (as_u16 (coil_addr + as_u16 (Z.of_nat i))) state regs hooks in
      if negb (is_ok r) then Some (false, regs, hooks) else
      write_bits d coil_addr n (S i) (Z.shiftr temp 1) regs hooks
  end.

Definition fc15 (d : list Z) (s : MbServer) (out : list Z) (regs : RegMap) (hooks : H)
    : option (nat * MbServer * list Z * RegMap * H) :=
  if (length d <? 6)%nat then Some (0%nat, s, out, regs, hooks) else
  coil_addr ← get_addr d;
  coil_qty ← get_qty d;
  num_bytes ← d !! 4%nat;
  if (coil_qty =? 0) || (2000 <? coil_qty) then
    rsp ← exc_rsp MB_FC15_COILS_WR MB_EXC_ILLEGAL_DATA_VAL s out; Some (rsp, regs, hooks) else
  if negb ((coil_qty - 1) / 8 + 1 =? num_bytes)
     || negb (length d =? Z.to_nat num_bytes + 5)%nat then
    rsp ← exc_rsp MB_FC15_COILS_WR MB_EXC_ILLEGAL_DATA_VAL s out; Some (rsp, regs, hooks) else
  '(ok, regs, hooks) ← write_bits d coil_addr (Z.to_nat coil_qty) 0 0 regs hooks;
  rsp ← (if negb ok then exc_rsp MB_FC15_COILS_WR MB_EXC_ILLEGAL_DATA_ADDR s out
         else echo_rsp MB_FC15_COILS_WR coil_addr coil_qty s out);
  Some (rsp, regs, hooks).

(** The register-writing loop of FC16. *)
Fixpoint write_regs (d : list Z) (reg_addr : Z) (n i : nat)
    (regs : RegMap) (hooks : H) : option (bool * RegMap * H) :=
  match n with
  | O => Some (true, regs, hooks)
  | S n =>
      val ← (s ← slice d (5 + i * 2) (7 + i * 2); get_be16 s);
      let '(r, regs, hooks) :=
        io_write_holding (as_u16 (reg_addr + as_u16 (Z.of_nat i))) val regs hooks in
      if negb (is_ok r) then Some (false, regs, hooks) else
      write_regs d reg_addr n (S i) regs hooks
  end.

Definition fc16 (d : list Z) (s : MbServer) (out : list Z) (regs : RegMap) (hooks : H)
    : option (nat * MbServer * list Z * RegMap * H) :=
  if (length d <? 6)%nat then Some (0%nat, s, out, regs, hooks) else
  reg_addr ← get_addr d;
  reg_qty ← get_qty d;
  num_bytes ← d !! 4%nat;
  let exc code :=
    rsp ← exc_rsp MB_FC16_HOLDING_REGS_WR code s out; Some (rsp, regs, hooks) in
  if (reg_qty =? 0) || (125 <? reg_qty) then exc MB_EXC_ILLEGAL_DATA_VAL else
  if MB_FP_EXTENSIONS_ADDR <=? reg_addr then exc MB_EXC_ILLEGAL_FC else
  if negb (as_u16 (as_u16 (Z.of_nat (length d)) - 5) =? num_bytes) then
    exc MB_EXC_ILLEGAL_DATA_VAL else
  if negb (num_bytes / as_u8 reg_qty =? 2) then exc MB_EXC_ILLEGAL_DATA_VAL else
  '(ok, regs, hooks) ← write_regs d reg_addr (Z.to_nat reg_qty) 0 regs hooks;
  rsp ← (if negb ok then exc_rsp MB_FC16_HOLDING_REGS_WR MB_EXC_ILLEGAL_DATA_ADDR s out
         else echo_rsp MB_FC16_HOLDING_REGS_WR reg_addr reg_qty s out);
  Some (rsp, regs, hooks).

Definition process (in_ : list Z) (s : MbServer) (out : list Z) (regs : RegMap) (hooks : H)
    : option (nat * MbServer * list Z * RegMap * H) :=
  match in_ with
  | [] => Some (0%nat, s, out, regs, hooks)
  | fc :: d =>
      let s := diag_count BusMsg s in
      let s := diag_count SrvMsg s in
      let keep (rsp : option (nat * MbServer * list Z)) :=
        rsp ← rsp; Some (rsp, regs, hooks) in
      if fc =? MB_FC01_COIL_RD then keep (fc01 d s out regs)
      else if fc =? MB_FC02_DI_RD then keep (fc02 d s out regs)
      else if fc =? MB_FC03_HOLDING_REG_RD then keep (fc03 d s out regs hooks)
      else if fc =? MB_FC04_IN_REG_RD then keep (fc04 d s out regs)
      else if fc =? MB_FC05_COIL_WR then fc05 d s out regs hooks
      else if fc =? MB_FC06_HOLDING_REG_WR then fc06 d s out regs hooks
      else if fc =? MB_FC08_DIAGNOSTICS then keep (fc08 d s out)
      else if fc =? MB_FC15_COILS_WR then fc15 d s out regs hooks
      else if fc =? MB_FC16_HOLDING_REGS_WR then fc16 d s out regs hooks
      else keep (exc_rsp fc MB_EXC_ILLEGAL_FC s out)
  end.
End Hooked.
