(* ===== verification/MbSpec.v ===== *)
(** * Modbus PDU server: abstract specification and refinement

    [mb_spec] says, on plain lists, what the answer to a request PDU is and
    which register-map writes it performs.  [MbServer.process] implements it:
    buffers, loops and early returns included. *)
From S2P Require Import Prelude Bytes RegMap MbServer.

(** Silence, a normal answer, or an exception code. *)
Inductive reply :=
| Silent
| Reply (p : list Z)
| Exception (code : Z).

(** A register-map write a request performs. *)
Inductive wr :=
| WBit (bit : Z) (state : bool)
| WReg (addr reg : Z).

Definition run_wr {H} `{!RegHooks H} (st : RegMap * H) (w : wr) : RegMap * H :=
  match w with
  | WBit b s => let '(_, r, h) := io_write_do_bit b s st.1 st.2 in (r, h)
  | WReg a v => let '(_, r, h) := io_write_holding a v st.1 st.2 in (r, h)
  end.

Definition run_writes {H} `{!RegHooks H} (ws : list wr) (st : RegMap * H) : RegMap * H :=
  foldl run_wr st ws.

(** The [n] low bytes of [x], least significant first. *)
Definition le_bytes (n : nat) (x : Z) : list Z :=
  (fun k => x / 256 ^ Z.of_nat k mod 256) <$> seq 0 n.

Definition words_be (ws : list Z) : list Z := ws ≫= to_be_bytes16.

Fixpoint be_words (l : list Z) : list Z :=
  match l with
  | a :: b :: l' => (256 * a + b) :: be_words l'
  | _ => []
  end.

(** Reading [qty] bits from bit [addr] of the [num]-bit image [v]. *)
Definition read_bits_spec (fc v num : Z) (d : list Z) : reply :=
  match d with
  | [a1; a0; q1; q0] =>
      let addr := 256 * a1 + a0 in
      let qty := 256 * q1 + q0 in
      let nb := (qty + 7) / 8 in
      if decide (qty = 0 \/ 2000 < qty) then Exception 3
      else if decide (addr + qty <= num) then
        Reply (fc :: nb :: le_bytes (Z.to_nat nb) (v / 2 ^ addr mod 2 ^ qty))
      else Exception 2
  | _ => Silent
  end.

Definition read_regs_spec (fc : Z) (table : list Z) (d : list Z) : reply :=
  match d with
  | [a1; a0; q1; q0] =>
      let addr := 256 * a1 + a0 in
      let qty := 256 * q1 + q0 in
      if decide (qty = 0 \/ 125 < qty) then Exception 3
      else if decide (5000 <= addr) then Exception 1
      else if decide (addr + qty <= Z.of_nat (length table)) then
        Reply (fc :: 2 * qty :: words_be (take (Z.to_nat qty) (drop (Z.to_nat addr) table)))
      else Exception 2
  | _ => Silent
  end.

(** The holding registers as a master reads them: the timestamp pair is live. *)
Definition live_holding {H} `{!RegHooks H} (r : RegMap) (h : H) : list Z :=
  <[HOLDING_TIMESTAMP_HI_IDX := now_epoch h / 65536 mod 65536]>
    (<[HOLDING_TIMESTAMP_LO_IDX := now_epoch h mod 65536]> (holding r)).

(** The bits of the data bytes, least significant first. *)
Definition data_bit (data : list Z) (i : nat) : bool :=
  Z.testbit (data !!! (i / 8)%nat) (Z.of_nat (i mod 8)).

Definition bit_writes (addr : Z) (data : list Z) (n : nat) : list wr :=
  (fun i => WBit (addr + Z.of_nat i) (data_bit data i)) <$> seq 0 n.

Definition reg_writes (addr : Z) (ws : list Z) : list wr :=
  imap (fun i w => WReg (addr + Z.of_nat i) w) ws.

Definition diag_spec (d : list Z) (diag : list Z) : reply * list Z :=
  match d with
  | [s1; s0; d1; d0] =>
      let sub := 256 * s1 + s0 in
      let answer v := Reply (8 :: to_be_bytes16 sub ++ to_be_bytes16 v) in
      if decide (sub = 0) then (answer (256 * d1 + d0), diag)
      else if decide (sub = 10) then (answer (256 * d1 + d0), replicate 5 0)
      else if decide (11 <= sub <= 15) then (answer (diag !!! Z.to_nat (sub - 11)), diag)
      else (Exception 1, diag)
  | _ => (Silent, diag)
  end.

(** Writes are performed up to the first address that does not exist. *)
Definition write_spec (fc : Z) (d : list Z) : reply * list wr :=
  let done := Reply (fc :: take 4 d) in
  match d with
  | [a1; a0; v1; v0] =>
      let addr := 256 * a1 + a0 in
      let v := 256 * v1 + v0 in
      if decide (fc = 5) then
        if decide (addr < 8) then (done, [WBit addr (negb (v =? 0))]) else (Exception 2, [])
      else if decide (fc = 6) then
        if decide (addr < 18) then (done, [WReg addr v]) else (Exception 2, [])
      else (Silent, [])
  | a1 :: a0 :: q1 :: q0 :: nb :: ((_ :: _) as data) =>
      let addr := 256 * a1 + a0 in
      let qty := 256 * q1 + q0 in
      if decide (fc = 15) then
        if decide (qty = 0 \/ 2000 < qty) then (Exception 3, [])
        else if decide (nb <> (qty + 7) / 8 \/ Z.of_nat (length data) <> nb) then (Exception 3, [])
        else
          (if decide (addr + qty <= 8) then done else Exception 2,
           bit_writes addr data (Z.to_nat (Z.min qty (8 - addr))))
      else if decide (fc = 16) then
        if decide (qty = 0 \/ 125 < qty) then (Exception 3, [])
        else if decide (5000 <= addr) then (Exception 1, [])
        else if decide (Z.of_nat (length data) <> nb \/ nb / qty <> 2) then (Exception 3, [])
        else
          (if decide (addr + qty <= 18) then done else Exception 2,
           reg_writes addr (take (Z.to_nat (Z.min qty (18 - addr))) (be_words data)))
      else (Silent, [])
  | _ => (Silent, [])
  end.

Definition bump (i : nat) (diag : list Z) : list Z := <[i := Z.min (diag !!! i + 1) 65535]> diag.

(** Answer, counters and writes of a request PDU [fc :: d], the counters of
    the PDU itself already updated. *)
Definition mb_core {H} `{!RegHooks H} (fc : Z) (d : list Z) (diag : list Z) (r : RegMap) (h : H)
    : reply * list Z * list wr :=
  if decide (fc = 1) then (read_bits_spec 1 (holding r !!! 0%nat) 8 d, diag, [])
  else if decide (fc = 2) then (read_bits_spec 2 (input r !!! 5%nat) 16 d, diag, [])
  else if decide (fc = 3) then (read_regs_spec 3 (live_holding r h) d, diag, [])
  else if decide (fc = 4) then (read_regs_spec 4 (input r) d, diag, [])
  else if decide (fc = 8) then (diag_spec d diag, [])
  else if decide (fc = 5 \/ fc = 6 \/ fc = 15 \/ fc = 16) then
    let '(rep, ws) := write_spec fc d in (rep, diag, ws)
  else (Exception 1, diag, []).

(** An exception also counts as one. *)
Definition settle (x : reply * list Z * list wr) : reply * list Z * list wr :=
  let '(rep, dg, ws) := x in
  match rep with Exception _ => (rep, bump 2 dg, ws) | _ => (rep, dg, ws) end.

Definition mb_spec {H} `{!RegHooks H} (fc : Z) (d : list Z) (diag : list Z) (r : RegMap) (h : H)
    : reply * list Z * list wr :=
  settle (mb_core fc d (bump 3 (bump 0 diag)) r h).

(** The bytes put on the wire for a reply. *)
Definition wire (fc : Z) (r : reply) : list Z :=
  match r with
  | Silent => []
  | Reply p => p
  | Exception code => [Z.lor fc 0x80; code]
  end.

Definition diag_wf (l : list Z) : Prop := length l = 5%nat /\ words_ok l.

(** ** Buffers *)

Lemma get_addr_eq a b c r : is_u8 b -> get_addr (a :: b :: c :: r) = Some (256 * a + b).
Proof. intros. unfold get_addr. simpl. rewrite get_be16_bytes by done. f_equal. lia. Qed.

Lemma get_qty_eq a b c e r : is_u8 e -> get_qty (a :: b :: c :: e :: r) = Some (256 * c + e).
Proof. intros. unfold get_qty. simpl. rewrite get_be16_bytes by done. f_equal. lia. Qed.

Lemma be_bytes_of a b : is_u8 a -> is_u8 b -> to_be_bytes16 (256 * a + b) = [a; b].
Proof. unfold is_u8, to_be_bytes16. intros. f_equal; [|f_equal]; zdm. Qed.

Lemma out_split2 (out : list Z) :
  (2 <= length out)%nat -> exists x y r, out = x :: y :: r /\ length out = S (S (length r)).
Proof. destruct out as [|x [|y r]]; simpl; intros; try lia. eauto. Qed.

(** The state of the reply buffer after an operation that answers [p]. *)
Definition answers (p : list Z) (n : nat) (out out' : list Z) : Prop :=
  n = length p /\ prefix_is out' p /\ length out' = length out.

Lemma exc_rsp_eq fc code s out :
  (2 <= length out)%nat ->
  exists out', exc_rsp fc code s out = Some (2%nat, diag_count Exc s, out') /\
    answers [Z.lor fc 0x80; code] 2 out out'.
Proof.
  intros (x & y & r & -> & _)%out_split2. eexists. split; [done|]. done.
Qed.

Lemma echo_rsp_eq fc a b s out :
  (5 <= length out)%nat ->
  exists out', echo_rsp fc a b s out = Some (5%nat, s, out') /\
    answers (fc :: to_be_bytes16 a ++ to_be_bytes16 b) 5 out out'.
Proof.
  intros Hl. unfold echo_rsp. rewrite upd_ok by lia. simpl.
  rewrite put_be16_at by len. simpl. rewrite put_be16_at by len. simpl.
  eexists. split; [done|]. destruct out as [|x0 [|x1 [|x2 [|x3 [|x4 r]]]]]; simpl in Hl; try lia.
  done.
Qed.

(** ** Packed bits *)

Lemma byte_bit x k j :
  0 <= j < 8 -> Z.testbit (x / 256 ^ Z.of_nat k mod 256) j = Z.testbit x (8 * Z.of_nat k + j).
Proof.
  intros Hj. change 256 with (2 ^ 8) at 2. rewrite Z.mod_pow2_bits_low by lia.
  replace (256 ^ Z.of_nat k) with (2 ^ (8 * Z.of_nat k)) by (by rewrite Z.pow_mul_r by lia).
  rewrite Z.div_pow2_bits by lia. f_equal. lia.
Qed.

Lemma le_bytes_length n x : length (le_bytes n x) = n.
Proof. unfold le_bytes. by rewrite length_fmap, length_seq. Qed.

Lemma le_bytes_lookup n x k :
  (k < n)%nat -> le_bytes n x !! k = Some (x / 256 ^ Z.of_nat k mod 256).
Proof.
  intros. unfold le_bytes. rewrite list_lookup_fmap.
  by rewrite (proj2 (lookup_seq 0 n k k)) by lia.
Qed.

Lemma le_bytes_zero n : le_bytes n 0 = replicate n 0.
Proof.
  apply list_eq_same_length with n; rewrite ?le_bytes_length, ?length_replicate; try done.
  intros k x y Hk. rewrite le_bytes_lookup, lookup_replicate_2 by done. naive_solver.
Qed.

(** Setting bit [i] in the packed prefix extends it by one bit. *)
Lemma le_bytes_set n x i :
  (i < 8 * n)%nat -> Z.testbit x (Z.of_nat i) = true ->
  <[(i / 8)%nat := Z.lor (x mod 2 ^ Z.of_nat i / 256 ^ Z.of_nat (i / 8) mod 256)
      (Z.shiftl 1 (Z.of_nat (i mod 8)))]> (le_bytes n (x mod 2 ^ Z.of_nat i))
  = le_bytes n (x mod 2 ^ Z.of_nat (S i)).
Proof.
  intros Hi Hx.
  pose proof (Nat.div_mod_eq i 8) as Hdm. pose proof (Nat.mod_upper_bound i 8 ltac:(lia)) as Hm.
  assert (i / 8 < n)%nat as Hk8 by (apply Nat.Div0.div_lt_upper_bound; lia).
  apply list_eq_same_length with n; rewrite ?length_insert, ?le_bytes_length; try done.
  intros k a b Hk. rewrite (le_bytes_lookup n (x mod 2 ^ Z.of_nat (S i)) k) by done.
  intros Ha [= <-]. rewrite Z.shiftl_1_l in Ha.
  destruct (decide (k = i / 8)%nat) as [->|Hne].
  - rewrite list_lookup_insert_eq in Ha by (by rewrite le_bytes_length). apply (inj Some) in Ha as <-.
    apply byte_eq; [apply lor_u8; [apply as_u8_range|apply pow2_u8; lia]|apply as_u8_range|].
    intros j Hj. rewrite Z.lor_spec, !byte_bit, !mod_pow2_testbit, Z.pow2_bits_eqb by lia.
    destruct (Z.eqb_spec (Z.of_nat (i mod 8)) j) as [E|E].
    + replace (8 * Z.of_nat (i / 8) + j) with (Z.of_nat i) by lia. rewrite Hx, orb_true_r. ltb_cases.
    + rewrite orb_false_r. f_equal. ltb_cases.
  - rewrite list_lookup_insert_ne, le_bytes_lookup in Ha by done. apply (inj Some) in Ha as <-.
    apply byte_eq; [apply as_u8_range..|].
    intros j Hj. rewrite !byte_bit, !mod_pow2_testbit by lia. f_equal. ltb_cases.
Qed.

(** ** The read loops *)

(** [rd] reads bit [a] of [v], and only the first [num] bits exist. *)
Definition bit_reader (rd : Z -> result bool) (v num : Z) : Prop :=
  forall a, 0 <= a -> rd a = if a <? num then Ok (Z.testbit v a) else Err.

Lemma hdr2_lookup (a b : Z) l k : (a :: b :: l) !! (2 + k)%nat = l !! k.
Proof. done. Qed.
Lemma hdr2_insert (a b : Z) l k v : <[(2 + k)%nat := v]> (a :: b :: l) = a :: b :: <[k := v]> l.
Proof. done. Qed.

Lemma le_bytes_skip n x i :
  Z.testbit x (Z.of_nat i) = false ->
  le_bytes n (x mod 2 ^ Z.of_nat (S i)) = le_bytes n (x mod 2 ^ Z.of_nat i).
Proof.
  intros Hx. f_equal. apply Z.bits_inj'. intros j Hj. rewrite !mod_pow2_testbit by lia.
  destruct (decide (j = Z.of_nat i)) as [->|]; [by rewrite Hx, !andb_false_r|].
  f_equal. ltb_cases.
Qed.

Lemma read_bits_all rd v num a0 n i fc nb x r :
  bit_reader rd v num -> num <= 16 -> 0 <= a0 ->
  a0 + Z.of_nat (i + n) <= num -> (i + n <= 8 * nb)%nat -> x = v / 2 ^ a0 ->
  read_bits rd n i (a0 + Z.of_nat i)
    (fc :: Z.of_nat nb :: le_bytes nb (x mod 2 ^ Z.of_nat i) ++ r) =
  Some (true, fc :: Z.of_nat nb :: le_bytes nb (x mod 2 ^ Z.of_nat (i + n)) ++ r).
Proof.
  intros Hrd Hnum Ha Hle Hnb ->. revert i Hle Hnb.
  induction n as [|n IH]; intros i Hle Hnb; cbn [read_bits].
  - by rewrite Nat.add_0_r.
  - rewrite Hrd, (proj2 (Z.ltb_lt _ _)) by lia.
    replace (as_u16 (a0 + Z.of_nat i + 1)) with (a0 + Z.of_nat (S i))
      by (rewrite as_u16_id; [lia|unfold is_u16; lia]).
    replace (i + S n)%nat with (S i + n)%nat by lia.
    rewrite <- (IH (S i)) by lia.
    assert (i / 8 < nb)%nat as Hk by (apply Nat.Div0.div_lt_upper_bound; lia).
    assert (Z.testbit v (a0 + Z.of_nat i) = Z.testbit (v / 2 ^ a0) (Z.of_nat i)) as ->
      by (rewrite Z.div_pow2_bits by lia; f_equal; lia).
    destruct (Z.testbit (v / 2 ^ a0) (Z.of_nat i)) eqn:Hbit.
    + rewrite hdr2_lookup, lookup_app_l, le_bytes_lookup by (by rewrite ?le_bytes_length).
      cbn [mbind option_bind]. rewrite upd_ok by (rewrite !length_cons, length_app, le_bytes_length; lia).
      cbn [mbind option_bind]. rewrite hdr2_insert, insert_app_l by (by rewrite le_bytes_length).
      by rewrite le_bytes_set by (lia || done).
    + cbn [mbind option_bind]. by rewrite le_bytes_skip.
Qed.

(** A range that leaves the image stops the loop; nothing outside the reply is touched. *)
Lemma read_bits_fail rd v num n i addr out :
  bit_reader rd v num -> num <= 16 -> 0 <= addr < 65536 -> (0 < n)%nat ->
  num < addr + Z.of_nat n -> Z.of_nat i + Z.max 0 (num - addr) <= 16 ->
  (4 <= length out)%nat ->
  exists out', read_bits rd n i addr out = Some (false, out') /\ length out' = length out.
Proof.
  intros Hrd Hnum. revert i addr out.
  induction n as [|n IH]; intros i addr out Ha Hn Hle Hi Hl; cbn [read_bits]; [lia|].
  rewrite Hrd by lia. destruct (Z.ltb_spec addr num); [|by eauto].
  assert (i / 8 < 2)%nat as Hk by (apply Nat.Div0.div_lt_upper_bound; lia).
  rewrite as_u16_id by (unfold is_u16; lia).
  destruct (Z.testbit v addr).
  - destruct (lookup_lt_is_Some_2 out (2 + i / 8)) as [b ->]; [lia|]. cbn [mbind option_bind].
    rewrite upd_ok by lia. cbn [mbind option_bind].
    edestruct IH as (out' & -> & Hl'); [..|exists out'; split; [done|]]; try lia; len.
  - cbn [mbind option_bind]. apply IH; lia.
Qed.

Lemma words_be_length ws : length (words_be ws) = (2 * length ws)%nat.
Proof. induction ws; simpl in *; lia. Qed.

Lemma words_be_app a b : words_be (a ++ b) = words_be a ++ words_be b.
Proof. apply bind_app. Qed.

(** Storing the next word behind a reply of [i] words. *)
Lemma put_word_at fc x w r v i :
  length w = (2 * i)%nat -> (2 <= length r)%nat ->
  exists r', modify_slice (fc :: x :: w ++ r) (2 + i * 2) (4 + i * 2) (put_be16 v) =
    Some (fc :: x :: (w ++ to_be_bytes16 v) ++ r') /\ length r = (2 + length r')%nat.
Proof.
  intros Hw Hr. rewrite put_be16_at by len.
  destruct r as [|y [|z r]]; simpl in Hr; try lia.
  exists r. split; [|done]. f_equal. rewrite list_inserts_split by len.
  replace (2 + i * 2)%nat with (length (fc :: x :: w)) by len.
  change (fc :: x :: w ++ y :: z :: r) with ((fc :: x :: w) ++ [y; z] ++ r).
  rewrite take_app_length, <- drop_drop, drop_app_length.
  simpl. by rewrite <- app_assoc.
Qed.

Lemma read_regs_all (table : list Z) rd limit n i a0 fc x r :
  (forall k, (k < length table)%nat -> rd (Z.of_nat k) = table !!! k) ->
  limit = Z.of_nat (length table) -> limit < 65536 ->
  (a0 + i + n <= length table)%nat -> (2 * n <= length r)%nat ->
  exists r', read_regs limit rd n i (Z.of_nat (a0 + i))
      (fc :: x :: words_be (take i (drop a0 table)) ++ r) =
    Some (true, fc :: x :: words_be (take (i + n) (drop a0 table)) ++ r') /\
    length r = (2 * n + length r')%nat.
Proof.
  intros Hrd -> Hlim. revert i r. induction n as [|n IH]; intros i r Hle Hr; cbn [read_regs].
  - rewrite Nat.add_0_r. exists r. split; [done|lia].
  - rewrite (proj2 (Z.leb_gt _ _)) by lia. rewrite Hrd by lia.
    edestruct (put_word_at fc x (words_be (take i (drop a0 table))) r (table !!! (a0 + i)%nat) i)
      as (r1 & -> & Hr1); [rewrite words_be_length; len|lia|]. cbn [mbind option_bind].
    rewrite as_u16_id by (unfold is_u16; lia).
    replace (Z.of_nat (a0 + i) + 1) with (Z.of_nat (a0 + S i)) by lia.
    destruct (lookup_lt_is_Some_2 table (a0 + i)) as [v Hv]; [lia|].
    rewrite (list_lookup_total_correct _ _ _ Hv).
    change (to_be_bytes16 v) with (words_be [v]).
    rewrite <- words_be_app, <- (take_S_r _ _ v) by (by rewrite lookup_drop).
    edestruct (IH (S i) r1) as (r2 & -> & Hr2); [lia..|].
    exists r2. replace (i + S n)%nat with (S i + n)%nat by lia. split; [done|lia].
Qed.

Lemma read_regs_fail limit rd n i addr out :
  limit < 65536 -> 0 <= addr < 65536 -> (0 < n)%nat -> limit < addr + Z.of_nat n ->
  (2 + (i + n) * 2 <= length out)%nat ->
  exists out', read_regs limit rd n i addr out = Some (false, out') /\
    length out' = length out.
Proof.
  intros Hlim. revert i addr out.
  induction n as [|n IH]; intros i addr out Ha Hn Hle Hl; cbn [read_regs]; [lia|].
  destruct (Z.leb_spec limit addr); [by eauto|].
  rewrite put_be16_at by lia. cbn [mbind option_bind].
  rewrite as_u16_id by (unfold is_u16; lia).
  edestruct (IH (S i)) as (out' & -> & Hl'); [..|exists out'; split; [done|]]; try lia;
    rewrite ?length_inserts in *; lia.
Qed.

(** ** The write loops *)

Definition wr_ok (w : wr) : Prop :=
  match w with WBit b _ => 0 <= b | WReg a v => 0 <= a /\ is_u16 v end.

Section Writes.
Context {H : Type} `{!RegHooks H}.

Lemma run_writes_inv ws (st : RegMap * H) :
  Forall wr_ok ws -> reg_inv st.1 -> reg_inv (run_writes ws st).1.
Proof.
  intros Hok. revert st. induction Hok as [|w ws Hw _ IH]; intros [r h] Hinv; [done|].
  apply (IH (run_wr (r, h) w)). destruct w as [b s|a v]; simpl in *.
  - destruct (io_write_do_bit_inv b s r h Hinv Hw) as (x & r' & h' & E & ?). by rewrite E.
  - destruct (io_write_holding_cases a v r h Hinv) as [[E _]|(r' & E & _ & ? & _)];
      [tauto..|by rewrite E|by rewrite E].
Qed.

Lemma do_bit_status b s r (h : H) :
  exists x r' h', io_write_do_bit b s r h = (x, r', h') /\ is_ok x = (b <? 8) /\
    (8 <= b -> r' = r /\ h' = h).
Proof.
  unfold io_write_do_bit, DO_NUM. destruct (Z.leb_spec 8 b).
  - do 3 eexists. split; [done|]. split; [by rewrite (proj2 (Z.ltb_ge b 8)) by lia|done].
  - do 3 eexists. split; [done|]. split; [by rewrite (proj2 (Z.ltb_lt b 8)) by lia|lia].
Qed.

Definition bits_from (addr : Z) (data : list Z) (i n : nat) : list wr :=
  (fun j => WBit (addr + Z.of_nat j) (data_bit data j)) <$> seq i n.

Lemma write_bits_eq hdr data addr n i temp r (h : H) :
  length hdr = 5%nat -> 0 <= addr -> addr + Z.of_nat i < 65536 -> (i + n <= 8 * length data)%nat ->
  ((i mod 8)%nat <> 0%nat -> temp = Z.shiftr (data !!! (i / 8)%nat) (Z.of_nat (i mod 8))) ->
  exists ok, write_bits (hdr ++ data) addr n i temp r h =
    Some (ok, (run_writes (bits_from addr data i
      (Nat.min n (Z.to_nat (8 - (addr + Z.of_nat i))))) (r, h)).1,
      (run_writes (bits_from addr data i
      (Nat.min n (Z.to_nat (8 - (addr + Z.of_nat i))))) (r, h)).2) /\
    (ok = true <-> n = 0%nat \/ addr + Z.of_nat (i + n) <= 8).
Proof.
  intros Hh Ha. revert i temp r h. induction n as [|n IH]; intros i temp r h Hi Hd Ht; cbn [write_bits].
  - eexists; split; [done|tauto].
  - pose proof (Nat.div_mod_eq i 8) as Hdm. pose proof (Nat.mod_upper_bound i 8 ltac:(lia)) as Hm.
    assert (i / 8 < length data)%nat as Hk by (apply Nat.Div0.div_lt_upper_bound; lia).
    set (byte := data !!! (i / 8)%nat).
    assert ((if (i mod 8 =? 0)%nat then (hdr ++ data) !! (5 + i / 8)%nat else Some temp) =
      Some (Z.shiftr byte (Z.of_nat (i mod 8)))) as ->.
    { destruct (Nat.eqb_spec (i mod 8) 0) as [E|E]; [|by rewrite (Ht E)].
      rewrite E, lookup_app_r by lia.
      replace (5 + i / 8 - length hdr)%nat with (i / 8)%nat by lia.
      rewrite Z.shiftr_0_r. by apply list_lookup_lookup_total_lt. }
    cbn [mbind option_bind]. rewrite (as_u16_id (Z.of_nat i)), as_u16_id
      by (unfold is_u16; lia).
    assert (negb (Z.land (Z.shiftr byte (Z.of_nat (i mod 8))) 1 =? 0) = data_bit data i) as ->.
    { rewrite <- (Z.shiftr_0_r (Z.shiftr byte _)). rewrite shift_bit by lia.
      rewrite Z.shiftr_spec by lia. done. }
    destruct (do_bit_status (addr + Z.of_nat i) (data_bit data i) r h) as (x & r' & h' & E & Hx & Herr).
    rewrite E, Hx. destruct (Z.ltb_spec (addr + Z.of_nat i) 8); simpl negb; cbv iota.
    + edestruct (IH (S i) (Z.shiftr (Z.shiftr byte (Z.of_nat (i mod 8))) 1) r' h') as (ok & E2 & Hok);
        [lia|lia| |].
      { intros Hs. rewrite Z.shiftr_shiftr by lia.
        assert (S i / 8 = i / 8 /\ S i mod 8 = S (i mod 8))%nat as [-> ->].
        { pose proof (Nat.div_mod_eq (S i) 8). pose proof (Nat.mod_upper_bound (S i) 8 ltac:(lia)). lia. }
        unfold byte. f_equal. lia. }
      exists ok. split; [|rewrite Hok; lia]. rewrite E2.
      replace (Nat.min (S n) (Z.to_nat (8 - (addr + Z.of_nat i)))) with
        (S (Nat.min n (Z.to_nat (8 - (addr + Z.of_nat (S i)))))) by lia.
      unfold bits_from. simpl. by rewrite E.
    + destruct Herr as [-> ->]; [done|]. exists false.
      replace (Nat.min (S n) _) with 0%nat by lia. split; [done|]. split; [done|lia].
Qed.

Lemma be_words_cons2 a b l : be_words (a :: b :: l) = (256 * a + b) :: be_words l.
Proof. done. Qed.

Lemma be_words_drop2 l k : drop k (be_words l) = be_words (drop (2 * k) l).
Proof.
  revert l. induction k as [|k IH]; intros l; [done|].
  replace (2 * S k)%nat with (S (S (2 * k))) by lia.
  destruct l as [|a [|b l]]; [done|by destruct k|]. simpl drop. apply IH.
Qed.

Lemma data_word hdr data i :
  length hdr = 5%nat -> bytes_ok data -> (2 * i + 2 <= length data)%nat ->
  exists v, (s ← slice (hdr ++ data) (5 + i * 2) (7 + i * 2); get_be16 s) = Some v /\
    is_u16 v /\ drop i (be_words data) = v :: drop (S i) (be_words data).
Proof.
  intros Hh Hd Hi.
  destruct (drop_cons2 data (2 * i)) as (x & y & E); [lia|].
  assert (bytes_ok (drop (2 * i) data)) as Hxy by (by apply Forall_drop).
  rewrite E in Hxy. bytes_inv. exists (256 * x + y).
  rewrite slice_ok by len. cbn [mbind option_bind].
  rewrite drop_app_ge by lia. rewrite Hh.
  replace (5 + i * 2 - 5)%nat with (2 * i)%nat by lia. rewrite E.
  replace (7 + i * 2 - (5 + i * 2))%nat with 2%nat by lia. simpl take.
  rewrite get_be16_bytes by done.
  split; [f_equal; lia|]. split; [unfold is_u8, is_u16 in *; lia|].
  rewrite !be_words_drop2, E, be_words_cons2.
  by replace (2 * S i)%nat with (2 * i + 2)%nat by lia.
Qed.

Definition regs_from (addr : Z) (i : nat) (ws : list Z) : list wr :=
  imap (fun j w => WReg (addr + Z.of_nat (i + j)) w) ws.

Lemma write_regs_eq hdr data addr n i r (h : H) :
  length hdr = 5%nat -> bytes_ok data -> 0 <= addr -> addr + Z.of_nat i < 65536 ->
  (2 * (i + n) <= length data)%nat -> reg_inv r ->
  exists ok, let ws := regs_from addr i (take (Nat.min n (Z.to_nat (18 - (addr + Z.of_nat i))))
                         (drop i (be_words data))) in
    write_regs (hdr ++ data) addr n i r h =
      Some (ok, (run_writes ws (r, h)).1, (run_writes ws (r, h)).2) /\
    (ok = true <-> n = 0%nat \/ addr + Z.of_nat (i + n) <= 18).
Proof.
  intros Hh Hd Ha. revert i r h. induction n as [|n IH]; intros i r h Hi Hl Hinv; cbn [write_regs].
  - eexists; split; [done|tauto].
  - destruct (data_word hdr data i Hh Hd) as (v & -> & Hv & Edrop); [lia|].
    cbn [mbind option_bind].
    rewrite (as_u16_id (Z.of_nat i)), as_u16_id by (unfold is_u16; lia).
    destruct (io_write_holding_cases (addr + Z.of_nat i) v r h Hinv)
      as [[E Hge]|(r' & E & _ & Hinv' & Hlt)]; [lia|done| |]; rewrite E; cbn [is_ok negb].
    + exists false. replace (Nat.min (S n) _) with 0%nat by lia. split; [done|]. split; [done|lia].
    + edestruct (IH (S i) r' (apply_events h (write_events r (Z.to_nat (addr + Z.of_nat i)) v)))
        as (ok & E2 & Hok); [lia|lia|done|].
      exists ok. cbv zeta. split; [|rewrite Hok; lia]. rewrite E2. rewrite Edrop.
      replace (Nat.min (S n) (Z.to_nat (18 - (addr + Z.of_nat i)))) with
        (S (Nat.min n (Z.to_nat (18 - (addr + Z.of_nat (S i)))))) by lia.
      unfold regs_from. rewrite firstn_cons, imap_cons. cbn [run_writes foldl]. rewrite Nat.add_0_r.
      simpl run_wr at 2 4. rewrite E.
      assert (forall l, imap ((fun j w => WReg (addr + Z.of_nat (i + j)) w) ∘ S) l =
        imap (fun j w => WReg (addr + Z.of_nat (S i + j)) w) l) as ->; [|done].
      intros l. apply imap_ext. intros j w _. simpl. do 2 f_equal. lia.
Qed.
End Writes.

(** ** One lemma per function code *)

Definition after (rep : reply) (s : MbServer) : MbServer :=
  match rep with Exception _ => diag_count Exc s | _ => s end.

(** The operation answers [rep] into a buffer of the size of [out]. *)
Definition implements (fc : Z) (rep : reply) (s : MbServer) (out : list Z)
    (res : option (nat * MbServer * list Z)) : Prop :=
  exists out', res = Some (length (wire fc rep), after rep s, out') /\
    prefix_is out' (wire fc rep) /\ length out' = length out.

Lemma implements_exc fc code s out1 (out : list Z) :
  length out1 = length out -> (2 <= length out)%nat ->
  implements fc (Exception code) s out (exc_rsp fc code s out1).
Proof.
  intros Hl H2. destruct (exc_rsp_eq fc code s out1) as (out' & -> & _ & Hp & Hl'); [lia|].
  exists out'. split; [done|]. split; [done|congruence].
Qed.

Lemma implements_silent fc s out : implements fc Silent s out (Some (0%nat, s, out)).
Proof. exists out. split; [done|]. split; [apply prefix_is_nil|done]. Qed.

(** The four-byte body, decoded. *)
Ltac body4 d Hd :=
  destruct d as [|?a1 [|?a0 [|?q1 [|?q0 [|]]]]]; try apply implements_silent;
  cbn [length Nat.eqb negb]; bytes_inv;
  rewrite get_addr_eq, get_qty_eq by done; cbn [mbind option_bind].

Lemma pair_u16 a b : is_u8 a -> is_u8 b -> is_u16 (256 * a + b).
Proof. unfold is_u8, is_u16. lia. Qed.

Ltac guard_case :=
  match goal with
  | |- context [if ?b then exc_rsp _ _ _ _ else _] => destruct b eqn:?; zbool
  end.

Lemma upd_0 x l v : upd (x :: l) 0 v = Some (v :: l).
Proof. rewrite upd_ok by (simpl; lia). done. Qed.
Lemma upd_1 x y l v : upd (x :: y :: l) 1 v = Some (x :: v :: l).
Proof. rewrite upd_ok by (simpl; lia). done. Qed.

Lemma bits_fc_refines fc rd v num d s out :
  bit_reader rd v num -> num <= 16 -> bytes_ok d -> (256 <= length out)%nat ->
  implements fc (read_bits_spec fc v num d) s out
    (if negb (length d =? 4)%nat then Some (0%nat, s, out) else
     addr ← get_addr d; qty ← get_qty d;
     if (qty =? 0) || (2000 <? qty) then exc_rsp fc MB_EXC_ILLEGAL_DATA_VAL s out else
     let num_bytes := Z.to_nat ((qty - 1) / 8 + 1) in
     out ← upd out 0 fc; out ← upd out 1 (as_u8 (Z.of_nat num_bytes));
     out ← blit out 2 (replicate num_bytes 0);
     '(ok, out) ← read_bits rd (Z.to_nat qty) 0 addr out;
     if negb ok then exc_rsp fc MB_EXC_ILLEGAL_DATA_ADDR s out else
     Some ((num_bytes + 2)%nat, s, out)).
Proof.
  intros Hrd Hnum Hd Hl. body4 d Hd. unfold read_bits_spec.
  pose proof (pair_u16 a1 a0) as Hau. pose proof (pair_u16 q1 q0) as Hqu.
  set (addr := 256 * a1 + a0) in *. set (qty := 256 * q1 + q0) in *.
  assert (is_u16 addr /\ is_u16 qty) as [Ha Hq] by auto. clear Hau Hqu. unfold is_u16 in *.
  destruct ((qty =? 0) || (2000 <? qty)) eqn:G.
  { rewrite decide_True by lia. apply implements_exc; [done|lia]. }
  rewrite decide_False by lia.
  assert ((qty - 1) / 8 + 1 = (qty + 7) / 8) as -> by zdm.
  assert (1 <= (qty + 7) / 8 <= 250) as Hnb by zdm. assert (qty <= 8 * ((qty + 7) / 8)) as Hq8 by zdm.
  remember (Z.to_nat ((qty + 7) / 8)) as nb eqn:Enb. cbv zeta.
  assert ((qty + 7) / 8 = Z.of_nat nb) as Ez by lia. rewrite Ez.
  destruct (out_split2 out) as (x & y & r & -> & Hr); [lia|].
  rewrite as_u8_id by (unfold is_u8; lia). rewrite upd_0. cbn [mbind option_bind].
  rewrite upd_1. cbn [mbind option_bind].
  rewrite blit_ok by (rewrite length_replicate; simpl in *; lia). cbn [mbind option_bind].
  rewrite list_inserts_split by (rewrite length_replicate; simpl in *; lia).
  rewrite length_replicate. cbn [take drop Nat.add app]. rewrite take_0. cbn [app].
  case_decide.
  - pose proof (read_bits_all rd v num addr (Z.to_nat qty) 0 fc nb _ (drop nb r) Hrd Hnum
      ltac:(lia) ltac:(lia) ltac:(lia) eq_refl) as E.
    rewrite Z.add_0_r, Z.pow_0_r, Z.mod_1_r, le_bytes_zero in E. rewrite E. cbn [mbind option_bind].
    cbn [Nat.add negb]. rewrite Z2Nat.id by lia. eexists. split; [|split].
    + cbn [wire after]. rewrite !length_cons, le_bytes_length. do 2 f_equal. f_equal. lia.
    + apply prefix_is_app. cbn [wire]. eexists. simpl. reflexivity.
    + rewrite !length_cons, !length_app, le_bytes_length, length_drop. simpl in *. lia.
  - edestruct (read_bits_fail rd v num (Z.to_nat qty) 0 addr) as (out' & -> & Hl');
      [done|done|lia..| |].
    { rewrite !length_cons, length_app, length_replicate, length_drop. lia. }
    cbn [mbind option_bind negb]. apply implements_exc; [|lia].
    rewrite Hl', !length_cons, length_app, length_replicate, length_drop. lia.
Qed.

Lemma regs_fc_refines fc rd table d s out :
  (forall k, (k < length table)%nat -> rd (Z.of_nat k) = table !!! k) ->
  Z.of_nat (length table) < 5000 -> bytes_ok d -> (256 <= length out)%nat ->
  implements fc (read_regs_spec fc table d) s out
    (if negb (length d =? 4)%nat then Some (0%nat, s, out) else
     addr ← get_addr d; qty ← get_qty d;
     if (qty =? 0) || (125 <? qty) then exc_rsp fc MB_EXC_ILLEGAL_DATA_VAL s out else
     if MB_FP_EXTENSIONS_ADDR <=? addr then exc_rsp fc MB_EXC_ILLEGAL_FC s out else
     let num_bytes := (Z.to_nat qty * 2)%nat in
     out ← upd out 0 fc; out ← upd out 1 (as_u8 (Z.of_nat num_bytes));
     '(ok, out) ← read_regs (Z.of_nat (length table)) rd (Z.to_nat qty) 0 addr out;
     if negb ok then exc_rsp fc MB_EXC_ILLEGAL_DATA_ADDR s out else
     Some ((num_bytes + 2)%nat, s, out)).
Proof.
  intros Hrd Hlim Hd Hl. body4 d Hd. unfold read_regs_spec.
  pose proof (pair_u16 a1 a0) as Hau. pose proof (pair_u16 q1 q0) as Hqu.
  set (addr := 256 * a1 + a0) in *. set (qty := 256 * q1 + q0) in *.
  assert (is_u16 addr /\ is_u16 qty) as [Ha Hq] by auto. clear Hau Hqu. unfold is_u16 in *.
  unfold MB_FP_EXTENSIONS_ADDR.
  destruct ((qty =? 0) || (125 <? qty)) eqn:G.
  { rewrite decide_True by lia. apply implements_exc; [done|lia]. }
  rewrite decide_False by lia. destruct (Z.leb_spec 5000 addr) as [G2|G2].
  { rewrite decide_True by lia. apply implements_exc; [done|lia]. }
  rewrite decide_False by lia. cbv zeta.
  destruct (out_split2 out) as (x & y & r & -> & Hr); [lia|].
  rewrite as_u8_id by (unfold is_u8; lia). rewrite upd_0. cbn [mbind option_bind].
  rewrite upd_1. cbn [mbind option_bind]. simpl length in Hl.
  replace (Z.of_nat (Z.to_nat qty * 2)) with (2 * qty) by lia. case_decide.
  - destruct (read_regs_all table rd _ (Z.to_nat qty) 0 (Z.to_nat addr) fc (2 * qty) r Hrd eq_refl)
      as (r' & E & Hr'); [lia..|].
    rewrite Nat.add_0_r, take_0, Z2Nat.id in E by lia. cbn [words_be mbind list_bind app] in E.
    rewrite E. cbn [mbind option_bind negb Nat.add].
    assert (length (words_be (take (Z.to_nat qty) (drop (Z.to_nat addr) table))) = 2 * Z.to_nat qty)%nat
      as Hw by (rewrite words_be_length; len).
    eexists. split; [|split].
    + cbn [wire after]. rewrite !length_cons, Hw. do 2 f_equal. f_equal. lia.
    + apply prefix_is_app. cbn [wire]. eexists. simpl. reflexivity.
    + rewrite !length_cons, length_app, Hw. lia.
  - edestruct (read_regs_fail (Z.of_nat (length table)) rd (Z.to_nat qty) 0 addr) as (out' & -> & Hl');
      [lia..| |]; cbn [mbind option_bind negb].
    { rewrite !length_cons. lia. }
    apply implements_exc; [by rewrite Hl'|simpl; lia].
Qed.

Ltac echo_done :=
  match goal with |- context [echo_rsp ?f ?a ?b ?s ?o] =>
    let out' := fresh "out'" in
    destruct (echo_rsp_eq f a b s o) as (out' & -> & _ & ? & ?); [lia|];
    exists out'; destruct s; done
  end.

Lemma fc08_refines d s out :
  diag_wf (diag s) -> bytes_ok d -> (256 <= length out)%nat ->
  exists out', fc08 d s out =
    Some (length (wire 8 (diag_spec d (diag s)).1),
          after (diag_spec d (diag s)).1 (mkMbServer (diag_spec d (diag s)).2), out') /\
    prefix_is out' (wire 8 (diag_spec d (diag s)).1) /\ length out' = length out.
Proof.
  intros [Hlen _] Hd Hl. unfold fc08.
  destruct d as [|s1 [|s0 [|d1 [|d0 [|]]]]];
    try (exists out; destruct s; split; [done|]; split; [apply prefix_is_nil|done]).
  cbn [length Nat.eqb negb]. bytes_inv.
  rewrite get_addr_eq, get_qty_eq by done. cbn [mbind option_bind diag_spec].
  set (sub := 256 * s1 + s0).
  unfold MB_FC08_SUBF_QUERY, MB_FC08_SUBF_CLR_CTR, MB_FC08_SUBF_BUS_MSG_CTR,
    MB_FC08_SUBF_BUS_CRC_CTR, MB_FC08_SUBF_BUS_EXCEPT_CTR, MB_FC08_SUBF_SERVER_MSG_CTR,
    MB_FC08_SUBF_SERVER_NO_RESP_CTR, MB_FC08_DIAGNOSTICS, MB_EXC_ILLEGAL_FC.
  destruct (decide (sub = 0)) as [E|]; [|destruct (decide (sub = 10)) as [E|];
   [|destruct (decide (11 <= sub <= 15)) as [Hr|Hr]]]; cbn [fst snd].
  1-2: rewrite E; cbn [Z.eqb Pos.eqb]; echo_done.
  - assert (sub = 11 \/ sub = 12 \/ sub = 13 \/ sub = 14 \/ sub = 15) as Hs by lia.
    destruct Hs as [E|[E|[E|[E|E]]]]; rewrite E; cbn [Z.eqb Pos.eqb]; echo_done.
  - rewrite !(proj2 (Z.eqb_neq sub _)) by lia.
    destruct (implements_exc 8 1 s out out) as (out' & -> & Hp & Hl'); [done|lia|].
    exists out'. destruct s; done.
Qed.

(** A write request: answer, register map and hooks together. *)
Definition implements_wr {H} `{!RegHooks H} (fc : Z) (sp : reply * list wr) (s : MbServer)
    (out : list Z) (r : RegMap) (h : H)
    (res : option (nat * MbServer * list Z * RegMap * H)) : Prop :=
  exists out', res = Some (length (wire fc sp.1), after sp.1 s, out',
      (run_writes sp.2 (r, h)).1, (run_writes sp.2 (r, h)).2) /\
    prefix_is out' (wire fc sp.1) /\ length out' = length out.

Section WriteCodes.
Context {H : Type} `{!RegHooks H}.
Implicit Types (r : RegMap) (h : H).

(** The answer of a write loop: the echo of the request, or "illegal address". *)
Lemma answer_wr fc a1 a0 v1 v0 ws (ok : bool) s out r h :
  is_u8 a1 -> is_u8 a0 -> is_u8 v1 -> is_u8 v0 -> (256 <= length out)%nat ->
  implements_wr fc (if ok then Reply [fc; a1; a0; v1; v0] else Exception 2, ws) s out r h
    (rsp ← (if negb ok then exc_rsp fc MB_EXC_ILLEGAL_DATA_ADDR s out
            else echo_rsp fc (256 * a1 + a0) (256 * v1 + v0) s out);
     Some (rsp, (run_writes ws (r, h)).1, (run_writes ws (r, h)).2)).
Proof.
  intros Ha1 Ha0 Hv1 Hv0 Hl. destruct ok; cbn [negb].
  - edestruct echo_rsp_eq as (out' & -> & _ & Hp & Hl'); [|eexists; split; [done|]]; [lia|].
    rewrite !be_bytes_of in Hp by done. done.
  - destruct (implements_exc fc MB_EXC_ILLEGAL_DATA_ADDR s out out) as (out' & -> & Hp & Hl'); [done|lia|].
    eexists. split; [done|]. done.
Qed.

Lemma exc_wr fc code s out r h :
  (256 <= length out)%nat ->
  implements_wr fc (Exception code, []) s out r h
    (rsp ← exc_rsp fc code s out; Some (rsp, r, h)).
Proof.
  intros Hl. destruct (implements_exc fc code s out out) as (out' & -> & Hp & Hl'); [done|lia|].
  eexists. split; [done|]. done.
Qed.

Lemma silent_wr fc s out r h :
  implements_wr fc (Silent, []) s out r h (Some (0%nat, s, out, r, h)).
Proof. exists out. split; [done|]. split; [apply prefix_is_nil|done]. Qed.

Lemma fc05_refines d s out r h :
  bytes_ok d -> (256 <= length out)%nat ->
  implements_wr 5 (write_spec 5 d) s out r h (fc05 d s out r h).
Proof.
  intros Hd Hl. unfold fc05.
  destruct d as [|a1 [|a0 [|v1 [|v0 [|x [|y d]]]]]]; try apply silent_wr.
  cbn [length Nat.eqb negb]. bytes_inv.
  rewrite get_addr_eq, get_qty_eq by done. cbn [mbind option_bind write_spec].
  rewrite (decide_True (P := 5 = 5)) by done. cbn [take].
  destruct (do_bit_status (256 * a1 + a0) (negb (256 * v1 + v0 =? 0)) r h)
    as (x & r' & h' & E & Hx & Herr). rewrite E, Hx.
  case_decide as Hlt.
  - rewrite (proj2 (Z.ltb_lt _ _)) by done.
    pose proof (answer_wr 5 a1 a0 v1 v0 [WBit (256 * a1 + a0) (negb (256 * v1 + v0 =? 0))]
      true s out r h) as A.
    simpl in A. rewrite E in A. apply A; done.
  - rewrite (proj2 (Z.ltb_ge _ _)) by lia. destruct Herr as [-> ->]; [lia|].
    by apply exc_wr.
Qed.

Lemma fc06_refines d s out r h :
  bytes_ok d -> (256 <= length out)%nat -> reg_inv r ->
  implements_wr 6 (write_spec 6 d) s out r h (fc06 d s out r h).
Proof.
  intros Hd Hl Hinv. unfold fc06.
  destruct d as [|a1 [|a0 [|v1 [|v0 [|x [|y d]]]]]]; try apply silent_wr.
  cbn [length Nat.eqb negb]. bytes_inv.
  rewrite get_addr_eq, get_qty_eq by done. cbn [mbind option_bind write_spec].
  rewrite (decide_False (P := 6 = 5)), (decide_True (P := 6 = 6)) by done. cbn [take].
  pose proof (pair_u16 a1 a0) as Ha. pose proof (pair_u16 v1 v0) as Hv.
  destruct (io_write_holding_cases (256 * a1 + a0) (256 * v1 + v0) r h Hinv)
    as [[E Hge]|(r' & E & _ & _ & Hlt)]; [unfold is_u8 in *; lia|auto| |]; rewrite E; cbn [is_ok negb].
  - rewrite decide_False by lia. by apply exc_wr.
  - rewrite decide_True by lia.
    pose proof (answer_wr 6 a1 a0 v1 v0 [WReg (256 * a1 + a0) (256 * v1 + v0)] true s out r h) as A.
    simpl in A. rewrite E in A. apply A; done.
Qed.

Lemma if_decide_ok {A} (P : Prop) `{!Decision P} (ok : bool) (x y : A) :
  (ok = true <-> P) -> (if decide P then x else y) = if ok then x else y.
Proof. intros HP. case_decide; destruct ok; tauto || (exfalso; intuition congruence). Qed.

Lemma fc15_refines d s out r h :
  bytes_ok d -> (256 <= length out)%nat ->
  implements_wr 15 (write_spec 15 d) s out r h (fc15 d s out r h).
Proof.
  intros Hd Hl. unfold fc15.
  destruct d as [|a1 [|a0 [|q1 [|q0 [|nb [|x data]]]]]]; try apply silent_wr.
  cbn [length Nat.ltb Nat.leb]. set (rest := x :: data) in *.
  assert (length rest = S (length data)) as Hrest by done. bytes_inv.
  rewrite get_addr_eq, get_qty_eq by done. cbn [mbind option_bind write_spec lookup list_lookup].
  fold rest. rewrite (decide_True (P := 15 = 15)) by done. cbn [take].
  pose proof (pair_u16 a1 a0) as Hau. pose proof (pair_u16 q1 q0) as Hqu.
  assert (is_u16 (256 * a1 + a0) /\ is_u16 (256 * q1 + q0)) as [Ha Hq] by auto. clear Hau Hqu.
  set (addr := 256 * a1 + a0) in *. set (qty := 256 * q1 + q0) in *. unfold is_u16 in *.
  destruct ((qty =? 0) || (2000 <? qty)) eqn:G.
  { rewrite decide_True by lia. by apply exc_wr. }
  rewrite decide_False by lia.
  assert ((qty - 1) / 8 + 1 = (qty + 7) / 8) as -> by zdm.
  destruct (negb _ || negb _) eqn:G2.
  { rewrite decide_True by (unfold is_u8 in *; blia). by apply exc_wr. }
  assert (nb = (qty + 7) / 8 /\ Z.of_nat (length rest) = nb) as [Hnb Hlen] by (unfold is_u8 in *; zbool; lia).
  rewrite decide_False by tauto.
  edestruct (write_bits_eq [a1; a0; q1; q0; nb] rest addr (Z.to_nat qty) 0 0 r h) as (ok & E & Hok);
    [done|lia|lia|zdm|done|].
  change (a1 :: a0 :: q1 :: q0 :: nb :: rest) with ([a1; a0; q1; q0; nb] ++ rest).
  rewrite E. cbn [mbind option_bind].
  rewrite (if_decide_ok (addr + qty <= 8) ok) by (rewrite Hok; lia).
  replace (Nat.min _ _) with (Z.to_nat (Z.min qty (8 - addr))) by lia.
  by apply answer_wr.
Qed.

Lemma fc16_refines d s out r h :
  bytes_ok d -> Z.of_nat (length d) <= 65535 -> (256 <= length out)%nat -> reg_inv r ->
  implements_wr 16 (write_spec 16 d) s out r h (fc16 d s out r h).
Proof.
  intros Hd Hd16 Hl Hinv. unfold fc16.
  destruct d as [|a1 [|a0 [|q1 [|q0 [|nb [|x data]]]]]]; try apply silent_wr.
  cbn [length Nat.ltb Nat.leb] in *. set (rest := x :: data) in *.
  assert (length rest = S (length data)) as Hrest by done.
  assert (bytes_ok rest) as Hdata by (do 5 (apply Forall_cons_1 in Hd as [_ Hd]); exact Hd). bytes_inv.
  rewrite get_addr_eq, get_qty_eq by done. cbn [mbind option_bind write_spec lookup list_lookup].
  fold rest. rewrite (decide_False (P := 16 = 15)), (decide_True (P := 16 = 16)) by done. cbn [take].
  pose proof (pair_u16 a1 a0) as Hau. pose proof (pair_u16 q1 q0) as Hqu.
  assert (is_u16 (256 * a1 + a0) /\ is_u16 (256 * q1 + q0)) as [Ha Hq] by auto. clear Hau Hqu.
  set (addr := 256 * a1 + a0) in *. set (qty := 256 * q1 + q0) in *.
  unfold is_u16, MB_FP_EXTENSIONS_ADDR in *.
  rewrite (as_u16_id (Z.of_nat _)), as_u16_id by (unfold is_u16; lia).
  destruct ((qty =? 0) || (125 <? qty)) eqn:G.
  { rewrite decide_True by lia. by apply exc_wr. }
  rewrite decide_False by lia. destruct (Z.leb_spec 5000 addr) as [G2|G2].
  { rewrite decide_True by lia. by apply exc_wr. }
  rewrite decide_False by lia. rewrite as_u8_id by (unfold is_u8; lia).
  destruct (negb (_ - 5 =? nb)) eqn:G3; zbool.
  { rewrite decide_True by (left; lia). by apply exc_wr. }
  destruct (negb (nb / qty =? 2)) eqn:G4; zbool.
  { rewrite decide_True by (right; done). by apply exc_wr. }
  rewrite decide_False by (intros [C|C]; [lia|done]).
  assert (2 * qty <= nb) as Hnb by (pose proof (Z.mul_div_le nb qty); lia).
  edestruct (write_regs_eq [a1; a0; q1; q0; nb] rest addr (Z.to_nat qty) 0 r h) as (ok & E & Hok);
    [done|done|lia|lia|lia|done|]. cbv zeta in E.
  change (a1 :: a0 :: q1 :: q0 :: nb :: rest) with ([a1; a0; q1; q0; nb] ++ rest).
  rewrite E. cbn [mbind option_bind].
  rewrite (if_decide_ok (addr + qty <= 18) ok) by (rewrite Hok; lia).
  replace (Nat.min _ _) with (Z.to_nat (Z.min qty (18 - addr))) by lia.
  by apply answer_wr.
Qed.
End WriteCodes.

(** ** The whole server *)

Lemma diag_count_wf c s : diag_wf (diag s) -> diag_wf (diag (diag_count c s)).
Proof.
  intros [Hl Hw]. split; [simpl; by rewrite length_insert|]. apply Forall_insert; [done|].
  unfold is_u16, saturating_add_u16, diag_get.
  destruct (lookup_lt_is_Some_2 (diag s) (diag_index c)) as [v Hv]; [rewrite Hl; destruct c; simpl; lia|].
  rewrite (list_lookup_total_correct _ _ _ Hv).
  pose proof (Forall_lookup_1 _ _ _ _ Hw Hv) as Hvv. unfold is_u16 in Hvv. simpl. lia.
Qed.

Lemma holding_reads {H} `{!RegHooks H} r (h : H) k :
  reg_wf r -> (k < length (live_holding r h))%nat ->
  io_read_holding r (Z.of_nat k) h = live_holding r h !!! k.
Proof.
  intros (Hl & _) Hk. unfold live_holding in *. rewrite !length_insert in Hk.
  unfold io_read_holding, get_holding, as_u16. rewrite Nat2Z.id.
  rewrite Z.shiftr_div_pow2 by lia. change (2 ^ 16) with 65536.
  destruct (Nat.eqb_spec k HOLDING_TIMESTAMP_HI_IDX) as [->|].
  { rewrite list_lookup_total_insert_eq; [done|by rewrite length_insert]. }
  rewrite list_lookup_total_insert_ne by done.
  destruct (Nat.eqb_spec k HOLDING_TIMESTAMP_LO_IDX) as [->|].
  { by rewrite list_lookup_total_insert_eq. }
  rewrite list_lookup_total_insert_ne by done. by rewrite list_lookup_lookup_total_lt.
Qed.

Lemma input_reads r k : (k < length (input r))%nat -> get_input r (Z.of_nat k) = input r !!! k.
Proof. intros. unfold get_input. by rewrite Nat2Z.id, list_lookup_lookup_total_lt. Qed.

(** What [process] promises for a request [fc :: d]. *)
Definition refines {H} `{!RegHooks H} (fc : Z) (sp : reply * list Z * list wr) (out : list Z)
    (r : RegMap) (h : H) (res : option (nat * MbServer * list Z * RegMap * H)) : Prop :=
  let '(rep, dg, ws) := sp in
  exists out', res = Some (length (wire fc rep), mkMbServer dg, out',
      (run_writes ws (r, h)).1, (run_writes ws (r, h)).2) /\
    prefix_is out' (wire fc rep) /\ length out' = length out.

Section Process.
Context {H : Type} `{!RegHooks H}.

Lemma refines_read fc rep s out r (h : H) res :
  implements fc rep s out res ->
  refines fc (settle (rep, diag s, [])) out r h (rsp ← res; Some (rsp, r, h)).
Proof.
  intros (out' & -> & Hp & Hl).
  destruct rep, s; (eexists; split; [reflexivity|done]).
Qed.

Lemma refines_write fc sp s out r (h : H) res :
  implements_wr fc sp s out r h res ->
  refines fc (settle (sp.1, diag s, sp.2)) out r h res.
Proof.
  intros (out' & -> & Hp & Hl). destruct sp as [rep ws].
  destruct rep, s; (eexists; split; [reflexivity|done]).
Qed.

Lemma coil_reader r : bit_reader (io_coil_rd r) (holding r !!! 0%nat) 8.
Proof. intros a Ha. by apply io_coil_rd_eq. Qed.
Lemma discrete_reader r : bit_reader (io_discrete_rd r) (input r !!! 5%nat) 16.
Proof. intros a Ha. by apply io_discrete_rd_eq. Qed.

Ltac pick_fc :=
  repeat rewrite decide_False by lia; rewrite decide_True by lia.

Lemma process_spec fc d s out r (h : H) :
  bytes_ok (fc :: d) -> Z.of_nat (length d) <= 65535 -> reg_inv r -> diag_wf (diag s) ->
  (256 <= length out)%nat ->
  refines fc (mb_spec fc d (diag s) r h) out r h (process (fc :: d) s out r h).
Proof.
  intros [Hfc Hd]%bytes_ok_inv Hd16 Hinv Hs Hl. pose proof Hinv as (Hwf & _).
  pose proof Hwf as (Hlh & _ & Hli & _).
  set (s2 := diag_count SrvMsg (diag_count BusMsg s)).
  assert (diag_wf (diag s2)) as Hs2 by (by do 2 apply diag_count_wf).
  change (mb_spec fc d (diag s) r h) with (settle (mb_core fc d (diag s2) r h)).
  unfold mb_core.
  unfold process. fold s2.
  unfold MB_FC01_COIL_RD, MB_FC02_DI_RD, MB_FC03_HOLDING_REG_RD, MB_FC04_IN_REG_RD, MB_FC05_COIL_WR,
    MB_FC06_HOLDING_REG_WR, MB_FC08_DIAGNOSTICS, MB_FC15_COILS_WR, MB_FC16_HOLDING_REGS_WR in *.
  destruct (Z.eqb_spec fc 1) as [->|].
  { apply refines_read, (bits_fc_refines 1); auto using coil_reader; lia. }
  destruct (Z.eqb_spec fc 2) as [->|].
  { apply refines_read, (bits_fc_refines 2); auto using discrete_reader; lia. }
  destruct (Z.eqb_spec fc 3) as [->|].
  { assert (length (live_holding r h) = 18%nat) as Hlen.
    { unfold live_holding. by rewrite !length_insert. }
    pose proof (regs_fc_refines 3 (fun a => io_read_holding r a h) (live_holding r h) d s2 out
      (fun k Hk => holding_reads r h k Hwf Hk)) as A.
    rewrite Hlen in A. apply refines_read, A; auto; lia. }
  destruct (Z.eqb_spec fc 4) as [->|].
  { pose proof (regs_fc_refines 4 (get_input r) (input r) d s2 out (input_reads r)) as A.
    rewrite Hli in A. apply refines_read, A; auto; unfold MODBUS_INPUT_REGISTER_NUMBERS; lia. }
  destruct (Z.eqb_spec fc 5) as [->|].
  { pose proof (refines_write _ _ _ _ _ _ _ (fc05_refines d s2 out r h Hd Hl)) as A.
    pick_fc. by destruct (write_spec 5 d). }
  destruct (Z.eqb_spec fc 6) as [->|].
  { pose proof (refines_write _ _ _ _ _ _ _ (fc06_refines d s2 out r h Hd Hl Hinv)) as A.
    pick_fc. by destruct (write_spec 6 d). }
  destruct (Z.eqb_spec fc 8) as [->|].
  { destruct (fc08_refines d s2 out Hs2 Hd Hl) as (out' & -> & Hp & Hlen). pick_fc.
    destruct (diag_spec d _) as [rep dg]; destruct rep; eexists; (split; [reflexivity|done]). }
  destruct (Z.eqb_spec fc 15) as [->|].
  { pose proof (refines_write _ _ _ _ _ _ _ (fc15_refines d s2 out r h Hd Hl)) as A.
    pick_fc. by destruct (write_spec 15 d). }
  destruct (Z.eqb_spec fc 16) as [->|].
  { pose proof (refines_write _ _ _ _ _ _ _ (fc16_refines d s2 out r h Hd Hd16 Hl Hinv)) as A.
    pick_fc. by destruct (write_spec 16 d). }
  rewrite !decide_False by lia.
  apply refines_read, implements_exc; [done|lia].
Qed.
End Process.

(** ** Consequences *)

Lemma wire_bound {H} `{!RegHooks H} fc d dg r (h : H) :
  (length (wire fc (mb_spec fc d dg r h).1.1) <= 252)%nat.
Proof.
  assert (forall f v n, (length (wire fc (read_bits_spec f v n d)) <= 252)%nat) as Hb.
  { intros. unfold read_bits_spec. destruct d as [|a1 [|a0 [|q1 [|q0 [|]]]]]; simpl; try lia.
    repeat case_decide; simpl; try lia. rewrite le_bytes_length. zdm. }
  assert (forall f t, (length (wire fc (read_regs_spec f t d)) <= 252)%nat) as Hr.
  { intros. unfold read_regs_spec. destruct d as [|a1 [|a0 [|q1 [|q0 [|]]]]]; simpl; try lia.
    repeat case_decide; simpl; try lia. rewrite words_be_length. len. }
  assert (forall l, (length (wire fc (diag_spec d l).1) <= 252)%nat) as Hdg.
  { intros. unfold diag_spec. destruct d as [|a1 [|a0 [|q1 [|q0 [|]]]]]; simpl; try lia.
    repeat case_decide; simpl; lia. }
  assert ((length (wire fc (write_spec fc d).1) <= 252)%nat) as Hw.
  { unfold write_spec. destruct d as [|a1 [|a0 [|q1 [|q0 [|x [|y l]]]]]]; simpl; try lia;
    repeat case_decide; simpl; lia. }
  assert (forall x, length (wire fc (settle x).1.1) = length (wire fc x.1.1)) as Hset
    by (by intros [[[|p|c] dg'] ws]).
  unfold mb_spec, mb_core. rewrite Hset.
  repeat case_decide; cbn [fst]; auto.
  - destruct (write_spec fc d). exact Hw.
  - simpl. lia.
Qed.

Lemma le_bytes_ok n x : bytes_ok (le_bytes n x).
Proof.
  unfold le_bytes. induction (seq 0 n) as [|k l IH]; [constructor|].
  apply bytes_ok_cons; [apply as_u8_range|exact IH].
Qed.

Lemma words_be_ok ws : bytes_ok (words_be ws).
Proof. induction ws; [constructor|]. apply bytes_ok_app; [apply to_be_bytes16_ok|done]. Qed.

(** Answers are bytes. *)
Lemma wire_bytes {H} `{!RegHooks H} fc d dg r (h : H) :
  is_u8 fc -> bytes_ok d -> bytes_ok (wire fc (mb_spec fc d dg r h).1.1).
Proof.
  intros Hfc Hd.
  assert (forall x, wire fc (settle x).1.1 = wire fc x.1.1) as Hset
    by (by intros [[[|p|c] dg'] ws]).
  assert (forall c, is_u8 c -> bytes_ok (wire fc (Exception c))) as Hexc.
  { intros c Hc. apply bytes_ok_cons; [by apply lor_u8|]. apply bytes_ok_cons; [done|constructor]. }
  unfold mb_spec, mb_core. rewrite Hset. clear Hset.
  assert (forall f v n, is_u8 f -> bytes_ok (wire fc (read_bits_spec f v n d))) as Hb.
  { intros f v n Hf. unfold read_bits_spec. destruct d as [|a1 [|a0 [|q1 [|q0 [|]]]]]; try constructor.
    repeat case_decide; try (apply Hexc; unfold is_u8; lia). bytes_inv.
    apply bytes_ok_cons; [done|]. apply bytes_ok_cons; [unfold is_u8 in *; zdm|apply le_bytes_ok]. }
  assert (forall f t, is_u8 f -> bytes_ok (wire fc (read_regs_spec f t d))) as Hr.
  { intros f t Hf. unfold read_regs_spec. destruct d as [|a1 [|a0 [|q1 [|q0 [|]]]]]; try constructor.
    repeat case_decide; try (apply Hexc; unfold is_u8; lia). bytes_inv.
    apply bytes_ok_cons; [done|]. apply bytes_ok_cons; [unfold is_u8 in *; lia|apply words_be_ok]. }
  assert (forall l, bytes_ok (wire fc (diag_spec d l).1)) as Hdg.
  { intros l. unfold diag_spec. destruct d as [|a1 [|a0 [|q1 [|q0 [|]]]]]; try constructor.
    repeat case_decide; cbn [fst]; try (apply Hexc; unfold is_u8; lia);
      (apply bytes_ok_cons; [unfold is_u8; lia|]); apply bytes_ok_app; apply to_be_bytes16_ok. }
  assert (bytes_ok (wire fc (write_spec fc d).1)) as Hw.
  { assert (bytes_ok (fc :: take 4 d)) as Hecho by (apply bytes_ok_cons; [done|by apply Forall_take]).
    unfold write_spec. destruct d as [|a1 [|a0 [|q1 [|q0 [|x [|y l]]]]]]; try constructor;
    repeat case_decide; cbn [fst]; try (apply Hexc; unfold is_u8; lia); try done; constructor. }
  repeat case_decide; cbn [fst]; try (apply Hb; unfold is_u8; lia); try (apply Hr; unfold is_u8; lia);
    auto; [|apply Hexc; unfold is_u8; lia].
  destruct (write_spec fc d). exact Hw.
Qed.

Lemma reg_writes_run {H} `{!RegHooks H} ws a i r (h : H) :
  reg_inv r -> words_ok ws -> 0 <= a -> a + Z.of_nat (i + length ws) <= 16 ->
  holding (run_writes (regs_from a i ws) (r, h)).1 =
    list_inserts (Z.to_nat a + i) ws (holding r) /\
  reg_inv (run_writes (regs_from a i ws) (r, h)).1.
Proof.
  intros Hinv Hws Ha. revert i r h Hinv. induction Hws as [|w ws Hw Hws IH]; intros i r h Hinv Hl; [done|].
  simpl length in Hl.
  unfold regs_from. rewrite imap_cons. cbn [run_writes foldl run_wr fst snd]. rewrite Nat.add_0_r.
  destruct (io_write_holding_cases (a + Z.of_nat i) w r h Hinv) as [[_ ?]|(r' & E & Er & Hinv' & _)];
    [lia|done|lia|]. rewrite E.
  assert (imap ((fun j w => WReg (a + Z.of_nat (i + j)) w) ∘ S) ws = regs_from a (S i) ws) as ->.
  { apply imap_ext. intros j x _. simpl. do 2 f_equal. lia. }
  edestruct (IH (S i) r') as [E2 ?]; [done|lia|]. split; [|done].
  etransitivity; [exact E2|]. subst r'. rewrite set_holding_holding.
  replace (Z.to_nat a + S i)%nat with (S (Z.to_nat a + i)) by lia. simpl.
  replace (Z.to_nat (a + Z.of_nat i)) with (Z.to_nat a + i)%nat by lia.
  rewrite list_insert_inserts_lt by lia. do 2 f_equal.
  unfold stored. rewrite decide_False; [done|].
  unfold HOLDING_CONFIG_SAVE_IDX, HOLDING_REBOOT_IDX. lia.
Qed.

(** The data words of a write request are the words it was built from. *)
Lemma be_words_be ws : words_ok ws -> be_words (words_be ws) = ws.
Proof.
  induction 1 as [|w ws Hw _ IH]; [done|]. simpl. rewrite IH. f_equal.
  unfold is_u16 in Hw. zdm.
Qed.

Lemma write_spec_fc16 addr ws :
  words_ok ws -> is_u16 addr -> (0 < length ws)%nat -> addr + Z.of_nat (length ws) <= 18 ->
  write_spec 16 (to_be_bytes16 addr ++ to_be_bytes16 (Z.of_nat (length ws)) ++
      [2 * Z.of_nat (length ws)] ++ words_be ws) =
    (Reply (16 :: to_be_bytes16 addr ++ to_be_bytes16 (Z.of_nat (length ws))),
     regs_from addr 0 ws).
Proof.
  intros Hws Ha Hn Hle. unfold is_u16 in Ha. destruct ws as [|w ws]; [simpl in Hn; lia|].
  set (q := Z.of_nat (length (w :: ws))) in *.
  pose proof (words_be_length (w :: ws)) as Hlen. pose proof (be_words_be (w :: ws) Hws) as Hbe.
  destruct (words_be (w :: ws)) as [|b bs] eqn:E; [done|].
  unfold write_spec, to_be_bytes16. cbn [app take].
  rewrite (decide_False (P := 16 = 15)), (decide_True (P := 16 = 16)) by done.
  replace (256 * (addr / 256 mod 256) + addr mod 256) with addr by zdm.
  replace (256 * (q / 256 mod 256) + q mod 256) with q by zdm.
  rewrite decide_False by lia. rewrite decide_False by lia.
  rewrite decide_False by (intros [C|C]; [lia|apply C; apply Z.div_mul; lia]).
  rewrite decide_True by lia. unfold q at 2. rewrite Hbe. f_equal.
  unfold reg_writes, regs_from. rewrite take_ge by lia. done.
Qed.

Lemma take_drop_inserts (l ws : list Z) i :
  (i + length ws <= length l)%nat -> take (length ws) (drop i (list_inserts i ws l)) = ws.
Proof.
  intros Hl. rewrite list_inserts_split by done.
  rewrite drop_app_ge by len. rewrite length_take_le, Nat.sub_diag by lia. simpl.
  apply take_app_length.
Qed.

Lemma read_spec_fc3 table addr n :
  is_u16 addr -> (0 < n)%nat -> addr + Z.of_nat n <= 18 -> length table = 18%nat ->
  read_regs_spec 3 table (to_be_bytes16 addr ++ to_be_bytes16 (Z.of_nat n)) =
    Reply (3 :: 2 * Z.of_nat n :: words_be (take n (drop (Z.to_nat addr) table))).
Proof.
  intros Ha Hn Hle Ht. unfold is_u16 in Ha. unfold read_regs_spec, to_be_bytes16. cbn [app].
  replace (256 * (addr / 256 mod 256) + addr mod 256) with addr by zdm.
  replace (256 * (Z.of_nat n / 256 mod 256) + Z.of_nat n mod 256) with (Z.of_nat n) by zdm.
  rewrite !decide_False by lia. rewrite decide_True by lia. by rewrite Nat2Z.id.
Qed.

Section Runs.
Context {H : Type} `{!RegHooks H} (addr : Z) (out : list Z).
Hypothesis Haddr : is_u16 addr.
Hypothesis Hout : (256 <= length out)%nat.

Lemma fc16_run ws s r (h : H) :
  words_ok ws -> (0 < length ws)%nat -> addr + Z.of_nat (length ws) <= 16 ->
  reg_inv r -> diag_wf (diag s) ->
  let n := Z.of_nat (length ws) in
  let req := to_be_bytes16 addr ++ to_be_bytes16 n in
  exists s1 out1 r1 h1,
    process (16 :: req ++ [2 * n] ++ words_be ws) s out r h = Some (5%nat, s1, out1, r1, h1) /\
    prefix_is out1 (16 :: req) /\ length out1 = length out /\ diag_wf (diag s1) /\
    holding r1 = list_inserts (Z.to_nat addr) ws (holding r) /\ reg_inv r1.
Proof.
  intros Hws Hn Hle Hr Hs n req. unfold is_u16 in Haddr.
  assert (bytes_ok (16 :: req ++ [2 * n] ++ words_be ws)) as Hreq.
  { apply bytes_ok_cons; [unfold is_u8; lia|].
    apply bytes_ok_app; [apply bytes_ok_app; apply to_be_bytes16_ok|].
    apply bytes_ok_cons; [unfold is_u8; lia|apply words_be_ok]. }
  pose proof (process_spec 16 (req ++ [2 * n] ++ words_be ws) s out r h Hreq) as A.
  unfold mb_spec, mb_core in A. repeat rewrite decide_False in A by lia.
  rewrite decide_True in A by lia. unfold req in A at 2. rewrite <- app_assoc in A.
  pose proof (write_spec_fc16 addr ws Hws Haddr Hn ltac:(lia)) as W. fold n in W. rewrite W in A.
  destruct A as (out1 & E1 & Hp1 & Hl1); try done.
  { rewrite !length_app, words_be_length. unfold req. simpl. lia. }
  destruct (run_writes (regs_from addr 0 ws) (r, h)) as [r1 h1] eqn:Er.
  destruct (reg_writes_run ws addr 0 r h Hr Hws ltac:(lia) ltac:(lia)) as [Hh1 Hr1].
  rewrite Er in Hh1, Hr1. rewrite Nat.add_0_r in Hh1.
  do 4 eexists. split; [exact E1|]. split; [exact Hp1|]. split; [done|]. split; [|done].
  apply (diag_count_wf SrvMsg (diag_count BusMsg s)), diag_count_wf, Hs.
Qed.

Lemma fc03_run n s r (h : H) :
  (0 < n)%nat -> addr + Z.of_nat n <= 18 -> reg_inv r -> diag_wf (diag s) ->
  exists s1 out1 r1 h1,
    process (3 :: to_be_bytes16 addr ++ to_be_bytes16 (Z.of_nat n)) s out r h =
      Some ((2 + 2 * n)%nat, s1, out1, r1, h1) /\
    prefix_is out1 (3 :: 2 * Z.of_nat n ::
      words_be (take n (drop (Z.to_nat addr) (live_holding r h)))).
Proof.
  intros Hn Hle Hr Hs. unfold is_u16 in Haddr.
  assert (length (live_holding r h) = 18%nat) as Hlen
    by (unfold live_holding; rewrite !length_insert; apply Hr).
  pose proof (process_spec 3 (to_be_bytes16 addr ++ to_be_bytes16 (Z.of_nat n)) s out r h) as A.
  unfold mb_spec, mb_core in A. do 2 rewrite decide_False in A by lia.
  rewrite decide_True in A by lia.
  rewrite read_spec_fc3 in A by (done || lia).
  destruct A as (out2 & E2 & Hp2 & _); try done.
  { apply bytes_ok_cons; [unfold is_u8; lia|]. apply bytes_ok_app; apply to_be_bytes16_ok. }
  do 4 eexists. split; [|exact Hp2]. rewrite E2. f_equal. repeat f_equal.
  cbn [settle wire]. rewrite !length_cons, words_be_length. len.
Qed.
End Runs.

(** ** Properties *)

(** C1: the PDU server implements its specification.  For every request of bytes,
    from any reachable register map and counters, with a reply buffer of at
    least [MB_SERVER_PDU_MAX] bytes, [process] does not panic; the buffer starts
    with exactly the specified answer (at most 252 bytes), the registers and
    hooks are those of the specified sequence of register-map writes (the writes
    before the first bad address included), the diagnostic counters are the
    specified ones, and the invariants of the register map hold again. *)
Theorem process_refines {H} `{!RegHooks H} fc d s out r (h : H)
    (Hd : bytes_ok (fc :: d)) (Hlen : Z.of_nat (length d) <= 65535)
    (Hr : reg_inv r) (Hs : diag_wf (diag s)) (Hout : (MB_SERVER_PDU_MAX <= length out)%nat) :
  exists rep dg ws out' r' h',
    mb_spec fc d (diag s) r h = (rep, dg, ws) /\
    process (fc :: d) s out r h = Some (length (wire fc rep), mkMbServer dg, out', r', h') /\
    (r', h') = run_writes ws (r, h) /\
    prefix_is out' (wire fc rep) /\ length out' = length out /\
    (length (wire fc rep) <= 252)%nat.
Proof.
  pose proof (process_spec fc d s out r h Hd Hlen Hr Hs Hout) as A.
  pose proof (wire_bound fc d (diag s) r h) as B.
  destruct (mb_spec fc d (diag s) r h) as [[rep dg] ws]. destruct A as (out' & -> & Hp & Hl).
  destruct (run_writes ws (r, h)) as [r' h'] eqn:E.
  exists rep, dg, ws, out', r', h'. rewrite E. done.
Qed.

Lemma process_refines_witness :
  exists s' out' r' h',
    process [6; 0; 9; 0; 17] MbServer_new (replicate 256 0) (RegMap_new 7) (mkTrace [] 0) =
      Some (5%nat, s', out', r', h') /\
    prefix_is out' [6; 0; 9; 0; 17] /\ get_holding r' 9 = 17.
Proof.
  destruct (process_refines 6 [0; 9; 0; 17] MbServer_new (replicate 256 0) (RegMap_new 7) (mkTrace [] 0))
    as (rep & dg & ws & out' & r' & h' & Hm & Hp & Hw & Hpre & _).
  - repeat constructor; unfold is_u8; lia.
  - simpl; lia.
  - apply RegMap_new_inv; unfold is_u16; lia.
  - split; [done|]. repeat constructor; unfold is_u16; lia.
  - done.
  - vm_compute in Hm. injection Hm as <- <- <-. exists (mkMbServer [1; 0; 0; 1; 0]), out', r', h'.
    split; [exact Hp|]. split; [exact Hpre|]. vm_compute in Hw. injection Hw as -> ->. done.
Defined.

(** what FC16 writes, FC03 reads back.  For every block of words written to
    plain holding registers (below the live timestamp pair), the read that
    follows answers with exactly the bytes that were sent. *)
Theorem fc16_fc03_roundtrip {H} `{!RegHooks H} addr ws s out r (h : H)
    (Hws : words_ok ws) (Ha : 0 <= addr) (Hn : (0 < length ws)%nat)
    (Hle : addr + Z.of_nat (length ws) <= 14)
    (Hr : reg_inv r) (Hs : diag_wf (diag s)) (Hout : (256 <= length out)%nat) :
  let req := to_be_bytes16 addr ++ to_be_bytes16 (Z.of_nat (length ws)) in
  exists s1 out1 r1 h1 s2 out2 r2 h2,
    process (16 :: req ++ [2 * Z.of_nat (length ws)] ++ words_be ws) s out r h =
      Some (5%nat, s1, out1, r1, h1) /\ prefix_is out1 (16 :: req) /\
    process (3 :: req) s1 out1 r1 h1 =
      Some ((2 + 2 * length ws)%nat, s2, out2, r2, h2) /\
    prefix_is out2 (3 :: 2 * Z.of_nat (length ws) :: words_be ws).
Proof.
  intros req.
  destruct (fc16_run addr out ltac:(unfold is_u16; lia) Hout ws s r h)
    as (s1 & out1 & r1 & h1 & E1 & Hp1 & Hl1 & Hs1 & Hh1 & Hr1); try done; [lia|].
  destruct (fc03_run addr out1 ltac:(unfold is_u16; lia) ltac:(lia) (length ws) s1 r1 h1)
    as (s2 & out2 & r2 & h2 & E2 & Hp2); try done; [lia|].
  exists s1, out1, r1, h1, s2, out2, r2, h2. do 3 (split; [done|]).
  assert (length (holding r) = 18%nat) as Hlh by apply Hr.
  unfold live_holding in Hp2. rewrite Hh1 in Hp2.
  unfold HOLDING_TIMESTAMP_HI_IDX, HOLDING_TIMESTAMP_LO_IDX in Hp2.
  rewrite !drop_insert_ge, !take_insert_ge, take_drop_inserts in Hp2 by lia. exact Hp2.
Qed.

Lemma fc16_fc03_roundtrip_witness :
  exists s1 out1 r1 h1 s2 out2 r2 h2,
    process [16; 0; 3; 0; 2; 4; 1; 2; 3; 4] MbServer_new (replicate 256 0) (RegMap_new 7) tt =
      Some (5%nat, s1, out1, r1, h1) /\
    process [3; 0; 3; 0; 2] s1 out1 r1 h1 = Some (6%nat, s2, out2, r2, h2) /\
    prefix_is out2 [3; 4; 1; 2; 3; 4].
Proof.
  destruct (fc16_fc03_roundtrip 3 [258; 772] MbServer_new (replicate 256 0) (RegMap_new 7) tt)
    as (s1 & out1 & r1 & h1 & s2 & out2 & r2 & h2 & E1 & _ & E2 & Hp).
  - repeat constructor; unfold is_u16; lia.
  - lia.
  - simpl; lia.
  - simpl; lia.
  - apply RegMap_new_inv; unfold is_u16; lia.
  - split; [done|]. repeat constructor; unfold is_u16; lia.
  - done.
  - exists s1, out1, r1, h1, s2, out2, r2, h2. split; [exact E1|]. split; [exact E2|exact Hp].
Defined.
