(* ===== verification/MbTcp.v ===== *)
(** * Modbus TCP (crates/proto/src/mbtcp_adu.rs, crates/firmware/src/mbtcp.rs)

    The ADU layer around the PDU server, and the framing of one connection:
    [serve_chunk] is the body of the connection loop for one socket read, with
    the socket's send as a parameter. *)
From S2P Require Import Prelude Bytes RegMap MbServer MbSpec.

Definition MB_EXC_SERVER_DEVICE_FAILURE : Z := 0x04.
Definition MBTCP_MBAP_LEN_CLAMP : Z := 256.
Definition MBTCP_ADU_TX_MAX : nat := MB_SERVER_PDU_MAX + 7.

Definition OFF_TRANS_ID : nat := 0.
Definition OFF_PROTO_ID : nat := 2.
Definition OFF_LENGTH : nat := 4.
Definition OFF_UNIT_ID : nat := 6.
Definition OFF_FC : nat := 7.

(** [&in_[i..]] *)
Definition from {A} (l : list A) (i : nat) : option (list A) := slice l i (length l).

(** [put_be16(v, &mut out[i..])] *)
Definition put_be16_from (v : Z) (i : nat) (out : list Z) : option (list Z) :=
  modify_slice out i (length out) (put_be16 v).

Section Adu.
Context {H : Type} `{!RegHooks H}.

Definition mbtcp_adu_process (in_ out : list Z) (srv : MbServer) (regs : RegMap) (hooks : H)
    : option (nat * list Z * MbServer * RegMap * H) :=
  if (length in_ <? OFF_FC + 1)%nat || (length out <? MBTCP_ADU_TX_MAX)%nat then
    Some (0%nat, out, srv, regs, hooks) else
  trans_id ← (s ← from in_ OFF_TRANS_ID; get_be16 s);
  proto_id ← (s ← from in_ OFF_PROTO_ID; get_be16 s);
  mbap_len ← (s ← from in_ OFF_LENGTH; get_be16 s);
  unit_id ← in_ !! OFF_UNIT_ID;
  fc ← in_ !! OFF_FC;
  if negb (proto_id =? 0) then
    out ← put_be16_from trans_id OFF_TRANS_ID out;
    out ← put_be16_from proto_id OFF_PROTO_ID out;
    out ← put_be16_from 3 OFF_LENGTH out;
    out ← upd out OFF_UNIT_ID unit_id;
    out ← upd out OFF_FC (Z.lor fc 0x80);
    out ← upd out 8 MB_EXC_SERVER_DEVICE_FAILURE;
    Some (9%nat, out, srv, regs, hooks)
  else
  let mbap_len := Z.min mbap_len MBTCP_MBAP_LEN_CLAMP in
  let pdu_len := if 2 <=? mbap_len then Z.to_nat (mbap_len - 2 + 1) else 1%nat in
  let pdu_len :=
    if (length in_ - OFF_FC <? pdu_len)%nat then (length in_ - OFF_FC)%nat else pdu_len in
  pdu ← slice in_ OFF_FC (OFF_FC + pdu_len);
  sub ← from out OFF_FC;
  '(rsp_len, srv, sub, regs, hooks) ← process pdu srv sub regs hooks;
  let out := list_inserts OFF_FC sub out in
  if unit_id =? 0 then
    Some (0%nat, out, diag_count NoResp srv, regs, hooks)
  else if (rsp_len =? 0)%nat then
    Some (0%nat, out, diag_count NoResp srv, regs, hooks)
  else
  out ← put_be16_from trans_id OFF_TRANS_ID out;
  out ← put_be16_from 0 OFF_PROTO_ID out;
  out ← put_be16_from (as_u16 (as_u16 (Z.of_nat rsp_len) + 1)) OFF_LENGTH out;
  out ← upd out OFF_UNIT_ID unit_id;
  Some ((OFF_FC + rsp_len)%nat, out, srv, regs, hooks).
End Adu.

(** ** One connection *)

Definition MBTCP_PORT : Z := 502.
Definition FRAME_LEN : nat := 264.

(** [frame] is a 264-byte array; bytes 4 and 5 are read in place. *)
Definition mbap_frame_len (frame : list Z) : nat :=
  (6 + Z.to_nat (Z.min (256 * (frame !!! 4%nat) + frame !!! 5%nat) 256))%nat.

(** The connection's locals with the shared server and registers; [conn] is
    the socket, as [write_all] sees it. *)
Record Conn (H S : Type) := mkConn {
  frame : list Z; flen : nat; deadline : option Z; out : list Z;
  c_srv : MbServer; c_regs : RegMap; c_hooks : H; conn : S }.
Arguments mkConn {H S} _ _ _ _ _ _ _ _.
Arguments frame {H S} _.
Arguments flen {H S} _.
Arguments deadline {H S} _.
Arguments out {H S} _.
Arguments c_srv {H S} _.
Arguments c_regs {H S} _.
Arguments c_hooks {H S} _.
Arguments conn {H S} _.

Section Serve.
Context {H S : Type} `{!RegHooks H}.
Variable write_all : list Z -> S -> result unit * S.

(** A complete frame: process it and send the reply.  The flag is false when
    the send failed, which ends the connection. *)
Definition complete (c : Conn H S) : option (bool * Conn H S) :=
  adu ← slice (frame c) 0 (mbap_frame_len (frame c));
  '(rlen, out', srv, regs, hooks) ←
    mbtcp_adu_process adu (out c) (c_srv c) (c_regs c) (c_hooks c);
  if (0 <? rlen)%nat then
    rsp ← slice out' 0 rlen;
    let '(r, s) := write_all rsp (conn c) in
    Some (is_ok r, mkConn (frame c) 0 None out' srv regs hooks s)
  else Some (true, mkConn (frame c) 0 None out' srv regs hooks (conn c)).

(** The loop over the bytes [rest] of one read still to be consumed. *)
Fixpoint serve_loop (fuel : nat) (rest : list Z) (c : Conn H S) : option (bool * Conn H S) :=
  match fuel with
  | O => None
  | Datatypes.S fuel =>
      match rest with
      | [] => Some (true, c)
      | _ :: _ =>
          let want := if (flen c <? 8)%nat then 8%nat else mbap_frame_len (frame c) in
          let tk := Nat.min (length rest) (want - flen c) in
          frame' ← blit (frame c) (flen c) (take tk rest);
          let c := mkConn frame' (flen c + tk) (deadline c) (out c) (c_srv c) (c_regs c) (c_hooks c) (conn c) in
          if (8 <=? flen c)%nat && (mbap_frame_len (frame c) <=? flen c)%nat then
            '(ok, c) ← complete c;
            if ok : bool then serve_loop fuel (drop tk rest) c else Some (false, c)
          else serve_loop fuel (drop tk rest) c
      end
  end.

Definition serve_chunk (chunk : list Z) (c : Conn H S) : option (bool * Conn H S) :=
  serve_loop (Datatypes.S (length chunk)) chunk c.

(** One turn of the connection loop: the deadline is checked at [t0], the
    read returns [ev], the turn ends at [t1].  False: the connection is over. *)
Inductive sock_event := Closed | Failed | Data (chunk : list Z).

Definition serve_turn (t0 : Z) (ev : sock_event) (t1 : Z) (c : Conn H S)
    : option (bool * Conn H S) :=
  if match deadline c with Some d => d <=? t0 | None => false end then Some (false, c) else
  match ev with
  | Closed | Failed => Some (false, c)
  | Data chunk =>
      '(ok, c) ← serve_chunk chunk c;
      if negb ok then Some (false, c) else
      let dl :=
        if (0 <? flen c)%nat && negb (bool_decide (is_Some (deadline c)))
        then Some (t1 + 500) else deadline c in
      Some (true, mkConn (frame c) (flen c) dl (out c) (c_srv c) (c_regs c) (c_hooks c) (conn c))
  end.

(** Reference: the same connection, one byte at a time. *)
Definition feed_byte (c : Conn H S) (b : Z) : option (bool * Conn H S) :=
  frame' ← upd (frame c) (flen c) b;
  let c := mkConn frame' (flen c + 1) (deadline c) (out c) (c_srv c) (c_regs c) (c_hooks c) (conn c) in
  if (8 <=? flen c)%nat && (mbap_frame_len (frame c) <=? flen c)%nat then complete c
  else Some (true, c).

Fixpoint feed_bytes (l : list Z) (c : Conn H S) : option (bool * Conn H S) :=
  match l with
  | [] => Some (true, c)
  | b :: l =>
      '(ok, c) ← feed_byte c b;
      if ok : bool then feed_bytes l c else Some (false, c)
  end.
End Serve.

(** ** Lemmas: framing *)

(** Between turns: a frame under assembly is shorter than it announces. *)
Definition conn_inv {H S} (c : Conn H S) : Prop :=
  length (frame c) = FRAME_LEN /\ bytes_ok (frame c) /\
  ((flen c < 8)%nat \/ (flen c < mbap_frame_len (frame c))%nat).

Lemma frame_byte f i : bytes_ok f -> (i < length f)%nat -> is_u8 (f !!! i).
Proof.
  intros Hf Hi. destruct (lookup_lt_is_Some_2 f i Hi) as [b Hb].
  rewrite (list_lookup_total_correct _ _ _ Hb). by eapply Forall_lookup_1.
Qed.

Lemma mbap_frame_len_range f :
  bytes_ok f -> length f = FRAME_LEN -> (6 <= mbap_frame_len f <= 262)%nat.
Proof.
  intros Hf Hl. unfold mbap_frame_len, FRAME_LEN in *.
  pose proof (frame_byte f 4 Hf ltac:(lia)) as H4. pose proof (frame_byte f 5 Hf ltac:(lia)) as H5.
  unfold is_u8 in *. lia.
Qed.

Lemma mbap_frame_len_insert f i b :
  (8 <= i)%nat -> mbap_frame_len (<[i := b]> f) = mbap_frame_len f.
Proof.
  intros Hi. unfold mbap_frame_len. by rewrite !list_lookup_total_insert_ne by lia.
Qed.

Section Framing.
Context {H S : Type} `{!RegHooks H}.
Variable write_all : list Z -> S -> result unit * S.
Implicit Types c : Conn H S.

Definition fill c (x : list Z) : Conn H S :=
  mkConn (list_inserts (flen c) x (frame c)) (flen c + length x) (deadline c) (out c)
    (c_srv c) (c_regs c) (c_hooks c) (conn c).

Definition want c : nat := if (flen c <? 8)%nat then 8%nat else mbap_frame_len (frame c).

(** Bytes that do not complete what the frame waits for only fill the buffer. *)
Lemma feed_fill x : forall c r,
  (flen c + length x < want c)%nat -> (want c <= length (frame c))%nat ->
  feed_bytes write_all (x ++ r) c = feed_bytes write_all r (fill c x).
Proof.
  induction x as [|b x IH]; intros c r Hw Hl.
  - unfold fill. simpl. rewrite Nat.add_0_r. by destruct c.
  - simpl length in Hw. simpl app. cbn [feed_bytes].
    set (c1 := mkConn (<[flen c := b]> (frame c)) (flen c + 1) (deadline c) (out c)
      (c_srv c) (c_regs c) (c_hooks c) (conn c)).
    assert (feed_byte write_all c b = Some (true, c1)) as ->.
    { unfold feed_byte. rewrite upd_ok by lia. cbn [mbind option_bind]. fold c1.
      unfold want in Hw. destruct (Nat.ltb_spec (flen c) 8).
      - rewrite (proj2 (Nat.leb_gt 8 (flen c1))) by (simpl; lia). done.
      - rewrite (proj2 (Nat.leb_gt (mbap_frame_len (frame c1)) (flen c1))), andb_false_r; [done|].
        simpl. rewrite mbap_frame_len_insert by lia. lia. }
    cbn [mbind option_bind]. rewrite IH.
    + f_equal. unfold fill. simpl. f_equal; [|lia].
      rewrite list_insert_inserts_lt by lia. by rewrite Nat.add_1_r.
    + revert Hw. unfold want. simpl.
      destruct (Nat.ltb_spec (flen c) 8), (Nat.ltb_spec (flen c + 1) 8); try lia.
      rewrite mbap_frame_len_insert by lia. lia.
    + revert Hl Hw. unfold want. simpl. rewrite length_insert.
      destruct (Nat.ltb_spec (flen c) 8), (Nat.ltb_spec (flen c + 1) 8); try lia.
      by rewrite mbap_frame_len_insert by lia.
Qed.

Lemma complete_frame_inv c ok c' :
  length (frame c) = FRAME_LEN /\ bytes_ok (frame c) -> complete write_all c = Some (ok, c') -> conn_inv c'.
Proof.
  unfold complete. intros (Hl & Hb) E.
  destruct (slice _ _ _) as [adu|]; [|done]. cbn [mbind option_bind] in E.
  destruct (mbtcp_adu_process _ _ _ _ _) as [[[[[rlen o] sv] rg] hk]|]; [|done].
  cbn [mbind option_bind] in E. destruct (0 <? rlen)%nat.
  - destruct (slice o 0 rlen) as [rsp|]; [|done]. cbn [mbind option_bind] in E.
    destruct (write_all rsp (conn c)). simplify_eq. split; [done|]. split; [done|]. simpl. lia.
  - simplify_eq. split; [done|]. split; [done|]. simpl. lia.
Qed.

Lemma want_range c : conn_inv c -> (flen c < want c <= 262)%nat /\ (8 <= want c)%nat.
Proof.
  intros (Hl & Hb & Hf). pose proof (mbap_frame_len_range _ Hb Hl).
  unfold want. destruct (Nat.ltb_spec (flen c) 8); lia.
Qed.

Lemma fill_ok c x :
  conn_inv c -> bytes_ok x -> length (frame (fill c x)) = FRAME_LEN /\ bytes_ok (frame (fill c x)).
Proof.
  intros (Hl & Hb & _) Hx. simpl. split; [by rewrite length_inserts|].
  unfold bytes_ok. revert Hb Hx. generalize (flen c) (frame c). induction x as [|b x IH]; intros i f Hf Hx; [done|].
  apply Forall_cons_1 in Hx as [Hb Hx]. simpl. apply Forall_insert; auto.
Qed.

(** The last byte of what a frame waits for: filling byte by byte or at once is the same. *)
Lemma feed_last c x b r :
  conn_inv c -> (flen c + length x + 1 = want c)%nat ->
  feed_bytes write_all (x ++ b :: r) c =
    let c' := fill c (x ++ [b]) in
    '(ok, c2) ← (if (8 <=? flen c')%nat && (mbap_frame_len (frame c') <=? flen c')%nat
                 then complete write_all c' else Some (true, c'));
    if ok : bool then feed_bytes write_all r c2 else Some (false, c2).
Proof.
  intros Hinv Hw. pose proof (want_range c Hinv) as Hr. destruct Hinv as (Hl & _ & _).
  unfold FRAME_LEN in Hl. rewrite feed_fill by lia. cbn [feed_bytes]. unfold feed_byte.
  rewrite upd_ok by (simpl; rewrite length_inserts; lia). cbn [mbind option_bind].
  assert (fill c (x ++ [b]) = mkConn (<[flen (fill c x) := b]> (frame (fill c x)))
    (flen (fill c x) + 1) (deadline c) (out c) (c_srv c) (c_regs c) (c_hooks c) (conn c)) as ->; [|done].
  unfold fill. simpl. rewrite list_inserts_app_l, Nat.add_comm, length_app. simpl. f_equal. lia.
Qed.

Definition is_done c : bool := (8 <=? flen c)%nat && (mbap_frame_len (frame c) <=? flen c)%nat.

Lemma mbap_frame_len_inserts f i x :
  (8 <= i)%nat -> mbap_frame_len (list_inserts i x f) = mbap_frame_len f.
Proof.
  revert i. induction x as [|b x IH]; intros i Hi; [done|].
  simpl. rewrite mbap_frame_len_insert by done. apply IH. lia.
Qed.

Lemma fill_not_done c x : (flen c + length x < want c)%nat -> is_done (fill c x) = false.
Proof.
  unfold want, is_done. cbn [fill flen frame]. intros Hw. destruct (Nat.ltb_spec (flen c) 8).
  - by rewrite (proj2 (Nat.leb_gt 8 _)) by lia.
  - rewrite mbap_frame_len_inserts by lia.
    by rewrite (proj2 (Nat.leb_gt (mbap_frame_len _) _)), andb_false_r by lia.
Qed.

Lemma fill_inv c x :
  conn_inv c -> bytes_ok x -> is_done (fill c x) = false -> conn_inv (fill c x).
Proof.
  intros Hinv Hx Hd. destruct (fill_ok c x Hinv Hx) as [Hl Hb]. split; [done|]. split; [done|].
  unfold is_done in Hd. apply andb_false_iff in Hd as [Hd|Hd]; apply Nat.leb_gt in Hd; auto.
Qed.

Lemma feed_byte_inv c b ok c' :
  conn_inv c -> is_u8 b -> feed_byte write_all c b = Some (ok, c') -> conn_inv c'.
Proof.
  intros Hinv Hb E. pose proof (want_range c Hinv). pose proof Hinv as (Hl & _ & _).
  unfold FRAME_LEN in Hl. unfold feed_byte in E. rewrite upd_ok in E by lia.
  cbn [mbind option_bind] in E.
  change (mkConn _ _ _ _ _ _ _ _) with (fill c [b]) in E. fold (is_done (fill c [b])) in E.
  assert (bytes_ok [b]) as Hbb by (apply bytes_ok_cons; [done|constructor]).
  destruct (is_done (fill c [b])) eqn:D.
  - eapply complete_frame_inv; [|exact E]. by apply fill_ok.
  - simplify_eq. by apply fill_inv.
Qed.

Lemma serve_loop_feed fuel : forall rest c,
  (length rest < fuel)%nat -> conn_inv c -> bytes_ok rest ->
  serve_loop write_all fuel rest c = feed_bytes write_all rest c.
Proof.
  induction fuel as [|fuel IH]; intros rest c Hf Hinv Hb; [lia|].
  pose proof (want_range c Hinv) as Hr. pose proof Hinv as (Hl & _ & _). unfold FRAME_LEN in Hl.
  set (tk := Nat.min (length rest) (want c - flen c)).
  assert (length (take tk rest) = tk) as Htk by (rewrite length_take; lia).
  assert (rest <> [] -> serve_loop write_all (Datatypes.S fuel) rest c =
    '(ok, c2) ← (if is_done (fill c (take tk rest)) then complete write_all (fill c (take tk rest))
                 else Some (true, fill c (take tk rest)));
    if ok : bool then serve_loop write_all fuel (drop tk rest) c2 else Some (false, c2)) as Estep.
  { intros Hne. destruct rest as [|b0 rest0]; [done|]. cbn [serve_loop]. fold (want c). fold tk.
    rewrite blit_ok by lia. cbn [mbind option_bind]. unfold is_done, fill. rewrite Htk.
    cbn [flen frame]. by destruct (_ && _). }
  destruct (decide (rest = [])) as [->|Hne]; [done|]. rewrite (Estep Hne). clear Estep.
  assert (0 < length rest)%nat as Hpos by (destruct rest; [done|simpl; lia]).
  assert (bytes_ok (take tk rest) /\ bytes_ok (drop tk rest)) as [Hbt Hbd]
    by (split; [by apply Forall_take|by apply Forall_drop]).
  destruct (decide (flen c + length rest < want c)%nat) as [Hs|Hs].
  - assert (tk = length rest) as -> by lia. rewrite take_ge, drop_ge by lia.
    rewrite fill_not_done by done. cbn [mbind option_bind].
    rewrite <- (app_nil_r rest) at 2. rewrite feed_fill by lia. cbn [feed_bytes].
    by destruct fuel; [lia|].
  - assert (tk = want c - flen c)%nat as Etk by lia.
    destruct (exists_last (l := take tk rest)) as (x & b & Ex);
      [intros E; rewrite E in Htk; simpl in Htk; lia|].
    rewrite <- (take_drop tk rest) at 4. rewrite Ex, <- app_assoc. simpl app.
    rewrite feed_last by (done || (rewrite Ex, length_app in Htk; simpl in Htk; lia)).
    cbv zeta. rewrite <- Ex. fold (is_done (fill c (take tk rest))).
    destruct (is_done (fill c (take tk rest))) eqn:Ed.
    + destruct (complete write_all (fill c (take tk rest))) as [[ok c2]|] eqn:Ec; [|done].
      cbn [mbind option_bind]. destruct ok; [|done].
      apply IH; [rewrite length_drop; lia| |done].
      eapply complete_frame_inv; [|exact Ec]. by apply fill_ok.
    + cbn [mbind option_bind]. apply IH; [rewrite length_drop; lia|by apply fill_inv|done].
Qed.
End Framing.

(** ** Lemmas: the ADU *)

(** The answer to an ADU and its effect, on plain lists. *)
Definition adu_spec {H} `{!RegHooks H} (adu : list Z) (dg : list Z) (r : RegMap) (h : H)
    : list Z * list Z * list wr :=
  match adu with
  | t1 :: t0 :: p1 :: p0 :: l1 :: l0 :: u :: fc :: rest =>
      if decide (p1 <> 0 \/ p0 <> 0) then ([t1; t0; p1; p0; 0; 3; u; Z.lor fc 0x80; 4], dg, []) else
      let n := Z.to_nat (Z.max 0 (Z.min (256 * l1 + l0) 256 - 2)) in
      let '(rep, dg, ws) := mb_spec fc (take n rest) dg r h in
      let p := wire fc rep in
      if decide (u = 0 \/ p = []) then ([], bump 4 dg, ws)
      else ([t1; t0; 0; 0] ++ to_be_bytes16 (1 + Z.of_nat (length p)) ++ [u] ++ p, dg, ws)
  | _ => ([], dg, [])
  end.

Lemma from_ok {A} (l : list A) i : (i <= length l)%nat -> from l i = Some (drop i l).
Proof.
  intros Hi. unfold from. rewrite slice_ok by lia. by rewrite take_ge by (rewrite length_drop; lia).
Qed.

Lemma put_be16_from_ok v i out :
  (i + 2 <= length out)%nat -> put_be16_from v i out = Some (list_inserts i (to_be_bytes16 v) out).
Proof. intros. unfold put_be16_from. by apply put_be16_at. Qed.

Lemma pair_zero a b : is_u8 a -> is_u8 b -> (256 * a + b =? 0) = negb (bool_decide (a <> 0 \/ b <> 0)).
Proof.
  unfold is_u8. intros. destruct (Z.eqb_spec (256 * a + b) 0); case_bool_decide; try done; lia.
Qed.

(** The header in place: seven bytes in front of the PDU. *)
Lemma put_header {A} t p l u o0 o1 o2 o3 o4 o5 o6 o (k : list Z -> option A) :
  (out ← put_be16_from t OFF_TRANS_ID (o0 :: o1 :: o2 :: o3 :: o4 :: o5 :: o6 :: o);
   out ← put_be16_from p OFF_PROTO_ID out; out ← put_be16_from l OFF_LENGTH out; out ← upd out OFF_UNIT_ID u; k out) =
  k (to_be_bytes16 t ++ to_be_bytes16 p ++ to_be_bytes16 l ++ u :: o).
Proof.
  unfold OFF_TRANS_ID, OFF_PROTO_ID, OFF_LENGTH, OFF_UNIT_ID. rewrite put_be16_from_ok by (simpl; lia). cbn [mbind option_bind].
  do 2 (rewrite put_be16_from_ok by (rewrite ?length_inserts; simpl; lia); cbn [mbind option_bind]).
  cbn [list_inserts to_be_bytes16 insert list_insert app]. by rewrite upd_ok by (simpl; lia).
Qed.

Lemma header_room (out : list Z) : (263 <= length out)%nat ->
  exists o0 o1 o2 o3 o4 o5 o6 o, out = o0 :: o1 :: o2 :: o3 :: o4 :: o5 :: o6 :: o /\ (256 <= length o)%nat.
Proof. intros H. do 7 (destruct out as [|? out]; [simpl in H; lia|]). repeat eexists. simpl in H. lia. Qed.

(** The PDU that the length of the header selects. *)
Lemma adu_pdu (h0 h1 h2 h3 h4 h5 h6 fc : Z) rest len : 0 <= len ->
  let pdu_len := if 2 <=? Z.min len 256 then Z.to_nat (Z.min len 256 - 2 + 1) else 1%nat in
  let adu := h0 :: h1 :: h2 :: h3 :: h4 :: h5 :: h6 :: fc :: rest in
  let pdu_len := if (length adu - 7 <? pdu_len)%nat then (length adu - 7)%nat else pdu_len in
  slice adu 7 (7 + pdu_len) = Some (fc :: take (Z.to_nat (Z.max 0 (Z.min len 256 - 2))) rest).
Proof.
  intros Hlen. cbv zeta. set (n := Z.to_nat (Z.max 0 (Z.min len 256 - 2))).
  match goal with |- slice _ 7 (7 + ?k)%nat = _ => replace k with (1 + Nat.min n (length rest))%nat end.
  2:{ cbn [length]. destruct (Z.leb_spec 2 (Z.min len 256));
      match goal with |- context [(?a <? ?b)%nat] => destruct (Nat.ltb_spec a b) end; lia. }
  rewrite slice_ok by (simpl; lia). cbn [drop].
  replace (7 + (1 + Nat.min n (length rest)) - 7)%nat with (Datatypes.S (Nat.min n (length rest))) by lia. cbn [take]. do 2 f_equal.
  destruct (Nat.le_gt_cases n (length rest)); [by rewrite Nat.min_l by done|]. rewrite Nat.min_r by lia. by rewrite !take_ge by lia.
Qed.

Section AduProofs.
Context {H : Type} `{!RegHooks H}.

Lemma adu_correct adu out srv r (h : H) :
  bytes_ok adu -> (length adu <= 300)%nat -> (MBTCP_ADU_TX_MAX <= length out)%nat ->
  reg_inv r -> diag_wf (diag srv) ->
  exists out', let '(rsp, dg, ws) := adu_spec adu (diag srv) r h in
    mbtcp_adu_process adu out srv r h =
      Some (length rsp, out', mkMbServer dg, (run_writes ws (r, h)).1, (run_writes ws (r, h)).2) /\
    prefix_is out' rsp /\ length out' = length out.
Proof.
  intros Hb Hlen Hout Hr Hs. unfold mbtcp_adu_process, MBTCP_ADU_TX_MAX, MB_SERVER_PDU_MAX in *.
  rewrite (proj2 (Nat.ltb_ge (length out) _)) by lia. rewrite orb_false_r.
  do 8 (destruct adu as [|? adu]; [exists out; destruct srv; split; [done|]; split; [apply prefix_is_nil|done]|]).
  rename z into t1, z0 into t0, z1 into p1, z2 into p0, z3 into l1, z4 into l0, z5 into u, z6 into fc. bytes_inv.
  rewrite (proj2 (Nat.ltb_ge _ _)) by (simpl; lia). rewrite !from_ok by (unfold OFF_TRANS_ID, OFF_PROTO_ID, OFF_LENGTH, OFF_FC; simpl; lia). cbn [mbind option_bind drop OFF_TRANS_ID OFF_PROTO_ID OFF_LENGTH].
  rewrite !get_be16_bytes by done. cbn [mbind option_bind lookup list_lookup OFF_UNIT_ID OFF_FC].
  rewrite !(Z.mul_comm _ 256), (pair_zero p1 p0), negb_involutive by done.
  destruct (header_room out ltac:(lia)) as (o0 & o1 & o2 & o3 & o4 & o5 & o6 & o & -> & Ho).
  unfold adu_spec. case_bool_decide as Hp.
  { rewrite decide_True by done. destruct o as [|o7 [|o8 o]]; simpl in Ho; try lia. eexists. rewrite put_header, !be_bytes_of by done.
    cbn [to_be_bytes16 app]. do 2 (rewrite upd_ok by (unfold OFF_FC; simpl; lia); cbn [mbind option_bind insert list_insert OFF_FC]). destruct srv. by split. }
  rewrite decide_False by done. unfold MBTCP_MBAP_LEN_CLAMP. rewrite adu_pdu by (unfold is_u8 in *; lia). cbn [mbind option_bind].
  set (n := Z.to_nat _). pose proof (process_spec fc (take n adu) srv o r h) as A. pose proof (wire_bound fc (take n adu) (diag srv) r h) as W.
  destruct (mb_spec fc (take n adu) (diag srv) r h) as [[rep dg] ws]. cbn [fst] in W.
  change (drop OFF_FC (o0 :: o1 :: o2 :: o3 :: o4 :: o5 :: o6 :: o)) with o.
  destruct A as (o' & -> & Hp' & Hl'); [apply bytes_ok_cons; [done|by apply Forall_take]|len|done|done|lia|]. cbn [mbind option_bind].
  assert (list_inserts OFF_FC o' (o0 :: o1 :: o2 :: o3 :: o4 :: o5 :: o6 :: o) = o0 :: o1 :: o2 :: o3 :: o4 :: o5 :: o6 :: o') as ->.
  { unfold OFF_FC. rewrite !list_inserts_cons. rewrite <- (app_nil_r o), list_inserts_0_r by done. by rewrite app_nil_r. }
  destruct (Z.eqb_spec u 0) as [->|Hu].
  { rewrite decide_True by auto. eexists. split; [done|]. split; [apply prefix_is_nil|]. cbn [length] in *. lia. }
  destruct (Nat.eqb_spec (length (wire fc rep)) 0) as [Hz|Hz].
  { apply nil_length_inv in Hz. rewrite Hz, decide_True by auto. eexists. split; [done|]. split; [apply prefix_is_nil|]. cbn [length] in *. lia. }
  rewrite decide_False by (intros [C|C]; [done|by rewrite C in Hz]). rewrite put_header, be_bytes_of by done.
  rewrite (as_u16_id (Z.of_nat _)), as_u16_id, Z.add_comm by (unfold is_u16; lia).
  eexists. split; [reflexivity|]. split; [|cbn [length app to_be_bytes16] in *; lia].
  apply prefix_is_app in Hp' as [tl ->]. apply prefix_is_app. exists tl. reflexivity.
Qed.
End AduProofs.

(** ** Properties *)

(** C29: a Modbus TCP request and its answer.  For every ADU of at least eight
    bytes: a foreign protocol id is answered with "server device failure" and
    nothing is executed; otherwise the PDU (the declared length clamped to 256
    and to the bytes received) is executed as specified, and answered under the
    transaction and unit of the request, except for the broadcast unit 0 and
    for silently dropped PDUs, which are counted and not answered.  No panic,
    and nothing beyond the answer is reported. *)
Theorem adu_refines {H} `{!RegHooks H} adu out srv r (h : H)
    (Hb : bytes_ok adu) (Hlen : (length adu <= 300)%nat)
    (Hout : (MBTCP_ADU_TX_MAX <= length out)%nat) (Hr : reg_inv r) (Hs : diag_wf (diag srv)) :
  exists out' rsp dg ws r' h', adu_spec adu (diag srv) r h = (rsp, dg, ws) /\
    mbtcp_adu_process adu out srv r h = Some (length rsp, out', mkMbServer dg, r', h') /\
    (r', h') = run_writes ws (r, h) /\ prefix_is out' rsp /\ length out' = length out.
Proof.
  destruct (adu_correct adu out srv r h Hb Hlen Hout Hr Hs) as (out' & A).
  destruct (adu_spec adu (diag srv) r h) as [[rsp dg] ws]. destruct A as (E & Hp & Hl).
  exists out', rsp, dg, ws. destruct (run_writes ws (r, h)) as [r' h'].
  exists r', h'. done.
Qed.

Lemma adu_refines_witness :
  exists out' srv' r' h',
    mbtcp_adu_process [0; 1; 0; 0; 0; 6; 17; 3; 0; 9; 0; 1] (replicate 263 0) MbServer_new
      (RegMap_new 7) tt = Some (11%nat, out', srv', r', h') /\
    prefix_is out' [0; 1; 0; 0; 0; 5; 17; 3; 2; 0; 1].
Proof.
  destruct (adu_refines [0; 1; 0; 0; 0; 6; 17; 3; 0; 9; 0; 1] (replicate 263 0) MbServer_new
    (RegMap_new 7) tt) as (out' & rsp & dg & ws & r' & h' & Hsp & E & _ & Hp & _).
  - repeat constructor; unfold is_u8; lia.
  - simpl; lia.
  - unfold MBTCP_ADU_TX_MAX. simpl. lia.
  - apply RegMap_new_inv; unfold is_u16; lia.
  - split; [done|]. repeat constructor; unfold is_u16; lia.
  - vm_compute in Hsp. injection Hsp as <- <- <-. exists out', (mkMbServer [1; 0; 0; 1; 0]), r', h'.
    split; [exact E|exact Hp].
Defined.

(** C2: the connection loop assembles frames independently of how TCP cuts the
    stream.  Reading [a] and then [b] leaves the connection, the registers, the
    counters and everything sent in exactly the state of reading the two in one
    chunk, and both are the byte-at-a-time machine [feed_bytes]. *)
Theorem framing_chunk_independent {H S} `{!RegHooks H} (write_all : list Z -> S -> result unit * S)
    (c : Conn H S) a b (Hinv : conn_inv c) (Ha : bytes_ok a) (Hb : bytes_ok b) :
  serve_chunk write_all (a ++ b) c = feed_bytes write_all (a ++ b) c /\
  serve_chunk write_all (a ++ b) c =
    ('(ok, c1) ← serve_chunk write_all a c;
     if ok : bool then serve_chunk write_all b c1 else Some (false, c1)).
Proof.
  unfold serve_chunk. rewrite !serve_loop_feed by (done || lia || by apply bytes_ok_app).
  split; [done|]. revert c Hinv. induction Ha as [|x a Hx Ha IH]; intros c Hinv.
  - cbn [app feed_bytes mbind option_bind]. by rewrite serve_loop_feed by (done || lia).
  - cbn [app feed_bytes]. destruct (feed_byte write_all c x) as [[[] c1]|] eqn:E;
      cbn [mbind option_bind]; [|done|done].
    apply IH. by eapply feed_byte_inv.
Qed.

Definition idle_conn : Conn unit (list (list Z)) :=
  mkConn (replicate 264 0) 0 None (replicate 263 0) MbServer_new (RegMap_new 7) tt [].

Lemma framing_chunk_independent_witness :
  let send l s := (Ok tt, s ++ [l]) in
  serve_chunk send ([0; 1; 0; 0; 0; 6] ++ [17; 3; 0; 9; 0; 1]) idle_conn =
    feed_bytes send [0; 1; 0; 0; 0; 6; 17; 3; 0; 9; 0; 1] idle_conn.
Proof.
  intros send.
  refine (proj1 (framing_chunk_independent send idle_conn [0; 1; 0; 0; 0; 6] [17; 3; 0; 9; 0; 1] _ _ _)).
  - split; [reflexivity|]. split; [|left; simpl; lia]. apply Forall_replicate. unfold is_u8. lia.
  - repeat constructor; unfold is_u8; lia.
  - repeat constructor; unfold is_u8; lia.
Defined.
