(* ===== verification/RtuFrame.v ===== *)
(** * Modbus RTU (crates/proto/src/rtu_frame.rs, crates/firmware/src/rtu.rs)

    The frame assembler, the processing of an assembled frame when the line
    falls silent, and one turn of the RTU task. *)
From S2P Require Import Prelude Bytes Crc RegMap MbServer MbSpec.

Definition RTU_FRAME_MAX : nat := 256.
Definition RTU_FRAME_MIN : nat := 4.

Definition rtu_t35_ms (baud : Z) : Z :=
  if (baud =? 0) || (19200 <? baud) then 2 else
  let us := as_u32 (38500000 + baud - 1) / baud in
  as_u32 (us + 999) / 1000.

Record RtuFrame := mkRtuFrame {
  rx_buf : list Z; rx_len : nat; rx_overflow : bool; srv_unit : Z }.

Definition RtuFrame_new : RtuFrame := mkRtuFrame (replicate RTU_FRAME_MAX 0) 0 false 1.

Definition rtu_reset (f : RtuFrame) : RtuFrame := mkRtuFrame (rx_buf f) 0 false (srv_unit f).

Definition rtu_bind (unit : Z) (f : RtuFrame) : RtuFrame :=
  rtu_reset (mkRtuFrame (rx_buf f) (rx_len f) (rx_overflow f) unit).

Definition rx_feed (bytes : list Z) (f : RtuFrame) : option RtuFrame :=
  if (length bytes =? 0)%nat then Some f else
  if negb (rx_overflow f) then
    let space := (RTU_FRAME_MAX - rx_len f)%nat in
    let tk := Nat.min (length bytes) space in
    src ← slice bytes 0 tk;
    buf ← blit (rx_buf f) (rx_len f) src;
    Some (mkRtuFrame buf (rx_len f + tk) (tk <? length bytes)%nat (srv_unit f))
  else Some f.

Section Frame.
Context {H : Type} `{!RegHooks H}.

Definition t35_expired (f : RtuFrame) (srv : MbServer) (regs : RegMap) (hooks : H)
    (tx_frame : list Z)
    : option (option nat * RtuFrame * MbServer * RegMap * H * list Z) :=
  let len := rx_len f in
  let overflow := rx_overflow f in
  let f := rtu_reset f in
  if (len =? 0)%nat then Some (None, f, srv, regs, hooks, tx_frame) else
  if overflow || (len <? RTU_FRAME_MIN)%nat then
    Some (None, f, diag_count NoResp (diag_count BusMsg srv), regs, hooks, tx_frame) else
  unit ← rx_buf f !! 0%nat;
  c0 ← rx_buf f !! (len - 2)%nat;
  c1 ← rx_buf f !! (len - 1)%nat;
  let crc_rx := Z.lor c0 (Z.shiftl c1 8) in
  body ← slice (rx_buf f) 0 (len - 2);
  let crc_calc := crc16_modbus body in
  if negb (crc_rx =? crc_calc) then
    Some (None, f, diag_count NoResp (diag_count CrcErr (diag_count BusMsg srv)), regs, hooks,
          tx_frame) else
  if negb (unit =? 0) && negb (unit =? srv_unit f) then
    Some (None, f, diag_count NoResp (diag_count BusMsg srv), regs, hooks, tx_frame) else
  let rsp_pdu := replicate MB_SERVER_PDU_MAX 0 in
  pdu ← slice (rx_buf f) 1 (len - 2);
  '(rsp_len, srv, rsp_pdu, regs, hooks) ← process pdu srv rsp_pdu regs hooks;
  if (rsp_len =? 0)%nat || (unit =? 0) then
    Some (None, f, diag_count NoResp srv, regs, hooks, tx_frame) else
  tx ← upd tx_frame 0 unit;
  rsp ← slice rsp_pdu 0 rsp_len;
  tx ← blit tx 1 rsp;
  sent ← slice tx 0 (1 + rsp_len);
  let crc := crc16_modbus sent in
  tx ← upd tx (1 + rsp_len) (as_u8 (Z.land crc 0xFF));
  tx ← upd tx (2 + rsp_len) (as_u8 (Z.shiftr crc 8));
  Some (Some (rsp_len + 3)%nat, f, srv, regs, hooks, tx).

(** The startup snapshot of the RTU task: line rate and bound unit. *)
Definition rtu_start (regs : RegMap) : Z * RtuFrame :=
  let baud := get_holding regs (Z.of_nat HOLDING_RS485_BAUDRATE_IDX) in
  let unit := as_u8 (get_holding regs (Z.of_nat HOLDING_SLAVE_ID_IDX)) in
  (if baud =? 0 then 9600 else baud, rtu_bind unit RtuFrame_new).

(** One turn of the task: a read of [chunk], the silence, and the frame sent. *)
Definition rtu_turn (chunk : list Z) (f : RtuFrame) (srv : MbServer) (regs : RegMap) (hooks : H)
    (tx_frame : list Z)
    : option (list Z * RtuFrame * MbServer * RegMap * H * list Z) :=
  if (length chunk =? 0)%nat then Some ([], f, srv, regs, hooks, tx_frame) else
  f ← rx_feed chunk f;
  '(reply, f, srv, regs, hooks, tx_frame) ← t35_expired f srv regs hooks tx_frame;
  match reply with
  | Some len => sent ← slice tx_frame 0 len; Some (sent, f, srv, regs, hooks, tx_frame)
  | None => Some ([], f, srv, regs, hooks, tx_frame)
  end.
End Frame.

(** ** Specification *)

Definition rtu_wf (f : RtuFrame) : Prop :=
  length (rx_buf f) = RTU_FRAME_MAX /\ bytes_ok (rx_buf f) /\ (rx_len f <= RTU_FRAME_MAX)%nat.

(** The bytes received since the last silence, as far as they are kept. *)
Definition received (f : RtuFrame) : list Z := take (rx_len f) (rx_buf f).

(** The answer to a frame [l] received on unit [me], the counters and the writes. *)
Definition rtu_spec {H} `{!RegHooks H} (l : list Z) (overflow : bool) (me : Z)
    (dg : list Z) (r : RegMap) (h : H) : list Z * list Z * list wr :=
  if decide (l = []) then ([], dg, []) else
  if overflow || (length l <? 4)%nat then ([], bump 4 (bump 0 dg), []) else
  let n := (length l - 2)%nat in
  if decide (drop n l <> [crc16_modbus (take n l) mod 256; crc16_modbus (take n l) / 256])
  then ([], bump 4 (bump 1 (bump 0 dg)), []) else
  match take n l with
  | u :: fc :: d =>
      if decide (u <> 0 /\ u <> me) then ([], bump 4 (bump 0 dg), []) else
      let '(rep, dg, ws) := mb_spec fc d dg r h in
      if decide (u = 0 \/ wire fc rep = []) then ([], bump 4 dg, ws) else
      let p := u :: wire fc rep in
      (p ++ [crc16_modbus p mod 256; crc16_modbus p / 256], dg, ws)
  | _ => ([], dg, [])
  end.

(** ** Lemmas *)

Lemma slice_0 {A} (l : list A) n : (n <= length l)%nat -> slice l 0 n = Some (take n l).
Proof. intros. rewrite slice_ok by lia. by rewrite drop_0, Nat.sub_0_r. Qed.

Lemma rx_feed_eq bytes f :
  rtu_wf f -> bytes_ok bytes -> rx_overflow f = false ->
  exists f', rx_feed bytes f = Some f' /\ rtu_wf f' /\ srv_unit f' = srv_unit f /\
    received f' = take RTU_FRAME_MAX (received f ++ bytes) /\
    rx_overflow f' = (RTU_FRAME_MAX <? length (received f ++ bytes))%nat.
Proof.
  intros (Hl & Hb & Hn) Hbytes Ho. unfold rx_feed, received, RTU_FRAME_MAX in *.
  destruct (Nat.eqb_spec (length bytes) 0) as [E|E].
  { apply nil_length_inv in E as ->. exists f. rewrite app_nil_r, Ho.
    split; [done|]. split; [done|]. split; [done|]. split.
    - rewrite take_take. f_equal. lia.
    - symmetry. apply Nat.ltb_ge. rewrite length_take. lia. }
  rewrite Ho. cbn [negb]. set (tk := Nat.min (length bytes) (256 - rx_len f)).
  rewrite slice_0 by lia. cbn [mbind option_bind].
  assert (length (take tk bytes) = tk) as Htk by (rewrite length_take; lia).
  rewrite blit_ok by lia. cbn [mbind option_bind].
  assert (take (rx_len f + tk) (list_inserts (rx_len f) (take tk bytes) (rx_buf f)) =
    take (rx_len f) (rx_buf f) ++ take tk bytes) as Hrec.
  { rewrite list_inserts_split by lia. rewrite app_assoc, take_app_length'; [done|].
    rewrite length_app, Htk, length_take_le by lia. done. }
  eexists. split; [done|]. split; [|split; [done|]]; cbn [rx_buf rx_len rx_overflow].
  - unfold rtu_wf. cbn [rx_buf rx_len]. split; [by rewrite length_inserts|].
    split; [|unfold RTU_FRAME_MAX; lia].
    rewrite list_inserts_split by lia.
    apply bytes_ok_app; [by apply Forall_take|].
    apply bytes_ok_app; [by apply Forall_take|by apply Forall_drop].
  - rewrite Hrec. split.
    + rewrite take_app, length_take_le, (take_ge (take _ _)) by (rewrite ?length_take; lia).
      f_equal. destruct (decide (length bytes <= 256 - rx_len f)%nat).
      * rewrite !take_ge by lia. done.
      * f_equal. lia.
    + rewrite length_app, length_take_le by lia.
      destruct (Nat.ltb_spec tk (length bytes)), (Nat.ltb_spec 256 (rx_len f + length bytes)); (done || lia).
Qed.

(** The CRC bytes of a frame, as the code reads them. *)
Lemma crc_bytes_match c0 c1 crc :
  is_u8 c0 -> is_u8 c1 -> is_u16 crc ->
  (Z.lor c0 (Z.shiftl c1 8) =? crc) = bool_decide ([c0; c1] = [crc mod 256; crc / 256]).
Proof.
  intros H0 H1 Hc. rewrite Z.lor_comm, (lor_shiftl_add c1 c0 8) by (unfold is_u8 in *; simpl; lia).
  unfold is_u8, is_u16 in *. destruct (Z.eqb_spec (c1 * 2 ^ 8 + c0) crc) as [E|E]; case_bool_decide as D; try done.
  - destruct D. rewrite <- E. f_equal; [|f_equal]; zdm.
  - destruct E. injection D as -> ->. zdm.
Qed.

Lemma frame_split (b : list Z) n :
  (4 <= n <= length b)%nat ->
  exists u fc d c0 c1 t, b = u :: fc :: d ++ c0 :: c1 :: t /\ length d = (n - 4)%nat.
Proof.
  intros Hn. destruct b as [|u [|fc b]]; simpl in Hn; try lia.
  destruct (drop_cons2 b (n - 4)) as (c0 & c1 & E); [lia|].
  exists u, fc, (take (n - 4) b), c0, c1, (drop (n - 4 + 2) b).
  rewrite <- E, take_drop, length_take_le by lia. done.
Qed.

(** An assembled frame, by position. *)
Lemma frame_reads (u fc c0 c1 : Z) d t n :
  length d = (n - 4)%nat -> (4 <= n)%nat ->
  let b : list Z := u :: fc :: d ++ c0 :: c1 :: t in
  b !! 0%nat = Some u /\ b !! (n - 2)%nat = Some c0 /\ b !! (n - 1)%nat = Some c1 /\
  slice b 0 (n - 2) = Some (u :: fc :: d) /\ slice b 1 (n - 2) = Some (fc :: d) /\
  take n b = (u :: fc :: d) ++ [c0; c1].
Proof.
  intros Hd Hn b. subst b.
  assert (n = 4 + length d)%nat as -> by lia. clear Hd Hn.
  replace (4 + length d - 2)%nat with (2 + length d)%nat by lia.
  replace (4 + length d - 1)%nat with (2 + S (length d))%nat by lia.
  split; [done|]. split; [simpl; by rewrite list_lookup_middle|].
  split; [simpl; rewrite lookup_app_r by lia; by replace (_ - _)%nat with 1%nat by lia|].
  split; [|split].
  - rewrite slice_0 by len. simpl. by rewrite take_app_length.
  - rewrite slice_ok by len. simpl. replace (length d - 0)%nat with (length d) by lia.
    by rewrite take_app_length.
  - simpl. do 2 f_equal. replace (S (S (length d))) with (length (d ++ [c0; c1])) by len.
    change (c0 :: c1 :: t) with ([c0; c1] ++ t). rewrite app_assoc. apply take_app_length.
Qed.

Section FrameProofs.
Context {H : Type} `{!RegHooks H}.

(** What the silence handler promises for an answer, counters and writes. *)
Definition t35_gives (f : RtuFrame) (r : RegMap) (h : H) (sp : list Z * list Z * list wr)
    (res : option (option nat * RtuFrame * MbServer * RegMap * H * list Z)) : Prop :=
  let '(rsp, dg, ws) := sp in
  exists tx', res = Some (if decide (rsp = []) then None else Some (length rsp), rtu_reset f,
      mkMbServer dg, (run_writes ws (r, h)).1, (run_writes ws (r, h)).2, tx') /\
    prefix_is tx' rsp /\ length tx' = 259%nat.

Lemma t35_silent f r (h : H) srv tx :
  length tx = 259%nat -> t35_gives f r h ([], diag srv, []) (Some (None, rtu_reset f, srv, r, h, tx)).
Proof. intros Htx. exists tx. destruct srv. done. Qed.

Lemma tx_reply u p tx :
  (1 <= length p <= 256)%nat -> length tx = 259%nat -> is_u8 u -> bytes_ok p ->
  exists tx', (forall A (K : list Z -> option A),
     (tx ← upd tx 0 u; tx ← blit tx 1 p; sent ← slice tx 0 (1 + length p);
      let crc := crc16_modbus sent in
      tx ← upd tx (1 + length p) (as_u8 (Z.land crc 0xFF));
      tx ← upd tx (2 + length p) (as_u8 (Z.shiftr crc 8)); K tx) = K tx') /\
   prefix_is tx' ((u :: p) ++ [crc16_modbus (u :: p) mod 256; crc16_modbus (u :: p) / 256]) /\
   length tx' = 259%nat.
Proof.
  intros Hp Htx Hu Hpb. cbv zeta.
  destruct (upd_at_prefix tx [] u (prefix_is_nil tx)) as (t1 & E1 & P1 & L1); [simpl; lia|].
  simpl length in E1. rewrite E1. cbn [mbind option_bind].
  destruct (blit_at_prefix t1 [u] p P1) as (t2 & E2 & P2 & L2); [simpl; lia|].
  simpl length in E2. rewrite E2. cbn [mbind option_bind].
  rewrite slice_0 by lia. cbn [mbind option_bind].
  assert (take (1 + length p) t2 = u :: p) as ->.
  { apply prefix_is_app in P2 as [tl ->]. simpl. by rewrite take_app_length. }
  set (crc := crc16_modbus (u :: p)).
  pose proof (crc16_modbus_range (u :: p) (bytes_ok_cons _ _ Hu Hpb)) as Hcrc. fold crc in Hcrc.
  destruct (upd_at_prefix t2 ([u] ++ p) (as_u8 (Z.land crc 0xFF)) P2) as (t3 & E3 & P3 & L3); [simpl; lia|].
  change (length ([u] ++ p)) with (1 + length p)%nat in E3. rewrite E3. cbn [mbind option_bind].
  destruct (upd_at_prefix t3 _ (as_u8 (Z.shiftr crc 8)) P3) as (t4 & E4 & P4 & L4); [len|].
  replace (length _) with (2 + length p)%nat in E4 by len.
  exists t4. split; [intros A K; by rewrite E4|]. split; [|lia].
  rewrite <- app_assoc in P4. simpl app in *.
  replace (crc mod 256) with (as_u8 (Z.land crc 255)) by (rewrite land_255; unfold as_u8; zdm).
  replace (crc / 256) with (as_u8 (Z.shiftr crc 8))
    by (rewrite shiftr_8; unfold as_u8, is_u16 in *; zdm). exact P4.
Qed.

Lemma t35_correct f srv r (h : H) tx :
  rtu_wf f -> length tx = 259%nat -> reg_inv r -> diag_wf (diag srv) ->
  t35_gives f r h (rtu_spec (received f) (rx_overflow f) (srv_unit f) (diag srv) r h)
    (t35_expired f srv r h tx).
Proof.
  intros (Hl & Hb & Hn) Htx Hr Hs. unfold t35_expired, rtu_spec, received, RTU_FRAME_MAX, RTU_FRAME_MIN in *.
  assert (length (take (rx_len f) (rx_buf f)) = rx_len f) as Hlen by (rewrite length_take; lia).
  destruct (Nat.eqb_spec (rx_len f) 0) as [E|E].
  { rewrite E, take_0, decide_True by done. by apply t35_silent. }
  rewrite decide_False by (intros C; rewrite C in Hlen; simpl in Hlen; lia).
  rewrite Hlen. destruct (rx_overflow f || _) eqn:Eo; [by apply (t35_silent f r h (diag_count NoResp (diag_count BusMsg srv)))|].
  apply orb_false_iff in Eo as [_ E4]. apply Nat.ltb_ge in E4.
  cbn [rtu_reset rx_buf srv_unit].
  destruct (frame_split (rx_buf f) (rx_len f)) as (u & fc & d & c0 & c1 & t & Eb & Ed); [lia|].
  destruct (frame_reads u fc c0 c1 d t (rx_len f) Ed E4) as (R0 & R1 & R2 & R3 & R4 & R5).
  rewrite Eb in Hb. rewrite Eb, R0, R1, R2, R3, R4, R5. cbn [mbind option_bind].
  assert (rx_len f - 2 = length (u :: fc :: d))%nat as -> by (simpl; lia).
  rewrite take_app_length, drop_app_length.
  assert (bytes_ok (u :: fc :: d) /\ is_u8 c0 /\ is_u8 c1) as (Hbd & Hc0 & Hc1).
  { change (u :: fc :: d ++ c0 :: c1 :: t) with ((u :: fc :: d) ++ c0 :: c1 :: t) in Hb.
    apply bytes_ok_app_inv in Hb as [Hb1 Hb]. split; [done|]. bytes_inv. done. }
  rewrite crc_bytes_match by (done || by apply crc16_modbus_range).
  case_bool_decide as Hcrc; cbn [negb].
  2:{ rewrite decide_True by done. by apply (t35_silent f r h (diag_count NoResp (diag_count CrcErr (diag_count BusMsg srv)))). }
  rewrite decide_False by (intros C; by apply C). pose proof Hbd as Hbd'. bytes_inv.
  destruct (negb (u =? 0) && negb (u =? srv_unit f)) eqn:Eu.
  { rewrite decide_True by lia. by apply (t35_silent f r h (diag_count NoResp (diag_count BusMsg srv))). }
  rewrite decide_False by lia.
  pose proof (process_spec fc d srv (replicate MB_SERVER_PDU_MAX 0) r h) as A.
  pose proof (wire_bound fc d (diag srv) r h) as W.
  pose proof (wire_bytes fc d (diag srv) r h H3 Hbd) as WB.
  destruct (mb_spec fc d (diag srv) r h) as [[rep dg] ws]. cbn [fst] in W, WB.
  destruct A as (o' & -> & Hp' & Hl'); [by apply bytes_ok_cons|lia|done|done|done|].
  cbn [mbind option_bind].
  destruct (Nat.eqb_spec (length (wire fc rep)) 0) as [Ez|Ez].
  { apply nil_length_inv in Ez. rewrite Ez, decide_True by auto. exists tx.
    split; [reflexivity|]. split; [apply prefix_is_nil|done]. }
  destruct (Z.eqb_spec u 0) as [->|Hu]; cbn [orb].
  { rewrite decide_True by auto. exists tx. split; [reflexivity|]. split; [apply prefix_is_nil|done]. }
  rewrite decide_False by (intros [C|C]; [done|by rewrite C in Ez]).
  assert (slice o' 0 (length (wire fc rep)) = Some (wire fc rep)) as ->.
  { apply prefix_is_app in Hp' as [tl ->]. rewrite slice_0 by len. by rewrite take_app_length. }
  cbn [mbind option_bind].
  cbn [mbind option_bind].
  destruct (tx_reply u (wire fc rep) tx) as (tx' & K & P & L); [lia|done|done|done|].
  rewrite K. exists tx'. split; [|done].
  rewrite decide_False by done.
  match goal with |- context [length (?x ++ ?y)] =>
    replace (length (x ++ y)) with (length (wire fc rep) + 3)%nat by (rewrite length_app; simpl; lia) end.
  reflexivity.
Qed.

Lemma received_wf f : rtu_wf f -> bytes_ok (received f).
Proof. intros (_ & Hb & _). by apply Forall_take. Qed.
End FrameProofs.

(** A frame as a sender builds it. *)
Definition with_crc (body : list Z) : list Z :=
  body ++ [crc16_modbus body mod 256; crc16_modbus body / 256].

Lemma crc_pair_inj x y :
  [x mod 256; x / 256] = [y mod 256; y / 256] -> x = y.
Proof. intros [= H1 H2]. zdm. Qed.

Lemma corrupt_rejected body i c :
  bytes_ok body -> is_u8 c -> (i < length (with_crc body))%nat -> with_crc body !! i <> Some c ->
  let l := <[i := c]> (with_crc body) in
  let n := length body in
  drop n l <> [crc16_modbus (take n l) mod 256; crc16_modbus (take n l) / 256].
Proof.
  intros Hb Hc Hi Hne l n E. unfold l, with_crc in E. unfold with_crc in Hi, Hne.
  destruct (decide (i < n)%nat) as [Hin|Hin].
  - rewrite insert_app_l in E by done. unfold n in E.
    rewrite <- (length_insert body i c) in E. rewrite drop_app_length, take_app_length in E.
    apply crc_pair_inj in E. rewrite lookup_app_l in Hne by done.
    destruct (lookup_lt_is_Some_2 body i Hin) as [b Hbi]. rewrite Hbi in Hne.
    apply (crc16_modbus_detects (take i body) b c (drop (S i) body)); [|done|congruence|].
    + by rewrite take_drop_middle.
    + rewrite take_drop_middle by done. rewrite E. f_equal. by apply insert_take_drop.
  - rewrite insert_app_r_alt in E by lia. unfold n in E.
    rewrite drop_app_length, take_app_length in E.
    rewrite lookup_app_r in Hne by lia. apply Hne. rewrite <- E.
    rewrite list_lookup_insert_eq; [done|]. rewrite length_app in Hi. simpl in *. lia.
Qed.

(** ** Properties *)

(** C30: what the RTU slave does with a frame.  For every assembled frame, when
    the line falls silent: overlong, short, corrupted (CRC) and foreign-unit
    frames are counted and dropped with the registers untouched; otherwise the
    PDU is executed as specified, and a unicast request is answered with its
    unit, the response PDU and their CRC, low byte first.  The assembler is
    reset in every case and nothing panics. *)
Theorem rtu_refines {H} `{!RegHooks H} f srv r (h : H) tx
    (Hf : rtu_wf f) (Htx : length tx = 259%nat) (Hr : reg_inv r) (Hs : diag_wf (diag srv)) :
  exists rsp dg ws r' h' tx',
    rtu_spec (received f) (rx_overflow f) (srv_unit f) (diag srv) r h = (rsp, dg, ws) /\
    t35_expired f srv r h tx =
      Some (if decide (rsp = []) then None else Some (length rsp), rtu_reset f, mkMbServer dg,
            r', h', tx') /\
    (r', h') = run_writes ws (r, h) /\ prefix_is tx' rsp.
Proof.
  pose proof (t35_correct f srv r h tx Hf Htx Hr Hs) as A.
  destruct (rtu_spec _ _ _ _ r h) as [[rsp dg] ws]. destruct A as (tx' & E & Hp & _).
  exists rsp, dg, ws. destruct (run_writes ws (r, h)) as [r' h'].
  exists r', h', tx'. done.
Qed.

Definition rtu_demo : RtuFrame :=
  mkRtuFrame (list_inserts 0 [1; 3; 0; 9; 0; 1; 84; 8] (replicate 256 0)) 8 false 1.

Lemma rtu_refines_witness :
  exists srv' r' h' tx',
    t35_expired rtu_demo MbServer_new (RegMap_new 7) tt (replicate 259 0) =
      Some (Some 7%nat, rtu_reset rtu_demo, srv', r', h', tx') /\ prefix_is tx' [1; 3; 2; 0; 1; 121; 132].
Proof.
  destruct (rtu_refines rtu_demo MbServer_new (RegMap_new 7) tt (replicate 259 0))
    as (rsp & dg & ws & r' & h' & tx' & Hsp & E & _ & Hp).
  - split; [reflexivity|]. split; [|unfold RTU_FRAME_MAX; simpl; lia].
    unfold rtu_demo. cbn [rx_buf list_inserts replicate insert list_insert].
    repeat (apply bytes_ok_cons; [unfold is_u8; lia|]). constructor.
  - reflexivity.
  - apply RegMap_new_inv; unfold is_u16; lia.
  - split; [done|]. repeat constructor; unfold is_u16; lia.
  - vm_compute in Hsp. injection Hsp as <- <- <-. exists (mkMbServer [1; 0; 0; 1; 0]), r', h', tx'.
    split; [exact E|exact Hp].
Defined.

(** C31: a corrupted byte is never acted on.  Take any frame a sender can build
    and replace any one byte, CRC included, by any other: the slave answers
    nothing, executes nothing (registers and hooks untouched), and counts one
    bus message, one CRC error and one missing response. *)
Theorem rtu_corruption_dropped {H} `{!RegHooks H} f srv r (h : H) tx body i c
    (Hf : rtu_wf f) (Htx : length tx = 259%nat) (Hr : reg_inv r) (Hs : diag_wf (diag srv))
    (Hbody : bytes_ok body) (Hlen : (2 <= length body)%nat)
    (Hc : is_u8 c) (Hi : (i < length (with_crc body))%nat) (Hne : with_crc body !! i <> Some c)
    (Hrec : received f = <[i := c]> (with_crc body)) (Hov : rx_overflow f = false) :
  exists tx', t35_expired f srv r h tx =
    Some (None, rtu_reset f, diag_count NoResp (diag_count CrcErr (diag_count BusMsg srv)), r, h, tx').
Proof.
  pose proof (t35_correct f srv r h tx Hf Htx Hr Hs) as A.
  pose proof (corrupt_rejected body i c Hbody Hc Hi Hne) as C. cbv zeta in C.
  assert (length (with_crc body) = length body + 2)%nat as Hl
    by (unfold with_crc; rewrite length_app; simpl; lia).
  unfold rtu_spec in A. rewrite Hrec, Hov, length_insert, Hl in A.
  rewrite decide_False in A
    by (intros E; apply (f_equal length) in E; rewrite length_insert, Hl in E; simpl in E; lia).
  rewrite (proj2 (Nat.ltb_ge _ _)) in A by lia. cbn [orb] in A.
  replace (length body + 2 - 2)%nat with (length body) in A by lia.
  rewrite decide_True in A by done. destruct A as (tx' & E & _). exists tx'. rewrite E. by destruct srv.
Qed.

Lemma rtu_corruption_dropped_witness :
  exists tx', t35_expired (mkRtuFrame (list_inserts 0 [1; 3; 0; 8; 0; 1; 84; 8] (replicate 256 0)) 8 false 1)
      MbServer_new (RegMap_new 7) tt (replicate 259 0) =
    Some (None, mkRtuFrame (list_inserts 0 [1; 3; 0; 8; 0; 1; 84; 8] (replicate 256 0)) 0 false 1,
      mkMbServer [1; 1; 0; 0; 1], RegMap_new 7, tt, tx').
Proof.
  apply (rtu_corruption_dropped
    (mkRtuFrame (list_inserts 0 [1; 3; 0; 8; 0; 1; 84; 8] (replicate 256 0)) 8 false 1)
    MbServer_new (RegMap_new 7) tt (replicate 259 0) [1; 3; 0; 9; 0; 1] 3 8).
  - split; [reflexivity|]. split; [|unfold RTU_FRAME_MAX; simpl; lia].
    cbn [rx_buf list_inserts replicate insert list_insert].
    repeat (apply bytes_ok_cons; [unfold is_u8; lia|]). constructor.
  - reflexivity.
  - apply RegMap_new_inv; unfold is_u16; lia.
  - split; [done|]. repeat constructor; unfold is_u16; lia.
  - repeat (apply bytes_ok_cons; [unfold is_u8; lia|]). constructor.
  - simpl; lia.
  - unfold is_u8; lia.
  - vm_compute; lia.
  - vm_compute. discriminate.
  - vm_compute. reflexivity.
  - reflexivity.
Defined.

(** assembly does not depend on how the UART cuts the line: feeding [a]
    and then [b] is feeding [a ++ b], what is kept is the first 256 bytes, and
    the overflow flag says exactly whether more was received. *)
Theorem rx_feed_assembles f a b (Hf : rtu_wf f) (Ha : bytes_ok a) (Hb : bytes_ok b)
    (Ho : rx_overflow f = false) :
  exists f1 f2 f3, rx_feed a f = Some f1 /\ rx_feed b f1 = Some f2 /\ rx_feed (a ++ b) f = Some f3 /\
    received f2 = received f3 /\ rx_overflow f2 = rx_overflow f3 /\
    received f3 = take RTU_FRAME_MAX (received f ++ a ++ b) /\
    rx_overflow f3 = (RTU_FRAME_MAX <? length (received f ++ a ++ b))%nat.
Proof.
  destruct (rx_feed_eq a f Hf Ha Ho) as (f1 & E1 & W1 & U1 & R1 & O1).
  destruct (rx_feed_eq (a ++ b) f Hf (bytes_ok_app _ _ Ha Hb) Ho) as (f3 & E3 & W3 & U3 & R3 & O3).
  exists f1. destruct (Nat.ltb_spec RTU_FRAME_MAX (length (received f ++ a))) as [Hov|Hov].
  - assert (rx_feed b f1 = Some f1) as E2.
    { unfold rx_feed. rewrite O1. destruct (_ =? _)%nat; done. }
    exists f1, f3. do 3 (split; [done|]). split; [|split; [|done]].
    + rewrite R1, R3, app_assoc. by rewrite (take_app_le (received f ++ a) b) by lia.
    + rewrite O1, O3. symmetry. apply Nat.ltb_lt. rewrite app_assoc, length_app. lia.
  - destruct (rx_feed_eq b f1 W1 Hb O1) as (f2 & E2 & W2 & U2 & R2 & O2).
    rewrite (take_ge (received f ++ a)) in R1 by done. rewrite R1, <- app_assoc in R2, O2.
    exists f2, f3. do 3 (split; [done|]). split; [congruence|]. split; [congruence|done].
Qed.

Lemma rx_feed_assembles_witness :
  exists f1 f2, rx_feed [1; 3] RtuFrame_new = Some f1 /\ rx_feed [0; 9] f1 = Some f2 /\
    received f2 = [1; 3; 0; 9].
Proof.
  destruct (rx_feed_assembles RtuFrame_new [1; 3] [0; 9]) as (f1 & f2 & f3 & E1 & E2 & _ & R & _ & R3 & _).
  - split; [reflexivity|]. split; [apply Forall_replicate; unfold is_u8; lia|]. simpl; lia.
  - repeat constructor; unfold is_u8; lia.
  - repeat constructor; unfold is_u8; lia.
  - reflexivity.
  - exists f1, f2. split; [exact E1|]. split; [exact E2|]. rewrite R, R3. reflexivity.
Defined.
