(* ===== verification/ConfigStore.v ===== *)
(** * Configuration store (crates/proto/src/config_store.rs)

    The A/B slot codec and its flash protocol.  The trait [Flash] is a class
    over the state of the device; [NorImage] is a NOR flash image whose power
    fails after a given number of byte operations, on which the crash theorems
    are stated. *)
From S2P Require Import Prelude Bytes Crc.

Definition CFG_SLOT_SIZE : Z := 0x8000.
Definition CFG_SLOT_A : Z := 0x000E0000.
Definition CFG_SLOT_B : Z := CFG_SLOT_A + CFG_SLOT_SIZE.

Definition CFG_MAGIC : list Z := bs "IOCF".
Definition CFG_HDR_LEN : nat := 10.
Definition CFG_CRC_OFF : nat := 36.
Definition CFG_REC_LEN : nat := 40.

Record IoCfg := mkIoCfg {
  di_en : Z; ai_en : Z; di_si : Z; ai_si : Z; his : Z; can_id : Z;
  can_bps : Z; rs485_bps : Z; slave_id : Z; ip : list Z }.

#[export] Instance IoCfg_eq_dec : EqDecision IoCfg.
Proof. solve_decision. Defined.

Definition IoCfg_defaults : IoCfg :=
  {| di_en := 0xFFFF; ai_en := 0x000F; di_si := 200; ai_si := 200; his := 0;
     can_id := 0x0111; can_bps := 250; rs485_bps := 9600; slave_id := 1;
     ip := [192; 168; 12; 101] |}.

Definition cfg_words (c : IoCfg) : list Z :=
  [di_en c; ai_en c; di_si c; ai_si c; his c; can_id c; can_bps c; rs485_bps c; slave_id c;
   ip c !!! 0%nat; ip c !!! 1%nat; ip c !!! 2%nat; ip c !!! 3%nat].

Definition IoCfg_to_bytes (c : IoCfg) : list Z :=
  foldl (fun b '(i, w) => list_inserts (2 * i) (to_le_bytes16 w) b)
    (replicate 26 0) (imap (fun i w => (i, w)) (cfg_words c)).

Definition IoCfg_from_bytes (b : list Z) : IoCfg :=
  let w (i : nat) := from_le_bytes16 (b !!! (2 * i)%nat) (b !!! (2 * i + 1)%nat) in
  {| di_en := w 0%nat; ai_en := w 1%nat; di_si := w 2%nat; ai_si := w 3%nat; his := w 4%nat;
     can_id := w 5%nat; can_bps := w 6%nat; rs485_bps := w 7%nat; slave_id := w 8%nat;
     ip := [w 9%nat; w 10%nat; w 11%nat; w 12%nat] |}.

(** The trait [Flash]: [read addr n] fills an [n]-byte buffer. *)
Class Flash (F : Type) := {
  flash_read : Z -> nat -> F -> result (list Z) * F;
  flash_write : Z -> list Z -> F -> result unit * F;
  flash_erase : Z -> Z -> F -> result unit * F
}.

Inductive SlotRead := Valid (cfg : IoCfg) (gen : Z) | Invalid.

Record ConfigState := mkConfigState { cfg : IoCfg; cur_slot : option Z }.

(** A constant range of a fixed-size array. *)
Definition range (l : list Z) (i j : nat) : list Z := take (j - i) (drop i l).

Definition le32_at (rec : list Z) (i : nat) : Z :=
  from_le_bytes32 (rec !!! i) (rec !!! (i + 1)%nat) (rec !!! (i + 2)%nat) (rec !!! (i + 3)%nat).

Definition decode_record (rec : list Z) : option (IoCfg * Z) :=
  if negb (bytes_eqb (range rec 0 4) CFG_MAGIC) then None else
  if negb (from_le_bytes16 (rec !!! 8%nat) (rec !!! 9%nat) =? 26) then None else
  if negb (le32_at rec 36 =? crc32_ieee (range rec 0 36)) then None else
  let cfg := IoCfg_from_bytes (range rec 10 36) in
  let gen := le32_at rec 4 in
  Some (cfg, gen).

Definition encode_record (cfg : IoCfg) (gen : Z) : list Z :=
  let rec := replicate CFG_REC_LEN 0 in
  let rec := list_inserts 0 CFG_MAGIC rec in
  let rec := list_inserts 4 (to_le_bytes32 gen) rec in
  let rec := list_inserts 8 (to_le_bytes16 26) rec in
  let rec := list_inserts 10 (IoCfg_to_bytes cfg) rec in
  let crc := crc32_ieee (range rec 0 36) in
  list_inserts 36 (to_le_bytes32 crc) rec.

Section Store.
Context {F : Type} `{!Flash F}.

Definition slot_read (addr : Z) (f : F) : result SlotRead * F :=
  let '(r, f) := flash_read addr CFG_REC_LEN f in
  match r with
  | Err => (Err, f)
  | Ok rec =>
      if negb (bytes_eqb (range rec 0 4) CFG_MAGIC) then (Ok Invalid, f) else
      if negb (from_le_bytes16 (rec !!! 8%nat) (rec !!! 9%nat) =? 26) then (Ok Invalid, f) else
      if negb (le32_at rec 36 =? crc32_ieee (range rec 0 36)) then (Ok Invalid, f) else
      let cfg := IoCfg_from_bytes (range rec 10 36) in
      let gen := le32_at rec 4 in
      (Ok (Valid cfg gen), f)
  end.

Definition config_store_init (f : F) : result ConfigState * F :=
  let state := mkConfigState IoCfg_defaults None in
  let '(a, f) := slot_read CFG_SLOT_A f in
  match a with
  | Err => (Err, f)
  | Ok a =>
      let '(b, f) := slot_read CFG_SLOT_B f in
      match b with
      | Err => (Err, f)
      | Ok b =>
          match a, b with
          | Valid ca ga, Valid cb gb =>
              if gb <=? ga then (Ok (mkConfigState ca (Some CFG_SLOT_A)), f)
              else (Ok (mkConfigState cb (Some CFG_SLOT_B)), f)
          | Valid c _, Invalid => (Ok (mkConfigState c (Some CFG_SLOT_A)), f)
          | Invalid, Valid c _ => (Ok (mkConfigState c (Some CFG_SLOT_B)), f)
          | Invalid, Invalid => (Ok state, f)
          end
      end
  end.

Definition config_store_save_gen (cfg : IoCfg) (cur_slot : option Z) (cur_gen : Z) (f : F)
    : result Z * F :=
  let tgt := if bool_decide (cur_slot = Some CFG_SLOT_A) then CFG_SLOT_B else CFG_SLOT_A in
  let rec := encode_record cfg (as_u32 (cur_gen + 1)) in
  let '(r, f) := flash_erase tgt CFG_SLOT_SIZE f in
  if negb (is_ok r) then (Err, f) else
  let '(r, f) := flash_write tgt (range rec 0 CFG_HDR_LEN) f in
  if negb (is_ok r) then (Err, f) else
  let '(r, f) := flash_write (tgt + Z.of_nat CFG_HDR_LEN) (range rec CFG_HDR_LEN 36) f in
  if negb (is_ok r) then (Err, f) else
  let '(r, f) := flash_write (tgt + Z.of_nat CFG_CRC_OFF) (range rec 36 40) f in
  if negb (is_ok r) then (Err, f) else
  (Ok tgt, f).

Definition config_store_erase_all (f : F) : result unit * F :=
  let '(r, f) := flash_erase CFG_SLOT_A CFG_SLOT_SIZE f in
  if negb (is_ok r) then (Err, f) else
  let '(r, f) := flash_erase CFG_SLOT_B CFG_SLOT_SIZE f in
  if negb (is_ok r) then (Err, f) else
  (Ok tt, f).
End Store.

(** ** A NOR flash that loses power

    [cells] is the memory; each byte erased or programmed costs one unit of
    [budget], and when none is left the operation fails with what was done so
    far.  Programming can only clear bits; erasing sets a byte to 0xFF. *)
Record NorImage := mkNorImage { cells : Z -> Z; budget : nat }.

Definition put_cell (a v : Z) (m : Z -> Z) : Z -> Z := fun x => if x =? a then v else m x.

Fixpoint nor_program (a : Z) (l : list Z) (n : NorImage) : result unit * NorImage :=
  match l with
  | [] => (Ok tt, n)
  | b :: l =>
      match budget n with
      | O => (Err, n)
      | S k => nor_program (a + 1) l (mkNorImage (put_cell a (Z.land (cells n a) b) (cells n)) k)
      end
  end.

Definition erase_cells (a n : Z) (m : Z -> Z) : Z -> Z :=
  fun x => if (a <=? x) && (x <? a + n) then 255 else m x.

#[export] Instance NorFlash : Flash NorImage := {|
  flash_read a k n := (Ok ((fun i => cells n (a + Z.of_nat i)) <$> seq 0 k), n);
  flash_write := nor_program;
  flash_erase a len n :=
    if Z.of_nat (budget n) <? len
    then (Err, mkNorImage (erase_cells a (Z.of_nat (budget n)) (cells n)) 0)
    else (Ok tt, mkNorImage (erase_cells a len (cells n)) (budget n - Z.to_nat len))
|}.

(** ** Well-formed configurations *)
Definition cfg_ok (c : IoCfg) : Prop :=
  length (ip c) = 4%nat /\ words_ok (cfg_words c) /\ words_ok (ip c).

(** The torn records that carry no erased-flash checksum collision: the record
    cut after [j] bytes, the rest still erased. *)
Definition torn (rec : list Z) (j : nat) : list Z := take j rec ++ replicate (40 - j) 255.

Definition torn_collision (rec : list Z) : bool :=
  existsb (fun j => crc32_ieee (range (torn rec j) 0 36) =? 0xFFFFFFFF) (seq 10 26).

(** The choice between the decoded slots (also the boot load of storage.rs). *)
Definition pick (a b : option (IoCfg * Z)) : IoCfg * option Z * Z :=
  match a, b with
  | Some (ca, ga), Some (cb, gb) =>
      if gb <=? ga then (ca, Some CFG_SLOT_A, ga) else (cb, Some CFG_SLOT_B, gb)
  | Some (c, g), None => (c, Some CFG_SLOT_A, g)
  | None, Some (c, g) => (c, Some CFG_SLOT_B, g)
  | None, None => (IoCfg_defaults, None, 0)
  end.

(** ** Lemmas: the codec *)

Definition rec_body (c : IoCfg) (gen : Z) : list Z :=
  CFG_MAGIC ++ to_le_bytes32 gen ++ [26; 0] ++ (cfg_words c ≫= to_le_bytes16).

Lemma cfg_words_length c : length (cfg_words c) = 13%nat.
Proof. done. Qed.

Lemma IoCfg_to_bytes_eq c : IoCfg_to_bytes c = cfg_words c ≫= to_le_bytes16.
Proof. destruct c. reflexivity. Qed.

Lemma rec_body_length c gen : length (rec_body c gen) = 36%nat.
Proof. destruct c. reflexivity. Qed.

Lemma encode_record_eq c gen :
  encode_record c gen = rec_body c gen ++ to_le_bytes32 (crc32_ieee (rec_body c gen)).
Proof.
  unfold encode_record. rewrite IoCfg_to_bytes_eq.
  set (r := list_inserts 10 _ _).
  assert (r = rec_body c gen ++ replicate 4 0) as -> by (destruct c; reflexivity).
  unfold range. rewrite drop_0, Nat.sub_0_r.
  rewrite <- (rec_body_length c gen), take_app_length.
  rewrite list_inserts_split by (rewrite length_app, rec_body_length; simpl; lia).
  rewrite take_app_length, drop_ge by (rewrite length_app, rec_body_length; simpl; lia).
  by rewrite app_nil_r.
Qed.

Lemma encode_record_length c gen : length (encode_record c gen) = 40%nat.
Proof. rewrite encode_record_eq, length_app, rec_body_length. done. Qed.

Lemma le16s_ok ws : bytes_ok (ws ≫= to_le_bytes16).
Proof. induction ws; [constructor|]. apply bytes_ok_app; [apply to_le_bytes16_ok|done]. Qed.

Lemma rec_body_ok c gen : bytes_ok (rec_body c gen).
Proof.
  apply bytes_ok_app; [repeat constructor; lia|]. apply bytes_ok_app; [apply to_le_bytes32_ok|].
  apply bytes_ok_app; [repeat constructor; lia|apply le16s_ok].
Qed.

Lemma encode_record_ok c gen : bytes_ok (encode_record c gen).
Proof.
  rewrite encode_record_eq. apply bytes_ok_app; [apply rec_body_ok|apply to_le_bytes32_ok].
Qed.

Lemma le16_pair w : is_u16 w -> from_le_bytes16 (w mod 256) (w / 256 mod 256) = w.
Proof. unfold is_u16, from_le_bytes16. intros. zdm. Qed.

Lemma from_to_bytes c : cfg_ok c -> IoCfg_from_bytes (cfg_words c ≫= to_le_bytes16) = c.
Proof.
  intros (Hip & Hw & _). destruct c as [a b d e f g h i j ip]. simpl in Hip.
  destruct ip as [|p0 [|p1 [|p2 [|p3 [|]]]]]; try discriminate Hip.
  unfold words_ok, cfg_words in Hw. simpl in Hw.
  repeat match goal with H : Forall _ (_ :: _) |- _ => apply Forall_cons_1 in H as [? H] end.
  unfold IoCfg_from_bytes. simpl. by rewrite !le16_pair by done.
Qed.

Lemma le32_at_bytes v tl : is_u32 v -> le32_at (to_le_bytes32 v ++ tl) 0 = v.
Proof. unfold is_u32, le32_at. simpl. unfold from_le_bytes32. intros. zdm. Qed.

(** Decoding looks at the first 36 bytes and at the checksum field. *)
Lemma decode_body c gen tl :
  cfg_ok c -> is_u32 gen -> length tl = 4%nat ->
  decode_record (rec_body c gen ++ tl) =
    if le32_at tl 0 =? crc32_ieee (rec_body c gen) then Some (c, gen) else None.
Proof.
  intros Hc Hg Hl. destruct tl as [|t0 [|t1 [|t2 [|t3 [|]]]]]; try discriminate Hl.
  unfold decode_record.
  assert (range (rec_body c gen ++ [t0; t1; t2; t3]) 0 36 = rec_body c gen) as ->.
  { unfold range. rewrite drop_0, Nat.sub_0_r, <- (rec_body_length c gen). apply take_app_length. }
  assert (range (rec_body c gen ++ [t0; t1; t2; t3]) 10 36 = cfg_words c ≫= to_le_bytes16) as ->
    by (destruct c; reflexivity).
  rewrite from_to_bytes by done.
  assert (le32_at (rec_body c gen ++ [t0; t1; t2; t3]) 4 = gen) as ->.
  { exact (le32_at_bytes gen [] Hg). }
  replace (bytes_eqb _ CFG_MAGIC) with true by (destruct c; reflexivity).
  replace (negb (from_le_bytes16 _ _ =? 26)) with false by (destruct c; reflexivity). simpl negb.
  replace (le32_at (rec_body c gen ++ [t0; t1; t2; t3]) 36) with (le32_at [t0; t1; t2; t3] 0)
    by (destruct c; reflexivity).
  by destruct (_ =? _).
Qed.

Lemma decode_encode c gen :
  cfg_ok c -> is_u32 gen -> decode_record (encode_record c gen) = Some (c, gen).
Proof.
  intros Hc Hg. rewrite encode_record_eq, decode_body by done.
  rewrite <- (app_nil_r (to_le_bytes32 _)), le32_at_bytes by apply crc32_ieee_range, rec_body_ok. by rewrite Z.eqb_refl.
Qed.

(** A record that does not start with the magic, or has another length field, is rejected. *)
Lemma decode_bad_magic rec : range rec 0 4 <> CFG_MAGIC -> decode_record rec = None.
Proof. intros H. unfold decode_record, bytes_eqb. by rewrite bool_decide_false. Qed.

Lemma decode_bad_len rec :
  from_le_bytes16 (rec !!! 8%nat) (rec !!! 9%nat) <> 26 -> decode_record rec = None.
Proof.
  intros H. unfold decode_record. destruct (negb _); [done|].
  by rewrite (proj2 (Z.eqb_neq _ _) H).
Qed.

Lemma decode_bad_crc rec :
  le32_at rec 36 <> crc32_ieee (range rec 0 36) -> decode_record rec = None.
Proof.
  intros H. unfold decode_record. destruct (negb _); [done|]. destruct (negb _); [done|].
  by rewrite (proj2 (Z.eqb_neq _ _) H).
Qed.

(** ** Lemmas: torn records *)

Lemma torn_all rec : length rec = 40%nat -> torn rec 40 = rec.
Proof. intros H. unfold torn. by rewrite take_ge, app_nil_r by lia. Qed.

Lemma existsb_false_in {A} (p : A -> bool) l x : existsb p l = false -> In x l -> p x = false.
Proof.
  intros H Hx. destruct (p x) eqn:E; [|done].
  assert (existsb p l = true) by (apply existsb_exists; eauto). congruence.
Qed.

Lemma torn_header c gen j :
  (j < 10)%nat -> decode_record (torn (encode_record c gen) j) = None.
Proof.
  intros Hj.
  assert (torn (encode_record c gen) j = take j (rec_body c gen) ++ replicate (40 - j) 255) as ->.
  { unfold torn. rewrite encode_record_eq, take_app_le; [done|]. rewrite rec_body_length. lia. }
  destruct (decide (j < 4)%nat).
  - apply decode_bad_magic.
    do 4 (destruct j as [|j]; [unfold range; simpl; discriminate|]). lia.
  - apply decode_bad_len. do 4 (destruct j as [|j]; [lia|]).
    do 6 (destruct j as [|j]; [simpl; discriminate|]). lia.
Qed.

Lemma torn_field rec j :
  (j <= 36)%nat -> (36 <= length rec)%nat -> le32_at (torn rec j) 36 = 0xFFFFFFFF.
Proof.
  intros Hj Hl. unfold torn, le32_at.
  rewrite !lookup_total_app_r, !lookup_total_replicate_2 by (rewrite length_take_le by lia; lia).
  done.
Qed.

Lemma torn_collision_no rec j :
  torn_collision rec = false -> (10 <= j < 36)%nat ->
  crc32_ieee (range (torn rec j) 0 36) <> 0xFFFFFFFF.
Proof.
  unfold torn_collision. intros H Hj. apply Z.eqb_neq.
  exact (existsb_false_in (fun j => crc32_ieee (range (torn rec j) 0 36) =? 0xFFFFFFFF)
    (seq 10 26) j H (proj2 (in_seq 26 10 j) ltac:(lia))).
Qed.

(** Whatever the cut, a torn record decodes to nothing or to the whole record. *)
Lemma torn_decode c gen j :
  cfg_ok c -> is_u32 gen -> torn_collision (encode_record c gen) = false ->
  decode_record (torn (encode_record c gen) j) = None \/
  decode_record (torn (encode_record c gen) j) = Some (c, gen).
Proof.
  intros Hc Hg Hcol. destruct (decide (36 <= j)%nat) as [Hj|Hj].
  - assert (exists tl, torn (encode_record c gen) j = rec_body c gen ++ tl /\ length tl = 4%nat)
      as (tl & -> & Hl).
    { unfold torn. rewrite encode_record_eq, take_app.
      rewrite take_ge by (rewrite rec_body_length; lia).
      rewrite <- app_assoc. eexists. split; [reflexivity|].
      rewrite length_app, length_take, length_replicate, rec_body_length. simpl. lia. }
    rewrite decode_body by done. destruct (_ =? _); auto.
  - left. destruct (decide (10 <= j)%nat) as [H10|H10]; [|by apply torn_header; lia].
    apply decode_bad_crc. rewrite torn_field by (rewrite ?encode_record_length; lia).
    apply not_eq_sym, torn_collision_no; [done|lia].
Qed.

Lemma erased_decode old j :
  (1 <= j)%nat -> decode_record (replicate j 255 ++ drop j old) = None.
Proof.
  intros Hj. apply decode_bad_magic. destruct j as [|j]; [lia|]. simpl. discriminate.
Qed.

(** ** Lemmas: the NOR image *)

Fixpoint write_cells (a : Z) (l : list Z) (m : Z -> Z) : Z -> Z :=
  match l with
  | [] => m
  | b :: l => write_cells (a + 1) l (put_cell a (Z.land (m a) b) m)
  end.

Lemma nor_program_eq l a m k :
  nor_program a l (mkNorImage m k) =
    (if (length l <=? k)%nat then Ok tt else Err,
     mkNorImage (write_cells a (take k l) m) (k - length l)).
Proof.
  revert a m k. induction l as [|b l IH]; intros a m k.
  - simpl. by rewrite take_nil, Nat.sub_0_r.
  - destruct k as [|k]; [done|]. simpl. rewrite IH. done.
Qed.

Lemma write_cells_at l a m x :
  write_cells a l m x =
    if decide (a <= x < a + Z.of_nat (length l))
    then Z.land (m x) (l !!! Z.to_nat (x - a)) else m x.
Proof.
  revert a m. induction l as [|b l IH]; intros a m; simpl write_cells.
  - rewrite decide_False by (simpl; lia). done.
  - rewrite IH. unfold put_cell. simpl length. destruct (Z.eqb_spec x a) as [->|Hne].
    + rewrite decide_False by lia. rewrite decide_True by lia. by rewrite Z.sub_diag.
    + destruct (decide (a + 1 <= x < a + 1 + Z.of_nat (length l))).
      * rewrite decide_True by lia.
        replace (Z.to_nat (x - a)) with (S (Z.to_nat (x - (a + 1)))) by lia. done.
      * by rewrite decide_False by lia.
Qed.

(** The 40 bytes of a slot. *)
Definition slot_bytes (m : Z -> Z) (a : Z) : list Z := (fun i => m (a + Z.of_nat i)) <$> seq 0 40.

Lemma slot_bytes_ext m m' a :
  (forall x, a <= x < a + 40 -> m x = m' x) -> slot_bytes m a = slot_bytes m' a.
Proof.
  intros H. unfold slot_bytes. apply list_fmap_ext. intros i k [-> Hi]%lookup_seq.
  apply H. lia.
Qed.

Lemma slot_bytes_lookup m a i :
  (i < 40)%nat -> slot_bytes m a !! i = Some (m (a + Z.of_nat i)).
Proof.
  intros. unfold slot_bytes. rewrite list_lookup_fmap.
  by rewrite (proj2 (lookup_seq 0 40 i i)) by lia.
Qed.

Lemma slot_bytes_length m a : length (slot_bytes m a) = 40%nat.
Proof. done. Qed.
#[export] Hint Rewrite slot_bytes_length : lens.

Lemma land_255_l b : is_u8 b -> Z.land 255 b = b.
Proof. intros. rewrite Z.land_comm, land_255. by apply as_u8_id. Qed.

(** A slot after an erase of its first [k] bytes, and after programming [l] into it. *)
Lemma slot_bytes_erased m a k :
  (k <= 40)%nat ->
  slot_bytes (erase_cells a (Z.of_nat k) m) a = replicate k 255 ++ drop k (slot_bytes m a).
Proof.
  intros Hk. apply list_eq_same_length with 40%nat; [len|len|].
  intros i x y Hi. rewrite slot_bytes_lookup by done. unfold erase_cells. intros [= <-].
  destruct (decide (i < k)%nat).
  - rewrite lookup_app_l, lookup_replicate_2 by len. intros [= <-].
    rewrite (proj2 (andb_true_iff _ _)); [done|split; [apply Z.leb_le|apply Z.ltb_lt]; lia].
  - rewrite lookup_app_r, length_replicate, lookup_drop by len.
    replace (k + (i - k))%nat with i by lia. rewrite slot_bytes_lookup by done. intros [= <-].
    rewrite (proj2 (Z.ltb_ge _ _)), andb_false_r by lia. done.
Qed.

Lemma slot_bytes_written m a l :
  (forall i, (i < 40)%nat -> m (a + Z.of_nat i) = 255) -> bytes_ok l -> (length l <= 40)%nat ->
  slot_bytes (write_cells a l m) a = l ++ replicate (40 - length l) 255.
Proof.
  intros Hm Hl Hlen. apply list_eq_same_length with 40%nat; [len|len|].
  intros i x y Hi. rewrite slot_bytes_lookup, write_cells_at, Hm by done. intros [= <-].
  case_decide.
  - rewrite lookup_app_l by lia. replace (Z.to_nat _) with i by lia. intros Hy.
    rewrite (list_lookup_total_correct _ _ _ Hy), land_255_l; [done|].
    by eapply Forall_lookup_1.
  - rewrite lookup_app_r, lookup_replicate_2 by lia. by intros [= <-].
Qed.

(** ** Properties *)

(** a slot record is 40 bytes and decodes to the configuration and the
    generation it was encoded from. *)
Theorem config_record_roundtrip c gen (Hc : cfg_ok c) (Hg : is_u32 gen) :
  length (encode_record c gen) = CFG_REC_LEN /\ bytes_ok (encode_record c gen) /\
  decode_record (encode_record c gen) = Some (c, gen).
Proof.
  split; [apply encode_record_length|]. split; [apply encode_record_ok|by apply decode_encode].
Qed.

Lemma config_record_roundtrip_witness :
  decode_record (encode_record IoCfg_defaults 7) = Some (IoCfg_defaults, 7).
Proof.
  apply (config_record_roundtrip IoCfg_defaults 7).
  - split; [reflexivity|]. split; repeat constructor; simpl; lia.
  - unfold is_u32. lia.
Defined.
