(* ===== verification/StorageCfg.v ===== *)
(** * Configuration ownership (crates/firmware/src/storage.rs, configuration part)

    The storage task holds the NOR ([NOR]), the active slot and generation
    ([CFG]) and copies configurations between the record and the register map
    ([REGS]).  The crash theorem is about this code, on the image of
    [ConfigStore]. *)
From S2P Require Import Prelude Bytes Crc RegMap ConfigStore.

(** The statics of storage.rs the configuration uses. *)
Record CfgState (F : Type) := mkCfgState {
  NOR : option F;
  CFG : option Z * Z;
  REGS : RegMap
}.
Arguments mkCfgState {F} _ _ _.
Arguments NOR {F} _.
Arguments CFG {F} _.
Arguments REGS {F} _.

(** [NOR.lock(|r| r.borrow_mut().as_mut().map(f))]. *)
Definition nor_with {F A} (f : F -> A * F) (nor : option F) : option A * option F :=
  match nor with
  | Some w => let '(x, w) := f w in (Some x, Some w)
  | None => (None, None)
  end.

(** [map_or(false, |r| r.is_ok())]. *)
Definition ok_or_false {A} (r : option (result A)) : bool :=
  match r with Some r => is_ok r | None => false end.

Definition apply_cfg_to_regs (r : RegMap) (c : IoCfg) : RegMap :=
  let vals :=
    [(HOLDING_DI_ENABLE_IDX, di_en c); (HOLDING_AI_ENABLE_IDX, ai_en c);
     (HOLDING_DI_SAMPLE_MS_IDX, di_si c); (HOLDING_AI_SAMPLE_MS_IDX, ai_si c);
     (HOLDING_HISTORY_ENABLE_IDX, his c); (HOLDING_CAN_ID_IDX, can_id c);
     (HOLDING_CAN_BAUDRATE_IDX, can_bps c); (HOLDING_RS485_BAUDRATE_IDX, rs485_bps c);
     (HOLDING_SLAVE_ID_IDX, slave_id c);
     (HOLDING_IP_OCTET1_IDX, ip c !!! 0%nat); (HOLDING_IP_OCTET2_IDX, ip c !!! 1%nat);
     (HOLDING_IP_OCTET3_IDX, ip c !!! 2%nat); (HOLDING_IP_OCTET4_IDX, ip c !!! 3%nat)] in
  foldl (fun r '(idx, v) => set_holding (<[idx := v]>) r) r vals.

Definition regs_to_cfg (r : RegMap) : IoCfg :=
  let g (idx : nat) := get_holding r (Z.of_nat idx) in
  {| di_en := g HOLDING_DI_ENABLE_IDX; ai_en := g HOLDING_AI_ENABLE_IDX;
     di_si := g HOLDING_DI_SAMPLE_MS_IDX; ai_si := g HOLDING_AI_SAMPLE_MS_IDX;
     his := g HOLDING_HISTORY_ENABLE_IDX; can_id := g HOLDING_CAN_ID_IDX;
     can_bps := g HOLDING_CAN_BAUDRATE_IDX; rs485_bps := g HOLDING_RS485_BAUDRATE_IDX;
     slave_id := g HOLDING_SLAVE_ID_IDX;
     ip := [g HOLDING_IP_OCTET1_IDX; g HOLDING_IP_OCTET2_IDX;
            g HOLDING_IP_OCTET3_IDX; g HOLDING_IP_OCTET4_IDX] |}.

Section Cfg.
Context {F : Type} `{!Flash F}.

Definition boot_config_load (s : CfgState F) : CfgState F :=
  let '(ra, nor) := nor_with (flash_read CFG_SLOT_A CFG_REC_LEN) (NOR s) in
  let a := match ra with Some (Ok ra) => decode_record ra | _ => None end in
  let '(rb, nor) := nor_with (flash_read CFG_SLOT_B CFG_REC_LEN) nor in
  let b := match rb with Some (Ok rb) => decode_record rb | _ => None end in
  let '(cfg, slot, gen) := pick a b in
  mkCfgState nor (slot, gen) (apply_cfg_to_regs (REGS s) cfg).

Definition cfg_save (s : CfgState F) : CfgState F :=
  let cfg := regs_to_cfg (REGS s) in
  let '(slot, gen) := CFG s in
  let rec := encode_record cfg (as_u32 (gen + 1)) in
  let tgt := if bool_decide (slot = Some CFG_SLOT_A) then CFG_SLOT_B else CFG_SLOT_A in
  let '(ok, nor) :=
    let '(r, nor) := nor_with (flash_erase tgt CFG_SLOT_SIZE) (NOR s) in
    if negb (ok_or_false r) then (false, nor) else
    let '(r, nor) := nor_with (flash_write tgt (range rec 0 CFG_HDR_LEN)) nor in
    if negb (ok_or_false r) then (false, nor) else
    let '(r, nor) :=
      nor_with (flash_write (tgt + Z.of_nat CFG_HDR_LEN) (range rec CFG_HDR_LEN 36)) nor in
    if negb (ok_or_false r) then (false, nor) else
    let '(r, nor) := nor_with (flash_write (tgt + Z.of_nat CFG_CRC_OFF) (range rec 36 40)) nor in
    (ok_or_false r, nor) in
  if ok : bool then mkCfgState nor (Some tgt, as_u32 (gen + 1)) (REGS s)
  else mkCfgState nor (CFG s) (REGS s).

Definition cfg_erase_all (s : CfgState F) : CfgState F :=
  let '(ok, nor) :=
    let '(r, nor) := nor_with (flash_erase CFG_SLOT_A CFG_SLOT_SIZE) (NOR s) in
    if negb (ok_or_false r) then (false, nor) else
    let '(r, nor) := nor_with (flash_erase CFG_SLOT_B CFG_SLOT_SIZE) nor in
    (ok_or_false r, nor) in
  if ok : bool then
    mkCfgState nor (None, 0) (apply_cfg_to_regs (REGS s) IoCfg_defaults)
  else mkCfgState nor (CFG s) (REGS s).
End Cfg.

(** ** Register map and configuration *)

Lemma regs_to_cfg_ok r : reg_wf r -> cfg_ok (regs_to_cfg r).
Proof.
  intros Hwf.
  assert (forall k, is_u16 (get_holding r k)) as Hg.
  { intros k. unfold get_holding. destruct Hwf as (_ & Hw & _).
    destruct (holding r !! Z.to_nat k) eqn:E; simpl; [by eapply Forall_lookup_1|].
    unfold is_u16; lia. }
  split; [done|]. split; repeat constructor; apply Hg.
Qed.

Lemma regs_cfg_roundtrip r c :
  reg_wf r -> cfg_ok c -> regs_to_cfg (apply_cfg_to_regs r c) = c.
Proof.
  intros (Hl & _) (Hip & _). destruct r as [h i]. simpl in Hl.
  unfold MODBUS_HOLDING_REGISTER_NUMBERS in Hl.
  rewrite (list_tabulate h 18 Hl).
  destruct c as [a b d e f g k m j ip]. simpl in Hip. rewrite (list_tabulate ip 4 Hip).
  reflexivity.
Qed.

(** ** Power failure during a save *)

Lemma write_cells_app a l1 l2 m :
  write_cells a (l1 ++ l2) m = write_cells (a + Z.of_nat (length l1)) l2 (write_cells a l1 m).
Proof.
  revert a m. induction l1 as [|b l1 IH]; intros a m; simpl.
  - by rewrite Z.add_0_r.
  - rewrite IH. f_equal. lia.
Qed.

Lemma range_app rec i j k :
  (i <= j <= k)%nat -> range rec i j ++ range rec j k = range rec i k.
Proof.
  intros H. unfold range. replace (drop j rec) with (drop (j - i) (drop i rec))
    by (rewrite drop_drop; f_equal; lia).
  rewrite take_take_drop. f_equal. lia.
Qed.

Lemma range_take rec i j n :
  (i <= j)%nat -> take n (range rec i j) = range rec i (Nat.min j (i + n)).
Proof. intros H. unfold range. rewrite take_take. f_equal. lia. Qed.

Lemma range_length rec i j : (i <= j <= length rec)%nat -> length (range rec i j) = (j - i)%nat.
Proof. intros H. unfold range. len. Qed.

(** The three writes of a save program the record front to back until the
    budget ends. *)
Definition write_record (tgt : Z) (rec : list Z) (nor : option NorImage) : bool * option NorImage :=
  let '(r, nor) := nor_with (flash_write tgt (range rec 0 CFG_HDR_LEN)) nor in
  if negb (ok_or_false r) then (false, nor) else
  let '(r, nor) :=
    nor_with (flash_write (tgt + Z.of_nat CFG_HDR_LEN) (range rec CFG_HDR_LEN 36)) nor in
  if negb (ok_or_false r) then (false, nor) else
  let '(r, nor) := nor_with (flash_write (tgt + Z.of_nat CFG_CRC_OFF) (range rec 36 40)) nor in
  (ok_or_false r, nor).

Lemma wr_eq (b : bool) tgt rec m i i' j j' :
  i = i' -> j = j' ->
  (b, Some (mkNorImage (write_cells tgt (range rec 0 i) m) j)) =
  (b, Some (mkNorImage (write_cells tgt (range rec 0 i') m) j')).
Proof. congruence. Qed.

Lemma write_record_eq tgt rec m k :
  length rec = 40%nat ->
  write_record tgt rec (Some (mkNorImage m k)) =
    ((40 <=? k)%nat, Some (mkNorImage (write_cells tgt (range rec 0 (Nat.min 40 k)) m) (k - 40))).
Proof.
  intros Hl. unfold write_record, nor_with, CFG_HDR_LEN, CFG_CRC_OFF.
  cbn [flash_write NorFlash].
  rewrite nor_program_eq, range_length, range_take by lia.
  destruct (Nat.leb_spec (10 - 0) k) as [H1|H1]; cbn [ok_or_false is_ok negb].
  2:{ rewrite (proj2 (Nat.leb_gt 40 k)) by lia. apply wr_eq; lia. }
  rewrite nor_program_eq, range_length, range_take by lia.
  replace (Nat.min 10 (0 + k)) with 10%nat by lia.
  assert (forall j, (10 <= j)%nat -> write_cells (tgt + Z.of_nat 10) (range rec 10 j)
    (write_cells tgt (range rec 0 10) m) = write_cells tgt (range rec 0 j) m) as Hw.
  { intros j Hj. rewrite <- (range_app rec 0 10 j), write_cells_app, range_length by lia. done. }
  rewrite Hw by lia.
  destruct (Nat.leb_spec (36 - 10) (k - (10 - 0))) as [H2|H2]; cbn [ok_or_false is_ok negb].
  2:{ rewrite (proj2 (Nat.leb_gt 40 k)) by lia. apply wr_eq; lia. }
  rewrite nor_program_eq, range_length, range_take by lia.
  replace (Nat.min 36 _) with 36%nat by lia.
  assert (forall j, (36 <= j)%nat -> write_cells (tgt + Z.of_nat 36) (range rec 36 j)
    (write_cells tgt (range rec 0 36) m) = write_cells tgt (range rec 0 j) m) as Hw3.
  { intros j Hj. rewrite <- (range_app rec 0 36 j), write_cells_app, range_length by lia. done. }
  rewrite Hw3 by lia.
  destruct (Nat.leb_spec (40 - 36) (k - (10 - 0) - (36 - 10))) as [H3|H3]; cbn [ok_or_false is_ok].
  - rewrite (proj2 (Nat.leb_le 40 k)) by lia. apply wr_eq; lia.
  - rewrite (proj2 (Nat.leb_gt 40 k)) by lia. apply wr_eq; lia.
Qed.

(** The possible contents of the target slot after a save that may have been
    cut short, and what of it the save reports. *)
Inductive slot_after (old rec : list Z) : bool -> list Z -> Prop :=
| after_erase j : (j <= 40)%nat -> slot_after old rec false (replicate j 255 ++ drop j old)
| after_write j : (j <= 40)%nat -> slot_after old rec false (torn rec j)
| after_all : slot_after old rec true rec.

Definition other_slot (a : Z) : Z := if a =? CFG_SLOT_A then CFG_SLOT_B else CFG_SLOT_A.

Lemma other_erased tgt n m x :
  tgt = CFG_SLOT_A \/ tgt = CFG_SLOT_B -> n <= CFG_SLOT_SIZE ->
  other_slot tgt <= x < other_slot tgt + 40 -> erase_cells tgt n m x = m x.
Proof.
  unfold other_slot, erase_cells, CFG_SLOT_B, CFG_SLOT_A, CFG_SLOT_SIZE. intros [-> | ->] Hn Hx; simpl in Hx;
    (rewrite (proj2 (andb_false_iff _ _)); [done|]);
    rewrite Z.leb_gt, Z.ltb_ge; lia.
Qed.

Lemma other_written tgt l m :
  tgt = CFG_SLOT_A \/ tgt = CFG_SLOT_B -> (length l <= 40)%nat ->
  slot_bytes (write_cells tgt l m) (other_slot tgt) = slot_bytes m (other_slot tgt).
Proof.
  intros Ht Hl. apply slot_bytes_ext. intros x Hx. rewrite write_cells_at, decide_False; [done|].
  revert Hx. unfold other_slot, CFG_SLOT_B, CFG_SLOT_A, CFG_SLOT_SIZE in *.
  destruct Ht as [-> | ->]; simpl; lia.
Qed.

Lemma cfg_save_image s m k slot gen :
  NOR s = Some (mkNorImage m k) -> CFG s = (slot, gen) -> reg_wf (REGS s) ->
  let tgt := if bool_decide (slot = Some CFG_SLOT_A) then CFG_SLOT_B else CFG_SLOT_A in
  let rec := encode_record (regs_to_cfg (REGS s)) (as_u32 (gen + 1)) in
  exists (ok : bool) m' k',
    cfg_save s = mkCfgState (Some (mkNorImage m' k'))
      (if ok then (Some tgt, as_u32 (gen + 1)) else CFG s) (REGS s) /\
    slot_bytes m' (other_slot tgt) = slot_bytes m (other_slot tgt) /\
    slot_after (slot_bytes m tgt) rec ok (slot_bytes m' tgt) /\
    (Z.of_nat k >= CFG_SLOT_SIZE + 40 -> ok = true).
Proof.
  intros Hnor Hcfg Hwf tgt rec.
  assert (length rec = 40%nat) as Hrec by apply encode_record_length.
  assert (cfg_save s =
    let '(r, nor) := nor_with (flash_erase tgt CFG_SLOT_SIZE) (NOR s) in
    let '(ok, nor) := if negb (ok_or_false r) then (false, nor) else write_record tgt rec nor in
    if ok : bool then mkCfgState nor (Some tgt, as_u32 (gen + 1)) (REGS s)
    else mkCfgState nor (CFG s) (REGS s)) as ->.
  { unfold cfg_save. rewrite Hcfg. fold tgt rec. destruct (nor_with _ (NOR s)). done. }
  rewrite Hnor. cbn [nor_with flash_erase NorFlash cells budget].
  assert (tgt = CFG_SLOT_A \/ tgt = CFG_SLOT_B) as Htgt by (subst tgt; destruct (bool_decide _); auto).
  destruct (Z.ltb_spec (Z.of_nat k) CFG_SLOT_SIZE) as [Hk|Hk].
  - cbn [ok_or_false is_ok negb]. exists false. do 2 eexists. split; [done|]. split; [|split; [|lia]].
    + apply slot_bytes_ext. intros x Hx. apply other_erased; [done|lia|done].
    + destruct (decide (k <= 40)%nat).
      * rewrite slot_bytes_erased by done. by apply after_erase.
      * replace (slot_bytes (erase_cells tgt (Z.of_nat k) m) tgt)
          with (replicate 40 255 ++ drop 40 (slot_bytes m tgt)); [by apply after_erase|].
        rewrite <- (slot_bytes_erased m tgt 40) by done. apply slot_bytes_ext. intros x Hx.
        unfold erase_cells. rewrite !(proj2 (andb_true_iff _ _)); [done| |];
          rewrite Z.leb_le, Z.ltb_lt; lia.
  - cbn [ok_or_false is_ok negb]. rewrite write_record_eq by done.
    set (k2 := (k - Z.to_nat CFG_SLOT_SIZE)%nat).
    exists (40 <=? k2)%nat. do 2 eexists. split; [destruct (40 <=? k2)%nat; reflexivity|].
    assert (length (range rec 0 (Nat.min 40 k2)) = Nat.min 40 k2) as Hlen
      by (rewrite range_length by lia; lia).
    split; [|split].
    + rewrite other_written by (done || lia). apply slot_bytes_ext. intros x Hx. apply other_erased; [done|lia|done].
    + rewrite slot_bytes_written.
      * rewrite Hlen. unfold range. rewrite drop_0, Nat.sub_0_r.
        destruct (Nat.leb_spec 40 k2).
        -- rewrite Nat.min_l by lia. rewrite take_ge, Nat.sub_diag, app_nil_r by lia. constructor.
        -- rewrite Nat.min_r by lia. apply after_write. lia.
      * intros i Hi. unfold erase_cells. rewrite (proj2 (andb_true_iff _ _)); [done|].
        rewrite Z.leb_le, Z.ltb_lt. unfold CFG_SLOT_SIZE. lia.
      * unfold range. apply Forall_take, Forall_drop, encode_record_ok.
      * lia.
    + intros Hk2. apply Nat.leb_le. subst k2. unfold CFG_SLOT_SIZE in Hk2 |- *. lia.
Qed.

Definition slots_pick (m : Z -> Z) : IoCfg * option Z * Z :=
  pick (decode_record (slot_bytes m CFG_SLOT_A)) (decode_record (slot_bytes m CFG_SLOT_B)).

Lemma boot_config_load_image s m k :
  NOR s = Some (mkNorImage m k) ->
  boot_config_load s =
    let '(cfg, slot, gen) := slots_pick m in
    mkCfgState (NOR s) (slot, gen) (apply_cfg_to_regs (REGS s) cfg).
Proof. intros E. unfold boot_config_load, slots_pick. by rewrite E. Qed.

Lemma pick_next da db old slot gen new :
  pick da db = (old, slot, gen) -> 0 <= gen ->
  (bool_decide (slot = Some CFG_SLOT_A) = true ->
     pick da (Some (new, gen + 1)) = (new, Some CFG_SLOT_B, gen + 1) /\
     pick da None = (old, slot, gen)) /\
  (bool_decide (slot = Some CFG_SLOT_A) = false ->
     pick (Some (new, gen + 1)) db = (new, Some CFG_SLOT_A, gen + 1) /\
     pick None db = (old, slot, gen)).
Proof.
  unfold pick. intros Hp Hg.
  destruct da as [[ca ga]|], db as [[cb gb]|]; [destruct (Z.leb_spec gb ga)| | |];
    injection Hp as <- <- <-; (split; [intros Hb|intros Hb]; try (vm_compute in Hb; discriminate Hb));
    rewrite ?(proj2 (Z.leb_gt _ _)), ?(proj2 (Z.leb_le _ _)) by lia; auto.
Qed.

(** What a save, cut or not, leaves for the next boot to choose. *)
Lemma slots_pick_after m m' (ok : bool) old slot gen new :
  slots_pick m = (old, slot, gen) -> cfg_ok new -> 0 <= gen < 0xFFFFFFFF ->
  let tgt := if bool_decide (slot = Some CFG_SLOT_A) then CFG_SLOT_B else CFG_SLOT_A in
  let rec := encode_record new (gen + 1) in
  torn_collision rec = false ->
  slot_bytes m' (other_slot tgt) = slot_bytes m (other_slot tgt) ->
  slot_after (slot_bytes m tgt) rec ok (slot_bytes m' tgt) ->
  slots_pick m' = (new, Some tgt, gen + 1) \/ (ok = false /\ slots_pick m' = (old, slot, gen)).
Proof.
  intros Hp Hnew Hgen tgt rec Hcol Hother Hafter.
  assert (is_u32 (gen + 1)) as Hg by (unfold is_u32; lia).
  assert (decode_record (slot_bytes m' tgt) = Some (new, gen + 1) \/
    (ok = false /\ (decode_record (slot_bytes m' tgt) = None \/
       slot_bytes m' tgt = slot_bytes m tgt))) as Hdec.
  { destruct Hafter as [j Hj|j Hj|].
    - destruct j as [|j]; [|rewrite erased_decode by lia; auto]. right. split; [done|]. by right.
    - destruct (torn_decode new (gen + 1) j Hnew Hg Hcol) as [E|E]; fold rec in E; rewrite E; auto.
    - left. by apply decode_encode. }
  unfold slots_pick in *. destruct (pick_next _ _ _ _ _ new Hp ltac:(lia)) as [HA HB].
  subst tgt. destruct (bool_decide (slot = Some CFG_SLOT_A)) eqn:E.
  - change (other_slot CFG_SLOT_B) with CFG_SLOT_A in Hother. rewrite Hother.
    destruct (HA eq_refl) as [H1 H2]. destruct Hdec as [->|[-> [->| ->]]]; auto.
  - change (other_slot CFG_SLOT_A) with CFG_SLOT_B in Hother. rewrite Hother.
    destruct (HB eq_refl) as [H1 H2]. destruct Hdec as [->|[-> [->| ->]]]; auto.
Qed.

(** ** The library protocol and the firmware's own copy of it *)

Section Equivalence.
Context {F : Type} `{!Flash F}.

Lemma slot_read_decode addr (f : F) :
  slot_read addr f =
    (match fst (flash_read addr CFG_REC_LEN f) with
     | Err => Err
     | Ok rec => Ok (match decode_record rec with Some (c, g) => Valid c g | None => Invalid end)
     end, snd (flash_read addr CFG_REC_LEN f)).
Proof.
  unfold slot_read, decode_record. destruct (flash_read addr CFG_REC_LEN f) as [[rec|] f']; simpl; [|done].
  by do 3 (destruct (negb _); [done|]).
Qed.

(** the boot-time load of the firmware is [config_store_init]: whenever the
    two slots can be read, it loads the registers with the same configuration
    and remembers the same active slot, leaving the flash in the same state. *)
Theorem boot_load_is_init s (f : F) st f'
    (Hnor : NOR s = Some f) (Hinit : config_store_init f = (Ok st, f')) :
  exists gen, boot_config_load s =
    mkCfgState (Some f') (cur_slot st, gen) (apply_cfg_to_regs (REGS s) (cfg st)).
Proof.
  unfold boot_config_load, config_store_init in *. rewrite Hnor. unfold nor_with.
  rewrite !slot_read_decode in Hinit. revert Hinit.
  destruct (flash_read CFG_SLOT_A CFG_REC_LEN f) as [[ra|] f1]; cbn [fst snd]; [|by intros].
  destruct (flash_read CFG_SLOT_B CFG_REC_LEN f1) as [[rb|] f2]; cbn [fst snd]; [|by intros].
  unfold pick.
  generalize (decode_record ra) (decode_record rb). intros da db.
  destruct da as [[ca ga]|], db as [[cb gb]|]; [destruct (gb <=? ga)| | |];
    intros [= <- <-]; by eexists.
Qed.

(** the firmware's [cfg_save] is [config_store_save_gen] of the registers'
    configuration: the flash ends in the same state, and the active slot and
    generation advance exactly when the library call succeeds. *)
Theorem cfg_save_is_save_gen s (f : F) (Hnor : NOR s = Some f) :
  let '(slot, gen) := CFG s in
  let '(res, f') := config_store_save_gen (regs_to_cfg (REGS s)) slot gen f in
  cfg_save s =
    mkCfgState (Some f')
      (match res with Ok tgt => (Some tgt, as_u32 (gen + 1)) | Err => CFG s end) (REGS s).
Proof.
  destruct (CFG s) as [slot gen] eqn:Hcfg. unfold config_store_save_gen, cfg_save.
  rewrite Hcfg, Hnor. unfold nor_with.
  generalize (encode_record (regs_to_cfg (REGS s)) (as_u32 (gen + 1))). intros rec.
  set (tgt := if bool_decide _ then CFG_SLOT_B else CFG_SLOT_A).
  destruct (flash_erase tgt CFG_SLOT_SIZE f) as [[[]|] f1]; cbn [ok_or_false is_ok negb]; [|done].
  destruct (flash_write tgt _ f1) as [[[]|] f2]; cbn [ok_or_false is_ok negb]; [|done].
  destruct (flash_write _ _ f2) as [[[]|] f3]; cbn [ok_or_false is_ok negb]; [|done].
  by destruct (flash_write _ _ f3) as [[[]|] f4].
Qed.
End Equivalence.

(** A concrete device: blank flash, power for [k] byte operations. *)
Definition blank (k : nat) : NorImage := mkNorImage (fun _ => 255) k.

Lemma boot_load_is_init_witness :
  exists gen, boot_config_load (mkCfgState (Some (blank 0)) (None, 0) (RegMap_new 7)) =
    mkCfgState (Some (blank 0)) (None, gen) (apply_cfg_to_regs (RegMap_new 7) IoCfg_defaults).
Proof.
  exact (boot_load_is_init (mkCfgState (Some (blank 0)) (None, 0) (RegMap_new 7)) (blank 0)
    (mkConfigState IoCfg_defaults None) (blank 0) eq_refl eq_refl).
Defined.

Lemma cfg_save_is_save_gen_witness :
  CFG (cfg_save (mkCfgState (Some (blank 0)) (None, 0) (RegMap_new 7))) = (None, 0).
Proof.
  pose proof (cfg_save_is_save_gen (mkCfgState (Some (blank 0)) (None, 0) (RegMap_new 7)) (blank 0) eq_refl)
    as E.
  apply (f_equal CFG) in E. exact E.
Defined.

(** What a start finds after a save that may have been cut off. *)
Lemma save_then_boot s m k old slot gen
    (Hnor : NOR s = Some (mkNorImage m k)) (Hpick : slots_pick m = (old, slot, gen))
    (Hcfg : CFG s = (slot, gen)) (Hwf : reg_wf (REGS s)) (Hgen : 0 <= gen < 0xFFFFFFFF)
    (Hcol : torn_collision (encode_record (regs_to_cfg (REGS s)) (gen + 1)) = false) :
  forall s0, NOR s0 = NOR (cfg_save s) -> reg_wf (REGS s0) ->
    (regs_to_cfg (REGS (boot_config_load s0)) = regs_to_cfg (REGS s) \/
     REGS (boot_config_load s0) = apply_cfg_to_regs (REGS s0) old /\ CFG (cfg_save s) = CFG s) /\
    (Z.of_nat k >= CFG_SLOT_SIZE + 40 ->
     regs_to_cfg (REGS (boot_config_load s0)) = regs_to_cfg (REGS s) /\
     CFG (boot_config_load s0) = CFG (cfg_save s)).
Proof.
  intros s0 Hs0 Hwf0.
  pose proof (regs_to_cfg_ok (REGS s) Hwf) as Hok.
  destruct (cfg_save_image s m k slot gen Hnor Hcfg Hwf) as (ok & m' & k' & E & Ho & Ha & Hk).
  assert (as_u32 (gen + 1) = gen + 1) as Eg by (apply as_u32_id; unfold is_u32; lia).
  rewrite Eg in E, Ha. rewrite E in Hs0 |- *. cbn [NOR CFG REGS] in *.
  rewrite (boot_config_load_image s0 m' k' Hs0).
  destruct (slots_pick_after m m' ok old slot gen (regs_to_cfg (REGS s)) Hpick Hok Hgen Hcol Ho Ha)
    as [-> |[-> ->]]; cbn [CFG REGS].
  - rewrite regs_cfg_roundtrip by done. split; [left; reflexivity|].
    intros Hbig. rewrite (Hk Hbig). split; reflexivity.
  - rewrite Hcfg. split; [right; split; reflexivity|].
    intros Hbig. discriminate (Hk Hbig).
Qed.

(** C3: a parameter save survives a power failure at any byte.  From a flash
    whose active slot is the one the firmware remembers, and for a supply that
    ends after [k] byte operations of the save: the next boot loads either the
    registers that were being saved, or the configuration that was active
    before, and the latter only when the save was not acknowledged.  With
    enough power the new one is loaded, with the slot and generation the
    firmware remembers.  (The generation must not wrap, and no cut prefix of
    the record may have 0xFFFFFFFF as its checksum.) *)
Theorem save_power_cut s m k old slot gen
    (Hnor : NOR s = Some (mkNorImage m k)) (Hpick : slots_pick m = (old, slot, gen))
    (Hcfg : CFG s = (slot, gen)) (Hwf : reg_wf (REGS s)) (Hgen : 0 <= gen < 0xFFFFFFFF)
    (Hcol : torn_collision (encode_record (regs_to_cfg (REGS s)) (gen + 1)) = false) :
  forall s0, NOR s0 = NOR (cfg_save s) -> reg_wf (REGS s0) ->
    (regs_to_cfg (REGS (boot_config_load s0)) = regs_to_cfg (REGS s) \/
     REGS (boot_config_load s0) = apply_cfg_to_regs (REGS s0) old /\ CFG (cfg_save s) = CFG s) /\
    (Z.of_nat k >= CFG_SLOT_SIZE + 40 ->
     regs_to_cfg (REGS (boot_config_load s0)) = regs_to_cfg (REGS s) /\
     CFG (boot_config_load s0) = CFG (cfg_save s)).
Proof. exact (save_then_boot s m k old slot gen Hnor Hpick Hcfg Hwf Hgen Hcol). Qed.

Lemma save_power_cut_witness :
  let s := mkCfgState (Some (blank (Z.to_nat 32790))) (None, 0) (RegMap_new 7) in
  reg_wf (REGS s) /\ CFG (cfg_save s) = (None, 0) /\
  (regs_to_cfg (REGS (boot_config_load (cfg_save s))) = regs_to_cfg (RegMap_new 7) \/
   REGS (boot_config_load (cfg_save s)) = apply_cfg_to_regs (RegMap_new 7) IoCfg_defaults /\
   CFG (cfg_save s) = CFG s).
Proof.
  intros s.
  assert (reg_wf (REGS s)) as Hwf by (apply RegMap_new_inv; unfold is_u16; lia).
  split; [exact Hwf|]. split; [vm_compute; reflexivity|].
  apply (save_power_cut s (fun _ => 255) (Z.to_nat 32790) IoCfg_defaults None 0); try done.
Defined.

(** ** Power failure during a factory reset *)

(** An erase leaves no record, however early it is cut off. *)
Lemma slot_erased a n m : 0 <= n ->
  decode_record (slot_bytes (erase_cells a n m) a) = if n =? 0 then decode_record (slot_bytes m a) else None.
Proof.
  intros Hn. assert (slot_bytes (erase_cells a n m) a = slot_bytes (erase_cells a (Z.of_nat (Nat.min 40 (Z.to_nat n))) m) a) as ->.
  { apply slot_bytes_ext. intros x Hx. unfold erase_cells. destruct (Z.ltb_spec x (a + n)), (Z.ltb_spec x (a + Z.of_nat (Nat.min 40 (Z.to_nat n)))); try done; lia. }
  rewrite slot_bytes_erased by lia. destruct (Z.eqb_spec n 0) as [->|]; [done|]. apply erased_decode. lia.
Qed.

Lemma slot_a_erased n m : n <= CFG_SLOT_SIZE -> slot_bytes (erase_cells CFG_SLOT_A n m) CFG_SLOT_B = slot_bytes m CFG_SLOT_B.
Proof. intros Hn. apply slot_bytes_ext. intros x Hx. exact (other_erased CFG_SLOT_A n m x (or_introl eq_refl) Hn Hx). Qed.
Lemma slot_b_erased n m : n <= CFG_SLOT_SIZE -> slot_bytes (erase_cells CFG_SLOT_B n m) CFG_SLOT_A = slot_bytes m CFG_SLOT_A.
Proof. intros Hn. apply slot_bytes_ext. intros x Hx. exact (other_erased CFG_SLOT_B n m x (or_intror eq_refl) Hn Hx). Qed.

(** The parameters of the second slot, or the defaults. *)
Definition slot_b_cfg (m : Z -> Z) : IoCfg := (pick None (decode_record (slot_bytes m CFG_SLOT_B))).1.1.

(** The image after a factory reset that a loss of power may have cut off. *)
Lemma cfg_erase_image s m k (Hnor : NOR s = Some (mkNorImage m k)) : exists m' k' a b,
  NOR (cfg_erase_all s) = Some (mkNorImage m' k') /\
  decode_record (slot_bytes m' CFG_SLOT_A) = (if a : bool then None else decode_record (slot_bytes m CFG_SLOT_A)) /\
  decode_record (slot_bytes m' CFG_SLOT_B) = (if b : bool then None else decode_record (slot_bytes m CFG_SLOT_B)) /\
  (a = false -> k = 0%nat) /\ (b = true -> a = true) /\ (Z.of_nat k >= 2 * CFG_SLOT_SIZE -> b = true).
Proof.
  assert (0 < CFG_SLOT_SIZE) as Hs by done. unfold cfg_erase_all. rewrite Hnor. cbn [nor_with flash_erase NorFlash budget cells].
  destruct (Z.ltb_spec (Z.of_nat k) CFG_SLOT_SIZE) as [Hk|Hk]; cbn [nor_with ok_or_false is_ok negb flash_erase NorFlash budget cells NOR].
  - exists (erase_cells CFG_SLOT_A (Z.of_nat k) m), 0%nat, (negb (k =? 0)%nat), false. split; [done|].
    rewrite slot_erased, slot_a_erased by lia. split; [|split; [done|]].
    + destruct (Nat.eqb_spec k 0) as [->|]; [done|]. cbn [negb]. by rewrite (proj2 (Z.eqb_neq _ _)) by lia.
    + split; [|split; [done|lia]]. destruct (Nat.eqb_spec k 0); done.
  - set (m1 := erase_cells CFG_SLOT_A CFG_SLOT_SIZE m). set (k1 := (k - Z.to_nat CFG_SLOT_SIZE)%nat).
    assert (decode_record (slot_bytes m1 CFG_SLOT_A) = None /\ slot_bytes m1 CFG_SLOT_B = slot_bytes m CFG_SLOT_B) as [Ha Hb].
    { unfold m1. rewrite slot_erased, slot_a_erased by lia. done. }
    destruct (Z.ltb_spec (Z.of_nat k1) CFG_SLOT_SIZE) as [Hk1|Hk1]; cbn [ok_or_false is_ok NOR].
    + exists (erase_cells CFG_SLOT_B (Z.of_nat k1) m1), 0%nat, true, (negb (Z.of_nat k1 =? 0)). split; [done|].
      rewrite slot_b_erased, slot_erased, Ha, Hb by lia. split; [done|]. split; [by destruct (Z.of_nat k1 =? 0)|]. split; [done|]. split; [done|lia].
    + eexists _, _, true, true. split; [reflexivity|]. rewrite slot_b_erased, slot_erased, Ha by lia. done.
Qed.

Lemma erase_then_boot s m k (Hnor : NOR s = Some (mkNorImage m k)) :
  forall s0, NOR s0 = NOR (cfg_erase_all s) -> exists c, REGS (boot_config_load s0) = apply_cfg_to_regs (REGS s0) c /\
    (c = IoCfg_defaults \/ c = slot_b_cfg m \/ k = 0%nat /\ c = (slots_pick m).1.1) /\
    (Z.of_nat k >= 2 * CFG_SLOT_SIZE -> c = IoCfg_defaults).
Proof.
  intros s0 H0. destruct (cfg_erase_image s m k Hnor) as (m' & k' & a & b & E & Ha & Hb & H1 & H2 & H3). rewrite E in H0.
  rewrite (boot_config_load_image s0 m' k' H0). unfold slots_pick. rewrite Ha, Hb. destruct a.
  - destruct b; [exists IoCfg_defaults; split; [done|]; split; [by left|done]|].
    exists (slot_b_cfg m). unfold slot_b_cfg. destruct (pick None _) as [[c sl] g]. split; [done|]. split; [by right; left|].
    intros Hk. by specialize (H3 Hk).
  - destruct b; [by specialize (H2 eq_refl)|]. specialize (H1 eq_refl) as ->. exists (slots_pick m).1.1. unfold slots_pick.
    destruct (pick _ _) as [[c sl] g]. split; [done|]. split; [by right; right|]. intros Hk. by specialize (H3 Hk).
Qed.
