(* ===== verification/UdpCfg.v ===== *)
(** * UDP configuration commands (crates/proto/src/udp_cfg.rs)

    One command in, at most one reply out.  The two-step factory reset and the
    reboot are flags the transport polls after the reply is on the wire. *)
From S2P Require Import Prelude Bytes RegMap.

Definition UDP_CFG_PORT : Z := 8600.
Definition UDP_CFG_BCAST_PORT : Z := UDP_CFG_PORT + 1.

Definition UDP_CMD_START : Z := 0x01.
Definition UDP_CMD_DATA : Z := 0x02.
Definition UDP_CMD_END : Z := 0x03.
Definition UDP_CMD_GET_VERSION : Z := 0x04.
Definition UDP_CMD_REBOOT : Z := 0x05.
Definition UDP_CMD_DATA_V2 : Z := 0x06.
Definition UDP_CMD_SET_IP : Z := 0x10.
Definition UDP_CMD_GET_IP : Z := 0x11.
Definition UDP_CMD_SET_MODBUS : Z := 0x12.
Definition UDP_CMD_GET_MODBUS : Z := 0x13.
Definition UDP_CMD_SET_TIME : Z := 0x14.
Definition UDP_CMD_FACTORY_RESET : Z := 0x19.

(** [git] is a six-byte array. *)
Record UdpVersion := mkUdpVersion { major : Z; minor : Z; patch : Z; git : list Z }.

Record UdpCfgState := mkUdpCfgState {
  factory_pending_ms : Z; factory_confirmed : bool;
  factory_reboot_pending : bool; st_reboot_pending : bool }.

Definition UdpCfgState_new : UdpCfgState := mkUdpCfgState 0 false false false.

Definition reset_pending (_ : UdpCfgState) : UdpCfgState := UdpCfgState_new.

Definition take_reboot_pending (s : UdpCfgState) : bool * UdpCfgState :=
  let p := factory_reboot_pending s || st_reboot_pending s in
  (p, mkUdpCfgState (factory_pending_ms s) (factory_confirmed s) false false).

Definition reboot_pending (s : UdpCfgState) : bool :=
  factory_reboot_pending s || st_reboot_pending s.

(** The trait [CfgHooks]. *)
Class CfgHooks (C : Type) := { config_erase_all : C -> C }.

#[export] Instance NoCfg : CfgHooks unit := {| config_erase_all := fun c => c |}.

Definition reply_ok (reply : list Z) (cmd ok : Z) : option (nat * list Z) :=
  if (length reply <? 2)%nat then Some (0%nat, reply) else
  reply ← upd reply 0 cmd;
  reply ← upd reply 1 ok;
  Some (2%nat, reply).

Section Cmd.
Context {H C : Type} `{!RegHooks H} `{!CfgHooks C}.

Definition factory_reset (reply : list Z) (cmd now_ms : Z) (cfg : C) (s : UdpCfgState)
    : option (nat * list Z * C * UdpCfgState) :=
  if negb (factory_confirmed s) && (5000 <? wrapping_sub_u32 now_ms (factory_pending_ms s)) then
    let s := mkUdpCfgState now_ms (factory_confirmed s) (factory_reboot_pending s)
               (st_reboot_pending s) in
    r ← reply_ok reply cmd 0; Some (r, cfg, s)
  else
    let cfg := config_erase_all cfg in
    let s := mkUdpCfgState (factory_pending_ms s) false true (st_reboot_pending s) in
    r ← reply_ok reply cmd 1; Some (r, cfg, s).

Definition udp_app_cmd (cmd : Z) (data reply : list Z) (regs : RegMap) (hooks : H) (cfg : C)
    (st : UdpCfgState) (now_ms : Z) (ver : UdpVersion)
    : option (nat * list Z * RegMap * H * C * UdpCfgState) :=
  if cmd =? UDP_CMD_SET_IP then
    valid ← (if (4 <=? length data)%nat then
               d0 ← data !! 0%nat; d1 ← data !! 1%nat; d2 ← data !! 2%nat; d3 ← data !! 3%nat;
               Some (ip_addr_valid d0 d1 d2 d3)
             else Some false);
    if valid : bool then
      d0 ← data !! 0%nat; d1 ← data !! 1%nat; d2 ← data !! 2%nat; d3 ← data !! 3%nat;
      let regs := snd (update_holding (Z.of_nat HOLDING_IP_OCTET1_IDX) d0 regs) in
      let regs := snd (update_holding (Z.of_nat (HOLDING_IP_OCTET1_IDX + 1)) d1 regs) in
      let regs := snd (update_holding (Z.of_nat (HOLDING_IP_OCTET1_IDX + 2)) d2 regs) in
      let regs := snd (update_holding (Z.of_nat (HOLDING_IP_OCTET1_IDX + 3)) d3 regs) in
      let hooks := holding_save hooks in
      r ← reply_ok reply cmd 1; Some (r, regs, hooks, cfg, st)
    else r ← reply_ok reply cmd 0; Some (r, regs, hooks, cfg, st)
  else if cmd =? UDP_CMD_GET_IP then
    if (length reply <? 5)%nat then Some (0%nat, reply, regs, hooks, cfg, st) else
    let ip := ip_octets regs in
    reply ← upd reply 0 cmd;
    reply ← blit reply 1 ip;
    Some (5%nat, reply, regs, hooks, cfg, st)
  else if cmd =? UDP_CMD_SET_MODBUS then
    if (3 <=? length data)%nat then
      d0 ← data !! 0%nat;
      baud ← (s ← slice data 1 3; get_be16 s);
      let regs := snd (update_holding (Z.of_nat HOLDING_SLAVE_ID_IDX) d0 regs) in
      let regs := snd (update_holding (Z.of_nat HOLDING_RS485_BAUDRATE_IDX) baud regs) in
      let hooks := holding_save hooks in
      r ← reply_ok reply cmd 1; Some (r, regs, hooks, cfg, st)
    else r ← reply_ok reply cmd 0; Some (r, regs, hooks, cfg, st)
  else if cmd =? UDP_CMD_GET_MODBUS then
    if (length reply <? 4)%nat then Some (0%nat, reply, regs, hooks, cfg, st) else
    reply ← upd reply 0 cmd;
    reply ← upd reply 1 (as_u8 (get_holding regs (Z.of_nat HOLDING_SLAVE_ID_IDX)));
    reply ← modify_slice reply 2 4
      (put_be16 (get_holding regs (Z.of_nat HOLDING_RS485_BAUDRATE_IDX)));
    Some (4%nat, reply, regs, hooks, cfg, st)
  else if cmd =? UDP_CMD_SET_TIME then
    if (4 <=? length data)%nat then
      ts ← get_be32 data;
      let '(ok, hooks) := set_timestamp ts hooks in
      r ← reply_ok reply cmd (if ok : bool then 1 else 0); Some (r, regs, hooks, cfg, st)
    else r ← reply_ok reply cmd 0; Some (r, regs, hooks, cfg, st)
  else if cmd =? UDP_CMD_GET_VERSION then
    if (length reply <? 13)%nat then Some (0%nat, reply, regs, hooks, cfg, st) else
    reply ← upd reply 0 cmd;
    reply ← upd reply 1 118;
    reply ← upd reply 2 (48 + Z.min (major ver) 9);
    reply ← upd reply 3 46;
    reply ← upd reply 4 (48 + Z.min (minor ver) 9);
    reply ← upd reply 5 46;
    reply ← upd reply 6 (48 + Z.min (patch ver) 9);
    reply ← upd reply 7 95;
    reply ← (_ ← slice reply 8 14; blit reply 8 (git ver));
    Some (14%nat, reply, regs, hooks, cfg, st)
  else if cmd =? UDP_CMD_REBOOT then
    let st := mkUdpCfgState (factory_pending_ms st) (factory_confirmed st)
                (factory_reboot_pending st) true in
    r ← reply_ok reply cmd 1; Some (r, regs, hooks, cfg, st)
  else if cmd =? UDP_CMD_FACTORY_RESET then
    '(r, cfg, st) ← factory_reset reply cmd now_ms cfg st; Some (r, regs, hooks, cfg, st)
  else Some (0%nat, reply, regs, hooks, cfg, st).
End Cmd.

Definition udp_cmd_bcast_allowed (cmd : Z) : bool := cmd =? UDP_CMD_GET_IP.

(** ** Specification *)

Definition udp_known (cmd : Z) : Prop :=
  cmd ∈ [UDP_CMD_SET_IP; UDP_CMD_GET_IP; UDP_CMD_SET_MODBUS; UDP_CMD_GET_MODBUS; UDP_CMD_SET_TIME;
         UDP_CMD_GET_VERSION; UDP_CMD_REBOOT; UDP_CMD_FACTORY_RESET].

(** The registers an accepted SET_IP / SET_MODBUS leaves. *)
Definition with_ip (a b c d : Z) (r : RegMap) : RegMap :=
  set_holding (fun h => <[13%nat := d]> (<[12%nat := c]> (<[11%nat := b]> (<[10%nat := a]> h)))) r.
Definition with_modbus (unit baud : Z) (r : RegMap) : RegMap :=
  set_holding (fun h => <[8%nat := baud]> (<[9%nat := unit]> h)) r.

(** The answer to a known command, and the registers and hooks it leaves.  The
    reboot and factory-reset commands are about the pending state. *)
Definition udp_spec {H} `{!RegHooks H} (cmd : Z) (data : list Z) (r : RegMap) (h : H) (ver : UdpVersion)
    : list Z * RegMap * H :=
  if decide (cmd = UDP_CMD_SET_IP) then
    match data with
    | a :: b :: c :: d :: _ =>
        if ip_addr_valid a b c d then ([cmd; 1], with_ip a b c d r, holding_save h) else ([cmd; 0], r, h)
    | _ => ([cmd; 0], r, h)
    end
  else if decide (cmd = UDP_CMD_GET_IP) then (cmd :: ip_octets r, r, h)
  else if decide (cmd = UDP_CMD_SET_MODBUS) then
    match data with
    | u :: b1 :: b0 :: _ => ([cmd; 1], with_modbus u (256 * b1 + b0) r, holding_save h)
    | _ => ([cmd; 0], r, h)
    end
  else if decide (cmd = UDP_CMD_GET_MODBUS) then
    ([cmd; holding r !!! 9%nat mod 256] ++ to_be_bytes16 (holding r !!! 8%nat), r, h)
  else if decide (cmd = UDP_CMD_SET_TIME) then
    match data with
    | t3 :: t2 :: t1 :: t0 :: _ =>
        let '(ok, h) := set_timestamp (from_be_bytes32 t3 t2 t1 t0) h in
        ([cmd; if ok : bool then 1 else 0], r, h)
    | _ => ([cmd; 0], r, h)
    end
  else if decide (cmd = UDP_CMD_GET_VERSION) then
    (cmd :: bs "v" ++ [48 + Z.min (major ver) 9] ++ bs "." ++ [48 + Z.min (minor ver) 9] ++ bs "." ++
       [48 + Z.min (patch ver) 9] ++ bs "_" ++ git ver, r, h)
  else ([], r, h).

(** ** Lemmas *)

Lemma reply_ok_eq reply cmd ok :
  (2 <= length reply)%nat ->
  exists reply', reply_ok reply cmd ok = Some (2%nat, reply') /\ prefix_is reply' [cmd; ok] /\
    length reply' = length reply.
Proof.
  intros Hl. destruct reply as [|x [|y l]]; simpl in Hl; try lia.
  eexists. split; [reflexivity|]. done.
Qed.

Lemma reply_ok_total reply cmd ok : exists x, reply_ok reply cmd ok = Some x.
Proof.
  unfold reply_ok. destruct (Nat.ltb_spec (length reply) 2); [by eexists|].
  rewrite upd_ok by lia. cbn [mbind option_bind]. rewrite upd_ok by len. by eexists.
Qed.

Lemma update_holding_eq i v r :
  reg_wf r -> (i < 18)%nat ->
  update_holding (Z.of_nat i) v r = (Ok tt, set_holding (<[i := v]>) r).
Proof.
  intros (Hl & _) Hi. unfold update_holding. rewrite Nat2Z.id.
  destruct (lookup_lt_is_Some_2 (holding r) i) as [x ->]; [|done].
  rewrite Hl. unfold MODBUS_HOLDING_REGISTER_NUMBERS. lia.
Qed.

Lemma get_holding_total r i :
  reg_wf r -> (i < 18)%nat -> get_holding r (Z.of_nat i) = holding r !!! i.
Proof.
  intros (Hl & _) Hi. unfold get_holding. rewrite Nat2Z.id, list_lookup_lookup_total_lt; [done|].
  rewrite Hl. unfold MODBUS_HOLDING_REGISTER_NUMBERS. lia.
Qed.

Lemma with_ip_eq a b c d r :
  reg_wf r -> is_u8 a -> is_u8 b -> is_u8 c -> is_u8 d ->
  snd (update_holding (Z.of_nat (HOLDING_IP_OCTET1_IDX + 3)) d
    (snd (update_holding (Z.of_nat (HOLDING_IP_OCTET1_IDX + 2)) c
      (snd (update_holding (Z.of_nat (HOLDING_IP_OCTET1_IDX + 1)) b
        (snd (update_holding (Z.of_nat HOLDING_IP_OCTET1_IDX) a r))))))) = with_ip a b c d r.
Proof.
  intros Hr Ha Hb Hc Hd. unfold HOLDING_IP_OCTET1_IDX.
  rewrite (update_holding_eq 10) by (done || lia). cbn [snd].
  assert (reg_wf (set_holding (<[10%nat := a]>) r)) as H1 by (apply reg_wf_insert; auto with rust).
  rewrite (update_holding_eq (10 + 1)) by (done || lia). cbn [snd].
  assert (reg_wf (set_holding (<[(10 + 1)%nat := b]>) (set_holding (<[10%nat := a]>) r))) as H2
    by (apply reg_wf_insert; auto with rust).
  rewrite (update_holding_eq (10 + 2)) by (done || lia). cbn [snd].
  rewrite (update_holding_eq (10 + 3)) by (lia || (apply reg_wf_insert; auto with rust)). done.
Qed.

Lemma with_modbus_eq u baud r :
  reg_wf r -> is_u8 u ->
  snd (update_holding (Z.of_nat HOLDING_RS485_BAUDRATE_IDX) baud
    (snd (update_holding (Z.of_nat HOLDING_SLAVE_ID_IDX) u r))) = with_modbus u baud r.
Proof.
  intros Hr Hu. unfold HOLDING_RS485_BAUDRATE_IDX, HOLDING_SLAVE_ID_IDX.
  rewrite (update_holding_eq 9) by (done || lia). cbn [snd].
  rewrite (update_holding_eq 8) by (lia || (apply reg_wf_insert; auto with rust)). done.
Qed.

Lemma ip_octets_length r : length (ip_octets r) = 4%nat.
Proof. done. Qed.

Section UdpProofs.
Context {H C : Type} `{!RegHooks H} `{!CfgHooks C}.

(** What [udp_app_cmd] promises for an answer and a final state. *)
Definition udp_gives (rsp : list Z) (reply : list Z) (r : RegMap) (h : H) (cfg : C) (st : UdpCfgState)
    (res : option (nat * list Z * RegMap * H * C * UdpCfgState)) : Prop :=
  exists reply', res = Some (length rsp, reply', r, h, cfg, st) /\ prefix_is reply' rsp /\
    length reply' = length reply.

Lemma gives_ok reply cmd ok r h cfg st :
  (2 <= length reply)%nat ->
  udp_gives [cmd; ok] reply r h cfg st (x ← reply_ok reply cmd ok; Some (x, r, h, cfg, st)).
Proof.
  intros Hl. destruct (reply_ok_eq reply cmd ok Hl) as (reply' & -> & Hp & Hl').
  exists reply'. done.
Qed.

Lemma udp_app_cmd_correct cmd data reply r (h : H) (cfg : C) st now ver :
  cmd <> UDP_CMD_REBOOT -> cmd <> UDP_CMD_FACTORY_RESET ->
  bytes_ok data -> (14 <= length reply)%nat -> reg_wf r -> length (git ver) = 6%nat ->
  let '(rsp, r', h') := udp_spec cmd data r h ver in
  udp_gives rsp reply r' h' cfg st (udp_app_cmd cmd data reply r h cfg st now ver).
Proof.
  intros Hn1 Hn2 Hd Hl Hr Hg. unfold udp_app_cmd, udp_spec.
  destruct (Z.eqb_spec cmd UDP_CMD_SET_IP) as [->|N1].
  { rewrite decide_True by done.
    destruct data as [|a [|b [|c [|d data]]]]; try (apply gives_ok; lia).
    cbn [length Nat.leb lookup list_lookup mbind option_bind]. bytes_inv.
    destruct (ip_addr_valid a b c d); [|apply gives_ok; lia].
    rewrite with_ip_eq by done. apply gives_ok. lia. }
  rewrite decide_False by done.
  destruct (Z.eqb_spec cmd UDP_CMD_GET_IP) as [->|N2].
  { rewrite decide_True by done. rewrite (proj2 (Nat.ltb_ge _ _)) by lia.
    destruct reply as [|x0 [|x1 [|x2 [|x3 [|x4 reply]]]]]; simpl in Hl; try lia.
    eexists. split; [reflexivity|done]. }
  rewrite decide_False by done.
  destruct (Z.eqb_spec cmd UDP_CMD_SET_MODBUS) as [->|N3].
  { rewrite decide_True by done.
    destruct data as [|u [|b1 [|b0 data]]]; try (apply gives_ok; lia).
    cbn [length Nat.leb lookup list_lookup mbind option_bind]. bytes_inv.
    change (slice (u :: b1 :: b0 :: data) 1 3) with (Some [b1; b0]). cbn [mbind option_bind].
    rewrite get_be16_bytes by done. cbn [mbind option_bind].
    rewrite (Z.mul_comm b1), with_modbus_eq by done. apply gives_ok. lia. }
  rewrite decide_False by done.
  destruct (Z.eqb_spec cmd UDP_CMD_GET_MODBUS) as [->|N4].
  { rewrite decide_True by done. rewrite (proj2 (Nat.ltb_ge _ _)) by lia.
    rewrite !get_holding_total by (done || (unfold HOLDING_SLAVE_ID_IDX, HOLDING_RS485_BAUDRATE_IDX; lia)).
    destruct reply as [|x0 [|x1 [|x2 [|x3 [|x4 reply]]]]]; simpl in Hl; try lia.
    rewrite upd_ok by (simpl; lia). cbn [mbind option_bind].
    rewrite upd_ok by (simpl; lia). cbn [mbind option_bind].
    rewrite put_be16_at by (simpl; lia). cbn [mbind option_bind].
    eexists. split; [reflexivity|done]. }
  rewrite decide_False by done.
  destruct (Z.eqb_spec cmd UDP_CMD_SET_TIME) as [->|N5].
  { rewrite decide_True by done.
    destruct data as [|t3 [|t2 [|t1 [|t0 data]]]]; try (apply gives_ok; lia).
    cbn [length Nat.leb]. bytes_inv. rewrite get_be32_bytes by done. cbn [mbind option_bind].
    replace (t3 * 16777216 + t2 * 65536 + t1 * 256 + t0) with (from_be_bytes32 t3 t2 t1 t0)
      by (unfold from_be_bytes32, from_le_bytes32; lia).
    destruct (set_timestamp _ h) as [ok h']. apply gives_ok. lia. }
  rewrite decide_False by done.
  destruct (Z.eqb_spec cmd UDP_CMD_GET_VERSION) as [->|N6].
  { rewrite decide_True by done. rewrite (proj2 (Nat.ltb_ge _ _)) by lia.
    do 14 (destruct reply as [|? reply]; [simpl in Hl; lia|]).
    rewrite (list_tabulate (git ver) 6 Hg). eexists. split; [reflexivity|done]. }
  rewrite decide_False by done.
  rewrite (proj2 (Z.eqb_neq _ _) Hn1), (proj2 (Z.eqb_neq _ _) Hn2).
  exists reply. split; [done|]. split; [apply prefix_is_nil|done].
Qed.
End UdpProofs.

(** ** The pending state over a run *)

Section Run.
Context {H C : Type} `{!RegHooks H} `{!CfgHooks C}.

(** The states a sequence of commands and transport polls can reach; [past]
    are the times of the FACTORY_RESET commands since power-on, the last one first. *)
Inductive reach : list Z -> UdpCfgState -> Prop :=
| reach_new : reach [] UdpCfgState_new
| reach_cmd past st cmd data reply r (h : H) (cfg : C) now ver n reply' r' h' cfg' st' :
    reach past st ->
    udp_app_cmd cmd data reply r h cfg st now ver = Some (n, reply', r', h', cfg', st') ->
    reach (if decide (cmd = UDP_CMD_FACTORY_RESET) then now :: past else past) st'
| reach_take past st : reach past st -> reach past (snd (take_reboot_pending st))
| reach_reset past st : reach past st -> reach [] (reset_pending st).

(** The time on record after these commands: a command more than 5 s after it takes
    its place, any other leaves it. *)
Fixpoint on_record (past : list Z) : Z :=
  match past with
  | [] => 0
  | t :: past => let p := on_record past in if 5000 <? wrapping_sub_u32 t p then t else p
  end.

(** It is that of a command, or the 0 of power-on as long as each came within 5 s of 0. *)
Lemma on_record_from past :
  on_record past ∈ past \/ on_record past = 0 /\ Forall (fun t => wrapping_sub_u32 t 0 <= 5000) past.
Proof.
  induction past as [|t past IH]; [by right|]. cbn [on_record]. destruct (Z.ltb_spec 5000 (wrapping_sub_u32 t (on_record past))) as [|Hle].
  - left. apply list_elem_of_here.
  - destruct IH as [IH|[E IH]]; [left; by apply list_elem_of_further|right]. rewrite E in Hle. by split; [|constructor].
Qed.

Lemma udp_app_cmd_state cmd data reply r (h : H) (cfg : C) st now ver n reply' r' h' cfg' st' :
  udp_app_cmd cmd data reply r h cfg st now ver = Some (n, reply', r', h', cfg', st') ->
  cmd <> UDP_CMD_FACTORY_RESET ->
  factory_confirmed st' = factory_confirmed st /\ factory_pending_ms st' = factory_pending_ms st /\
  cfg' = cfg.
Proof.
  unfold udp_app_cmd. intros E Hn. rewrite (proj2 (Z.eqb_neq _ _) Hn) in E.
  repeat (case_match; simplify_option_eq; try done).
Qed.

Lemma factory_reset_state reply cmd now (cfg : C) st n reply' cfg' st' :
  factory_confirmed st = false ->
  factory_reset reply cmd now cfg st = Some (n, reply', cfg', st') ->
  factory_confirmed st' = false /\
  factory_pending_ms st' = if 5000 <? wrapping_sub_u32 now (factory_pending_ms st) then now else factory_pending_ms st.
Proof.
  unfold factory_reset. intros -> E. cbn [negb andb] in E.
  destruct (5000 <? _); destruct (reply_ok reply cmd _) as [[]|]; cbn [mbind option_bind] in E; by simplify_eq.
Qed.

Lemma reach_inv past st :
  reach past st -> factory_confirmed st = false /\ factory_pending_ms st = on_record past.
Proof.
  induction 1 as [|past st cmd data reply r h cfg now ver n reply' r' h' cfg' st' _ [IHc IHp] E
    |past st _ [IHc IHp]|past st _ IH]; [done| |done|done].
  destruct (decide (cmd = UDP_CMD_FACTORY_RESET)) as [->|Hne].
  - unfold udp_app_cmd in E. cbn [Z.eqb Pos.eqb UDP_CMD_FACTORY_RESET UDP_CMD_SET_IP UDP_CMD_GET_IP
      UDP_CMD_SET_MODBUS UDP_CMD_GET_MODBUS UDP_CMD_SET_TIME UDP_CMD_GET_VERSION UDP_CMD_REBOOT] in E.
    destruct (factory_reset reply _ now cfg st) as [[[[n0 rp] c0] s0]|] eqn:Ef; [|done].
    cbn [mbind option_bind] in E. simplify_eq.
    destruct (factory_reset_state _ _ _ _ _ _ _ _ _ IHc Ef) as [-> ->]. by rewrite IHp.
  - destruct (udp_app_cmd_state _ _ _ _ _ _ _ _ _ _ _ _ _ _ _ E Hne) as (-> & -> & _). done.
Qed.
End Run.

(** ** Properties *)

(** every configuration command is answered as documented.  For any data
    and any reply buffer of at least 14 bytes there is no panic; the reply is
    the specified one (invalid addresses and short data get the command with
    ok = 0), unknown commands stay silent, and the registers and hooks change
    exactly as specified: nothing on a rejected command, the four address
    registers (or unit and baud rate) plus one save on an accepted one. *)
Theorem udp_cmd_refines {H C} `{!RegHooks H} `{!CfgHooks C} cmd data reply r (h : H) (cfg : C) st now ver
    (Hn1 : cmd <> UDP_CMD_REBOOT) (Hn2 : cmd <> UDP_CMD_FACTORY_RESET)
    (Hd : bytes_ok data) (Hl : (14 <= length reply)%nat) (Hr : reg_wf r) (Hg : length (git ver) = 6%nat) :
  exists rsp reply' r' h', udp_spec cmd data r h ver = (rsp, r', h') /\
    udp_app_cmd cmd data reply r h cfg st now ver = Some (length rsp, reply', r', h', cfg, st) /\
    prefix_is reply' rsp.
Proof.
  pose proof (udp_app_cmd_correct cmd data reply r h cfg st now ver Hn1 Hn2 Hd Hl Hr Hg) as A.
  destruct (udp_spec cmd data r h ver) as [[rsp r'] h']. destruct A as (reply' & E & Hp & _).
  by exists rsp, reply', r', h'.
Qed.

Definition demo_version : UdpVersion := mkUdpVersion 1 2 13 (bs "abc123").

Lemma udp_cmd_refines_witness :
  exists reply' r' h',
    udp_app_cmd UDP_CMD_GET_VERSION [] (replicate 20 0) (RegMap_new 7) tt tt UdpCfgState_new 0 demo_version =
      Some (14%nat, reply', r', h', tt, UdpCfgState_new) /\
    prefix_is reply' (4 :: bs "v1.2.9_abc123").
Proof.
  destruct (udp_cmd_refines UDP_CMD_GET_VERSION [] (replicate 20 0) (RegMap_new 7) tt tt UdpCfgState_new 0
    demo_version) as (rsp & reply' & r' & h' & Hsp & E & Hp).
  - discriminate.
  - discriminate.
  - constructor.
  - simpl; lia.
  - apply RegMap_new_inv; unfold is_u16; lia.
  - reflexivity.
  - vm_compute in Hsp. injection Hsp as <- <- <-. exists reply', (RegMap_new 7), tt.
    split; [exact E|exact Hp].
Defined.

(** C32: When a factory reset erases the configuration.  In every reachable state a
    FACTORY_RESET command erases (and schedules the reboot, answering ok = 1) exactly
    when it comes at most 5000 ms after the time on record; otherwise nothing is
    erased, the answer is ok = 0 and its own time goes on record.  On record is the
    time of an earlier command since power-on - then this one is the second step - or
    still the 0 of power-on: a command in the first 5 s of a device erases at once. *)
Theorem factory_reset_window {H C} `{!RegHooks H} `{!CfgHooks C} past st data reply r (h : H) (cfg : C)
    now ver (Hreach : reach (H:=H) (C:=C) past st) (Hl : (2 <= length reply)%nat) :
  exists ok reply' cfg' st',
    udp_app_cmd UDP_CMD_FACTORY_RESET data reply r h cfg st now ver =
      Some (2%nat, reply', r, h, cfg', st') /\
    prefix_is reply' [UDP_CMD_FACTORY_RESET; ok] /\
    (wrapping_sub_u32 now (on_record past) <= 5000 /\
       ok = 1 /\ cfg' = config_erase_all cfg /\ reboot_pending st' = true /\
       ((exists t, t ∈ past /\ wrapping_sub_u32 now t <= 5000) \/
        Forall (fun t => wrapping_sub_u32 t 0 <= 5000) (now :: past)) \/
     5000 < wrapping_sub_u32 now (on_record past) /\
       ok = 0 /\ cfg' = cfg /\ factory_pending_ms st' = now /\ reboot_pending st' = reboot_pending st).
Proof.
  destruct (reach_inv past st Hreach) as [Hc Hp].
  assert (udp_app_cmd UDP_CMD_FACTORY_RESET data reply r h cfg st now ver =
    ('(x, cfg, st) ← factory_reset reply UDP_CMD_FACTORY_RESET now cfg st; Some (x, r, h, cfg, st)))
    as -> by reflexivity.
  unfold factory_reset. rewrite Hc, Hp. cbn [negb andb].
  destruct (Z.ltb_spec 5000 (wrapping_sub_u32 now (on_record past))) as [Hlt|Hle].
  - destruct (reply_ok_eq reply UDP_CMD_FACTORY_RESET 0 Hl) as (reply' & -> & P & _).
    exists 0, reply', cfg, (mkUdpCfgState now false (factory_reboot_pending st) (st_reboot_pending st)).
    split; [done|]. split; [done|]. by right.
  - destruct (reply_ok_eq reply UDP_CMD_FACTORY_RESET 1 Hl) as (reply' & -> & P & _).
    exists 1, reply', (config_erase_all cfg), (mkUdpCfgState (on_record past) false true (st_reboot_pending st)).
    split; [done|]. split; [done|]. left. do 4 (split; [done|]).
    destruct (on_record_from past) as [Hin|[E Hall]]; [left; by exists (on_record past)|right]. rewrite E in Hle. by constructor.
Qed.

#[export] Instance CountErases : CfgHooks nat := {| config_erase_all := S |}.

(** The first command of a device that has run for 9 s is put on record, the second
    one 3 s later erases. *)
Definition recorded : UdpCfgState := mkUdpCfgState 9000 false false false.

Lemma factory_reset_window_witness :
  (exists reply' st', udp_app_cmd UDP_CMD_FACTORY_RESET [] [0; 0] (RegMap_new 7) tt 0%nat
      UdpCfgState_new 9000 demo_version = Some (2%nat, reply', RegMap_new 7, tt, 0%nat, st') /\
    prefix_is reply' [UDP_CMD_FACTORY_RESET; 0]) /\
  (exists reply' st', udp_app_cmd UDP_CMD_FACTORY_RESET [] [0; 0] (RegMap_new 7) tt 0%nat
      recorded 12000 demo_version = Some (2%nat, reply', RegMap_new 7, tt, 1%nat, st') /\
    prefix_is reply' [UDP_CMD_FACTORY_RESET; 1]).
Proof.
  assert (H1 : reach (H:=unit) (C:=nat) [9000] recorded).
  { refine (reach_cmd [] UdpCfgState_new UDP_CMD_FACTORY_RESET [] [0; 0] (RegMap_new 7) tt 0%nat 9000 demo_version _ _ _ _ _ _ reach_new _).
    reflexivity. }
  split.
  - destruct (factory_reset_window [] UdpCfgState_new [] [0; 0] (RegMap_new 7) tt 0%nat 9000 demo_version
      (reach_new (H:=unit) (C:=nat)) ltac:(simpl; lia)) as (ok & reply' & cfg' & st' & E & P & Hcase).
    exists reply', st'. destruct Hcase as [[Hle _]|(_ & -> & -> & _)].
    + exfalso. vm_compute in Hle. apply Hle. reflexivity.
    + split; [exact E|exact P].
  - destruct (factory_reset_window [9000] recorded [] [0; 0] (RegMap_new 7) tt 0%nat 12000 demo_version H1 ltac:(simpl; lia))
      as (ok & reply' & cfg' & st' & E & P & Hcase).
    exists reply', st'. destruct Hcase as [(_ & -> & -> & _)|[Hlt _]].
    + split; [exact E|exact P].
    + exfalso. vm_compute in Hlt. discriminate Hlt.
Defined.

(** One command erases in the first 5 s. *)
Lemma factory_reset_at_boot reply :
  (2 <= length reply)%nat -> exists reply' st',
  udp_app_cmd UDP_CMD_FACTORY_RESET [] reply (RegMap_new 7) tt 0%nat UdpCfgState_new 4000 demo_version =
    Some (2%nat, reply', RegMap_new 7, tt, 1%nat, st').
Proof.
  intros Hl. destruct (reply_ok_eq reply UDP_CMD_FACTORY_RESET 1 Hl) as (reply' & E & _).
  exists reply', (mkUdpCfgState 0 false true false). unfold udp_app_cmd, factory_reset. cbn -[reply_ok]. by rewrite E.
Qed.

(** [udp_app_cmd] never panics but for one case: a GET_VERSION command
    answered into a buffer of exactly 13 bytes, which passes the length guard
    and is one byte short. *)
Theorem udp_panics_only_version_13 {H C} `{!RegHooks H} `{!CfgHooks C} cmd data reply r (h : H) (cfg : C)
    st now ver (Hg : length (git ver) = 6%nat) :
  udp_app_cmd cmd data reply r h cfg st now ver = None <->
  cmd = UDP_CMD_GET_VERSION /\ length reply = 13%nat.
Proof.
  pose proof (reply_ok_total reply cmd) as Hok.
  unfold udp_app_cmd. split.
  - intros E.
    destruct (Z.eqb_spec cmd UDP_CMD_SET_IP).
    { destruct data as [|a [|b [|c [|d data]]]]; cbn [length Nat.leb lookup list_lookup mbind option_bind] in E;
      [..|destruct (ip_addr_valid a b c d)];
      match type of E with context [reply_ok _ _ ?k] => destruct (Hok k) as [x Hx] end;
      rewrite Hx in E; discriminate E. }
    destruct (Z.eqb_spec cmd UDP_CMD_GET_IP).
    { destruct (Nat.ltb_spec (length reply) 5); [done|].
      rewrite upd_ok in E by lia. cbn [mbind option_bind] in E.
      rewrite blit_ok in E by (rewrite length_insert; simpl; lia). done. }
    destruct (Z.eqb_spec cmd UDP_CMD_SET_MODBUS).
    { destruct data as [|u [|b1 [|b0 data]]]; cbn [length Nat.leb lookup list_lookup mbind option_bind] in E;
      [| | |change (slice (u :: b1 :: b0 :: data) 1 3) with (Some [b1; b0]) in E;
        cbn [get_be16 lookup list_lookup mbind option_bind] in E];
      match type of E with context [reply_ok _ _ ?k] => destruct (Hok k) as [x Hx] end;
      rewrite Hx in E; discriminate E. }
    destruct (Z.eqb_spec cmd UDP_CMD_GET_MODBUS).
    { destruct (Nat.ltb_spec (length reply) 4); [done|].
      rewrite upd_ok in E by lia. cbn [mbind option_bind] in E.
      rewrite upd_ok in E by len. cbn [mbind option_bind] in E.
      rewrite put_be16_at in E by len. done. }
    destruct (Z.eqb_spec cmd UDP_CMD_SET_TIME).
    { destruct data as [|t3 [|t2 [|t1 [|t0 data]]]];
      cbn [length Nat.leb get_be32 lookup list_lookup mbind option_bind] in E;
      [..|destruct (set_timestamp _ h) as [[] h']];
      match type of E with context [reply_ok _ _ ?k] => destruct (Hok k) as [x Hx] end;
      rewrite Hx in E; discriminate E. }
    destruct (Z.eqb_spec cmd UDP_CMD_GET_VERSION) as [->|].
    { split; [done|]. destruct (Nat.ltb_spec (length reply) 13); [done|].
      destruct (decide (length reply = 13%nat)); [done|]. exfalso.
      do 8 (rewrite upd_ok in E by len; cbn [mbind option_bind] in E).
      rewrite slice_ok in E by len. cbn [mbind option_bind] in E.
      rewrite blit_ok in E by len. done. }
    destruct (Z.eqb_spec cmd UDP_CMD_REBOOT).
    { destruct (Hok 1) as [x Hx]. by rewrite Hx in E. }
    destruct (Z.eqb_spec cmd UDP_CMD_FACTORY_RESET); [|done].
    unfold factory_reset in E. destruct (_ && _).
    + destruct (Hok 0) as [x Hx]. by rewrite Hx in E.
    + destruct (Hok 1) as [x Hx]. by rewrite Hx in E.
  - intros [-> H13]. cbn [Z.eqb Pos.eqb UDP_CMD_SET_IP UDP_CMD_GET_IP UDP_CMD_SET_MODBUS UDP_CMD_GET_MODBUS
      UDP_CMD_SET_TIME UDP_CMD_GET_VERSION]. rewrite H13. cbn [Nat.ltb Nat.leb].
    do 8 (rewrite upd_ok by len; cbn [mbind option_bind]).
    unfold slice. rewrite decide_False by len. done.
Qed.

Lemma udp_panics_only_version_13_witness :
  udp_app_cmd UDP_CMD_GET_VERSION [] (replicate 13 0) (RegMap_new 7) tt tt UdpCfgState_new 0 demo_version = None.
Proof. apply udp_panics_only_version_13; [reflexivity|]. split; reflexivity. Defined.
