(* ===== verification/FwUpg.v ===== *)
(** * Firmware-upgrade helpers (crates/proto/src/fw_upg.rs)

    Image header and TLV parsing, the transfer CRC, the MCUboot trailer layout
    and the base64 decoder of the key hash. *)
From S2P Require Import Prelude Bytes Crc.

Definition FW_KEYHASH_LEN : nat := 32.

Definition FW_KEYHASH : list Z :=
  [0xfb; 0x73; 0x8f; 0x7d; 0xcf; 0x8c; 0x1a; 0x3a; 0x89; 0x88; 0xae; 0x60; 0x85; 0xd5; 0x2f; 0x06;
   0xaf; 0x2a; 0x25; 0x61; 0x33; 0xee; 0x1c; 0x06; 0x84; 0xf7; 0x14; 0x25; 0xaa; 0x15; 0x7f; 0xac].

Definition SLOT1_SIZE : Z := 0x70000.

Record ImageTlvPos := mkImageTlvPos { tlv_off : Z; tlv_size : Z }.

(** The inner option is the Rust one. *)
Definition image_tlv_pos (hdr32 : list Z) (hdr_size_expect : Z) : option (option ImageTlvPos) :=
  if (length hdr32 <? 16)%nat then Some None else
  b0 ← hdr32 !! 0%nat; b1 ← hdr32 !! 1%nat; b2 ← hdr32 !! 2%nat; b3 ← hdr32 !! 3%nat;
  let magic := from_le_bytes32 b0 b1 b2 b3 in
  if negb (magic =? 0x96F3B83D) then Some None else
  b8 ← hdr32 !! 8%nat; b9 ← hdr32 !! 9%nat;
  let hdr_size := from_le_bytes16 b8 b9 in
  b12 ← hdr32 !! 12%nat; b13 ← hdr32 !! 13%nat; b14 ← hdr32 !! 14%nat; b15 ← hdr32 !! 15%nat;
  let img_size := from_le_bytes32 b12 b13 b14 b15 in
  if negb (hdr_size =? hdr_size_expect) then Some None else
  let tlv_off := as_u32 (hdr_size + img_size) in
  if negb (tlv_off mod 4 =? 0) then Some None else
  Some (Some (mkImageTlvPos tlv_off 0)).

Definition le16_at (l : list Z) (i : nat) : option Z :=
  b0 ← l !! i; b1 ← l !! (i + 1)%nat; Some (from_le_bytes16 b0 b1).

(** [n.div_ceil(4)] *)
Definition div_ceil4 (n : nat) : nat := ((n + 3) / 4)%nat.

(** The TLV walk from [off]; each step moves [off] by at least 4, so [fuel]
    beyond the block length is never used up. *)
Fixpoint tlv_walk (fuel : nat) (tlv : list Z) (end_ off : nat) : option (option (list Z)) :=
  match fuel with
  | O => None
  | S fuel =>
      if (off + 4 <=? end_)%nat then
        tag ← le16_at tlv off;
        len ← le16_at tlv (off + 2);
        let len := Z.to_nat len in
        if (tag =? 0x0001) && (len =? FW_KEYHASH_LEN)%nat then
          let s := (off + 4)%nat in
          if (s + len <=? end_)%nat then x ← slice tlv s (s + len); Some (Some x)
          else Some None
        else tlv_walk fuel tlv end_ (off + (4 + div_ceil4 len * 4))
      else Some None
  end.

Definition keyhash_in_tlv (tlv : list Z) : option (option (list Z)) :=
  if (length tlv <? 4)%nat then Some None else
  magic ← le16_at tlv 0;
  size ← le16_at tlv 2;
  let size := Z.to_nat size in
  if negb (magic =? 0x6907) || (size =? 0)%nat || (length tlv <? size)%nat then Some None else
  let end_ := Nat.min size (length tlv) in
  tlv_walk (S (length tlv)) tlv end_ 4.

(** The byte step of [crc16_ccitt]. *)
Definition ccitt_step (seed b : Z) : Z :=
  let e := as_u8 (Z.lxor seed b) in
  let f := Z.lxor e (as_u8 (Z.shiftl e 4)) in
  Z.lxor (Z.lxor (Z.lxor (Z.shiftr seed 8) (as_u16 (Z.shiftl f 8))) (as_u16 (Z.shiftl f 3)))
    (Z.shiftr f 4).

Definition fw_crc16_ccitt (seed : Z) (src : list Z) : Z := foldl ccitt_step seed src.

Definition BOOT_MAGIC : list Z :=
  [0x77; 0xc2; 0x95; 0xf3; 0x60; 0xd2; 0xef; 0x7f; 0x35; 0x52; 0x50; 0x0f; 0x2c; 0xb6; 0x79; 0x80].

Definition BOOT_FLAG_SET : Z := 1.
Definition BOOT_SWAP_TYPE_TEST : Z := 2.
Definition BOOT_SWAP_TYPE_PERM : Z := 3.

Definition magic_off : Z := SLOT1_SIZE - 16.
Definition image_ok_off : Z := Z.land (SLOT1_SIZE - 16 - 8) (0xFFFFFFFF - 7).
Definition copy_done_off : Z := image_ok_off - 8.
Definition swap_info_off : Z := copy_done_off - 8.
Definition swap_size_off : Z := swap_info_off - 8.

Definition trailer_flag (flag : Z) : list Z :=
  let b := replicate 8 0xFF in <[0%nat := flag]> b.

Definition b64_val (c : Z) : option Z :=
  if (65 <=? c) && (c <=? 90) then Some (c - 65)
  else if (97 <=? c) && (c <=? 122) then Some (c - 97 + 26)
  else if (48 <=? c) && (c <=? 57) then Some (c - 48 + 52)
  else if c =? 43 then Some 62
  else if c =? 47 then Some 63
  else None.

(** The decoding loop: [None] of the outer option is a panic, of the inner one
    the Rust [None]. *)
Fixpoint b64_loop (data : list Z) (acc nbits : Z) (o : nat) (out : list Z)
    : option (option nat * list Z) :=
  match data with
  | [] => Some (Some o, out)
  | c :: data =>
      match b64_val c with
      | None => Some (None, out)
      | Some v =>
          let acc := Z.lor (as_u32 (Z.shiftl acc 6)) v in
          let nbits := nbits + 6 in
          if 8 <=? nbits then
            let nbits := nbits - 8 in
            if (length out <=? o)%nat then Some (None, out) else
            out ← upd out o (as_u8 (Z.shiftr acc nbits));
            b64_loop data acc nbits (o + 1) out
          else b64_loop data acc nbits o out
      end
  end.

Definition b64_decode (inp out : list Z) : option (option nat * list Z) :=
  let data_len := default (length inp) (position (fun c => c =? 61) inp) in
  let pad := (length inp - data_len)%nat in
  if (2 <? pad)%nat || negb (length inp mod 4 =? 0)%nat then Some (None, out) else
  data ← slice inp 0 data_len;
  b64_loop data 0 0 0 out.

(** ** The two CRC implementations *)

Lemma lxor_testbit_u16 x y : is_u16 x -> is_u16 y -> is_u16 (Z.lxor x y).
Proof.
  unfold is_u16. intros Hx Hy.
  rewrite <- (Z.mod_small x 65536), <- (Z.mod_small y 65536) by lia.
  change 65536 with (2 ^ 16). rewrite <- !Z.land_ones by lia.
  assert (Z.lxor (Z.land x (Z.ones 16)) (Z.land y (Z.ones 16)) = Z.land (Z.lxor x y) (Z.ones 16)) as ->.
  { apply Z.bits_inj'. intros i Hi. rewrite !Z.lxor_spec, !Z.land_spec, Z.lxor_spec.
    by destruct (Z.testbit x i), (Z.testbit y i), (Z.testbit (Z.ones 16) i). }
  rewrite Z.land_ones by lia. apply Z.mod_pos_bound. lia.
Qed.

(** The step depends on [seed] and [b] only through their exclusive or, for a
    byte [b]; so one table over the 16-bit registers settles it. *)
Lemma ccitt_step_lxor seed b : is_u8 b -> ccitt_step seed b = ccitt_step (Z.lxor seed b) 0.
Proof.
  intros Hb. unfold ccitt_step. rewrite Z.lxor_0_r.
  rewrite <- (Z.lxor_0_r (Z.shiftr seed 8)) at 1.
  replace 0 with (Z.shiftr b 8) at 1; [by rewrite <- Z.shiftr_lxor|].
  rewrite shiftr_8. apply Z.div_small. exact Hb.
Qed.

Lemma crc_byte_lxor seed b : crc_byte 0x8408 seed b = crc_byte 0x8408 (Z.lxor seed b) 0.
Proof. unfold crc_byte. by rewrite Z.lxor_0_r. Qed.

Lemma ccitt_table : forallZ 0 (Z.to_nat 65536) (fun x => ccitt_step x 0 =? crc_byte 0x8408 x 0) = true.
Proof. vm_compute. reflexivity. Qed.

Lemma ccitt_step_eq seed b : is_u16 seed -> is_u8 b -> ccitt_step seed b = crc_byte 0x8408 seed b.
Proof.
  intros Hs Hb. rewrite ccitt_step_lxor, crc_byte_lxor by done.
  apply Z.eqb_eq. apply (forallZ_spec 0 _ _ ccitt_table).
  pose proof (lxor_testbit_u16 seed b Hs (is_u8_u16 b Hb)). unfold is_u16 in *. lia.
Qed.

Lemma fw_crc16_ccitt_eq seed src :
  is_u16 seed -> bytes_ok src -> fw_crc16_ccitt seed src = crc16_ccitt_seed src seed.
Proof.
  intros Hs Hd. revert seed Hs. induction Hd as [|b l Hb Hd IH]; intros seed Hs; [done|].
  unfold fw_crc16_ccitt, crc16_ccitt_seed in *. simpl. rewrite ccitt_step_eq by done. apply IH.
  apply (crc16_ccitt_seed_range [b] seed); [apply bytes_ok_cons; [done|constructor]|done].
Qed.

(** ** TLV blocks *)

(** An entry: tag and payload.  Payloads are padded to a multiple of four. *)
Definition tlv_entry (e : Z * list Z) : list Z :=
  to_le_bytes16 e.1 ++ to_le_bytes16 (Z.of_nat (length e.2)) ++ e.2 ++
    replicate (div_ceil4 (length e.2) * 4 - length e.2) 0.

Definition tlv_body (es : list (Z * list Z)) : list Z := es ≫= tlv_entry.

Definition tlv_block (es : list (Z * list Z)) : list Z :=
  to_le_bytes16 0x6907 ++ to_le_bytes16 (Z.of_nat (4 + length (tlv_body es))) ++ tlv_body es.

Definition is_keyhash (e : Z * list Z) : bool := (e.1 =? 1) && (length e.2 =? FW_KEYHASH_LEN)%nat.

Definition first_keyhash (es : list (Z * list Z)) : option (list Z) :=
  snd <$> (head (filter (fun e => is_keyhash e = true) es)).

Definition entry_ok (e : Z * list Z) : Prop := is_u16 e.1 /\ Z.of_nat (length e.2) < 65536.

Lemma div_ceil4_ge n : (n <= div_ceil4 n * 4)%nat.
Proof. unfold div_ceil4. pose proof (Nat.div_mod_eq (n + 3) 4). pose proof (Nat.mod_upper_bound (n + 3) 4). lia. Qed.

Lemma tlv_entry_length e : length (tlv_entry e) = (4 + div_ceil4 (length e.2) * 4)%nat.
Proof.
  unfold tlv_entry. rewrite !length_app, length_replicate. simpl.
  pose proof (div_ceil4_ge (length e.2)). lia.
Qed.

Lemma le16_at_app a v r i :
  i = length a -> is_u16 v -> le16_at (a ++ to_le_bytes16 v ++ r) i = Some v.
Proof.
  intros -> Hv. unfold le16_at. rewrite !(lookup_app_r a) by lia.
  replace (length a - length a)%nat with 0%nat by lia.
  replace (length a + 1 - length a)%nat with 1%nat by lia.
  simpl. f_equal. unfold is_u16, from_le_bytes16 in *. zdm.
Qed.

Lemma first_keyhash_cons e es :
  first_keyhash (e :: es) = if is_keyhash e then Some e.2 else first_keyhash es.
Proof.
  unfold first_keyhash. rewrite filter_cons. destruct (is_keyhash e) eqn:E.
  - by rewrite decide_True.
  - by rewrite decide_False.
Qed.

(** The walk finds the first key-hash entry, whatever precedes the entries and
    follows the block. *)
Lemma tlv_walk_finds es : forall fuel pre post,
  Forall entry_ok es -> (length (tlv_body es) < fuel)%nat ->
  tlv_walk fuel (pre ++ tlv_body es ++ post) (length pre + length (tlv_body es)) (length pre) =
    Some (first_keyhash es).
Proof.
  induction es as [|e es IH]; intros fuel pre post Hok Hf; (destruct fuel as [|fuel]; [lia|]); cbn [tlv_walk].
  - simpl. rewrite (proj2 (Nat.leb_gt _ _)) by lia. done.
  - apply Forall_cons_1 in Hok as [[Htag Hlen] Hok].
    change (tlv_body (e :: es)) with (tlv_entry e ++ tlv_body es) in *.
    pose proof (tlv_entry_length e) as Hel. rewrite length_app, Hel in Hf |- *.
    rewrite (proj2 (Nat.leb_le _ _)) by lia.
    rewrite first_keyhash_cons. unfold is_keyhash.
    assert (pre ++ (tlv_entry e ++ tlv_body es) ++ post =
      pre ++ to_le_bytes16 e.1 ++ (to_le_bytes16 (Z.of_nat (length e.2)) ++ e.2 ++
        replicate (div_ceil4 (length e.2) * 4 - length e.2) 0) ++ tlv_body es ++ post) as E1
      by (unfold tlv_entry; by rewrite <- !app_assoc).
    assert (pre ++ (tlv_entry e ++ tlv_body es) ++ post =
      (pre ++ to_le_bytes16 e.1) ++ to_le_bytes16 (Z.of_nat (length e.2)) ++ (e.2 ++
        replicate (div_ceil4 (length e.2) * 4 - length e.2) 0) ++ tlv_body es ++ post) as E2
      by (unfold tlv_entry; by rewrite <- !app_assoc).
    rewrite E1 at 1. rewrite le16_at_app by done. cbn [mbind option_bind].
    rewrite E2 at 1.
    rewrite le16_at_app by (first [by rewrite length_app | unfold is_u16; lia]). cbn [mbind option_bind].
    rewrite Nat2Z.id.
    destruct ((e.1 =? 1) && (length e.2 =? FW_KEYHASH_LEN)%nat) eqn:K.
    + pose proof (div_ceil4_ge (length e.2)).
      rewrite (proj2 (Nat.leb_le _ _)) by lia.
      rewrite E2, <- (app_assoc e.2), (app_assoc (pre ++ to_le_bytes16 e.1)), slice_app_exact; [done| |];
        rewrite !length_app; simpl; lia.
    + replace (pre ++ (tlv_entry e ++ tlv_body es) ++ post) with ((pre ++ tlv_entry e) ++ tlv_body es ++ post)
        by (by rewrite <- !app_assoc).
      rewrite <- (IH fuel (pre ++ tlv_entry e) post Hok) by lia.
      rewrite length_app, Hel. f_equal; lia.
Qed.

Lemma le16_at_some l i : (i + 2 <= length l)%nat -> exists v, le16_at l i = Some v.
Proof.
  intros Hi. unfold le16_at.
  destruct (lookup_lt_is_Some_2 l i) as [a ->]; [lia|].
  destruct (lookup_lt_is_Some_2 l (i + 1)) as [b ->]; [lia|]. by eexists.
Qed.

Lemma tlv_walk_total fuel : forall tlv end_ off,
  (end_ <= length tlv)%nat -> (0 < fuel)%nat -> (end_ < fuel + off)%nat ->
  exists r, tlv_walk fuel tlv end_ off = Some r /\ forall k, r = Some k -> length k = FW_KEYHASH_LEN.
Proof.
  induction fuel as [|fuel IH]; intros tlv end_ off He Hp Hf; [lia|]; cbn [tlv_walk].
  destruct (Nat.leb_spec (off + 4) end_); [|by eexists].
  destruct (le16_at_some tlv off) as [tag ->]; [lia|].
  destruct (le16_at_some tlv (off + 2)) as [len ->]; [lia|]. cbn [mbind option_bind].
  destruct ((tag =? 1) && _) eqn:K; [|apply IH; lia].
  zbool. destruct (Nat.leb_spec (off + 4 + Z.to_nat len) end_); [|by eexists].
  rewrite slice_ok by lia. cbn [mbind option_bind]. eexists. split; [done|].
  intros k [= <-]. rewrite length_take, length_drop. lia.
Qed.

Lemma first_keyhash_length es k : first_keyhash es = Some k -> length k = FW_KEYHASH_LEN.
Proof.
  induction es as [|e es IH]; [done|]. rewrite first_keyhash_cons. unfold is_keyhash.
  destruct ((e.1 =? 1) && _) eqn:K; [|done]. zbool. by intros [= <-].
Qed.

Lemma keyhash_in_tlv_block es post :
  Forall entry_ok es -> Z.of_nat (4 + length (tlv_body es)) < 65536 ->
  keyhash_in_tlv (tlv_block es ++ post) = Some (first_keyhash es).
Proof.
  intros Hok Hlen. unfold keyhash_in_tlv, tlv_block.
  set (n := (4 + length (tlv_body es))%nat) in *.
  rewrite <- !app_assoc.
  rewrite (proj2 (Nat.ltb_ge _ _)) by (rewrite !length_app; simpl; lia).
  assert (le16_at (to_le_bytes16 0x6907 ++ to_le_bytes16 (Z.of_nat n) ++ tlv_body es ++ post) 0 =
    Some 0x6907) as -> by (apply (le16_at_app [] 0x6907); [done|unfold is_u16; lia]).
  cbn [mbind option_bind].
  rewrite (le16_at_app (to_le_bytes16 0x6907) (Z.of_nat n) (tlv_body es ++ post) 2)
    by (first [done | unfold is_u16; lia]).
  cbn [mbind option_bind]. rewrite Nat2Z.id.
  rewrite (proj2 (Nat.ltb_ge _ n)) by (rewrite !length_app; simpl; lia).
  rewrite (proj2 (Nat.eqb_neq n 0)) by lia. cbn [negb Z.eqb Pos.eqb orb].
  rewrite Nat.min_l by (rewrite !length_app; simpl; lia).
  rewrite app_assoc.
  apply (tlv_walk_finds es _ (to_le_bytes16 0x6907 ++ to_le_bytes16 (Z.of_nat n)) post Hok).
  rewrite !length_app. simpl. lia.
Qed.

Lemma keyhash_in_tlv_total tlv : exists r, keyhash_in_tlv tlv = Some r /\
  forall k, r = Some k -> length k = FW_KEYHASH_LEN.
Proof.
  unfold keyhash_in_tlv. destruct (Nat.ltb_spec (length tlv) 4); [by eexists|].
  destruct (le16_at_some tlv 0) as [magic ->]; [lia|].
  destruct (le16_at_some tlv 2) as [size ->]; [lia|]. cbn [mbind option_bind].
  destruct (_ || _); [by eexists|]. apply tlv_walk_total; lia.
Qed.

(** ** Properties *)

(** the upgrade CRC, computed a byte at a time with shifts, is the bitwise
    CRC-16/CCITT of [Crc] from the same seed, on all data. *)
Theorem fw_crc_equiv seed src (Hs : is_u16 seed) (Hd : bytes_ok src) :
  fw_crc16_ccitt seed src = crc16_ccitt_seed src seed.
Proof. by apply fw_crc16_ccitt_eq. Qed.

Lemma fw_crc_equiv_witness : fw_crc16_ccitt 0 [1; 2; 3] = crc16_ccitt [1; 2; 3].
Proof.
  apply fw_crc_equiv; [unfold is_u16; lia|].
  repeat (apply bytes_ok_cons; [unfold is_u8; lia|]). constructor.
Defined.

(** the TLV parser.  On any bytes at all it terminates without a panic and
    what it returns is 32 bytes long; on a well-formed block (entries of any
    tags and lengths, padded to four, followed by anything) it returns the
    payload of the first 32-byte entry tagged KEYHASH, or nothing. *)
Theorem keyhash_parser tlv es post (Hok : Forall entry_ok es)
    (Hlen : Z.of_nat (4 + length (tlv_body es)) < 65536) :
  (exists r, keyhash_in_tlv tlv = Some r /\ forall k, r = Some k -> length k = FW_KEYHASH_LEN) /\
  keyhash_in_tlv (tlv_block es ++ post) = Some (first_keyhash es).
Proof. split; [apply keyhash_in_tlv_total|by apply keyhash_in_tlv_block]. Qed.

Lemma keyhash_parser_witness :
  keyhash_in_tlv (tlv_block [(16, [1; 2; 3]); (1, FW_KEYHASH)] ++ [255]) = Some (Some FW_KEYHASH).
Proof.
  refine (proj2 (keyhash_parser [] [(16, [1; 2; 3]); (1, FW_KEYHASH)] [255] _ _)).
  - repeat constructor; simpl; unfold is_u16; lia.
  - simpl. lia.
Defined.
