(* ===== verification/Ws.v ===== *)
(** * WebSocket support (crates/proto/src/ws.rs)

    SHA-1 and base64 for the handshake, the server frame header and the client
    frame parser.  [W] is the width of [usize] in bits: 32 on the target, 64 on
    a host. *)
From S2P Require Import Prelude Bytes.

(** ** SHA-1 *)

Record Sha1 := mkSha1 { sha_h : list Z; sha_total : Z; sha_buf : list Z; sha_buf_len : nat }.

Definition Sha1_new : Sha1 :=
  mkSha1 [0x67452301; 0xEFCDAB89; 0x98BADCFE; 0x10325476; 0xC3D2E1F0] 0 (replicate 64 0) 0.

Definition rotate_left (x n : Z) : Z := Z.lor (as_u32 (Z.shiftl x n)) (Z.shiftr x (32 - n)).
Definition not_u32 (x : Z) : Z := 0xFFFFFFFF - x.
Definition wrapping_add_u32 (x y : Z) : Z := as_u32 (x + y).

(** The message schedule. *)
Definition sha_schedule (p : list Z) : list Z :=
  let w := replicate 80 0 in
  let w := foldl (fun w i =>
    <[i := from_be_bytes32 (p !!! (4 * i)%nat) (p !!! (4 * i + 1)%nat) (p !!! (4 * i + 2)%nat)
             (p !!! (4 * i + 3)%nat)]> w) w (seq 0 16) in
  foldl (fun w i =>
    <[i := rotate_left (Z.lxor (Z.lxor (Z.lxor (w !!! (i - 3)%nat) (w !!! (i - 8)%nat))
             (w !!! (i - 14)%nat)) (w !!! (i - 16)%nat)) 1]> w) w (seq 16 64).

Definition sha_round (st : Z * Z * Z * Z * Z) (iw : nat * Z) : Z * Z * Z * Z * Z :=
  let '(a, b, c, d, e) := st in
  let '(i, wi) := iw in
  let '(f, k) :=
    if (i <=? 19)%nat then (Z.lor (Z.land b c) (Z.land (not_u32 b) d), 0x5A827999)
    else if (i <=? 39)%nat then (Z.lxor (Z.lxor b c) d, 0x6ED9EBA1)
    else if (i <=? 59)%nat then
      (Z.lor (Z.lor (Z.land b c) (Z.land b d)) (Z.land c d), 0x8F1BBCDC)
    else (Z.lxor (Z.lxor b c) d, 0xCA62C1D6) in
  let tmp := wrapping_add_u32 (wrapping_add_u32 (wrapping_add_u32 (wrapping_add_u32
    (rotate_left a 5) f) e) k) wi in
  (tmp, a, rotate_left b 30, c, d).

Definition sha_block (p : list Z) (h : list Z) : list Z :=
  let w := sha_schedule p in
  let '(a, b, c, d, e) :=
    foldl sha_round (h !!! 0%nat, h !!! 1%nat, h !!! 2%nat, h !!! 3%nat, h !!! 4%nat)
      (imap (fun i wi => (i, wi)) w) in
  [wrapping_add_u32 (h !!! 0%nat) a; wrapping_add_u32 (h !!! 1%nat) b;
   wrapping_add_u32 (h !!! 2%nat) c; wrapping_add_u32 (h !!! 3%nat) d;
   wrapping_add_u32 (h !!! 4%nat) e].

(** [while data.len() >= 64]; [fuel] at least the length of [data]. *)
Fixpoint sha_blocks (fuel : nat) (data : list Z) (h : list Z) : list Z * list Z :=
  match fuel with
  | O => (h, data)
  | S fuel =>
      if (64 <=? length data)%nat then sha_blocks fuel (drop 64 data) (sha_block (take 64 data) h)
      else (h, data)
  end.

Definition sha_update (data : list Z) (s : Sha1) : option Sha1 :=
  let total := as_u64 (sha_total s + Z.of_nat (length data)) in
  '(s, data) ←
    (if (0 <? sha_buf_len s)%nat then
       let tk := Nat.min (64 - sha_buf_len s) (length data) in
       src ← slice data 0 tk;
       buf ← blit (sha_buf s) (sha_buf_len s) src;
       let buf_len := (sha_buf_len s + tk)%nat in
       let data := drop tk data in
       if (buf_len =? 64)%nat then Some (mkSha1 (sha_block buf (sha_h s)) total buf 0, data)
       else Some (mkSha1 (sha_h s) total buf buf_len, data)
     else Some (mkSha1 (sha_h s) total (sha_buf s) (sha_buf_len s), data));
  let '(h, data) := sha_blocks (length data) data (sha_h s) in
  if negb (length data =? 0)%nat then
    buf ← blit (sha_buf s) 0 data;
    Some (mkSha1 h total buf (length data))
  else Some (mkSha1 h total (sha_buf s) (sha_buf_len s)).

(** [while self.buf_len != 56 { self.update(&[0]) }] *)
Fixpoint sha_pad (fuel : nat) (s : Sha1) : option Sha1 :=
  match fuel with
  | O => None
  | S fuel => if (sha_buf_len s =? 56)%nat then Some s else s ← sha_update [0] s; sha_pad fuel s
  end.

Definition to_be_bytes64 (v : Z) : list Z := to_be_bytes32 (v / 4294967296) ++ to_be_bytes32 v.

Definition sha_finalize (s : Sha1) : option (list Z) :=
  let bits := as_u64 (sha_total s * 8) in
  s ← sha_update [0x80] s;
  s ← sha_pad 65 s;
  let block := list_inserts 56 (to_be_bytes64 bits) (sha_buf s) in
  let h := sha_block block (sha_h s) in
  Some (foldl (fun out i => list_inserts (4 * i) (to_be_bytes32 (h !!! i)) out)
    (replicate 20 0) (seq 0 5)).

(** ** base64 *)

Definition B64 : list Z := bs "ABCDEFGHIJKLMNOPQRSTUVWXYZabcdefghijklmnopqrstuvwxyz0123456789+/".

(** The four characters of a chunk of one to three bytes. *)
Definition b64_chars (chunk : list Z) : list Z :=
  let b0 := chunk !!! 0%nat in
  let b1 := default 0 (chunk !! 1%nat) in
  let b2 := default 0 (chunk !! 2%nat) in
  let v := Z.lor (Z.lor (Z.shiftl b0 16) (Z.shiftl b1 8)) b2 in
  let chars :=
    [B64 !!! Z.to_nat (Z.land (Z.shiftr v 18) 63); B64 !!! Z.to_nat (Z.land (Z.shiftr v 12) 63);
     B64 !!! Z.to_nat (Z.land (Z.shiftr v 6) 63); B64 !!! Z.to_nat (Z.land v 63)] in
  let keep := match length chunk with 1%nat => 2%nat | 2%nat => 3%nat | _ => 4%nat end in
  take keep chars ++ replicate (4 - keep) 61.

(** Characters beyond the end of [dst] are dropped. *)
Definition b64_put (st : list Z * nat) (c : Z) : list Z * nat :=
  let '(dst, n) := st in
  if (n <? length dst)%nat then (<[n := c]> dst, S n) else (dst, n).

(** [src.chunks(3)] *)
Fixpoint chunks3 (src : list Z) : list (list Z) :=
  match src with
  | a :: b :: c :: src => [a; b; c] :: chunks3 src
  | [] => []
  | src => [src]
  end.

Definition b64_encode (src dst : list Z) : list Z * nat :=
  foldl (fun st chunk => foldl b64_put st (b64_chars chunk)) (dst, 0%nat) (chunks3 src).

Definition GUID : list Z := bs "258EAFA5-E914-47DA-95CA-C5AB0DC85B11".

Definition ws_accept_key (key24 : list Z) : option (list Z) :=
  sha ← sha_update key24 Sha1_new;
  sha ← sha_update GUID sha;
  digest ← sha_finalize sha;
  let '(out, _) := b64_encode digest (replicate 28 0) in
  Some out.

(** ** Server frame header *)

(** [hdr] is a ten-byte array; [len >> k] takes the shift modulo the width. *)
Definition ws_frame_hdr (W : Z) (hdr : list Z) (opcode len : Z) : list Z * nat :=
  let hdr := <[0%nat := Z.lor 0x80 opcode]> hdr in
  if len <? 126 then (<[1%nat := as_u8 len]> hdr, 2%nat)
  else if len <=? 0xFFFF then
    let hdr := <[1%nat := 126]> hdr in
    let hdr := <[2%nat := as_u8 (Z.shiftr len 8)]> hdr in
    (<[3%nat := as_u8 len]> hdr, 4%nat)
  else
    let hdr := <[1%nat := 127]> hdr in
    (foldl (fun hdr i => <[(2 + i)%nat := as_u8 (Z.shiftr len ((56 - 8 * Z.of_nat i) mod W))]> hdr)
       hdr (seq 0 8), 10%nat).

(** ** Client frame parser *)

Inductive FeedEvent :=
| Frame (fin : bool) (opcode : Z) (payload_len : nat)
| Close.

Inductive WsFeed := Header | Len16 | Len64 | Mask | Payload.

Definition PAYLOAD_MAX : nat := 10 * 1024 + 16.

Record WsParser := mkWsParser {
  ws_state : WsFeed; hdr : list Z; hdr_got : nat; fin : bool; opcode : Z; masked : bool;
  mask : list Z; plen : nat; got : nat; payload : list Z }.

Definition WsParser_new : WsParser :=
  mkWsParser Header (replicate 10 0) 0 false 0 false (replicate 4 0) 0 0 (replicate PAYLOAD_MAX 0).

Section Feed.
Context {E : Type}.
Variable W : Z.
Variable event : WsParser -> FeedEvent -> E -> WsParser * E.

Definition after_len (p : WsParser) : WsFeed := if masked p then Mask else Payload.

(** One byte.  [None]: panic; the flag: false when the session must close. *)
Definition feed1 (b : Z) (p : WsParser) (e : E) : option (bool * WsParser * E) :=
  match ws_state p with
  | Header =>
      h ← upd (hdr p) (hdr_got p) b;
      let g := (hdr_got p + 1)%nat in
      if (g <? 2)%nat then
        Some (true, mkWsParser Header h g (fin p) (opcode p) (masked p) (mask p) (plen p) (got p) (payload p), e)
      else
      let fin := negb (Z.land (h !!! 0%nat) 0x80 =? 0) in
      let opcode := Z.land (h !!! 0%nat) 0x0F in
      let masked := negb (Z.land (h !!! 1%nat) 0x80 =? 0) in
      let plen := Z.to_nat (Z.land (h !!! 1%nat) 0x7F) in
      let mk st := mkWsParser st h 0 fin opcode masked (mask p) plen 0 (payload p) in
      if (plen =? 126)%nat then Some (true, mk Len16, e)
      else if (plen =? 127)%nat then Some (true, mk Len64, e)
      else if (PAYLOAD_MAX <? plen)%nat then Some (false, mk Header, e)
      else if masked then Some (true, mk Mask, e)
      else Some (true, mk Payload, e)
  | Len16 =>
      h ← upd (hdr p) (hdr_got p) b;
      let g := (hdr_got p + 1)%nat in
      if (g =? 2)%nat then
        let n := Z.to_nat (Z.lor (Z.shiftl (h !!! 0%nat) 8) (h !!! 1%nat)) in
        if (PAYLOAD_MAX <? n)%nat then
          Some (false, mkWsParser Len16 h g (fin p) (opcode p) (masked p) (mask p) n (got p) (payload p), e)
        else
          Some (true, mkWsParser (after_len p) h 0 (fin p) (opcode p) (masked p) (mask p) n (got p) (payload p), e)
      else Some (true, mkWsParser Len16 h g (fin p) (opcode p) (masked p) (mask p) (plen p) (got p) (payload p), e)
  | Len64 =>
      h ← upd (hdr p) (hdr_got p) b;
      let g := (hdr_got p + 1)%nat in
      if (g =? 8)%nat then
        let v := foldl (fun v i => Z.lor (as_u64 (Z.shiftl v 8)) (h !!! i)) 0 (seq 0 8) in
        let n := v mod 2 ^ W in
        if Z.of_nat PAYLOAD_MAX <? n then
          Some (false, mkWsParser Len64 h g (fin p) (opcode p) (masked p) (mask p) (plen p) (got p) (payload p), e)
        else
          Some (true, mkWsParser (after_len p) h 0 (fin p) (opcode p) (masked p) (mask p) (Z.to_nat n) (got p) (payload p), e)
      else Some (true, mkWsParser Len64 h g (fin p) (opcode p) (masked p) (mask p) (plen p) (got p) (payload p), e)
  | Mask =>
      m ← upd (mask p) (hdr_got p) b;
      let g := (hdr_got p + 1)%nat in
      if (g =? 4)%nat then
        Some (true, mkWsParser Payload (hdr p) 0 (fin p) (opcode p) (masked p) m (plen p) (got p) (payload p), e)
      else Some (true, mkWsParser Mask (hdr p) g (fin p) (opcode p) (masked p) m (plen p) (got p) (payload p), e)
  | Payload =>
      let idx := got p in
      if (PAYLOAD_MAX <=? idx)%nat then Some (false, p, e) else
      pay ← upd (payload p) idx (if masked p then Z.lxor b (mask p !!! (idx mod 4)%nat) else b);
      let g := (idx + 1)%nat in
      let p := mkWsParser Payload (hdr p) (hdr_got p) (fin p) (opcode p) (masked p) (mask p) (plen p) g pay in
      if (g =? plen p)%nat then
        let '(p, e) := event p (Frame (fin p) (opcode p) g) e in
        Some (true, mkWsParser Header (hdr p) 0 (fin p) (opcode p) (masked p) (mask p) (plen p) (got p) (payload p), e)
      else Some (true, p, e)
  end.

Fixpoint ws_feed (data : list Z) (p : WsParser) (e : E) : option (bool * WsParser * E) :=
  match data with
  | [] => Some (true, p, e)
  | b :: data =>
      '(ok, p, e) ← feed1 b p e;
      if ok : bool then ws_feed data p e else Some (false, p, e)
  end.
End Feed.

Example accept_key_rfc6455 :
  ws_accept_key (bs "dGhlIHNhbXBsZSBub25jZQ==") = Some (bs "s3pPLMBiTxaQ9kYGzzhZRbK+xOo=").
Proof. vm_compute. reflexivity. Qed.

(** ** SHA-1: the streaming interface computes the one-shot digest *)

#[local] Opaque sha_block.

Definition SHA_H0 : list Z := [0x67452301; 0xEFCDAB89; 0x98BADCFE; 0x10325476; 0xC3D2E1F0].

Section Blocks.
Variable blk : list Z -> list Z -> list Z.

(** The state after the first [k] blocks of [l]. *)
Fixpoint hash_n (k : nat) (l h : list Z) : list Z :=
  match k with
  | O => h
  | S k => hash_n k (drop 64 l) (blk (take 64 l) h)
  end.

Lemma hash_n_S k l h : hash_n (S k) l h = hash_n k (drop 64 l) (blk (take 64 l) h).
Proof. reflexivity. Qed.

Lemma hash_n_add a b l h : hash_n (a + b) l h = hash_n b (drop (64 * a) l) (hash_n a l h).
Proof.
  revert l h. induction a as [|a IH]; intros l h; [rewrite Nat.mul_0_r; reflexivity|].
  rewrite Nat.add_succ_l, !hash_n_S, IH, drop_drop.
  replace (64 + 64 * a)%nat with (64 * S a)%nat by lia. reflexivity.
Qed.

Lemma hash_n_app k l x h : (64 * k <= length l)%nat -> hash_n k (l ++ x) h = hash_n k l h.
Proof.
  revert l h. induction k as [|k IH]; intros l h Hl; [reflexivity|]. rewrite !hash_n_S.
  rewrite drop_app_le, take_app_le by lia. apply IH. rewrite length_drop. lia.
Qed.
End Blocks.

(** FIPS 180: pad with 0x80, zeros and the bit length, hash all blocks. *)
Definition sha1_padded (msg : list Z) : list Z :=
  msg ++ [0x80] ++ replicate ((119 - length msg mod 64) mod 64)%nat 0 ++
    to_be_bytes64 (as_u64 (as_u64 (Z.of_nat (length msg)) * 8)).

Definition sha1_spec (msg : list Z) : list Z :=
  let m := sha1_padded msg in
  let h := hash_n sha_block (length m / 64) m SHA_H0 in
  [h !!! 0%nat; h !!! 1%nat; h !!! 2%nat; h !!! 3%nat; h !!! 4%nat] ≫= to_be_bytes32.

Lemma sha_blocks_eq fuel l h :
  (length l <= fuel)%nat -> sha_blocks fuel l h = (hash_n sha_block (length l / 64) l h, drop (64 * (length l / 64)) l).
Proof.
  revert l h. induction fuel as [|fuel IH]; intros l h Hl; cbn [sha_blocks].
  - assert (length l = 0)%nat as E by lia. rewrite E. done.
  - destruct (Nat.leb_spec 64 (length l)) as [H|H].
    + rewrite IH by (rewrite length_drop; lia). rewrite length_drop.
      assert (length l / 64 = S ((length l - 64) / 64))%nat as ->.
      { replace (length l) with (1 * 64 + (length l - 64))%nat at 1 by lia.
        rewrite Nat.div_add_l by lia. lia. }
      rewrite !hash_n_S. rewrite drop_drop. do 2 f_equal. lia.
    + rewrite Nat.div_small by lia. done.
Qed.

(** The abstraction: [s] has consumed [d]. *)
Definition sha_abs (s : Sha1) (d : list Z) : Prop :=
  sha_h s = hash_n sha_block (length d / 64) d SHA_H0 /\ sha_buf_len s = (length d mod 64)%nat /\
  length (sha_buf s) = 64%nat /\
  take (sha_buf_len s) (sha_buf s) = drop (64 * (length d / 64)) d /\
  sha_total s = as_u64 (Z.of_nat (length d)).

(** The second half of [update]: whole blocks, then the rest into the buffer. *)
Lemma sha_tail m j h buf :
  (64 * j <= length m)%nat -> h = hash_n sha_block j m SHA_H0 -> length buf = 64%nat ->
  exists s, (let '(h, data) := sha_blocks (length (drop (64 * j) m)) (drop (64 * j) m) h in
     if negb (length data =? 0)%nat then
       b ← blit buf 0 data; Some (mkSha1 h (as_u64 (Z.of_nat (length m))) b (length data))
     else Some (mkSha1 h (as_u64 (Z.of_nat (length m))) buf 0)) = Some s /\ sha_abs s m.
Proof.
  intros Hj -> Hb. rewrite sha_blocks_eq by done.
  set (k := (length (drop (64 * j) m) / 64)%nat).
  assert (length m / 64 = j + k)%nat as Hk.
  { unfold k. rewrite length_drop. replace (length m) with (j * 64 + (length m - 64 * j))%nat at 1 by lia.
    by rewrite Nat.div_add_l by lia. }
  rewrite <- hash_n_add, drop_drop, <- Nat.mul_add_distr_l, <- Hk.
  pose proof (Nat.div_mod_eq (length m) 64) as Hdm.
  pose proof (Nat.mod_upper_bound (length m) 64 ltac:(lia)) as Hmod.
  set (data := drop (64 * (length m / 64)) m).
  assert (length data = length m mod 64)%nat as Hd by (unfold data; rewrite length_drop; lia).
  destruct (Nat.eqb_spec (length data) 0) as [E|E]; cbn [negb].
  - eexists. split; [done|]. unfold sha_abs. cbn [sha_h sha_buf_len sha_buf sha_total].
    split; [done|]. split; [lia|]. split; [done|]. split; [|done].
    apply nil_length_inv in E. fold data. by rewrite E.
  - rewrite blit_ok by lia. cbn [mbind option_bind]. eexists. split; [done|].
    unfold sha_abs. cbn [sha_h sha_buf_len sha_buf sha_total].
    split; [done|]. split; [done|]. split; [by rewrite length_inserts|]. split; [|done].
    rewrite list_inserts_split by lia. simpl. apply take_app_length.
Qed.

Lemma sha_update_abs x s d :
  sha_abs s d -> exists s', sha_update x s = Some s' /\ sha_abs s' (d ++ x).
Proof.
  intros (Hh & Hbl & Hlb & Hbuf & Ht). unfold sha_update.
  pose proof (Nat.div_mod_eq (length d) 64) as Hdm.
  pose proof (Nat.mod_upper_bound (length d) 64 ltac:(lia)) as Hmod.
  set (j := (length d / 64)%nat) in *.
  assert (as_u64 (sha_total s + Z.of_nat (length x)) = as_u64 (Z.of_nat (length (d ++ x)))) as ->.
  { rewrite Ht, length_app. unfold as_u64. rewrite Zplus_mod_idemp_l. f_equal. lia. }
  destruct (Nat.ltb_spec 0 (sha_buf_len s)) as [Hpos|Hpos].
  2:{ cbn [mbind option_bind sha_h sha_buf sha_buf_len].
    replace (sha_buf_len s) with 0%nat by lia.
    assert (drop (64 * j) (d ++ x) = x) as Ex by (rewrite drop_app_ge by lia; by replace (_ - _)%nat with 0%nat by lia).
    destruct (sha_tail (d ++ x) j (sha_h s) (sha_buf s)) as (s' & E & A); [rewrite length_app; lia| |done|].
    { by rewrite Hh, hash_n_app by lia. }
    rewrite Ex in E. exists s'. split; [exact E|done]. }
  set (tk := Nat.min (64 - sha_buf_len s) (length x)).
  rewrite slice_ok by lia. rewrite drop_0, Nat.sub_0_r. cbn [mbind option_bind].
  assert (length (take tk x) = tk) as Htk by (rewrite length_take; lia).
  rewrite blit_ok by lia. cbn [mbind option_bind].
  assert (take (sha_buf_len s + tk) (list_inserts (sha_buf_len s) (take tk x) (sha_buf s)) =
    drop (64 * j) d ++ take tk x) as Hfill.
  { rewrite list_inserts_split by lia. rewrite Hbuf, app_assoc. apply take_app_length'.
    rewrite length_app, Htk, length_drop. lia. }
  destruct (Nat.eqb_spec (sha_buf_len s + tk) 64) as [E64|E64]; cbn [mbind option_bind sha_h sha_buf sha_buf_len].
  - assert (drop (64 * S j) (d ++ x) = drop tk x) as Ex.
    { rewrite drop_app_ge by lia. f_equal. lia. }
    destruct (sha_tail (d ++ x) (S j)
      (sha_block (list_inserts (sha_buf_len s) (take tk x) (sha_buf s)) (sha_h s))
      (list_inserts (sha_buf_len s) (take tk x) (sha_buf s))) as (s' & E & A).
    + rewrite length_app. lia.
    + rewrite <- Nat.add_1_r, hash_n_add, hash_n_S. cbn [hash_n].
      rewrite hash_n_app, <- Hh by lia. apply (f_equal (fun y => sha_block y _)).
      rewrite E64, take_ge in Hfill by (rewrite length_inserts; lia). rewrite Hfill.
      rewrite drop_app_le, take_app by lia. rewrite (take_ge (drop _ d)) by (rewrite length_drop; lia).
      f_equal. rewrite length_drop. f_equal. lia.
    + by rewrite length_inserts.
    + rewrite Ex in E. exists s'. split; [exact E|done].
  - assert (drop tk x = []) as -> by (apply drop_ge; lia). cbn [length sha_blocks negb Nat.eqb].
    eexists. split; [done|]. unfold sha_abs. cbn [sha_h sha_buf_len sha_buf sha_total].
    assert (length (d ++ x) / 64 = j /\ length (d ++ x) mod 64 = sha_buf_len s + tk)%nat as [-> ->].
    { rewrite length_app. pose proof (Nat.div_mod_eq (length d + length x) 64).
      pose proof (Nat.mod_upper_bound (length d + length x) 64 ltac:(lia)). lia. }
    split; [by rewrite Hh, hash_n_app by lia|]. split; [done|]. split; [by rewrite length_inserts|].
    split; [|done]. rewrite Hfill, drop_app_le by lia. f_equal. rewrite take_ge by lia. done.
Qed.

Lemma sha_new_abs : sha_abs Sha1_new [].
Proof. repeat split. Qed.

(** Padding stops at the first length that is 56 modulo 64. *)
Lemma sha_pad_abs z fuel s m :
  sha_abs s m -> ((length m + z) mod 64 = 56)%nat -> (z < fuel)%nat -> (z < 64)%nat ->
  exists s', sha_pad fuel s = Some s' /\ sha_abs s' (m ++ replicate z 0).
Proof.
  revert fuel s m. induction z as [|z IH]; intros [|fuel] s m Hs Hz Hf Hz64; try lia; cbn [sha_pad].
  - rewrite Nat.add_0_r in Hz. destruct Hs as (H1 & H2 & H3). rewrite H2, Hz. cbn [Nat.eqb].
    exists s. split; [done|]. rewrite app_nil_r. repeat split; tauto.
  - assert ((sha_buf_len s =? 56)%nat = false) as ->.
    { destruct Hs as (_ & -> & _). apply Nat.eqb_neq. intros H.
      pose proof (Nat.div_mod_eq (length m) 64). pose proof (Nat.div_mod_eq (length m + S z) 64). lia. }
    destruct (sha_update_abs [0] s m Hs) as (s' & E & Hs'). rewrite E. cbn [mbind option_bind].
    destruct (IH fuel s' (m ++ [0]) Hs') as (s'' & E' & Hs''); try lia.
    { rewrite length_app. cbn [length]. rewrite <- Nat.add_assoc. exact Hz. }
    exists s''. split; [done|]. rewrite <- app_assoc in Hs''. exact Hs''.
Qed.

(** The digest bytes, whatever the five words encode to. *)
Lemma digest_bytes (f : nat -> list Z) :
  (forall i, length (f i) = 4%nat) ->
  foldl (fun out i => list_inserts (4 * i) (f i) out) (replicate 20 0) (seq 0 5) =
    f 0%nat ++ f 1%nat ++ f 2%nat ++ f 3%nat ++ f 4%nat.
Proof.
  intros Hf. cbn [seq foldl Nat.mul Nat.add].
  pose proof (Hf 0%nat) as H0. pose proof (Hf 1%nat) as H1. pose proof (Hf 2%nat) as H2.
  pose proof (Hf 3%nat) as H3. pose proof (Hf 4%nat) as H4.
  destruct (f 0%nat) as [|a0 [|a1 [|a2 [|a3 [|]]]]]; try discriminate H0.
  destruct (f 1%nat) as [|b0 [|b1 [|b2 [|b3 [|]]]]]; try discriminate H1.
  destruct (f 2%nat) as [|c0 [|c1 [|c2 [|c3 [|]]]]]; try discriminate H2.
  destruct (f 3%nat) as [|d0 [|d1 [|d2 [|d3 [|]]]]]; try discriminate H3.
  destruct (f 4%nat) as [|e0 [|e1 [|e2 [|e3 [|]]]]]; try discriminate H4.
  reflexivity.
Qed.

Lemma sha_finalize_abs s m : sha_abs s m -> sha_finalize s = Some (sha1_spec m).
Proof.
  intros Hs. unfold sha_finalize.
  assert (sha_total s = as_u64 (Z.of_nat (length m))) as -> by apply Hs.
  destruct (sha_update_abs [0x80] s m Hs) as (s1 & E1 & H1). rewrite E1. cbn [mbind option_bind].
  set (z := ((119 - length m mod 64) mod 64)%nat).
  pose proof (Nat.mod_upper_bound (length m) 64 ltac:(lia)) as Hm.
  pose proof (Nat.mod_upper_bound (119 - length m mod 64) 64 ltac:(lia)) as Hz.
  assert ((length (m ++ [0x80%Z]) + z) mod 64 = 56)%nat as Hpad.
  { rewrite length_app. cbn [length]. unfold z.
    pose proof (Nat.div_mod_eq (length m) 64). pose proof (Nat.div_mod_eq (119 - length m mod 64) 64).
    pose proof (Nat.div_mod_eq (length m + 1 + (119 - length m mod 64) mod 64) 64).
    pose proof (Nat.mod_upper_bound (length m + 1 + (119 - length m mod 64) mod 64) 64 ltac:(lia)). lia. }
  destruct (sha_pad_abs z 65 s1 (m ++ [0x80]) H1 Hpad) as (s2 & E2 & H2); [unfold z; lia..|].
  rewrite E2. cbn [mbind option_bind]. clear E1 E2. f_equal.
  set (p := (m ++ [0x80]) ++ replicate z 0) in *.
  destruct H2 as (Hh & Hbl & Hlb & Hbuf & _).
  assert (length p mod 64 = 56)%nat as Hp by (unfold p; rewrite length_app, length_replicate; exact Hpad).
  set (bits := to_be_bytes64 (as_u64 (as_u64 (Z.of_nat (length m)) * 8))).
  assert (sha1_padded m = p ++ bits) as Hpm by (unfold sha1_padded, p; fold z; by rewrite <- !app_assoc).
  unfold sha1_spec. rewrite Hpm.
  assert (length bits = 8)%nat as Hbits by reflexivity.
  pose proof (Nat.div_mod_eq (length p) 64) as Hdm.
  assert (length (p ++ bits) / 64 = length p / 64 + 1)%nat as ->.
  { rewrite length_app, Hbits. pose proof (Nat.div_mod_eq (length p + 8) 64).
    pose proof (Nat.mod_upper_bound (length p + 8) 64 ltac:(lia)). lia. }
  rewrite hash_n_add, hash_n_S, hash_n_app, <- Hh by lia. cbn [hash_n].
  assert (list_inserts 56 bits (sha_buf s2) = take 64 (drop (64 * (length p / 64)) (p ++ bits))) as <-.
  { rewrite Hbl, Hp in Hbuf. rewrite list_inserts_split by (rewrite Hlb, Hbits; lia).
    rewrite Hbuf, (drop_ge (sha_buf s2)), app_nil_r by (rewrite Hlb, Hbits; lia).
    rewrite drop_app_le by lia. symmetry. apply take_ge.
    rewrite length_app, length_drop, Hbits. lia. }
  rewrite digest_bytes by reflexivity. cbn [mbind list_bind]. by rewrite app_nil_r.
Qed.

(** [update] called on the pieces of a message one after the other. *)
Fixpoint sha_feed (chunks : list (list Z)) (s : Sha1) : option Sha1 :=
  match chunks with
  | [] => Some s
  | c :: chunks => s ← sha_update c s; sha_feed chunks s
  end.

Lemma sha_feed_abs chunks s d :
  sha_abs s d -> exists s', sha_feed chunks s = Some s' /\ sha_abs s' (d ++ concat chunks).
Proof.
  revert s d. induction chunks as [|c chunks IH]; intros s d Hs; cbn [sha_feed concat].
  - exists s. by rewrite app_nil_r.
  - destruct (sha_update_abs c s d Hs) as (s' & -> & Hs'). cbn [mbind option_bind].
    destruct (IH s' _ Hs') as (s'' & -> & H). exists s''. split; [done|]. by rewrite app_assoc.
Qed.

(** hashing a message in pieces of any sizes with [Sha1::new], [update] and
    [finalize] never panics and gives the FIPS 180 digest of the whole message:
    pad with 0x80, zeros and the 64-bit bit length, compress block by block. *)
Theorem sha1_streaming (chunks : list (list Z)) :
  (s ← sha_feed chunks Sha1_new; sha_finalize s) = Some (sha1_spec (concat chunks)).
Proof.
  destruct (sha_feed_abs chunks Sha1_new [] sha_new_abs) as (s & -> & Hs).
  cbn [mbind option_bind]. exact (sha_finalize_abs _ _ Hs).
Qed.
