(* ===== verification/Base64.v ===== *)
(** * Base64: the encoder of ws.rs and the decoder of fw_upg.rs agree *)
From S2P Require Import Prelude Bytes FwUpg Ws.

(** The text of [src] without the padding, and the padding. *)
Definition b64_enc (src : list Z) : list Z := chunks3 src ≫= b64_chars.

Definition b64_digit (i : Z) : Z := B64 !!! Z.to_nat i.

Lemma b64_digit_val i : 0 <= i < 64 -> b64_val (b64_digit i) = Some i /\ b64_digit i <> 61.
Proof.
  intros Hi.
  assert (H : forallZ 0 64 (fun i => bool_decide (b64_val (b64_digit i) = Some i) && negb (b64_digit i =? 61)) = true)
    by (vm_compute; reflexivity).
  pose proof (forallZ_spec _ _ _ H i ltac:(lia)) as Hf. cbv beta in Hf.
  apply andb_true_iff in Hf as [H1 H2]. apply bool_decide_eq_true in H1. blia || (split; [done|]; zbool; done).
Qed.

Lemma foldl_b64_put cs dst n :
  (n + length cs <= length dst)%nat ->
  foldl b64_put (dst, n) cs = (list_inserts n cs dst, (n + length cs)%nat).
Proof.
  revert dst n. induction cs as [|c cs IH]; intros dst n H; cbn [foldl length] in *.
  - by rewrite Nat.add_0_r.
  - unfold b64_put at 2. destruct (Nat.ltb_spec n (length dst)); [|lia].
    rewrite IH by (rewrite length_insert; lia). f_equal; [|lia].
    cbn [list_inserts]. rewrite list_insert_inserts_lt by lia. done.
Qed.

Lemma b64_chars_length c : length (b64_chars c) = 4%nat.
Proof.
  unfold b64_chars. destruct c as [|? [|? [|? ?]]]; reflexivity.
Qed.

Lemma b64_encode_go chunks dst n :
  (n + 4 * length chunks <= length dst)%nat ->
  foldl (fun st chunk => foldl b64_put st (b64_chars chunk)) (dst, n) chunks =
    (list_inserts n (chunks ≫= b64_chars) dst, (n + 4 * length chunks)%nat).
Proof.
  revert dst n. induction chunks as [|c chunks IH]; intros dst n H.
  - cbn. by rewrite Nat.add_0_r.
  - cbn [foldl length] in *. pose proof (b64_chars_length c) as Hc.
    rewrite foldl_b64_put by lia. rewrite IH by (rewrite length_inserts; lia).
    f_equal; [|lia]. cbn [mbind list_bind]. rewrite list_inserts_app_l.
    rewrite Hc. by rewrite (Nat.add_comm 4 n).
Qed.

Lemma chunks3_length src : (length src <= 3 * length (chunks3 src))%nat /\
  (3 * length (chunks3 src) <= length src + 2)%nat.
Proof.
  induction src as [src IH] using (well_founded_induction (well_founded_ltof _ length)).
  destruct src as [|a [|b [|c r]]]; cbn [chunks3 length]; try lia.
  specialize (IH r). unfold ltof in IH. cbn [length] in IH. lia.
Qed.

Lemma b64_encode_enc src dst :
  (4 * length (chunks3 src) <= length dst)%nat ->
  b64_encode src dst = (list_inserts 0 (b64_enc src) dst, (4 * length (chunks3 src))%nat).
Proof. intros H. unfold b64_encode. by rewrite b64_encode_go by lia. Qed.

(** ** The decoding accumulator *)

Lemma acc_step acc v :
  0 <= v < 64 -> Z.lor (as_u32 (Z.shiftl acc 6)) v = (acc * 64 + v) mod 2 ^ 32.
Proof.
  intros Hv. rewrite Z.shiftl_mul_pow2 by lia. change (2 ^ 6) with 64. unfold as_u32.
  assert (acc * 64 mod 4294967296 = Z.shiftl (acc mod 67108864) 6) as ->.
  { rewrite Z.shiftl_mul_pow2 by lia. change (2 ^ 6) with 64. zdm. }
  rewrite lor_shiftl_add by (simpl; lia). change (2 ^ 6) with 64. change (2 ^ 32) with 4294967296. zdm.
Qed.

(** One character: it shifts six bits in and, when eight are there, writes a byte. *)
Lemma b64_loop_digit v data acc nbits o out :
  0 <= v < 64 ->
  b64_loop (b64_digit v :: data) acc nbits o out =
    (let acc := (acc * 64 + v) mod 2 ^ 32 in
     if 8 <=? nbits + 6 then
       if (length out <=? o)%nat then Some (None, out) else
       b64_loop data acc (nbits - 2) (o + 1) (<[o := as_u8 (Z.shiftr acc (nbits - 2))]> out)
     else b64_loop data acc (nbits + 6) o out).
Proof.
  intros Hv. cbn [b64_loop]. destruct (b64_digit_val v Hv) as [-> _].
  rewrite acc_step by done. cbv zeta.
  destruct (Z.leb_spec 8 (nbits + 6)); [|done].
  destruct (Nat.leb_spec (length out) o); [done|].
  rewrite upd_ok by lia. cbn [mbind option_bind].
  by replace (nbits + 6 - 8) with (nbits - 2) by lia.
Qed.

Lemma b64_word a b c :
  is_u8 a -> is_u8 b -> is_u8 c ->
  Z.lor (Z.lor (Z.shiftl a 16) (Z.shiftl b 8)) c = a * 65536 + b * 256 + c.
Proof.
  unfold is_u8. intros Ha Hb Hc.
  replace (Z.shiftl a 16) with (Z.shiftl (Z.shiftl a 8) 8) by (by rewrite Z.shiftl_shiftl).
  rewrite <- Z.shiftl_lor, !(lor_shiftl_add _ _ 8) by (simpl; lia). lia.
Qed.

Definition b64_quad (a b c : Z) : list Z :=
  [b64_digit (a / 4); b64_digit (a mod 4 * 16 + b / 16); b64_digit (b mod 16 * 4 + c / 64);
   b64_digit (c mod 64)].

Lemma b64_indices a b c :
  is_u8 a -> is_u8 b -> is_u8 c ->
  let v := Z.lor (Z.lor (Z.shiftl a 16) (Z.shiftl b 8)) c in
  Z.land (Z.shiftr v 18) 63 = a / 4 /\ Z.land (Z.shiftr v 12) 63 = a mod 4 * 16 + b / 16 /\
  Z.land (Z.shiftr v 6) 63 = b mod 16 * 4 + c / 64 /\ Z.land v 63 = c mod 64.
Proof.
  intros Ha Hb Hc v. unfold v. rewrite b64_word by done. unfold is_u8 in *.
  change 63 with (Z.ones 6). rewrite !Z.land_ones, !Z.shiftr_div_pow2 by lia.
  change (2 ^ 6) with 64. change (2 ^ 12) with 4096. change (2 ^ 18) with 262144.
  repeat split; zdm.
Qed.

Lemma b64_chars_quad a b c :
  is_u8 a -> is_u8 b -> is_u8 c ->
  b64_chars [a; b; c] = b64_quad a b c /\
  b64_chars [a; b] = take 3 (b64_quad a b 0) ++ [61] /\
  b64_chars [a] = take 2 (b64_quad a 0 0) ++ [61; 61].
Proof.
  intros Ha Hb Hc.
  assert (H0 : is_u8 0) by (unfold is_u8; lia).
  unfold b64_chars, b64_quad. cbn [length lookup_total list_lookup_total lookup list_lookup default from_option id].
  destruct (b64_indices a b c Ha Hb Hc) as (-> & -> & -> & ->).
  destruct (b64_indices a b 0 Ha Hb H0) as (-> & -> & -> & ->).
  destruct (b64_indices a 0 0 Ha H0 H0) as (-> & -> & -> & ->).
  repeat split; reflexivity.
Qed.

Lemma insert_snoc (p r : list Z) x o :
  o = length p -> (0 < length r)%nat -> <[o := x]> (p ++ r) = (p ++ [x]) ++ drop 1 r.
Proof.
  intros -> Hr. destruct r as [|y r]; [simpl in Hr; lia|].
  rewrite insert_app_r_alt by lia. rewrite Nat.sub_diag. simpl. by rewrite <- app_assoc.
Qed.

(** The byte written after a digit. *)
Lemma emit_byte acc k : 0 <= k <= 24 -> as_u8 (Z.shiftr (acc mod 2 ^ 32) k) = acc / 2 ^ k mod 256.
Proof.
  intros Hk. rewrite Z.shiftr_div_pow2 by lia. unfold as_u8.
  change 256 with (2 ^ 8). rewrite <- !land_ones_mod, <- !Z.shiftr_div_pow2 by lia.
  apply Z.bits_inj'. intros i Hi. rewrite !Z.land_spec.
  destruct (decide (i < 8)).
  - rewrite !Z.shiftr_spec, Z.land_spec by lia. rewrite (Z.ones_spec_low 32) by lia.
    by rewrite andb_true_r.
  - rewrite Z.ones_spec_high by lia. by rewrite !andb_false_r.
Qed.

Lemma acc_mod X v : (X mod 2 ^ 32 * 64 + v) mod 2 ^ 32 = (X * 64 + v) mod 2 ^ 32.
Proof. change (2 ^ 32) with 4294967296. zdm. Qed.

(** The first digit of a group, and the three that complete a byte. *)
Lemma digit_skip X v data o out :
  0 <= v < 64 ->
  b64_loop (b64_digit v :: data) (X mod 2 ^ 32) 0 o out = b64_loop data ((X * 64 + v) mod 2 ^ 32) 6 o out.
Proof. intros Hv. rewrite b64_loop_digit by done. cbv zeta. by rewrite acc_mod. Qed.

Lemma digit_emit X v data nbits p r y :
  0 <= v < 64 -> 2 <= nbits <= 6 -> (0 < length r)%nat -> y = (X * 64 + v) / 2 ^ (nbits - 2) mod 256 ->
  b64_loop (b64_digit v :: data) (X mod 2 ^ 32) nbits (length p) (p ++ r) =
    b64_loop data ((X * 64 + v) mod 2 ^ 32) (nbits - 2) (length (p ++ [y])) ((p ++ [y]) ++ drop 1 r).
Proof.
  intros Hv Hn Hr ->. rewrite b64_loop_digit by done. cbv zeta. rewrite acc_mod.
  destruct (Z.leb_spec 8 (nbits + 6)); [|lia].
  rewrite !length_app. destruct (Nat.leb_spec (length p + length r) (length p)); [lia|].
  rewrite emit_byte by lia. by rewrite insert_snoc.
Qed.

(** The digits of [src], and the number of padding characters. *)
Fixpoint b64_data (src : list Z) : list Z :=
  match src with
  | a :: b :: c :: src => b64_quad a b c ++ b64_data src
  | [a; b] => take 3 (b64_quad a b 0)
  | [a] => take 2 (b64_quad a 0 0)
  | [] => []
  end.

Definition b64_pads (src : list Z) : nat := ((3 - length src mod 3) mod 3)%nat.

(** Induction three elements at a time. *)
Lemma list_ind3 (P : list Z -> Prop) :
  P [] -> (forall a, P [a]) -> (forall a b, P [a; b]) ->
  (forall a b c r, P r -> P (a :: b :: c :: r)) -> forall l, P l.
Proof.
  intros H0 H1 H2 H3. fix IH 1. intros [|a [|b [|c r]]]; [exact H0|apply H1|apply H2|apply H3, IH].
Qed.

Lemma b64_enc_split src :
  bytes_ok src -> b64_enc src = b64_data src ++ replicate (b64_pads src) 61 /\ (b64_pads src <= 2)%nat.
Proof.
  assert (H0 : is_u8 0) by (unfold is_u8; lia).
  induction src as [|a|a b|a b c r IH] using list_ind3; intros Hs; bytes_inv.
  - split; [done|]. unfold b64_pads. cbn. lia.
  - unfold b64_enc. cbn [chunks3 mbind list_bind]. rewrite app_nil_r.
    destruct (b64_chars_quad a 0 0) as (_ & _ & ->); auto.
  - unfold b64_enc. cbn [chunks3 mbind list_bind]. rewrite app_nil_r.
    destruct (b64_chars_quad a b 0) as (_ & -> & _); auto.
  - destruct (IH Hs) as [E Hp].
    assert (b64_pads (a :: b :: c :: r) = b64_pads r) as ->.
    { unfold b64_pads. f_equal. cbn [length]. f_equal.
      replace (S (S (S (length r)))) with (length r + 1 * 3)%nat by lia. by rewrite Nat.Div0.mod_add. }
    split; [|done]. unfold b64_enc in *. cbn [chunks3 mbind list_bind b64_data].
    destruct (b64_chars_quad a b c) as (-> & _); auto. rewrite <- app_assoc. by f_equal.
Qed.

Lemma b64_data_digits src : bytes_ok src -> Forall (fun c => (c =? 61) = false) (b64_data src).
Proof.
  assert (Hd : forall i, 0 <= i < 64 -> (b64_digit i =? 61) = false)
    by (intros i Hi; apply Z.eqb_neq; by apply b64_digit_val).
  induction src as [|a|a b|a b c r IH] using list_ind3; intros Hs; bytes_inv;
    unfold is_u8 in *; cbn [b64_data b64_quad take app]; [constructor| | |].
  1-2: repeat constructor; apply Hd; zdm.
  repeat (apply Forall_cons_2; [apply Hd; zdm|]). by apply IH.
Qed.

Lemma b64_loop_enc src X p r :
  bytes_ok src -> (length src <= length r)%nat ->
  b64_loop (b64_data src) (X mod 2 ^ 32) 0 (length p) (p ++ r) =
    Some (Some (length p + length src)%nat, p ++ src ++ drop (length src) r).
Proof.
  assert (H0 : is_u8 0) by (unfold is_u8; lia).
  revert X p r. induction src as [|a|a b|a b c s IH] using list_ind3; intros X p r Hs Hr; bytes_inv;
    unfold is_u8 in *; cbn [b64_data b64_quad take app length] in *.
  - cbn. by rewrite Nat.add_0_r.
  - rewrite digit_skip by zdm. rewrite (digit_emit _ _ _ _ _ _ a) by (zdm || (change (2 ^ (6 - 2)) with 16; zdm)).
    cbn [b64_loop]. rewrite length_app, <- app_assoc. done.
  - rewrite digit_skip by zdm. rewrite (digit_emit _ _ _ _ _ _ a) by (zdm || (change (2 ^ (6 - 2)) with 16; zdm)).
    rewrite (digit_emit _ _ _ _ _ _ b) by
      (zdm || (rewrite length_drop; lia) || (change (2 ^ (6 - 2 - 2)) with 4; zdm)).
    cbn [b64_loop]. rewrite !length_app, <- !app_assoc, drop_drop. cbn [length app].
    by rewrite <- Nat.add_assoc.
  - rewrite digit_skip by zdm. rewrite (digit_emit _ _ _ _ _ _ a) by (zdm || (change (2 ^ (6 - 2)) with 16; zdm)).
    rewrite (digit_emit _ _ _ _ _ _ b) by
      (zdm || (rewrite length_drop; lia) || (change (2 ^ (6 - 2 - 2)) with 4; zdm)).
    rewrite (digit_emit _ _ _ _ _ _ c) by
      (zdm || (rewrite !length_drop; lia) || (change (2 ^ (6 - 2 - 2 - 2)) with 1; zdm)).
    change (6 - 2 - 2 - 2) with 0. rewrite IH by (rewrite ?length_drop; (done || lia)).
    rewrite !length_app, <- !app_assoc, !drop_drop. cbn [length app]. do 3 f_equal. lia.
Qed.

Lemma b64_enc_length src : length (b64_enc src) = (4 * length (chunks3 src))%nat.
Proof.
  unfold b64_enc. induction (chunks3 src) as [|c l IH]; [done|].
  rewrite bind_cons, length_app, b64_chars_length, IH. cbn [length]. lia.
Qed.

(** The first '=' is where the padding starts. *)
Lemma position_eq_sign data r :
  Forall (fun c => (c =? 61) = false) data ->
  position (fun c => c =? 61) (data ++ 61 :: r) = Some (length data).
Proof.
  induction 1 as [|c l Hc Hd IH]; cbn [position app length]; [done|].
  by rewrite Hc, IH.
Qed.

Lemma position_pads data k :
  Forall (fun c => (c =? 61) = false) data ->
  default (length (data ++ replicate k 61)) (position (fun c => c =? 61) (data ++ replicate k 61)) = length data.
Proof.
  intros Hd. destruct k as [|k].
  - rewrite app_nil_r. by rewrite (proj2 (position_None _ _)).
  - cbn [replicate]. by rewrite position_eq_sign.
Qed.

(** what the encoder of ws.rs writes, the decoder of fw_upg.rs reads: into
    buffers with room, encoding any bytes and decoding the text gives the same
    bytes and their count, and neither panics nor reports an error. *)
Theorem b64_roundtrip (src dst out : list Z) :
  bytes_ok src -> length dst = (4 * length (chunks3 src))%nat -> (length src <= length out)%nat ->
  let '(txt, n) := b64_encode src dst in
  n = length txt /\ b64_decode txt out = Some (Some (length src), src ++ drop (length src) out).
Proof.
  intros Hs Hd Ho. rewrite b64_encode_enc by lia.
  pose proof (b64_enc_length src) as Hl. destruct (b64_enc_split src Hs) as [E Hp].
  split; [rewrite length_inserts; lia|].
  rewrite list_inserts_split by lia. rewrite take_0, app_nil_l. rewrite (drop_ge dst), app_nil_r by (cbn; lia). unfold b64_decode.
  assert (length (b64_enc src) mod 4 = 0)%nat as Hm
    by (rewrite Hl, Nat.mul_comm; apply Nat.Div0.mod_mul).
  rewrite Hm, E, position_pads by (by apply b64_data_digits).
  rewrite length_app, length_replicate.
  replace (length (b64_data src) + b64_pads src - length (b64_data src))%nat with (b64_pads src) by lia.
  destruct (Nat.ltb_spec 2 (b64_pads src)); [lia|]. cbn [Nat.eqb negb orb].
  rewrite slice_ok by (rewrite ?length_app; lia). cbn [mbind option_bind].
  rewrite drop_0, Nat.sub_0_r, take_app_length.
  exact (b64_loop_enc src 0 [] out Hs Ho).
Qed.

Lemma b64_roundtrip_witness :
  bytes_ok [1; 2; 255; 3] /\
  let '(txt, n) := b64_encode [1; 2; 255; 3] (replicate 8 0) in
  n = length txt /\ b64_decode txt [9; 9; 9; 9; 9] = Some (Some 4%nat, [1; 2; 255; 3; 9]).
Proof.
  assert (bytes_ok [1; 2; 255; 3]) by (repeat (apply bytes_ok_cons; [unfold is_u8; lia|]); constructor).
  split; [done|].
  exact (b64_roundtrip [1; 2; 255; 3] (replicate 8 0) [9; 9; 9; 9; 9] H eq_refl ltac:(simpl; lia)).
Defined.

(** [b64_decode] stops at the first '=': the character after it is not
    looked at, so a text with any character in the last place of the padding is
    decoded like the well-formed one. *)
Theorem b64_junk_padding (data out : list Z) (c : Z) :
  Forall (fun c => (c =? 61) = false) data ->
  b64_decode (data ++ [61; c]) out = b64_decode (data ++ [61; 61]) out.
Proof.
  intros Hd. unfold b64_decode. rewrite !position_eq_sign, !length_app by done.
  cbn [length default from_option]; unfold id. rewrite !slice_ok by (rewrite ?length_app; cbn [length]; lia).
  by rewrite !drop_0, !Nat.sub_0_r, !take_app_length.
Qed.

Lemma b64_junk_padding_witness :
  Forall (fun c => (c =? 61) = false) (bs "QQ") /\
  b64_decode (bs "QQ=!") [0] = b64_decode (bs "QQ==") [0] /\
  b64_decode (bs "QQ=!") [0] = Some (Some 1%nat, [65]).
Proof.
  assert (Forall (fun c => (c =? 61) = false) (bs "QQ")) by (repeat constructor).
  split; [done|]. split; [|vm_compute; reflexivity].
  exact (b64_junk_padding (bs "QQ") [0] 33 H).
Defined.
