(* ===== verification/WsFrames.v ===== *)
(** * WebSocket frames: what the parser of ws.rs accepts *)
From S2P Require Import Prelude Bytes Ws.

Lemma PAYLOAD_MAX_Z : Z.of_nat PAYLOAD_MAX = 10256.
Proof. reflexivity. Qed.
#[local] Opaque PAYLOAD_MAX.

Lemma PAYLOAD_MAX_big : (128 <= PAYLOAD_MAX)%nat /\ Z.of_nat PAYLOAD_MAX < 65536.
Proof. pose proof PAYLOAD_MAX_Z. lia. Qed.

(** Array sizes, and the room left in [hdr]. *)
Record ws_wf (p : WsParser) : Prop := {
  wf_hdr : length (hdr p) = 10%nat;
  wf_mask : length (mask p) = 4%nat;
  wf_payload : length (payload p) = PAYLOAD_MAX;
  wf_got : (hdr_got p < match ws_state p with Header | Len16 => 2 | Len64 => 8 | Mask => 4 | Payload => 10 end)%nat }.

Definition idle (p : WsParser) : Prop := ws_wf p /\ ws_state p = Header /\ hdr_got p = 0%nat.

Lemma new_idle : idle WsParser_new.
Proof. split; [split; [done|done|apply length_replicate|cbn; lia]|done]. Qed.

(** The record updates of the parser. *)
Definition to_header (p : WsParser) : WsParser :=
  mkWsParser Header (hdr p) 0 (fin p) (opcode p) (masked p) (mask p) (plen p) (got p) (payload p).
Definition with_payload (p : WsParser) (g : nat) (pay : list Z) : WsParser :=
  mkWsParser Payload (hdr p) (hdr_got p) (fin p) (opcode p) (masked p) (mask p) (plen p) g pay.

Section Frames.
Context {E : Type} (W : Z) (event : WsParser -> FeedEvent -> E -> WsParser * E).
Abbreviation feed := (ws_feed W event).
Abbreviation feed_1 := (feed1 W event).

Lemma feed_cons b data p e :
  feed (b :: data) p e = ('(ok, p, e) ← feed_1 b p e; if ok : bool then feed data p e else Some (false, p, e)).
Proof. reflexivity. Qed.

Lemma feed_cons_ok b data p e p' e' :
  feed_1 b p e = Some (true, p', e') -> feed (b :: data) p e = feed data p' e'.
Proof. intros H. by rewrite feed_cons, H. Qed.

(** Bytes arrive in any chunks. *)
Lemma feed_app a b p e :
  feed (a ++ b) p e = ('(ok, p, e) ← feed a p e; if ok : bool then feed b p e else Some (false, p, e)).
Proof.
  revert p e. induction a as [|x a IH]; intros p e; [done|].
  rewrite <- app_comm_cons, !feed_cons. destruct (feed_1 x p e) as [[[[|] p'] e']|]; cbn; auto.
Qed.

(** ** Payload bytes *)

Definition unmask_byte (m : bool) (key : list Z) (i : nat) (b : Z) : Z :=
  if m then Z.lxor b (key !!! (i mod 4)%nat) else b.

Fixpoint unmask (m : bool) (key : list Z) (i : nat) (ds : list Z) : list Z :=
  match ds with [] => [] | b :: ds => unmask_byte m key i b :: unmask m key (S i) ds end.

Lemma unmask_length m key i ds : length (unmask m key i ds) = length ds.
Proof. revert i. induction ds; intros; cbn; auto. Qed.

Lemma unmask_snoc m key i ds b :
  unmask m key i ds ++ [unmask_byte m key (i + length ds) b] = unmask m key i (ds ++ [b]).
Proof.
  revert i. induction ds as [|x ds IH]; intros i; cbn [unmask app length].
  - by rewrite Nat.add_0_r.
  - f_equal. rewrite <- IH. do 3 f_equal. lia.
Qed.

Lemma feed1_payload b p e :
  ws_wf p -> ws_state p = Payload -> (got p < PAYLOAD_MAX)%nat ->
  let p1 := with_payload p (S (got p)) (<[got p := unmask_byte (masked p) (mask p) (got p) b]> (payload p)) in
  feed_1 b p e =
    if (S (got p) =? plen p)%nat then
      let '(p2, e2) := event p1 (Frame (fin p) (opcode p) (S (got p))) e in Some (true, to_header p2, e2)
    else Some (true, p1, e).
Proof.
  intros Hp Hs Hg p1. unfold feed1. rewrite Hs.
  destruct (Nat.leb_spec PAYLOAD_MAX (got p)); [lia|].
  rewrite upd_ok by (rewrite (wf_payload p Hp); lia). cbn [mbind option_bind].
  rewrite Nat.add_1_r. cbn [plen fin opcode]. fold (unmask_byte (masked p) (mask p) (got p) b).
  destruct (Nat.eqb_spec (S (got p)) (plen p)); [|done].
  unfold p1, with_payload. destruct (event _ _ e). done.
Qed.

Lemma with_payload_wf p g pay :
  ws_wf p -> ws_state p = Payload -> length pay = PAYLOAD_MAX -> ws_wf (with_payload p g pay).
Proof. intros [? ? ? Hg] Hs Hl. rewrite Hs in Hg. by split. Qed.

(** Bytes before the last one are stored and nothing is reported. *)
Lemma feed_payload_run ds rest p e :
  ws_wf p -> ws_state p = Payload ->
  (got p + length ds < plen p)%nat \/ (plen p <= got p)%nat -> (got p + length ds <= PAYLOAD_MAX)%nat ->
  feed (ds ++ rest) p e =
    feed rest (with_payload p (got p + length ds) (list_inserts (got p) (unmask (masked p) (mask p) (got p) ds) (payload p))) e.
Proof.
  revert p. induction ds as [|b ds IH]; intros p Hp Hs Hn Hm.
  - cbn [length app unmask list_inserts]. rewrite Nat.add_0_r.
    f_equal. destruct p; cbn in Hs; by subst.
  - cbn [length] in *. rewrite <- app_comm_cons.
    pose proof (feed1_payload b p e Hp Hs ltac:(lia)) as H1. cbv zeta in H1.
    destruct (Nat.eqb_spec (S (got p)) (plen p)); [lia|].
    rewrite (feed_cons_ok _ _ _ _ _ _ H1), IH.
    + f_equal. unfold with_payload. cbn. f_equal; [lia|].
      rewrite list_insert_inserts_lt by lia. reflexivity.
    + apply with_payload_wf; [done..|]. rewrite length_insert. apply Hp.
    + done.
    + cbn. lia.
    + cbn. lia.
Qed.

(** A whole payload: one report, with the unmasked bytes in [payload]. *)
Lemma feed_payload ds rest p e :
  ws_wf p -> ws_state p = Payload -> got p = 0%nat -> plen p = length ds ->
  (0 < length ds <= PAYLOAD_MAX)%nat ->
  exists p1, feed (ds ++ rest) p e =
      (let '(p2, e2) := event p1 (Frame (fin p) (opcode p) (length ds)) e in feed rest (to_header p2) e2) /\
    take (length ds) (payload p1) = unmask (masked p) (mask p) 0 ds /\ ws_wf p1 /\ fin p1 = fin p /\ opcode p1 = opcode p.
Proof.
  intros Hp Hs Hg Hn [Hpos Hmax].
  destruct (exists_last (l := ds)) as (ds' & b & ->); [by destruct ds; [simpl in Hpos; lia|]|].
  rewrite length_app in *. cbn [length] in *. rewrite Nat.add_1_r in *. rewrite <- app_assoc.
  rewrite feed_payload_run by (done || lia). rewrite Hg. cbn [Nat.add app].
  set (p1 := with_payload p _ _).
  assert (Hp1 : ws_wf p1) by (apply with_payload_wf; [done..|rewrite length_inserts; apply Hp]).
  pose proof (feed1_payload b p1 e Hp1 eq_refl ltac:(cbn; lia)) as H1. cbv zeta in H1.
  change (got p1) with (length ds') in H1. change (plen p1) with (plen p) in H1.
  change (fin p1) with (fin p) in H1. change (opcode p1) with (opcode p) in H1.
  rewrite Hn, Nat.eqb_refl in H1.
  match type of H1 with _ = (let '(_, _) := event ?p2 _ _ in _) => exists p2 end.
  split; [|split; [|split; [|done]]].
  - rewrite feed_cons, H1. by destruct (event _ _ e).
  - unfold p1. cbn [payload with_payload masked mask got].
    rewrite <- (unmask_snoc (masked p) (mask p) 0 ds' b).
    assert (length (unmask (masked p) (mask p) 0 ds') = length ds') as Hu by apply unmask_length.
    rewrite list_inserts_split by (rewrite Hu, (wf_payload p Hp); lia). rewrite take_0, app_nil_l.
    rewrite insert_app_r_alt by lia. rewrite Hu, Nat.sub_diag.
    assert (length (drop (0 + length ds') (payload p)) = PAYLOAD_MAX - length ds')%nat as Hd
      by (rewrite length_drop, (wf_payload p Hp); lia).
    destruct (drop (0 + length ds') (payload p)) as [|y r]; [cbn in Hd; lia|].
    cbn [insert list_insert]. rewrite (app_assoc _ [_] r : _ ++ _ :: r = _). apply take_app_length'.
    rewrite length_app, Hu. cbn. lia.
  - apply with_payload_wf; [done..|]. rewrite length_insert. apply Hp1.
Qed.

(** ** Headers *)

(** The parser after a complete header, at the mask or at the payload. *)
Definition headed (p : WsParser) (st : WsFeed) (h : list Z) (f : bool) (op : Z) (m : bool) (n : nat) : WsParser :=
  mkWsParser st h 0 f op m (mask p) n 0 (payload p).

Lemma idle_start p : idle p -> ws_state p = Header /\ hdr_got p = 0%nat /\ length (hdr p) = 10%nat /\
  length (mask p) = 4%nat /\ length (payload p) = PAYLOAD_MAX.
Proof. by intros [[? ? ? ?] [? ?]]. Qed.

(** The first byte and the mask bit of the second, as the protocol lays them out. *)
Definition byte0 (f : bool) (op : Z) : Z := (if f then 0x80 else 0) + op.
Definition byte1 (m : bool) (n : Z) : Z := (if m then 0x80 else 0) + n.

Lemma byte0_bits f op : 0 <= op < 16 -> negb (Z.land (byte0 f op) 0x80 =? 0) = f /\ Z.land (byte0 f op) 0x0F = op.
Proof.
  intros Hop.
  assert (H : forallZ 0 16 (fun op => Bool.eqb (negb (Z.land (byte0 true op) 0x80 =? 0)) true &&
     Bool.eqb (negb (Z.land (byte0 false op) 0x80 =? 0)) false &&
     (Z.land (byte0 true op) 0x0F =? op) && (Z.land (byte0 false op) 0x0F =? op)) = true) by (vm_compute; reflexivity).
  pose proof (forallZ_spec _ _ _ H op ltac:(lia)) as Hf. cbv beta in Hf. zbool.
  destruct f; split; first [by apply Bool.eqb_prop | done].
Qed.

Lemma byte1_bits m n : 0 <= n < 128 -> negb (Z.land (byte1 m n) 0x80 =? 0) = m /\ Z.land (byte1 m n) 0x7F = n.
Proof.
  intros Hop.
  assert (H : forallZ 0 128 (fun op => Bool.eqb (negb (Z.land (byte1 true op) 0x80 =? 0)) true &&
     Bool.eqb (negb (Z.land (byte1 false op) 0x80 =? 0)) false &&
     (Z.land (byte1 true op) 0x7F =? op) && (Z.land (byte1 false op) 0x7F =? op)) = true) by (vm_compute; reflexivity).
  pose proof (forallZ_spec _ _ _ H n ltac:(lia)) as Hf. cbv beta in Hf. zbool.
  destruct m; split; first [by apply Bool.eqb_prop | done].
Qed.

(** Two bytes lead to the state the 7-bit length selects. *)
Lemma feed_two f op m n rest p e :
  idle p -> 0 <= op < 16 -> 0 <= n < 128 ->
  exists h, length h = 10%nat /\
  feed (byte0 f op :: byte1 m n :: rest) p e =
    feed rest (headed p
      (if n =? 126 then Len16 else if n =? 127 then Len64 else if m then Mask else Payload) h f op m (Z.to_nat n)) e.
Proof.
  intros (Hs & Hg & Hh & Hm & Hp)%idle_start Hop Hn.
  destruct (byte0_bits f op Hop) as [H1 H2]. destruct (byte1_bits m n Hn) as [H3 H4].
  exists (<[1%nat := byte1 m n]> (<[0%nat := byte0 f op]> (hdr p))).
  split; [by rewrite !length_insert|].
  rewrite feed_cons. unfold feed1 at 1. rewrite Hs, Hg, upd_ok by lia. cbn [mbind option_bind].
  change (0 + 1 <? 2)%nat with true. cbn [mbind option_bind Nat.add].
  rewrite feed_cons. unfold feed1 at 1. cbn [ws_state hdr hdr_got].
  rewrite upd_ok by (rewrite length_insert; lia). cbn [mbind option_bind].
  change (1 + 1 <? 2)%nat with false. cbv zeta.
  destruct (hdr p) as [|x0 [|x1 r]]; [discriminate Hh..|].
  cbn [insert list_insert lookup_total list_lookup_total].
  rewrite H1, H2, H3, H4. cbn [mask payload].
  assert (Hk : forall k, (Z.to_nat n =? k)%nat = (n =? Z.of_nat k)).
  { intros k. destruct (Nat.eqb_spec (Z.to_nat n) k), (Z.eqb_spec n (Z.of_nat k)); done || lia. }
  rewrite (Hk 126%nat), (Hk 127%nat). change (Z.of_nat 126) with 126. change (Z.of_nat 127) with 127.
  unfold headed. destruct (n =? 126); [done|]. destruct (n =? 127); [done|].
  destruct (Nat.ltb_spec PAYLOAD_MAX (Z.to_nat n)) as [Hlt|_].
  { exfalso. pose proof PAYLOAD_MAX_big. lia. }
  by destruct m.
Qed.

Lemma headed_wf p st h f op m n :
  idle p -> length h = 10%nat -> ws_wf (headed p st h f op m n).
Proof. intros (?&?&?&?&?)%idle_start Hl. split; [done..|destruct st; cbn; lia]. Qed.

Lemma feed_len16 p h f op m n0 n rest e :
  idle p -> length h = 10%nat -> 0 <= n <= 10256 ->
  exists h', length h' = 10%nat /\
  feed (to_be_bytes16 n ++ rest) (headed p Len16 h f op m n0) e =
    feed rest (headed p (if m then Mask else Payload) h' f op m (Z.to_nat n)) e.
Proof.
  intros Hi Hh Hn. exists (<[1%nat := n mod 256]> (<[0%nat := n / 256 mod 256]> h)).
  split; [by rewrite !length_insert|].
  unfold to_be_bytes16. cbn [app]. rewrite feed_cons. unfold feed1 at 1. unfold headed at 1.
  cbn [ws_state hdr hdr_got fin opcode masked mask plen got payload headed].
  rewrite upd_ok by lia. cbn [mbind option_bind Nat.add Nat.eqb].
  rewrite feed_cons. unfold feed1 at 1. cbn [ws_state hdr hdr_got fin opcode masked mask plen got payload].
  rewrite upd_ok by (rewrite length_insert; lia). cbn [mbind option_bind Nat.add Nat.eqb].
  destruct h as [|x0 [|x1 r]]; [discriminate Hh..|].
  cbn [insert list_insert lookup_total list_lookup_total].
  assert (Z.lor (Z.shiftl (n / 256 mod 256) 8) (n mod 256) = n) as ->
    by (rewrite lor_shiftl_add by (simpl; zdm); simpl; zdm).
  destruct (Nat.ltb_spec PAYLOAD_MAX (Z.to_nat n)); [pose proof PAYLOAD_MAX_Z; lia|].
  cbn [mbind option_bind]. unfold after_len, headed. by destruct m.
Qed.

Lemma feed_mask p h f op n k0 k1 k2 k3 rest e :
  idle p ->
  feed (k0 :: k1 :: k2 :: k3 :: rest) (headed p Mask h f op true n) e =
    feed rest (mkWsParser Payload h 0 f op true [k0; k1; k2; k3] n 0 (payload p)) e.
Proof.
  intros (_ & _ & _ & Hm & _)%idle_start.
  destruct (mask p) as [|m0 [|m1 [|m2 [|m3 [|]]]]] eqn:Em; try discriminate Hm. clear Hm.
  unfold headed. rewrite Em. reflexivity.
Qed.

(** ** Client frames *)

(** A client frame with a minimal length field.  Masking is its own inverse. *)
Definition frame_len (n : nat) : Z := if (n <? 126)%nat then Z.of_nat n else 126.
Definition client_frame (f : bool) (op : Z) (key : option (Z * Z * Z * Z)) (ds : list Z) : list Z :=
  let n := length ds in
  [byte0 f op; byte1 (bool_decide (is_Some key)) (frame_len n)] ++
  (if (n <? 126)%nat then [] else to_be_bytes16 (Z.of_nat n)) ++
  match key with
  | Some (k0, k1, k2, k3) => [k0; k1; k2; k3] ++ unmask true [k0; k1; k2; k3] 0 ds
  | None => ds
  end.

Lemma unmask_twice m key i ds : unmask m key i (unmask m key i ds) = ds.
Proof.
  revert i. induction ds as [|d ds IH]; intros i; cbn [unmask]; [done|]. rewrite IH. f_equal.
  unfold unmask_byte. destruct m; [|done]. by rewrite Z.lxor_assoc, Z.lxor_nilpotent, Z.lxor_0_r.
Qed.

Lemma unmask_off key i ds : unmask false key i ds = ds.
Proof. revert i. induction ds; intros; cbn; f_equal; auto. Qed.

Lemma feed_headers f op m n rest p e :
  idle p -> 0 <= op < 16 -> (n <= PAYLOAD_MAX)%nat ->
  exists h, length h = 10%nat /\
  feed ([byte0 f op; byte1 m (frame_len n)] ++ (if (n <? 126)%nat then [] else to_be_bytes16 (Z.of_nat n)) ++ rest) p e =
    feed rest (headed p (if m then Mask else Payload) h f op m n) e.
Proof.
  intros Hi Hop Hn. cbn [app]. unfold frame_len. pose proof PAYLOAD_MAX_Z.
  destruct (Nat.ltb_spec n 126).
  - destruct (feed_two f op m (Z.of_nat n) rest p e Hi Hop ltac:(lia)) as (h & Hh & Ef).
    exists h. split; [done|]. cbn [app]. rewrite Ef, Nat2Z.id.
    destruct (Z.eqb_spec (Z.of_nat n) 126), (Z.eqb_spec (Z.of_nat n) 127); try lia. done.
  - destruct (feed_two f op m 126 (to_be_bytes16 (Z.of_nat n) ++ rest) p e Hi Hop ltac:(lia)) as (h & Hh & ->).
    cbn [Z.eqb Pos.eqb].
    destruct (feed_len16 p h f op m (Z.to_nat 126) (Z.of_nat n) rest e Hi Hh ltac:(lia)) as (h' & Hh' & ->).
    exists h'. by rewrite Nat2Z.id.
Qed.

Lemma feed_client_frame f op key ds rest p e :
  idle p -> 0 <= op < 16 -> (0 < length ds <= PAYLOAD_MAX)%nat ->
  exists p1, feed (client_frame f op key ds ++ rest) p e =
      (let '(p2, e2) := event p1 (Frame f op (length ds)) e in feed rest (to_header p2) e2) /\
    take (length ds) (payload p1) = ds /\ ws_wf p1 /\ fin p1 = f /\ opcode p1 = op.
Proof.
  intros Hi Hop Hn. unfold client_frame. rewrite <- !app_assoc.
  destruct (feed_headers f op (bool_decide (is_Some key)) (length ds)
    ((match key with Some (k0, k1, k2, k3) => [k0; k1; k2; k3] ++ unmask true [k0; k1; k2; k3] 0 ds | None => ds end)
      ++ rest) p e Hi Hop ltac:(lia)) as (h & Hh & ->).
  destruct key as [[[[k0 k1] k2] k3]|].
  - rewrite bool_decide_true by eauto. rewrite <- app_assoc. cbn [app]. rewrite feed_mask by done.
    destruct (feed_payload (unmask true [k0; k1; k2; k3] 0 ds) rest
      (mkWsParser Payload h 0 f op true [k0; k1; k2; k3] (length ds) 0 (payload p)) e) as (p1 & Ef & H1 & H2 & H3).
    + destruct (idle_start p Hi) as (?&?&?&?&?). split; cbn; [done..|lia].
    + done.
    + done.
    + by rewrite unmask_length.
    + by rewrite unmask_length.
    + exists p1. rewrite !unmask_length in *. cbn [fin opcode masked mask] in *.
      by rewrite unmask_twice in H1.
  - rewrite bool_decide_false by (by intros [? ?]).
    destruct (feed_payload ds rest (headed p Payload h f op false (length ds)) e) as (p1 & Ef & H1 & H2 & H3);
      [by apply headed_wf|done..|].
    exists p1. cbn [fin opcode masked mask headed] in *. by rewrite unmask_off in H1.
Qed.

(** ** No panic *)

Lemma feed1_wf b p e :
  (forall p ev e, ws_wf p -> ws_wf (fst (event p ev e))) -> ws_wf p ->
  exists ok p' e', feed_1 b p e = Some (ok, p', e') /\ (ok = true -> ws_wf p').
Proof.
  intros Hev [Hh Hm Hp Hg]. unfold feed1. destruct (ws_state p) eqn:Hs; cbn in Hg.
  - rewrite upd_ok by lia. cbn [mbind option_bind]. cbv zeta.
    destruct (Nat.ltb_spec (hdr_got p + 1) 2); [do 3 eexists; split; [done|intros _; split; cbn; rewrite ?length_insert; done || lia]|].
    repeat case_match; do 3 eexists; (split; [done|intros Hok; try discriminate Hok; split; cbn; rewrite ?length_insert; done || lia]).
  - rewrite upd_ok by lia. cbn [mbind option_bind]. cbv zeta. unfold after_len.
    destruct (Nat.eqb_spec (hdr_got p + 1) 2);
    repeat case_match; do 3 eexists; (split; [done|intros Hok; try discriminate Hok; split; cbn; rewrite ?length_insert; done || lia]).
  - rewrite upd_ok by lia. cbn [mbind option_bind]. cbv zeta. unfold after_len.
    destruct (Nat.eqb_spec (hdr_got p + 1) 8);
    repeat case_match; do 3 eexists; (split; [done|intros Hok; try discriminate Hok; split; cbn; rewrite ?length_insert; done || lia]).
  - rewrite upd_ok by lia. cbn [mbind option_bind]. cbv zeta.
    destruct (Nat.eqb_spec (hdr_got p + 1) 4);
    repeat case_match; do 3 eexists; (split; [done|intros Hok; try discriminate Hok; split; cbn; rewrite ?length_insert; done || lia]).
  - destruct (Nat.leb_spec PAYLOAD_MAX (got p)); [do 3 eexists; split; done|].
    rewrite upd_ok by lia. cbn [mbind option_bind]. cbv zeta. cbn [plen fin opcode].
    match goal with |- context [event ?q _ _] => assert (ws_wf q) as Hq end.
    { split; cbn; rewrite ?length_insert; done. }
    destruct (Nat.eqb_spec (got p + 1) (plen p)); [|do 3 eexists; split; done].
    match goal with |- context [event ?q ?ev ?e0] => pose proof (Hev q ev e0 Hq) as Hw; destruct (event q ev e0) as [p2 e2] end.
    do 3 eexists; split; [done|]. intros _. destruct Hw as [? ? ? _]. split; cbn; done || lia.
Qed.

Lemma feed_wf data p e :
  (forall p ev e, ws_wf p -> ws_wf (fst (event p ev e))) -> ws_wf p ->
  exists ok p' e', feed data p e = Some (ok, p', e') /\ (ok = true -> ws_wf p').
Proof.
  intros Hev. revert p e. induction data as [|b data IH]; intros p e Hp.
  - exists true, p, e. done.
  - destruct (feed1_wf b p e Hev Hp) as (ok & p1 & e1 & E1 & H1). rewrite feed_cons, E1. cbn [mbind option_bind].
    destruct ok; [apply IH; auto|do 3 eexists; split; done].
Qed.

(** ** A frame of length zero *)

(** In the payload state with nothing to wait for, bytes are swallowed. *)
Lemma feed_swallow data p e :
  ws_wf p -> ws_state p = Payload -> (plen p <= got p)%nat ->
  exists ok p', feed data p e = Some (ok, p', e) /\
    (ok = true -> ws_wf p' /\ ws_state p' = Payload /\ (plen p' <= got p')%nat).
Proof.
  revert p. induction data as [|b data IH]; intros p Hp Hs Hg; [exists true, p; done|].
  destruct (decide (got p < PAYLOAD_MAX)%nat) as [Hlt|Hge].
  - pose proof (feed1_payload b p e Hp Hs Hlt) as H1. cbv zeta in H1.
    destruct (Nat.eqb_spec (S (got p)) (plen p)); [lia|].
    rewrite (feed_cons_ok _ _ _ _ _ _ H1). apply IH; [|done|cbn; lia].
    apply with_payload_wf; [done..|]. rewrite length_insert. apply Hp.
  - exists false, p. rewrite feed_cons. unfold feed1. rewrite Hs.
    destruct (Nat.leb_spec PAYLOAD_MAX (got p)); [|lia]. split; done.
Qed.
End Frames.

(** the bytes of a session never make the parser panic: from a fresh parser
    any bytes, in any chunks, index inside the header, mask and payload arrays,
    whatever the width of [usize] and whatever the frame callback does, as long
    as it leaves the arrays their size. *)
Theorem ws_feed_no_panic {E} (W : Z) (event : WsParser -> FeedEvent -> E -> WsParser * E)
    (data : list Z) (e : E) :
  (forall p ev e, ws_wf p -> ws_wf (fst (event p ev e))) ->
  exists ok p' e', ws_feed W event data WsParser_new e = Some (ok, p', e').
Proof.
  intros Hev. destruct (feed_wf W event data WsParser_new e Hev) as (ok & p & e' & H & _);
    [apply new_idle|eauto].
Qed.

(** The callback of a session that only looks at the payload and keeps a log. *)
Definition log_event (p : WsParser) (ev : FeedEvent) (l : list (bool * Z * list Z)) :
    WsParser * list (bool * Z * list Z) :=
  match ev with
  | Frame f op n => (p, l ++ [(f, op, take n (payload p))])
  | Close => (p, l)
  end.

Lemma ws_feed_no_panic_witness :
  (forall p ev e, ws_wf p -> ws_wf (fst (log_event p ev e))) /\
  exists ok p' e', ws_feed 32 log_event [0x81; 0xFE; 0xFF] WsParser_new [] = Some (ok, p', e').
Proof.
  assert (H : forall p ev e, ws_wf p -> ws_wf (fst (log_event p ev e))) by (by intros p [] e).
  split; [exact H|]. exact (ws_feed_no_panic 32 log_event [0x81; 0xFE; 0xFF] [] H).
Defined.

(** ** A session as a stream of frames *)

Definition cframe : Type := bool * Z * option (Z * Z * Z * Z) * list Z.
Definition cframe_bytes (c : cframe) : list Z := let '(f, op, key, ds) := c in client_frame f op key ds.
Definition cframe_log (c : cframe) : bool * Z * list Z := let '(f, op, key, ds) := c in (f, op, ds).
Definition cframe_ok (c : cframe) : Prop :=
  let '(f, op, key, ds) := c in 0 <= op < 16 /\ (0 < length ds <= PAYLOAD_MAX)%nat.

(** [feed] called on the chunks a socket delivers, until the session closes. *)
Fixpoint feed_chunks {E} (W : Z) (event : WsParser -> FeedEvent -> E -> WsParser * E)
    (chunks : list (list Z)) (p : WsParser) (e : E) : option (bool * WsParser * E) :=
  match chunks with
  | [] => Some (true, p, e)
  | c :: chunks =>
      '(ok, p, e) ← ws_feed W event c p e;
      if ok : bool then feed_chunks W event chunks p e else Some (false, p, e)
  end.

Lemma feed_chunks_concat {E} W (event : WsParser -> FeedEvent -> E -> WsParser * E) chunks p e :
  feed_chunks W event chunks p e = ws_feed W event (concat chunks) p e.
Proof.
  revert p e. induction chunks as [|c chunks IH]; intros p e; [done|]. cbn [feed_chunks concat].
  rewrite feed_app. destruct (ws_feed W event c p e) as [[[[|] p'] e']|]; cbn; auto.
Qed.

Lemma to_header_idle p : ws_wf p -> idle (to_header p).
Proof. intros [? ? ? _]. split; [split; cbn; done || lia|done]. Qed.

Lemma feed_frames W frames p l :
  idle p -> Forall cframe_ok frames ->
  exists p', ws_feed W log_event (concat (cframe_bytes <$> frames)) p l =
    Some (true, p', l ++ (cframe_log <$> frames)) /\ idle p'.
Proof.
  intros Hp Hf. revert p l Hp. induction Hf as [|[[[f op] key] ds] frames [Hop Hn] _ IH]; intros p l Hp.
  - exists p. cbn. by rewrite app_nil_r.
  - cbn [fmap list_fmap concat cframe_bytes].
    destruct (feed_client_frame W log_event f op key ds (concat (cframe_bytes <$> frames)) p l Hp Hop Hn)
      as (p1 & E1 & Ht & Hw & _). rewrite E1. cbn [log_event].
    destruct (IH (to_header p1) (l ++ [(f, op, take (length ds) (payload p1))])) as (p' & E2 & Hi);
      [by apply to_header_idle|].
    exists p'. split; [|done]. rewrite E2, Ht, <- app_assoc. done.
Qed.

(** C33: the parser delivers what the client sent: any sequence of frames with
    non-empty payloads of at most [PAYLOAD_MAX] bytes, masked or not, with the
    7-bit or the 16-bit length, cut into chunks in any way, is reported frame by
    frame, in order, with its fin bit, opcode and unmasked payload, nothing more;
    the session stays open and the parser is ready for the next header. *)
Theorem ws_stream_delivers (W : Z) (frames : list cframe) (chunks : list (list Z)) :
  Forall cframe_ok frames -> concat chunks = concat (cframe_bytes <$> frames) ->
  exists p', feed_chunks W log_event chunks WsParser_new [] =
    Some (true, p', cframe_log <$> frames) /\ idle p'.
Proof.
  intros Hf Hc. rewrite feed_chunks_concat, Hc. exact (feed_frames W frames _ [] new_idle Hf).
Qed.

Lemma ws_stream_delivers_witness :
  exists p', feed_chunks 32 log_event
    [[0x81]; [0x85; 0x37; 0xfa; 0x21]; [0x3d; 0x7f; 0x9f; 0x4d; 0x51; 0x58; 0x02]; [0x01; 7]] WsParser_new [] =
    Some (true, p', [(true, 1, bs "Hello"); (false, 2, [7])]) /\ idle p'.
Proof.
  apply (ws_stream_delivers 32
    [(true, 1, Some (0x37, 0xfa, 0x21, 0x3d), bs "Hello"); (false, 2, None, [7])]
    [[0x81]; [0x85; 0x37; 0xfa; 0x21]; [0x3d; 0x7f; 0x9f; 0x4d; 0x51; 0x58; 0x02]; [0x01; 7]]).
  - pose proof PAYLOAD_MAX_big. repeat (apply Forall_cons_2; [cbn; lia|]). constructor.
  - vm_compute. reflexivity.
Defined.

(** an empty frame (an empty ping or close, say) is never reported: after
    its header and mask every later byte of the session, other frames included,
    is taken for its payload, until the parser closes the session. *)
Theorem ws_empty_frame_swallows {E} (W : Z) (event : WsParser -> FeedEvent -> E -> WsParser * E)
    (f m : bool) (op : Z) (key later : list Z) (p : WsParser) (e : E) :
  idle p -> 0 <= op < 16 -> length key = (if m then 4 else 0)%nat ->
  exists ok p', ws_feed W event ([byte0 f op; byte1 m 0] ++ key ++ later) p e = Some (ok, p', e).
Proof.
  intros Hi Hop Hk. cbn [app].
  destruct (feed_two W event f op m 0 (key ++ later) p e Hi Hop ltac:(lia)) as (h & Hh & ->).
  cbn [Z.eqb]. destruct (idle_start p Hi) as (?&?&?&?&?).
  destruct m.
  - destruct key as [|k0 [|k1 [|k2 [|k3 [|]]]]]; try discriminate Hk. cbn [app]. rewrite feed_mask by done.
    destruct (feed_swallow W event later
      (mkWsParser Payload h 0 f op true [k0; k1; k2; k3] (Z.to_nat 0) 0 (payload p)) e) as (ok & p' & E1 & _);
      [split; cbn; done || lia|done|cbn; lia|eauto].
  - destruct key; [|discriminate Hk]. cbn [app].
    destruct (feed_swallow W event later (headed p Payload h f op false (Z.to_nat 0)) e) as (ok & p' & E1 & _);
      [by apply headed_wf|done|cbn; lia|eauto].
Qed.

Lemma ws_empty_frame_swallows_witness :
  idle WsParser_new /\
  exists ok p', ws_feed 32 log_event ([byte0 true 9; byte1 true 0] ++ [1; 2; 3; 4] ++ client_frame true 1 None (bs "x"))
    WsParser_new [] = Some (ok, p', []).
Proof.
  split; [apply new_idle|].
  exact (ws_empty_frame_swallows 32 log_event true true 9 [1; 2; 3; 4] (client_frame true 1 None (bs "x"))
    WsParser_new [] new_idle ltac:(lia) eq_refl).
Defined.

(** ** Frames of the server *)

(** [ws_frame_hdr] and the payload make a frame in the protocol's layout
    with the minimal length field, for payloads up to 65535 bytes and for both
    widths of [usize]; so a parser of the other side delivers it. *)
Theorem ws_server_frame (W op : Z) (hdr ds : list Z) :
  length hdr = 10%nat -> 0 <= op < 16 -> Z.of_nat (length ds) <= 0xFFFF ->
  let '(h, n) := ws_frame_hdr W hdr op (Z.of_nat (length ds)) in
  take n h ++ ds = client_frame true op None ds.
Proof.
  intros Hh Hop Hn. unfold ws_frame_hdr, client_frame, frame_len.
  rewrite bool_decide_false by (by intros [? ?]).
  destruct hdr as [|x0 [|x1 [|x2 [|x3 r]]]]; try discriminate Hh.
  assert (Hop' : Z.lor 0x80 op = byte0 true op).
  { rewrite Z.lor_comm. unfold byte0. pose proof (lor_shiftl_add 1 op 7 ltac:(lia) ltac:(lia)) as H.
    rewrite Z.lor_comm. exact H. }
  destruct (Z.ltb_spec (Z.of_nat (length ds)) 126), (Nat.ltb_spec (length ds) 126); try lia.
  - cbn [insert list_insert take app]. rewrite Hop', as_u8_id by (unfold is_u8; lia). done.
  - destruct (Z.leb_spec (Z.of_nat (length ds)) 0xFFFF); [|lia].
    cbn [insert list_insert take app]. rewrite Hop'. unfold byte1, to_be_bytes16, as_u8.
    rewrite shiftr_8. done.
Qed.

Lemma ws_server_frame_witness :
  length (replicate 10 0) = 10%nat /\
  let '(h, n) := ws_frame_hdr 32 (replicate 10 0) 1 5 in take n h ++ bs "Hello" = client_frame true 1 None (bs "Hello").
Proof.
  split; [done|].
  exact (ws_server_frame 32 1 (replicate 10 0) (bs "Hello") eq_refl ltac:(lia) ltac:(vm_compute; discriminate)).
Defined.

(** The length the ten-byte header declares. *)
Definition long_len (h : list Z) : Z := foldl (fun v i => v * 256 + h !!! (2 + i)%nat) 0 (seq 0 8).

(** above 65535 bytes the header of ten bytes is right on a 64-bit host and
    wrong on the 32-bit target: there the shift counts 56 to 32 wrap to 24 to 0
    and the low half of the length is written into the high half as well. *)
Theorem ws_long_header (op len : Z) (hdr : list Z) :
  length hdr = 10%nat -> 0xFFFF < len < 2 ^ 32 ->
  long_len (fst (ws_frame_hdr 64 hdr op len)) = len /\
  long_len (fst (ws_frame_hdr 32 hdr op len)) = len * 2 ^ 32 + len.
Proof.
  intros Hh Hlen. unfold ws_frame_hdr.
  destruct (Z.ltb_spec len 126); [lia|]. destruct (Z.leb_spec len 0xFFFF); [lia|].
  do 10 (destruct hdr as [|? hdr]; [discriminate Hh|]). destruct hdr; [|discriminate Hh].
  cbn [seq foldl insert list_insert fst long_len lookup_total list_lookup_total Nat.add].
  repeat match goal with |- context [Z.shiftr len ?k] => 
    let k' := eval vm_compute in k in rewrite (Z.shiftr_div_pow2 len k) by (vm_compute; discriminate);
    let p := eval vm_compute in (2 ^ k') in change (2 ^ k) with p end.
  unfold as_u8. change (2 ^ 32) with 4294967296 in *. 
  split; zdm.
Qed.

Lemma ws_long_header_witness :
  length (replicate 10 0) = 10%nat /\
  long_len (fst (ws_frame_hdr 64 (replicate 10 0) 2 70000)) = 70000 /\
  long_len (fst (ws_frame_hdr 32 (replicate 10 0) 2 70000)) = 70000 * 2 ^ 32 + 70000.
Proof. split; [done|]. exact (ws_long_header 2 70000 (replicate 10 0) eq_refl ltac:(lia)). Defined.

(** The 64-bit length, byte by byte. *)
Lemma len64_step a b : 0 <= a < 2 ^ 56 -> is_u8 b -> Z.lor (as_u64 (Z.shiftl a 8)) b = a * 256 + b.
Proof.
  intros Ha Hb. unfold is_u8 in Hb. unfold as_u64.
  rewrite Z.mod_small by (rewrite Z.shiftl_mul_pow2 by lia; lia).
  by rewrite lor_shiftl_add by (simpl; lia).
Qed.

Lemma len64_fold v r :
  0 <= v < 2 ^ 64 ->
  foldl (fun a i => Z.lor (as_u64 (Z.shiftl a 8)) ((to_be_bytes64 v ++ r) !!! i)) 0 (seq 0 8) = v.
Proof.
  intros Hv. unfold to_be_bytes64, to_be_bytes32. cbn [app seq foldl lookup_total list_lookup_total].
  assert (Hb : forall x, is_u8 (x mod 256)) by (intros x; apply (as_u8_range x)).
  change (2 ^ 64) with 18446744073709551616 in Hv.
  pose proof (Hb (v / 4294967296 / 16777216)). pose proof (Hb (v / 4294967296 / 65536)).
  pose proof (Hb (v / 4294967296 / 256)). pose proof (Hb (v / 4294967296)).
  pose proof (Hb (v / 16777216)). pose proof (Hb (v / 65536)). pose proof (Hb (v / 256)). pose proof (Hb v).
  repeat match goal with |- context [Z.lor (as_u64 (Z.shiftl ?a 8)) ?b] =>
    lazymatch a with context [as_u64] => fail | _ =>
      rewrite (len64_step a b) by first [done | unfold is_u8 in *; change (2 ^ 56) with 72057594037927936; lia]
    end end.
  clear -Hv. zdm.
Qed.

(** a 64-bit length is compared after the cast to [usize]: on the 32-bit
    target a frame announcing [v] bytes is accepted as one of [v mod 2^32] bytes
    whenever that fits, instead of closing the session. *)
Theorem ws_len64_truncated {E} (W : Z) (event : WsParser -> FeedEvent -> E -> WsParser * E)
    (f m : bool) (op v : Z) (p : WsParser) (e : E) :
  idle p -> 0 <= op < 16 -> 0 <= v < 2 ^ 64 ->
  exists h st, ws_feed W event ([byte0 f op; byte1 m 127] ++ to_be_bytes64 v) p e =
    if Z.of_nat PAYLOAD_MAX <? v mod 2 ^ W then Some (false, st, e)
    else Some (true, headed p (if m then Mask else Payload) h f op m (Z.to_nat (v mod 2 ^ W)), e).
Proof.
  intros Hi Hop Hv. cbn [app].
  destruct (feed_two W event f op m 127 (to_be_bytes64 v) p e Hi Hop ltac:(lia)) as (h & Hh & ->).
  cbn [Z.eqb Pos.eqb].
  pose proof (len64_fold v (drop 8 h) Hv) as Hf. revert Hf.
  do 8 (destruct h as [|? h]; [discriminate Hh|]). cbn [drop].
  unfold to_be_bytes64, to_be_bytes32. cbn [app]. rewrite drop_0. intros Hf.
  do 7 (rewrite feed_cons; unfold feed1 at 1, headed;
    cbn [ws_state hdr hdr_got fin opcode masked mask plen got payload];
    rewrite upd_ok by (cbn [length insert list_insert]; lia); cbn [mbind option_bind Nat.add Nat.eqb insert list_insert]).
  rewrite feed_cons; unfold feed1 at 1.
  cbn [ws_state hdr hdr_got fin opcode masked mask plen got payload].
  rewrite upd_ok by (cbn [length insert list_insert]; lia). cbn [mbind option_bind Nat.add Nat.eqb insert list_insert].
  rewrite Hf. do 2 eexists. destruct (Z.of_nat PAYLOAD_MAX <? v mod 2 ^ W); [reflexivity|].
  cbn [mbind option_bind ws_feed]. unfold after_len. by destruct m.
Qed.

Lemma ws_len64_truncated_witness :
  idle WsParser_new /\
  exists h st, ws_feed 32 log_event ([byte0 true 1; byte1 false 127] ++ to_be_bytes64 4294967301) WsParser_new [] =
    if Z.of_nat PAYLOAD_MAX <? 4294967301 mod 2 ^ 32 then Some (false, st, [])
    else Some (true, headed WsParser_new (if false then Mask else Payload) h true 1 false
      (Z.to_nat (4294967301 mod 2 ^ 32)), []).
Proof.
  split; [apply new_idle|].
  exact (ws_len64_truncated 32 log_event true false 1 4294967301 WsParser_new [] new_idle ltac:(lia) ltac:(lia)).
Defined.
