(* ===== verification/History.v ===== *)
(** * History records and file names (crates/proto/src/history.rs) *)
From S2P Require Import Prelude Bytes TimeMath.

Definition DI_TYPE : Z := 1.
Definition AI_TYPE : Z := 2.
Definition AI_NUM : nat := 4.
Definition DI_REC_LEN : nat := 10.
Definition AI_REC_LEN : nat := 16.

Record HisData := mkHisData { ty : Z; timestamps : Z; en_status : Z; values : list Z }.

Definition HisData_di (ts di_en di_value : Z) : HisData := mkHisData DI_TYPE ts di_en [di_value; 0; 0; 0].
Definition HisData_ai (ts ai_en : Z) (ai_value : list Z) : HisData := mkHisData AI_TYPE ts ai_en ai_value.

Definition rec_len (d : HisData) : nat := if ty d =? DI_TYPE then DI_REC_LEN else AI_REC_LEN.

Definition HisData_to_bytes (d : HisData) : list Z :=
  let b := replicate AI_REC_LEN 0 in
  let b := list_inserts 0 (to_le_bytes16 (ty d)) b in
  let b := list_inserts 2 (to_le_bytes32 (timestamps d)) b in
  let b := list_inserts 6 (to_le_bytes16 (en_status d)) b in
  if ty d =? DI_TYPE then list_inserts 8 (to_le_bytes16 (values d !!! 0%nat)) b
  else foldl (fun b i => list_inserts (8 + 2 * i) (to_le_bytes16 (values d !!! i)) b) b (seq 0 AI_NUM).

Definition HisData_from_bytes (b : list Z) : option HisData :=
  let w i := from_le_bytes16 (b !!! i) (b !!! (i + 1)%nat) in
  if (length b <? DI_REC_LEN)%nat then None else
  let t := w 0%nat in
  let ts := from_le_bytes32 (b !!! 2%nat) (b !!! 3%nat) (b !!! 4%nat) (b !!! 5%nat) in
  if t =? DI_TYPE then Some (mkHisData t ts (w 6%nat) [w 8%nat; 0; 0; 0])
  else if (t =? AI_TYPE) && (AI_REC_LEN <=? length b)%nat then
    Some (mkHisData t ts (w 6%nat) ((fun i => w (8 + 2 * i)%nat) <$> seq 0 AI_NUM))
  else None.

Definition clamp (v lo hi : Z) : Z := if v <? lo then lo else if hi <? v then hi else v.

(** The calendar conversion this file has of its own. *)
Definition hist_civil_from_days (z : Z) : Z * Z * Z :=
  let z := z + 719468 in
  let era := Z.quot (if 0 <=? z then z else z - 146096) 146097 in
  let doe := as_u64 (z - era * 146097) in
  let yoe := (doe - doe / 1460 + doe / 36524 - doe / 146096) / 365 in
  let y := yoe + era * 400 in
  let doy := doe - (365 * yoe + yoe / 4 - yoe / 100) in
  let mp := (5 * doy + 2) / 153 in
  let d := as_u32 (doy - (153 * mp + 2) / 5 + 1) in
  let m := as_u32 (if mp <? 10 then mp + 3 else mp - 9) in
  ((if m <=? 2 then y + 1 else y), m, d).

(** Two decimal digits. *)
Definition two (v : Z) : list Z := [48 + as_u8 (v / 10); 48 + as_u8 (v mod 10)].

Definition make_hist_name (unix : Z) : list Z :=
  let t := unix + 8 * 3600 in
  let days := t / 86400 in
  let secs := t mod 86400 in
  let '(_, mon, mday) := hist_civil_from_days days in
  let hour := clamp (secs / 3600) 0 23 in
  let min := clamp (secs / 60 mod 60) 0 59 in
  let sec := clamp (secs mod 60) 0 59 in
  let name := bs "data_0000_000000.raw" in
  let name := list_inserts 5 (two (clamp mon 1 12)) name in
  let name := list_inserts 7 (two (clamp mday 1 31)) name in
  let name := list_inserts 10 (two hour) name in
  let name := list_inserts 12 (two min) name in
  list_inserts 14 (two sec) name.

Example hist_name_ex : make_hist_name 0 = bs "data_0101_080000.raw".
Proof. reflexivity. Qed.

(** ** Records *)

(** The records the firmware builds: a DI one has a single value. *)
Definition his_ok (d : HisData) : Prop :=
  is_u32 (timestamps d) /\ is_u16 (en_status d) /\ length (values d) = AI_NUM /\ words_ok (values d) /\
  (ty d = DI_TYPE /\ drop 1 (values d) = [0; 0; 0] \/ ty d = AI_TYPE).

Lemma le16_bytes v : is_u16 v -> from_le_bytes16 (v mod 256) (v / 256 mod 256) = v.
Proof. unfold is_u16, from_le_bytes16. intros. zdm. Qed.

Lemma le32_bytes v :
  is_u32 v ->
  from_le_bytes32 (v mod 256) (v / 256 mod 256) (v / 65536 mod 256) (v / 16777216 mod 256) = v.
Proof. unfold is_u32, from_le_bytes32. intros. zdm. Qed.

(** a history record is stored in [rec_len] bytes (ten for digital inputs,
    sixteen for analog ones) and read back unchanged, whatever follows it. *)
Theorem his_record_roundtrip (d : HisData) (rest : list Z) :
  his_ok d ->
  let r := take (rec_len d) (HisData_to_bytes d) in
  length r = rec_len d /\ bytes_ok r /\ HisData_from_bytes (r ++ rest) = Some d.
Proof.
  destruct d as [t ts en vs]. intros (Hts & Hen & Hl & Hv & Hty). cbn [ty timestamps en_status values] in *.
  destruct vs as [|v0 [|v1 [|v2 [|v3 [|]]]]]; try discriminate Hl.
  assert (is_u16 v0 /\ is_u16 v1 /\ is_u16 v2 /\ is_u16 v3) as (H0 & H1 & H2 & H3)
    by (unfold words_ok in Hv; repeat apply Forall_cons_1 in Hv as [? Hv]; done).
  assert (Hb : forall x, is_u8 (x mod 256)) by apply as_u8_range.
  destruct Hty as [[-> Hz]| ->]; cbn [drop] in *.
  - injection Hz as -> -> ->. unfold rec_len. cbn. split; [done|].
    split; [repeat (apply bytes_ok_cons; [apply Hb || (unfold is_u8; lia)|]); constructor|].
    rewrite !le16_bytes, le32_bytes by done. done.
  - unfold rec_len. cbn. split; [done|].
    split; [repeat (apply bytes_ok_cons; [apply Hb || (unfold is_u8; lia)|]); constructor|].
    rewrite !le16_bytes, le32_bytes by done. done.
Qed.

Lemma his_record_roundtrip_witness :
  let d := HisData_ai 1700000000 15 [1; 2; 3; 65535] in
  his_ok d /\ HisData_from_bytes (take (rec_len d) (HisData_to_bytes d) ++ [7]) = Some d.
Proof.
  assert (H : his_ok (HisData_ai 1700000000 15 [1; 2; 3; 65535])).
  { unfold his_ok, is_u32, is_u16. cbn. repeat split; try lia.
    repeat (apply Forall_cons_2; [unfold is_u16; lia|]); constructor. }
  split; [exact H|]. apply (his_record_roundtrip _ [7] H).
Defined.

(** ** File names *)

(** Within the days a shifted 32-bit time can reach, both calendar conversions agree. *)
Lemma hist_civil_eq z : 0 <= z < 49712 -> hist_civil_from_days z = civil_from_days z.
Proof.
  intros Hz. unfold hist_civil_from_days, civil_from_days. rewrite (proj2 (Z.leb_le 0 _)) by lia.
  rewrite (Z.quot_div_nonneg (z + 719468)) by lia.
  set (era := (z + 719468) / 146097). set (doe := z + 719468 - era * 146097).
  assert (0 <= doe < 146097) as Hd by (unfold doe, era; zdm). clearbody doe era.
  assert (as_u64 doe = doe) as -> by (unfold as_u64; apply Z.mod_small; lia).
  rewrite !(Z.quot_div_nonneg doe) by lia.
  set (num := doe - doe / 1460 + doe / 36524 - doe / 146096). assert (0 <= num) as Hn by (unfold num; zdm).
  rewrite (Z.quot_div_nonneg num) by lia.
  set (yoe := num / 365). assert (0 <= yoe) as Hy by (apply Z.div_pos; lia).
  rewrite !(Z.quot_div_nonneg yoe) by lia.
  set (doy := doe - (365 * yoe + yoe / 4 - yoe / 100)).
  assert (0 <= doy) as Hdoy by (clear -Hd; unfold doy, yoe, num; zdm).
  rewrite (Z.quot_div_nonneg (5 * doy + 2)) by lia.
  set (mp := (5 * doy + 2) / 153). assert (0 <= mp) by (apply Z.div_pos; lia).
  rewrite (Z.quot_div_nonneg (153 * mp + 2)) by lia. done.
Qed.

(** The local calendar date of a time, UTC+8, and its place in the year. *)
Definition hist_date (unix : Z) : Z * Z * Z := civil_from_days ((unix + 28800) / 86400).
Definition hist_year (unix : Z) : Z := let '(y, _, _) := hist_date unix in y.

Definition date_key (c : Z * Z * Z) : Z := let '(y, m, d) := c in (y * 16 + m) * 32 + d.

Lemma date_key_next z : 0 <= z < 49711 -> date_key (civil_from_days z) < date_key (civil_from_days (z + 1)).
Proof.
  intros Hz. destruct (civil_from_days z) as [[y m] d] eqn:E.
  destruct (civil_from_days_facts z y m d ltac:(lia) E) as (_ & -> & _ & Hm & Hd).
  pose proof (days_in_month_le y m). unfold next_day, date_key.
  destruct (Z.ltb_spec d (days_in_month y m)); [lia|]. destruct (Z.ltb_spec m 12); lia.
Qed.

Lemma date_key_mono a b : 0 <= a -> a < b -> b < 49712 -> date_key (civil_from_days a) < date_key (civil_from_days b).
Proof.
  intros Ha Hab Hb. replace b with (a + 1 + Z.of_nat (Z.to_nat (b - a - 1))) by lia.
  assert (Hn : (Z.to_nat (b - a - 1) <= Z.to_nat (b - a - 1))%nat) by lia. revert Hn.
  generalize (Z.to_nat (b - a - 1)) at 1 3. intros n. induction n as [|n IH]; intros Hn.
  - rewrite Z.add_0_r. apply date_key_next. lia.
  - etransitivity; [apply IH; lia|]. replace (a + 1 + Z.of_nat (S n)) with (a + 1 + Z.of_nat n + 1) by lia.
    apply date_key_next. lia.
Qed.

Lemma two_ltb a b x y :
  0 <= a < 100 -> 0 <= b < 100 ->
  bytes_ltb (two a ++ x) (two b ++ y) = (a <? b) || ((a =? b) && bytes_ltb x y).
Proof.
  intros Ha Hb. unfold two, as_u8. cbn [app bytes_ltb].
  rewrite !(Z.mod_small _ 256) by zdm.
  assert ((48 + a / 10 <? 48 + b / 10) || ((48 + a / 10 =? 48 + b / 10) && (48 + a mod 10 <? 48 + b mod 10)) = (a <? b)) as <-.
  { pose proof (Z.div_mod a 10 ltac:(lia)). pose proof (Z.div_mod b 10 ltac:(lia)).
    pose proof (Z.mod_pos_bound a 10 ltac:(lia)). pose proof (Z.mod_pos_bound b 10 ltac:(lia)). ltb_cases. }
  assert ((48 + a / 10 =? 48 + b / 10) && (48 + a mod 10 =? 48 + b mod 10) = (a =? b)) as <-.
  { pose proof (Z.div_mod a 10 ltac:(lia)). pose proof (Z.div_mod b 10 ltac:(lia)).
    pose proof (Z.mod_pos_bound a 10 ltac:(lia)). pose proof (Z.mod_pos_bound b 10 ltac:(lia)). ltb_cases. }
  destruct (48 + a / 10 <? 48 + b / 10), (48 + a / 10 =? 48 + b / 10), (48 + a mod 10 <? 48 + b mod 10),
    (48 + a mod 10 =? 48 + b mod 10), (bytes_ltb x y); reflexivity.
Qed.

Lemma const_ltb c x y : bytes_ltb (c ++ x) (c ++ y) = bytes_ltb x y.
Proof. induction c as [|v c IH]; cbn; [done|]. by rewrite Z.ltb_irrefl, Z.eqb_refl. Qed.

(** The name as its parts, without the clamps, which have nothing to do. *)
Lemma hist_name_parts unix :
  is_u32 unix ->
  let '(y, m, d) := hist_date unix in
  let s := (unix + 28800) mod 86400 in
  make_hist_name unix =
    bs "data_" ++ two m ++ two d ++ bs "_" ++ two (s / 3600) ++ two (s / 60 mod 60) ++ two (s mod 60) ++ bs ".raw" /\
  1 <= m <= 12 /\ 1 <= d <= 31.
Proof.
  intros Hu. unfold is_u32 in Hu. unfold hist_date.
  destruct (civil_from_days ((unix + 28800) / 86400)) as [[y m] d] eqn:E. cbv zeta.
  destruct (civil_from_days_facts ((unix + 28800) / 86400) y m d ltac:(zdm) E) as (_ & _ & _ & Hm & Hd).
  pose proof (days_in_month_le y m). split; [|lia].
  unfold make_hist_name. change (8 * 3600) with 28800. rewrite hist_civil_eq, E by zdm. unfold clamp.
  set (s := (unix + 28800) mod 86400). assert (0 <= s < 86400) by (unfold s; apply Z.mod_pos_bound; lia).
  rewrite !(proj2 (Z.ltb_ge _ _)) by zdm. reflexivity.
Qed.

(** the name of a history file sorts like the time it is made from: of two
    times in the same calendar year (UTC+8) the earlier one has the
    lexicographically smaller name; every name has twenty bytes and the form
    data_MMDD_HHMMSS.raw. *)
Theorem hist_name_order (t1 t2 : Z) :
  is_u32 t1 -> is_u32 t2 -> hist_year t1 = hist_year t2 -> t1 < t2 ->
  bytes_ltb (make_hist_name t1) (make_hist_name t2) = true /\
  length (make_hist_name t1) = 20%nat /\ starts_with (make_hist_name t1) (bs "data_") = true.
Proof.
  intros H1 H2 Hy Hlt. unfold hist_year in Hy.
  pose proof (hist_name_parts t1 H1) as P1. pose proof (hist_name_parts t2 H2) as P2.
  assert (Hmono : (t1 + 28800) / 86400 < (t2 + 28800) / 86400 -> date_key (hist_date t1) < date_key (hist_date t2))
    by (intros; unfold is_u32 in *; apply date_key_mono; zdm).
  assert (Hsame : (t1 + 28800) / 86400 = (t2 + 28800) / 86400 -> hist_date t1 = hist_date t2)
    by (intros E; unfold hist_date; by rewrite E).
  destruct (hist_date t1) as [[y1 m1] d1], (hist_date t2) as [[y2 m2] d2]. subst y2. cbv zeta in *.
  destruct P1 as (-> & Hm1 & Hd1). destruct P2 as (-> & Hm2 & Hd2).
  split; [|split; reflexivity].
  set (s1 := (t1 + 28800) mod 86400). set (s2 := (t2 + 28800) mod 86400).
  assert (Hs1 : 0 <= s1 < 86400) by (apply Z.mod_pos_bound; lia).
  assert (Hs2 : 0 <= s2 < 86400) by (apply Z.mod_pos_bound; lia).
  rewrite const_ltb, !two_ltb by lia. rewrite const_ltb, !two_ltb by zdm.
  destruct (Z.lt_total ((t1 + 28800) / 86400) ((t2 + 28800) / 86400)) as [Hd|[Hd|Hd]].
  - specialize (Hmono Hd). unfold date_key in Hmono.
    destruct (Z.ltb_spec m1 m2); [done|]. destruct (Z.eqb_spec m1 m2); [|lia].
    destruct (Z.ltb_spec d1 d2); [done|lia].
  - specialize (Hsame Hd). injection Hsame as <- <-. rewrite !Z.eqb_refl, !Z.ltb_irrefl. cbn [orb andb].
    assert (s1 < s2) by (unfold s1, s2 in *; zdm).
    destruct (Z.ltb_spec (s1 / 3600) (s2 / 3600)); [done|].
    destruct (Z.eqb_spec (s1 / 3600) (s2 / 3600)); [|zdm].
    destruct (Z.ltb_spec (s1 / 60 mod 60) (s2 / 60 mod 60)); [done|].
    destruct (Z.eqb_spec (s1 / 60 mod 60) (s2 / 60 mod 60)); [|zdm].
    destruct (Z.ltb_spec (s1 mod 60) (s2 mod 60)); [done|zdm].
  - exfalso. zdm.
Qed.

Lemma hist_name_order_witness :
  is_u32 1767000000 /\ hist_year 1767000000 = hist_year 1767000001 /\
  bytes_ltb (make_hist_name 1767000000) (make_hist_name 1767000001) = true.
Proof.
  split; [unfold is_u32; lia|]. split; [reflexivity|].
  apply (hist_name_order 1767000000 1767000001); [unfold is_u32; lia..|reflexivity|lia].
Defined.

(** The year is not in the name: across a new year the order is lost, so the
    retention scan takes the newest file for the oldest. *)
Lemma hist_name_new_year :
  let dec := 1767196799 in (* 2025-12-31 23:59:59, UTC+8 *)
  hist_year dec = 2025 /\ hist_year (dec + 1) = 2026 /\
  bytes_ltb (make_hist_name (dec + 1)) (make_hist_name dec) = true.
Proof. repeat split; vm_compute; reflexivity. Qed.
