(* ===== verification/Text.v ===== *)
(** * Text: the [str] methods the firmware uses, on UTF-8 byte lists

    [core::str::from_utf8], [str::trim], [split] at a byte and [parse] of the
    unsigned integer types, as the Rust standard library documents them. *)
From S2P Require Import Prelude.

(** ** UTF-8 validation *)

Definition cont (b : Z) : bool := (0x80 <=? b) && (b <=? 0xBF).

(** The continuation bytes allowed after a lead byte: how many, and the range of
    the first of them. *)
Definition utf8_lead (b : Z) : option (nat * Z * Z) :=
  if b <? 0x80 then Some (0%nat, 0, 0)
  else if (0xC2 <=? b) && (b <=? 0xDF) then Some (1%nat, 0x80, 0xBF)
  else if b =? 0xE0 then Some (2%nat, 0xA0, 0xBF)
  else if b =? 0xED then Some (2%nat, 0x80, 0x9F)
  else if (0xE1 <=? b) && (b <=? 0xEF) then Some (2%nat, 0x80, 0xBF)
  else if b =? 0xF0 then Some (3%nat, 0x90, 0xBF)
  else if (0xF1 <=? b) && (b <=? 0xF3) then Some (3%nat, 0x80, 0xBF)
  else if b =? 0xF4 then Some (3%nat, 0x80, 0x8F)
  else None.

Fixpoint utf8_go (fuel : nat) (l : list Z) : bool :=
  match fuel with
  | O => false
  | S fuel =>
      match l with
      | [] => true
      | b :: l =>
          match utf8_lead b with
          | None => false
          | Some (O, _, _) => utf8_go fuel l
          | Some (S n, lo, hi) =>
              match l with
              | c :: l =>
                  (lo <=? c) && (c <=? hi) && (n <=? length l)%nat && forallb cont (take n l) &&
                    utf8_go fuel (drop n l)
              | [] => false
              end
          end
      end
  end.
Definition utf8_valid (l : list Z) : bool := utf8_go (S (length l)) l.

(** [from_utf8(v).ok()]: the same bytes, as text. *)
Definition from_utf8 (l : list Z) : option (list Z) := if utf8_valid l then Some l else None.

Definition is_ascii (l : list Z) : Prop := Forall (fun b => 0 <= b < 0x80) l.

Lemma utf8_go_ascii l n : (length l <= n)%nat -> is_ascii l -> utf8_go (S n) l = true.
Proof.
  revert n. induction l as [|b l IH]; intros n Hn Hl; [done|].
  apply Forall_cons_1 in Hl as [Hb Hl]. cbn [utf8_go]. unfold utf8_lead.
  destruct (Z.ltb_spec b 0x80); [|lia]. destruct n; [simpl in Hn; lia|].
  apply IH; [simpl in Hn; lia|done].
Qed.

Lemma from_utf8_ascii l : is_ascii l -> from_utf8 l = Some l.
Proof. intros H. unfold from_utf8, utf8_valid. by rewrite utf8_go_ascii. Qed.

(** ** Trimming: the White_Space characters, encoded *)

Definition white_spaces : list (list Z) :=
  [[9]; [10]; [11]; [12]; [13]; [32]; [0xC2; 0x85]; [0xC2; 0xA0]; [0xE1; 0x9A; 0x80]] ++
  ((fun i => [0xE2; 0x80; 0x80 + Z.of_nat i]) <$> seq 0 11) ++
  [[0xE2; 0x80; 0xA8]; [0xE2; 0x80; 0xA9]; [0xE2; 0x80; 0xAF]; [0xE2; 0x81; 0x9F]; [0xE3; 0x80; 0x80]].

Fixpoint strip_first (ps : list (list Z)) (l : list Z) : option (list Z) :=
  match ps with
  | [] => None
  | p :: ps => if starts_with l p then Some (drop (length p) l) else strip_first ps l
  end.

Fixpoint strip_all (fuel : nat) (ps : list (list Z)) (l : list Z) : list Z :=
  match fuel with
  | O => l
  | S fuel => match strip_first ps l with Some l => strip_all fuel ps l | None => l end
  end.

Definition trim_start (l : list Z) : list Z := strip_all (length l) white_spaces l.
Definition trim_end (l : list Z) : list Z :=
  reverse (strip_all (length l) (reverse <$> white_spaces) (reverse l)).
Definition trim (l : list Z) : list Z := trim_end (trim_start l).

(** ** Splitting and parsing *)

(** [split(c)]: always at least one part. *)
Fixpoint split (c : Z) (l : list Z) : list (list Z) :=
  match l with
  | [] => [[]]
  | b :: l =>
      if b =? c then [] :: split c l
      else match split c l with p :: ps => (b :: p) :: ps | [] => [[b]] end
  end.

Definition is_ascii_digit (b : Z) : bool := (48 <=? b) && (b <=? 57).

(** Digits accumulated with the overflow check of [parse::<uN>()]; [max] is [uN::MAX]. *)
Fixpoint parse_digits (max acc : Z) (l : list Z) : option Z :=
  match l with
  | [] => Some acc
  | b :: l =>
      if is_ascii_digit b then
        let acc := acc * 10 + (b - 48) in
        if acc <=? max then parse_digits max acc l else None
      else None
  end.

(** [parse::<uN>().ok()]: one leading plus sign is accepted. *)
Definition parse_uint (max : Z) (l : list Z) : option Z :=
  match l with
  | [] => None
  | b :: r => if (b =? 43) && negb (length r =? 0)%nat then parse_digits max 0 r else
              if b =? 43 then None else parse_digits max 0 l
  end.

(** The decimal text of a number. *)
Fixpoint digits_go (fuel : nat) (n : Z) (acc : list Z) : list Z :=
  match fuel with
  | O => acc
  | S fuel => let acc := 48 + n mod 10 :: acc in if n <? 10 then acc else digits_go fuel (n / 10) acc
  end.
Definition decimal (n : Z) : list Z := digits_go 20 n [].

(** ** Lemmas *)

Lemma split_plain c l : Forall (fun b => b <> c) l -> split c l = [l].
Proof.
  induction 1 as [|b l Hb _ IH]; [done|]. cbn [split]. destruct (Z.eqb_spec b c); [done|]. by rewrite IH.
Qed.

Lemma split_app c l r : Forall (fun b => b <> c) l -> split c (l ++ c :: r) = l :: split c r.
Proof.
  induction 1 as [|b l Hb _ IH]; cbn [app split]; [by rewrite Z.eqb_refl|].
  destruct (Z.eqb_spec b c); [done|]. by rewrite IH.
Qed.

Lemma parse_digits_app max acc a b :
  parse_digits max acc (a ++ b) = (acc ← parse_digits max acc a; parse_digits max acc b).
Proof.
  revert acc. induction a as [|x a IH]; intros acc; [done|]. cbn [app parse_digits].
  destruct (is_ascii_digit x); [|done]. destruct (_ <=? max); [apply IH|done].
Qed.

Lemma digits_go_app fuel n acc : digits_go fuel n acc = digits_go fuel n [] ++ acc.
Proof.
  revert n acc. induction fuel as [|fuel IH]; intros n acc; [done|]. cbn [digits_go].
  destruct (n <? 10); [done|]. rewrite (IH _ (_ :: acc)), (IH _ [_]). by rewrite <- app_assoc.
Qed.

Lemma decimal_go_parse fuel n max :
  0 <= n <= max -> n < 10 ^ Z.of_nat fuel -> (0 < fuel)%nat ->
  parse_digits max 0 (digits_go fuel n []) = Some n /\ Forall (fun b => 48 <= b <= 57) (digits_go fuel n []) /\
  digits_go fuel n [] <> [].
Proof.
  revert n. induction fuel as [|fuel IH]; intros n Hn Hf Hpos; [lia|]. cbn [digits_go].
  destruct (Z.ltb_spec n 10) as [Hlt|Hge].
  - rewrite Z.mod_small by lia. cbn [parse_digits]. unfold is_ascii_digit.
    rewrite !(proj2 (Z.leb_le _ _)) by lia. cbn [andb].
    split; [f_equal; lia|]. split; [repeat constructor; lia|done].
  - rewrite digits_go_app. destruct fuel as [|fuel]; [simpl in Hf; lia|].
    rewrite Nat2Z.inj_succ, Z.pow_succ_r in Hf by lia.
    destruct (IH (n / 10)) as (H1 & H2 & H3); [zdm|apply Z.div_lt_upper_bound; lia|lia|].
    rewrite parse_digits_app, H1. cbn [mbind option_bind parse_digits]. unfold is_ascii_digit.
    rewrite !(proj2 (Z.leb_le _ _)) by zdm. cbn [andb].
    split; [f_equal; zdm|]. split; [|by destruct (digits_go _ _ _)].
    apply Forall_app_2; [done|]. repeat constructor; zdm.
Qed.

(** Printing a number and parsing it back. *)
Lemma parse_decimal n max :
  0 <= n <= max -> n < 10 ^ 20 -> parse_uint max (decimal n) = Some n /\
  Forall (fun b => 48 <= b <= 57) (decimal n) /\ decimal n <> [].
Proof.
  intros Hn Hm. destruct (decimal_go_parse 20 n max Hn Hm ltac:(lia)) as (H1 & H2 & H3).
  fold (decimal n) in *. split; [|done]. unfold parse_uint.
  destruct (decimal n) as [|b r]; [done|]. apply Forall_cons_1 in H2 as [Hb _].
  destruct (Z.eqb_spec b 43); [lia|]. done.
Qed.

Lemma is_ascii_digits l : Forall (fun b => 48 <= b <= 57) l -> is_ascii l.
Proof. intros H. eapply Forall_impl; [|exact H]. intros b Hb. cbv beta in *. lia. Qed.
