(* ===== verification/WebJson.v ===== *)
(** * JSON field getters, URL queries and file names of the web interface
      (crates/proto/src/web_json.rs) *)
From S2P Require Import Prelude Text Bytes TimeMath History.

(** [while body[j] is a blank { j += 1 }], on the rest of the body. *)
Fixpoint skip_blanks (s : list Z) : list Z :=
  match s with
  | b :: r => if (b =? 32) || (b =? 9) then skip_blanks r else s
  | [] => []
  end.

(** How far [k] runs past [j]: to the next comma or brace outside a string.  An
    escape counts two even when nothing follows it, so the result can exceed
    the bytes there are. *)
Fixpoint value_run (in_str : bool) (s : list Z) : nat :=
  match s with
  | [] => 0%nat
  | c :: r =>
      if in_str then
        if c =? 92 then match r with [] => 2%nat | _ :: r => S (S (value_run true r)) end
        else S (value_run (negb (c =? 34)) r)
      else if c =? 34 then S (value_run true r)
      else if (c =? 44) || (c =? 125) then 0%nat
      else S (value_run false r)
  end.

(** The value after a key that matches at the head of [s]: [Some None] when this
    place is not a key after all, [None] a panic of [&body[j..k]]. *)
Definition value_at (s kb : list Z) : option (option (list Z)) :=
  match s with
  | q :: r =>
      if (q =? 34) && starts_with r kb then
        match drop (length kb) r with
        | q2 :: r =>
            if q2 =? 34 then
              match skip_blanks r with
              | col :: r =>
                  if col =? 58 then
                    let r := skip_blanks r in
                    let k := value_run false r in
                    if (0 <? k)%nat then Some <$> slice r 0 k else Some None
                  else Some None
              | [] => Some None
              end
            else Some None
        | [] => Some None
        end
      else Some None
  | [] => Some None
  end.

(** The outer loop, on the rest of the body from [i]. *)
Fixpoint json_raw_value (s kb : list Z) : option (option (list Z)) :=
  match s with
  | [] => Some None
  | _ :: r =>
      if (length kb + 2 <=? length s)%nat then
        v ← value_at s kb;
        match v with Some v => Some (Some v) | None => json_raw_value r kb end
      else Some None
  end.

Definition json_get_str (body kb : list Z) : option (option (list Z)) :=
  r ← json_raw_value body kb;
  Some (
    v ← r;
    if (length v <? 2)%nat || negb (v !!! 0%nat =? 34) || negb (v !!! (length v - 1)%nat =? 34) then None
    else slice v 1 (length v - 1)).

(** The digits of a number, with the cut-off at 2^31. *)
Fixpoint json_digits (n : Z) (l : list Z) : option Z :=
  match l with
  | [] => Some n
  | b :: l => let n := n * 10 + (b - 48) in if 2147483648 <? n then None else json_digits n l
  end.

Definition json_number (t : list Z) : option Z :=
  match t with
  | [] => None
  | b :: r =>
      let '(neg, digits) := if b =? 45 then (true, r) else if b =? 43 then (false, r) else (false, t) in
      if (length digits =? 0)%nat || negb (forallb is_ascii_digit digits) then None else
      n ← json_digits 0 digits;
      let n := if neg : bool then - n else n in
      if (n <? -2147483648) || (2147483647 <? n) then None else Some n
  end.

Definition json_get_i32 (body kb : list Z) : option (option Z) :=
  r ← json_raw_value body kb;
  Some (
    v ← r;
    s ← from_utf8 v;
    let t := trim s in
    if bool_decide (t = bs "true") then Some 1
    else if bool_decide (t = bs "false") then Some 0
    else json_number t).

(** [for pair in query.split('&')], with its early [?]. *)
Fixpoint query_pairs (pairs : list (list Z)) (key : list Z) : option (list Z) :=
  match pairs with
  | [] => None
  | p :: pairs =>
      eq ← position (fun b => b =? 61) p;
      if bool_decide (take eq p = key) && (eq + 1 <=? length p)%nat then Some (drop (eq + 1) p)
      else query_pairs pairs key
  end.
Definition url_query_get (query key : list Z) : option (list Z) := query_pairs (split 38 query) key.

Definition is_ascii_alphanumeric (b : Z) : bool :=
  is_ascii_digit b || ((65 <=? b) && (b <=? 90)) || ((97 <=? b) && (b <=? 122)).

Definition history_web_name_valid (name : list Z) : bool :=
  if (length name <? 6)%nat || (31 <? length name)%nat then false
  else if negb (starts_with name (bs "data_")) then false
  else forallb (fun b => is_ascii_alphanumeric b || (b =? 46) || (b =? 95) || (b =? 45)) name.

(** The unit tests of the source. *)
Example json_tests :
  let q := 34 in
  json_get_i32 (bs "{" ++ [q] ++ bs "index" ++ [q] ++ bs ":18," ++ [q] ++ bs "value" ++ [q] ++ bs ":1}") (bs "value")
    = Some (Some 1) /\
  json_get_i32 (bs "{" ++ [q] ++ bs "index" ++ [q] ++ bs ":-1}") (bs "index") = Some (Some (-1)) /\
  json_get_str (bs "{" ++ [q] ++ bs "ip" ++ [q] ++ bs ":" ++ [q] ++ bs "1.2" ++ [q] ++ bs "}") (bs "ip")
    = Some (Some (bs "1.2")) /\
  url_query_get (bs "name=data_1.raw&x=2") (bs "name") = Some (bs "data_1.raw") /\
  history_web_name_valid (bs "data_") = false /\ history_web_name_valid (bs "data_a") = true.
Proof. vm_compute. repeat split; reflexivity. Qed.

(** ** Well-formed objects *)

(** A flat object: numbers (text without quotes, commas, braces or blanks in
    front) and strings without quotes or backslashes. *)
Inductive jval := JNum (t : list Z) | JStr (t : list Z).

Definition key_char (b : Z) : Prop := is_ascii_alphanumeric b = true \/ b = 95.
Definition num_char (b : Z) : Prop := b <> 34 /\ b <> 44 /\ b <> 125 /\ b <> 32 /\ b <> 9.
Definition str_char (b : Z) : Prop := b <> 34 /\ b <> 92.
Definition jval_ok (v : jval) : Prop :=
  match v with JNum t => t <> [] /\ Forall num_char t | JStr t => Forall str_char t end.
Definition field_ok (f : list Z * jval) : Prop := Forall key_char f.1 /\ jval_ok f.2.

Definition jval_text (v : jval) : list Z := match v with JNum t => t | JStr t => 34 :: t ++ [34] end.
Definition field_text (f : list Z * jval) : list Z := 34 :: f.1 ++ [34; 58] ++ jval_text f.2.

(** The fields, separated by commas and closed by a brace. *)
Fixpoint fields_text (fs : list (list Z * jval)) : list Z :=
  match fs with
  | [] => [125]
  | [f] => field_text f ++ [125]
  | f :: fs => field_text f ++ 44 :: fields_text fs
  end.
Definition json_object (fs : list (list Z * jval)) : list Z := 123 :: fields_text fs.

Fixpoint lookup_field (kb : list Z) (fs : list (list Z * jval)) : option jval :=
  match fs with
  | [] => None
  | (k, v) :: fs => if decide (k = kb) then Some v else lookup_field kb fs
  end.

Lemma starts_with_app l p r : starts_with (p ++ r) p = true /\ (starts_with l p = true -> exists q, l = p ++ q).
Proof.
  split.
  - induction p as [|x p IH]; [by destruct r|]. cbn. by rewrite Z.eqb_refl.
  - revert l. induction p as [|x p IH]; intros l H; [by exists l|].
    destruct l as [|y l]; [done|]. cbn in H. zbool. destruct (IH l) as [q ->]; [done|]. subst. by exists q.
Qed.

(** The run of a value stops at the separator. *)
Lemma value_run_num t sep r :
  Forall num_char t -> sep = 44 \/ sep = 125 -> value_run false (t ++ sep :: r) = length t.
Proof.
  intros Ht Hs. induction Ht as [|b t (H1 & H2 & H3 & _) _ IH]; cbn [app value_run length].
  - destruct Hs as [-> | ->]; reflexivity.
  - rewrite !(proj2 (Z.eqb_neq _ _)) by done. cbn [orb]. by rewrite IH.
Qed.

Lemma value_run_str t r :
  Forall str_char t -> value_run true (t ++ 34 :: r) = S (length t + value_run false r).
Proof.
  intros Ht. induction Ht as [|b t [H1 H2] _ IH]; cbn [app value_run length]; [done|].
  rewrite !(proj2 (Z.eqb_neq _ _)) by done. cbn [negb]. by rewrite IH.
Qed.

Lemma value_run_text v sep r :
  jval_ok v -> sep = 44 \/ sep = 125 -> value_run false (jval_text v ++ sep :: r) = length (jval_text v).
Proof.
  intros Hv Hs. destruct v as [t|t]; cbn [jval_text jval_ok] in *.
  - apply value_run_num; [apply Hv|done].
  - cbn [app value_run Z.eqb Pos.eqb]. rewrite <- app_assoc. cbn [app].
    rewrite value_run_str by done. cbn [length]. rewrite length_app. cbn [length value_run].
    destruct Hs as [-> | ->]; cbn; lia.
Qed.

Lemma skip_blanks_text v r : jval_ok v -> skip_blanks (jval_text v ++ r) = jval_text v ++ r.
Proof.
  intros Hv. destruct v as [[|b t]|t]; cbn [jval_text jval_ok app skip_blanks] in *; [by destruct Hv| |done].
  destruct Hv as [_ Hv]. apply Forall_cons_1 in Hv as [(_ & _ & _ & H1 & H2) _].
  by rewrite !(proj2 (Z.eqb_neq _ _)) by done.
Qed.

(** At the opening quote of a field the value is found when the key is the one
    asked for, and the place is passed over otherwise. *)
Lemma value_at_field f sep r kb :
  field_ok f -> Forall key_char kb -> sep = 44 \/ sep = 125 ->
  value_at (field_text f ++ sep :: r) kb =
    Some (if decide (f.1 = kb) then Some (jval_text f.2) else None).
Proof.
  destruct f as [k v]. intros [Hk Hv] Hkb Hs. cbn [fst snd] in *. unfold field_text. cbn [fst snd].
  unfold value_at. cbn [app]. rewrite <- !app_assoc. cbn [app Z.eqb Pos.eqb andb].
  destruct (decide (k = kb)) as [-> | Hne].
  - rewrite (proj1 (starts_with_app [] kb _)), drop_app_length. cbn [Z.eqb Pos.eqb skip_blanks orb].
    rewrite skip_blanks_text, value_run_text by done.
    assert (0 < length (jval_text v))%nat as Hl by (destruct v as [[|]|]; cbn in *; [by destruct Hv|lia..]).
    destruct (Nat.ltb_spec 0 (length (jval_text v))); [|lia].
    rewrite slice_ok by (rewrite ?length_app; lia). rewrite drop_0, Nat.sub_0_r, take_app_length. done.
  - destruct (starts_with _ kb) eqn:Hst; [|done].
    apply (starts_with_app _ _ []) in Hst as [q Hq]. rewrite Hq, drop_app_length.
    destruct q as [|q0 q]; [done|]. destruct (Z.eqb_spec q0 34) as [-> |]; [|done].
    exfalso. apply Hne. clear -Hk Hkb Hq. revert kb Hkb Hq.
    induction Hk as [|x k Hx Hk IH]; intros [|y kb] Hkb Hq; cbn in Hq.
    + done.
    + injection Hq as <- _. apply Forall_cons_1 in Hkb as [[Hb|Hb] _]; done.
    + injection Hq as -> _. by destruct Hx.
    + injection Hq as <- Hq. apply Forall_cons_1 in Hkb as [_ Hkb]. f_equal. by apply IH.
Qed.

(** The length guard of the loop only saves work. *)
Lemma starts_with_length l p : starts_with l p = true -> (length p <= length l)%nat.
Proof. intros [q ->]%(starts_with_app l p []). rewrite length_app. lia. Qed.

Lemma value_at_short s kb : (length s < length kb + 2)%nat -> value_at s kb = Some None.
Proof.
  intros H. destruct s as [|q r]; [done|]. unfold value_at. destruct (q =? 34); [|done].
  destruct (starts_with r kb) eqn:E; [|done]. apply starts_with_length in E. cbn [length andb] in *.
  assert (length (drop (length kb) r) = 0)%nat as Hd by (rewrite length_drop; lia).
  by destruct (drop (length kb) r).
Qed.

Lemma raw_short s kb : (length s < length kb + 2)%nat -> json_raw_value s kb = Some None.
Proof.
  intros H. destruct s as [|c r]; [done|]. cbn [json_raw_value].
  by destruct (Nat.leb_spec (length kb + 2) (length (c :: r))); [lia|].
Qed.

Lemma raw_cons c r kb :
  json_raw_value (c :: r) kb =
    (v ← value_at (c :: r) kb; match v with Some v => Some (Some v) | None => json_raw_value r kb end).
Proof.
  cbn [json_raw_value]. destruct (Nat.leb_spec (length kb + 2) (length (c :: r))); [done|].
  rewrite value_at_short by done. cbn [mbind option_bind length] in *. by rewrite raw_short by lia.
Qed.

Lemma raw_plain p s kb : Forall (fun b => b <> 34) p -> json_raw_value (p ++ s) kb = json_raw_value s kb.
Proof.
  induction 1 as [|b p Hb _ IH]; [done|]. cbn [app]. rewrite raw_cons. unfold value_at at 1.
  destruct (Z.eqb_spec b 34); [done|]. exact IH.
Qed.

Lemma raw_one b s kb : b <> 34 -> json_raw_value (b :: s) kb = json_raw_value s kb.
Proof. intros Hb. apply (raw_plain [b] s kb). by repeat constructor. Qed.

(** A quote before something that cannot start a key. *)
Lemma raw_quote b r kb :
  ~ key_char b -> b <> 34 -> Forall key_char kb -> json_raw_value (34 :: b :: r) kb = json_raw_value (b :: r) kb.
Proof.
  intros Hb Hb' Hk. rewrite raw_cons. replace (value_at _ kb) with (Some (@None (list Z))); [done|].
  unfold value_at. cbn [Z.eqb Pos.eqb andb]. destruct kb as [|y kb]; cbn [starts_with length drop].
  - by rewrite (proj2 (Z.eqb_neq _ _)) by done.
  - apply Forall_cons_1 in Hk as [Hy _]. destruct (Z.eqb_spec b y) as [-> |]; [done|]. by rewrite andb_false_l || done.
Qed.

Lemma sep_not_key sep : sep = 44 \/ sep = 125 -> ~ key_char sep /\ sep <> 34.
Proof. intros [-> | ->]; (split; [by intros [|]|done]). Qed.

(** A value is passed over, whatever the key. *)
Lemma raw_value v sep r kb :
  jval_ok v -> sep = 44 \/ sep = 125 -> Forall key_char kb ->
  json_raw_value (jval_text v ++ sep :: r) kb = json_raw_value (sep :: r) kb.
Proof.
  intros Hv Hs Hk. destruct (sep_not_key sep Hs) as [Hs1 Hs2].
  destruct v as [t|t]; cbn [jval_text jval_ok] in *.
  - apply raw_plain. eapply Forall_impl; [|apply Hv]. by intros b (? & _).
  - cbn [app]. rewrite <- app_assoc. cbn [app]. rewrite raw_cons.
    assert (Ht : Forall (fun b => b <> 34) t) by (eapply Forall_impl; [|exact Hv]; by intros b [? _]).
    replace (value_at _ kb) with (Some (@None (list Z))); cbn [mbind option_bind].
    { rewrite raw_plain by done. by apply raw_quote. }
    unfold value_at. cbn [Z.eqb Pos.eqb andb]. destruct (starts_with _ kb) eqn:E; [|done].
    apply (starts_with_app _ _ []) in E as [q Hq]. rewrite Hq, drop_app_length.
    destruct q as [|q0 q]; [done|]. destruct (Z.eqb_spec q0 34) as [-> |]; [|done].
    assert (q = sep :: r) as ->.
    { revert kb Hk Hq. induction Ht as [|x t Hx _ IH]; intros [|y kb] Hk Hq; cbn in Hq.
      - by injection Hq as <-.
      - injection Hq as <- _. by apply Forall_cons_1 in Hk as [[|] _].
      - by injection Hq as ->.
      - injection Hq as <- Hq. apply Forall_cons_1 in Hk as [_ Hk]. apply Forall_cons_1 in Hv as [_ Hv].
        by apply (IH Hv kb). }
    destruct Hs as [-> | ->]; reflexivity.
Qed.

Lemma raw_field f sep r kb :
  field_ok f -> Forall key_char kb -> sep = 44 \/ sep = 125 ->
  json_raw_value (field_text f ++ sep :: r) kb =
    if decide (f.1 = kb) then Some (Some (jval_text f.2)) else json_raw_value (sep :: r) kb.
Proof.
  intros Hf Hk Hs. pose proof (value_at_field f sep r kb Hf Hk Hs) as Hv.
  destruct f as [k v]. destruct Hf as [Hkk Hvv]. unfold field_text in *. cbn [fst snd app] in *.
  rewrite raw_cons, Hv. cbn [mbind option_bind]. destruct (decide (k = kb)); [done|].
  rewrite <- !app_assoc. cbn [app].
  rewrite raw_plain by (eapply Forall_impl; [|exact Hkk]; by intros b [H|H] ->).
  rewrite raw_quote by (done || by intros [|]).
  rewrite (raw_one 58) by done. by apply raw_value.
Qed.

Lemma raw_object fs kb :
  Forall field_ok fs -> Forall key_char kb ->
  json_raw_value (json_object fs) kb = Some (jval_text <$> lookup_field kb fs).
Proof.
  intros Hfs Hk. unfold json_object. rewrite raw_one by done.
  induction Hfs as [|f fs Hf Hfs IH].
  - cbn [fields_text lookup_field]. rewrite (raw_one 125) by done. done.
  - destruct f as [k v]. cbn [lookup_field].
    destruct fs as [|f' fs].
    + cbn [fields_text]. rewrite raw_field by auto. cbn [fst snd]. destruct (decide (k = kb)); [done|].
      by rewrite (raw_one 125) by done.
    + cbn [fields_text] in *. rewrite raw_field by auto. cbn [fst snd]. destruct (decide (k = kb)); [done|].
      rewrite (raw_one 44) by done. exact IH.
Qed.

(** ** Numbers *)

Definition signed_decimal (n : Z) : list Z := if n <? 0 then 45 :: decimal (- n) else decimal n.

Lemma json_digits_parse acc l :
  Forall (fun b => 48 <= b <= 57) l -> json_digits acc l = parse_digits 2147483648 acc l.
Proof.
  intros H. revert acc. induction H as [|b l Hb _ IH]; intros acc; [done|]. cbn [json_digits parse_digits].
  unfold is_ascii_digit. rewrite (proj2 (Z.leb_le 48 b)), (proj2 (Z.leb_le b 57)) by lia. cbn [andb].
  rewrite IH. destruct (Z.ltb_spec 2147483648 (acc * 10 + (b - 48))), (Z.leb_spec (acc * 10 + (b - 48)) 2147483648);
    done || lia.
Qed.

Lemma strip_none fuel ps b l :
  forallb (fun p => match p with [] => false | x :: _ => negb (x =? b) end) ps = true ->
  strip_all fuel ps (b :: l) = b :: l.
Proof.
  intros H. destruct fuel; [done|]. cbn [strip_all].
  replace (strip_first ps (b :: l)) with (@None (list Z)); [done|].
  induction ps as [|[|x p] ps IH]; cbn in *; [done..|]. zbool. rewrite <- IH by done.
  destruct (Z.eqb_spec x b); [done|]. by destruct (Z.eqb_spec b x).
Qed.

Lemma digit_not_blank b : 45 <= b <= 57 ->
  forallb (fun p => match p with [] => false | x :: _ => negb (x =? b) end) white_spaces = true /\
  forallb (fun p => match p with [] => false | x :: _ => negb (x =? b) end) (reverse <$> white_spaces) = true.
Proof.
  intros Hb.
  assert (H : forallZ 45 13 (fun b =>
    forallb (fun p => match p with [] => false | x :: _ => negb (x =? b) end) white_spaces &&
    forallb (fun p => match p with [] => false | x :: _ => negb (x =? b) end) (reverse <$> white_spaces)) = true)
    by (vm_compute; reflexivity).
  pose proof (forallZ_spec _ _ _ H b ltac:(lia)) as Hf. cbv beta in Hf. by apply andb_true_iff in Hf.
Qed.

Lemma trim_digits l : l <> [] -> Forall (fun b => 45 <= b <= 57) l -> trim l = l.
Proof.
  intros Hne Hl. unfold trim, trim_start, trim_end.
  destruct l as [|b r]; [done|]. pose proof (Forall_cons_1 _ _ _ Hl) as [Hb _].
  rewrite (strip_none _ _ b r) by (by apply digit_not_blank).
  destruct (reverse (b :: r)) as [|c q] eqn:E.
  { apply (f_equal reverse) in E. by rewrite reverse_involutive in E. }
  assert (45 <= c <= 57) as Hc.
  { apply (proj1 (Forall_reverse _ _)) in Hl || (apply Forall_reverse in Hl).
    rewrite E in Hl. by apply Forall_cons_1 in Hl as [? _]. }
  rewrite strip_none by (by apply digit_not_blank). rewrite <- E. apply reverse_involutive.
Qed.

Lemma signed_decimal_ok n :
  -2147483648 <= n <= 2147483647 ->
  signed_decimal n <> [] /\ Forall (fun b => 45 <= b <= 57) (signed_decimal n) /\
  json_number (signed_decimal n) = Some n.
Proof.
  intros Hn. unfold signed_decimal, json_number.
  assert (Hd : forall l, Forall (fun b => 48 <= b <= 57) l -> forallb is_ascii_digit l = true).
  { induction 1 as [|b l Hb _ IH]; [done|]. cbn [forallb]. rewrite IH.
    unfold is_ascii_digit. by rewrite !(proj2 (Z.leb_le _ _)) by lia. }
  assert (Hw : forall l, Forall (fun b => 48 <= b <= 57) l -> Forall (fun b => 45 <= b <= 57) l)
    by (intros l Hl; eapply Forall_impl; [|exact Hl]; intros; cbv beta in *; lia).
  assert (P10 : 2147483648 < 10 ^ 20) by reflexivity.
  destruct (Z.ltb_spec n 0).
  - destruct (parse_decimal (- n) 2147483648 ltac:(lia) ltac:(lia)) as (H1 & H2 & H3).
    split; [done|]. split; [apply Forall_cons_2; [lia|by apply Hw]|]. cbn [Z.eqb Pos.eqb].
    rewrite json_digits_parse, Hd by done. unfold parse_uint in H1.
    destruct (decimal (- n)) as [|b r]; [done|]. pose proof (Forall_cons_1 _ _ _ H2) as [Hb _].
    destruct (Z.eqb_spec b 43); [lia|]. cbn [andb negb orb length Nat.eqb] in *. rewrite H1. cbn [mbind option_bind].
    destruct (Z.ltb_spec (- - n) (-2147483648)), (Z.ltb_spec 2147483647 (- - n)); try lia. cbn [orb]. f_equal. lia.
  - destruct (parse_decimal n 2147483648 ltac:(lia) ltac:(lia)) as (H1 & H2 & H3).
    split; [done|]. split; [by apply Hw|]. unfold parse_uint in H1.
    destruct (decimal n) as [|b r] eqn:E; [done|]. pose proof (Forall_cons_1 _ _ _ H2) as [Hb _].
    destruct (Z.eqb_spec b 43); [lia|]. destruct (Z.eqb_spec b 45); [lia|].
    rewrite json_digits_parse, Hd by done. cbn [andb negb orb length Nat.eqb] in *. rewrite H1. cbn [mbind option_bind].
    destruct (Z.ltb_spec n (-2147483648)), (Z.ltb_spec 2147483647 n); try lia. done.
Qed.

(** the getters read a flat JSON object: for fields with names of letters,
    digits and underscores, an integer field of the range of [i32] is returned
    as its number, a string field without quotes and backslashes as its
    contents, and a missing field as absent; nothing panics, whatever the other
    fields hold, text that looks like the key included. *)
Theorem json_object_lookup (fs : list (list Z * jval)) (kb : list Z) :
  Forall field_ok fs -> Forall key_char kb ->
  let body := json_object fs in
  (lookup_field kb fs = None -> json_get_i32 body kb = Some None /\ json_get_str body kb = Some None) /\
  (forall n, -2147483648 <= n <= 2147483647 -> lookup_field kb fs = Some (JNum (signed_decimal n)) ->
    json_get_i32 body kb = Some (Some n)) /\
  (forall t, lookup_field kb fs = Some (JStr t) -> json_get_str body kb = Some (Some t)).
Proof.
  intros Hf Hk body. pose proof (raw_object fs kb Hf Hk) as Hr. fold body in Hr.
  unfold json_get_i32, json_get_str. rewrite Hr. cbn [mbind option_bind]. repeat split.
  - by rewrite H.
  - by rewrite H.
  - intros n Hn ->. cbn [fmap option_fmap option_map jval_text mbind option_bind].
    destruct (signed_decimal_ok n Hn) as (H1 & H2 & H3).
    rewrite from_utf8_ascii by (eapply Forall_impl; [|exact H2]; intros; cbv beta in *; lia).
    cbn [mbind option_bind]. rewrite trim_digits, H3 by done.
    destruct (signed_decimal n) as [|b r]; [done|]. apply Forall_cons_1 in H2 as [Hb _].
    rewrite !bool_decide_false by (vm_compute (bs _); intros [= -> _]; lia). done.
  - intros t ->. cbn [fmap option_fmap option_map jval_text mbind option_bind].
    assert (length (34 :: t ++ [34]) = S (S (length t))) as Hl by (cbn; rewrite length_app; cbn; lia).
    rewrite Hl. cbn [Nat.ltb Nat.leb orb lookup_total list_lookup_total Z.eqb Pos.eqb negb].
    replace (S (S (length t)) - 1)%nat with (S (length t)) by lia.
    assert ((34 :: t ++ [34]) !!! S (length t) = 34) as ->
      by (cbn; apply list_lookup_total_middle; done).
    cbn [Z.eqb Pos.eqb negb]. f_equal. apply (slice_app_exact [34] t [34]); cbn; lia.
Qed.

Definition json_demo : list (list Z * jval) :=
  [(bs "index", JNum (bs "18")); (bs "ip", JStr (bs "index")); (bs "value", JNum (signed_decimal (-5)))].

Lemma json_object_lookup_witness :
  Forall field_ok json_demo /\ Forall key_char (bs "value") /\
  json_get_i32 (json_object json_demo) (bs "value") = Some (Some (-5)) /\
  json_get_str (json_object json_demo) (bs "ip") = Some (Some (bs "index")).
Proof.
  assert (Hf : Forall field_ok json_demo).
  { repeat (apply Forall_cons_2; [split; cbn; [|split || idtac];
      repeat (apply Forall_cons_2 || apply Forall_nil_2 || (by left) || done)|]); constructor. }
  assert (Hk : Forall key_char (bs "value")) by (repeat (apply Forall_cons_2; [by left|]); constructor).
  assert (Hi : Forall key_char (bs "ip")) by (repeat (apply Forall_cons_2; [by left|]); constructor).
  split; [exact Hf|]. split; [exact Hk|]. split.
  - apply (json_object_lookup json_demo (bs "value") Hf Hk); [lia|reflexivity].
  - apply (json_object_lookup json_demo (bs "ip") Hf Hi). reflexivity.
Defined.

(** ** Panics *)

(** Without a backslash as its last byte a body is safe. *)
Lemma value_run_le in_str s : list.last s <> Some 92 -> (value_run in_str s <= length s)%nat.
Proof.
  revert in_str. induction s as [s IH] using (well_founded_induction (well_founded_ltof _ length)).
  intros in_str Hs. unfold ltof in IH. destruct s as [|c r]; [done|]. cbn [value_run length].
  assert (Hl : r <> [] -> list.last r <> Some 92) by (destruct r; [done|intros _; exact Hs]).
  assert (Hr : forall b, (value_run b r <= length r)%nat).
  { intros b. destruct r as [|x r]; [done|]. apply IH; [cbn; lia|]. by apply Hl. }
  destruct in_str.
  - destruct (Z.eqb_spec c 92) as [-> |]; [|specialize (Hr (negb (c =? 34))); lia].
    destruct r as [|x r]; [done|]. cbn [length].
    assert (value_run true r <= length r)%nat; [|lia].
    destruct r as [|y r]; [done|]. apply IH; [cbn; lia|]. by apply Hl.
  - pose proof (Hr true). pose proof (Hr false). destruct (c =? 34); [lia|]. destruct (_ || _); lia.
Qed.

Lemma last_drop (s : list Z) n : list.last s <> Some 92 -> list.last (drop n s) <> Some 92.
Proof.
  revert n. induction s as [|x s IH]; intros [|n] Hs; try done. cbn [drop skipn].
  destruct s as [|y s]; [by destruct n|]. apply IH. exact Hs.
Qed.

Lemma skip_blanks_drop s : exists n, skip_blanks s = drop n s.
Proof.
  induction s as [|b s [n IH]]; [by exists 0%nat|]. cbn [skip_blanks].
  destruct (_ || _); [by exists (S n)|by exists 0%nat].
Qed.

Lemma value_at_safe s kb : list.last s <> Some 92 -> exists v, value_at s kb = Some v.
Proof.
  intros Hs. destruct s as [|q r]; [by eexists|]. unfold value_at. destruct (_ && _); [|by eexists].
  pose proof (last_drop (q :: r) (S (length kb)) Hs) as H1. cbn [drop skipn] in H1.
  change (skipn (length kb) r) with (drop (length kb) r) in H1.
  destruct (drop (length kb) r) as [|q2 r2]; [by eexists|]. destruct (q2 =? 34); [|by eexists].
  destruct (skip_blanks_drop r2) as [n ->]. pose proof (last_drop (q2 :: r2) (S n) H1) as H2.
  cbn [drop skipn] in H2. change (skipn n r2) with (drop n r2) in H2.
  destruct (drop n r2) as [|col r3]; [by eexists|]. destruct (col =? 58); [|by eexists]. cbv zeta.
  destruct (skip_blanks_drop r3) as [k ->]. pose proof (last_drop (col :: r3) (S k) H2) as H3.
  cbn [drop skipn] in H3. change (skipn k r3) with (drop k r3) in H3.
  destruct (_ <? _)%nat; [|by eexists]. rewrite slice_ok; [by eexists|lia|by apply value_run_le].
Qed.

(** a request body whose last byte is not a backslash never makes the
    getters panic; but a body that ends in a backslash inside the string value
    of the key that is looked up always does: the scan steps over the byte after
    the backslash, one past the end, and the slice is out of range. *)
Theorem json_panic_trailing_escape (body pre kb t : list Z) :
  (list.last body <> Some 92 ->
    (exists r, json_get_i32 body kb = Some r) /\ (exists r, json_get_str body kb = Some r)) /\
  (Forall (fun b => b <> 34) pre -> Forall str_char t ->
    json_get_i32 (pre ++ 34 :: kb ++ [34; 58; 34] ++ t ++ [92]) kb = None).
Proof.
  split.
  - intros Hb. assert (exists v, json_raw_value body kb = Some v) as [v Hv].
    { induction body as [|c r IH]; [by eexists|]. rewrite raw_cons.
      destruct (value_at_safe (c :: r) kb Hb) as [[v|] ->]; [by eexists|]. apply IH.
      by destruct r. }
    unfold json_get_i32, json_get_str. rewrite Hv. cbn [mbind option_bind]. by split; eexists.
  - intros Hp Ht. unfold json_get_i32. rewrite raw_plain by done. rewrite raw_cons. unfold value_at.
    rewrite (proj1 (starts_with_app [] kb _)), drop_app_length. cbn [app Z.eqb Pos.eqb andb skip_blanks orb].
    replace (value_run false (34 :: t ++ [92])) with (3 + length t)%nat.
    + unfold slice. rewrite decide_False; [done|]. cbn [length]. rewrite length_app. cbn. lia.
    + cbn [value_run Z.eqb Pos.eqb]. change (3 + length t)%nat with (S (S (S (length t)))). f_equal.
      induction Ht as [|b t [H1 H2] _ IH]; [done|]. cbn [app value_run length].
      rewrite !(proj2 (Z.eqb_neq _ _)) by done. cbn [negb]. by rewrite <- IH.
Qed.

Lemma json_panic_trailing_escape_witness :
  (exists r, json_get_i32 (bs "{}") (bs "ts") = Some r) /\
  json_get_i32 (bs "{" ++ 34 :: bs "ts" ++ [34; 58; 34] ++ bs "a" ++ [92]) (bs "ts") = None.
Proof.
  split.
  - apply (json_panic_trailing_escape (bs "{}") [] (bs "ts") []). done.
  - apply (json_panic_trailing_escape [] (bs "{") (bs "ts") (bs "a")); repeat constructor; done.
Defined.

(** ** Queries and names *)

Definition pair_text (kv : list Z * list Z) : list Z := kv.1 ++ 61 :: kv.2.
Definition query_pair_ok (kv : list Z * list Z) : Prop :=
  Forall (fun b => b <> 38 /\ b <> 61) kv.1 /\ Forall (fun b => b <> 38) kv.2.

Fixpoint query_text (kvs : list (list Z * list Z)) : list Z :=
  match kvs with [] => [] | [kv] => pair_text kv | kv :: kvs => pair_text kv ++ 38 :: query_text kvs end.

Lemma query_pair_step kv ps key :
  query_pair_ok kv ->
  query_pairs (pair_text kv :: ps) key = if decide (kv.1 = key) then Some kv.2 else query_pairs ps key.
Proof.
  destruct kv as [k v]. intros [Hk Hv]. unfold pair_text. cbn [fst snd query_pairs] in *.
  assert (position (fun b => b =? 61) (k ++ 61 :: v) = Some (length k)) as ->.
  { induction Hk as [|b k [_ Hb] _ IH]; [done|]. cbn [app position]. rewrite IH.
    by rewrite (proj2 (Z.eqb_neq _ _)). }
  cbn [mbind option_bind]. rewrite take_app_length.
  assert ((length k + 1 <=? length (k ++ 61%Z :: v))%nat = true) as -> by (apply Nat.leb_le; rewrite length_app; cbn; lia).
  rewrite andb_true_r. destruct (decide (k = key)) as [-> |Hne].
  - rewrite bool_decide_true by done. f_equal. rewrite (app_assoc key [61] v : key ++ 61 :: v = _).
    apply drop_app_length'. rewrite length_app. done.
  - by rewrite bool_decide_false.
Qed.

(** [url_query_get] finds the first value of a key in a query string of
    key=value pairs. *)
Theorem url_query_lookup (kvs : list (list Z * list Z)) (key : list Z) :
  Forall query_pair_ok kvs -> kvs <> [] ->
  url_query_get (query_text kvs) key = snd <$> find (fun kv => bool_decide (kv.1 = key)) kvs.
Proof.
  intros H Hne. unfold url_query_get.
  assert (Hsp : split 38 (query_text kvs) = pair_text <$> kvs).
  { induction H as [|kv kvs Hkv H IH]; [done|].
    assert (Hp : Forall (fun b => b <> 38) (pair_text kv)).
    { destruct Hkv as [Hk Hv]. apply Forall_app_2; [eapply Forall_impl; [|exact Hk]; by intros b [? _]|].
      by apply Forall_cons_2. }
    destruct kvs as [|kv' kvs]; [by apply split_plain|].
    change (query_text (kv :: kv' :: kvs)) with (pair_text kv ++ 38 :: query_text (kv' :: kvs)).
    rewrite split_app, IH by done. done. }
  rewrite Hsp. clear Hne Hsp. induction H as [|kv kvs Hkv _ IH]; [done|].
  cbn [fmap list_fmap find]. rewrite query_pair_step by done.
  destruct (decide (kv.1 = key)); [by rewrite bool_decide_true|]. by rewrite bool_decide_false.
Qed.

Lemma url_query_lookup_witness :
  Forall query_pair_ok [(bs "name", bs "data_1.raw"); (bs "x", bs "2")] /\
  url_query_get (bs "name=data_1.raw&x=2") (bs "x") = Some (bs "2").
Proof.
  assert (H : Forall query_pair_ok [(bs "name", bs "data_1.raw"); (bs "x", bs "2")]).
  { repeat (apply Forall_cons_2; [split; cbn; repeat constructor; done|]). constructor. }
  split; [exact H|].
  exact (url_query_lookup [(bs "name", bs "data_1.raw"); (bs "x", bs "2")] (bs "x") H ltac:(done)).
Defined.

(** The names the recorder makes are names the web interface accepts. *)
Lemma hist_name_web_valid t : is_u32 t -> history_web_name_valid (make_hist_name t) = true.
Proof.
  intros Ht. pose proof (hist_name_parts t Ht) as H. destruct (hist_date t) as [[y m] d]. cbv zeta in H.
  destruct H as (-> & Hm & Hd).
  set (s := (t + 28800) mod 86400). assert (0 <= s < 86400) by (apply Z.mod_pos_bound; lia).
  assert (Hdig : forall x, 0 <= x < 10 ->
    is_ascii_alphanumeric (48 + as_u8 x) = true).
  { intros x Hx. unfold as_u8. rewrite Z.mod_small by lia. unfold is_ascii_alphanumeric, is_ascii_digit.
    by rewrite !(proj2 (Z.leb_le _ _)) by lia. }
  assert (Htwo : forall x, 0 <= x < 100 -> forallb (fun b => is_ascii_alphanumeric b || (b =? 46) || (b =? 95) || (b =? 45)) (two x) = true).
  { intros x Hx. unfold two. cbn [forallb]. by rewrite !Hdig by zdm. }
  unfold history_web_name_valid. rewrite !length_app. change (length (bs "data_")) with 5%nat.
  cbn [length two Nat.add Nat.ltb Nat.leb orb].
  rewrite (proj1 (starts_with_app [] (bs "data_") _)). cbn [negb].
  rewrite !forallb_app, !Htwo by zdm. reflexivity.
Qed.
