(* ===== verification/FtpArgs.v ===== *)
(** * FTP argument parsing (crates/proto/src/ftp.rs) *)
From S2P Require Import Prelude Text.

(** [for v in vals.iter_mut() { *v = it.next()?.parse().ok()?; }]: the values
    and what is left of the iterator. *)
Fixpoint parse_parts (n : nat) (max : Z) (it : list (list Z)) : option (list Z * list (list Z)) :=
  match n with
  | O => Some ([], it)
  | S n =>
      match it with
      | [] => None
      | p :: it =>
          v ← parse_uint max p;
          '(vs, it) ← parse_parts n max it;
          Some (v :: vs, it)
      end
  end.

(** [it.next().is_some_and(|s| !s.is_empty())] *)
Definition extra_data (it : list (list Z)) : bool :=
  match it with [] => false | s :: _ => negb (length s =? 0)%nat end.

Definition parse_port_arg (arg : list Z) : option (list Z * Z) :=
  '(vals, it) ← parse_parts 6 65535 (split 44 arg);
  if extra_data it then None
  else if existsb (fun v => 255 <? v) vals then None
  else Some (as_u8 <$> take 4 vals, Z.lor (as_u16 (Z.shiftl (vals !!! 4%nat) 8)) (vals !!! 5%nat)).

Definition parse_eprt_arg (arg : list Z) : option (list Z * Z) :=
  let it := split 124 arg in
  match it with
  | _ :: proto :: ip :: port :: it =>
      proto ← parse_uint 4294967295 proto;
      port ← parse_uint 65535 port;
      if extra_data it then None
      else if negb (proto =? 1) || (port =? 0) then None
      else
        '(a, iit) ← parse_parts 4 255 (split 46 ip);
        match iit with [] => Some (a, port) | _ => None end
  | _ => None
  end.

(** The unit tests of the source. *)
Example ftp_arg_tests :
  parse_port_arg (bs "192,168,12,101,7,208") = Some ([192; 168; 12; 101], 2000) /\
  parse_port_arg (bs "1,2,3") = None /\ parse_port_arg (bs "") = None /\
  parse_port_arg (bs "1,2,3,4,5,6,7") = None /\
  parse_port_arg (bs "1,2,3,4,5,6,") = parse_port_arg (bs "1,2,3,4,5,6") /\
  parse_port_arg (bs "1,2,3,4,5,,6") = None /\ parse_port_arg (bs "256,0,0,0,0,1") = None /\
  parse_eprt_arg (bs "|1|132.235.1.2|6275|") = Some ([132; 235; 1; 2], 6275) /\
  parse_eprt_arg (bs "|1|1.2.3|21|") = None /\ parse_eprt_arg (bs "|1|1.2.3.4.5|21|") = None /\
  parse_eprt_arg (bs "|1|1.2.3.4|0|") = None /\ parse_eprt_arg (bs "1|1.2.3.4|21|") = None.
Proof. vm_compute. repeat split; reflexivity. Qed.

(** ** Printing *)

Fixpoint join (c : Z) (ps : list (list Z)) : list Z :=
  match ps with [] => [] | [p] => p | p :: ps => p ++ c :: join c ps end.

Lemma split_join c ps :
  ps <> [] -> Forall (Forall (fun b => b <> c)) ps -> split c (join c ps) = ps.
Proof.
  intros Hne H. induction H as [|p ps Hp H IH]; [done|]. destruct ps as [|q ps]; [by apply split_plain|].
  change (join c (p :: q :: ps)) with (p ++ c :: join c (q :: ps)). by rewrite split_app, IH.
Qed.

Lemma decimal_plain n c :
  0 <= n < 10 ^ 20 -> c < 48 \/ 57 < c -> Forall (fun b => b <> c) (decimal n).
Proof.
  intros Hn Hc. destruct (parse_decimal n n ltac:(lia) ltac:(lia)) as (_ & H & _).
  eapply Forall_impl; [|exact H]. intros b Hb. cbv beta in *. lia.
Qed.

Lemma decimals_plain ns c :
  Forall (fun n => 0 <= n < 10 ^ 20) ns -> c < 48 \/ 57 < c -> Forall (Forall (fun b => b <> c)) (decimal <$> ns).
Proof. intros H Hc. induction H; cbn; constructor; auto. by apply decimal_plain. Qed.

Lemma parse_parts_decimal max ns it :
  Forall (fun n => 0 <= n <= max) ns -> max < 10 ^ 20 ->
  parse_parts (length ns) max ((decimal <$> ns) ++ it) = Some (ns, it).
Proof.
  intros H Hm. induction H as [|n ns Hn _ IH]; [done|]. rewrite fmap_cons. cbn [length app parse_parts].
  destruct (parse_decimal n max ltac:(lia) ltac:(lia)) as (-> & _). cbn [mbind option_bind].
  by rewrite IH.
Qed.

Lemma parse_digits_bound max acc l v : 0 <= acc <= max -> parse_digits max acc l = Some v -> 0 <= v <= max.
Proof.
  revert acc. induction l as [|b l IH]; intros acc Ha H; cbn [parse_digits] in H; [by injection H as <-|].
  unfold is_ascii_digit in H. destruct ((48 <=? b) && (b <=? 57)) eqn:E; [|done]. zbool.
  destruct (Z.leb_spec (acc * 10 + (b - 48)) max); [|done]. eapply IH; [|exact H]. lia.
Qed.

Lemma parse_uint_bound max l v : 0 <= max -> parse_uint max l = Some v -> 0 <= v <= max.
Proof.
  intros Hm. unfold parse_uint. destruct l as [|b r]; [done|].
  destruct (_ && _); [apply parse_digits_bound; lia|]. destruct (b =? 43); [done|]. apply parse_digits_bound. lia.
Qed.

Lemma parse_parts_bound n max it vs it' :
  0 <= max -> parse_parts n max it = Some (vs, it') -> length vs = n /\ Forall (fun v => 0 <= v <= max) vs.
Proof.
  intros Hm. revert it vs it'. induction n as [|n IH]; intros it vs it' H; cbn [parse_parts] in H.
  - injection H as <- _. split; [done|constructor].
  - destruct it as [|p it]; [done|]. destruct (parse_uint max p) eqn:E; [|done]. cbn [mbind option_bind] in H.
    destruct (parse_parts n max it) as [[vs' it1]|] eqn:E1; [|done]. cbn [mbind option_bind] in H. injection H as <- _.
    destruct (IH _ _ _ E1) as [H1 H2]. split; [cbn; lia|]. constructor; [by eapply parse_uint_bound|done].
Qed.

(** An endpoint the firmware can connect to. *)
Definition endpoint_ok (e : list Z * Z) : Prop := length e.1 = 4%nat /\ bytes_ok e.1 /\ is_u16 e.2.

Lemma port_arg_bound arg e : parse_port_arg arg = Some e -> endpoint_ok e.
Proof.
  destruct e as [ip p]. unfold parse_port_arg. destruct (parse_parts 6 65535 (split 44 arg)) as [[vals it]|] eqn:E; [|done].
  cbn [mbind option_bind]. destruct (extra_data it); [done|]. destruct (existsb (fun v => 255 <? v) vals) eqn:Hx; [done|]. intros [= <- <-].
  destruct (parse_parts_bound 6 65535 _ _ _ ltac:(lia) E) as [Hl Hv]. destruct vals as [|v0 [|v1 [|v2 [|v3 [|v4 [|v5 [|]]]]]]]; try discriminate Hl.
  cbn [existsb] in Hx. zbool. repeat apply Forall_cons_1 in Hv as [? Hv].
  split; [done|]. split; [cbn; repeat constructor; unfold as_u8; zdm|].
  cbn [snd lookup_total list_lookup_total]. unfold as_u16. rewrite Z.mod_small by (rewrite Z.shiftl_mul_pow2; lia).
  rewrite lor_shiftl_add by (simpl; lia). unfold is_u16. lia.
Qed.

Lemma eprt_arg_bound arg e : parse_eprt_arg arg = Some e -> endpoint_ok e.
Proof.
  destruct e as [ip p]. unfold parse_eprt_arg. destruct (split 124 arg) as [|? [|pr [|ipt [|pt it]]]]; try done.
  destruct (parse_uint 4294967295 pr) as [proto|]; [|done]. destruct (parse_uint 65535 pt) as [port'|] eqn:Ep; [|done].
  cbn [mbind option_bind]. destruct (extra_data it); [done|].
  destruct (_ || _); [done|]. destruct (parse_parts 4 255 (split 46 ipt)) as [[vals r]|] eqn:E; [|done].
  cbn [mbind option_bind]. destruct r; [|done]. intros [= -> ->].
  destruct (parse_parts_bound 4 255 _ _ _ ltac:(lia) E) as [Hl Hv]. pose proof (parse_uint_bound 65535 pt p ltac:(lia) Ep).
  split; [done|]. split; [|unfold is_u16; cbn; lia]. eapply Forall_impl; [|exact Hv]. intros v Hv'. cbv beta in Hv'. unfold is_u8. lia.
Qed.

Section Texts.
Variables a b c d port : Z.
Hypothesis (Ha : 0 <= a <= 255) (Hb : 0 <= b <= 255) (Hc : 0 <= c <= 255) (Hd : 0 <= d <= 255) (Hp : 0 <= port <= 65535).
Let ns : list Z := [a; b; c; d; port / 256; port mod 256].

Lemma port_numbers max : 255 <= max -> Forall (fun n => 0 <= n <= max) ns.
Proof. intros. repeat (apply Forall_cons_2; [zdm|]). constructor. Qed.

Lemma port_texts x : x < 48 \/ 57 < x -> Forall (Forall (fun b => b <> x)) (decimal <$> ns).
Proof.
  intros Hx. apply decimals_plain; [|done]. eapply Forall_impl; [|exact (port_numbers 255 ltac:(lia))].
  change (10 ^ 20) with 100000000000000000000. intros; cbv beta in *; lia.
Qed.

(** The six numbers, and what may follow them. *)
Lemma port_numbers_read txt it : split 44 txt = (decimal <$> ns) ++ it -> extra_data it = false -> parse_port_arg txt = Some ([a; b; c; d], port).
Proof.
  intros E Hit. unfold parse_port_arg. rewrite E. pose proof (parse_parts_decimal 65535 ns it (port_numbers 65535 ltac:(lia)) ltac:(done)) as Hq.
  change (length ns) with 6%nat in Hq. rewrite Hq. unfold ns. cbn [mbind option_bind]. rewrite Hit. cbn [existsb]. rewrite !(proj2 (Z.ltb_ge _ _)) by zdm.
  cbn [orb take firstn fmap list_fmap lookup_total list_lookup_total]. unfold as_u8, as_u16.
  rewrite !(Z.mod_small _ 256) by zdm. do 2 f_equal.
  rewrite Z.mod_small by (rewrite Z.shiftl_mul_pow2; zdm). rewrite lor_shiftl_add by (simpl; zdm). simpl. zdm.
Qed.

Lemma port_arg_text : parse_port_arg (join 44 (decimal <$> ns)) = Some ([a; b; c; d], port).
Proof. apply (port_numbers_read _ []); [|done]. rewrite app_nil_r. apply split_join; [done|apply port_texts; lia]. Qed.

Lemma port_arg_text_comma : parse_port_arg (join 44 (decimal <$> ns) ++ [44]) = Some ([a; b; c; d], port).
Proof.
  apply (port_numbers_read _ [[]]); [|done].
  replace (join 44 (decimal <$> ns) ++ [44]) with (join 44 ((decimal <$> ns) ++ [[]])).
  - apply split_join; [done|]. apply Forall_app_2; [apply port_texts; lia|repeat constructor].
  - unfold ns. cbn [fmap list_fmap join app]. repeat (rewrite <- ?app_assoc; cbn [app]). done.
Qed.

Lemma eprt_arg_text : port <> 0 ->
  parse_eprt_arg (join 124 [[]; [49]; join 46 (decimal <$> [a; b; c; d]); decimal port; []]) = Some ([a; b; c; d], port).
Proof.
  intros Hp0. assert (Hd1 : forall n, 0 <= n <= 65535 -> Forall (fun b => b <> 124) (decimal n))
    by (intros; apply decimal_plain; [change (10 ^ 20) with 100000000000000000000; lia|lia]).
  unfold parse_eprt_arg. rewrite split_join; [|done|].
  - change (parse_uint 4294967295 [49]) with (Some 1). destruct (parse_decimal port 65535 ltac:(lia) ltac:(lia)) as (-> & _).
    cbn [mbind option_bind extra_data length Nat.eqb negb].
    rewrite (proj2 (Z.eqb_neq port 0)) by done. cbn [Z.eqb Pos.eqb negb orb]. rewrite split_join; [|done|].
    + pose proof (parse_parts_decimal 255 [a; b; c; d] []) as Hq. rewrite app_nil_r in Hq.
      cbn [length] in Hq. rewrite Hq; [done| |done]. repeat (apply Forall_cons_2; [lia|]); constructor.
    + apply decimals_plain; [|lia]. change (10 ^ 20) with 100000000000000000000. repeat (apply Forall_cons_2; [lia|]); constructor.
  - repeat (apply Forall_cons_2; [try (apply Hd1; lia); try (repeat constructor; done)|]); [|constructor].
    cbn [fmap list_fmap join]. repeat first [apply Forall_app_2 | apply Forall_cons_2; [done|] | apply Hd1; lia].
Qed.
End Texts.

(** the arguments of PORT and EPRT.  Whatever the client sends, an accepted
    argument is a well-formed endpoint; and the text RFC 959 and RFC 2428 give an
    endpoint (port not 0 for EPRT) is accepted and parsed to that endpoint, with
    or without the trailing comma. *)
Theorem ftp_args_correct (arg : list Z) (a b c d port : Z) :
  (forall e, parse_port_arg arg = Some e \/ parse_eprt_arg arg = Some e -> endpoint_ok e) /\
  (is_u8 a -> is_u8 b -> is_u8 c -> is_u8 d -> is_u16 port ->
    let txt := join 44 (decimal <$> [a; b; c; d; port / 256; port mod 256]) in
    parse_port_arg txt = Some ([a; b; c; d], port) /\
    parse_port_arg (txt ++ [44]) = Some ([a; b; c; d], port) /\
    (port <> 0 ->
      parse_eprt_arg (join 124 [[]; [49]; join 46 (decimal <$> [a; b; c; d]); decimal port; []])
        = Some ([a; b; c; d], port))).
Proof.
  split; [intros e [H|H]; [by eapply port_arg_bound|by eapply eprt_arg_bound]|].
  intros Ha Hb Hc Hd Hp txt. unfold is_u8, is_u16 in *.
  split; [apply port_arg_text; lia|]. split; [apply port_arg_text_comma; lia|]. apply eprt_arg_text; lia.
Qed.

Lemma ftp_args_correct_witness :
  endpoint_ok ([192; 168; 12; 101], 2000) /\
  parse_eprt_arg (bs "|1|192.168.12.101|2000|") = Some ([192; 168; 12; 101], 2000).
Proof.
  split.
  - apply (ftp_args_correct (bs "192,168,12,101,7,208") 0 0 0 0 0). left. reflexivity.
  - apply (ftp_args_correct [] 192 168 12 101 2000); unfold is_u8, is_u16; lia.
Defined.
