(* ===== verification/Channels.v ===== *)
(** * The command lanes of the storage task (crates/firmware/src/storage.rs)

    Producers never touch the flash: they put commands on one of two bounded
    channels.  The channel is [embassy_sync::channel::Channel], of which the
    firmware uses [try_send] (refused when full) and [receive] (oldest first). *)
From S2P Require Import Prelude History.

Definition FtpPath := list Z.

Inductive FtpWrMode := Trunc | Append | Rest (pos : Z).

Inductive StorageCmd :=
| Write (d : HisData)
| CloseKeepName
| Sync
| CfgSave
| CfgEraseAll
| SnapReq
| Del (name : list Z)
| FileOpen (name : list Z)
| FileChunk
| FtpStat (path : FtpPath)
| FtpLs (path : FtpPath)
| FtpOpenRead (slot : Z) (path : FtpPath) (rest : Z)
| FtpOpenWrite (slot : Z) (path : FtpPath) (mode : FtpWrMode)
| FtpWriteChunk (slot : Z) (len : nat)
| FtpCloseWrite (slot : Z)
| FtpReadChunk (slot : Z)
| FtpRemove (path : FtpPath)
| FtpMkdir (path : FtpPath)
| FtpRename (from to : FtpPath).

(** The statics [QUEUE] and [CTRL_QUEUE]. *)
Record Lanes := mkLanes { queue : list StorageCmd; ctrl_queue : list StorageCmd }.
Definition QUEUE_CAP : nat := 8.
Definition CTRL_QUEUE_CAP : nat := 4.

Definition try_send {A} (cap : nat) (x : A) (q : list A) : bool * list A :=
  if (length q <? cap)%nat then (true, q ++ [x]) else (false, q).

Definition queue_send (c : StorageCmd) (l : Lanes) : Lanes :=
  mkLanes (snd (try_send QUEUE_CAP c (queue l))) (ctrl_queue l).
Definition ctrl_send (c : StorageCmd) (l : Lanes) : Lanes :=
  mkLanes (queue l) (snd (try_send CTRL_QUEUE_CAP c (ctrl_queue l))).

Definition lanes_wf (l : Lanes) : Prop :=
  (length (queue l) <= QUEUE_CAP)%nat /\ (length (ctrl_queue l) <= CTRL_QUEUE_CAP)%nat.

Lemma try_send_cap {A} cap (x : A) q : (length q <= cap)%nat -> (length (try_send cap x q).2 <= cap)%nat.
Proof.
  intros H. unfold try_send. destruct (Nat.ltb_spec (length q) cap); cbn; [|done].
  rewrite length_app. cbn. lia.
Qed.

Lemma try_send_keeps {A} cap (x : A) q : exists r, (try_send cap x q).2 = q ++ r.
Proof. unfold try_send. destruct (_ <? _)%nat; cbn; [by exists [x]|exists []; by rewrite app_nil_r]. Qed.

Lemma queue_send_wf c l : lanes_wf l -> lanes_wf (queue_send c l).
Proof. intros [H1 H2]. split; [by apply try_send_cap|done]. Qed.
Lemma ctrl_send_wf c l : lanes_wf l -> lanes_wf (ctrl_send c l).
Proof. intros [H1 H2]. split; [done|by apply try_send_cap]. Qed.
