(* ===== verification/System.v ===== *)
(** * Time, reboot, outputs and the register hooks
      (crates/firmware/src/{systime,reboot,io_gpio,appstate}.rs)

    The statics of these files are one record; [ticks] is the free-running 64-bit
    tick counter of [embassy_time] and [tick_khz] its [TICK_HZ / 1000]. *)
From S2P Require Import Prelude TimeMath RegMap UdpCfg History Channels.

Record Sys := mkSys {
  epoch : Z;                       (* systime::EPOCH *)
  rtc : option Civil;              (* systime::RTC, with the time it holds *)
  deadline_ms : Z;                 (* reboot::DEADLINE_MS *)
  reboot_at : option Z;            (* appstate::REBOOT_AT *)
  do_outs : list (option bool);    (* io_gpio::DO, with the pin levels *)
  led_outs : list (option bool);   (* io_gpio::LED *)
  lanes : Lanes;                   (* storage::QUEUE and CTRL_QUEUE *)
  ticks : Z;
  tick_khz : Z
}.

Definition set_epoch (v : Z) (s : Sys) : Sys :=
  mkSys v (rtc s) (deadline_ms s) (reboot_at s) (do_outs s) (led_outs s) (lanes s) (ticks s) (tick_khz s).
Definition set_rtc (v : option Civil) (s : Sys) : Sys :=
  mkSys (epoch s) v (deadline_ms s) (reboot_at s) (do_outs s) (led_outs s) (lanes s) (ticks s) (tick_khz s).
Definition set_deadline (v : Z) (s : Sys) : Sys :=
  mkSys (epoch s) (rtc s) v (reboot_at s) (do_outs s) (led_outs s) (lanes s) (ticks s) (tick_khz s).
Definition set_reboot_at (v : option Z) (s : Sys) : Sys :=
  mkSys (epoch s) (rtc s) (deadline_ms s) v (do_outs s) (led_outs s) (lanes s) (ticks s) (tick_khz s).
Definition set_outs (d l : list (option bool)) (s : Sys) : Sys :=
  mkSys (epoch s) (rtc s) (deadline_ms s) (reboot_at s) d l (lanes s) (ticks s) (tick_khz s).
Definition set_lanes (v : Lanes) (s : Sys) : Sys :=
  mkSys (epoch s) (rtc s) (deadline_ms s) (reboot_at s) (do_outs s) (led_outs s) v (ticks s) (tick_khz s).
Definition at_ticks (t : Z) (s : Sys) : Sys :=
  mkSys (epoch s) (rtc s) (deadline_ms s) (reboot_at s) (do_outs s) (led_outs s) (lanes s) t (tick_khz s).

(** ** systime.rs *)

(** [provider] is the reading of the RTC at boot, if it gives one. *)
Definition systime_init (provider : option Civil) (rtc0 : Civil) (s : Sys) : Sys :=
  let e := match provider with
           | Some dt => if (2000 <=? year dt) && (year dt <=? 2099) then civil_to_unix dt else TS_DEFAULT
           | None => TS_DEFAULT
           end in
  set_rtc (Some rtc0) (set_epoch e s).

Definition LOCAL_OFFSET_SECS : Z := 8 * 3600.
Definition now_epoch_local (s : Sys) : Z := as_u32 (epoch s + LOCAL_OFFSET_SECS).
Definition tick_1hz (s : Sys) : Sys := set_epoch (as_u32 (epoch s + 1)) s.

Definition systime_set_timestamp (ts : Z) (s : Sys) : bool * Sys :=
  if negb (ts_valid ts) then (false, s) else
  let c := unix_to_civil ts in
  let s := match rtc s with Some _ => set_rtc (Some c) s | None => s end in
  (true, set_epoch ts s).

(** ** reboot.rs *)

(** [as_ticks() as u32 / (TICK_HZ as u32 / 1000)] *)
Definition now_ms (s : Sys) : Z := as_u32 (ticks s) / tick_khz s.

Definition schedule_delayed_ms (ms : Z) (s : Sys) : Sys := set_deadline (as_u32 (now_ms s + ms)) s.
Definition cold (s : Sys) : Sys := schedule_delayed_ms 100 s.
Definition graceful (s : Sys) : Sys := schedule_delayed_ms 3000 s.
Definition cancel (s : Sys) : Sys := set_deadline 0 s.

Definition due (s : Sys) : bool * Sys :=
  let d := deadline_ms s in
  if d =? 0 then (false, s)
  else if wrapping_sub_u32 (now_ms s) d <? 0x80000000 then (true, set_deadline 0 s)
  else (false, s).

(** ** io_gpio.rs *)

Definition drive (outs : list (option bool)) (val : Z) : list (option bool) :=
  imap (fun i o => (fun _ : bool => negb (Z.land (Z.shiftr val (Z.of_nat i)) 1 =? 0)) <$> o) outs.

Definition set_do_led (val : Z) (s : Sys) : Sys :=
  set_outs (drive (do_outs s) val) (drive (led_outs s) val) s.

Definition do_byte (s : Sys) : Z :=
  foldl (fun v '(i, o) => match o with Some true => Z.lor v (Z.shiftl 1 (Z.of_nat i)) | _ => v end)
    0 (imap (fun i o => (i, o)) (do_outs s)).

(** ** appstate.rs *)

Definition VERSION_REG (major minor patch : Z) : Z :=
  Z.lor (Z.lor (as_u16 (Z.shiftl major 12)) (as_u16 (Z.shiftl minor 8))) patch.

(** Milliseconds since boot, 64-bit. *)
Definition as_millis (s : Sys) : Z := ticks s / tick_khz s.

Definition set_reboot_status (on : bool) (s : Sys) : Sys :=
  set_reboot_at (if on then Some (as_millis s + 250) else None) s.

Definition reboot_due (s : Sys) : Sys :=
  match reboot_at s with
  | Some t => if t <=? as_millis s then cold (set_reboot_at None s) else s
  | None => s
  end.

#[export] Instance Hooks : RegHooks Sys := {|
  set_do := set_do_led;
  set_timestamp := systime_set_timestamp;
  holding_save s := set_lanes (ctrl_send CfgSave (lanes s)) s;
  history_enable_write en s := if en then s else set_lanes (queue_send CloseKeepName (lanes s)) s;
  history_sync s := set_lanes (queue_send Sync (lanes s)) s;
  reboot_cold := cold;
  now_epoch := epoch
|}.

#[export] Instance Cfg : CfgHooks Sys := {|
  config_erase_all s := set_lanes (ctrl_send CfgEraseAll (lanes s)) s
|}.

(** ** The delayed reboot *)

Lemma now_ms_bound s : 4 <= tick_khz s -> 0 <= now_ms s <= 4294967295 / tick_khz s.
Proof.
  intros Hk. unfold now_ms. pose proof (as_u32_range (ticks s)) as Ht. unfold is_u32 in Ht.
  split; [apply Z.div_pos; lia|]. apply Z.div_le_mono; lia.
Qed.

(** the delayed reboot.  After [schedule_delayed_ms], as long as the 32-bit
    part of the tick counter has not wrapped, [due] says yes exactly from the
    deadline on, and only once.  But when the deadline lies past the last
    millisecond before the wrap, [due] never says yes again, at any later time:
    [now_ms] divides after the cast and so restarts from 0 at the wrap, and the
    wrapping subtraction does not compensate for that. *)
Theorem reboot_deadline (s : Sys) (ms t' : Z) :
  4 <= tick_khz s -> 0 < ms <= 60000 ->
  let d := now_ms s + ms in
  let s1 := at_ticks t' (schedule_delayed_ms ms s) in
  (d <= 4294967295 / tick_khz s -> fst (due s1) = (d <=? now_ms s1) /\
     (fst (due s1) = true -> fst (due (snd (due s1))) = false)) /\
  (4294967295 / tick_khz s < d -> fst (due s1) = false).
Proof.
  intros Hk Hms d s1.
  assert (Hq : 4294967295 / tick_khz s <= 1073741824) by (apply Z.div_le_upper_bound; lia).
  pose proof (now_ms_bound s Hk) as Hn. pose proof (now_ms_bound s1 Hk) as Hn1.
  change (tick_khz s1) with (tick_khz s) in Hn1.
  assert (Hd : deadline_ms s1 = d).
  { unfold s1, schedule_delayed_ms. cbn. apply as_u32_id. unfold is_u32, d. lia. }
  assert (Hfst : fst (due s1) = (wrapping_sub_u32 (now_ms s1) d <? 0x80000000)).
  { unfold due. rewrite Hd. rewrite (proj2 (Z.eqb_neq d 0)) by (unfold d; lia). by destruct (_ <? _). }
  assert (Hw : (wrapping_sub_u32 (now_ms s1) d <? 0x80000000) = (d <=? now_ms s1)).
  { unfold wrapping_sub_u32, as_u32. destruct (Z.leb_spec d (now_ms s1)).
    - rewrite Z.mod_small by lia. apply Z.ltb_lt. lia.
    - apply Z.ltb_ge. assert (d <= 1073801824) by (unfold d; lia). clear - H H0 Hn1 Hn Hms. zdm. }
  rewrite Hfst, Hw. split.
  - intros _. split; [done|]. intros Hdue. unfold due at 2. rewrite Hd, Hw, Hdue.
    destruct (d =? 0) eqn:E; [blia|]. reflexivity.
  - intros Hlate. apply Z.leb_gt. lia.
Qed.

Definition sys_demo : Sys :=
  mkSys 0 None 0 None [Some false] [Some false] (mkLanes [] []) 4294960000 1000.

Lemma reboot_deadline_witness :
  fst (due (at_ticks 8000000000 (cold sys_demo))) = false /\
  fst (due (at_ticks 200000 (cold (at_ticks 5000 sys_demo)))) = true.
Proof.
  split.
  - apply (reboot_deadline sys_demo 100 8000000000); [cbn; lia|lia|reflexivity].
  - unfold cold.
    rewrite (proj1 (proj1 (reboot_deadline (at_ticks 5000 sys_demo) 100 200000 ltac:(cbn; lia) ltac:(lia))
      ltac:(vm_compute; discriminate))).
    reflexivity.
Defined.

(** ** Time across a restart *)

(** The days of the years before 2000 and after 2099. *)
Lemma days_year y m d : 1970 <= y <= 2106 -> 1 <= m <= 12 -> 1 <= d <= 31 ->
  (y <= 1999 -> days_from_civil y m d <= 10956) /\ (2100 <= y -> 47482 <= days_from_civil y m d).
Proof.
  intros Hy Hm Hd. unfold days_from_civil. set (y' := if m <=? 2 then y - 1 else y).
  assert (m <= 2 /\ y' = y - 1 \/ 3 <= m /\ y' = y) as Hc by (unfold y'; destruct (Z.leb_spec m 2); lia). clearbody y'.
  rewrite (proj2 (Z.leb_le 0 y')) by lia. rewrite (Z.quot_div_nonneg y') by lia.
  assert (0 <= y' - y' / 400 * 400) as H0 by zdm. rewrite !(Z.quot_div_nonneg (y' - y' / 400 * 400)) by lia.
  assert (0 <= (m + 9) mod 12) as H1 by zdm. rewrite (Z.quot_div_nonneg (153 * ((m + 9) mod 12) + 2)) by lia.
  set (dy := (153 * ((m + 9) mod 12) + 2) / 5).
  assert (m <= 2 /\ 306 <= dy <= 337 \/ 3 <= m /\ 0 <= dy <= 275) as Hb by (unfold dy; zdm). clearbody dy. clear H0 H1.
  split; intros; zdm.
Qed.

Lemma year_window z : 10957 <= z < 47482 -> 2000 <= (civil_from_days z).1.1 <= 2099.
Proof.
  intros Hz. destruct (civil_from_days z) as [[y m] d] eqn:E. cbn [fst].
  destruct (civil_from_days_facts z y m d ltac:(lia) E) as (Hd & _ & Hy & Hm & Hdm).
  pose proof (days_in_month_le y m). pose proof (days_year y m d ltac:(lia) ltac:(lia) ltac:(lia)) as [A B]. lia.
Qed.

(** a time set through any interface survives a restart: the cache holds it
    at once, and a boot that reads the RTC gets the same epoch back; except the
    last instant the gate lets in, 2100-01-01, which the boot refuses and
    replaces by 2020-01-01. *)
Theorem set_time_restart (s : Sys) (ts : Z) (c0 : Civil) :
  rtc s = Some c0 ->
  let '(ok, s1) := systime_set_timestamp ts s in
  (ok = ts_valid ts) /\ (ok = false -> s1 = s) /\
  (ok = true -> epoch s1 = ts /\
     epoch (systime_init (rtc s1) c0 s) = if ts =? TS_MAX then TS_DEFAULT else ts).
Proof.
  intros Hr. unfold systime_set_timestamp. destruct (ts_valid ts) eqn:Hv; cbn [negb]; [|done].
  split; [done|]. split; [done|]. intros _. rewrite Hr. cbn [rtc epoch set_epoch set_rtc].
  split; [done|]. unfold systime_init. cbn [epoch set_epoch set_rtc].
  assert (Hts : TS_MIN <= ts <= TS_MAX) by (unfold ts_valid in Hv; blia).
  unfold TS_MIN, TS_MAX in *.
  assert (Hu : is_u32 ts) by (unfold is_u32; lia).
  destruct (unix_civil_roundtrip ts Hu) as (Hrt & _).
  destruct (Z.eqb_spec ts 4102444800) as [-> |Hne]; [reflexivity|].
  rewrite Hrt. assert (2000 <= year (unix_to_civil ts) <= 2099) as Hy; [|].
  2:{ by rewrite (proj2 (Z.leb_le 2000 _)), (proj2 (Z.leb_le _ 2099)) by lia. }
  destruct (unix_to_civil_fields ts Hu) as (Hd & _).
  pose proof (year_window (ts / 86400) ltac:(zdm)) as Hy. rewrite <- Hd in Hy. exact Hy.
Qed.

Lemma set_time_restart_witness :
  rtc (set_rtc (Some (unix_to_civil 0)) sys_demo) = Some (unix_to_civil 0) /\
  let '(ok, s1) := systime_set_timestamp 1767225600 (set_rtc (Some (unix_to_civil 0)) sys_demo) in
  (ok = ts_valid 1767225600) /\ (ok = false -> s1 = set_rtc (Some (unix_to_civil 0)) sys_demo) /\
  (ok = true -> epoch s1 = 1767225600 /\
     epoch (systime_init (rtc s1) (unix_to_civil 0) (set_rtc (Some (unix_to_civil 0)) sys_demo)) =
       if 1767225600 =? TS_MAX then TS_DEFAULT else 1767225600).
Proof.
  split; [reflexivity|].
  exact (set_time_restart (set_rtc (Some (unix_to_civil 0)) sys_demo) 1767225600 (unix_to_civil 0) eq_refl).
Defined.
