(* ===== verification/Outputs.v ===== *)
(** * From a request to the pins

    The digital outputs and their LED mirror show the DO register: the register
    map, the Modbus server and the hooks of the firmware put together. *)
From S2P Require Import Prelude RegMap MbServer MbSpec Channels System.

(** The eight outputs exist and show the low byte of the DO register. *)
Definition shows (outs : list (option bool)) (v : Z) : Prop :=
  forall i, (i < 8)%nat -> outs !! i = Some (Some (Z.testbit v (Z.of_nat i))).
Definition pins_show (r : RegMap) (s : Sys) : Prop :=
  shows (do_outs s) (holding r !!! HOLDING_DO_IDX) /\ shows (led_outs s) (holding r !!! HOLDING_DO_IDX).

Lemma drive_shows outs v w :
  shows outs v -> shows (drive outs w) w.
Proof.
  intros Ho i Hi. unfold drive. rewrite list_lookup_imap, (Ho i Hi). cbn [fmap option_fmap option_map].
  by rewrite shift_bit by lia.
Qed.

Lemma shows_ext outs v w :
  (forall i, 0 <= i < 8 -> Z.testbit v i = Z.testbit w i) -> shows outs v -> shows outs w.
Proof. intros He Ho i Hi. rewrite (Ho i Hi). do 2 f_equal. apply He. lia. Qed.

Lemma mod_256_bits v i : 0 <= i < 8 -> Z.testbit (v mod 256) i = Z.testbit v i.
Proof. intros Hi. change 256 with (2 ^ 8). by rewrite Z.mod_pow2_bits_low by lia. Qed.

(** Requests that are not for the outputs leave them alone. *)
Definition not_do (e : event) : Prop := match e with EvSetDo _ => False | _ => True end.

Lemma apply_event_outs s e :
  not_do e -> do_outs (apply_event s e) = do_outs s /\ led_outs (apply_event s e) = led_outs s.
Proof.
  destruct e as [v|[]|ts| | |]; cbn; try done. intros _. unfold systime_set_timestamp.
  destruct (negb _); [done|]. by destruct (rtc s).
Qed.

Lemma apply_events_outs s es :
  Forall not_do es -> do_outs (apply_events s es) = do_outs s /\ led_outs (apply_events s es) = led_outs s.
Proof.
  intros H. revert s. induction H as [|e es He _ IH]; intros s; [done|].
  change (apply_events s (e :: es)) with (apply_events (apply_event s e) es).
  destruct (apply_event_outs s e He) as [<- <-]. apply IH.
Qed.

Lemma write_events_not_do r i reg : i <> HOLDING_DO_IDX -> Forall not_do (write_events r i reg).
Proof. intros Hi. unfold write_events. repeat case_decide; try done; repeat case_match; repeat constructor. Qed.

Lemma run_wr_shows w r s :
  wr_ok w -> reg_inv r -> pins_show r s -> pins_show (run_wr (r, s) w).1 (run_wr (r, s) w).2.
Proof.
  intros Hw Hinv [Hd Hl]. pose proof Hinv as (Hwf & _). destruct w as [b st|a v]; cbn [run_wr fst snd wr_ok] in *.
  - destruct (decide (b < 8)).
    + rewrite io_write_do_bit_eq by (done || lia). cbn [fst snd].
      unfold pins_show. cbn [holding set_holding do_outs led_outs set_do Hooks set_do_led set_outs].
      destruct Hwf as (Hlh & _). rewrite list_lookup_total_insert_eq by (rewrite Hlh; unfold HOLDING_DO_IDX, MODBUS_HOLDING_REGISTER_NUMBERS; lia).
      split; by eapply drive_shows.
    + unfold io_write_do_bit, DO_NUM. destruct (Z.leb_spec 8 b); [done|lia].
  - destruct (io_write_holding_cases a v r s Hinv) as [[-> _]|(r' & -> & -> & _ & Hlt)]; [tauto..|done|].
    cbn [fst snd]. destruct Hwf as (Hlh & _). unfold MODBUS_HOLDING_REGISTER_NUMBERS in Hlh.
    unfold pins_show. cbn [holding set_holding].
    destruct (decide (Z.to_nat a = HOLDING_DO_IDX)) as [E|E].
    + rewrite E in *. rewrite list_lookup_total_insert_eq by lia. unfold write_events.
      rewrite (decide_True _ _ (eq_refl HOLDING_DO_IDX)).
      assert (stored HOLDING_DO_IDX v = v) as -> by reflexivity.
      case_decide as Hsame.
      * rewrite (list_lookup_total_correct _ _ _ Hsame) in Hd, Hl. done.
      * cbn [apply_events foldl apply_event set_do Hooks set_do_led set_outs do_outs led_outs].
        split; (eapply shows_ext; [|by eapply drive_shows]); intros; by apply mod_256_bits.
    + rewrite list_lookup_total_insert_ne by done.
      destruct (apply_events_outs s (write_events r (Z.to_nat a) v) (write_events_not_do _ _ _ E)) as [-> ->]. done.
Qed.

Lemma run_writes_shows ws r s :
  Forall wr_ok ws -> reg_inv r -> pins_show r s ->
  pins_show (run_writes ws (r, s)).1 (run_writes ws (r, s)).2.
Proof.
  intros Hws. revert r s. induction Hws as [|w ws Hw _ IH]; intros r s Hinv Hp; [done|].
  pose proof (run_wr_shows w r s Hw Hinv Hp) as H1.
  pose proof (run_writes_inv [w] (r, s) ltac:(by repeat constructor) Hinv) as H2.
  cbn [run_writes foldl] in *. destruct (run_wr (r, s) w) as [r1 s1]. cbn [fst snd] in *. by apply IH.
Qed.

(** The writes a request asks for are well formed. *)
Lemma be_words_u16 l : bytes_ok l -> words_ok (be_words l).
Proof.
  induction l as [l IH] using (well_founded_induction (well_founded_ltof _ length)).
  intros Hl. destruct l as [|a [|b l]]; cbn [be_words]; [constructor..|]. bytes_inv.
  apply Forall_cons_2; [unfold is_u8, is_u16 in *; lia|]. apply IH; [unfold ltof; cbn; lia|done].
Qed.

Lemma bit_writes_ok addr data n : 0 <= addr -> Forall wr_ok (bit_writes addr data n).
Proof. intros Ha. unfold bit_writes. apply Forall_fmap, Forall_lookup_2. intros i x _. cbn. lia. Qed.

Lemma reg_writes_ok addr ws : 0 <= addr -> words_ok ws -> Forall wr_ok (reg_writes addr ws).
Proof.
  intros Ha Hw. apply Forall_lookup_2. intros i w Hi. unfold reg_writes in Hi. rewrite list_lookup_imap in Hi.
  destruct (ws !! i) as [v|] eqn:E; [|done]. injection Hi as <-. cbn. split; [lia|].
  exact (Forall_lookup_1 _ _ _ _ Hw E).
Qed.

Lemma write_spec_ok fc d : bytes_ok d -> Forall wr_ok (write_spec fc d).2.
Proof.
  intros Hd. unfold write_spec.
  destruct d as [|a1 [|a0 [|q1 [|q0 [|nb [|x data]]]]]]; try constructor; bytes_inv.
  all: unfold is_u8 in *; repeat case_decide; cbn [snd];
    first [ apply bit_writes_ok; lia
          | apply reg_writes_ok; [lia|apply Forall_take, be_words_u16; by apply bytes_ok_cons]
          | repeat constructor; cbn [wr_ok]; unfold is_u16; lia ].
Qed.

Lemma mb_spec_writes_ok fc d dg r (s : Sys) : bytes_ok d -> Forall wr_ok (mb_spec fc d dg r s).2.
Proof.
  intros Hd. pose proof (write_spec_ok fc d Hd) as Hw. unfold mb_spec, settle, mb_core.
  repeat case_decide; cbn [snd]; repeat case_match; cbn [snd] in *; simplify_eq; try constructor; done.
Qed.

(** the outputs of the box show the DO register: if they do before a Modbus
    request (TCP or RTU, they share [process]), they do after it, for every
    request whatever: single coil, single register, several of each, in whole or
    up to the first address that does not exist; the LED mirror as well. *)
Theorem process_drives_outputs (fc : Z) (d : list Z) (srv : MbServer) (out : list Z) (r : RegMap) (s : Sys) :
  bytes_ok (fc :: d) -> Z.of_nat (length d) <= 65535 -> reg_inv r -> diag_wf (diag srv) ->
  (MB_SERVER_PDU_MAX <= length out)%nat -> pins_show r s ->
  exists n srv' out' r' s', process (fc :: d) srv out r s = Some (n, srv', out', r', s') /\ pins_show r' s'.
Proof.
  intros Hb Hlen Hr Hs Hout Hp. pose proof Hb as [_ Hd]%bytes_ok_inv.
  pose proof (process_spec fc d srv out r s Hb Hlen Hr Hs Hout) as A.
  pose proof (mb_spec_writes_ok fc d (diag srv) r s Hd) as W.
  destruct (mb_spec fc d (diag srv) r s) as [[rep dg] ws]. destruct A as (out' & E & _).
  do 5 eexists. split; [exact E|]. by apply run_writes_shows.
Qed.

Definition outputs_demo : Sys :=
  mkSys 0 None 0 None (replicate 8 (Some false)) (replicate 8 (Some false)) (mkLanes [] []) 0 1000.

Lemma process_drives_outputs_witness :
  pins_show (RegMap_new 7) outputs_demo /\
  exists n srv' out' r' s',
    process [5; 0; 3; 0xFF; 0] MbServer_new (replicate 256 0) (RegMap_new 7) outputs_demo =
      Some (n, srv', out', r', s') /\ pins_show r' s'.
Proof.
  assert (Hp : pins_show (RegMap_new 7) outputs_demo).
  { split; intros i Hi; do 8 (destruct i as [|i]; [reflexivity|]); lia. }
  split; [exact Hp|].
  apply (process_drives_outputs 5 [0; 3; 0xFF; 0] MbServer_new (replicate 256 0) (RegMap_new 7) outputs_demo).
  - repeat (apply bytes_ok_cons; [unfold is_u8; lia|]). constructor.
  - cbn. lia.
  - apply RegMap_new_inv. unfold is_u16. lia.
  - split; [done|]. repeat constructor; unfold is_u16; lia.
  - rewrite length_replicate. unfold MB_SERVER_PDU_MAX. lia.
  - exact Hp.
Defined.
