(* ===== verification/Sampling.v ===== *)
(** * Input sampling (crates/proto/src/adc_math.rs, crates/firmware/src/sampling.rs)

    One turn of each task: [pins] are the levels read from the sixteen inputs,
    [raws] the results of the four conversions, [lanes] the storage queues. *)
From S2P Require Import Prelude RegMap History Channels.

Definition AI_COEFF : list Z := [7414; 7414; 3704; 3704].

(** [raw] is an [i32]; the divisions truncate. *)
Definition ai_convert (ch : nat) (raw : Z) : Z :=
  let voltage_mv := Z.quot (raw * 3300) 4096 in
  as_u16 (as_u64 (AI_COEFF !!! ch * as_u64 voltage_mv) / 10000).

Definition SAMPLE_INTERVAL_MAX : Z := 5000.

Definition clamp_interval (v : Z) : Z :=
  if v <=? 9 then 10 else if SAMPLE_INTERVAL_MAX <? v then SAMPLE_INTERVAL_MAX else v.

Definition send_history_data (d : HisData) (l : Lanes) : Lanes := queue_send (Write d) l.

(** The bitmap of the enabled inputs that are high. *)
Definition di_value (en : Z) (pins : list bool) : Z :=
  foldl (fun val '(i, high) =>
    if negb (Z.land en (Z.shiftl 1 (Z.of_nat i)) =? 0) && high then Z.lor val (Z.shiftl 1 (Z.of_nat i)) else val)
    0 (imap (fun i high => (i, high)) pins).

(** Registers and queues after one turn, and the time to sleep in ms. *)
Definition di_turn (pins : list bool) (epoch : Z) (regs : RegMap) (lanes : Lanes) : RegMap * Lanes * Z :=
  let si := get_holding regs (Z.of_nat HOLDING_DI_SAMPLE_MS_IDX) in
  let en := get_holding regs (Z.of_nat HOLDING_DI_ENABLE_IDX) in
  let val := di_value en pins in
  let '(_, regs) := update_input (Z.of_nat INPUT_DI_IDX) val regs in
  let lanes := if negb (en =? 0) then send_history_data (HisData_di epoch en val) lanes else lanes in
  (regs, lanes, clamp_interval si).

(** The macro [sample!]. *)
Definition sample (en raw : Z) (i : nat) (regs : RegMap) : RegMap :=
  if negb (Z.land en (Z.shiftl 1 (Z.of_nat i)) =? 0) then
    let val := ai_convert i raw in
    snd (update_input (Z.of_nat (INPUT_AI0_IDX + i)) val regs)
  else regs.

Definition ai_turn (raws : list Z) (epoch : Z) (regs : RegMap) (lanes : Lanes) : RegMap * Lanes * Z :=
  let si := get_holding regs (Z.of_nat HOLDING_AI_SAMPLE_MS_IDX) in
  let en := get_holding regs (Z.of_nat HOLDING_AI_ENABLE_IDX) in
  let regs := sample en (raws !!! 0%nat) 0 regs in
  let regs := sample en (raws !!! 1%nat) 1 regs in
  let regs := sample en (raws !!! 2%nat) 2 regs in
  let regs := sample en (raws !!! 3%nat) 3 regs in
  let lanes :=
    if negb (Z.land en 0x000F =? 0) then
      let values := (fun i => get_input regs (Z.of_nat (INPUT_AI0_IDX + i))) <$> [0; 1; 2; 3]%nat in
      send_history_data (HisData_ai epoch (Z.land en 0x000F) values) lanes
    else lanes in
  (regs, lanes, clamp_interval si).

Example adc_tests :
  ai_convert 0 4095 = 2445 /\ ai_convert 2 4095 = 1221 /\ ai_convert 0 2048 = 1223 /\ ai_convert 3 1 = 0.
Proof. vm_compute. repeat split; reflexivity. Qed.

(** ** Conversion *)

Lemma ai_convert_floor ch raw :
  (ch < 4)%nat -> 0 <= raw <= 4095 ->
  ai_convert ch raw = AI_COEFF !!! ch * (raw * 3300 / 4096) / 10000 /\ 0 <= ai_convert ch raw <= 2445.
Proof.
  intros Hch Hr. unfold ai_convert. rewrite Z.quot_div_nonneg by lia.
  set (mv := raw * 3300 / 4096). assert (0 <= mv <= 3299) as Hm by (unfold mv; zdm). clearbody mv.
  assert (3704 <= AI_COEFF !!! ch <= 7414) as Hc by (do 4 (destruct ch as [|ch]; [cbn; lia|]); lia).
  assert (0 <= AI_COEFF !!! ch * mv <= 24458786) as Hp by nia.
  unfold as_u64, as_u16. rewrite (Z.mod_small mv) by lia. rewrite (Z.mod_small (_ * mv)) by lia.
  assert (0 <= AI_COEFF !!! ch * mv / 10000 <= 2445) as Hq by (clear - Hp; zdm). rewrite Z.mod_small by lia. done.
Qed.

(** ** Digital inputs *)

Lemma shiftl_one i : Z.shiftl 1 (Z.of_nat i) = 2 ^ Z.of_nat i.
Proof. rewrite Z.shiftl_mul_pow2 by lia. lia. Qed.

Lemma land_bit en i : negb (Z.land en (Z.shiftl 1 (Z.of_nat i)) =? 0) = Z.testbit en (Z.of_nat i).
Proof.
  rewrite shiftl_one. destruct (Z.testbit en (Z.of_nat i)) eqn:E.
  - apply negb_true_iff, Z.eqb_neq. intros H.
    apply (f_equal (fun x => Z.testbit x (Z.of_nat i))) in H.
    rewrite Z.land_spec, Z.pow2_bits_true, E in H by lia. by rewrite Z.bits_0 in H.
  - apply negb_false_iff, Z.eqb_eq, Z.bits_inj'. intros n Hn.
    rewrite Z.land_spec, Z.pow2_bits_eqb, Z.bits_0 by lia. destruct (Z.eqb_spec (Z.of_nat i) n); [subst; by rewrite E|].
    apply andb_false_r.
Qed.

(** The pins read from position [k] on. *)
Lemma di_fold en pins k val n :
  0 <= n ->
  Z.testbit (foldl (fun val '(i, high) =>
    if negb (Z.land en (Z.shiftl 1 (Z.of_nat i)) =? 0) && high then Z.lor val (Z.shiftl 1 (Z.of_nat i)) else val)
    val (imap (fun i high => ((k + i)%nat, high)) pins)) n =
  Z.testbit val n || (Z.testbit en n && (Z.of_nat k <=? n) && default false (pins !! Z.to_nat (n - Z.of_nat k))).
Proof.
  intros Hn. revert k val. induction pins as [|p pins IH]; intros k val; cbn [imap foldl].
  - rewrite lookup_nil. cbn. by rewrite andb_false_r, orb_false_r.
  - rewrite imap_cons || idtac. cbn [foldl]. rewrite Nat.add_0_r, land_bit.
    rewrite (imap_ext _ (fun i high => ((S k + i)%nat, high))) by (intros; cbn; f_equal; lia).
    rewrite IH. clear IH.
    destruct (Z.ltb_spec n (Z.of_nat k)) as [Hlt|Hge].
    + rewrite !(proj2 (Z.leb_gt _ n)) by lia. rewrite !andb_false_r, !andb_false_l, !orb_false_r.
      destruct (_ && p); [|done]. rewrite Z.lor_spec, shiftl_one, Z.pow2_bits_false by lia. apply orb_false_r.
    + rewrite (proj2 (Z.leb_le (Z.of_nat k) n)) by lia. rewrite andb_true_r.
      destruct (decide (n = Z.of_nat k)) as [-> |Hne].
      * rewrite (proj2 (Z.leb_gt (Z.of_nat (S k)) _)) by lia. rewrite andb_false_r, andb_false_l, orb_false_r.
        rewrite Z.sub_diag. cbn [lookup list_lookup Z.to_nat default from_option id].
        destruct (Z.testbit en (Z.of_nat k)), p; cbn [andb]; rewrite ?orb_false_r; [|done..].
        by rewrite Z.lor_spec, shiftl_one, Z.pow2_bits_true by lia.
      * rewrite (proj2 (Z.leb_le (Z.of_nat (S k)) n)) by lia. rewrite andb_true_r.
        replace (Z.to_nat (n - Z.of_nat k)) with (S (Z.to_nat (n - Z.of_nat (S k)))) by lia. cbn [lookup list_lookup].
        f_equal. destruct (_ && p); [|done]. rewrite Z.lor_spec, shiftl_one, Z.pow2_bits_false by lia. apply orb_false_r.
Qed.

Lemma di_value_bits en pins n :
  0 <= n -> Z.testbit (di_value en pins) n = Z.testbit en n && default false (pins !! Z.to_nat n).
Proof.
  intros Hn. unfold di_value. pose proof (di_fold en pins 0 0 n Hn) as H. cbn [Nat.add] in H. rewrite H.
  rewrite Z.bits_0, (proj2 (Z.leb_le _ n)) by lia. rewrite andb_true_r, Z.sub_0_r. done.
Qed.

Lemma di_value_u16 en pins : is_u16 en -> length pins = 16%nat -> is_u16 (di_value en pins).
Proof.
  intros He Hl. unfold is_u16 in *.
  assert (Hx : di_value en pins = di_value en pins mod 2 ^ 16).
  { apply Z.bits_inj'. intros n Hn. rewrite mod_pow2_testbit by lia.
    destruct (Z.ltb_spec n 16); [done|]. rewrite di_value_bits by done.
    rewrite lookup_ge_None_2 by lia. cbn. apply andb_false_r. }
  rewrite Hx. change (2 ^ 16) with 65536. apply Z.mod_pos_bound. lia.
Qed.

Lemma input_insert_wf r i v : reg_wf r -> is_u16 v -> reg_wf (set_input (<[i := v]>) r).
Proof.
  intros (Hl & Hw & Hi & Hv) Hu. split; [done|]. split; [done|]. cbn [input set_input].
  split; [by rewrite length_insert|]. by apply Forall_insert.
Qed.

Lemma clamp_interval_range v : 10 <= clamp_interval v <= 5000.
Proof. unfold clamp_interval, SAMPLE_INTERVAL_MAX. destruct (Z.leb_spec v 9); [lia|]. destruct (Z.ltb_spec 5000 v); lia. Qed.

(** a turn of the digital-input task.  Afterwards bit [n] of the DI register
    is set exactly when channel [n] is enabled and its pin high, no other
    register has changed, and, if any channel is enabled, one well-formed record
    with the time, the mask and that value has been queued (dropped only when
    the history lane is full; the control lane is not touched); the next turn is
    10 to 5000 ms away, whatever the interval register holds. *)
Theorem di_turn_contract (pins : list bool) (epoch : Z) (regs : RegMap) (lanes : Lanes) :
  reg_wf regs -> length pins = 16%nat -> is_u32 epoch ->
  let en := get_holding regs (Z.of_nat HOLDING_DI_ENABLE_IDX) in
  let '(regs', lanes', ms) := di_turn pins epoch regs lanes in
  let val := get_input regs' (Z.of_nat INPUT_DI_IDX) in
  reg_wf regs' /\ holding regs' = holding regs /\
  (forall n, 0 <= n < 16 -> Z.testbit val n = Z.testbit en n && (pins !!! Z.to_nat n)) /\
  (forall a, 0 <= a -> a <> Z.of_nat INPUT_DI_IDX -> get_input regs' a = get_input regs a) /\
  his_ok (HisData_di epoch en val) /\
  lanes' = (if en =? 0 then lanes else queue_send (Write (HisData_di epoch en val)) lanes) /\
  10 <= ms <= 5000.
Proof.
  intros Hwf Hl He en. pose proof Hwf as (_ & _ & Hi & _).
  assert (Hen : is_u16 en) by (by apply get_holding_u16).
  unfold di_turn, update_input. fold en.
  destruct (input regs !! Z.to_nat (Z.of_nat INPUT_DI_IDX)) eqn:E.
  2:{ apply lookup_ge_None in E. rewrite Hi in E. unfold INPUT_DI_IDX, MODBUS_INPUT_REGISTER_NUMBERS in E. lia. }
  rewrite Nat2Z.id in *.
  assert (Hv : get_input (set_input (<[INPUT_DI_IDX:=di_value en pins]>) regs) (Z.of_nat INPUT_DI_IDX) = di_value en pins).
  { unfold get_input. cbn [input set_input]. rewrite Nat2Z.id, list_lookup_insert_eq; [done|]. by eapply lookup_lt_Some. }
  rewrite Hv. pose proof (di_value_u16 en pins Hen Hl) as Hu.
  split; [by apply input_insert_wf|]. split; [done|].
  split; [|split; [|split; [|split; [by destruct (en =? 0)|apply clamp_interval_range]]]].
  - intros n Hn. rewrite di_value_bits by lia. f_equal.
    destruct (lookup_lt_is_Some_2 pins (Z.to_nat n)) as [b Hb]; [lia|].
    by rewrite Hb, (list_lookup_total_correct _ _ _ Hb).
  - intros a Ha Hne. unfold get_input. cbn [input set_input]. rewrite list_lookup_insert_ne by lia. done.
  - unfold his_ok. cbn [timestamps en_status values ty HisData_di]. split; [done|]. split; [done|]. split; [done|].
    split; [|left; done]. repeat (apply Forall_cons_2; [done || (unfold is_u16; lia)|]). constructor.
Qed.

Definition sampling_demo : RegMap := RegMap_new 7.

Lemma di_turn_contract_witness :
  reg_wf sampling_demo /\
  let '(regs', lanes', ms) := di_turn (replicate 16 true) 1700000000 sampling_demo (mkLanes [] []) in
  get_input regs' (Z.of_nat INPUT_DI_IDX) = 65535 /\ length (queue lanes') = 1%nat /\ 10 <= ms <= 5000.
Proof.
  assert (Hwf : reg_wf sampling_demo) by (apply RegMap_new_inv; unfold is_u16; lia).
  split; [exact Hwf|].
  pose proof (di_turn_contract (replicate 16 true) 1700000000 sampling_demo (mkLanes [] []) Hwf eq_refl
    ltac:(unfold is_u32; lia)) as H.
  cbv zeta in H. destruct (di_turn (replicate 16 true) 1700000000 sampling_demo (mkLanes [] [])) as [[r l] ms] eqn:E.
  destruct H as (_ & _ & _ & _ & _ & Hq & Hms). split; [|split; [|exact Hms]].
  - vm_compute in E. by injection E as <- _ _.
  - rewrite Hq. vm_compute. reflexivity.
Defined.

(** ** Analog inputs *)

Lemma sample_facts en raw i regs :
  reg_wf regs -> (i < 4)%nat -> 0 <= raw <= 4095 ->
  reg_wf (sample en raw i regs) /\ holding (sample en raw i regs) = holding regs /\
  forall a, (a < MODBUS_INPUT_REGISTER_NUMBERS)%nat -> input (sample en raw i regs) !!! a =
    if decide (a = INPUT_AI0_IDX + i)%nat then
      if Z.testbit en (Z.of_nat i) then ai_convert i raw else input regs !!! a
    else input regs !!! a.
Proof.
  intros Hwf Hi Hr. pose proof Hwf as (_ & _ & Hl & _). unfold sample. rewrite land_bit.
  destruct (Z.testbit en (Z.of_nat i)); [|split; [done|split; [done|intros; by case_decide]]].
  unfold update_input. rewrite Nat2Z.id.
  destruct (input regs !! (INPUT_AI0_IDX + i)%nat) eqn:E.
  2:{ apply lookup_ge_None in E. rewrite Hl in E. unfold INPUT_AI0_IDX, MODBUS_INPUT_REGISTER_NUMBERS in E. lia. }
  cbn [snd]. pose proof (ai_convert_floor i raw Hi Hr) as [_ Hb].
  split; [apply input_insert_wf; [done|unfold is_u16; lia]|]. split; [done|]. intros a Ha. cbn [input set_input].
  case_decide as Hd; [subst; rewrite list_lookup_total_insert_eq; [done|by eapply lookup_lt_Some]|].
  by rewrite list_lookup_total_insert_ne.
Qed.

(** a turn of the analog-input task.  Each of the four channels that is
    enabled gets the converted value (two truncating divisions, at most 2445);
    the disabled ones and all other registers keep theirs; and if one is enabled
    a well-formed record of the four registers is queued. *)
Theorem ai_turn_contract (raws : list Z) (epoch : Z) (regs : RegMap) (lanes : Lanes) :
  reg_wf regs -> length raws = 4%nat -> Forall (fun x => 0 <= x <= 4095) raws -> is_u32 epoch ->
  let en := get_holding regs (Z.of_nat HOLDING_AI_ENABLE_IDX) in
  let '(regs', lanes', ms) := ai_turn raws epoch regs lanes in
  reg_wf regs' /\ holding regs' = holding regs /\
  (forall a, (a < MODBUS_INPUT_REGISTER_NUMBERS)%nat -> input regs' !!! a =
    if decide (INPUT_AI0_IDX <= a < INPUT_AI0_IDX + 4)%nat then
      if Z.testbit en (Z.of_nat (a - INPUT_AI0_IDX))
      then AI_COEFF !!! (a - INPUT_AI0_IDX)%nat * (raws !!! (a - INPUT_AI0_IDX)%nat * 3300 / 4096) / 10000
      else input regs !!! a
    else input regs !!! a) /\
  (exists d, his_ok d /\ ty d = AI_TYPE /\
     lanes' = (if Z.land en 15 =? 0 then lanes else queue_send (Write d) lanes)) /\
  10 <= ms <= 5000.
Proof.
  intros Hwf Hl Hr He en.
  destruct raws as [|w0 [|w1 [|w2 [|w3 [|]]]]]; try discriminate Hl.
  repeat apply Forall_cons_1 in Hr as [? Hr]. unfold ai_turn. fold en.
  cbn [lookup_total list_lookup_total].
  destruct (sample_facts en w0 0 regs Hwf ltac:(lia) ltac:(lia)) as (G1 & E1 & F1).
  set (r1 := sample en w0 0 regs) in *.
  destruct (sample_facts en w1 1 r1 G1 ltac:(lia) ltac:(lia)) as (G2 & E2 & F2).
  set (r2 := sample en w1 1 r1) in *.
  destruct (sample_facts en w2 2 r2 G2 ltac:(lia) ltac:(lia)) as (G3 & E3 & F3).
  set (r3 := sample en w2 2 r2) in *.
  destruct (sample_facts en w3 3 r3 G3 ltac:(lia) ltac:(lia)) as (G4 & E4 & F4).
  set (r4 := sample en w3 3 r3) in *. clearbody r1 r2 r3 r4.
  split; [done|]. split; [congruence|]. split; [|split; [|apply clamp_interval_range]].
  - intros a Ha. rewrite F4, F3, F2, F1 by done.
    unfold INPUT_AI0_IDX, MODBUS_INPUT_REGISTER_NUMBERS in *. clear F1 F2 F3 F4.
    destruct (decide (1 <= a < 1 + 4)%nat) as [Hd|Hd].
    + pose proof (proj1 (ai_convert_floor 0 w0 ltac:(lia) ltac:(lia))) as Hv0.
      pose proof (proj1 (ai_convert_floor 1 w1 ltac:(lia) ltac:(lia))) as Hv1.
      pose proof (proj1 (ai_convert_floor 2 w2 ltac:(lia) ltac:(lia))) as Hv2.
      pose proof (proj1 (ai_convert_floor 3 w3 ltac:(lia) ltac:(lia))) as Hv3.
      assert (a = 1 \/ a = 2 \/ a = 3 \/ a = 4)%nat as Hc by lia.
      destruct Hc as [-> |[-> |[-> | ->]]]; cbn [Nat.add decide decide_rel Nat.sub lookup_total list_lookup_total];
        repeat (destruct (decide _); try lia); 
        rewrite ?Hv0, ?Hv1, ?Hv2, ?Hv3; done.
    + repeat (destruct (decide _); try lia).
  - eexists. split; [|split; [|by destruct (Z.land en 15 =? 0)]]; [|done].
    assert (Hu : is_u16 (Z.land en 15)).
    { change 15 with (Z.ones 4). rewrite Z.land_ones by lia. unfold is_u16. pose proof (Z.mod_pos_bound en (2 ^ 4)). lia. }
    assert (Hg : forall a, is_u16 (get_input r4 a)).
    { intros a. unfold get_input. destruct G4 as (_ & _ & _ & Hw). destruct (input r4 !! Z.to_nat a) eqn:E; cbn.
      - by eapply Forall_lookup_1.
      - unfold is_u16; lia. }
    split; [done|]. split; [exact Hu|]. split; [done|]. split; [|by right].
    repeat (apply Forall_cons_2; [apply Hg|]). constructor.
Qed.

Lemma ai_turn_contract_witness :
  reg_wf sampling_demo /\
  let '(regs', lanes', ms) := ai_turn [0; 4095; 2048; 1] 1700000000 sampling_demo (mkLanes [] []) in
  reg_wf regs' /\ length (queue lanes') = 1%nat.
Proof.
  assert (Hwf : reg_wf sampling_demo) by (apply RegMap_new_inv; unfold is_u16; lia).
  split; [exact Hwf|].
  pose proof (ai_turn_contract [0; 4095; 2048; 1] 1700000000 sampling_demo (mkLanes [] []) Hwf eq_refl
    ltac:(repeat (apply Forall_cons_2; [lia|]); constructor) ltac:(unfold is_u32; lia)) as H.
  cbv zeta in H. destruct (ai_turn _ _ _ _) as [[r l] ms].
  destruct H as (Hr & _ & _ & (d & _ & _ & ->) & _). split; [exact Hr|]. vm_compute. reflexivity.
Defined.
