(* ===== verification/W25q.v ===== *)
(** * The W25Q128 NOR driver (crates/firmware/src/w25q.rs)

    The driver talks to an SPI bus and a chip-select pin, which are the class
    [Spi]; the watchdog feed and the delays have no effect on its results.  The
    second half gives the chip of the data sheet as an instance of the bus and
    shows that the driver on it is the flash memory the storage code relies on. *)
From S2P Require Import Prelude ConfigStore.

Definition CMD_JEDEC_ID : Z := 0x9F.
Definition CMD_WRITE_EN : Z := 0x06.
Definition CMD_PAGE_PROG : Z := 0x02.
Definition CMD_READ_DATA : Z := 0x03.
Definition CMD_READ_SR1 : Z := 0x05.
Definition CMD_SECTOR_ER : Z := 0x20.
Definition CMD_BLOCK_ER32 : Z := 0x52.
Definition CMD_BLOCK_ER64 : Z := 0xD8.
Definition SR1_BUSY : Z := 0x01.
Definition CHIP_SIZE : Z := 0x01000000.
Definition PAGE_SIZE : Z := 256.
Definition SECTOR_SIZE : Z := 4096.
Definition JEDEC_ID : Z := 0xEF4018.
Definition TMO_4K : Z := 2000.
Definition TMO_32K : Z := 8000.
Definition TMO_64K : Z := 16000.
Definition TMO_PROG : Z := 50.

(** Chip select and the two blocking transfers. *)
Class Spi (S : Type) := {
  cs_low : S -> S;
  cs_high : S -> S;
  spi_write : list Z -> S -> result unit * S;
  spi_read : nat -> S -> result (list Z) * S
}.

Section Driver.
Context {S : Type} `{!Spi S}.

(** [blocking_write(w).and_then(|_| blocking_read(buf))] of [n] bytes. *)
Definition write_read (w : list Z) (n : nat) (s : S) : result (list Z) * S :=
  let '(r, s) := spi_write w s in
  match r with Ok _ => spi_read n s | Err => (Err, s) end.

Definition cmd_addr (cmd addr : Z) (s : S) : result unit * S :=
  spi_write [cmd; as_u8 (Z.shiftr addr 16); as_u8 (Z.shiftr addr 8); as_u8 addr] s.

Definition jedec_id (s : S) : Z * S :=
  let '(r, s) := write_read [CMD_JEDEC_ID] 3 (cs_low s) in
  let s := cs_high s in
  match r with
  | Ok id => (Z.lor (Z.lor (Z.shiftl (id !!! 0%nat) 16) (Z.shiftl (id !!! 1%nat) 8)) (id !!! 2%nat), s)
  | Err => (0, s)
  end.

(** [W25q::new]: whether the chip answers with its identity. *)
Definition W25q_new (s : S) : option S :=
  let '(id, s) := jedec_id s in
  if id =? JEDEC_ID then Some s else None.

Definition wren (s : S) : result unit * S :=
  let '(r, s) := spi_write [CMD_WRITE_EN] (cs_low s) in (r, cs_high s).

Definition read_sr1 (s : S) : result Z * S :=
  let '(r, s) := write_read [CMD_READ_SR1] 1 (cs_low s) in
  let s := cs_high s in
  match r with Ok sr => (Ok (sr !!! 0%nat), s) | Err => (Err, s) end.

(** [for _ in 0..=timeout_ms]: [k] turns left. *)
Fixpoint wait_loop (k : nat) (s : S) : result unit * S :=
  match k with
  | O => (Err, s)
  | Datatypes.S k =>
      let '(r, s) := read_sr1 s in
      match r with
      | Err => (Err, s)
      | Ok sr => if Z.land sr SR1_BUSY =? 0 then (Ok tt, s) else wait_loop k s
      end
  end.
Definition wait_not_busy (timeout_ms : Z) (s : S) : result unit * S :=
  wait_loop (Z.to_nat (timeout_ms + 1)) s.

(** [while off < buf.len()], with [got] the bytes read; [fuel] at least the
    number of bytes left. *)
Fixpoint read_loop (fuel : nat) (addr : Z) (left : nat) (got : list Z) (s : S) : result (list Z) * S :=
  match left with
  | O => (Ok got, s)
  | _ =>
      match fuel with
      | O => (Err, s)
      | Datatypes.S fuel =>
          let chunk := Nat.min left (Z.to_nat 0xFFFF) in
          let s := cs_low s in
          let '(r, s) := cmd_addr CMD_READ_DATA addr s in
          let '(r, s) := match r with Ok _ => spi_read chunk s | Err => (Err, s) end in
          let s := cs_high s in
          match r with
          | Err => (Err, s)
          | Ok b => read_loop fuel (as_u32 (addr + Z.of_nat chunk)) (left - chunk) (got ++ b) s
          end
      end
  end.

Definition w25q_read (addr : Z) (n : nat) (s : S) : result (list Z) * S :=
  if (CHIP_SIZE <=? addr) || (CHIP_SIZE - addr <? as_u32 (Z.of_nat n)) then (Err, s)
  else read_loop n addr n [] s.

Definition w25q_write (addr : Z) (buf : list Z) (s : S) : result unit * S :=
  let len := as_u32 (Z.of_nat (length buf)) in
  if (length buf =? 0)%nat then (Ok tt, s)
  else if (PAGE_SIZE <? as_u32 (addr mod PAGE_SIZE + len)) || (CHIP_SIZE <? as_u32 (addr + len)) then (Err, s)
  else
    let '(r, s) := wren s in
    match r with
    | Err => (Err, s)
    | Ok _ =>
        let s := cs_low s in
        let '(r, s) := cmd_addr CMD_PAGE_PROG addr s in
        let '(r, s) := match r with Ok _ => spi_write buf s | Err => (Err, s) end in
        let s := cs_high s in
        match r with Err => (Err, s) | Ok _ => wait_not_busy TMO_PROG s end
    end.

Definition erase_one (addr cmd timeout_ms : Z) (s : S) : result unit * S :=
  let '(r, s) := wren s in
  match r with
  | Err => (Err, s)
  | Ok _ =>
      let '(r, s) := cmd_addr cmd addr (cs_low s) in
      let s := cs_high s in
      match r with Err => (Err, s) | Ok _ => wait_not_busy timeout_ms s end
  end.

(** The block a step of the loop erases: size, command, timeout. *)
Definition erase_step (addr len : Z) : Z * Z * Z :=
  if (addr mod 0x10000 =? 0) && (0x10000 <=? len) then (0x10000, CMD_BLOCK_ER64, TMO_64K)
  else if (addr mod 0x8000 =? 0) && (0x8000 <=? len) then (0x8000, CMD_BLOCK_ER32, TMO_32K)
  else (0x1000, CMD_SECTOR_ER, TMO_4K).

(** [while len > 0]; one turn per sector is enough. *)
Fixpoint erase_loop (fuel : nat) (addr len : Z) (s : S) : result unit * S :=
  if len <=? 0 then (Ok tt, s) else
  match fuel with
  | O => (Err, s)
  | Datatypes.S fuel =>
      let '(chunk, cmd, tmo) := erase_step addr len in
      let '(r, s) := erase_one addr cmd tmo s in
      match r with
      | Err => (Err, s)
      | Ok _ => erase_loop fuel (as_u32 (addr + chunk)) (len - chunk) s
      end
  end.

Definition w25q_erase (addr len : Z) (s : S) : result unit * S :=
  if (len =? 0) || negb (addr mod SECTOR_SIZE =? 0) || negb (len mod SECTOR_SIZE =? 0) ||
     (CHIP_SIZE <? as_u32 (addr + len)) then (Err, s)
  else erase_loop (Z.to_nat (len / SECTOR_SIZE)) addr len s.
End Driver.

(** The driver is a flash for the storage code. *)
#[export] Instance W25qFlash {S} `{!Spi S} : Flash S := {|
  flash_read := w25q_read;
  flash_write := w25q_write;
  flash_erase := w25q_erase
|}.

(** ** The chip *)

(** Memory, write-enable latch, status polls until ready, the bytes received
    since selection and the count of bytes sent; [latency] is how many polls the
    operation of an instruction takes: a page program, an erase of each size. *)
Record Chip := mkChip { mem : Z -> Z; wel : bool; busy : nat; rx : list Z; sent : nat; latency : Z -> nat }.

Definition addr24 (a b c : Z) : Z := a * 65536 + b * 256 + c.

(** Programming clears bits; the address wraps inside its page. *)
Fixpoint page_program (base off : Z) (l : list Z) (m : Z -> Z) : Z -> Z :=
  match l with
  | [] => m
  | b :: l => let a := base + off mod 256 in page_program base (off + 1) l (put_cell a (Z.land (m a) b) m)
  end.

Definition chip_execute (c : Chip) : Chip :=
  let idle m w k := mkChip m w k [] 0 (latency c) in
  let erase cmd n a b d := idle (erase_cells (addr24 a b d / n * n) n (mem c)) false (latency c cmd) in
  match busy c, rx c with
  | S _, _ => idle (mem c) (wel c) (busy c)
  | O, [6] => idle (mem c) true 0%nat
  | O, 2 :: a :: b :: d :: ((_ :: _) as l) =>
      if wel c then
        idle (page_program (addr24 a b d / 256 * 256) (addr24 a b d mod 256) l (mem c)) false (latency c 2)
      else idle (mem c) (wel c) 0%nat
  | O, [32; a; b; d] => if wel c then erase 32 4096 a b d else idle (mem c) (wel c) 0%nat
  | O, [82; a; b; d] => if wel c then erase 82 32768 a b d else idle (mem c) (wel c) 0%nat
  | O, [216; a; b; d] => if wel c then erase 216 65536 a b d else idle (mem c) (wel c) 0%nat
  | O, _ => idle (mem c) (wel c) 0%nat
  end.

Definition chip_answer (n : nat) (c : Chip) : list Z * Chip :=
  let adv k := mkChip (mem c) (wel c) k (rx c) (sent c + n) (latency c) in
  match rx c with
  | [159] => (take n (drop (sent c) [0xEF; 0x40; 0x18]), adv (busy c))
  | [5] => (replicate n (if (busy c =? 0)%nat then 0 else 1), adv (pred (busy c)))
  | [3; a; b; d] =>
      ((fun i => mem c (addr24 a b d + Z.of_nat (sent c + i))) <$> seq 0 n, adv (busy c))
  | _ => (replicate n 255, adv (busy c))
  end.

#[export] Instance ChipSpi : Spi Chip := {|
  cs_low c := mkChip (mem c) (wel c) (busy c) [] 0 (latency c);
  cs_high := chip_execute;
  spi_write l c := (Ok tt, mkChip (mem c) (wel c) (busy c) (rx c ++ l) (sent c) (latency c));
  spi_read n c := let '(b, c) := chip_answer n c in (Ok b, c)
|}.

(** Ready, deselected, with memory [m]. *)
Definition ready (m : Z -> Z) (c : Chip) : Prop := mem c = m /\ busy c = 0%nat.

(** ** The driver on the chip *)

Lemma addr24_bytes addr :
  0 <= addr < CHIP_SIZE -> addr24 (as_u8 (Z.shiftr addr 16)) (as_u8 (Z.shiftr addr 8)) (as_u8 addr) = addr.
Proof.
  unfold CHIP_SIZE, addr24, as_u8. intros Ha. rewrite shiftr_8, Z.shiftr_div_pow2 by lia.
  change (2 ^ 16) with 65536. zdm.
Qed.

Lemma wren_chip m w rx0 se la :
  wren (mkChip m w 0 rx0 se la) = (Ok tt, mkChip m true 0 [] 0 la).
Proof. reflexivity. Qed.

Lemma read_sr1_chip m w b rx0 se la :
  read_sr1 (mkChip m w b rx0 se la) = (Ok (if (b =? 0)%nat then 0 else 1), mkChip m w (pred b) [] 0 la).
Proof. destruct b as [|[|b]]; reflexivity. Qed.

Lemma wait_loop_chip b k m w rx0 se la :
  (b < k)%nat -> wait_loop k (mkChip m w b rx0 se la) = (Ok tt, mkChip m w 0 [] 0 la).
Proof.
  revert k rx0 se. induction b as [|b IH]; intros [|k] rx0 se Hk; try lia; cbn [wait_loop]; rewrite read_sr1_chip.
  - reflexivity.
  - cbn [Nat.eqb pred]. change (Z.land 1 SR1_BUSY =? 0) with false. cbn iota. apply IH. lia.
Qed.

(** A chip in time: the polls, one every millisecond, that a page program and the
    erase of a sector, of half a block and of a block take at most.  The data sheet's
    maxima for the erases are 400, 1600 and 2000 ms. *)
Definition in_time (la : Z -> nat) : Prop :=
  Z.of_nat (la CMD_PAGE_PROG) <= 50 /\ Z.of_nat (la CMD_SECTOR_ER) <= 2000 /\
  Z.of_nat (la CMD_BLOCK_ER32) <= 8000 /\ Z.of_nat (la CMD_BLOCK_ER64) <= 16000.

(** The image a chip simulates: same memory, ready, in time. *)
Definition simulates (c : Chip) (n : NorImage) : Prop :=
  (forall x, mem c x = cells n x) /\ busy c = 0%nat /\ in_time (latency c).

Lemma put_cell_ext a v w (m m' : Z -> Z) :
  v = w -> (forall x, m x = m' x) -> forall x, put_cell a v m x = put_cell a w m' x.
Proof. intros -> H x. unfold put_cell. by rewrite H. Qed.

Lemma page_program_sim base off l m n :
  0 <= off -> off + Z.of_nat (length l) <= 256 -> (length l <= budget n)%nat ->
  (forall x, m x = cells n x) ->
  fst (nor_program (base + off) l n) = Ok tt /\
  forall x, page_program base off l m x = cells (snd (nor_program (base + off) l n)) x.
Proof.
  revert off m n. induction l as [|b l IH]; intros off m n Ho Hl Hb Hm; cbn [page_program nor_program length] in *.
  - done.
  - destruct (budget n) as [|k] eqn:Ek; [lia|]. rewrite Z.mod_small by lia.
    replace (base + off + 1) with (base + (off + 1)) by lia.
    apply IH; [lia..|cbn; lia|]. cbn [cells]. apply put_cell_ext; [by rewrite Hm|done].
Qed.

Lemma write_chip addr l c :
  busy c = 0%nat -> in_time (latency c) -> l <> [] -> 0 <= addr ->
  addr mod 256 + Z.of_nat (length l) <= 256 -> addr + Z.of_nat (length l) <= CHIP_SIZE ->
  w25q_write addr l c =
    (Ok tt, mkChip (page_program (addr / 256 * 256) (addr mod 256) l (mem c)) false 0 [] 0 (latency c)).
Proof.
  destruct c as [m w b rx0 se la]. cbn [busy latency mem]. intros -> (Hla & _) Hl Ha Hp Hc.
  unfold CHIP_SIZE in Hc. assert (Hlen : 0 < Z.of_nat (length l) <= 256) by
    (destruct l; [done|]; cbn [length] in *; pose proof (Z.mod_pos_bound addr 256); lia).
  unfold w25q_write, PAGE_SIZE, CHIP_SIZE. destruct (Nat.eqb_spec (length l) 0); [lia|].
  rewrite !as_u32_id by (unfold is_u32; pose proof (Z.mod_pos_bound addr 256); rewrite ?(as_u32_id (Z.of_nat (length l))); unfold is_u32; lia).
  destruct (Z.ltb_spec 256 (addr mod 256 + Z.of_nat (length l))); [lia|].
  destruct (Z.ltb_spec 16777216 (addr + Z.of_nat (length l))); [lia|]. cbn [orb].
  rewrite wren_chip. cbn [cs_low ChipSpi]. unfold cmd_addr. cbn [spi_write ChipSpi].
  destruct l as [|x l]; [done|].
  cbn [cs_high ChipSpi]. unfold chip_execute. cbn [rx busy app mem wel latency]. unfold CMD_PAGE_PROG.
  rewrite addr24_bytes by (unfold CHIP_SIZE; lia). cbv zeta.
  unfold wait_not_busy, TMO_PROG, CMD_PAGE_PROG in *. by rewrite wait_loop_chip by lia.
Qed.

(** Reading: 65535 bytes at a time. *)
Lemma read_loop_chip fuel addr left got c :
  busy c = 0%nat -> 0 <= addr -> addr + Z.of_nat left <= CHIP_SIZE -> (left <= fuel)%nat ->
  exists c', read_loop fuel addr left got c =
      (Ok (got ++ ((fun i => mem c (addr + Z.of_nat i)) <$> seq 0 left)), c') /\
    mem c' = mem c /\ busy c' = 0%nat /\ latency c' = latency c.
Proof.
  revert addr left got c. induction fuel as [|fuel IH]; intros addr left got c Hb Ha Hc Hf.
  - assert (left = 0)%nat as -> by lia. exists c. cbn. by rewrite app_nil_r.
  - destruct left as [|left]; [exists c; cbn; by rewrite app_nil_r|].
    destruct c as [m w b rx0 se la]. cbn [busy mem latency] in *. subst b. unfold CHIP_SIZE in Hc.
    cbn [read_loop]. set (chunk := Nat.min (S left) (Z.to_nat 65535)).
    assert (Hk : (0 < chunk <= S left)%nat) by (unfold chunk; lia). clearbody chunk.
    cbn [cs_low ChipSpi]. unfold cmd_addr. cbn [spi_write ChipSpi app spi_read].
    unfold CMD_READ_DATA, chip_answer. cbn [rx mem sent wel busy latency app cs_high ChipSpi].
    unfold chip_execute. cbn [rx mem sent wel busy latency].
    rewrite addr24_bytes by (unfold CHIP_SIZE; lia). cbn [Nat.add].
    rewrite as_u32_id by (unfold is_u32; lia).
    destruct (IH (addr + Z.of_nat chunk) (S left - chunk)%nat
      (got ++ ((fun i => m (addr + Z.of_nat i)) <$> seq 0 chunk)) (mkChip m w 0 [] 0 la)) as (c' & E & H);
      [done|lia|unfold CHIP_SIZE; lia|lia|].
    exists c'. split; [|exact H]. rewrite E. cbn [mem]. do 2 f_equal. rewrite <- app_assoc. f_equal.
    replace (S left) with (chunk + (S left - chunk))%nat at 2 by lia.
    rewrite seq_app, fmap_app. f_equal. cbn [Nat.add].
    apply list_eq_same_length with (S left - chunk)%nat; rewrite ?length_fmap, ?length_seq; [done..|].
    intros i x y Hi. rewrite !list_lookup_fmap.
    rewrite (proj2 (lookup_seq 0 (S left - chunk) i i)) by lia.
    rewrite (proj2 (lookup_seq chunk (S left - chunk) i (chunk + i)%nat)) by lia. cbn [fmap option_fmap option_map].
    intros [= <-] [= <-]. f_equal. lia.
Qed.

(** Erasing: the blocks of the loop add up to the range. *)
Lemma erase_one_chip addr len m w rx0 se la :
  in_time la -> 0 <= addr < CHIP_SIZE ->
  let '(chunk, cmd, tmo) := erase_step addr len in
  addr mod 4096 = 0 ->
  erase_one addr cmd tmo (mkChip m w 0 rx0 se la) = (Ok tt, mkChip (erase_cells addr chunk m) false 0 [] 0 la).
Proof.
  intros Hla Ha. unfold erase_step. set (c64 := _ && _). set (c32 := _ && _).
  assert (Hgo : forall n cmd tmo, 0 < n -> addr mod n = 0 -> Z.of_nat (la cmd) <= tmo ->
    (cmd = 32 /\ n = 4096 \/ cmd = 82 /\ n = 32768 \/ cmd = 216 /\ n = 65536) ->
    erase_one addr cmd tmo (mkChip m w 0 rx0 se la) = (Ok tt, mkChip (erase_cells addr n m) false 0 [] 0 la)).
  { intros n cmd tmo Hn Hal Ht Hcmd. unfold erase_one. rewrite wren_chip. unfold cmd_addr.
    cbn [cs_low ChipSpi spi_write app cs_high mem wel busy rx sent latency].
    assert (E : chip_execute (mkChip m true 0 [cmd; as_u8 (Z.shiftr addr 16); as_u8 (Z.shiftr addr 8); as_u8 addr] 0 la) =
      mkChip (erase_cells addr n m) false (la cmd) [] 0 la).
    { assert (Hd : addr / n * n = addr) by (pose proof (Z.div_mod addr n); lia).
      destruct Hcmd as [[-> ->]|[[-> ->]|[-> ->]]]; unfold chip_execute; cbn [busy rx mem wel latency];
        rewrite addr24_bytes by done; by rewrite Hd. }
    rewrite E. unfold wait_not_busy. by rewrite wait_loop_chip by lia. }
  destruct Hla as (_ & H4 & H32 & H64). destruct c64 eqn:E64; [|destruct c32 eqn:E32]; intros Hal; apply Hgo;
    unfold c64, c32, TMO_64K, TMO_32K, TMO_4K, CMD_BLOCK_ER64, CMD_BLOCK_ER32, CMD_SECTOR_ER in *; zbool; lia || tauto.
Qed.

Lemma erase_loop_chip fuel addr len c :
  busy c = 0%nat -> in_time (latency c) -> 0 <= addr -> addr mod 4096 = 0 -> 0 <= len -> len mod 4096 = 0 ->
  addr + len <= CHIP_SIZE -> len <= 4096 * Z.of_nat fuel ->
  exists c', erase_loop fuel addr len c = (Ok tt, c') /\
    (forall x, mem c' x = erase_cells addr len (mem c) x) /\ busy c' = 0%nat /\ latency c' = latency c.
Proof.
  revert addr len c. induction fuel as [|fuel IH]; intros addr len c Hb Hla Ha Hal Hlen Hll Hc Hf.
  - exists c. cbn [erase_loop]. destruct (Z.leb_spec len 0); [|lia]. split; [done|]. split; [|done].
    intros x. unfold erase_cells. destruct (_ && _) eqn:E; [blia|done].
  - cbn [erase_loop]. destruct (Z.leb_spec len 0).
    { exists c. split; [done|]. split; [|done]. intros x. unfold erase_cells. destruct (_ && _) eqn:E; [blia|done]. }
    destruct c as [m w b rx0 se la]. cbn [busy mem latency] in *. subst b.
    pose proof (erase_one_chip addr len m w rx0 se la Hla ltac:(lia)) as H1.
    assert (Hstep : let '(chunk, _, _) := erase_step addr len in 4096 <= chunk <= len /\ chunk mod 4096 = 0).
    { unfold erase_step. assert (4096 <= len) by zdm.
      destruct (_ && _) eqn:E; [|destruct ((addr mod 32768 =? 0) && (32768 <=? len)) eqn:E2]; zbool; split; lia || reflexivity. }
    destruct (erase_step addr len) as [[chunk cmd] tmo]. destruct Hstep as [Hs Hsm]. rewrite (H1 Hal).
    unfold CHIP_SIZE in Hc. rewrite as_u32_id by (unfold is_u32; lia).
    destruct (IH (addr + chunk) (len - chunk) (mkChip (erase_cells addr chunk m) false 0 [] 0 la)) as (c' & E & Hm & H2);
      [done|done|lia|rewrite Z.add_mod, Hal, Hsm by lia; reflexivity|lia
      |rewrite Zminus_mod, Hll, Hsm; reflexivity|unfold CHIP_SIZE; lia|lia|].
    exists c'. split; [exact E|]. split; [|exact H2]. intros x. rewrite Hm. cbn [mem]. unfold erase_cells.
    destruct (Z.leb_spec (addr + chunk) x), (Z.ltb_spec x (addr + chunk + (len - chunk))),
      (Z.leb_spec addr x), (Z.ltb_spec x (addr + chunk)), (Z.ltb_spec x (addr + len)); cbn [andb]; done || lia.
Qed.

(** C27: the NOR driver.  On the chip of the data sheet it implements the flash
    memory the configuration store and the upgrade code are verified against
    (programming clears bits, erasing sets bytes to 0xFF, and nothing outside the
    range changes): reads of any length, page programs that stay in their page,
    erases of any multiple of 4 KiB, cut into 64, 32 and 4 KiB blocks, each
    preceded by a write-enable and followed by polling until ready, on any
    chip whose operations end within their timeouts.  Requests
    outside the chip, programs across a page and unaligned erases fail and do not
    touch the chip. *)
Theorem w25q_refines_nor (c : Chip) (n : NorImage) :
  simulates c n ->
  (forall addr k, 0 <= addr < CHIP_SIZE -> addr + Z.of_nat k <= CHIP_SIZE ->
    exists c', w25q_read addr k c = (fst (flash_read addr k n), c') /\ simulates c' n) /\
  (forall addr l, 0 <= addr -> addr mod 256 + Z.of_nat (length l) <= 256 ->
    addr + Z.of_nat (length l) <= CHIP_SIZE -> (length l <= budget n)%nat ->
    exists c', w25q_write addr l c = (Ok tt, c') /\
      fst (flash_write addr l n) = Ok tt /\ simulates c' (snd (flash_write addr l n))) /\
  (forall addr len, 0 <= addr -> addr mod 4096 = 0 -> 0 < len -> len mod 4096 = 0 ->
    addr + len <= CHIP_SIZE -> len <= Z.of_nat (budget n) ->
    exists c', w25q_erase addr len c = (Ok tt, c') /\
      fst (flash_erase addr len n) = Ok tt /\ simulates c' (snd (flash_erase addr len n))) /\
  (forall addr l k, 0 <= addr <= CHIP_SIZE -> Z.of_nat (length l) < 65536 -> Z.of_nat k < 65536 ->
    (CHIP_SIZE < addr + Z.of_nat k -> w25q_read addr k c = (Err, c)) /\
    (l <> [] -> 256 < addr mod 256 + Z.of_nat (length l) \/ CHIP_SIZE < addr + Z.of_nat (length l) ->
      w25q_write addr l c = (Err, c)) /\
    (addr mod 4096 <> 0 -> w25q_erase addr (Z.of_nat k) c = (Err, c))).
Proof.
  intros (Hm & Hb & Hla). split; [|split; [|split]].
  - intros addr k Ha Hk. unfold w25q_read. unfold CHIP_SIZE in *.
    rewrite as_u32_id by (unfold is_u32; lia).
    destruct (Z.leb_spec 16777216 addr); [lia|]. destruct (Z.ltb_spec (16777216 - addr) (Z.of_nat k)); [lia|]. cbn [orb].
    destruct (read_loop_chip k addr k [] c Hb ltac:(lia) ltac:(unfold CHIP_SIZE; lia) ltac:(lia)) as (c' & -> & H1 & H2 & H3).
    exists c'. cbn [app fst]. split; [|split; [by rewrite H1|by rewrite H3]].
    do 2 f_equal. cbn [fst flash_read NorFlash]. f_equal. apply list_fmap_ext. intros i x _. apply Hm.
  - intros addr l Ha Hp Hc Hbud. destruct (decide (l = [])) as [-> |Hne].
    { exists c. split; [done|]. split; [done|]. by split. }
    rewrite write_chip by done. eexists. split; [done|].
    destruct (page_program_sim (addr / 256 * 256) (addr mod 256) l (mem c) n) as [H1 H2];
      [apply Z.mod_pos_bound; lia|lia|done|done|].
    assert (addr / 256 * 256 + addr mod 256 = addr) as E by (pose proof (Z.div_mod addr 256); lia).
    rewrite E in H1, H2. cbn [flash_write NorFlash]. split; [done|]. split; [exact H2|done].
  - intros addr len Ha Hal Hlen Hll Hc Hbud. unfold w25q_erase, SECTOR_SIZE, CHIP_SIZE in *.
    rewrite as_u32_id by (unfold is_u32; lia). rewrite Hal, Hll.
    rewrite (proj2 (Z.eqb_neq len 0)) by lia. destruct (Z.ltb_spec 16777216 (addr + len)); [lia|]. cbn [orb negb Z.eqb].
    destruct (erase_loop_chip (Z.to_nat (len / 4096)) addr len c Hb Hla Ha Hal ltac:(lia) Hll
      ltac:(unfold CHIP_SIZE; lia) ltac:(zdm)) as (c' & -> & H1 & H2 & H3).
    exists c'. split; [done|]. cbn [flash_erase NorFlash].
    destruct (Z.ltb_spec (Z.of_nat (budget n)) len); [lia|]. split; [done|]. split; [|by rewrite H3].
    intros x. rewrite H1. cbn [cells snd]. unfold erase_cells. by rewrite Hm.
  - intros addr l k Ha Hl Hk. unfold CHIP_SIZE in *. split; [|split].
    + intros Hbig. unfold w25q_read, CHIP_SIZE. rewrite as_u32_id by (unfold is_u32; lia).
      destruct (Z.leb_spec 16777216 addr); [done|].
      destruct (Z.ltb_spec (16777216 - addr) (Z.of_nat k)); [done|lia].
    + intros Hne Hbig. unfold w25q_write, PAGE_SIZE, CHIP_SIZE.
      destruct (Nat.eqb_spec (length l) 0); [by destruct l|].
      pose proof (Z.mod_pos_bound addr 256 ltac:(lia)).
      rewrite (as_u32_id (Z.of_nat (length l))) by (unfold is_u32; lia).
      rewrite !as_u32_id by (unfold is_u32; lia).
      destruct (Z.ltb_spec 256 (addr mod 256 + Z.of_nat (length l))); [done|].
      destruct (Z.ltb_spec 16777216 (addr + Z.of_nat (length l))); [done|lia].
    + intros Hal. unfold w25q_erase, SECTOR_SIZE. rewrite (proj2 (Z.eqb_neq (addr mod 4096) 0)) by done.
      cbn [negb]. by rewrite orb_true_r.
Qed.

(** An operation that takes longer than its timeout fails. *)
Lemma wait_times_out tmo c : 0 <= tmo < Z.of_nat (busy c) -> (wait_not_busy tmo c).1 = Err.
Proof.
  unfold wait_not_busy. intros [H0 H]. replace (Z.to_nat (tmo + 1)) with (S (Z.to_nat tmo)) by lia.
  assert (Hk : (S (Z.to_nat tmo) <= busy c)%nat) by lia. clear H H0. revert c Hk.
  induction (S (Z.to_nat tmo)) as [|k IH]; intros [m w b rx0 se la] Hb; cbn [busy] in Hb; [done|].
  cbn [wait_loop]. rewrite read_sr1_chip. destruct b as [|b]; [lia|]. cbn [Nat.eqb pred].
  change (Z.land 1 SR1_BUSY =? 0) with false. cbn iota. apply IH. cbn. lia.
Qed.

(** A chip at the limit of each timeout. *)
Definition slowest : Z -> nat := fun cmd =>
  Z.to_nat (if cmd =? CMD_PAGE_PROG then 50 else if cmd =? CMD_SECTOR_ER then 2000 else if cmd =? CMD_BLOCK_ER32 then 8000 else 16000).

Definition chip_demo : Chip := mkChip (fun _ => 255) false 0 [] 0 slowest.

Lemma w25q_refines_nor_witness : let n := mkNorImage (fun _ => 255) (Z.to_nat 200000) in
  simulates chip_demo n /\
  (exists c', w25q_write 256 [1; 2; 3] chip_demo = (Ok tt, c') /\ mem c' 257 = 2) /\
  exists c', w25q_erase 0xF000 0x19000 chip_demo = (Ok tt, c') /\ simulates c' (snd (flash_erase 0xF000 0x19000 n)).
Proof.
  intros n. assert (H : simulates chip_demo n) by (split; [done|split; [done|by vm_compute]]).
  split; [exact H|]. destruct (w25q_refines_nor chip_demo n H) as (_ & Hw & He & _). split.
  - destruct (Hw 256 [1; 2; 3]) as (c' & E & _ & (Hc & _)); [lia|vm_compute; discriminate|vm_compute; discriminate|change (budget n) with (Z.to_nat 200000); cbn [length]; lia|].
    exists c'. split; [exact E|]. rewrite Hc. unfold n. cbn [cells snd flash_write NorFlash nor_program budget].
    destruct (Z.to_nat 200000) as [|[|[|k]]] eqn:Ek; [lia..|]. reflexivity.
  - destruct (He 0xF000 0x19000) as (c' & E & _ & Hs); [lia|reflexivity|lia|reflexivity|vm_compute; discriminate|change (budget n) with (Z.to_nat 200000); lia|].
    exists c'. exact (conj E Hs).
Defined.

(** The driver recognises the chip. *)
Example w25q_new_chip : W25q_new chip_demo <> None.
Proof. vm_compute. discriminate. Qed.
