(* ===== verification/NorSpec.v ===== *)
(** * What the NOR driver promises to its clients

    A client of the flash (the upgrade session, the page-splitting block device
    of littlefs) is verified against [NorSpec]: a memory of bytes that reads
    back, programs by clearing bits inside one 256-byte page, and erases whole
    4 KiB sectors.  The driver of [W25q] on its chip is an instance. *)
From S2P Require Import Prelude ConfigStore W25q.

Definition mem_bytes (m : Z -> Z) (a : Z) (k : nat) : list Z :=
  (fun i => m (a + Z.of_nat i)) <$> seq 0 k.

Class NorSpec (F : Type) `{!Flash F} := {
  holds : F -> (Z -> Z) -> Prop;
  holds_ext f m m' : holds f m -> (forall x, m x = m' x) -> holds f m';
  nor_read_ok f m a k : holds f m -> 0 <= a < CHIP_SIZE -> a + Z.of_nat k <= CHIP_SIZE ->
    exists f', flash_read a k f = (Ok (mem_bytes m a k), f') /\ holds f' m;
  nor_read_out f m a k : holds f m -> CHIP_SIZE <= a < 4294967296 -> flash_read a k f = (Err, f);
  nor_write_ok f m a l : holds f m -> 0 <= a -> a mod 256 + Z.of_nat (length l) <= 256 ->
    a + Z.of_nat (length l) <= CHIP_SIZE ->
    exists f', flash_write a l f = (Ok tt, f') /\ holds f' (write_cells a l m);
  nor_erase_ok f m a n : holds f m -> 0 <= a -> a mod 4096 = 0 -> 0 < n -> n mod 4096 = 0 ->
    a + n <= CHIP_SIZE ->
    exists f', flash_erase a n f = (Ok tt, f') /\ holds f' (erase_cells a n m)
}.

(** ** The chip *)

Definition chip_holds (c : Chip) (m : Z -> Z) : Prop :=
  (forall x, mem c x = m x) /\ busy c = 0%nat /\ in_time (latency c).

Lemma chip_holds_ext c m m' : chip_holds c m -> (forall x, m x = m' x) -> chip_holds c m'.
Proof. intros (Hm & H) E. split; [|done]. intros x. by rewrite Hm. Qed.

Lemma chip_read_ok c m a k :
  chip_holds c m -> 0 <= a < CHIP_SIZE -> a + Z.of_nat k <= CHIP_SIZE ->
  exists c', w25q_read a k c = (Ok (mem_bytes m a k), c') /\ chip_holds c' m.
Proof.
  intros (Hm & Hb & Hla) Ha Hk. unfold w25q_read. unfold CHIP_SIZE in *.
  rewrite as_u32_id by (unfold is_u32; lia).
  destruct (Z.leb_spec 16777216 a); [lia|]. destruct (Z.ltb_spec (16777216 - a) (Z.of_nat k)); [lia|]. cbn [orb].
  destruct (read_loop_chip k a k [] c Hb ltac:(lia) ltac:(unfold CHIP_SIZE; lia) ltac:(lia)) as (c' & -> & H1 & H2 & H3).
  exists c'. cbn [app]. split; [|split; [by rewrite H1|by rewrite H3]].
  do 2 f_equal. unfold mem_bytes. apply list_fmap_ext. intros i x _. apply Hm.
Qed.

Lemma chip_read_out c m a k : chip_holds c m -> CHIP_SIZE <= a < 4294967296 -> w25q_read a k c = (Err, c).
Proof. intros _ Ha. unfold w25q_read. by rewrite (proj2 (Z.leb_le _ _)) by lia. Qed.

Lemma chip_write_ok c m a l :
  chip_holds c m -> 0 <= a -> a mod 256 + Z.of_nat (length l) <= 256 -> a + Z.of_nat (length l) <= CHIP_SIZE ->
  exists c', w25q_write a l c = (Ok tt, c') /\ chip_holds c' (write_cells a l m).
Proof.
  intros (Hm & Hb & Hla) Ha Hp Hc. destruct (decide (l = [])) as [-> |Hne]; [by exists c|].
  rewrite write_chip by done. eexists. split; [done|].
  destruct (page_program_sim (a / 256 * 256) (a mod 256) l (mem c) (mkNorImage m (length l))) as [H1 H2];
    [apply Z.mod_pos_bound; lia|lia|done|done|].
  assert (a / 256 * 256 + a mod 256 = a) as E by (pose proof (Z.div_mod a 256); lia).
  rewrite E, nor_program_eq in H2. cbn [snd cells] in H2. rewrite take_ge in H2 by lia.
  split; [exact H2|done].
Qed.

Lemma chip_erase_ok c m a n :
  chip_holds c m -> 0 <= a -> a mod 4096 = 0 -> 0 < n -> n mod 4096 = 0 -> a + n <= CHIP_SIZE ->
  exists c', w25q_erase a n c = (Ok tt, c') /\ chip_holds c' (erase_cells a n m).
Proof.
  intros (Hm & Hb & Hla) Ha Hal Hlen Hll Hc. unfold w25q_erase, SECTOR_SIZE, CHIP_SIZE in *.
  rewrite as_u32_id by (unfold is_u32; lia). rewrite Hal, Hll.
  rewrite (proj2 (Z.eqb_neq n 0)) by lia. destruct (Z.ltb_spec 16777216 (a + n)); [lia|]. cbn [orb negb Z.eqb].
  destruct (erase_loop_chip (Z.to_nat (n / 4096)) a n c Hb Hla Ha Hal ltac:(lia) Hll
    ltac:(unfold CHIP_SIZE; lia) ltac:(zdm)) as (c' & -> & H1 & H2 & H3).
  exists c'. split; [done|]. split; [|by rewrite H3].
  intros x. rewrite H1. unfold erase_cells. by rewrite Hm.
Qed.

#[export] Instance ChipNor : NorSpec Chip := {|
  holds := chip_holds;
  holds_ext := chip_holds_ext;
  nor_read_ok := chip_read_ok;
  nor_read_out := chip_read_out;
  nor_write_ok := chip_write_ok;
  nor_erase_ok := chip_erase_ok
|}.

(** ** Lemmas on byte memories *)

Lemma mem_bytes_length m a k : length (mem_bytes m a k) = k.
Proof. unfold mem_bytes. by rewrite length_fmap, length_seq. Qed.
#[export] Hint Rewrite mem_bytes_length : lens.

Lemma mem_bytes_lookup m a k i : (i < k)%nat -> mem_bytes m a k !! i = Some (m (a + Z.of_nat i)).
Proof.
  intros Hi. unfold mem_bytes. rewrite list_lookup_fmap, (proj2 (lookup_seq 0 k i i)) by lia. done.
Qed.

Lemma mem_bytes_app m a j k : mem_bytes m a (j + k) = mem_bytes m a j ++ mem_bytes m (a + Z.of_nat j) k.
Proof.
  apply list_eq_same_length with (j + k)%nat; [len|len|].
  intros i x y Hi. rewrite mem_bytes_lookup by done.
  destruct (decide (i < j)%nat).
  - rewrite lookup_app_l, mem_bytes_lookup by len. congruence.
  - rewrite lookup_app_r, mem_bytes_length, mem_bytes_lookup by len.
    replace (a + Z.of_nat j + Z.of_nat (i - j)) with (a + Z.of_nat i) by lia. congruence.
Qed.

Lemma mem_bytes_ext m m' a k :
  (forall x, a <= x < a + Z.of_nat k -> m x = m' x) -> mem_bytes m a k = mem_bytes m' a k.
Proof.
  intros H. apply list_eq_same_length with k; [len|len|].
  intros i x y Hi. rewrite !mem_bytes_lookup by done. rewrite H by lia. congruence.
Qed.

(** [l] sits at [a]. *)
Lemma mem_bytes_eq m a l :
  (forall x, a <= x < a + Z.of_nat (length l) -> m x = l !!! Z.to_nat (x - a)) -> mem_bytes m a (length l) = l.
Proof.
  intros H. apply list_eq_same_length with (length l); [done|apply mem_bytes_length|].
  intros i x y Hi. rewrite mem_bytes_lookup, H by lia.
  replace (Z.to_nat _) with i by lia. intros [= <-] Hy. by apply list_lookup_total_correct.
Qed.

(** Programming erased cells stores the bytes. *)
Lemma write_erased a l m x :
  bytes_ok l -> (forall y, a <= y < a + Z.of_nat (length l) -> m y = 255) ->
  write_cells a l m x = if decide (a <= x < a + Z.of_nat (length l)) then l !!! Z.to_nat (x - a) else m x.
Proof.
  intros Hl Hm. rewrite write_cells_at. case_decide; [|done]. rewrite Hm by done.
  apply land_255_l. apply (Forall_lookup_1 is_u8 l (Z.to_nat (x - a))); [done|].
  apply list_lookup_lookup_total_lt. lia.
Qed.
