(* ===== verification/FwSession.v ===== *)
(** * The firmware-upgrade session (crates/firmware/src/fw.rs)

    The session object, its page buffer and the operations on it, over any
    flash.  The theorems are about a flash that meets [NorSpec]. *)
From S2P Require Import Prelude Bytes Crc ConfigStore StorageCfg FwUpg W25q NorSpec.

Definition PAGE_SZ : nat := 256.
Definition READ_CHUNK : nat := 64.
Definition IMG_HDR_SIZE : Z := 0x200.
Definition TLV_READ : nat := 512.

Record FwSession := mkFwSession {
  s_active : bool; s_failed : bool; s_total : Z; s_written : Z; s_page : list Z; s_page_len : nat
}.

(** The static [FW] before the first upgrade. *)
Definition FW_init : FwSession := mkFwSession false false 0 0 (replicate PAGE_SZ 0) 0.

(** The statics [FW], [FW_DBG] and storage's [NOR]. *)
Record FwW (F : Type) := mkFwW { FW : FwSession; FW_DBG : list Z; FNOR : option F }.
Arguments mkFwW {F} _ _ _.
Arguments FW {F} _.
Arguments FW_DBG {F} _.
Arguments FNOR {F} _.

Definition with_page_len (n : nat) (s : FwSession) : FwSession :=
  mkFwSession (s_active s) (s_failed s) (s_total s) (s_written s) (s_page s) n.
Definition with_page (p : list Z) (s : FwSession) : FwSession :=
  mkFwSession (s_active s) (s_failed s) (s_total s) (s_written s) p (s_page_len s).
Definition with_written (n : Z) (s : FwSession) : FwSession :=
  mkFwSession (s_active s) (s_failed s) (s_total s) n (s_page s) (s_page_len s).
Definition with_failed (s : FwSession) : FwSession :=
  mkFwSession (s_active s) true (s_total s) (s_written s) (s_page s) (s_page_len s).
Definition with_inactive (s : FwSession) : FwSession :=
  mkFwSession false (s_failed s) (s_total s) (s_written s) (s_page s) (s_page_len s).

(** The 16 words of a diagnostic that starts with [l]. *)
Definition dbg_words (l : list Z) : list Z := l ++ replicate (16 - length l) 0.

(** [chunks(4)] of a slice, each read as a little-endian word. *)
Fixpoint le_words (l : list Z) : list Z :=
  match l with
  | a :: b :: c :: d :: l => from_le_bytes32 a b c d :: le_words l
  | _ => []
  end.

Section Ops.
Context {F : Type} `{!Flash F}.

Definition page_flush (s : FwSession) (nor : option F) : option (bool * FwSession * option F) :=
  if (0 <? s_page_len s)%nat then
    data ← slice (s_page s) 0 (s_page_len s);
    let '(r, nor) := nor_with (flash_write (s_written s) data) nor in
    Some (ok_or_false r, with_page_len 0 s, nor)
  else Some (true, s, nor).

Definition erase_slot1 (nor : option F) : bool * option F :=
  let '(r, nor) := nor_with (flash_erase 0 SLOT1_SIZE) nor in (ok_or_false r, nor).

Definition start (total : Z) (keyhash : option (list Z)) (w : FwW F) : Z * FwW F :=
  if s_active (FW w) then (-3, w) else
  if (total <? 64) || (SLOT1_SIZE <? total) then (-1, w) else
  if match keyhash with Some kh => negb (bytes_eqb kh FW_KEYHASH) | None => false end then (-2, w) else
  let '(ok, nor) := erase_slot1 (FNOR w) in
  if negb ok then (-1, mkFwW (FW w) (FW_DBG w) nor) else
  (0, mkFwW (mkFwSession true false total 0 (s_page (FW w)) 0) (FW_DBG w) nor).

(** [while !data.is_empty()]; a turn consumes at least a byte while the page
    buffer is not full, so [length data] turns are enough. *)
Fixpoint write_loop (fuel : nat) (data : list Z) (s : FwSession) (nor : option F)
    : option (bool * FwSession * option F) :=
  match data with
  | [] => Some (true, s, nor)
  | _ =>
      match fuel with
      | O => None
      | S fuel =>
          let plen := s_page_len s in
          let chunk := Nat.min (PAGE_SZ - plen) (length data) in
          page ← blit (s_page s) plen (take chunk data);
          let s := with_page_len (plen + chunk) (with_page page s) in
          let data := drop chunk data in
          if (s_page_len s =? PAGE_SZ)%nat then
            '(ok, s, nor) ← page_flush s nor;
            if negb ok then Some (false, with_failed s, nor)
            else write_loop fuel data (with_written (as_u32 (s_written s + Z.of_nat PAGE_SZ)) s) nor
          else write_loop fuel data s nor
      end
  end.

Definition write (data : list Z) (w : FwW F) : option (bool * FwW F) :=
  let s := FW w in
  if negb (s_active s) || s_failed s then Some (false, w) else
  if s_total s <? as_u32 (as_u32 (s_written s + as_u32 (Z.of_nat (s_page_len s))) + as_u32 (Z.of_nat (length data)))
  then Some (false, mkFwW (with_failed s) (FW_DBG w) (FNOR w)) else
  '(ok, s, nor) ← write_loop (length data) data s (FNOR w);
  Some (ok, mkFwW s (FW_DBG w) nor).

Definition abort (w : FwW F) : FwW F :=
  let s := FW w in
  mkFwW (mkFwSession false false (s_total s) 0 (s_page s) 0) (FW_DBG w) (FNOR w).

Definition tlv_keyhash_ok (nor : option F) : option (bool * option F) :=
  let '(r, nor) := nor_with (flash_read 0 32) nor in
  match r with
  | Some (Ok hdr) =>
      pos ← image_tlv_pos hdr IMG_HDR_SIZE;
      match pos with
      | None => Some (false, nor)
      | Some pos =>
          if SLOT1_SIZE <? as_u32 (tlv_off pos + 4) then Some (false, nor) else
          let read := Z.to_nat (Z.min (Z.of_nat TLV_READ) (as_u32 (SLOT1_SIZE - tlv_off pos))) in
          let '(r, nor) := nor_with (flash_read (tlv_off pos) read) nor in
          match r with
          | Some (Ok tlv) =>
              kh ← keyhash_in_tlv tlv;
              Some (match kh with Some kh => bytes_eqb kh FW_KEYHASH | None => false end, nor)
          | _ => Some (false, nor)
          end
      end
  | _ => Some (false, nor)
  end.

(** [while off < total]: the CRC of the slot, or [None] when a read fails.
    [buf] is the read buffer, whose first 16 bytes go to the diagnostics. *)
Fixpoint readback (fuel : nat) (off total crc_v : Z) (buf dbg : list Z) (nor : option F)
    : option Z * list Z * option F :=
  if off <? total then
    match fuel with
    | O => (None, dbg, nor)
    | S fuel =>
        let n := Z.to_nat (Z.min (total - off) (Z.of_nat READ_CHUNK)) in
        let '(r, nor) := nor_with (flash_read off n) nor in
        match r with
        | Some (Ok got) =>
            let buf := list_inserts 0 got buf in
            let dbg := if off =? 0 then dbg_words ([3; total; 0; 0] ++ le_words (take 16 buf)) else dbg in
            readback fuel (as_u32 (off + Z.of_nat n)) total (fw_crc16_ccitt crc_v (take n buf)) buf dbg nor
        | _ => (None, dbg, nor)
        end
    end
  else (Some crc_v, dbg, nor).

(** A failed read of the diagnostic tail leaves it zero here. *)
Definition finish (crc : option Z) (w : FwW F) : option (bool * FwW F) :=
  let s := FW w in
  if negb (s_active s) then Some (false, w) else
  let s := with_inactive s in
  let tail := Z.of_nat (s_page_len s) in
  '(flushed, s, nor) ← (if s_failed s then Some (false, s, FNOR w) else page_flush s (FNOR w));
  if negb flushed then Some (false, mkFwW s (dbg_words [1; as_u32 (s_written s + tail)]) nor) else
  let s := with_written (as_u32 (s_written s + tail)) s in
  if negb (s_written s =? s_total s)
  then Some (false, mkFwW s (dbg_words [2; s_written s; s_total s]) nor) else
  let total := s_total s in
  let '(v, dbg, nor) :=
    readback (S (Z.to_nat total)) 0 total 0 (replicate READ_CHUNK 0) (FW_DBG w) nor in
  match v with
  | None => Some (false, mkFwW s (dbg_words [4]) nor)
  | Some crc_v =>
      '(tlv_ok, nor) ← tlv_keyhash_ok nor;
      let crc_bad := match crc with Some expect => negb (crc_v =? expect) | None => false end in
      if crc_bad || negb tlv_ok then
        let tail_off := Z.max 0 (total - 16) in
        let '(r, nor) := nor_with (flash_read tail_off 16) nor in
        let tail16 := match r with Some (Ok b) => b | _ => replicate 16 0 end in
        let d := dbg_words ([5; crc_v; default 0 crc; Z.b2z tlv_ok; 0; 0; 0; 0] ++ le_words tail16) in
        Some (false, mkFwW s d nor)
      else Some (true, mkFwW s dbg nor)
  end.

Definition received (w : FwW F) : Z := as_u32 (s_written (FW w) + as_u32 (Z.of_nat (s_page_len (FW w)))).
Definition total (w : FwW F) : Z := if s_active (FW w) then s_total (FW w) else 0.
Definition active (w : FwW F) : bool := s_active (FW w).

(** [and_then] on the driver. *)
Definition and_write (addr : Z) (l : list Z) (p : result unit * F) : result unit * F :=
  match p with (Ok _, f) => flash_write addr l f | (Err, f) => (Err, f) end.

Definition boot_set_pending (permanent : bool) (nor : option F) : bool * option F :=
  let '(ok, nor) :=
    nor_with (fun nor =>
      let p := flash_write magic_off BOOT_MAGIC nor in
      let p := if permanent then and_write image_ok_off (trailer_flag BOOT_FLAG_SET) p else p in
      let ty := if permanent then BOOT_SWAP_TYPE_PERM else BOOT_SWAP_TYPE_TEST in
      and_write swap_info_off (trailer_flag ty) p) nor in
  (ok_or_false ok, nor).
End Ops.

(** ** Vocabulary of the theorems *)

(** The slot after an erase and the programming of [p] from its start; [m0]
    outside the slot. *)
Definition slot_mem (m0 : Z -> Z) (p : list Z) : Z -> Z := fun x =>
  if decide (0 <= x < Z.of_nat (length p)) then p !!! Z.to_nat x
  else if decide (0 <= x < SLOT1_SIZE) then 255 else m0 x.

(** The key-hash check, as a function of the bytes of the slot. *)
Definition slot_keyhash (m : Z -> Z) : bool :=
  match image_tlv_pos (mem_bytes m 0 32) IMG_HDR_SIZE with
  | Some (Some pos) =>
      if SLOT1_SIZE <? tlv_off pos + 4 then false else
      match keyhash_in_tlv (mem_bytes m (tlv_off pos) (Z.to_nat (Z.min 512 (SLOT1_SIZE - tlv_off pos)))) with
      | Some (Some kh) => bytes_eqb kh FW_KEYHASH
      | _ => false
      end
  | _ => false
  end.

Section Spec.
Context {F : Type} `{!Flash F, !NorSpec F}.

(** The session has received [d] of [t] bytes: whole pages are in the slot,
    the rest in the page buffer. *)
Record receiving (m0 : Z -> Z) (t : Z) (d : list Z) (s : FwSession) (f : F) : Prop := {
  rcv_active : s_active s = true;
  rcv_failed : s_failed s = false;
  rcv_total : s_total s = t;
  rcv_t : t <= SLOT1_SIZE;
  rcv_bytes : bytes_ok d;
  rcv_page : length (s_page s) = PAGE_SZ;
  rcv_plen : (s_page_len s < PAGE_SZ)%nat;
  rcv_split : exists p, d = p ++ take (s_page_len s) (s_page s) /\ s_written s = Z.of_nat (length p) /\
    Z.of_nat (length p) mod 256 = 0 /\ holds f (slot_mem m0 p)
}.

Lemma slot_mem_app m0 p l x :
  bytes_ok l -> Z.of_nat (length (p ++ l)) <= SLOT1_SIZE ->
  write_cells (Z.of_nat (length p)) l (slot_mem m0 p) x = slot_mem m0 (p ++ l) x.
Proof.
  intros Hl Hs. rewrite length_app in Hs. rewrite write_erased; [|done|].
  - unfold slot_mem. rewrite length_app. case_decide.
    + rewrite decide_True by lia. rewrite lookup_total_app_r by lia. f_equal. lia.
    + case_decide.
      * rewrite decide_True by lia. by rewrite lookup_total_app_l by lia.
      * by rewrite (decide_False (P := 0 <= x < Z.of_nat (length p + length l))) by lia.
  - intros y Hy. unfold slot_mem. rewrite decide_False by lia. by rewrite decide_True by lia.
Qed.

Lemma slot_mem_nil m0 x : erase_cells 0 SLOT1_SIZE m0 x = slot_mem m0 [] x.
Proof.
  unfold erase_cells, slot_mem. cbn [length Z.of_nat]. rewrite (decide_False (P := 0 <= x < 0)) by lia.
  case_decide; destruct (Z.leb_spec 0 x), (Z.ltb_spec x (0 + SLOT1_SIZE)); first [done | lia].
Qed.

Lemma slot_mem_bytes m0 p : mem_bytes (slot_mem m0 p) 0 (length p) = p.
Proof.
  apply mem_bytes_eq. intros x Hx. unfold slot_mem. rewrite decide_True by lia. f_equal. lia.
Qed.

(** Flushing the page buffer appends it to the slot. *)
Lemma page_flush_ok m0 p s f :
  (s_page_len s <= PAGE_SZ)%nat -> length (s_page s) = PAGE_SZ -> s_written s = Z.of_nat (length p) ->
  Z.of_nat (length p) mod 256 = 0 -> holds f (slot_mem m0 p) -> bytes_ok (take (s_page_len s) (s_page s)) ->
  Z.of_nat (length p + s_page_len s) <= SLOT1_SIZE ->
  exists f', page_flush s (Some f) = Some (true, with_page_len 0 s, Some f') /\
    holds f' (slot_mem m0 (p ++ take (s_page_len s) (s_page s))).
Proof.
  unfold PAGE_SZ, SLOT1_SIZE. intros Hl Hp Hw Hm Hf Hb Hs. unfold page_flush.
  destruct (Nat.ltb_spec 0 (s_page_len s)).
  - rewrite slice_ok by lia. cbn [mbind option_bind]. rewrite Nat.sub_0_r, drop_0, Hw. cbn [nor_with].
    set (l := take _ _) in *. assert (Hll : length l = s_page_len s) by (unfold l; len).
    destruct (nor_write_ok f _ (Z.of_nat (length p)) l Hf) as (f' & -> & H'); [lia|lia|unfold CHIP_SIZE; lia|].
    exists f'. split; [done|]. eapply holds_ext; [exact H'|].
    intros x. apply slot_mem_app; [done|]. rewrite length_app. unfold SLOT1_SIZE. lia.
  - assert (s_page_len s = 0%nat) as E by lia. rewrite E. rewrite app_nil_r. exists f. split; [|done].
    destruct s. cbn in E. by subst.
Qed.

Lemma write_loop_ok fuel : forall m0 t d data s f,
  receiving m0 t d s f -> bytes_ok data -> Z.of_nat (length (d ++ data)) <= t -> (length data <= fuel)%nat ->
  exists s' f', write_loop fuel data s (Some f) = Some (true, s', Some f') /\ receiving m0 t (d ++ data) s' f'.
Proof.
  induction fuel as [|fuel IH]; intros m0 t d data s f Hr Hd Ht Hf.
  { destruct data; [|cbn in Hf; lia]. exists s, f. by rewrite app_nil_r. }
  destruct data as [|b data]; [exists s, f; by rewrite app_nil_r|].
  destruct Hr as [Ha Hfa Htt Ht2 Hdb Hpg Hpl (p & Ed & Hw & Hmod & Hh)].
  cbn [write_loop]. set (data' := b :: data) in *. assert (Hdl : (0 < length data')%nat) by (cbn; lia).
  clearbody data'. clear b data. unfold PAGE_SZ, SLOT1_SIZE in *.
  set (plen := s_page_len s) in *. set (chunk := Nat.min (256 - plen) (length data')).
  assert (Hk : (0 < chunk <= length data')%nat /\ (plen + chunk <= 256)%nat) by lia.
  set (cb := take chunk data'). assert (Hcb : length cb = chunk) by (unfold cb; len).
  assert (Hcbb : bytes_ok cb) by (by apply Forall_take).
  assert (Hrest : bytes_ok (drop chunk data')) by (by apply Forall_drop).
  rewrite blit_ok by lia. cbn [mbind option_bind]. rewrite list_inserts_split by lia.
  set (page' := take plen (s_page s) ++ cb ++ drop (plen + length cb) (s_page s)).
  assert (Hpl' : length page' = 256%nat) by (unfold page'; len).
  assert (Htk : take (plen + chunk) page' = take plen (s_page s) ++ cb).
  { unfold page'. rewrite app_assoc. apply take_app_length'. len. }
  assert (Hdd : d ++ data' = (p ++ take plen (s_page s) ++ cb) ++ drop chunk data').
  { rewrite Ed, <- !app_assoc. do 2 f_equal. unfold cb. by rewrite take_drop. }
  assert (Hpre : bytes_ok (take plen (s_page s) ++ cb)).
  { rewrite Ed in Hdb. apply bytes_ok_app_inv in Hdb as [_ Hdb]. by apply bytes_ok_app. }
  assert (Hpb : bytes_ok p) by (rewrite Ed in Hdb; by apply bytes_ok_app_inv in Hdb as [? _]).
  assert (Hlen : (length p + plen + chunk + length (drop chunk data') = length (d ++ data'))%nat).
  { rewrite Hdd, !length_app, length_take, Hcb. lia. }
  set (s1 := with_page_len (plen + chunk) (with_page page' s)).
  change (s_page_len s1) with (plen + chunk)%nat.
  destruct (Nat.eqb_spec (plen + chunk) 256) as [E|E].
  - assert (Hs1 : s_page_len s1 = 256%nat /\ take (s_page_len s1) (s_page s1) = take plen (s_page s) ++ cb)
      by (split; [exact E|exact Htk]).
    destruct Hs1 as [Hs1 Hs2].
    destruct (page_flush_ok m0 p s1 f) as (f1 & Hfl & Hf1);
      [unfold PAGE_SZ; lia|done|done|done|done|by rewrite Hs2|unfold SLOT1_SIZE; lia|].
    rewrite Hs2 in Hf1.
    rewrite Hfl. cbn [mbind option_bind negb].
    rewrite Hdd. apply IH; [|done| |].
    + unfold s1. split; cbn [s_active s_failed s_total s_written s_page s_page_len with_page_len with_page with_written];
        unfold PAGE_SZ, SLOT1_SIZE; [done..|by apply bytes_ok_app|done|lia|].
      eexists. rewrite take_0, app_nil_r. split; [done|]. rewrite Hw, as_u32_id by (unfold is_u32; lia).
      rewrite !length_app, length_take, Hcb, Nat.min_l by lia. split; [lia|]. split; [zdm|done].
    + rewrite <- Hdd. lia.
    + rewrite length_drop. lia.
  - rewrite Hdd. apply IH; [|done| |].
    + unfold s1. split; cbn [s_active s_failed s_total s_written s_page s_page_len with_page_len with_page];
        unfold PAGE_SZ, SLOT1_SIZE; [done..|by apply bytes_ok_app|done|lia|].
      exists p. by rewrite Htk.
    + rewrite <- Hdd. lia.
    + rewrite length_drop. lia.
Qed.

Lemma write_ok m0 t d data w f :
  FNOR w = Some f -> receiving m0 t d (FW w) f -> bytes_ok data -> Z.of_nat (length (d ++ data)) <= t ->
  exists w' f', write data w = Some (true, w') /\ FNOR w' = Some f' /\ FW_DBG w' = FW_DBG w /\
    receiving m0 t (d ++ data) (FW w') f'.
Proof.
  intros Hn Hr Hd Ht. destruct (write_loop_ok (length data) m0 t d data (FW w) f Hr Hd Ht) as (s' & f' & E & H'); [lia|].
  exists (mkFwW s' (FW_DBG w) (Some f')), f'. split; [|done].
  destruct Hr as [Ha Hfa Htt Ht2 Hdb Hpg Hpl (p & Ed & Hw & Hmod & Hh)]. unfold write, SLOT1_SIZE, PAGE_SZ in *.
  rewrite Ha, Hfa. cbn [negb orb]. rewrite Ed in Ht. rewrite !length_app, length_take, Nat.min_l in Ht by lia.
  rewrite (as_u32_id (Z.of_nat (s_page_len (FW w)))), (as_u32_id (Z.of_nat (length data))),
    (as_u32_id (s_written (FW w) + _)) by (unfold is_u32; lia).
  rewrite as_u32_id by (unfold is_u32; lia).
  rewrite Htt, (proj2 (Z.ltb_ge _ _)) by lia. rewrite Hn, E. done.
Qed.

Lemma start_ok m0 t kh w f :
  FNOR w = Some f -> holds f m0 -> s_active (FW w) = false -> length (s_page (FW w)) = PAGE_SZ ->
  64 <= t <= SLOT1_SIZE -> (kh = None \/ kh = Some FW_KEYHASH) ->
  exists w' f', start t kh w = (0, w') /\ FNOR w' = Some f' /\ FW_DBG w' = FW_DBG w /\
    receiving m0 t [] (FW w') f'.
Proof.
  intros Hn Hf Ha Hp Ht Hk. unfold start. rewrite Ha.
  destruct (Z.ltb_spec t 64); [lia|]. destruct (Z.ltb_spec SLOT1_SIZE t); [lia|]. cbn [orb].
  replace (match kh with Some kh => negb (bytes_eqb kh FW_KEYHASH) | None => false end) with false by
    (destruct Hk as [->| ->]; [done|]; unfold bytes_eqb; by rewrite bool_decide_true).
  unfold erase_slot1. rewrite Hn. cbn [nor_with].
  destruct (nor_erase_ok f m0 0 SLOT1_SIZE Hf) as (f' & -> & Hf'); [lia|done|done|done|done|].
  cbn [ok_or_false is_ok negb]. eexists _, f'. split; [done|]. split; [done|]. split; [done|].
  split; cbn [FW s_active s_failed s_total s_written s_page s_page_len]; [done..|lia|constructor|done|unfold PAGE_SZ; lia|].
  exists []. split; [done|]. split; [done|]. split; [done|]. eapply holds_ext; [exact Hf'|]. apply slot_mem_nil.
Qed.

Lemma readback_ok m total fuel : forall off crc buf dbg f,
  holds f m -> 0 <= off <= total -> total <= CHIP_SIZE -> length buf = READ_CHUNK ->
  total - off < Z.of_nat fuel ->
  exists dbg' f', readback fuel off total crc buf dbg (Some f) =
    (Some (fw_crc16_ccitt crc (mem_bytes m off (Z.to_nat (total - off)))), dbg', Some f') /\ holds f' m.
Proof.
  induction fuel as [|fuel IH]; intros off crc buf dbg f Hf Ho Ht Hb Hfu; [lia|]. cbn [readback].
  destruct (Z.ltb_spec off total).
  2:{ replace (Z.to_nat (total - off)) with 0%nat by lia. by exists dbg, f. }
  set (n := Z.to_nat _). unfold READ_CHUNK, CHIP_SIZE in *.
  assert (Hn : (0 < n <= 64)%nat /\ off + Z.of_nat n <= total) by lia.
  cbn [nor_with]. destruct (nor_read_ok f m off n Hf) as (f' & -> & Hf'); [unfold CHIP_SIZE; lia..|].
  rewrite (list_inserts_split buf 0) by len. cbn [app]. rewrite take_0. cbn [app].
  rewrite take_app_length' by len. rewrite as_u32_id by (unfold is_u32; lia).
  match goal with |- context [readback fuel _ _ ?c ?b ?d _] =>
    destruct (IH (off + Z.of_nat n) c b d f' Hf') as (dbg' & f'' & E & H'); [lia|lia|len|lia|] end.
  exists dbg', f''. split; [|done]. rewrite E. do 3 f_equal.
  replace (Z.to_nat (total - off)) with (n + Z.to_nat (total - (off + Z.of_nat n)))%nat by lia.
  rewrite mem_bytes_app. unfold fw_crc16_ccitt. by rewrite foldl_app.
Qed.

Lemma image_tlv_pos_32 l : length l = 32%nat ->
  exists r, image_tlv_pos l IMG_HDR_SIZE = Some r /\
    forall pos, r = Some pos -> is_u32 (tlv_off pos) /\ tlv_off pos mod 4 = 0.
Proof.
  intros Hl. unfold image_tlv_pos. do 32 (destruct l as [|? l]; [discriminate|]). destruct l; [|discriminate].
  cbn -[from_le_bytes32 from_le_bytes16 as_u32 IMG_HDR_SIZE Z.modulo].
  repeat (case_match; [by eexists|]). eexists. split; [done|]. intros pos [= <-]. cbn [tlv_off]. zbool.
  split; [apply as_u32_range|done].
Qed.

Lemma tlv_keyhash_ok_spec m f :
  holds f m -> exists f', tlv_keyhash_ok (Some f) = Some (slot_keyhash m, Some f') /\ holds f' m.
Proof.
  intros Hf. unfold tlv_keyhash_ok, slot_keyhash. cbn [nor_with].
  destruct (nor_read_ok f m 0 32 Hf) as (f1 & -> & H1); [unfold CHIP_SIZE; lia..|].
  destruct (image_tlv_pos_32 (mem_bytes m 0 32)) as (r & -> & Hr); [apply mem_bytes_length|].
  cbn [mbind option_bind]. destruct r as [pos|]; [|by exists f1].
  destruct (Hr pos eq_refl) as [Hu Hal]. clear Hr. unfold is_u32, SLOT1_SIZE, TLV_READ in *.
  destruct (decide (tlv_off pos = 4294967292)) as [E|E].
  - rewrite E. change (458752 <? as_u32 (4294967292 + 4)) with false. cbn iota. cbn [nor_with].
    rewrite (nor_read_out f1 m) by (first [done | unfold CHIP_SIZE; lia]). by exists f1.
  - rewrite as_u32_id by (unfold is_u32; zdm).
    destruct (Z.ltb_spec 458752 (tlv_off pos + 4)); [by exists f1|].
    rewrite as_u32_id by (unfold is_u32; lia). change (Z.of_nat 512) with 512. cbn [nor_with].
    set (k := Z.to_nat _). destruct (nor_read_ok f1 m (tlv_off pos) k H1) as (f2 & -> & H2); [unfold CHIP_SIZE; lia..|].
    destruct (keyhash_in_tlv_total (mem_bytes m (tlv_off pos) k)) as (kh & -> & _). cbn [mbind option_bind].
    exists f2. by destruct kh.
Qed.

(** What [finish] decides about an image the slot holds whole. *)
Definition accepted (crc : option Z) (m : Z -> Z) (img : list Z) : bool :=
  match crc with Some e => fw_crc16_ccitt 0 img =? e | None => true end && slot_keyhash m.

Lemma finish_flush m0 t d w f :
  FNOR w = Some f -> receiving m0 t d (FW w) f -> Z.of_nat (length d) <= t ->
  let s := with_inactive (FW w) in
  exists f', page_flush s (FNOR w) = Some (true, with_page_len 0 s, Some f') /\ holds f' (slot_mem m0 d) /\
    as_u32 (s_written (FW w) + Z.of_nat (s_page_len (FW w))) = Z.of_nat (length d).
Proof.
  intros Hn [Ha Hfa Htt Ht2 Hdb Hpg Hpl (p & Ed & Hw & Hmod & Hh)] Ht s. unfold PAGE_SZ, SLOT1_SIZE in *.
  assert (Hl : length d = (length p + s_page_len (FW w))%nat) by (rewrite Ed at 1; len).
  rewrite Hn. destruct (page_flush_ok m0 p s f) as (f' & E & H');
    [unfold PAGE_SZ; cbn; lia|done|done|done|done| |unfold SLOT1_SIZE; cbn; lia|].
  { rewrite Ed in Hdb. by apply bytes_ok_app_inv in Hdb as [_ ?]. }
  exists f'. split; [exact E|]. split; [|rewrite as_u32_id by (unfold is_u32; lia); lia].
  change (s_page_len s) with (s_page_len (FW w)) in H'. change (s_page s) with (s_page (FW w)) in H'. by rewrite <- Ed in H'.
Qed.

Lemma finish_short m0 t d w f crc :
  FNOR w = Some f -> receiving m0 t d (FW w) f -> Z.of_nat (length d) < t ->
  exists w' f', finish crc w = Some (false, w') /\ FNOR w' = Some f' /\ active w' = false /\ holds f' (slot_mem m0 d).
Proof.
  intros Hn Hr Ht. destruct (finish_flush m0 t d w f Hn Hr ltac:(lia)) as (f' & E & H' & El).
  destruct Hr as [Ha Hfa Htt Ht2 _ _ _ _]. unfold finish. rewrite Ha. cbn [negb].
  change (s_failed (with_inactive (FW w))) with (s_failed (FW w)). rewrite Hfa, E. cbn [mbind option_bind negb].
  cbn [with_page_len with_inactive s_written s_page_len]. rewrite El.
  cbn [with_written with_page_len with_inactive s_written s_total]. rewrite Htt, (proj2 (Z.eqb_neq _ _)) by lia. cbn [negb].
  by eexists _, f'.
Qed.

Lemma finish_ok m0 img w f crc :
  FNOR w = Some f -> receiving m0 (Z.of_nat (length img)) img (FW w) f -> 64 <= Z.of_nat (length img) ->
  exists w' f', finish crc w = Some (accepted crc (slot_mem m0 img) img, w') /\ FNOR w' = Some f' /\
    active w' = false /\ holds f' (slot_mem m0 img).
Proof.
  intros Hn Hr Ht. destruct (finish_flush m0 _ img w f Hn Hr ltac:(lia)) as (f' & E & H' & El).
  destruct Hr as [Ha Hfa Htt Ht2 _ _ _ _]. unfold finish. rewrite Ha. cbn [negb].
  change (s_failed (with_inactive (FW w))) with (s_failed (FW w)). rewrite Hfa, E. cbn [mbind option_bind negb].
  cbn [with_page_len with_inactive s_written s_page_len]. rewrite El.
  cbn [with_written with_page_len with_inactive s_written s_total s_active s_failed s_page s_page_len].
  rewrite Htt, Z.eqb_refl. cbn [negb].
  set (t := Z.of_nat (length img)) in *. unfold SLOT1_SIZE in *.
  destruct (readback_ok (slot_mem m0 img) t (S (Z.to_nat t)) 0 0 (replicate READ_CHUNK 0) (FW_DBG w) f' H')
    as (dbg' & f2 & -> & H2); [lia|unfold CHIP_SIZE; lia|by rewrite length_replicate|lia|].
  destruct (tlv_keyhash_ok_spec _ f2 H2) as (f3 & -> & H3). cbn [mbind option_bind].
  replace (Z.to_nat (t - 0)) with (length img) by lia. rewrite slot_mem_bytes.
  unfold accepted. destruct (slot_keyhash (slot_mem m0 img)), crc as [e|];
    try destruct (fw_crc16_ccitt 0 img =? e); cbn [negb orb andb];
    try (by eexists _, f3); cbn [nor_with];
    (destruct (nor_read_ok f3 _ (Z.max 0 (t - 16)) 16 H3) as (f4 & -> & H4); [unfold CHIP_SIZE; lia..|]);
    by eexists _, f4.
Qed.

Fixpoint write_all (chunks : list (list Z)) (w : FwW F) : option (list bool * FwW F) :=
  match chunks with
  | [] => Some ([], w)
  | c :: chunks => '(b, w) ← write c w; '(bs, w) ← write_all chunks w; Some (b :: bs, w)
  end.

Lemma write_all_ok chunks : forall m0 t d w f,
  FNOR w = Some f -> receiving m0 t d (FW w) f -> bytes_ok (concat chunks) ->
  Z.of_nat (length (d ++ concat chunks)) <= t ->
  exists w' f', write_all chunks w = Some (replicate (length chunks) true, w') /\ FNOR w' = Some f' /\
    FW_DBG w' = FW_DBG w /\ receiving m0 t (d ++ concat chunks) (FW w') f'.
Proof.
  induction chunks as [|c chunks IH]; intros m0 t d w f Hn Hr Hb Ht; cbn [concat write_all length replicate] in *.
  - exists w, f. by rewrite app_nil_r.
  - apply bytes_ok_app_inv in Hb as [Hc Hb]. rewrite app_assoc in *.
    destruct (write_ok m0 t d c w f Hn Hr Hc) as (w1 & f1 & -> & Hn1 & Hd1 & Hr1).
    { rewrite length_app in Ht. lia. }
    cbn [mbind option_bind].
    destruct (IH m0 t (d ++ c) w1 f1 Hn1 Hr1 Hb Ht) as (w2 & f2 & -> & Hn2 & Hd2 & Hr2).
    cbn [mbind option_bind]. exists w2, f2. by rewrite Hd2, Hd1.
Qed.

Lemma received_ok m0 t d (w : FwW F) (f : F) :
  receiving m0 t d (FW w) f -> Z.of_nat (length d) <= t -> received w = Z.of_nat (length d).
Proof.
  intros [Ha Hfa Htt Ht2 Hdb Hpg Hpl (p & Ed & Hw & Hmod & Hh)] Ht. unfold received, PAGE_SZ, SLOT1_SIZE in *.
  assert (Hl : length d = (length p + s_page_len (FW w))%nat) by (rewrite Ed at 1; len).
  rewrite (as_u32_id (Z.of_nat _)), as_u32_id by (unfold is_u32; lia). lia.
Qed.
End Spec.

(** ** Signed images

    An image: a header of [0x200] bytes that starts with the magic number and
    carries its own size and the size of the body, the body, the TLV block. *)
Definition image_header (load rest : list Z) (flags : list Z) (img_size : Z) : list Z :=
  to_le_bytes32 0x96F3B83D ++ load ++ to_le_bytes16 IMG_HDR_SIZE ++ flags ++ to_le_bytes32 img_size ++ rest.

Lemma image_header_pos load rest flags n :
  length load = 4%nat -> length flags = 2%nat -> (16 <= length rest)%nat -> 0 <= n < SLOT1_SIZE -> n mod 4 = 0 ->
  image_tlv_pos (take 32 (image_header load rest flags n)) IMG_HDR_SIZE = Some (Some (mkImageTlvPos (512 + n) 0)).
Proof.
  intros Hl Hf Hr Hn Hm. do 5 (destruct load as [|? load]; try discriminate Hl).
  do 3 (destruct flags as [|? flags]; try discriminate Hf).
  do 16 (destruct rest as [|? rest]; [simpl in Hr; lia|]). clear Hr Hl Hf. unfold SLOT1_SIZE in Hn.
  unfold image_header, image_tlv_pos.
  cbn -[from_le_bytes32 from_le_bytes16 to_le_bytes32 to_le_bytes16 as_u32 Z.modulo Z.add].
  cbn [to_le_bytes32 to_le_bytes16 app take lookup list_lookup mbind option_bind].
  assert (E : from_le_bytes32 (n mod 256) (n / 256 mod 256) (n / 65536 mod 256) (n / 16777216 mod 256) = n)
    by (unfold from_le_bytes32; zdm).
  rewrite E. change (from_le_bytes16 _ _) with 512. change (from_le_bytes32 _ _ _ _) with 0x96F3B83D.
  cbn [Z.eqb Pos.eqb negb IMG_HDR_SIZE]. rewrite as_u32_id by (unfold is_u32; lia).
  replace ((512 + n) mod 4) with 0 by zdm. done.
Qed.

Lemma slot_mem_sub m0 a l b : mem_bytes (slot_mem m0 (a ++ l ++ b)) (Z.of_nat (length a)) (length l) = l.
Proof.
  apply mem_bytes_eq. intros x Hx. unfold slot_mem. rewrite !length_app, decide_True by lia.
  rewrite lookup_total_app_r, lookup_total_app_l by lia. f_equal. lia.
Qed.

Record signed_image := mkSignedImage {
  img_load : list Z; img_flags : list Z; img_rest : list Z; img_body : list Z;
  img_tlvs : list (Z * list Z); img_tail : list Z
}.

Definition signed_head (i : signed_image) : list Z :=
  image_header (img_load i) (img_rest i) (img_flags i) (Z.of_nat (length (img_body i))).

Definition signed_bytes (i : signed_image) : list Z :=
  signed_head i ++ img_body i ++ tlv_block (img_tlvs i) ++ img_tail i.

Record signed_ok (i : signed_image) : Prop := {
  sg_load : length (img_load i) = 4%nat;
  sg_flags : length (img_flags i) = 2%nat;
  sg_rest : length (img_rest i) = 496%nat;
  sg_align : Z.of_nat (length (img_body i)) mod 4 = 0;
  sg_tlvs : Forall entry_ok (img_tlvs i);
  sg_block : (length (tlv_block (img_tlvs i)) <= 512)%nat;
  sg_size : Z.of_nat (length (signed_bytes i)) <= SLOT1_SIZE;
  sg_bytes : bytes_ok (signed_bytes i)
}.

Lemma signed_head_length i : signed_ok i -> length (signed_head i) = 512%nat.
Proof.
  intros []. unfold signed_head, image_header. rewrite !length_app, sg_load0, sg_flags0, sg_rest0. done.
Qed.

(** The check on the slot finds the key hash of a signed image. *)
Lemma slot_keyhash_signed m0 i :
  signed_ok i ->
  slot_keyhash (slot_mem m0 (signed_bytes i)) = bool_decide (first_keyhash (img_tlvs i) = Some FW_KEYHASH).
Proof.
  intros Hi. pose proof (signed_head_length i Hi) as Hh. destruct Hi as [Hld Hfl Hrs Hal Htl Hbk Hsz Hby].
  set (n := Z.of_nat (length (img_body i))) in *. set (m := slot_mem m0 (signed_bytes i)).
  assert (Hlen : Z.of_nat (length (signed_bytes i)) =
    512 + n + Z.of_nat (length (tlv_block (img_tlvs i))) + Z.of_nat (length (img_tail i)))
    by (unfold signed_bytes; rewrite !length_app, Hh; lia).
  assert (Hb4 : (4 <= length (tlv_block (img_tlvs i)))%nat) by (unfold tlv_block; rewrite !length_app; simpl; lia).
  unfold SLOT1_SIZE in *. unfold slot_keyhash.
  assert (E32 : mem_bytes m 0 32 = take 32 (signed_head i)).
  { pose proof (slot_mem_sub m0 [] (take 32 (signed_head i))
      (drop 32 (signed_head i) ++ img_body i ++ tlv_block (img_tlvs i) ++ img_tail i)) as H.
    replace (length (take 32 (signed_head i))) with 32%nat in H by len.
    rewrite <- H. cbn [app length Z.of_nat]. f_equal. unfold m, signed_bytes. f_equal.
    by rewrite (app_assoc (take 32 _)), take_drop. }
  rewrite E32. unfold signed_head. fold n. rewrite image_header_pos by (first [done | lia | unfold SLOT1_SIZE; lia]).
  cbn [tlv_off]. unfold SLOT1_SIZE. destruct (Z.ltb_spec 458752 (512 + n + 4)); [lia|].
  set (k := Z.to_nat _). set (b := length (tlv_block (img_tlvs i))) in *.
  replace k with (b + (k - b))%nat by lia. rewrite mem_bytes_app.
  replace (mem_bytes m (512 + n) b) with (tlv_block (img_tlvs i)).
  2:{ pose proof (slot_mem_sub m0 (signed_head i ++ img_body i) (tlv_block (img_tlvs i)) (img_tail i)) as Hsub.
      rewrite length_app, Hh, Nat2Z.inj_add in Hsub. rewrite <- app_assoc in Hsub. symmetry. exact Hsub. }
  rewrite keyhash_in_tlv_block; [|done|].
  2:{ assert (b = (4 + length (tlv_body (img_tlvs i)))%nat) by (unfold b, tlv_block; by rewrite !length_app). lia. }
  unfold bytes_eqb. destruct (first_keyhash (img_tlvs i)) as [kh|].
  - apply bool_decide_ext. split; [by intros ->|by intros [= ->]].
  - by rewrite bool_decide_false.
Qed.

(** ** Properties *)
Section Properties.
Context {F : Type} `{!Flash F, !NorSpec F}.

(** C7: an upgrade, end to end.  On a flash with any contents, a signed image
    sent in chunks of any sizes (empty ones included) after an accepted [start]
    is stored whole: every [write] succeeds, [received] counts the bytes, the
    slot then holds the image followed by erased bytes and nothing outside the
    slot has changed; and [finish] answers true exactly when the CRC it was given
    is the CRC of the image and the first key-hash entry of the image's TLV block
    is the built-in one. *)
Theorem upgrade_end_to_end m0 (w : FwW F) (f : F) i chunks kh crc
    (Hn : FNOR w = Some f) (Hf : holds f m0) (Ha : s_active (FW w) = false)
    (Hp : length (s_page (FW w)) = PAGE_SZ) (Hi : signed_ok i) (Hc : concat chunks = signed_bytes i)
    (Hk : kh = None \/ kh = Some FW_KEYHASH) :
  let t := Z.of_nat (length (signed_bytes i)) in
  exists w1 w2 w3 f',
    start t kh w = (0, w1) /\
    write_all chunks w1 = Some (replicate (length chunks) true, w2) /\ received w2 = t /\
    finish crc w2 = Some
      ((match crc with Some e => fw_crc16_ccitt 0 (signed_bytes i) =? e | None => true end) &&
       bool_decide (first_keyhash (img_tlvs i) = Some FW_KEYHASH), w3) /\
    active w3 = false /\ FNOR w3 = Some f' /\ holds f' (slot_mem m0 (signed_bytes i)).
Proof.
  intros t. assert (Ht : 64 <= t <= SLOT1_SIZE).
  { pose proof (signed_head_length i Hi). destruct Hi. unfold t. split; [|done].
    unfold signed_bytes. rewrite length_app. lia. }
  destruct (start_ok m0 t kh w f Hn Hf Ha Hp Ht Hk) as (w1 & f1 & E1 & Hn1 & _ & Hr1).
  destruct (write_all_ok chunks m0 t [] w1 f1 Hn1 Hr1) as (w2 & f2 & E2 & Hn2 & _ & Hr2);
    [rewrite Hc; apply Hi|rewrite Hc; cbn [app]; lia|].
  cbn [app] in Hr2. rewrite Hc in Hr2.
  destruct (finish_ok m0 (signed_bytes i) w2 f2 crc Hn2 Hr2 ltac:(lia)) as (w3 & f3 & E3 & Hn3 & Ha3 & H3).
  exists w1, w2, w3, f3. split; [exact E1|]. split; [exact E2|].
  split; [by apply (received_ok m0 t _ w2 f2)|]. split; [|done].
  rewrite E3. unfold accepted. by rewrite slot_keyhash_signed.
Qed.

(** The bytes of the trailer after [boot_set_pending]. *)
Definition pending_mem (permanent : bool) (m : Z -> Z) : Z -> Z := fun x =>
  if decide (magic_off <= x < magic_off + 16) then BOOT_MAGIC !!! Z.to_nat (x - magic_off)
  else if decide (x = image_ok_off) then (if permanent then BOOT_FLAG_SET else m x)
  else if decide (x = swap_info_off) then (if permanent then BOOT_SWAP_TYPE_PERM else BOOT_SWAP_TYPE_TEST)
  else m x.

Lemma write_flag off v m x :
  0 <= v < 256 -> (forall y, off <= y < off + 8 -> m y = 255) ->
  write_cells off (trailer_flag v) m x = if decide (x = off) then v else m x.
Proof.
  intros Hv Hm. rewrite write_erased; [|apply bytes_ok_cons; [exact Hv|by apply bytes_okb_ok]|done].
  change (Z.of_nat (length (trailer_flag v))) with 8. case_decide as E1; case_decide as E2; try (by subst; lia).
  - subst. by rewrite Z.sub_diag.
  - rewrite Hm by done. unfold trailer_flag. cbv zeta.
    rewrite list_lookup_total_insert_ne by lia. by rewrite lookup_total_replicate_2 by lia.
Qed.

Lemma trailer_offsets :
  magic_off = SLOT1_SIZE - 16 /\ image_ok_off = SLOT1_SIZE - 24 /\ swap_info_off = SLOT1_SIZE - 40.
Proof. done. Qed.

Lemma boot_set_pending_ok (permanent : bool) m (f : F) :
  holds f m -> (forall x, SLOT1_SIZE - 40 <= x < SLOT1_SIZE -> m x = 255) ->
  exists f', boot_set_pending permanent (Some f) = (true, Some f') /\ holds f' (pending_mem permanent m).
Proof.
  intros Hf He. pose proof trailer_offsets as Hoff.
  unfold boot_set_pending. cbn [nor_with]. unfold SLOT1_SIZE in *.
  destruct (nor_write_ok f m magic_off BOOT_MAGIC Hf) as (f1 & E1 & H1); [done|done|done|]. rewrite E1.
  assert (Hm1 : forall x, write_cells magic_off BOOT_MAGIC m x =
    if decide (magic_off <= x < magic_off + 16) then BOOT_MAGIC !!! Z.to_nat (x - magic_off) else m x).
  { intros x. rewrite write_erased; [done|by apply bytes_okb_ok|].
    change (Z.of_nat (length BOOT_MAGIC)) with 16. intros y Hy. apply He. lia. }
  set (m1 := write_cells magic_off BOOT_MAGIC m) in *.
  assert (Hw : forall (g : F) mg ty, holds g mg -> 0 <= ty < 256 ->
    (forall y, swap_info_off <= y < swap_info_off + 8 -> mg y = 255) ->
    exists g', flash_write swap_info_off (trailer_flag ty) g = (Ok tt, g') /\
      holds g' (fun x => if decide (x = swap_info_off) then ty else mg x)).
  { intros g mg ty Hg Ht Hy. destruct (nor_write_ok g mg swap_info_off (trailer_flag ty) Hg) as (g' & E & H'); [done..|].
    exists g'. split; [exact E|]. eapply holds_ext; [exact H'|]. intros x. by apply write_flag. }
  destruct Hoff as (Em & Ei & Es). destruct permanent; cbn [and_write].
  - destruct (nor_write_ok f1 m1 image_ok_off (trailer_flag BOOT_FLAG_SET) H1) as (f2 & E2 & H2); [done..|].
    rewrite E2. cbn [and_write]. edestruct (Hw f2 _ BOOT_SWAP_TYPE_PERM H2) as (f3 & E3 & H3); [done| |].
    { intros y Hy. rewrite write_flag, Hm1 by (first [done | intros; rewrite Hm1, decide_False, He by lia; lia]).
      rewrite !decide_False by lia. apply He. lia. }
    rewrite E3. exists f3. split; [done|]. eapply holds_ext; [exact H3|]. intros x. unfold pending_mem.
    rewrite write_flag, Hm1 by (first [done | intros; rewrite Hm1, decide_False, He by lia; lia]).
    repeat case_decide; done || lia.
  - edestruct (Hw f1 _ BOOT_SWAP_TYPE_TEST H1) as (f3 & E3 & H3); [done| |].
    { intros y Hy. rewrite Hm1, decide_False by lia. apply He. lia. }
    rewrite E3. exists f3. split; [done|]. eapply holds_ext; [exact H3|]. intros x. unfold pending_mem.
    rewrite Hm1. repeat case_decide; try done; try lia.
Qed.

(** marking the new image.  On a slot whose last 40 bytes are erased,
    [boot_set_pending] succeeds and leaves exactly the trailer the boot loader
    reads: the 16 magic bytes at the end of the slot, the swap type (permanent or
    test) 32 bytes before them, the image-ok flag 8 bytes before them set for a
    permanent update and erased for a test; no other byte changes.  Without a
    flash it fails. *)
Theorem boot_set_pending_trailer (permanent : bool) m (f : F)
    (Hf : holds f m) (He : forall x, SLOT1_SIZE - 40 <= x < SLOT1_SIZE -> m x = 255) :
  (exists f', boot_set_pending permanent (Some f) = (true, Some f') /\ holds f' (pending_mem permanent m)) /\
  boot_set_pending permanent (@None F) = (false, None) /\
  magic_off = SLOT1_SIZE - 16 /\ image_ok_off = SLOT1_SIZE - 24 /\ swap_info_off = SLOT1_SIZE - 40.
Proof.
  split; [by apply boot_set_pending_ok|]. split; [done|]. exact trailer_offsets.
Qed.

(** what an upgrade session refuses.  A second [start] answers -3, a size
    outside 64 bytes to the slot size -1, a foreign key hash -2, each without
    touching the session or the flash.  A [write] that would exceed the announced
    size fails and poisons the session: later writes fail, [finish] answers false,
    and none of them touches the flash.  [finish] of an incomplete image answers
    false.  After [finish] or [abort] the session is closed and writes fail. *)
Theorem session_refuses m0 t d (w : FwW F) (f : F) data more n kh crc
    (Hn : FNOR w = Some f) (Hr : receiving m0 t d (FW w) f) (Hd : Z.of_nat (length d) <= t)
    (Hdata : Z.of_nat (length data) < 2147483648) :
  start n kh w = (-3, w) /\
  (n < 64 \/ SLOT1_SIZE < n -> start n kh (abort w) = (-1, abort w)) /\
  (64 <= n <= SLOT1_SIZE -> kh <> None -> kh <> Some FW_KEYHASH -> start n kh (abort w) = (-2, abort w)) /\
  (t < Z.of_nat (length d + length data) ->
    exists w1 w2, write data w = Some (false, w1) /\ FNOR w1 = FNOR w /\ write more w1 = Some (false, w1) /\
      finish crc w1 = Some (false, w2) /\ FNOR w2 = FNOR w /\ write more w2 = Some (false, w2)) /\
  (Z.of_nat (length d) < t -> exists w1, finish crc w = Some (false, w1) /\ write more w1 = Some (false, w1)) /\
  write more (abort w) = Some (false, abort w).
Proof.
  pose proof Hr as [Ha Hfa Htt Ht2 Hdb Hpg Hpl (p & Ed & Hw & Hmod & Hh)].
  split; [unfold start; by rewrite Ha|]. split; [|split; [|split; [|split]]].
  - intros Hn'. unfold start, abort. cbn [FW s_active].
    destruct (Z.ltb_spec n 64), (Z.ltb_spec SLOT1_SIZE n); cbn [orb]; done || lia.
  - intros Hn' Hk1 Hk2. unfold start, abort. cbn [FW s_active].
    destruct (Z.ltb_spec n 64); [lia|]. destruct (Z.ltb_spec SLOT1_SIZE n); [lia|]. cbn [orb].
    destruct kh as [kh|]; [|done]. unfold bytes_eqb. rewrite bool_decide_false by congruence. done.
  - intros Hbig. eexists (mkFwW (with_failed (FW w)) (FW_DBG w) (FNOR w)), _.
    assert (Hl : length d = (length p + s_page_len (FW w))%nat) by (rewrite Ed at 1; unfold PAGE_SZ in *; len).
    unfold SLOT1_SIZE, PAGE_SZ in *. split.
    { unfold write. rewrite Ha, Hfa. cbn [negb orb].
      rewrite (as_u32_id (Z.of_nat (s_page_len (FW w)))), (as_u32_id (Z.of_nat (length data))),
        (as_u32_id (s_written (FW w) + _)) by (unfold is_u32; lia).
      rewrite as_u32_id by (unfold is_u32; lia).
      by rewrite Htt, (proj2 (Z.ltb_lt _ _)) by lia. }
    split; [done|]. split; [unfold write; cbn [FW with_failed s_active s_failed]; by rewrite Ha|].
    split; [unfold finish; cbn [FW with_failed with_inactive s_active s_failed]; rewrite Ha; done|].
    split; [done|]. done.
  - intros Hs. destruct (finish_short m0 t d w f crc Hn Hr Hs) as (w1 & f1 & E & _ & Ha1 & _).
    exists w1. split; [exact E|]. unfold active in Ha1. unfold write. by rewrite Ha1.
  - done.
Qed.
End Properties.

(** A small signed image and a blank chip. *)
Definition image_demo : signed_image :=
  mkSignedImage (replicate 4 0) [0; 0] (replicate 496 0) [1; 2; 3; 4] [(2, [9]); (1, FW_KEYHASH)] [7].

Lemma image_demo_ok : signed_ok image_demo.
Proof.
  split; try reflexivity.
  - repeat constructor; cbn; unfold is_u16; lia.
  - apply Nat.leb_le. reflexivity.
  - apply Z.leb_le. reflexivity.
  - apply bytes_okb_ok. vm_compute. reflexivity.
Qed.

Definition chip_blank : Chip := mkChip (fun _ => 255) false 0 [] 0 slowest.
Definition fw_blank : FwW Chip := mkFwW FW_init (replicate 16 0) (Some chip_blank).

Lemma chip_blank_holds : holds chip_blank (fun _ => 255).
Proof. split; [done|]. split; [done|]. by vm_compute. Qed.

Lemma upgrade_end_to_end_witness :
  let img := signed_bytes image_demo in
  exists w1 w2 w3 f',
    start (Z.of_nat (length img)) None fw_blank = (0, w1) /\
    write_all [take 300 img; []; drop 300 img] w1 = Some (replicate 3 true, w2) /\
    received w2 = Z.of_nat (length img) /\
    finish (Some (fw_crc16_ccitt 0 img)) w2 = Some
      ((fw_crc16_ccitt 0 img =? fw_crc16_ccitt 0 img) &&
       bool_decide (first_keyhash (img_tlvs image_demo) = Some FW_KEYHASH), w3) /\
    active w3 = false /\ FNOR w3 = Some f' /\ holds f' (slot_mem (fun _ => 255) img).
Proof.
  exact (upgrade_end_to_end (fun _ => 255) fw_blank chip_blank image_demo
    [take 300 (signed_bytes image_demo); []; drop 300 (signed_bytes image_demo)] None
    (Some (fw_crc16_ccitt 0 (signed_bytes image_demo)))
    eq_refl chip_blank_holds eq_refl eq_refl image_demo_ok eq_refl (or_introl eq_refl)).
Defined.

Lemma boot_set_pending_trailer_witness :
  exists f', boot_set_pending true (Some chip_blank) = (true, Some f') /\
    holds f' (pending_mem true (fun _ => 255)).
Proof.
  exact (proj1 (boot_set_pending_trailer true (fun _ => 255) chip_blank chip_blank_holds (fun _ _ => eq_refl))).
Defined.

(** A session that has announced 100 bytes and received 2. *)
Definition session_demo : FwSession := mkFwSession true false 100 0 ([5; 6] ++ replicate 254 0) 2.

Lemma session_demo_receiving : receiving (fun _ => 255) 100 [5; 6] session_demo chip_blank.
Proof.
  split; try reflexivity; try (apply Nat.leb_le; reflexivity).
  - apply Z.leb_le. reflexivity.
  - by apply bytes_okb_ok.
  - exists []. repeat split; try reflexivity.
    + intros x. unfold slot_mem. cbn [chip_blank mem length Z.of_nat]. rewrite decide_False by lia. by case_decide.
Qed.

Lemma session_refuses_witness :
  start 64 None (mkFwW session_demo [] (Some chip_blank)) = (-3, mkFwW session_demo [] (Some chip_blank)).
Proof.
  apply (session_refuses (fun _ => 255) 100 [5; 6] (mkFwW session_demo [] (Some chip_blank)) chip_blank [1] [2] 64 None None);
    [reflexivity|exact session_demo_receiving|apply Z.leb_le; reflexivity|apply Z.ltb_lt; reflexivity].
Defined.

(** [finish] closes the session but [received] goes on counting: it reads 2
    here, not 0. *)
Lemma received_after_finish :
  match finish None (mkFwW session_demo [] (Some chip_blank)) with
  | Some (ok, w) => ok = false /\ active w = false /\ total w = 0 /\ received w = 2
  | None => False
  end.
Proof. vm_compute. repeat split. Qed.
