(* ===== verification/FwCan.v ===== *)
(** * The firmware-upgrade channel on CAN (crates/firmware/src/fw_can.rs)

    The task's start-up choices, its handlers and one turn of its loop.  The CAN
    peripheral is I/O: a turn takes a received standard frame and gives the
    frames it sends.  Logging and the waits around a reboot are left out. *)
From S2P Require Import Prelude Bytes RegMap Channels ConfigStore StorageCfg FwUpg W25q NorSpec FwSession.

Definition PLATFORM_RX : Z := 0x101.
Definition PLATFORM_TX : Z := 0x102.
Definition FW_DATA_RX : Z := 0x103.
Definition KEYHASH_RX : Z := 0x104.
Definition VERSION_TX : Z := 0x105.

Definition CMD_START_UPDATE : Z := 0.
Definition CMD_CONFIRM : Z := 1.
Definition CMD_VERSION : Z := 2.
Definition CMD_REBOOT : Z := 3.

Definition CODE_OFFSET : Z := 0.
Definition CODE_UPDATE_SUCCESS : Z := 1.
Definition CODE_VERSION : Z := 2.
Definition CODE_CONFIRM : Z := 3.
Definition CODE_FLASH_ERROR : Z := 4.
Definition CODE_TRANSFER_ERROR : Z := 5.
Definition CODE_KEYHASH_ERROR : Z := 6.

Definition CONFIRM_MAGIC : Z := 0x55AA55AA.

Definition KEYHASH_CHUNK : nat := 7.
Definition KEYHASH_CHUNKS : nat := ((FW_KEYHASH_LEN + KEYHASH_CHUNK - 1) / KEYHASH_CHUNK)%nat.
Definition KEYHASH_FULL_MASK : Z := as_u8 (Z.shiftl 1 (Z.of_nat KEYHASH_CHUNKS)) - 1.
Definition ACK_INTERVAL : Z := 64.

Definition SUPPORTED_KBPS : list Z := [50; 100; 125; 250; 500; 1000].
Definition FALLBACK_KBPS : Z := 250.

(** The bit rate and the two acceptance filters (identifier, mask) of the task. *)
Definition can_setup (r : RegMap) : Z * list (Z * Z) :=
  let kbps := get_holding r (Z.of_nat HOLDING_CAN_BAUDRATE_IDX) in
  let id := Z.land (get_holding r (Z.of_nat HOLDING_CAN_ID_IDX)) 0x7FF in
  let kbps := if existsb (Z.eqb kbps) SUPPORTED_KBPS then kbps else FALLBACK_KBPS in
  (kbps, [(id, 0x7FF); (0x100, 0x700)]).

(** A standard frame: identifier and up to 8 bytes. *)
Definition Frame : Type := Z * list Z.

(** What the handlers reach: the upgrade session, the command lanes, the
    task-local key-hash buffer and chunk mask, and whether [system_reset] was
    called. *)
Record CanSt (F : Type) := mkCanSt {
  c_fw : FwW F; c_lanes : Lanes; rx_keybuf : list Z; key_chunk_mask : Z; c_reset : bool
}.
Arguments mkCanSt {F} _ _ _ _ _.
Arguments c_fw {F} _.
Arguments c_lanes {F} _.
Arguments rx_keybuf {F} _.
Arguments key_chunk_mask {F} _.
Arguments c_reset {F} _.

Definition with_fw {F} (w : FwW F) (s : CanSt F) : CanSt F :=
  mkCanSt w (c_lanes s) (rx_keybuf s) (key_chunk_mask s) (c_reset s).
Definition with_mask {F} (m : Z) (s : CanSt F) : CanSt F :=
  mkCanSt (c_fw s) (c_lanes s) (rx_keybuf s) m (c_reset s).

Definition fw_reply (code arg : Z) : Frame := (PLATFORM_TX, to_le_bytes32 code ++ to_le_bytes32 arg).

(** [while off < ver.len()]: the version string, seven bytes a frame. *)
Fixpoint version_frames (fuel off : nat) (seq : Z) (ver : list Z) : option (list Frame) :=
  if (off <? length ver)%nat then
    match fuel with
    | O => None
    | S fuel =>
        let chunk := Nat.min (length ver - off) 7 in
        d ← upd (replicate 8 0) 0 seq;
        part ← slice ver off (off + chunk);
        d ← blit d 1 part;
        fs ← version_frames fuel (off + chunk) (as_u8 (seq + 1)) ver;
        Some ((VERSION_TX, d) :: fs)
    end
  else Some [].

Section Handlers.
Context {F : Type} `{!Flash F}.
Variable FW_VERSION : list Z.

Definition handle_platform (data : list Z) (s : CanSt F) : option (list Frame * CanSt F) :=
  if negb (length data =? 8)%nat then Some ([fw_reply CODE_FLASH_ERROR 0], s) else
  b0 ← data !! 0%nat; b1 ← data !! 1%nat; b2 ← data !! 2%nat; b3 ← data !! 3%nat;
  let cmd := from_le_bytes32 b0 b1 b2 b3 in
  b4 ← data !! 4%nat; b5 ← data !! 5%nat; b6 ← data !! 6%nat; b7 ← data !! 7%nat;
  let arg := from_le_bytes32 b4 b5 b6 b7 in
  if cmd =? CMD_START_UPDATE then
    let w := abort (c_fw s) in
    let full := Z.land (key_chunk_mask s) KEYHASH_FULL_MASK =? KEYHASH_FULL_MASK in
    let s := if full then with_mask 0 s else s in
    let kh := if full then Some (rx_keybuf s) else None in
    let '(rc, w) := start arg kh w in
    let s := with_fw w s in
    if rc =? -2 then Some ([fw_reply CODE_KEYHASH_ERROR 0], s)
    else if negb (rc =? 0) then Some ([fw_reply CODE_FLASH_ERROR 0], s)
    else Some ([fw_reply CODE_OFFSET 0], s)
  else if cmd =? CMD_CONFIRM then
    if negb (active (c_fw s)) then Some ([fw_reply CODE_TRANSFER_ERROR 0], s) else
    '(ok, w) ← finish None (c_fw s);
    let s := with_fw w s in
    if negb ok then Some ([fw_reply CODE_TRANSFER_ERROR 0], s) else
    let '(ok, nor) := boot_set_pending (negb (arg =? 0)) (FNOR w) in
    let s := with_fw (mkFwW (FW w) (FW_DBG w) nor) s in
    if negb ok then Some ([fw_reply CODE_TRANSFER_ERROR 0], s) else
    Some ([fw_reply CODE_CONFIRM CONFIRM_MAGIC], s)
  else if cmd =? CMD_VERSION then
    fs ← version_frames (length FW_VERSION) 0 0 FW_VERSION;
    Some (fw_reply CODE_VERSION (as_u32 (Z.of_nat (length FW_VERSION))) :: fs, s)
  else if cmd =? CMD_REBOOT then
    Some ([], mkCanSt (c_fw s) (queue_send Sync (c_lanes s)) (rx_keybuf s) (key_chunk_mask s) true)
  else Some ([], s).

Definition handle_fw_data (data : list Z) (s : CanSt F) : option (list Frame * CanSt F) :=
  if negb (active (c_fw s)) then Some ([fw_reply CODE_TRANSFER_ERROR 0], s) else
  '(ok, w) ← write data (c_fw s);
  let s := with_fw w s in
  if negb ok then Some ([fw_reply CODE_FLASH_ERROR 0], s) else
  let got := received w in
  if got =? total w then Some ([fw_reply CODE_UPDATE_SUCCESS got], s)
  else if got mod ACK_INTERVAL =? 0 then Some ([fw_reply CODE_OFFSET got], s)
  else Some ([], s).

Definition handle_keyhash (data buf : list Z) (mask : Z) : option (list Z * Z) :=
  match data with
  | [] => Some (buf, mask)
  | d0 :: _ =>
      let seq := Z.to_nat d0 in
      if (KEYHASH_CHUNKS <=? seq)%nat then Some (buf, mask) else
      let rem := (FW_KEYHASH_LEN - seq * KEYHASH_CHUNK)%nat in
      let chunk := Nat.min rem KEYHASH_CHUNK in
      if (length data <? 1 + chunk)%nat then Some (buf, mask) else
      src ← slice data 1 (1 + chunk);
      buf ← blit buf (seq * KEYHASH_CHUNK) src;
      Some (buf, Z.lor mask (as_u8 (Z.shiftl 1 (Z.of_nat seq))))
  end.

(** One turn of the loop, on a standard frame. *)
Definition can_turn (f : Frame) (s : CanSt F) : option (list Frame * CanSt F) :=
  let '(fid, data) := f in
  if fid =? PLATFORM_RX then handle_platform data s
  else if fid =? FW_DATA_RX then handle_fw_data data s
  else if fid =? KEYHASH_RX then
    '(buf, mask) ← handle_keyhash data (rx_keybuf s) (key_chunk_mask s);
    Some ([], mkCanSt (c_fw s) (c_lanes s) buf mask (c_reset s))
  else Some ([], s).

(** The turns for a sequence of frames. *)
Fixpoint can_run (fs : list Frame) (s : CanSt F) : option (list Frame * CanSt F) :=
  match fs with
  | [] => Some ([], s)
  | f :: fs => '(o, s) ← can_turn f s; '(os, s) ← can_run fs s; Some (o ++ os, s)
  end.
End Handlers.

(** ** The key hash in pieces *)

Definition kh_piece (kh : list Z) (k : nat) : list Z := take (Nat.min (32 - k * 7) 7) (drop (k * 7) kh).

(** A frame that agrees with [kh]: empty, out of sequence range, too short, or
    carrying its piece of [kh] and any padding. *)
Definition kh_frame (kh : list Z) (d : list Z) : Prop :=
  match d with
  | [] => True
  | s :: r => 0 <= s /\ (5 <= s \/ (length r < Nat.min (32 - Z.to_nat s * 7) 7)%nat \/
      take (Nat.min (32 - Z.to_nat s * 7) 7) r = kh_piece kh (Z.to_nat s))
  end.

(** The piece number a frame delivers. *)
Definition kh_seq (d : list Z) : option nat :=
  match d with
  | [] => None
  | s :: r =>
      if (s <? 5) && (Nat.min (32 - Z.to_nat s * 7) 7 <=? length r)%nat then Some (Z.to_nat s) else None
  end.

Fixpoint keyhash_frames (ds : list (list Z)) (buf : list Z) (mask : Z) : option (list Z * Z) :=
  match ds with
  | [] => Some (buf, mask)
  | d :: ds => '(buf, mask) ← handle_keyhash d buf mask; keyhash_frames ds buf mask
  end.

(** The pieces marked in [mask] are in place. *)
Definition kh_inv (kh buf : list Z) (mask : Z) : Prop :=
  length buf = 32%nat /\ is_u8 mask /\
  forall k, (k < 5)%nat -> Z.testbit mask (Z.of_nat k) = true -> kh_piece buf k = kh_piece kh k.

Lemma kh_piece_length kh k : length kh = 32%nat -> length (kh_piece kh k) = Nat.min (32 - k * 7) 7.
Proof. intros H. unfold kh_piece. len. Qed.

Lemma kh_piece_write buf k l j :
  length buf = 32%nat -> (k < 5)%nat -> (j < 5)%nat -> length l = Nat.min (32 - k * 7) 7 ->
  kh_piece (list_inserts (k * 7) l buf) j = if decide (j = k) then l else kh_piece buf j.
Proof.
  intros Hb Hk Hj Hl. unfold kh_piece. apply list_eq_same_length with (Nat.min (32 - j * 7) 7).
  { case_decide; [by subst|]. len. }
  { len. }
  intros i x y Hi. rewrite lookup_take_lt, lookup_drop by lia. case_decide as E.
  - subst j. rewrite list_lookup_inserts by lia. replace (k * 7 + i - k * 7)%nat with i by lia. congruence.
  - rewrite lookup_take_lt, lookup_drop by lia.
    destruct (decide (j < k)%nat).
    + rewrite list_lookup_inserts_lt by lia. congruence.
    + rewrite list_lookup_inserts_ge by lia. congruence.
Qed.

Lemma as_u8_bit k : (k < 5)%nat -> as_u8 (Z.shiftl 1 (Z.of_nat k)) = 2 ^ Z.of_nat k.
Proof. intros Hk. do 5 (destruct k as [|k]; [reflexivity|]). lia. Qed.

Lemma lor_bit mask k j :
  Z.testbit (Z.lor mask (2 ^ Z.of_nat k)) (Z.of_nat j) = Z.testbit mask (Z.of_nat j) || (j =? k)%nat.
Proof.
  rewrite Z.lor_spec, Z.pow2_bits_eqb by lia. f_equal.
  destruct (Nat.eqb_spec j k), (Z.eqb_spec (Z.of_nat k) (Z.of_nat j)); done || lia.
Qed.

Lemma handle_keyhash_inv kh d buf mask :
  length kh = 32%nat -> kh_frame kh d -> kh_inv kh buf mask ->
  exists buf', handle_keyhash d buf mask = Some (buf',
      match kh_seq d with Some k => Z.lor mask (2 ^ Z.of_nat k) | None => mask end) /\
    kh_inv kh buf' (match kh_seq d with Some k => Z.lor mask (2 ^ Z.of_nat k) | None => mask end).
Proof.
  intros Hk Hf (Hb & Hm & Hp). destruct d as [|s r]; [by exists buf|]. cbn [kh_frame] in Hf.
  destruct Hf as [Hs Hf]. unfold handle_keyhash, kh_seq. change KEYHASH_CHUNKS with 5%nat.
  unfold KEYHASH_CHUNK, FW_KEYHASH_LEN. destruct (Nat.leb_spec 5 (Z.to_nat s)).
  { destruct (Z.ltb_spec s 5); [lia|]. by exists buf. }
  destruct (Z.ltb_spec s 5); [|lia]. cbn [andb length].
  set (k := Z.to_nat s) in *. set (c := Nat.min (32 - k * 7) 7) in *.
  destruct (Nat.ltb_spec (S (length r)) (1 + c)).
  { rewrite (proj2 (Nat.leb_gt _ _)) by lia. by exists buf. }
  rewrite (proj2 (Nat.leb_le _ _)) by lia.
  destruct Hf as [Hf|[Hf|Hf]]; [lia|lia|].
  rewrite slice_ok by (cbn [length]; lia). cbn [mbind option_bind]. change (drop 1 (s :: r)) with r.
  replace (1 + c - 1)%nat with c by lia. rewrite Hf.
  assert (Hl : length (kh_piece kh k) = c) by (by apply kh_piece_length).
  rewrite blit_ok by lia. cbn [mbind option_bind]. rewrite as_u8_bit by lia.
  eexists. split; [done|]. split; [by rewrite length_inserts|]. split; [apply lor_u8; [done|apply pow2_u8; lia]|].
  intros j Hj Ht. rewrite kh_piece_write by (first [done | lia]). case_decide as E; [by subst|].
  apply Hp; [done|]. rewrite lor_bit in Ht. destruct (Nat.eqb_spec j k); [done|]. by rewrite orb_false_r in Ht.
Qed.

Lemma kh_pieces_eq a b : length a = 32%nat -> length b = 32%nat ->
  (forall k, (k < 5)%nat -> kh_piece a k = kh_piece b k) -> a = b.
Proof.
  intros Ha Hb H.
  assert (E : forall l, length l = 32%nat ->
    l = kh_piece l 0 ++ kh_piece l 1 ++ kh_piece l 2 ++ kh_piece l 3 ++ kh_piece l 4).
  { intros l Hl. do 33 (destruct l as [|? l]; [done || discriminate Hl|]). discriminate Hl. }
  rewrite (E a Ha), (E b Hb). by rewrite !H by lia.
Qed.

(** The mask after the pieces of [ds]. *)
Definition kh_mask (ds : list (list Z)) (mask : Z) : Z :=
  foldl (fun m d => match kh_seq d with Some k => Z.lor m (2 ^ Z.of_nat k) | None => m end) mask ds.

Lemma keyhash_frames_inv kh ds : forall buf mask,
  length kh = 32%nat -> Forall (kh_frame kh) ds -> kh_inv kh buf mask ->
  exists buf', keyhash_frames ds buf mask = Some (buf', kh_mask ds mask) /\ kh_inv kh buf' (kh_mask ds mask).
Proof.
  induction ds as [|d ds IH]; intros buf mask Hk Hf Hi; [by exists buf|].
  apply Forall_cons_1 in Hf as [Hd Hf]. destruct (handle_keyhash_inv kh d buf mask Hk Hd Hi) as (b1 & E & H1).
  cbn [keyhash_frames]. rewrite E. cbn [mbind option_bind]. by apply IH.
Qed.

Lemma kh_mask_bit ds : forall mask k,
  Z.testbit (kh_mask ds mask) (Z.of_nat k) = Z.testbit mask (Z.of_nat k) || existsb (fun d => bool_decide (kh_seq d = Some k)) ds.
Proof.
  induction ds as [|d ds IH]; intros mask k; cbn [kh_mask foldl existsb]; [by rewrite orb_false_r|].
  change (foldl _ ?m ds) with (kh_mask ds m). rewrite IH. destruct (kh_seq d) as [j|].
  - rewrite lor_bit, <- orb_assoc. do 2 f_equal.
    destruct (Nat.eqb_spec k j); [subst; by rewrite bool_decide_true|].
    rewrite bool_decide_false; [done|]. by intros [= ->].
  - by rewrite bool_decide_false.
Qed.

Lemma full_mask_bit m k : Z.land m KEYHASH_FULL_MASK = KEYHASH_FULL_MASK -> (k < 5)%nat -> Z.testbit m (Z.of_nat k) = true.
Proof.
  intros H Hk. assert (Z.testbit (Z.land m KEYHASH_FULL_MASK) (Z.of_nat k) = true) as E.
  { rewrite H. do 5 (destruct k as [|k]; [reflexivity|]). lia. }
  rewrite Z.land_spec in E. by apply andb_true_iff in E as [? _].
Qed.

(** ** The version string *)

(** The numbered seven-byte pieces of [l], the last one padded with zeros. *)
Fixpoint pieces7 (fuel : nat) (seq : Z) (l : list Z) : list Frame :=
  match fuel with
  | O => []
  | S fuel =>
      match l with
      | [] => []
      | _ => (VERSION_TX, seq :: take 7 l ++ replicate (7 - length l) 0) :: pieces7 fuel (seq + 1) (drop 7 l)
      end
  end.

Lemma version_frames_ok fuel : forall off seq ver,
  (length ver <= off + fuel)%nat -> 0 <= seq -> seq * 7 <= Z.of_nat off \/ off = length ver ->
  Z.of_nat (length ver) <= 1785 ->
  version_frames fuel off seq ver = Some (pieces7 fuel seq (drop off ver)).
Proof.
  induction fuel as [|fuel IH]; intros off seq ver Hf Hs Ho Hv; cbn [version_frames pieces7];
    destruct (Nat.ltb_spec off (length ver)); try lia; try done.
  2:{ by rewrite drop_ge by lia. }
  destruct Ho as [Ho| ->]; [|lia].
  set (c := Nat.min (length ver - off) 7).
  rewrite (upd_ok (replicate 8 0)) by len. cbn [mbind option_bind].
  rewrite slice_ok by lia. cbn [mbind option_bind]. replace (off + c - off)%nat with c by lia.
  rewrite blit_ok by len. cbn [mbind option_bind]. rewrite as_u8_id by (unfold is_u8; lia).
  assert (Hl : length (drop off ver) = (length ver - off)%nat) by len.
  rewrite IH by lia. cbn [mbind option_bind].
  destruct (drop off ver) as [|x r] eqn:E; [cbn in Hl; lia|]. rewrite <- E in *. do 3 f_equal.
  - rewrite list_inserts_split by len. change (<[0%nat:=seq]> (replicate 8 0)) with (seq :: replicate 7 0).
    cbn [take app]. rewrite take_0. cbn [app]. f_equal. replace (take c (drop off ver)) with (take 7 (drop off ver)).
    2:{ destruct (decide (c = 7)%nat) as [->|]; [done|]. rewrite !take_ge by lia. done. }
    f_equal. cbn [drop Nat.add]. rewrite length_take, Hl, drop_replicate. f_equal. lia.
  - rewrite drop_drop. destruct (decide (c = 7)%nat) as [->|]; [done|].
    rewrite !drop_ge by lia. done.
Qed.

(** Reading the frames in order gives the string back. *)
Lemma pieces7_payload fuel : forall seq l,
  (length l <= fuel)%nat -> take (length l) (concat ((fun f : Frame => drop 1 f.2) <$> pieces7 fuel seq l)) = l.
Proof.
  induction fuel as [|fuel IH]; intros seq l Hl; [destruct l; [done|cbn in Hl; lia]|]. cbn [pieces7].
  destruct l as [|x r]; [done|]. set (l := x :: r) in *. assert (Hp : (0 < length l)%nat) by (cbn; lia). clearbody l.
  cbn [fmap list_fmap snd concat skipn]. rewrite drop_0, <- app_assoc.
  destruct (decide (7 <= length l)%nat).
  - replace (7 - length l)%nat with 0%nat by lia. cbn [replicate app].
    rewrite take_app, length_take, Nat.min_l by lia. rewrite (take_ge (take 7 l)) by (rewrite length_take; lia).
    replace (length l - 7)%nat with (length (drop 7 l)) by len. rewrite IH by len. apply take_drop.
  - rewrite (take_ge l 7) by lia. by rewrite take_app_length.
Qed.

Lemma pieces7_seq fuel : forall seq l k f, pieces7 fuel seq l !! k = Some f ->
  f.1 = VERSION_TX /\ length f.2 = 8%nat /\ f.2 !! 0%nat = Some (seq + Z.of_nat k).
Proof.
  induction fuel as [|fuel IH]; intros seq l k f H; [done|]. cbn [pieces7] in H. destruct l as [|x r]; [done|].
  set (l := x :: r) in *. destruct k as [|k]; cbn [lookup list_lookup] in H.
  - injection H as <-. cbn [fst snd]. split; [done|]. split; [cbn [length]; len|]. cbn. f_equal. lia.
  - destruct (IH _ _ _ _ H) as (H1 & H2 & H3). split; [done|]. split; [done|]. rewrite H3. f_equal. lia.
Qed.

(** ** Properties *)

(** the key hash arrives in five frames in any order.  Whatever sequence of
    0x104 frames a sender produces for a key hash - repeated, reordered, mixed
    with empty, out-of-range or short ones - nothing panics, the mask has
    recorded exactly the pieces that came, and once it is full the buffer is the
    key hash. *)
Theorem keyhash_any_order kh ds buf
    (Hk : length kh = FW_KEYHASH_LEN) (Hb : length buf = FW_KEYHASH_LEN) (Hf : Forall (kh_frame kh) ds) :
  exists buf' mask', keyhash_frames ds buf 0 = Some (buf', mask') /\
    (forall k, (k < KEYHASH_CHUNKS)%nat ->
      Z.testbit mask' (Z.of_nat k) = existsb (fun d => bool_decide (kh_seq d = Some k)) ds) /\
    (Z.land mask' KEYHASH_FULL_MASK = KEYHASH_FULL_MASK -> buf' = kh).
Proof.
  destruct (keyhash_frames_inv kh ds buf 0) as (buf' & E & (Hl & _ & Hp)); [done|done| |].
  { split; [done|]. split; [unfold is_u8; lia|]. intros k _ H. by rewrite Z.bits_0 in H. }
  exists buf', (kh_mask ds 0). split; [exact E|]. split.
  - intros k _. by rewrite kh_mask_bit, Z.bits_0.
  - intros Hm. apply kh_pieces_eq; [done|done|]. intros k Hk'. apply Hp; [done|]. by apply full_mask_bit.
Qed.

(** the version request.  The answer announces the length and sends the
    string in consecutively numbered 8-byte frames; their payloads in order are
    the string (up to 1785 bytes, where the frame number would wrap). *)
Theorem version_frames_reassemble ver (Hv : Z.of_nat (length ver) <= 1785) :
  exists fs, version_frames (length ver) 0 0 ver = Some fs /\
    take (length ver) (concat ((fun f : Frame => drop 1 f.2) <$> fs)) = ver /\
    forall k f, fs !! k = Some f -> f.1 = VERSION_TX /\ length f.2 = 8%nat /\ f.2 !! 0%nat = Some (Z.of_nat k).
Proof.
  exists (pieces7 (length ver) 0 ver). split.
  - rewrite version_frames_ok by (first [done | lia]). done.
  - split; [by apply pieces7_payload|]. intros k f H. apply pieces7_seq in H. exact H.
Qed.

Definition cmd_frame (cmd arg : Z) : Frame := (PLATFORM_RX, to_le_bytes32 cmd ++ to_le_bytes32 arg).

(** The acknowledgements of the data frames [cs] after [got] bytes of [t]. *)
Fixpoint can_acks (t got : Z) (cs : list (list Z)) : list Frame :=
  match cs with
  | [] => []
  | c :: cs =>
      let got := got + Z.of_nat (length c) in
      (if got =? t then [fw_reply CODE_UPDATE_SUCCESS got]
       else if got mod ACK_INTERVAL =? 0 then [fw_reply CODE_OFFSET got] else []) ++ can_acks t got cs
  end.

Section Upgrade.
Context {F : Type} `{!Flash F, !NorSpec F}.
Variable FW_VERSION : list Z.

Lemma can_data_run m0 t cs : forall d (s : CanSt F) f,
  FNOR (c_fw s) = Some f -> receiving m0 t d (FW (c_fw s)) f -> bytes_ok (concat cs) ->
  Z.of_nat (length (d ++ concat cs)) <= t ->
  exists s' f', can_run FW_VERSION ((fun c => (FW_DATA_RX, c)) <$> cs) s =
      Some (can_acks t (Z.of_nat (length d)) cs, s') /\
    FNOR (c_fw s') = Some f' /\ receiving m0 t (d ++ concat cs) (FW (c_fw s')) f'.
Proof.
  induction cs as [|c cs IH]; intros d s f Hn Hr Hb Ht; cbn [concat fmap list_fmap can_run can_acks] in *.
  { exists s, f. by rewrite app_nil_r. }
  apply bytes_ok_app_inv in Hb as [Hc Hb]. rewrite app_assoc in *.
  destruct (write_ok m0 t d c (c_fw s) f Hn Hr Hc) as (w1 & f1 & E & Hn1 & _ & Hr1); [rewrite length_app in Ht; lia|].
  assert (Hgot : received w1 = Z.of_nat (length d) + Z.of_nat (length c)).
  { rewrite (received_ok m0 t (d ++ c) w1 f1 Hr1), length_app by (rewrite length_app in Ht; lia). lia. }
  assert (Htot : total w1 = t) by (unfold total; by rewrite (rcv_active _ _ _ _ _ Hr1), (rcv_total _ _ _ _ _ Hr1)).
  destruct (IH (d ++ c) (with_fw w1 s) f1 Hn1 Hr1 Hb Ht) as (s2 & f2 & E2 & Hn2 & Hr2).
  exists s2, f2. split; [|done]. unfold can_turn. change (FW_DATA_RX =? PLATFORM_RX) with false.
  change (FW_DATA_RX =? FW_DATA_RX) with true. cbn iota.
  unfold handle_fw_data, active. rewrite (rcv_active _ _ _ _ _ Hr), E. cbn [negb mbind option_bind].
  rewrite Hgot, Htot. rewrite length_app, Nat2Z.inj_add in E2.
  destruct (_ =? t); [|destruct (_ =? 0)]; cbn [mbind option_bind]; rewrite E2; done.
Qed.

(** C14: an upgrade over CAN, end to end.  Whatever state the channel was in -
    a half-finished transfer included - START for a signed image (with the key
    hash not complete in the buffer, or complete and correct) is answered OFFSET
    0; the data frames, of any sizes, are answered by an offset each time the
    count reaches a multiple of 64 and by UPDATE_SUCCESS when the image is
    complete, and by nothing else; CONFIRM is answered with the magic word exactly
    when the image carries the built-in key hash, and then the slot holds the
    image and the trailer of the requested swap type; otherwise by
    TRANSFER_ERROR, the trailer being left erased. *)
Theorem can_upgrade m0 (s : CanSt F) (f : F) i cs arg
    (Hn : FNOR (c_fw s) = Some f) (Hf : holds f m0) (Hp : length (s_page (FW (c_fw s))) = PAGE_SZ)
    (Hi : signed_ok i) (Ht : Z.of_nat (length (signed_bytes i)) <= SLOT1_SIZE - 40)
    (Hc : concat cs = signed_bytes i) (Harg : is_u32 arg)
    (Hk : Z.land (key_chunk_mask s) KEYHASH_FULL_MASK = KEYHASH_FULL_MASK -> rx_keybuf s = FW_KEYHASH) :
  let t := Z.of_nat (length (signed_bytes i)) in
  let ok := bool_decide (first_keyhash (img_tlvs i) = Some FW_KEYHASH) in
  exists s1 s2 s3 f',
    can_turn FW_VERSION (cmd_frame CMD_START_UPDATE t) s = Some ([fw_reply CODE_OFFSET 0], s1) /\
    can_run FW_VERSION ((fun c => (FW_DATA_RX, c)) <$> cs) s1 = Some (can_acks t 0 cs, s2) /\
    can_turn FW_VERSION (cmd_frame CMD_CONFIRM arg) s2 =
      Some ([if ok then fw_reply CODE_CONFIRM CONFIRM_MAGIC else fw_reply CODE_TRANSFER_ERROR 0], s3) /\
    FNOR (c_fw s3) = Some f' /\
    holds f' ((if ok then pending_mem (negb (arg =? 0)) else id) (slot_mem m0 (signed_bytes i))).
Proof.
  intros t ok.
  assert (Ht64 : 64 <= t <= SLOT1_SIZE).
  { pose proof (signed_head_length i Hi). unfold t, SLOT1_SIZE in *. split; [|lia].
    unfold signed_bytes. rewrite length_app. lia. }
  assert (Hdec : forall v, is_u32 v ->
    from_le_bytes32 (v mod 256) (v / 256 mod 256) (v / 65536 mod 256) (v / 16777216 mod 256) = v).
  { intros v Hv. unfold is_u32, from_le_bytes32 in *. zdm. }
  set (full := Z.land (key_chunk_mask s) KEYHASH_FULL_MASK =? KEYHASH_FULL_MASK).
  set (kh := if full then Some (rx_keybuf s) else None).
  assert (Hkh : kh = None \/ kh = Some FW_KEYHASH).
  { unfold kh, full. destruct (Z.eqb_spec (Z.land (key_chunk_mask s) KEYHASH_FULL_MASK) KEYHASH_FULL_MASK); [|by left].
    right. f_equal. by apply Hk. }
  destruct (start_ok m0 t kh (abort (c_fw s)) f Hn Hf eq_refl Hp Ht64 Hkh) as (w1 & f1 & E1 & Hn1 & _ & Hr1).
  set (s1 := with_fw w1 (if full then with_mask 0 s else s)).
  assert (Hw1 : c_fw s1 = w1) by done.
  destruct (can_data_run m0 t cs [] s1 f1) as (s2 & f2 & E2 & Hn2 & Hr2);
    [done|by rewrite Hw1|rewrite Hc; apply Hi|rewrite Hc; cbn [app]; unfold t; lia|].
  cbn [app] in Hr2. rewrite Hc in Hr2.
  destruct (finish_ok m0 (signed_bytes i) (c_fw s2) f2 None Hn2 Hr2 ltac:(lia)) as (w3 & f3 & E3 & Hn3 & Ha3 & H3).
  unfold accepted in E3. rewrite slot_keyhash_signed in E3 by done. fold ok in E3. cbn [andb] in E3.
  exists s1, s2. unfold can_turn, cmd_frame. change (PLATFORM_RX =? PLATFORM_RX) with true. cbn iota.
  assert (Hst : handle_platform FW_VERSION (to_le_bytes32 CMD_START_UPDATE ++ to_le_bytes32 t) s =
    Some ([fw_reply CODE_OFFSET 0], s1)).
  { unfold handle_platform. cbn [to_le_bytes32 app length Nat.eqb negb lookup list_lookup mbind option_bind].
    rewrite !Hdec by (unfold is_u32, SLOT1_SIZE, CMD_START_UPDATE in *; lia). cbn [CMD_START_UPDATE Z.eqb].
    fold full. replace (rx_keybuf (if full then _ else _)) with (rx_keybuf s) by (by destruct full).
    fold kh. rewrite E1. reflexivity. }
  rewrite Hst.
  unfold handle_platform. cbn [to_le_bytes32 app length Nat.eqb negb lookup list_lookup mbind option_bind].
  rewrite !Hdec by (unfold is_u32, CMD_CONFIRM in *; lia). cbn [CMD_CONFIRM CMD_START_UPDATE Z.eqb Pos.eqb].
  unfold active. rewrite (rcv_active _ _ _ _ _ Hr2), E3. cbn [negb mbind option_bind].
  destruct ok; cbn [negb].
  - rewrite Hn3. destruct (boot_set_pending_ok (negb (arg =? 0)) _ f3 H3) as (f4 & E4 & H4).
    { intros x Hx. unfold slot_mem. rewrite decide_False by lia. by rewrite decide_True by (unfold SLOT1_SIZE in *; lia). }
    rewrite E4. cbn [negb]. eexists _, f4. split; [done|]. split; [exact E2|]. split; [done|]. done.
  - eexists _, f3. split; [done|]. split; [exact E2|]. split; [done|]. done.
Qed.

(** a channel without an open session.  CONFIRM and data frames are answered
    TRANSFER_ERROR and change nothing, as is anything short of 8 bytes on the
    command identifier, answered FLASH_ERROR; frames with other identifiers are
    ignored; REBOOT is not answered, queues a history flush and resets. *)
Theorem can_idle (s : CanSt F) data arg fid
    (Ha : active (c_fw s) = false) (Harg : is_u32 arg)
    (Hid : fid <> PLATFORM_RX /\ fid <> FW_DATA_RX /\ fid <> KEYHASH_RX) :
  can_turn FW_VERSION (cmd_frame CMD_CONFIRM arg) s = Some ([fw_reply CODE_TRANSFER_ERROR 0], s) /\
  can_turn FW_VERSION (FW_DATA_RX, data) s = Some ([fw_reply CODE_TRANSFER_ERROR 0], s) /\
  (length data <> 8%nat -> can_turn FW_VERSION (PLATFORM_RX, data) s = Some ([fw_reply CODE_FLASH_ERROR 0], s)) /\
  can_turn FW_VERSION (fid, data) s = Some ([], s) /\
  exists s', can_turn FW_VERSION (cmd_frame CMD_REBOOT arg) s = Some ([], s') /\
    c_reset s' = true /\ c_lanes s' = queue_send Sync (c_lanes s) /\ c_fw s' = c_fw s.
Proof.
  unfold can_turn, cmd_frame, handle_platform, handle_fw_data.
  change (PLATFORM_RX =? PLATFORM_RX) with true. cbn iota.
  cbn [to_le_bytes32 app length Nat.eqb negb lookup list_lookup mbind option_bind].
  change (from_le_bytes32 (CMD_CONFIRM mod 256) _ _ _) with CMD_CONFIRM.
  change (from_le_bytes32 (CMD_REBOOT mod 256) _ _ _) with CMD_REBOOT.
  rewrite Ha. split; [done|]. split; [done|]. split.
  - intros Hl. by rewrite (proj2 (Nat.eqb_neq _ _) Hl).
  - split.
    + destruct Hid as (H1 & H2 & H3). by rewrite !(proj2 (Z.eqb_neq _ _)).
    + eexists. split; [reflexivity|]. done.
Qed.
End Upgrade.

Definition can_demo : CanSt Chip := mkCanSt fw_blank (mkLanes [] []) (replicate 32 0) 0 false.

Lemma keyhash_any_order_witness :
  let ds := [[4; 0xaa; 0x15; 0x7f; 0xac]; []; [9]; 2 :: kh_piece FW_KEYHASH 2] in
  exists buf' mask', keyhash_frames ds (replicate 32 0) 0 = Some (buf', mask').
Proof.
  destruct (keyhash_any_order FW_KEYHASH [[4; 0xaa; 0x15; 0x7f; 0xac]; []; [9]; 2 :: kh_piece FW_KEYHASH 2]
    (replicate 32 0) eq_refl eq_refl) as (b & m & E & _).
  { repeat apply Forall_cons_2; [| | | |constructor]; cbn [kh_frame]; try done.
    - split; [lia|]. right. right. reflexivity.
    - split; [lia|]. left. lia.
    - split; [lia|]. right. right. reflexivity. }
  exists b, m. exact E.
Defined.

Lemma version_frames_reassemble_witness : exists fs, version_frames 12 0 0 (bs "1.2.3+abcdef") = Some fs.
Proof.
  destruct (version_frames_reassemble (bs "1.2.3+abcdef")) as (fs & E & _); [apply Z.leb_le; reflexivity|].
  exists fs. exact E.
Defined.

Lemma can_upgrade_witness :
  let img := signed_bytes image_demo in
  exists s1 s2 s3 f',
    can_turn [] (cmd_frame CMD_START_UPDATE (Z.of_nat (length img))) can_demo = Some ([fw_reply CODE_OFFSET 0], s1) /\
    can_run [] ((fun c => (FW_DATA_RX, c)) <$> [take 8 img; drop 8 img]) s1 =
      Some (can_acks (Z.of_nat (length img)) 0 [take 8 img; drop 8 img], s2) /\
    can_turn [] (cmd_frame CMD_CONFIRM 1) s2 =
      Some ([if bool_decide (first_keyhash (img_tlvs image_demo) = Some FW_KEYHASH)
             then fw_reply CODE_CONFIRM CONFIRM_MAGIC else fw_reply CODE_TRANSFER_ERROR 0], s3) /\
    FNOR (c_fw s3) = Some f' /\
    holds f' ((if bool_decide (first_keyhash (img_tlvs image_demo) = Some FW_KEYHASH)
               then pending_mem true else id) (slot_mem (fun _ => 255) img)).
Proof.
  refine (can_upgrade [] (fun _ => 255) can_demo chip_blank image_demo
    [take 8 (signed_bytes image_demo); drop 8 (signed_bytes image_demo)] 1
    eq_refl chip_blank_holds eq_refl image_demo_ok _ eq_refl _ _).
  - apply Z.leb_le. reflexivity.
  - split; [apply Z.leb_le|apply Z.ltb_lt]; reflexivity.
  - intros H. discriminate H.
Defined.

Lemma can_idle_witness :
  active (c_fw can_demo) = false /\
  can_turn [] (FW_DATA_RX, [1; 2]) can_demo = Some ([fw_reply CODE_TRANSFER_ERROR 0], can_demo).
Proof.
  split; [reflexivity|].
  refine (proj1 (proj2 (can_idle [] can_demo [1; 2] 0 5 eq_refl _ _))).
  - split; [apply Z.leb_le|apply Z.ltb_lt]; reflexivity.
  - repeat split; discriminate.
Defined.
