(* ===== verification/FwUdp.v ===== *)
(** * The firmware-upgrade channel on UDP (crates/firmware/src/net.rs, [fw_udp_cmd])

    The four commands of the channel over the upgrade session, and the
    go-back-N protocol they give: datagrams may be lost, repeated and reordered. *)
From S2P Require Import Prelude Bytes ConfigStore StorageCfg FwUpg W25q NorSpec FwSession.

Section Cmd.
Context {F : Type} `{!Flash F}.

(** [while !data.is_empty()]: 256 bytes at a time; the results of the writes are
    not looked at. *)
Fixpoint v2_loop (fuel : nat) (data : list Z) (w : FwW F) : option (FwW F) :=
  match data with
  | [] => Some w
  | _ =>
      match fuel with
      | O => None
      | S fuel =>
          let n := Nat.min (length data) 256 in
          '(_, w) ← write (take n data) w;
          v2_loop fuel (drop n data) w
      end
  end.

(** A panic is the outer [None]; then the reply buffer and its length, or [None]
    for a command of another layer. *)
Definition fw_udp_cmd (cmd : Z) (payload : list Z) (w : FwW F) : option (option (list Z * nat) * FwW F) :=
  let silent := Some (Some (replicate 8 0, 0%nat), w) in
  if cmd =? 0x01 then
    if (length payload <? 4)%nat then silent else
    p0 ← payload !! 0%nat; p1 ← payload !! 1%nat; p2 ← payload !! 2%nat; p3 ← payload !! 3%nat;
    let total := from_le_bytes32 p0 p1 p2 p3 in
    kh ← (if (4 + 32 <=? length payload)%nat then k ← slice payload 4 36; Some (Some k) else Some None);
    let '(rc, w) := start total kh w in
    let st := if rc =? 0 then 1 else if rc =? -2 then 2 else 0 in
    Some (Some ([0x01; st; as_u8 (Z.land 1400 0xFF); as_u8 (Z.land (Z.shiftr 1400 8) 0xFF); 0; 0; 0; 0], 4%nat), w)
  else if cmd =? 0x02 then
    if (511 <? length payload)%nat then silent else
    '(_, w) ← write payload w;
    Some (Some ([0x02] ++ to_le_bytes32 (received w) ++ [0; 0; 0], 5%nat), w)
  else if cmd =? 0x06 then
    if (length payload <? 5)%nat then silent else
    p0 ← payload !! 0%nat; p1 ← payload !! 1%nat; p2 ← payload !! 2%nat; p3 ← payload !! 3%nat;
    let off := from_le_bytes32 p0 p1 p2 p3 in
    w ← (if off =? received w then data ← slice payload 4 (length payload); v2_loop (length data) data w
         else Some w);
    Some (Some ([0x06] ++ to_le_bytes32 (received w) ++ [0; 0; 0], 5%nat), w)
  else if cmd =? 0x03 then
    if (length payload <? 3)%nat then silent else
    p0 ← payload !! 0%nat; p1 ← payload !! 1%nat; p2 ← payload !! 2%nat;
    let permanent := p0 =? 0 in
    let crc := from_le_bytes16 p1 p2 in
    '(fin, w) ← finish (Some crc) w;
    let '(ok, w) :=
      (if fin : bool then
         let '(p, nor) := boot_set_pending permanent (FNOR w) in
         (if p : bool then 1 else 0, mkFwW (FW w) (FW_DBG w) nor)
       else (0, w)) in
    Some (Some ([0x03; ok; 0; 0; 0; 0; 0; 0], 2%nat), w)
  else Some (None, w).
End Cmd.

(** ** The protocol *)

(** A data datagram: the piece of the image at [off]. *)
Definition dgram (img : list Z) (p : nat * nat) : list Z :=
  to_le_bytes32 (Z.of_nat p.1) ++ take p.2 (drop p.1 img).

(** Pieces a sender may send. *)
Definition dgram_ok (img : list Z) (p : nat * nat) : Prop :=
  (0 < p.2)%nat /\ (p.1 + p.2 <= length img)%nat.

(** Go-back-N: the receiver takes a piece that starts where it stands. *)
Definition gbn (n : nat) (p : nat * nat) : nat := if (p.1 =? n)%nat then (n + p.2)%nat else n.

Section Protocol.
Context {F : Type} `{!Flash F, !NorSpec F}.

Lemma le32_decode v : is_u32 v ->
  from_le_bytes32 (v mod 256) (v / 256 mod 256) (v / 65536 mod 256) (v / 16777216 mod 256) = v.
Proof. intros Hv. unfold is_u32, from_le_bytes32 in *. zdm. Qed.

Lemma v2_loop_ok fuel : forall m0 t d data (w : FwW F) f,
  FNOR w = Some f -> receiving m0 t d (FW w) f -> bytes_ok data ->
  Z.of_nat (length (d ++ data)) <= t -> (length data <= fuel)%nat ->
  exists w' f', v2_loop fuel data w = Some w' /\ FNOR w' = Some f' /\ receiving m0 t (d ++ data) (FW w') f'.
Proof.
  induction fuel as [|fuel IH]; intros m0 t d data w f Hn Hr Hb Ht Hf.
  { destruct data; [|cbn in Hf; lia]. exists w, f. by rewrite app_nil_r. }
  destruct data as [|x r]; [exists w, f; by rewrite app_nil_r|].
  set (data := x :: r) in *. assert (Hp : (0 < length data)%nat) by (cbn; lia). cbn [v2_loop].
  change (match data with [] => Some w | _ :: _ => '(_, w) ← write (take (Nat.min (length data) 256) data) w;
    v2_loop fuel (drop (Nat.min (length data) 256) data) w end)
    with ('(_, w) ← write (take (Nat.min (length data) 256) data) w; v2_loop fuel (drop (Nat.min (length data) 256) data) w).
  clearbody data. set (n := Nat.min (length data) 256).
  assert (E : d ++ data = (d ++ take n data) ++ drop n data) by (rewrite <- app_assoc; by rewrite take_drop).
  destruct (write_ok m0 t d (take n data) w f Hn Hr) as (w1 & f1 & E1 & Hn1 & _ & Hr1).
  { by apply Forall_take. }
  { rewrite length_app in *. rewrite length_take. lia. }
  rewrite E1. cbn [mbind option_bind].
  destruct (IH m0 t (d ++ take n data) (drop n data) w1 f1 Hn1 Hr1) as (w2 & f2 & E2 & Hn2 & Hr2);
    [by apply Forall_drop|by rewrite <- E|rewrite length_drop; lia|].
  exists w2, f2. rewrite E. done.
Qed.

(** The replies to the pieces [ps], from [n] bytes on. *)
Fixpoint gbn_replies (n : nat) (ps : list (nat * nat)) : list (list Z * nat) :=
  match ps with
  | [] => []
  | p :: ps => ([0x06] ++ to_le_bytes32 (Z.of_nat (gbn n p)) ++ [0; 0; 0], 5%nat) :: gbn_replies (gbn n p) ps
  end.

(** The datagrams that arrive, handled in turn. *)
Fixpoint v2_run (img : list Z) (ps : list (nat * nat)) (w : FwW F) : option (list (list Z * nat) * FwW F) :=
  match ps with
  | [] => Some ([], w)
  | p :: ps =>
      '(r, w) ← fw_udp_cmd 0x06 (dgram img p) w;
      '(rs, w) ← v2_run img ps w;
      Some (match r with Some r => r :: rs | None => rs end, w)
  end.

Lemma v2_step m0 img n (w : FwW F) f p :
  FNOR w = Some f -> receiving m0 (Z.of_nat (length img)) (take n img) (FW w) f -> (n <= length img)%nat ->
  bytes_ok img -> dgram_ok img p ->
  exists w' f', fw_udp_cmd 0x06 (dgram img p) w =
      Some (Some ([0x06] ++ to_le_bytes32 (Z.of_nat (gbn n p)) ++ [0; 0; 0], 5%nat), w') /\
    FNOR w' = Some f' /\ receiving m0 (Z.of_nat (length img)) (take (gbn n p) img) (FW w') f' /\
    (gbn n p <= length img)%nat.
Proof.
  intros Hn Hr Hni Hb [Hp1 Hp2]. set (t := Z.of_nat (length img)) in *.
  assert (Ht : t <= 458752) by apply (rcv_t _ _ _ _ _ Hr).
  assert (Hrec : received w = Z.of_nat n).
  { rewrite (received_ok m0 t _ w f Hr) by (rewrite length_take; lia). rewrite length_take. lia. }
  set (data := take p.2 (drop p.1 img)). assert (Hdl : length data = p.2) by (unfold data; len).
  assert (Hpl : length (dgram img p) = (4 + p.2)%nat) by (unfold dgram; fold data; rewrite length_app, Hdl; done).
  unfold fw_udp_cmd. cbn [Z.eqb Pos.eqb]. rewrite (proj2 (Nat.ltb_ge _ 5)) by lia.
  assert (Hsl : slice (dgram img p) 4 (length (dgram img p)) = Some data).
  { rewrite slice_ok by lia. f_equal. unfold dgram. fold data. rewrite length_app. cbn [length to_le_bytes32].
    change (drop 4 (to_le_bytes32 (Z.of_nat p.1) ++ data)) with (drop 0 data). rewrite drop_0. apply take_ge. lia. }
  rewrite Hsl. unfold dgram at 1 2 3 4. cbn [to_le_bytes32 app lookup list_lookup mbind option_bind].
  rewrite le32_decode by (unfold is_u32; lia). rewrite Hrec. unfold gbn.
  destruct (Nat.eqb_spec p.1 n) as [E|E].
  - rewrite E, Z.eqb_refl.
    assert (Hta : take n img ++ data = take (n + p.2) img).
    { unfold data. rewrite E. rewrite <- (take_drop n (take (n + p.2) img)).
      rewrite take_take, Nat.min_l by lia. f_equal. rewrite skipn_firstn_comm. f_equal. lia. }
    destruct (v2_loop_ok (length data) m0 t (take n img) data w f Hn Hr) as (w1 & f1 & E1 & Hn1 & Hr1);
      [unfold data; by apply Forall_take, Forall_drop|rewrite Hta, length_take; lia|lia|].
    cbn [mbind option_bind]. rewrite E1. cbn [mbind option_bind]. rewrite Hta in Hr1.
    assert (Hrec1 : received w1 = Z.of_nat (n + p.2)).
    { rewrite (received_ok m0 t _ w1 f1 Hr1) by (rewrite length_take; lia). rewrite length_take. lia. }
    rewrite Hrec1. exists w1, f1. split; [done|]. split; [done|]. split; [done|lia].
  - rewrite (proj2 (Z.eqb_neq _ _)) by lia. cbn [mbind option_bind]. rewrite Hrec.
    exists w, f. done.
Qed.

Lemma v2_run_ok m0 img ps : forall n (w : FwW F) f,
  FNOR w = Some f -> receiving m0 (Z.of_nat (length img)) (take n img) (FW w) f -> (n <= length img)%nat ->
  bytes_ok img -> Forall (dgram_ok img) ps ->
  exists w' f', v2_run img ps w = Some (gbn_replies n ps, w') /\ FNOR w' = Some f' /\
    receiving m0 (Z.of_nat (length img)) (take (foldl gbn n ps) img) (FW w') f' /\
    (foldl gbn n ps <= length img)%nat.
Proof.
  induction ps as [|p ps IH]; intros n w f Hn Hr Hni Hb Hps; [by exists w, f|].
  apply Forall_cons_1 in Hps as [Hp Hps].
  destruct (v2_step m0 img n w f p Hn Hr Hni Hb Hp) as (w1 & f1 & E1 & Hn1 & Hr1 & Hle).
  destruct (IH (gbn n p) w1 f1 Hn1 Hr1 Hle Hb Hps) as (w2 & f2 & E2 & H2).
  exists w2, f2. split; [|exact H2]. cbn [v2_run gbn_replies]. rewrite E1. cbn [mbind option_bind]. by rewrite E2.
Qed.

(** ** Properties *)

(** C8: an upgrade over UDP survives an unreliable network.  START for a signed
    image, with the right key hash or none, is accepted and announces 1400-byte
    pieces.  Then any datagrams with pieces of the image may arrive - lost,
    repeated, in any order, of any sizes - and the slot never holds anything but
    a prefix of the image: each is answered with the number of bytes in order so
    far, which is the go-back-N count.  END answers success exactly when that
    count has reached the end, the CRC is the image's and the image carries the
    built-in key hash; then the slot holds the image and the trailer of the
    requested swap type. *)
Theorem udp_upgrade_go_back_n m0 (w : FwW F) (f : F) i (kh : bool) ps test crc
    (Hn : FNOR w = Some f) (Hf : holds f m0) (Ha : s_active (FW w) = false)
    (Hp : length (s_page (FW w)) = PAGE_SZ) (Hi : signed_ok i)
    (Ht : Z.of_nat (length (signed_bytes i)) <= SLOT1_SIZE - 40) (Hc : is_u16 crc)
    (Hps : Forall (dgram_ok (signed_bytes i)) ps) :
  let img := signed_bytes i in
  let n := foldl gbn 0%nat ps in
  let ok := (n =? length img)%nat && (fw_crc16_ccitt 0 img =? crc) &&
            bool_decide (first_keyhash (img_tlvs i) = Some FW_KEYHASH) in
  exists w1 w2 w3 f',
    fw_udp_cmd 0x01 (to_le_bytes32 (Z.of_nat (length img)) ++ (if kh then FW_KEYHASH else [])) w =
      Some (Some ([1; 1; 0x78; 0x05; 0; 0; 0; 0], 4%nat), w1) /\
    v2_run img ps w1 = Some (gbn_replies 0 ps, w2) /\ received w2 = Z.of_nat n /\
    fw_udp_cmd 0x03 ([test] ++ to_le_bytes16 crc) w2 =
      Some (Some ([3; if ok then 1 else 0; 0; 0; 0; 0; 0; 0], 2%nat), w3) /\
    FNOR w3 = Some f' /\
    holds f' ((if ok then pending_mem (test =? 0) else id) (slot_mem m0 (take n img))).
Proof.
  intros img n ok. set (t := Z.of_nat (length img)).
  assert (Ht64 : 64 <= t <= SLOT1_SIZE).
  { pose proof (signed_head_length i Hi). unfold t, img, SLOT1_SIZE in *. split; [|lia].
    unfold signed_bytes. rewrite length_app. lia. }
  destruct (start_ok m0 t (if kh then Some FW_KEYHASH else None) w f Hn Hf Ha Hp Ht64)
    as (w1 & f1 & E1 & Hn1 & _ & Hr1); [destruct kh; auto|].
  destruct (v2_run_ok m0 img ps 0 w1 f1 Hn1) as (w2 & f2 & E2 & Hn2 & Hr2 & Hle);
    [by rewrite take_0|lia|apply Hi|done|]. fold n in Hr2, Hle. fold t in Hr2.
  exists w1, w2.
  assert (Hstart : fw_udp_cmd 0x01 (to_le_bytes32 t ++ (if kh then FW_KEYHASH else [])) w =
    Some (Some ([1; 1; 0x78; 0x05; 0; 0; 0; 0], 4%nat), w1)).
  { unfold fw_udp_cmd. cbn [Z.eqb Pos.eqb]. rewrite (proj2 (Nat.ltb_ge _ 4)) by (destruct kh; cbn; lia).
    assert (Hkh : (if (4 + 32 <=? length (to_le_bytes32 t ++ (if kh then FW_KEYHASH else [])))%nat
      then k ← slice (to_le_bytes32 t ++ (if kh then FW_KEYHASH else [])) 4 36; Some (Some k) else Some None) =
      Some (if kh then Some FW_KEYHASH else None)) by (by destruct kh).
    rewrite Hkh. cbn [to_le_bytes32 app lookup list_lookup mbind option_bind].
    rewrite le32_decode by (unfold is_u32, SLOT1_SIZE in *; lia). rewrite E1. reflexivity. }
  assert (Hrec : received w2 = Z.of_nat n).
  { rewrite (received_ok m0 t _ w2 f2 Hr2) by (rewrite length_take; lia). rewrite length_take. lia. }
  assert (Hcrc : from_le_bytes16 (crc mod 256) (crc / 256 mod 256) = crc).
  { unfold is_u16, from_le_bytes16 in *. zdm. }
  unfold fw_udp_cmd at 2. cbn [Z.eqb Pos.eqb to_le_bytes16 app length Nat.ltb Nat.leb lookup list_lookup mbind option_bind].
  rewrite Hcrc. unfold ok. destruct (Nat.eqb_spec n (length img)) as [En|En]; cbn [andb].
  - rewrite take_ge in Hr2 by lia. rewrite (take_ge img n) by lia.
    destruct (finish_ok m0 img w2 f2 (Some crc) Hn2 Hr2 ltac:(lia)) as (w3 & f3 & E3 & Hn3 & _ & H3).
    unfold accepted in E3. unfold img in E3 at 2. rewrite slot_keyhash_signed in E3 by done. fold img in E3.
    rewrite E3. cbn [mbind option_bind].
    destruct (_ && _).
    + rewrite Hn3. destruct (boot_set_pending_ok (test =? 0) _ f3 H3) as (f4 & E4 & H4).
      { intros x Hx. unfold img. unfold slot_mem. rewrite decide_False by lia. by rewrite decide_True by (unfold SLOT1_SIZE in *; lia). }
      rewrite E4. by eexists _, f4.
    + by eexists _, f3.
  - destruct (finish_short m0 t _ w2 f2 (Some crc) Hn2 Hr2) as (w3 & f3 & E3 & Hn3 & _ & H3);
      [rewrite length_take; lia|].
    rewrite E3. cbn [mbind option_bind]. by eexists _, f3.
Qed.
End Protocol.

Lemma udp_upgrade_go_back_n_witness :
  let img := signed_bytes image_demo in
  let ps := [(0, 300); (300, 200); (0, 300); (500, 65)]%nat in
  let crc := fw_crc16_ccitt 0 img in
  exists w1 w2 w3,
    fw_udp_cmd 0x01 (to_le_bytes32 (Z.of_nat (length img)) ++ FW_KEYHASH) fw_blank =
      Some (Some ([1; 1; 0x78; 0x05; 0; 0; 0; 0], 4%nat), w1) /\
    v2_run img ps w1 = Some (gbn_replies 0 ps, w2) /\
    fw_udp_cmd 0x03 ([0] ++ to_le_bytes16 crc) w2 = Some (Some ([3; 1; 0; 0; 0; 0; 0; 0], 2%nat), w3).
Proof.
  intros img ps crc.
  destruct (udp_upgrade_go_back_n (fun _ => 255) fw_blank chip_blank image_demo true ps 0 crc
    eq_refl chip_blank_holds eq_refl eq_refl image_demo_ok) as (w1 & w2 & w3 & f' & E1 & E2 & _ & E3 & _).
  - apply Z.leb_le. reflexivity.
  - unfold crc. vm_compute. split; [discriminate|reflexivity].
  - unfold ps. repeat apply Forall_cons_2; [..|constructor]; split; cbn [fst snd]; apply Nat.leb_le; reflexivity.
  - exists w1, w2, w3. split; [exact E1|]. split; [exact E2|]. rewrite E3. vm_compute. reflexivity.
Defined.
