(* ===== verification/LfsNor.v ===== *)
(** * The block device of littlefs and the interface of the file system
      (crates/firmware/src/storage.rs)

    [LfsNor] is the block device littlefs runs on: the NOR from [LFS_OFFSET] on,
    writes split at page boundaries.  littlefs itself is a C library (vendored under
    littlefs2-sys) behind the littlefs2 crate, so it is a parameter: the class [Lfs]
    lists the operations storage.rs calls. *)
From S2P Require Import Prelude Bytes ConfigStore StorageCfg W25q NorSpec.

Definition LFS_OFFSET : Z := 0x000F0000.
Definition LFS_BLOCK_COUNT : Z := (0x01000000 - LFS_OFFSET) / 4096.
Definition BLOCK_CYCLES : Z := 512.
Definition READ_SIZE : Z := 16.
Definition WRITE_SIZE : Z := 16.
Definition BLOCK_SIZE : Z := 4096.

Section Device.
Context {F : Type} `{!Flash F}.

(** [nor_with(f).unwrap_or(Err(()))] *)
Definition or_err {A} (r : option (result A)) : result A := match r with Some r => r | None => Err end.

Definition lfsnor_read (off : Z) (n : nat) (nor : option F) : result (list Z) * option F :=
  let '(r, nor) := nor_with (flash_read (as_u32 (LFS_OFFSET + as_u32 off)) n) nor in (or_err r, nor).

(** [while p < data.len()]; a turn writes at least a byte. *)
Fixpoint lfsnor_write_loop (fuel : nat) (addr : Z) (p : nat) (data : list Z) (nor : option F)
    : result nat * option F :=
  if (p <? length data)%nat then
    match fuel with
    | O => (Err, nor)
    | S fuel =>
        let chunk := Z.to_nat (256 - addr mod 256) in
        let chunk := Nat.min chunk (length data - p) in
        let '(r, nor) := nor_with (flash_write addr (range data p (p + chunk))) nor in
        match or_err r with
        | Err => (Err, nor)
        | Ok _ => lfsnor_write_loop fuel (as_u32 (addr + Z.of_nat chunk)) (p + chunk) data nor
        end
    end
  else (Ok (length data), nor).

Definition lfsnor_write (off : Z) (data : list Z) (nor : option F) : result nat * option F :=
  lfsnor_write_loop (length data) (as_u32 (LFS_OFFSET + as_u32 off)) 0 data nor.

Definition lfsnor_erase (off len : Z) (nor : option F) : result Z * option F :=
  let '(r, nor) := nor_with (flash_erase (as_u32 (LFS_OFFSET + as_u32 off)) (as_u32 len)) nor in
  (match or_err r with Ok _ => Ok len | Err => Err end, nor).
End Device.

(** ** The file system *)

(** The greatest size of a file, and the last position in one (bindings.rs). *)
Definition LFS_FILE_MAX : Z := 2147483647.

(** The places a [FileAllocation] lives: an open file is linked into the file
    system through its cell. *)
Inductive Cell := FILE_ALLOC | DL_ALLOC | FTP_ALLOC (slot : nat).

#[export] Instance Cell_eq_dec : EqDecision Cell.
Proof. solve_decision. Defined.

Record OpenOptions := mkOpen {
  o_read : bool; o_write : bool; o_create : bool; o_append : bool; o_truncate : bool
}.

Record DirEntry := mkDirEntry { e_name : list Z; e_dir : bool; e_size : Z }.

(** What [opts.open] returns is known by the cell it was given; a path is its
    bytes without the terminator. *)
Class Lfs (FS : Type) := {
  path_ok : list Z -> bool;
  lfs_metadata : list Z -> FS -> result (bool * Z) * FS;
  lfs_read_dir : list Z -> FS -> result (list DirEntry) * FS;
  lfs_remove : list Z -> FS -> result unit * FS;
  lfs_create_dir : list Z -> FS -> result unit * FS;
  lfs_rename : list Z -> list Z -> FS -> result unit * FS;
  lfs_available_blocks : FS -> result Z * FS;
  lfs_open : OpenOptions -> Cell -> list Z -> FS -> result unit * FS;
  lfs_len : Cell -> FS -> result Z * FS;
  lfs_read : Cell -> nat -> FS -> result (list Z) * FS;
  lfs_write : Cell -> list Z -> FS -> result nat * FS;
  lfs_seek_start : Cell -> Z -> FS -> result Z * FS;
  lfs_seek_end : Cell -> FS -> result Z * FS;
  lfs_sync : Cell -> FS -> result unit * FS;
  lfs_close : Cell -> FS -> result unit * FS
}.

(** [Path::from_bytes_with_nul(p).ok()] *)
Definition path_from {FS} `{!Lfs FS} (p : list Z) : option (list Z) := if path_ok p then Some p else None.

(** ** Properties *)

Section DeviceSpec.
Context {F : Type} `{!Flash F, !NorSpec F}.

Lemma write_cells_app' a l1 l2 m :
  write_cells a (l1 ++ l2) m = write_cells (a + Z.of_nat (length l1)) l2 (write_cells a l1 m).
Proof. apply write_cells_app. Qed.

Lemma lfsnor_write_loop_ok fuel : forall addr p data (f : F) m,
  holds f m -> 0 <= addr -> addr + Z.of_nat (length data - p) <= CHIP_SIZE -> (p <= length data)%nat ->
  (length data - p <= fuel)%nat ->
  exists f', lfsnor_write_loop fuel addr p data (Some f) = (Ok (length data), Some f') /\
    holds f' (write_cells addr (drop p data) m).
Proof.
  induction fuel as [|fuel IH]; intros addr p data f m Hf Ha Hc Hp Hfu; cbn [lfsnor_write_loop];
    destruct (Nat.ltb_spec p (length data)); try lia.
  1, 3: exists f; split; [done|]; by rewrite drop_ge by lia.
  unfold CHIP_SIZE in *. pose proof (Z.mod_pos_bound addr 256 ltac:(lia)) as Hm.
  set (chunk := Nat.min _ _). assert (Hk : (0 < chunk <= length data - p)%nat) by lia.
  assert (Hk2 : addr mod 256 + Z.of_nat chunk <= 256) by lia. clearbody chunk.
  set (piece := range data p (p + chunk)).
  assert (Hpl : length piece = chunk) by (unfold piece; rewrite range_length by lia; lia).
  cbn [nor_with]. destruct (nor_write_ok f m addr piece Hf) as (f1 & -> & H1);
    [lia|lia|unfold CHIP_SIZE; lia|]. cbn [or_err].
  rewrite as_u32_id by (unfold is_u32; lia).
  destruct (IH (addr + Z.of_nat chunk) (p + chunk)%nat data f1 _ H1) as (f2 & E2 & H2);
    [lia|unfold CHIP_SIZE; lia|lia|lia|].
  exists f2. split; [exact E2|]. eapply holds_ext; [exact H2|]. intros x.
  replace (drop p data) with (piece ++ drop (p + chunk) data).
  2:{ unfold piece, range. replace (p + chunk - p)%nat with chunk by lia. rewrite <- drop_drop. apply take_drop. }
  by rewrite write_cells_app', Hpl.
Qed.

(** the block device of the file system.  Inside the partition, a read gives
    the bytes, a write of any length at any offset programs exactly its range -
    split so that no piece crosses a 256-byte page - and an erase of whole blocks
    clears exactly its range; each touches only the partition and reports the
    length asked for.  Without a flash every operation fails. *)
Theorem lfsnor_device (f : F) m off data k len
    (Hf : holds f m) (Ho : 0 <= off) (Hw : off + Z.of_nat (length data) <= LFS_BLOCK_COUNT * BLOCK_SIZE)
    (Hr : off + Z.of_nat k <= LFS_BLOCK_COUNT * BLOCK_SIZE /\ off < LFS_BLOCK_COUNT * BLOCK_SIZE)
    (He : off mod BLOCK_SIZE = 0 -> 0 < len /\ len mod BLOCK_SIZE = 0 /\ off + len <= LFS_BLOCK_COUNT * BLOCK_SIZE) :
  (exists f', lfsnor_read off k (Some f) = (Ok (mem_bytes m (LFS_OFFSET + off) k), Some f') /\ holds f' m) /\
  (exists f', lfsnor_write off data (Some f) = (Ok (length data), Some f') /\
    holds f' (write_cells (LFS_OFFSET + off) data m) /\
    forall x, x < LFS_OFFSET -> write_cells (LFS_OFFSET + off) data m x = m x) /\
  (off mod BLOCK_SIZE = 0 -> exists f', lfsnor_erase off len (Some f) = (Ok len, Some f') /\
    holds f' (erase_cells (LFS_OFFSET + off) len m)) /\
  lfsnor_read off k (@None F) = (Err, None) /\ lfsnor_erase off len (@None F) = (Err, None).
Proof.
  unfold LFS_BLOCK_COUNT, BLOCK_SIZE, LFS_OFFSET in *. change ((16777216 - 983040) / 4096 * 4096) with 15794176 in *.
  assert (Ea : as_u32 (983040 + as_u32 off) = 983040 + off).
  { rewrite (as_u32_id off) by (unfold is_u32; lia). apply as_u32_id. unfold is_u32. lia. }
  split; [|split; [|split; [|done]]].
  - unfold lfsnor_read, LFS_OFFSET. rewrite Ea. cbn [nor_with].
    destruct (nor_read_ok f m (983040 + off) k Hf) as (f1 & -> & H1); [unfold CHIP_SIZE; lia..|]. by exists f1.
  - unfold lfsnor_write, LFS_OFFSET. rewrite Ea.
    destruct (lfsnor_write_loop_ok (length data) (983040 + off) 0 data f m Hf) as (f1 & E1 & H1);
      [lia|unfold CHIP_SIZE; lia|lia|lia|]. rewrite drop_0 in H1.
    exists f1. split; [exact E1|]. split; [exact H1|].
    intros x Hx. rewrite write_cells_at. by rewrite decide_False by lia.
  - intros Hal. destruct (He Hal) as (Hl & Hlm & Hle). unfold lfsnor_erase, LFS_OFFSET. rewrite Ea.
    rewrite (as_u32_id len) by (unfold is_u32; lia). cbn [nor_with].
    destruct (nor_erase_ok f m (983040 + off) len Hf) as (f1 & -> & H1); [lia|zdm|done|done|unfold CHIP_SIZE; lia|].
    by exists f1.
Qed.
End DeviceSpec.

Definition lfs_chip : Chip := mkChip (fun _ => 255) false 0 [] 0 slowest.

Lemma lfsnor_device_witness :
  exists f', lfsnor_write 250 [1; 2; 3; 4; 5; 6; 7; 8] (Some lfs_chip) = (Ok 8%nat, Some f') /\
    holds f' (write_cells (LFS_OFFSET + 250) [1; 2; 3; 4; 5; 6; 7; 8] (fun _ => 255)).
Proof.
  destruct (lfsnor_device lfs_chip (fun _ => 255) 250 [1; 2; 3; 4; 5; 6; 7; 8] 4 4096) as (_ & (f' & E & H & _) & _).
  - split; [done|]. split; [done|]. by vm_compute.
  - lia.
  - apply Z.leb_le. reflexivity.
  - split; [apply Z.leb_le|apply Z.ltb_lt]; reflexivity.
  - intros H. discriminate H.
  - exists f'. split; [exact E|exact H].
Defined.
