(* ===== verification/StMonad.v ===== *)
(** * Stateful computations that may panic

    [M S A]: a computation on a state [S] with a result [A]; [None] is a panic.
    The rules of [wp] are the ones the invariant proofs use. *)
From S2P Require Import Prelude.

Definition M (S A : Type) : Type := S -> option (A * S).

#[export] Instance M_ret {S} : MRet (M S) := fun A a s => Some (a, s).
#[export] Instance M_bind {S} : MBind (M S) := fun A B k m s =>
  match m s with Some (a, s) => k a s | None => None end.

Definition reads {S A} (f : S -> A) : M S A := fun s => Some (f s, s).
Definition modify {S} (f : S -> S) : M S unit := fun s => Some (tt, f s).
Definition panic {S A} : M S A := fun _ => None.
Definition lift {S A} (o : option A) : M S A := fun s => match o with Some a => Some (a, s) | None => None end.
Definition when {S} (b : bool) (m : M S unit) : M S unit := if b then m else mret tt.

(** The computation ends without a panic in a state and with a result that
    satisfy [Q]. *)
Definition wp {S A} (m : M S A) (s : S) (Q : A -> S -> Prop) : Prop :=
  match m s with Some (a, s) => Q a s | None => False end.

Section Rules.
Context {S : Type}.

Lemma wp_ret {A} (a : A) (s : S) Q : Q a s -> wp (mret a) s Q.
Proof. done. Qed.
Lemma wp_bind {A B} (m : M S A) (k : A -> M S B) s Q : wp m s (fun a s => wp (k a) s Q) -> wp (m ≫= k) s Q.
Proof. unfold wp, mbind, M_bind. by destruct (m s) as [[a s']|]. Qed.
Lemma wp_reads {A} (f : S -> A) s Q : Q (f s) s -> wp (reads f) s Q.
Proof. done. Qed.
Lemma wp_modify (f : S -> S) s Q : Q tt (f s) -> wp (modify f) s Q.
Proof. done. Qed.
Lemma wp_lift {A} (o : option A) a s (Q : A -> S -> Prop) : o = Some a -> Q a s -> wp (lift o) s Q.
Proof. by intros ->. Qed.
Lemma wp_mono {A} (m : M S A) s (P Q : A -> S -> Prop) : wp m s P -> (forall a s, P a s -> Q a s) -> wp m s Q.
Proof. unfold wp. destruct (m s) as [[a s']|]; auto. Qed.
Lemma wp_elim {A} (m : M S A) s Q : wp m s Q -> exists a s', m s = Some (a, s') /\ Q a s'.
Proof. unfold wp. destruct (m s) as [[a s']|]; [eauto|done]. Qed.
Lemma wp_intro {A} (m : M S A) s a s' (Q : A -> S -> Prop) : m s = Some (a, s') -> Q a s' -> wp m s Q.
Proof. unfold wp. by intros ->. Qed.
End Rules.

(** One step of a computation. *)
Ltac wp_step :=
  cbv beta;
  match goal with
  | |- wp (_ ≫= _) _ _ => apply wp_bind
  | |- wp (mret _) _ _ => apply wp_ret
  | |- wp (reads _) _ _ => apply wp_reads
  | |- wp (modify _) _ _ => apply wp_modify
  end.

(** ** Invariants

    [keeps P m]: if the computation ends, it keeps [P]. *)
Definition keeps {S A} (P : S -> Prop) (m : M S A) : Prop :=
  forall s, P s -> match m s with Some (_, s') => P s' | None => True end.

Section Keeps.
Context {S : Type} (P : S -> Prop).

Lemma keeps_ret {A} (a : A) : keeps P (mret a).
Proof. intros s H. exact H. Qed.
Lemma keeps_reads {A} (f : S -> A) : keeps P (reads f).
Proof. intros s H. exact H. Qed.
Lemma keeps_panic {A} : keeps P (panic : M S A).
Proof. intros s H. exact I. Qed.
Lemma keeps_lift {A} (o : option A) : keeps P (lift o).
Proof. intros s H. by destruct o. Qed.
Lemma keeps_modify f : (forall s, P s -> P (f s)) -> keeps P (modify f).
Proof. intros Hf s H. by apply Hf. Qed.
Lemma keeps_bind {A B} (m : M S A) (k : A -> M S B) : keeps P m -> (forall a, keeps P (k a)) -> keeps P (m ≫= k).
Proof.
  intros Hm Hk s H. specialize (Hm s H). unfold mbind, M_bind. destruct (m s) as [[a s']|]; [|done]. by apply Hk.
Qed.
Lemma keeps_elim {A} (m : M S A) s a s' : keeps P m -> P s -> m s = Some (a, s') -> P s'.
Proof. intros Hm H E. specialize (Hm s H). by rewrite E in Hm. Qed.
End Keeps.

Create HintDb keeps.

(** The structure of a computation; the leaves are what remains. *)
Ltac keeps_with tac :=
  repeat first
    [ tac | apply keeps_ret | apply keeps_reads | apply keeps_panic | apply keeps_lift
    | match goal with |- keeps _ (_ ≫= _) => apply keeps_bind; [|intros ?] end
    | match goal with |- keeps _ (match ?x with _ => _ end) => destruct x eqn:? end ].
Ltac keeps := keeps_with fail.
