(* ===== verification/Storage.v ===== *)
(** * The storage task (crates/firmware/src/storage.rs)

    The statics of the file are one record, [Store]; the handlers of the task are
    computations on it, over any file system [Lfs].  A handle of an open file is
    the allocation cell it was opened in.  Critical sections and logging are left
    out: only this task runs these functions, one command at a time. *)
From S2P Require Import Prelude Bytes RegMap ConfigStore StorageCfg History Channels LfsNor StMonad.

Definition HIST_MAX_FILES : nat := 10.
Definition HIST_FILE_MAX : Z := 1024 * 1024.

(** One-shot FTP results: (ok, is_dir, size). *)
Definition FtpRes : Type := bool * bool * Z.

(** [free] and [total] in bytes; an entry is 20 name bytes and a big-endian size. *)
Record FsSnap := mkFsSnap { entries : list (list Z); count : nat; free : Z; snap_total : Z; gen : Z }.

Record FtpXfer := mkFtpXfer {
  dl : option Cell; wr : option Cell; x_size : Z; x_sent : Z; x_chunk : list Z; x_chunk_len : nat;
  x_eof : bool; x_err : bool; x_werr : bool; x_open : bool; wpos : nat
}.

Record FileDl := mkFileDl {
  d_name : list Z; d_size : Z; d_sent : Z; d_chunk : list Z; d_chunk_len : nat;
  d_open : bool; d_eof : bool; d_err : bool
}.

Record HistState := mkHistState { h_name : list Z; name_len : nat }.

Record Store (FS F : Type) := mkStore {
  s_fs : FS;
  OPEN_FILE : option (option Cell);
  FS_BAD : bool;
  FTP_RES : FtpRes;
  FTP_LS : list (list Z) * nat;
  FS_SNAP : FsSnap;
  DOWNLOAD_FILE : option Cell;
  FTP_XFER : list FtpXfer;
  FILE_DL : FileDl;
  RPC_SEQ : Z;
  s_cfg : CfgState F;
  s_hist : HistState
}.
Arguments mkStore {FS F} _ _ _ _ _ _ _ _ _ _ _ _.
Arguments s_fs {FS F} _.
Arguments OPEN_FILE {FS F} _.
Arguments FS_BAD {FS F} _.
Arguments FTP_RES {FS F} _.
Arguments FTP_LS {FS F} _.
Arguments FS_SNAP {FS F} _.
Arguments DOWNLOAD_FILE {FS F} _.
Arguments FTP_XFER {FS F} _.
Arguments FILE_DL {FS F} _.
Arguments RPC_SEQ {FS F} _.
Arguments s_cfg {FS F} _.
Arguments s_hist {FS F} _.

Section Setters.
Context {FS F : Type}.
Definition set_fs v (s : Store FS F) : Store FS F := mkStore v (OPEN_FILE s) (FS_BAD s) (FTP_RES s) (FTP_LS s) (FS_SNAP s) (DOWNLOAD_FILE s) (FTP_XFER s) (FILE_DL s) (RPC_SEQ s) (s_cfg s) (s_hist s).
Definition set_open_file v (s : Store FS F) : Store FS F := mkStore (s_fs s) v (FS_BAD s) (FTP_RES s) (FTP_LS s) (FS_SNAP s) (DOWNLOAD_FILE s) (FTP_XFER s) (FILE_DL s) (RPC_SEQ s) (s_cfg s) (s_hist s).
Definition set_fs_bad (s : Store FS F) : Store FS F := mkStore (s_fs s) (OPEN_FILE s) true (FTP_RES s) (FTP_LS s) (FS_SNAP s) (DOWNLOAD_FILE s) (FTP_XFER s) (FILE_DL s) (RPC_SEQ s) (s_cfg s) (s_hist s).
Definition set_ftp_res v (s : Store FS F) : Store FS F := mkStore (s_fs s) (OPEN_FILE s) (FS_BAD s) v (FTP_LS s) (FS_SNAP s) (DOWNLOAD_FILE s) (FTP_XFER s) (FILE_DL s) (RPC_SEQ s) (s_cfg s) (s_hist s).
Definition set_ftp_ls v (s : Store FS F) : Store FS F := mkStore (s_fs s) (OPEN_FILE s) (FS_BAD s) (FTP_RES s) v (FS_SNAP s) (DOWNLOAD_FILE s) (FTP_XFER s) (FILE_DL s) (RPC_SEQ s) (s_cfg s) (s_hist s).
Definition set_fs_snap v (s : Store FS F) : Store FS F := mkStore (s_fs s) (OPEN_FILE s) (FS_BAD s) (FTP_RES s) (FTP_LS s) v (DOWNLOAD_FILE s) (FTP_XFER s) (FILE_DL s) (RPC_SEQ s) (s_cfg s) (s_hist s).
Definition set_download_file v (s : Store FS F) : Store FS F := mkStore (s_fs s) (OPEN_FILE s) (FS_BAD s) (FTP_RES s) (FTP_LS s) (FS_SNAP s) v (FTP_XFER s) (FILE_DL s) (RPC_SEQ s) (s_cfg s) (s_hist s).
Definition set_ftp_xfer v (s : Store FS F) : Store FS F := mkStore (s_fs s) (OPEN_FILE s) (FS_BAD s) (FTP_RES s) (FTP_LS s) (FS_SNAP s) (DOWNLOAD_FILE s) v (FILE_DL s) (RPC_SEQ s) (s_cfg s) (s_hist s).
Definition set_file_dl v (s : Store FS F) : Store FS F := mkStore (s_fs s) (OPEN_FILE s) (FS_BAD s) (FTP_RES s) (FTP_LS s) (FS_SNAP s) (DOWNLOAD_FILE s) (FTP_XFER s) v (RPC_SEQ s) (s_cfg s) (s_hist s).
Definition set_rpc_seq v (s : Store FS F) : Store FS F := mkStore (s_fs s) (OPEN_FILE s) (FS_BAD s) (FTP_RES s) (FTP_LS s) (FS_SNAP s) (DOWNLOAD_FILE s) (FTP_XFER s) (FILE_DL s) v (s_cfg s) (s_hist s).
Definition set_cfg v (s : Store FS F) : Store FS F := mkStore (s_fs s) (OPEN_FILE s) (FS_BAD s) (FTP_RES s) (FTP_LS s) (FS_SNAP s) (DOWNLOAD_FILE s) (FTP_XFER s) (FILE_DL s) (RPC_SEQ s) v (s_hist s).
Definition set_hist v (s : Store FS F) : Store FS F := mkStore (s_fs s) (OPEN_FILE s) (FS_BAD s) (FTP_RES s) (FTP_LS s) (FS_SNAP s) (DOWNLOAD_FILE s) (FTP_XFER s) (FILE_DL s) (RPC_SEQ s) (s_cfg s) v.
End Setters.

(** The statics before the task runs. *)
Definition FsSnap_init : FsSnap := mkFsSnap (replicate 16 (replicate 24 0)) 0 0 0x00F10000 0.
Definition FtpXfer_init : FtpXfer := mkFtpXfer None None 0 0 (replicate 2048 0) 0 false false false false 0.
Definition FileDl_init : FileDl := mkFileDl (replicate 24 0) 0 0 (replicate 2048 0) 0 false false false.
Definition ls_empty : list (list Z) * nat := (replicate 16 (replicate 32 0), 0%nat).

Definition HistState_new : HistState := mkHistState (replicate 24 0) 0.

Definition Store_init {FS F} (fs : FS) (c : CfgState F) : Store FS F :=
  mkStore fs None false (false, false, 0) ls_empty FsSnap_init None (replicate 3 FtpXfer_init) FileDl_init 0 c HistState_new.

(** [HistState::set]: up to the first NUL, at most 23 bytes. *)
Definition HistState_set (n : list Z) (h : HistState) : HistState :=
  let l := Nat.min (default (length n) (position (Z.eqb 0) n)) 23 in
  mkHistState (<[l := 0]> (list_inserts 0 (take l n) (h_name h))) l.

(** [sort_unstable_by] on the 20 name bytes, descending; equal keys do not occur
    in a directory of names of at most 20 bytes. *)
Fixpoint insert_desc (e : list Z) (l : list (list Z)) : list (list Z) :=
  match l with
  | [] => [e]
  | x :: l' => if bytes_ltb (take 20 x) (take 20 e) then e :: l else x :: insert_desc e l'
  end.
Definition sort_desc (l : list (list Z)) : list (list Z) := foldr insert_desc [] l.

Definition size_be (v : Z) : list Z :=
  [as_u8 (Z.shiftr v 24); as_u8 (Z.shiftr v 16); as_u8 (Z.shiftr v 8); as_u8 v].

(** A name that starts with [data_] and has more than five of its first [cap] bytes. *)
Definition is_data (cap : nat) (b : list Z) : bool :=
  (5 <? Nat.min (length b) cap)%nat && bytes_eqb (take 5 b) (bs "data_").

(** The fold of [find_latest] over the directory. *)
Definition latest_step (acc : list Z * nat) (b : list Z) : list Z * nat :=
  let '(latest, latest_len) := acc in
  let bl := Nat.min (length b) 23 in
  if is_data 23 b then
    if (latest_len =? 0)%nat || bytes_ltb (take latest_len latest) (take bl b)
    then (list_inserts 0 (take bl b) latest, bl) else acc
  else acc.

(** The bounded vector of names of [cleanup_old_files] (capacity 12). *)
Definition push_name (names : list (list Z)) (b : list Z) : list (list Z) :=
  let l := Nat.min (length b) 23 in
  if is_data 23 b then
    let n := list_inserts 0 (take l b) (replicate 24 0) in
    let n := <[l := 0]> n in
    if (length names <? 12)%nat then names ++ [n] else names
  else names.

Definition min_index (names : list (list Z)) : nat :=
  foldl (fun min_i i => if bytes_ltb (names !!! i) (names !!! min_i) then i else min_i) 0%nat
    (seq 1 (length names - 1)).

(** [names.swap(i, last); names.pop()] *)
Definition swap_remove_last (i : nat) (names : list (list Z)) : list (list Z) :=
  let lst := (length names - 1)%nat in
  take lst (<[i := names !!! lst]> (<[lst := names !!! i]> names)).

Section Task.
Context {FS F : Type} `{!Lfs FS, !Flash F}.
Abbreviation T := (M (Store FS F)).

(** An operation of the file system. *)
Definition fsop {A} (f : FS -> A * FS) : T A := fun s =>
  let '(a, fs) := f (s_fs s) in Some (a, set_fs fs s).

Definition close_or_poison (f : Cell) : T bool :=
  r ← fsop (lfs_close f);
  if is_ok r then mret true else (modify set_fs_bad ;; mret false).

(** [OPEN_FILE.borrow_mut().as_mut().and_then(|h| h.file.take())] *)
Definition take_open_file : T (option Cell) :=
  o ← reads OPEN_FILE;
  match o with
  | Some (Some c) => modify (set_open_file (Some None)) ;; mret (Some c)
  | _ => mret None
  end.

(** Putting the handle back into a holder that exists. *)
Definition put_open_file (f : option Cell) : T unit :=
  o ← reads OPEN_FILE;
  match o with Some _ => modify (set_open_file (Some f)) | None => mret tt end.

(** [HistState::path] *)
Definition hist_path (h : HistState) : option (list Z) :=
  if (name_len h =? 0)%nat then None else path_from (FS := FS) (take (name_len h) (h_name h)).

Definition hist_sync : T unit :=
  file ← take_open_file;
  match file with
  | Some f => fsop (lfs_sync f) ;; put_open_file file
  | None => mret tt
  end.

Definition find_latest : T (option (list Z)) :=
  d ← fsop (lfs_read_dir (bs "/"));
  match d with
  | Err => mret None
  | Ok entries =>
      let '(latest, latest_len) := foldl latest_step (replicate 24 0, 0%nat) (e_name <$> entries) in
      mret (if (latest_len =? 0)%nat then None else Some latest)
  end.

Definition open_append (rec : list Z) (create : bool) : T bool :=
  h ← reads s_hist;
  match hist_path h with
  | None => mret false
  | Some path =>
      room ← (if create then mret true else
                md ← fsop (lfs_metadata path);
                mret (match md with Ok md => negb (HIST_FILE_MAX <=? as_u32 md.2) | Err => false end));
      if negb room then mret false else
      r ← fsop (lfs_open (mkOpen false true create true false) FILE_ALLOC path);
      match r with
      | Err => mret false
      | Ok _ =>
          w ← fsop (lfs_write FILE_ALLOC rec);
          let ok := is_ok w in
          (if ok then fsop (lfs_sync FILE_ALLOC) ;; mret tt else mret tt) ;;
          modify (set_open_file (Some (Some FILE_ALLOC))) ;;
          mret ok
      end
  end.

(** [while names.len() > HIST_MAX_FILES]; every turn pops a name. *)
Fixpoint cleanup_loop (fuel : nat) (names : list (list Z)) : T unit :=
  if (HIST_MAX_FILES <? length names)%nat then
    match fuel with
    | O => panic
    | S fuel =>
        let min_i := min_index names in
        let nm := names !!! min_i in
        let nlen := default 24%nat (position (Z.eqb 0) nm) in
        if (24 <=? nlen)%nat then cleanup_loop fuel names else
        match path_from (FS := FS) (take nlen nm) with
        | Some p => fsop (lfs_remove p) ;; mret tt
        | None => mret tt
        end ;;
        cleanup_loop fuel (swap_remove_last min_i names)
    end
  else mret tt.

Definition cleanup_old_files : T unit :=
  d ← fsop (lfs_read_dir (bs "/"));
  let names := match d with Ok entries => foldl push_name [] (e_name <$> entries) | Err => [] end in
  cleanup_loop (length names) names.

(** The reopen path of [hist_write]: the retained name, then the newest file,
    then a new one. *)
Definition hist_reopen (rec : list Z) (epoch : Z) : T unit :=
  h ← reads s_hist;
  (if (name_len h =? 0)%nat then
     latest ← find_latest;
     match latest with Some l => modify (set_hist (HistState_set l h)) | None => mret tt end
   else mret tt) ;;
  h ← reads s_hist;
  appended ← (if (0 <? name_len h)%nat then open_append rec false else mret false);
  if appended : bool then mret tt else
  modify (set_hist (HistState_set (make_hist_name epoch) h)) ;;
  created ← open_append rec true;
  if created : bool then cleanup_old_files else mret tt.

Definition hist_write (d : HisData) (epoch : Z) : T unit :=
  let rec := take (rec_len d) (HisData_to_bytes d) in
  file ← take_open_file;
  ok ← match file with
       | Some f =>
           len ← fsop (lfs_len f);
           match len with
           | Ok len => if as_u32 len <? HIST_FILE_MAX
                       then w ← fsop (lfs_write f rec); mret (is_ok w) else mret false
           | Err => mret false
           end
       | None => mret false
       end;
  if ok : bool then put_open_file file else
  match file with Some f => close_or_poison f ;; mret tt | None => mret tt end ;;
  hist_reopen rec epoch.

(** ** FTP operations *)

Definition ftp_path_of (path : FtpPath) : option (list Z) :=
  let len := default 0%nat (position (Z.eqb 0) path) in
  if (len =? 0)%nat || (length path <=? len)%nat then None else path_from (FS := FS) (take len path).

Definition ftp_stat (path : FtpPath) : T unit :=
  match ftp_path_of path with
  | Some p =>
      md ← fsop (lfs_metadata p);
      modify (set_ftp_res (match md with Ok md => (true, md.1, as_u32 md.2) | Err => (false, false, 0) end))
  | None => modify (set_ftp_res (false, false, 0))
  end.

(** A row of the listing: 24 name bytes, size, kind. *)
Definition ls_row (name : list Z) (size kind : Z) : list Z :=
  let row := list_inserts 0 (take 23 name) (replicate 32 0) in
  <[28%nat := kind]> (list_inserts 24 (size_be size) row).

Definition ls_step (out : list (list Z) * nat) (e : DirEntry) : list (list Z) * nat :=
  let '(rows, n) := out in
  if (16 <=? n)%nat then out
  else if bytes_eqb (e_name e) (bs ".") || bytes_eqb (e_name e) (bs "..") then out
  else (<[n := ls_row (e_name e) (as_u32 (e_size e)) (if e_dir e then 1 else 2)]> rows, (n + 1)%nat).

(** The part of a path after its last slash. *)
Definition base_name (p : list Z) : list Z :=
  match position (Z.eqb 47) (reverse p) with Some i => drop (length p - i) p | None => p end.

Definition ftp_ls (path : FtpPath) : T unit :=
  match ftp_path_of path with
  | None => modify (set_ftp_ls ls_empty)
  | Some p =>
      md ← fsop (lfs_metadata p);
      match md with
      | Ok (false, len) =>
          modify (set_ftp_ls (<[0%nat := ls_row (base_name p) (as_u32 len) 2]> ls_empty.1, 1%nat))
      | _ =>
          d ← fsop (lfs_read_dir p);
          modify (set_ftp_ls (match d with Ok es => foldl ls_step ls_empty es | Err => ls_empty end))
      end
  end.

Definition get_xfer (slot : nat) : T FtpXfer := s ← reads FTP_XFER; lift (s !! slot).
Definition put_xfer (slot : nat) (x : FtpXfer) : T unit :=
  modify (fun s => set_ftp_xfer (<[slot := x]> (FTP_XFER s)) s).

Definition with_dl (v : option Cell) (x : FtpXfer) : FtpXfer :=
  mkFtpXfer v (wr x) (x_size x) (x_sent x) (x_chunk x) (x_chunk_len x) (x_eof x) (x_err x) (x_werr x) (x_open x) (wpos x).
Definition with_wr (v : option Cell) (x : FtpXfer) : FtpXfer :=
  mkFtpXfer (dl x) v (x_size x) (x_sent x) (x_chunk x) (x_chunk_len x) (x_eof x) (x_err x) (x_werr x) (x_open x) (wpos x).

(** The handles of a slot, taken out. *)
Definition take_dl (slot : nat) : T (option Cell) :=
  x ← get_xfer slot; put_xfer slot (with_dl None x) ;; mret (dl x).
Definition take_wr (slot : nat) : T (option Cell) :=
  x ← get_xfer slot; put_xfer slot (with_wr None x) ;; mret (wr x).

Definition close_opt (f : option Cell) : T unit :=
  match f with Some f => close_or_poison f ;; mret tt | None => mret tt end.

Definition slot_min (slot : Z) : nat := Nat.min (Z.to_nat slot) 2.

Definition slot_close_all (slot : Z) : T unit :=
  let slot := slot_min slot in
  d ← take_dl slot; w ← take_wr slot;
  close_opt d ;; close_opt w ;;
  x ← get_xfer slot;
  put_xfer slot (mkFtpXfer (dl x) (wr x) 0 0 (x_chunk x) 0 false false false false 0).

Definition ftp_open_read (slot : Z) (path : FtpPath) (rest : Z) : T bool :=
  let k := slot_min slot in
  slot_close_all (Z.of_nat k) ;;
  bad ← reads FS_BAD;
  if bad : bool then mret false else
  match ftp_path_of path with
  | None => mret false
  | Some p =>
      r ← fsop (lfs_open (mkOpen true false false false false) (FTP_ALLOC k) p);
      match r with
      | Err => mret false
      | Ok _ =>
          len ← fsop (lfs_len (FTP_ALLOC k));
          let size := as_u32 (match len with Ok n => n | Err => 0 end) in
          sought ← (if 0 <? rest then r ← fsop (lfs_seek_start (FTP_ALLOC k) rest); mret (is_ok r) else mret true);
          if negb sought then close_or_poison (FTP_ALLOC k) ;; mret false else
          let size := if 0 <? rest then Z.max 0 (size - rest) else size in
          x ← get_xfer k;
          put_xfer k (mkFtpXfer (Some (FTP_ALLOC k)) (wr x) size (x_sent x) (x_chunk x) (x_chunk_len x)
            (x_eof x) (x_err x) (x_werr x) true (wpos x)) ;;
          mret true
      end
  end.

Definition ftp_open_write (slot : Z) (path : FtpPath) (mode : FtpWrMode) : T unit :=
  slot_close_all slot ;;
  let k := slot_min slot in
  bad ← reads FS_BAD;
  if bad : bool then modify (set_ftp_res (false, false, 0)) else
  match ftp_path_of path with
  | None => modify (set_ftp_res (false, false, 0))
  | Some p =>
      let opts := match mode with
                  | Append => mkOpen false true true true false
                  | Trunc => mkOpen false true true false true
                  | Rest _ => mkOpen false true true false false
                  end in
      r ← fsop (lfs_open opts (FTP_ALLOC k) p);
      ok ← match r with
           | Err => mret false
           | Ok _ =>
               seek_ok ← match mode with
                         | Append => r ← fsop (lfs_seek_end (FTP_ALLOC k)); mret (is_ok r)
                         | Rest pos => r ← fsop (lfs_seek_start (FTP_ALLOC k) pos); mret (is_ok r)
                         | Trunc => mret true
                         end;
               if seek_ok : bool then
                 x ← get_xfer k; put_xfer k (with_wr (Some (FTP_ALLOC k)) x) ;; mret true
               else close_or_poison (FTP_ALLOC k) ;; mret false
           end;
      modify (set_ftp_res (ok, false, 0))
  end.

Definition ftp_write_chunk (slot : Z) (len : nat) : T unit :=
  let k := slot_min slot in
  let l := Nat.min len 512 in
  x ← get_xfer k;
  let buf := take l (x_chunk x) in
  let file := wr x in
  put_xfer k (mkFtpXfer (dl x) None (x_size x) (x_sent x) (x_chunk x) (x_chunk_len x) (x_eof x) (x_err x)
    (x_werr x) (x_open x) 0) ;;
  ok ← match file with
       | Some f => w ← fsop (lfs_write f buf);
                   mret (match w with Ok n => (n =? l)%nat | Err => false end)
       | None => mret true
       end;
  x ← get_xfer k;
  put_xfer k (mkFtpXfer (dl x) file (x_size x) (x_sent x) (x_chunk x) (x_chunk_len x) (x_eof x) (x_err x)
    (if ok : bool then x_werr x else true) (x_open x) (wpos x)).

Definition ftp_close_write_quiet (slot : nat) : T bool :=
  w ← take_wr slot;
  match w with Some f => close_or_poison f | None => mret true end.

Definition ftp_close_write (slot : Z) : T unit :=
  let k := slot_min slot in
  ok ← ftp_close_write_quiet k;
  x ← get_xfer k;
  modify (set_ftp_res (ok && negb (x_werr x), false, 0)).

Definition ftp_read_chunk (slot : Z) : T unit :=
  let k := slot_min slot in
  x ← get_xfer k;
  if negb (x_open x) then mret tt else
  if x_size x <=? x_sent x then
    d ← take_dl k;
    close_opt d ;;
    x ← get_xfer k;
    put_xfer k (mkFtpXfer (dl x) (wr x) (x_size x) (x_sent x) (x_chunk x) (x_chunk_len x) true (x_err x)
      (x_werr x) (x_open x) (wpos x))
  else
  file ← take_dl k;
  got ← match file with
        | Some f => r ← fsop (lfs_read f 2048); mret (match r with Ok b => b | Err => [] end)
        | None => mret []
        end;
  (match file with Some _ => x ← get_xfer k; put_xfer k (with_dl file x) | None => mret tt end) ;;
  let n := length got in
  if (n =? 0)%nat then
    d ← take_dl k;
    close_opt d ;;
    x ← get_xfer k;
    put_xfer k (mkFtpXfer (dl x) (wr x) (x_size x) (x_sent x) (x_chunk x) (x_chunk_len x) true
      (x_err x || (x_sent x <? x_size x)) (x_werr x) (x_open x) (wpos x))
  else
  x ← get_xfer k;
  let sent := as_u32 (x_sent x + as_u32 (Z.of_nat n)) in
  put_xfer k (mkFtpXfer (dl x) (wr x) (x_size x) sent (list_inserts 0 got (x_chunk x)) n
    (x_eof x || (x_size x <=? sent)) (x_err x) (x_werr x) (x_open x) (wpos x)).

Inductive FtpOp := Remove | Mkdir.

Definition ftp_path_op (path : FtpPath) (op : FtpOp) : T bool :=
  match ftp_path_of path with
  | Some p =>
      r ← fsop (match op with Remove => lfs_remove p | Mkdir => lfs_create_dir p end); mret (is_ok r)
  | None => mret false
  end.

Definition ftp_rename (from to : FtpPath) : T bool :=
  match ftp_path_of from, ftp_path_of to with
  | Some f, Some t => r ← fsop (lfs_rename f t); mret (is_ok r)
  | _, _ => mret false
  end.

(** ** Web operations *)

Definition path_of (name : list Z) : option (list Z) :=
  let len := default 24%nat (position (Z.eqb 0) name) in
  if (len =? 0)%nat || (24 <=? len)%nat then None else path_from (FS := FS) (take len name).

Definition snap_step (acc : list (list Z)) (e : DirEntry) : list (list Z) :=
  if (16 <=? length acc)%nat then acc
  else if is_data 20 (e_name e) then
    let l := Nat.min (length (e_name e)) 20 in
    acc ++ [list_inserts 20 (size_be (as_u32 (e_size e))) (list_inserts 0 (take l (e_name e)) (replicate 24 0))]
  else acc.

Definition fs_snapshot : T unit :=
  d ← fsop (lfs_read_dir (bs "/"));
  let rows := match d with Ok es => foldl snap_step [] es | Err => [] end in
  b ← fsop lfs_available_blocks;
  let free := match b with Ok blocks => as_u32 (as_u32 blocks * 4096) | Err => 0 end in
  modify (fun s => set_fs_snap
    (mkFsSnap (sort_desc rows ++ replicate (16 - length rows) (replicate 24 0)) (length rows) free 0x00F10000
       (as_u32 (gen (FS_SNAP s) + 1))) s).

Definition file_open (name : list Z) : T bool :=
  stale ← reads DOWNLOAD_FILE;
  modify (set_download_file None) ;;
  close_opt stale ;;
  d ← reads FILE_DL;
  modify (set_file_dl (mkFileDl (d_name d) 0 0 (d_chunk d) 0 false false false)) ;;
  bad ← reads FS_BAD;
  if bad : bool then mret false else
  match path_of name with
  | None => mret false
  | Some path =>
      r ← fsop (lfs_open (mkOpen true false false false false) DL_ALLOC path);
      match r with
      | Err => mret false
      | Ok _ =>
          len ← fsop (lfs_len DL_ALLOC);
          let size := as_u32 (match len with Ok n => n | Err => 0 end) in
          d ← reads FILE_DL;
          modify (set_file_dl (mkFileDl name size (d_sent d) (d_chunk d) (d_chunk_len d) true (d_eof d) (d_err d))) ;;
          modify (set_download_file (Some DL_ALLOC)) ;;
          mret true
      end
  end.

Definition take_download : T (option Cell) :=
  f ← reads DOWNLOAD_FILE; modify (set_download_file None) ;; mret f.

Definition file_chunk : T bool :=
  d ← reads FILE_DL;
  if negb (d_open d) then mret true else
  if d_size d <=? d_sent d then
    modify (set_file_dl (mkFileDl (d_name d) (d_size d) (d_sent d) (d_chunk d) (d_chunk_len d) (d_open d) true (d_err d))) ;;
    f ← take_download; close_opt f ;; mret true
  else
  file ← take_download;
  got ← match file with
        | Some f => r ← fsop (lfs_read f 2048); mret (match r with Ok b => b | Err => [] end)
        | None => mret []
        end;
  let n := length got in
  if (n =? 0)%nat then
    close_opt file ;;
    d ← reads FILE_DL;
    modify (set_file_dl (mkFileDl (d_name d) (d_size d) (d_sent d) (d_chunk d) (d_chunk_len d) (d_open d) true true)) ;;
    mret false
  else
  modify (set_download_file file) ;;
  d ← reads FILE_DL;
  let sent := as_u32 (d_sent d + as_u32 (Z.of_nat n)) in
  let eof := d_eof d || (d_size d <=? sent) in
  modify (set_file_dl (mkFileDl (d_name d) (d_size d) sent (list_inserts 0 got (d_chunk d)) n (d_open d) eof (d_err d))) ;;
  (if eof then f ← take_download; close_opt f else mret tt) ;;
  mret true.

(** ** The task *)

Definition bump : T unit := modify (fun s => set_rpc_seq (as_u32 (RPC_SEQ s + 1)) s).
Definition on_cfg (f : CfgState F -> CfgState F) : T unit := modify (fun s => set_cfg (f (s_cfg s)) s).

(** [fw_active] is [fw::active()], [epoch] is [systime::now_epoch()]. *)
Definition handle_cmd (fw_active : bool) (epoch : Z) (cmd : StorageCmd) : T unit :=
  match cmd with
  | Write d =>
      c ← reads s_cfg; bad ← reads FS_BAD;
      let enabled := negb (get_holding (REGS c) (Z.of_nat HOLDING_HISTORY_ENABLE_IDX) =? 0) in
      if enabled && negb fw_active && negb bad then hist_write d epoch else mret tt
  | CloseKeepName => f ← take_open_file; close_opt f
  | Sync => hist_sync ;; bump
  | CfgSave => on_cfg cfg_save
  | CfgEraseAll => on_cfg cfg_erase_all
  | SnapReq => hist_sync ;; fs_snapshot ;; bump
  | Del name =>
      match path_of name with Some p => fsop (lfs_remove p) ;; mret tt | None => mret tt end
  | FileOpen name => hist_sync ;; file_open name ;; bump
  | FileChunk => file_chunk ;; bump
  | FtpStat path => ftp_stat path ;; bump
  | FtpLs path => hist_sync ;; ftp_ls path ;; bump
  | FtpOpenRead slot path rest =>
      hist_sync ;;
      ok ← ftp_open_read slot path rest;
      x ← get_xfer (Z.to_nat slot);
      modify (set_ftp_res (ok, false, x_size x)) ;; bump
  | FtpOpenWrite slot path mode => ftp_open_write slot path mode ;; bump
  | FtpWriteChunk slot len => ftp_write_chunk slot len ;; bump
  | FtpCloseWrite slot => ftp_close_write slot ;; bump
  | FtpReadChunk slot => ftp_read_chunk slot ;; bump
  | FtpRemove path => ok ← ftp_path_op path Remove; modify (set_ftp_res (ok, false, 0)) ;; bump
  | FtpMkdir path => ok ← ftp_path_op path Mkdir; modify (set_ftp_res (ok, false, 0)) ;; bump
  | FtpRename from to => ok ← ftp_rename from to; modify (set_ftp_res (ok, false, 0)) ;; bump
  end.

(** The start of the task: [None] when the file system cannot be mounted, where
    only configuration commands are served, by [offline_cmd]. *)
Definition offline_cmd (cmd : StorageCmd) : T unit :=
  match cmd with
  | CfgSave => on_cfg cfg_save
  | CfgEraseAll => on_cfg cfg_erase_all
  | _ => mret tt
  end.

Definition storage_start : T unit :=
  fs_snapshot ;; modify (set_open_file (Some None)).
(** The loop of the task on the commands it receives; with each, whether a
    firmware upgrade is running and the time. *)
Fixpoint storage_loop (evs : list (bool * Z * StorageCmd)) : T unit :=
  match evs with
  | [] => mret tt
  | (fw, epoch, cmd) :: evs => handle_cmd fw epoch cmd ;; storage_loop evs
  end.
End Task.

(** Rules for the operations of the file system. *)
Section Rules.
Context {FS F : Type}.
Abbreviation St := (Store FS F).

Lemma wp_fsop {A} (f : FS -> A * FS) (s : St) a fs (Q : A -> St -> Prop) :
  f (s_fs s) = (a, fs) -> Q a (set_fs fs s) -> wp (fsop f) s Q.
Proof. intros E H. unfold fsop, wp. by rewrite E. Qed.

Lemma wp_fsop_any {A} (f : FS -> A * FS) (s : St) (Q : A -> St -> Prop) :
  (forall a fs, Q a (set_fs fs s)) -> wp (fsop f) s Q.
Proof. intros H. unfold fsop, wp. destruct (f (s_fs s)). apply H. Qed.
End Rules.
