(* ===== verification/RamFs.v ===== *)
(** * A file system in memory

    An instance of the file-system interface with real contents, on which the
    theorems about the storage task are shown at work: one flat directory, a
    bound on the bytes by which files can still grow, no device errors. *)
From stdpp Require Import gmap.
From S2P Require Import Prelude LfsNor.
#[local] Open Scope Z_scope.

Record RamFs := mkRamFs {
  rf_files : gmap (list Z) (list Z);
  rf_open : list (Cell * (list Z * (bool * nat)));
  rf_room : Z
}.

(** A leading slash names the same file. *)
Definition rf_key (p : list Z) : list Z := if bool_decide (take 1 p = bs "/") then drop 1 p else p.

Definition rf_handle (c : Cell) (l : list (Cell * (list Z * (bool * nat)))) : option (list Z * (bool * nat)) :=
  snd <$> head (filter (fun e => e.1 = c) l).

Definition rf_data (p : list Z) (f : RamFs) : list Z := default [] (rf_files f !! rf_key p).

Definition rf_set_pos (c : Cell) (pos : nat) (f : RamFs) : RamFs :=
  match rf_handle c (rf_open f) with
  | Some (p, (app, _)) => mkRamFs (rf_files f) ((c, (p, (app, pos))) :: filter (fun e => e.1 <> c) (rf_open f)) (rf_room f)
  | None => f
  end.

Definition rf_write (c : Cell) (l : list Z) (f : RamFs) : result nat * RamFs :=
  match rf_handle c (rf_open f) with
  | None => (Err, f)
  | Some (p, (app, pos)) =>
      let data := rf_data p f in
      let pos := if app : bool then length data else pos in
      let grown := take pos data ++ replicate (pos - length data) 0 ++ l ++ drop (pos + length l) data in
      let more := Z.of_nat (length grown) - Z.of_nat (length data) in
      if (LFS_FILE_MAX <? Z.of_nat (pos + length l)) || (rf_room f <? more) then (Err, f) else
      (Ok (length l), rf_set_pos c (pos + length l)
         (mkRamFs (<[rf_key p := grown]> (rf_files f)) (rf_open f) (rf_room f - more)))
  end.

Definition rf_opened (o : OpenOptions) (c : Cell) (p : list Z) (f : RamFs) : result unit * RamFs :=
  let there := bool_decide (is_Some (rf_files f !! rf_key p)) in
  if negb there && negb (o_create o) then (Err, f) else
  let '(data, freed) := if o_truncate o then ([], Z.of_nat (length (rf_data p f))) else (rf_data p f, 0) in
  (Ok tt, mkRamFs (<[rf_key p := data]> (rf_files f)) ((c, (p, (o_append o, 0%nat))) :: rf_open f) (rf_room f + freed)).

Definition rf_with {A} (c : Cell) (k : list Z -> nat -> A * option nat) (f : RamFs) : result A * RamFs :=
  match rf_handle c (rf_open f) with
  | None => (Err, f)
  | Some (p, (_, pos)) =>
      let '(a, pos') := k (rf_data p f) pos in
      (Ok a, match pos' with Some q => rf_set_pos c q f | None => f end)
  end.

(** The listing of the one directory. *)
Definition rf_entry (e : list Z * list Z) : DirEntry := mkDirEntry e.1 false (Z.of_nat (length e.2)).
Definition rf_entries (f : RamFs) : list DirEntry :=
  rf_entry <$> filter (fun e => rf_key e.1 = e.1) (map_to_list (rf_files f)).

#[export] Instance RamLfs : Lfs RamFs := {|
  path_ok p := negb (bool_decide (p = [])) && forallb (fun b => (0 <? b) && (b <? 128)) p;
  lfs_metadata p f :=
    (if bool_decide (p = bs "/") then Ok (true, 0) else
     match rf_files f !! rf_key p with Some d => Ok (false, Z.of_nat (length d)) | None => Err end, f);
  lfs_read_dir p f := (if bool_decide (p = bs "/") then Ok (rf_entries f) else Err, f);
  lfs_remove p f :=
    (if bool_decide (is_Some (rf_files f !! rf_key p)) then Ok tt else Err,
     mkRamFs (delete (rf_key p) (rf_files f)) (rf_open f) (rf_room f));
  lfs_create_dir _ f := (Err, f);
  lfs_rename p q f :=
    match rf_files f !! rf_key p with
    | Some d => (Ok tt, mkRamFs (<[rf_key q := d]> (delete (rf_key p) (rf_files f))) (rf_open f) (rf_room f))
    | None => (Err, f)
    end;
  lfs_available_blocks f := (Ok (rf_room f / 4096), f);
  lfs_open := rf_opened;
  lfs_len c := rf_with c (fun d _ => (Z.of_nat (length d), None));
  lfs_read c n := rf_with c (fun d pos => (take n (drop pos d), Some (pos + length (take n (drop pos d)))%nat));
  lfs_write := rf_write;
  lfs_seek_start c pos f := if LFS_FILE_MAX <? pos then (Err, f) else rf_with c (fun _ _ => (pos, Some (Z.to_nat pos))) f;
  lfs_seek_end c := rf_with c (fun d _ => (Z.of_nat (length d), Some (length d)));
  lfs_sync c := rf_with c (fun _ _ => (tt, None));
  lfs_close c f :=
    match rf_handle c (rf_open f) with
    | Some _ => (Ok tt, mkRamFs (rf_files f) (filter (fun e => e.1 <> c) (rf_open f)) (rf_room f))
    | None => (Err, f)
    end
|}.

Definition ram_empty (room : Z) : RamFs := mkRamFs ∅ [] room.
