(* ===== verification/HistNames.v ===== *)
(** * The names of the history files (crates/firmware/src/storage.rs)

    The bounded list of names that the retention of the history works on: its
    entries are terminated, its smallest entry is found, a removal keeps the
    others. *)
From S2P Require Import Prelude Storage.

(** Names of the retention list are NUL-terminated within 24 bytes. *)
Definition name_ok (n : list Z) : Prop := exists i, position (Z.eqb 0) n = Some i /\ (i < 24)%nat.

Lemma position_lt {A} (p : A -> bool) l i x :
  l !! i = Some x -> p x = true -> exists j, position p l = Some j /\ (j <= i)%nat.
Proof.
  revert i. induction l as [|y l IH]; intros [|i] Hx Hp; simpl in *; try done.
  - injection Hx as ->. rewrite Hp. by exists 0%nat.
  - destruct (p y); [exists 0%nat; split; [done|lia]|].
    destruct (IH i Hx Hp) as (j & -> & Hj). exists (S j). split; [done|lia].
Qed.

Lemma push_name_ok b names : Forall name_ok names -> Forall name_ok (push_name names b).
Proof.
  intros H. unfold push_name. destruct (is_data 23 b); [|done]. destruct (_ <? _)%nat; [|done].
  apply Forall_app. split; [done|]. apply Forall_singleton. unfold name_ok.
  set (l := Nat.min (length b) 23). assert (Hl : (l <= 23)%nat) by (unfold l; lia).
  destruct (position_lt (Z.eqb 0) (<[l := 0]> (list_inserts 0 (take l b) (replicate 24 0))) l 0) as (j & Hj & Hle); [|done|].
  - apply list_lookup_insert_eq. rewrite length_inserts, length_replicate. clearbody l. lia.
  - exists j. split; [done|lia].
Qed.

Lemma push_names_ok bs names : Forall name_ok names -> Forall name_ok (foldl push_name names bs).
Proof. revert names. induction bs as [|b bs IH]; intros names H; [done|]. by apply IH, push_name_ok. Qed.

Lemma min_index_lt names : (0 < length names)%nat -> (min_index names < length names)%nat.
Proof.
  intros H. unfold min_index.
  assert (Hgo : forall l m, (m < length names)%nat -> Forall (fun i => (i < length names)%nat) l ->
    (foldl (fun min_i i => if bytes_ltb (names !!! i) (names !!! min_i) then i else min_i) m l < length names)%nat).
  { induction l as [|i l IH]; intros m Hm Hl; [done|]. apply Forall_cons_1 in Hl as [Hi Hl]. simpl. apply IH; [|done].
    by destruct (bytes_ltb _ _). }
  apply Hgo; [done|]. apply Forall_forall. intros i Hi. apply in_seq in Hi. lia.
Qed.

(** The other names stay, in some order. *)
Lemma swap_remove_perm i names : (i < length names)%nat ->
  names ≡ₚ (names !!! i) :: swap_remove_last i names.
Proof.
  intros Hi. unfold swap_remove_last. set (lst := (length names - 1)%nat).
  destruct (lookup_lt_is_Some_2 names i Hi) as [x Hx]. rewrite (list_lookup_total_correct _ _ _ Hx).
  destruct (lookup_lt_is_Some_2 names lst) as [y Hy]; [unfold lst; lia|]. rewrite (list_lookup_total_correct _ _ _ Hy).
  assert (Hsplit : names = take lst names ++ [y]).
  { rewrite <- (take_drop lst names) at 1. f_equal. rewrite (drop_S names y lst Hy). f_equal.
    apply drop_ge. unfold lst. lia. }
  destruct (decide (i = lst)) as [->|Hn].
  - rewrite Hx in Hy. injection Hy as ->. rewrite !list_insert_id by (rewrite ?list_insert_id; done).
    rewrite Hsplit at 1. by rewrite Permutation_app_comm.
  - assert (Hil : (i < lst)%nat) by (unfold lst in *; lia).
    rewrite take_insert_lt by lia. rewrite take_insert_ge by lia.
    assert (Hx' : take lst names !! i = Some x) by (by rewrite lookup_take_lt).
    rewrite Hsplit at 1. rewrite (insert_take_drop (take lst names) i y) by (rewrite length_take; unfold lst; lia).
    rewrite <- (take_drop_middle (take lst names) i x Hx') at 1. rewrite <- !app_assoc. cbn.
    rewrite <- !Permutation_middle. by rewrite app_nil_r.
Qed.

Lemma swap_remove_ok i names : (i < length names)%nat -> Forall name_ok names ->
  Forall name_ok (swap_remove_last i names) /\ S (length (swap_remove_last i names)) = length names.
Proof.
  intros Hi H. pose proof (swap_remove_perm i names Hi) as Hp. split.
  - rewrite Hp in H. by apply Forall_cons_1 in H as [_ H].
  - apply Permutation_length in Hp. by rewrite Hp.
Qed.


Lemma bytes_ltb_trans a b c : bytes_ltb a b = true -> bytes_ltb b c = true -> bytes_ltb a c = true.
Proof.
  revert b c. induction a as [|x a IH]; intros [|y b] [|z c]; try done. cbn [bytes_ltb].
  rewrite !orb_true_iff, !andb_true_iff, !Z.ltb_lt, !Z.eqb_eq. intros [H1|[-> H1]] [H2|[-> H2]]; [left; lia|left; lia|left; lia|right].
  split; [done|]. by apply (IH b).
Qed.

Lemma bytes_ltb_irrefl a : bytes_ltb a a = false.
Proof. induction a as [|x a IH]; [done|]. cbn. by rewrite Z.ltb_irrefl, IH, andb_false_r. Qed.

(** Nothing in the list is smaller than the entry that is chosen. *)
Lemma min_index_min names j : (j < length names)%nat -> bytes_ltb (names !!! j) (names !!! min_index names) = false.
Proof.
  intros Hj. unfold min_index.
  assert (Hgo : forall n m k, (forall i, (i < k)%nat -> bytes_ltb (names !!! i) (names !!! m) = false) ->
    forall i, (i < k + n)%nat -> bytes_ltb (names !!! i)
      (names !!! foldl (fun min_i i => if bytes_ltb (names !!! i) (names !!! min_i) then i else min_i) m (seq k n)) = false).
  { induction n as [|n IH]; intros m k Hm i Hi; [apply Hm; lia|]. cbn [seq foldl]. apply (IH _ (S k)); [|lia].
    intros i' Hi'. destruct (bytes_ltb (names !!! k) (names !!! m)) eqn:E.
    - destruct (decide (i' = k)) as [->|Hn].
      + apply not_true_is_false. intros H. pose proof (bytes_ltb_irrefl (names !!! k)). congruence.
      + apply not_true_is_false. intros H. pose proof (bytes_ltb_trans _ _ _ H E) as H'.
        rewrite Hm in H' by lia. done.
    - destruct (decide (i' = k)) as [->|Hn]; [done|]. apply Hm. lia. }
  destruct names as [|n names]; [cbn in Hj; lia|]. cbn [length] in *. apply (Hgo _ 0%nat 1%nat); [|lia].
  intros i Hi. replace i with 0%nat by lia. apply bytes_ltb_irrefl.
Qed.
