(* ===== verification/StorageSafe.v ===== *)
(** * Handles and allocation cells of the storage task

    littlefs links an open file into its list through the cell it was opened in:
    opening a cell that is still linked corrupts the list, and using a handle
    after its close is a use of freed memory.  [Tracked] wraps any file system,
    records which cells are linked and notes a misuse; the theorem is that the
    handlers of [Storage] never misuse a cell, but for a turn of the history writer in
    which a write or a close of the history file fails. *)
From S2P Require Import Prelude TimeMath RegMap ConfigStore StorageCfg History Channels LfsNor StMonad Storage RamFs HistNames.

(** [hfails]: how many writes and closes of the history file have failed. *)
Record Tracked (FS : Type) := mkTracked { inner : FS; linked : list Cell; misuse : bool; hfails : nat }.
Arguments mkTracked {FS} _ _ _ _.
Arguments inner {FS} _.
Arguments linked {FS} _.
Arguments misuse {FS} _.
Arguments hfails {FS} _.

(** One more when an operation on the cell of the history file fails. *)
Definition failed (c : Cell) (n : nat) : nat := if decide (c = FILE_ALLOC) then S n else n.

Section Track.
Context {FS : Type} `{!Lfs FS}.

Definition on_inner {A} (f : FS -> A * FS) (t : Tracked FS) : A * Tracked FS :=
  let '(a, fs) := f (inner t) in (a, mkTracked fs (linked t) (misuse t) (hfails t)).

Definition on_handle {A} (c : Cell) (f : FS -> A * FS) (t : Tracked FS) : A * Tracked FS :=
  let '(a, fs) := f (inner t) in
  (a, mkTracked fs (linked t) (misuse t || negb (bool_decide (c ∈ linked t))) (hfails t)).

#[export] Instance TrackedLfs : Lfs (Tracked FS) := {|
  path_ok := path_ok (FS := FS);
  lfs_metadata p := on_inner (lfs_metadata p);
  lfs_read_dir p := on_inner (lfs_read_dir p);
  lfs_remove p := on_inner (lfs_remove p);
  lfs_create_dir p := on_inner (lfs_create_dir p);
  lfs_rename p q := on_inner (lfs_rename p q);
  lfs_available_blocks := on_inner lfs_available_blocks;
  lfs_open o c p t :=
    let '(r, fs) := lfs_open o c p (inner t) in
    (r, mkTracked fs (if is_ok r then c :: linked t else linked t)
          (misuse t || bool_decide (c ∈ linked t)) (hfails t));
  lfs_len c := on_handle c (lfs_len c);
  lfs_read c n := on_handle c (lfs_read c n);
  lfs_write c l t :=
    let '(r, t) := on_handle c (lfs_write c l) t in
    (r, if is_ok r then t else mkTracked (inner t) (linked t) (misuse t) (failed c (hfails t)));
  lfs_seek_start c p := on_handle c (lfs_seek_start c p);
  lfs_seek_end c := on_handle c (lfs_seek_end c);
  lfs_sync c := on_handle c (lfs_sync c);
  lfs_close c t :=
    let '(r, t) := on_handle c (lfs_close c) t in
    (r, if is_ok r then mkTracked (inner t) (filter (fun x => x <> c) (linked t)) (misuse t) (hfails t)
        else mkTracked (inner t) (linked t) (misuse t) (failed c (hfails t)))
|}.
End Track.

(** ** What the invariant looks at *)

Record View := mkView {
  v_open : option (option Cell); v_bad : bool; v_dlf : option Cell;
  v_hands : list (option Cell * option Cell); v_linked : list Cell; v_mis : bool; v_fails : nat
}.

Definition hands (x : FtpXfer) : option Cell * option Cell := (dl x, wr x).

Definition view {FS F} (s : Store (Tracked FS) F) : View :=
  mkView (OPEN_FILE s) (FS_BAD s) (DOWNLOAD_FILE s) (hands <$> FTP_XFER s) (linked (s_fs s)) (misuse (s_fs s)) (hfails (s_fs s)).

Definition held (v : View) (c : Cell) : Prop :=
  match c with
  | FILE_ALLOC => v_open v = Some (Some FILE_ALLOC)
  | DL_ALLOC => v_dlf v = Some DL_ALLOC
  | FTP_ALLOC k => exists a b, v_hands v !! k = Some (a, b) /\ (a = Some c \/ b = Some c)
  end.

(** [T] is a handle that has been taken out of its holder. *)
Record vinv (T : option Cell) (v : View) : Prop := {
  i_mis : v_mis v = false;
  i_linked c : held v c \/ T = Some c -> c ∈ v_linked v;
  i_held c : v_bad v = false -> c ∈ v_linked v -> held v c \/ T = Some c;
  i_open c : v_open v = Some (Some c) -> c = FILE_ALLOC;
  i_dlf c : v_dlf v = Some c -> c = DL_ALLOC;
  i_hands k a b : v_hands v !! k = Some (a, b) ->
    (a = None \/ a = Some (FTP_ALLOC k)) /\ (b = None \/ b = Some (FTP_ALLOC k)) /\ (a = None \/ b = None);
  i_len : length (v_hands v) = 3%nat;
  i_taken c : T = Some c -> ~ held v c
}.

Definition with_vopen o v := mkView o (v_bad v) (v_dlf v) (v_hands v) (v_linked v) (v_mis v) (v_fails v).
Definition with_vdlf o v := mkView (v_open v) (v_bad v) o (v_hands v) (v_linked v) (v_mis v) (v_fails v).
Definition with_vhands h v := mkView (v_open v) (v_bad v) (v_dlf v) h (v_linked v) (v_mis v) (v_fails v).
Definition with_vlinked l v := mkView (v_open v) (v_bad v) (v_dlf v) (v_hands v) l (v_mis v) (v_fails v).
(** A write or a close of cell [c] has failed. *)
Definition with_vfail c v := mkView (v_open v) (v_bad v) (v_dlf v) (v_hands v) (v_linked v) (v_mis v) (failed c (v_fails v)).
Definition with_vbad c v := mkView (v_open v) true (v_dlf v) (v_hands v) (v_linked v) (v_mis v) (failed c (v_fails v)).

(** ** Steps of the invariant *)

Lemma vinv_take_open v o :
  vinv None v -> v_open v = Some (Some o) -> vinv (Some FILE_ALLOC) (with_vopen (Some None) v) /\ o = FILE_ALLOC.
Proof.
  intros [] Ho. pose proof (i_open0 o Ho) as ->. split; [|done]. split; cbn in *; auto; try done.
  - intros c [H|[= <-]]; [destruct c; [done| |]; apply i_linked0; by left|apply i_linked0; by left].
  - intros c Hb Hc. destruct (i_held0 c Hb Hc) as [H|H]; [|done]. destruct c; [by right|by left|by left].
  - by intros c [= <-].
Qed.

Lemma vinv_put_open v o :
  vinv (Some FILE_ALLOC) v -> v_open v = Some o -> vinv None (with_vopen (Some (Some FILE_ALLOC)) v).
Proof.
  intros [] Ho. split; cbn in *; auto; try done.
  - intros c [H|H]; [|done]. destruct c; [apply i_linked0; by right| |]; apply i_linked0; by left.
  - intros c Hb Hc. left. destruct (i_held0 c Hb Hc) as [H|[= <-]]; [|done]. by destruct c.
  - by intros c [= <-].
Qed.


Lemma vinv_take_dlf v o :
  vinv None v -> v_dlf v = Some o -> vinv (Some DL_ALLOC) (with_vdlf None v) /\ o = DL_ALLOC.
Proof.
  intros [] Ho. pose proof (i_dlf0 o Ho) as ->. split; [|done]. split; cbn in *; auto; try done.
  - intros c [H|[= <-]]; [destruct c; [|done|]; apply i_linked0; by left|apply i_linked0; by left].
  - intros c Hb Hc. destruct (i_held0 c Hb Hc) as [H|H]; [|done]. destruct c; [by left|by right|by left].
  - by intros c [= <-].
Qed.

Lemma vinv_no_dlf v : vinv None v -> v_dlf v = None -> with_vdlf None v = v.
Proof. destruct v. cbn. by intros _ ->. Qed.

Lemma vinv_put_dlf v : vinv (Some DL_ALLOC) v -> vinv None (with_vdlf (Some DL_ALLOC) v).
Proof.
  intros []. split; cbn in *; auto; try done.
  - intros c [H|H]; [|done]. destruct c; [| apply i_linked0; by right|]; apply i_linked0; by left.
  - intros c Hb Hc. left. destruct (i_held0 c Hb Hc) as [H|[= <-]]; [|done]. by destruct c.
  - by intros c [= <-].
Qed.

(** Changing the handles of one slot. *)
Lemma lookup_hands (h : list (option Cell * option Cell)) k p j a b :
  (k < length h)%nat -> <[k := p]> h !! j = Some (a, b) -> (j = k /\ p = (a, b)) \/ (j <> k /\ h !! j = Some (a, b)).
Proof.
  intros Hk. destruct (decide (j = k)) as [->|Hn].
  - rewrite list_lookup_insert_eq by done. intros [= ->]. by left.
  - rewrite list_lookup_insert_ne by done. by right.
Qed.

Lemma held_other v k p c :
  (k < length (v_hands v))%nat -> c <> FTP_ALLOC k -> held (with_vhands (<[k := p]> (v_hands v)) v) c <-> held v c.
Proof.
  intros Hk Hc. destruct c as [| |j]; [done|done|]. cbn.
  assert (j <> k) by congruence. by rewrite list_lookup_insert_ne by done.
Qed.

Lemma held_slot v k a b :
  (k < length (v_hands v))%nat ->
  held (with_vhands (<[k := (a, b)]> (v_hands v)) v) (FTP_ALLOC k) <-> (a = Some (FTP_ALLOC k) \/ b = Some (FTP_ALLOC k)).
Proof.
  intros Hk. cbn. rewrite list_lookup_insert_eq by done. split.
  - by intros (a' & b' & [= -> ->] & H).
  - intros H. by exists a, b.
Qed.

(** The handles of slot [k] become [(a, b)]; what was there is taken, what is put
    there was taken. *)
Lemma vinv_set_hands v T T' k a0 b0 a b :
  vinv T v -> v_hands v !! k = Some (a0, b0) ->
  (a = None \/ a = Some (FTP_ALLOC k)) -> (b = None \/ b = Some (FTP_ALLOC k)) -> (a = None \/ b = None) ->
  (T = None \/ T = Some (FTP_ALLOC k)) -> (T' = None \/ T' = Some (FTP_ALLOC k)) ->
  ((a0 = Some (FTP_ALLOC k) \/ b0 = Some (FTP_ALLOC k) \/ T = Some (FTP_ALLOC k)) <->
   (a = Some (FTP_ALLOC k) \/ b = Some (FTP_ALLOC k) \/ T' = Some (FTP_ALLOC k))) ->
  (T' = Some (FTP_ALLOC k) -> a = None /\ b = None) ->
  vinv T' (with_vhands (<[k := (a, b)]> (v_hands v)) v).
Proof.
  intros Hv Hk Ha Hb Hab HT HT' Hiff Hex. destruct Hv.
  assert (Hlt : (k < length (v_hands v))%nat) by (by eapply lookup_lt_Some).
  assert (Hold : held v (FTP_ALLOC k) <-> (a0 = Some (FTP_ALLOC k) \/ b0 = Some (FTP_ALLOC k))).
  { cbn. rewrite Hk. split; [by intros (a' & b' & [= -> ->] & H)|]. intros H. by exists a0, b0. }
  assert (HO : forall c, c <> FTP_ALLOC k -> (held (with_vhands (<[k := (a, b)]> (v_hands v)) v) c \/ T' = Some c) <->
    (held v c \/ T = Some c)).
  { intros c Hc. rewrite held_other by done. assert (T <> Some c) by (destruct HT as [-> | ->]; congruence).
    assert (T' <> Some c) by (destruct HT' as [-> | ->]; congruence). clear - H H0. tauto. }
  assert (HK : (held (with_vhands (<[k := (a, b)]> (v_hands v)) v) (FTP_ALLOC k) \/ T' = Some (FTP_ALLOC k)) <->
    (held v (FTP_ALLOC k) \/ T = Some (FTP_ALLOC k))).
  { rewrite held_slot, Hold by done. clear - Hiff. tauto. }
  split; cbn [with_vhands v_mis v_linked v_bad v_open v_dlf v_hands]; auto.
  - intros c Hc. apply i_linked0. destruct (decide (c = FTP_ALLOC k)) as [->|Hn]; [by apply HK|by apply HO].
  - intros c Hbad Hc. pose proof (i_held0 c Hbad Hc) as H.
    destruct (decide (c = FTP_ALLOC k)) as [->|Hn]; [by apply HK|by apply HO].
  - intros j a' b' H. apply lookup_hands in H as [[-> [= <- <-]]|[Hn H]]; [done|by apply i_hands0 in H|done].
  - by rewrite length_insert.
  - intros c Hc. destruct HT' as [->|HT']; [done|]. rewrite HT' in Hc. injection Hc as <-.
    rewrite held_slot by done. destruct (Hex HT') as [-> ->]. by intros [?|?].
Qed.

(** Closing the handle that was taken. *)
Lemma vinv_closed v c :
  vinv (Some c) v -> vinv None (with_vlinked (filter (fun x => x <> c) (v_linked v)) v).
Proof.
  intros []. split; cbn in *; auto; try done.
  - intros c' [H|H]; [|done]. apply list_elem_of_filter. split; [|apply i_linked0; by left].
    intros ->. exact (i_taken0 c eq_refl H).
  - intros c' Hb Hc. apply list_elem_of_filter in Hc as [Hn Hc]. left.
    destruct (i_held0 c' Hb Hc) as [H|[= ->]]; [done|done].
Qed.


Lemma with_vfail_slot k v : with_vfail (FTP_ALLOC k) v = v.
Proof. by destruct v. Qed.

Lemma vinv_poisoned v T k : vinv T v -> vinv None (with_vbad k v).
Proof. intros []. split; cbn in *; auto; try done. intros c [H|H]; [|done]. apply i_linked0. by left. Qed.

(** Opening a cell that nothing holds. *)
Lemma vinv_opened v c :
  vinv None v -> v_bad v = false -> ~ held v c ->
  c ∉ v_linked v /\ vinv (Some c) (with_vlinked (c :: v_linked v) v).
Proof.
  intros Hv Hbad Hh. assert (Hnl : c ∉ v_linked v).
  { intros Hc. destruct (i_held _ _ Hv c Hbad Hc); [by apply Hh|done]. }
  split; [done|]. destruct Hv. split; cbn in *; auto; try done.
  - intros c' [H|[= <-]]; [right; apply i_linked0; by left|by left].
  - intros c' Hb Hc. apply elem_of_cons in Hc as [->|Hc]; [by right|]. left.
    destruct (i_held0 c' Hb Hc); [done|done].
  - by intros c' [= <-].
Qed.


Create HintDb safe.

(** ** The computations on the view *)
Section Safe.
Context {FS F : Type} `{!Lfs FS, !Flash F}.
Abbreviation St := (Store (Tracked FS) F).

Lemma wp_inner {A} (g : FS -> A * FS) (s : St) (Q : A -> St -> Prop) :
  (forall r s', view s' = view s -> Q r s') -> wp (fsop (on_inner g)) s Q.
Proof.
  intros H. unfold fsop, wp, on_inner. destruct (g (inner (s_fs s))) as [a fs]. apply H. done.
Qed.

Lemma wp_handle {A} c (g : FS -> A * FS) (s : St) (Q : A -> St -> Prop) :
  c ∈ v_linked (view s) -> (forall r s', view s' = view s -> Q r s') -> wp (fsop (on_handle c g)) s Q.
Proof.
  intros Hc H. unfold fsop, wp, on_handle. destruct (g (inner (s_fs s))) as [a fs]. apply H.
  unfold view. cbn. rewrite bool_decide_true by exact Hc. by rewrite orb_false_r.
Qed.

Lemma wp_write c l (s : St) (Q : result nat -> St -> Prop) :
  c ∈ v_linked (view s) ->
  (forall r s', view s' = (if is_ok r then view s else with_vfail c (view s)) -> Q r s') ->
  wp (fsop (lfs_write c l)) s Q.
Proof.
  intros Hc H. unfold fsop, wp. cbn [lfs_write TrackedLfs]. unfold on_handle.
  destruct (lfs_write c l (inner (s_fs s))) as [a fs]. apply H.
  unfold view. destruct (is_ok a); cbn; rewrite bool_decide_true by exact Hc; by rewrite orb_false_r.
Qed.

Lemma wp_open o c p (s : St) (Q : result unit -> St -> Prop) :
  c ∉ v_linked (view s) ->
  (forall r s', view s' = (if is_ok r then with_vlinked (c :: v_linked (view s)) (view s) else view s) -> Q r s') ->
  wp (fsop (lfs_open o c p)) s Q.
Proof.
  intros Hc H. unfold fsop, wp. cbn [lfs_open TrackedLfs].
  destruct (lfs_open o c p (inner (s_fs s))) as [a fs]. apply H.
  unfold view. cbn. rewrite bool_decide_false by exact Hc. rewrite orb_false_r. by destruct (is_ok a).
Qed.

(** The views a close can leave. *)
Definition closed (c : Cell) (v v' : View) : Prop :=
  v' = with_vlinked (filter (fun x => x <> c) (v_linked v)) v \/ v' = with_vbad c v.

Lemma wp_close c (s : St) (Q : bool -> St -> Prop) :
  c ∈ v_linked (view s) -> (forall r s', closed c (view s) (view s') -> Q r s') ->
  wp (close_or_poison c) s Q.
Proof.
  intros Hc H. unfold close_or_poison. wp_step. unfold fsop, wp at 1. cbn [lfs_close TrackedLfs]. unfold on_handle.
  destruct (lfs_close c (inner (s_fs s))) as [a fs].
  assert (Hm : misuse (s_fs s) || negb (bool_decide (c ∈ linked (s_fs s))) = misuse (s_fs s)).
  { rewrite bool_decide_true by exact Hc. by rewrite orb_false_r. }
  destruct (is_ok a) eqn:E.
  - wp_step. apply H. left. unfold view. cbn. by rewrite Hm.
  - wp_step. wp_step. wp_step. apply H. right. unfold view. cbn. by rewrite Hm.
Qed.

(** What a close keeps. *)
Definition same_handles (v v' : View) : Prop :=
  v_open v' = v_open v /\ v_dlf v' = v_dlf v /\ v_hands v' = v_hands v.

Lemma closed_inv c v v' : vinv (Some c) v -> closed c v v' -> vinv None v' /\ same_handles v v'.
Proof.
  intros Hv [->| ->]; (split; [|done]); [by apply vinv_closed|by apply (vinv_poisoned v (Some c) c)].
Qed.

Lemma closed_bad c v v' : closed c v v' -> v_bad v' = false -> v_bad v = false.
Proof. intros [->| ->]; done. Qed.

Lemma wp_close_opt (T : option Cell) (s : St) (Q : unit -> St -> Prop) :
  vinv T (view s) ->
  (forall s', vinv None (view s') -> same_handles (view s) (view s') ->
    (T = None -> view s' = view s) -> Q tt s') ->
  wp (close_opt T) s Q.
Proof.
  intros Hv H. destruct T as [c|]; cbn [close_opt].
  - wp_step. apply wp_close; [by apply (i_linked _ _ Hv); right|]. intros r s' Hc. wp_step.
    destruct (closed_inv c _ _ Hv Hc). by apply H.
  - wp_step. by apply H.
Qed.

Lemma wp_take_open (s : St) (Q : option Cell -> St -> Prop) :
  vinv None (view s) ->
  (forall s', vinv (Some FILE_ALLOC) (view s') -> v_open (view s') = Some None -> v_bad (view s') = v_bad (view s) ->
     v_fails (view s') = v_fails (view s) -> Q (Some FILE_ALLOC) s') ->
  (~ held (view s) FILE_ALLOC -> Q None s) ->
  wp take_open_file s Q.
Proof.
  intros Hv H1 H2. unfold take_open_file. wp_step. wp_step. destruct (OPEN_FILE s) as [[c|]|] eqn:E.
  - destruct (vinv_take_open (view s) c Hv E) as [Hv' ->]. wp_step. wp_step. wp_step. by apply H1.
  - wp_step. apply H2. cbn. by rewrite E.
  - wp_step. apply H2. cbn. by rewrite E.
Qed.

Lemma wp_put_open (s : St) (Q : unit -> St -> Prop) :
  vinv (Some FILE_ALLOC) (view s) -> v_open (view s) = Some None ->
  (forall s', vinv None (view s') -> Q tt s') -> wp (put_open_file (Some FILE_ALLOC)) s Q.
Proof.
  intros Hv Ho H. unfold put_open_file. wp_step. wp_step. cbn in Ho. rewrite Ho. wp_step. apply H.
  exact (vinv_put_open (view s) None Hv Ho).
Qed.

Lemma wp_hist_sync (s : St) (Q : unit -> St -> Prop) :
  vinv None (view s) -> (forall s', vinv None (view s') -> Q tt s') -> wp hist_sync s Q.
Proof.
  intros Hv H. unfold hist_sync. wp_step. apply wp_take_open; [done| |].
  - intros s1 Hv1 Ho _ _. wp_step. apply wp_handle; [by apply (i_linked _ _ Hv1); right|].
    intros r s2 E. apply wp_put_open; by rewrite ?E.
  - intros _. wp_step. by apply H.
Qed.

(** ** Slots *)

Lemma view_hands (s : St) k x :
  FTP_XFER s !! k = Some x -> v_hands (view s) !! k = Some (dl x, wr x).
Proof. intros H. cbn. by rewrite list_lookup_fmap, H. Qed.

Lemma view_put (s : St) k x :
  view (set_ftp_xfer (<[k := x]> (FTP_XFER s)) s) = with_vhands (<[k := hands x]> (v_hands (view s))) (view s).
Proof. unfold view. cbn. by rewrite list_fmap_insert. Qed.

Lemma wp_get_xfer k T (s : St) (Q : FtpXfer -> St -> Prop) :
  vinv T (view s) -> (k < 3)%nat -> (forall x, FTP_XFER s !! k = Some x -> Q x s) -> wp (get_xfer k) s Q.
Proof.
  intros Hv Hk H. unfold get_xfer. wp_step. wp_step.
  pose proof (i_len _ _ Hv) as Hl. cbn in Hl. rewrite length_fmap in Hl.
  destruct (lookup_lt_is_Some_2 (FTP_XFER s) k) as [x Hx]; [lia|].
  apply (wp_lift _ x); [done|by apply H].
Qed.

(** Storing a slot with the same handles. *)
Lemma wp_put_same k T x0 x (s : St) (Q : unit -> St -> Prop) :
  vinv T (view s) -> FTP_XFER s !! k = Some x0 -> hands x = hands x0 ->
  (forall s', view s' = view s -> FTP_XFER s' !! k = Some x -> Q tt s') -> wp (put_xfer k x) s Q.
Proof.
  intros Hv Hk Hx H. unfold put_xfer. wp_step. apply H.
  - rewrite view_put, Hx, list_insert_id; [by destruct (view s)|]. by apply view_hands.
  - cbn. apply list_lookup_insert_eq. by eapply lookup_lt_Some.
Qed.

Lemma slot_min_lt z : (slot_min z < 3)%nat.
Proof. unfold slot_min. lia. Qed.

Lemma wp_take_dl k (s : St) (Q : option Cell -> St -> Prop) :
  vinv None (view s) -> (k < 3)%nat ->
  (forall s' x, FTP_XFER s !! k = Some x -> vinv (dl x) (view s') ->
     FTP_XFER s' !! k = Some (with_dl None x) -> v_bad (view s') = v_bad (view s) ->
     (dl x = None -> view s' = view s) -> Q (dl x) s') ->
  wp (take_dl k) s Q.
Proof.
  intros Hv Hk H. unfold take_dl. wp_step. apply (wp_get_xfer k None); [done|done|]. intros x Hx.
  wp_step. unfold put_xfer. wp_step. wp_step.
  pose proof (view_hands s k x Hx) as Hh. destruct (i_hands _ _ Hv k _ _ Hh) as (Ha & Hb & Hab).
  apply H; [done| | |done|].
  - rewrite view_put. unfold hands. cbn [with_dl dl wr].
    apply (vinv_set_hands (view s) None (dl x) k (dl x) (wr x)); auto.
    + clear. intuition congruence.
    + destruct Hab as [->| ->]; [discriminate|done].
  - cbn. apply list_lookup_insert_eq. by eapply lookup_lt_Some.
  - intros Hd. rewrite view_put. unfold hands. cbn [with_dl dl wr]. rewrite <- Hd at 1.
    rewrite list_insert_id by done. by destruct (view s).
Qed.

Lemma wp_put_taken_wr k x x' (s : St) (Q : unit -> St -> Prop) :
  vinv None (view s) -> FTP_XFER s !! k = Some x -> hands x' = (dl x, None) ->
  (forall s', vinv (wr x) (view s') -> FTP_XFER s' !! k = Some x' -> v_bad (view s') = v_bad (view s) ->
     (wr x = None -> view s' = view s) -> Q tt s') ->
  wp (put_xfer k x') s Q.
Proof.
  intros Hv Hx Hx' H. unfold put_xfer. wp_step.
  pose proof (view_hands s k x Hx) as Hh. destruct (i_hands _ _ Hv k _ _ Hh) as (Ha & Hb & Hab).
  apply H; [| |done|].
  - rewrite view_put, Hx'. apply (vinv_set_hands (view s) None (wr x) k (dl x) (wr x)); auto.
    + clear. intuition congruence.
    + destruct Hab as [->| ->]; [done|discriminate].
  - cbn. apply list_lookup_insert_eq. by eapply lookup_lt_Some.
  - intros Hd. rewrite view_put, Hx'. rewrite <- Hd at 1. rewrite list_insert_id by done. by destruct (view s).
Qed.

Lemma wp_take_wr k (s : St) (Q : option Cell -> St -> Prop) :
  vinv None (view s) -> (k < 3)%nat ->
  (forall s' x, FTP_XFER s !! k = Some x -> vinv (wr x) (view s') ->
     FTP_XFER s' !! k = Some (with_wr None x) -> v_bad (view s') = v_bad (view s) ->
     (wr x = None -> view s' = view s) -> Q (wr x) s') ->
  wp (take_wr k) s Q.
Proof.
  intros Hv Hk H. unfold take_wr. wp_step. apply (wp_get_xfer k None); [done|done|]. intros x Hx.
  wp_step. eapply wp_put_taken_wr; [done|exact Hx|done|]. intros. wp_step. by apply H.
Qed.

Lemma free_slot (s : St) k x :
  FTP_XFER s !! k = Some x -> hands x = (None, None) -> ~ held (view s) (FTP_ALLOC k).
Proof.
  intros Hx Hh (a & b & E & H). rewrite (view_hands s k x Hx) in E. unfold hands in Hh.
  injection Hh as H1 H2. rewrite H1, H2 in E. injection E as <- <-. by destruct H.
Qed.

Lemma slot_min_nat k : (k < 3)%nat -> slot_min (Z.of_nat k) = k.
Proof. intros H. unfold slot_min. lia. Qed.

Lemma wp_slot_close_all z (s : St) (Q : unit -> St -> Prop) :
  vinv None (view s) ->
  (forall s' x, vinv None (view s') -> FTP_XFER s' !! slot_min z = Some x -> hands x = (None, None) -> Q tt s') ->
  wp (slot_close_all z) s Q.
Proof.
  intros Hv H. unfold slot_close_all. set (k := slot_min z) in *. pose proof (slot_min_lt z) as Hk. fold k in Hk.
  wp_step. apply wp_take_dl; [done|done|]. intros s1 x Hx Hv1 Hx1 _ Hd. wp_step.
  assert (Hend : forall s3 a b, vinv None (view s3) -> v_hands (view s3) !! k = Some (a, b) -> a = None -> b = None ->
    wp (x ← get_xfer k; put_xfer k (mkFtpXfer (dl x) (wr x) 0 0 (x_chunk x) 0 false false false false 0)) s3 Q).
  { intros s3 a b Hv3 Hh3 -> ->. wp_step. apply (wp_get_xfer k None); [done|done|]. intros x3 Hx3.
    pose proof (view_hands s3 k x3 Hx3) as E3. rewrite Hh3 in E3. injection E3 as E1 E2.
    eapply (wp_put_same k None x3); [done|done|done|]. intros s4 Hv4 Hx4.
    eapply (H s4); [by rewrite Hv4|exact Hx4|]. unfold hands. cbn. by rewrite <- E1, <- E2. }
  pose proof (view_hands s k x Hx) as Hh. destruct (i_hands _ _ Hv k _ _ Hh) as (Ha & Hb & Hab).
  destruct (dl x) as [c|] eqn:Edl.
  - destruct Hab as [?|Ewr]; [discriminate|]. unfold take_wr. wp_step. eapply wp_get_xfer; [exact Hv1|done|].
    intros x1 Hx1'. rewrite Hx1 in Hx1'. injection Hx1' as <-. wp_step.
    eapply (wp_put_same k _ (with_dl None x)); [exact Hv1|done|cbn; unfold hands; cbn; by rewrite Ewr|].
    intros s2 Hv2 Hx2. wp_step. cbn [with_dl wr]. rewrite Ewr. wp_step.
    apply wp_close_opt; [by rewrite Hv2|]. intros s3 Hv3 (_ & _ & Hs3) _. wp_step. cbn [close_opt]. wp_step.
    eapply (Hend s3 None None); [done| |done|done]. rewrite Hs3, (view_hands s2 k _ Hx2). cbn. by rewrite ?Ewr.
  - specialize (Hd eq_refl). apply wp_take_wr; [done|done|]. intros s2 x2 Hx2 Hv2 Hx2' _ _.
    rewrite Hx1 in Hx2. injection Hx2 as <-. cbn [with_dl wr] in *. wp_step.
    cbn [close_opt]. wp_step. wp_step. apply wp_close_opt; [done|]. intros s3 Hv3 (_ & _ & Hs3) _.
    eapply (Hend s3 None None); [done| |done|done]. rewrite Hs3, (view_hands s2 k _ Hx2'). done.
Qed.

(** Storing a freshly opened handle. *)
Lemma wp_put_dl k x0 x (s : St) (Q : unit -> St -> Prop) :
  vinv (Some (FTP_ALLOC k)) (view s) -> FTP_XFER s !! k = Some x0 -> hands x0 = (None, None) ->
  (hands x = (Some (FTP_ALLOC k), None) \/ hands x = (None, Some (FTP_ALLOC k))) ->
  (forall s', vinv None (view s') -> FTP_XFER s' !! k = Some x -> Q tt s') -> wp (put_xfer k x) s Q.
Proof.
  intros Hv Hx0 H0 Hx H. unfold put_xfer. wp_step. apply H.
  - rewrite view_put. pose proof (view_hands s k x0 Hx0) as E. unfold hands in H0. injection H0 as E1 E2.
    rewrite E1, E2 in E.
    destruct Hx as [-> | ->]; apply (vinv_set_hands (view s) (Some (FTP_ALLOC k)) None k None None); auto; clear; intuition congruence.
  - cbn. apply list_lookup_insert_eq. by eapply lookup_lt_Some.
Qed.

Lemma view_xfer_hands (s s' : St) k x :
  v_hands (view s') = v_hands (view s) -> FTP_XFER s !! k = Some x -> exists x', FTP_XFER s' !! k = Some x' /\ hands x' = hands x.
Proof.
  intros E Hx. pose proof (view_hands s k x Hx) as Hh. rewrite <- E in Hh. cbn in Hh.
  rewrite list_lookup_fmap in Hh. destruct (FTP_XFER s' !! k) as [x'|]; [|done]. exists x'. split; [done|]. cbn in Hh. unfold hands in *. congruence.
Qed.

(** Opening a slot's cell after its handles were closed. *)
Lemma wp_open_slot o p k x (s : St) (Q : result unit -> St -> Prop) :
  vinv None (view s) -> FS_BAD s = false -> FTP_XFER s !! k = Some x -> hands x = (None, None) ->
  (forall s' x', vinv (Some (FTP_ALLOC k)) (view s') -> FTP_XFER s' !! k = Some x' -> hands x' = (None, None) -> Q (Ok tt) s') ->
  (forall s', view s' = view s -> Q Err s') ->
  wp (fsop (lfs_open o (FTP_ALLOC k) p)) s Q.
Proof.
  intros Hv Hbad Hx Hh H1 H2. destruct (vinv_opened (view s) (FTP_ALLOC k) Hv Hbad (free_slot s k x Hx Hh)) as [Hnl Hv'].
  apply wp_open; [done|]. intros r s' E. destruct r as [[]|]; cbn [is_ok] in E; [|by apply H2].
  destruct (view_xfer_hands s s' k x) as (x' & Hx' & Hh'); [by rewrite E|done|].
  apply (H1 s' x'); [by rewrite E|done|by rewrite Hh'].
Qed.

(** ** The handlers *)

(** A computation keeps the invariant and does not panic. *)
Definition safe {A} (m : M St A) : Prop :=
  forall s, vinv None (view s) -> wp m s (fun _ s' => vinv None (view s')).

Lemma safe_ret {A} (a : A) : safe (mret a).
Proof. intros s Hv. by wp_step. Qed.
Lemma safe_bind {A B} (m : M St A) (k : A -> M St B) : safe m -> (forall a, safe (k a)) -> safe (m ≫= k).
Proof. intros Hm Hk s Hv. wp_step. eapply wp_mono; [by apply Hm|]. intros a s' Hv'. by apply Hk. Qed.
Lemma safe_reads {A} (f : St -> A) : safe (reads f).
Proof. intros s Hv. by wp_step. Qed.
Lemma safe_modify (f : St -> St) : (forall s, view (f s) = view s) -> safe (modify f).
Proof. intros H s Hv. wp_step. by rewrite H. Qed.
Lemma safe_inner {A} (g : FS -> A * FS) : safe (fsop (on_inner g)).
Proof. intros s Hv. apply wp_inner. intros r s' E. by rewrite E. Qed.
Lemma safe_get_xfer k : (k < 3)%nat -> safe (get_xfer k).
Proof. intros Hk s Hv. by apply (wp_get_xfer k None). Qed.
Lemma safe_hist_sync : safe hist_sync.
Proof. intros s Hv. by apply wp_hist_sync. Qed.
Lemma safe_slot_close_all z : safe (slot_close_all z).
Proof. intros s Hv. apply wp_slot_close_all; auto. Qed.

#[local] Hint Resolve safe_ret safe_reads safe_inner safe_hist_sync safe_slot_close_all slot_min_lt : safe.

Ltac safe :=
  repeat first
    [ solve [auto with safe]
    | match goal with |- safe (_ ≫= _) => apply safe_bind; intros end
    | apply safe_modify; done
    | apply safe_inner
    | apply safe_get_xfer; auto with safe
    | match goal with |- safe (match ?x with _ => _ end) => destruct x end
    | match goal with |- safe (let '(_, _) := ?x in _) => destruct x end ].

(** A slot whose fields change but not its handles. *)
Lemma safe_update_xfer k (f : FtpXfer -> FtpXfer) :
  (k < 3)%nat -> (forall x, hands (f x) = hands x) -> safe (x ← get_xfer k; put_xfer k (f x)).
Proof.
  intros Hk Hf s Hv. wp_step. apply (wp_get_xfer k None); [done|done|]. intros x Hx.
  apply (wp_put_same k None x); [done|done|done|]. intros s' E _. by rewrite E.
Qed.

Lemma safe_ftp_stat p : safe (ftp_stat p).
Proof. unfold ftp_stat. safe. Qed.
Lemma safe_ftp_ls p : safe (ftp_ls p).
Proof. unfold ftp_ls. safe. Qed.
Lemma safe_ftp_path_op p op : safe (ftp_path_op p op).
Proof. unfold ftp_path_op. destruct op; safe. Qed.
Lemma safe_ftp_rename p q : safe (ftp_rename p q).
Proof. unfold ftp_rename. safe. Qed.
Lemma safe_fs_snapshot : safe fs_snapshot.
Proof. unfold fs_snapshot. safe. Qed.
Lemma safe_find_latest : safe find_latest.
Proof. unfold find_latest. safe. Qed.

(** *** The web download *)

Lemma wp_drop_dlf (s : St) (Q : unit -> St -> Prop) :
  vinv None (view s) ->
  (forall s', vinv (DOWNLOAD_FILE s) (view s') -> v_dlf (view s') = None -> Q tt s') ->
  wp (modify (set_download_file None)) s Q.
Proof.
  intros Hv H. wp_step. apply H; [|done]. destruct (DOWNLOAD_FILE s) as [c|] eqn:E.
  - by destruct (vinv_take_dlf (view s) c Hv E) as [Hv' ->].
  - rewrite <- (vinv_no_dlf (view s) Hv E) in Hv. exact Hv.
Qed.

Lemma wp_take_download (s : St) (Q : option Cell -> St -> Prop) :
  vinv None (view s) ->
  (forall s', vinv (DOWNLOAD_FILE s) (view s') -> v_dlf (view s') = None -> Q (DOWNLOAD_FILE s) s') ->
  wp take_download s Q.
Proof.
  intros Hv H. unfold take_download. wp_step. wp_step. wp_step. apply wp_drop_dlf; [done|].
  intros s' Hv' Hd. wp_step. by apply H.
Qed.

Lemma safe_close_download : safe (f ← take_download; close_opt f).
Proof.
  intros s Hv. wp_step. apply wp_take_download; [done|]. intros s' Hv' _. by apply wp_close_opt.
Qed.
#[local] Hint Resolve safe_close_download : safe.

Lemma safe_file_open name : safe (file_open name).
Proof.
  intros s Hv. unfold file_open. wp_step. wp_step. wp_step. apply wp_drop_dlf; [done|]. intros s1 Hv1 Hd1.
  wp_step. apply wp_close_opt; [done|]. intros s2 Hv2 (_ & Hd2 & _) _. rewrite Hd1 in Hd2. cbn in Hd2.
  repeat wp_step. destruct (FS_BAD _) eqn:Hbad; [by wp_step|]. cbn in Hbad.
  destruct (path_of name) as [p|]; [|by wp_step]. wp_step.
  destruct (vinv_opened (view s2) DL_ALLOC Hv2 Hbad) as [Hnl Hv3]; [cbn; by rewrite Hd2|].
  apply wp_open; [exact Hnl|]. intros r s3 E. destruct r as [[]|]; cbn [is_ok] in E; [|wp_step; rewrite E; exact Hv2].
  wp_step. apply wp_handle; [rewrite E; cbn; left|]. intros len s4 E4. repeat wp_step.
  assert (Hv4 : vinv (Some DL_ALLOC) (view s4)) by (rewrite E4, E; exact Hv3).
  exact (vinv_put_dlf _ Hv4).
Qed.

Lemma dlf_none_held (s : St) T : vinv T (view s) -> (T = None \/ T = Some DL_ALLOC) -> v_dlf (view s) = None ->
  forall s' : St, view s' = with_vdlf T (view s) -> vinv None (view s').
Proof.
  intros Hv [-> | ->] Hd s' ->; [by rewrite vinv_no_dlf|by apply vinv_put_dlf].
Qed.

Lemma download_cell (s : St) : vinv None (view s) -> DOWNLOAD_FILE s = None \/ DOWNLOAD_FILE s = Some DL_ALLOC.
Proof.
  intros Hv. destruct (DOWNLOAD_FILE s) as [c|] eqn:E; [right|by left]. by rewrite (i_dlf _ _ Hv c E).
Qed.

(** Reading from a handle that was taken. *)
Lemma wp_read_taken T (s : St) (Q : list Z -> St -> Prop) :
  vinv T (view s) -> (forall got s', view s' = view s -> Q got s') ->
  wp (match T with
      | Some f => r ← fsop (lfs_read f 2048); mret (match r with Ok b => b | Err => [] end)
      | None => mret []
      end) s Q.
Proof.
  intros Hv H. destruct T as [c|]; [|wp_step; by apply H].
  wp_step. apply wp_handle; [apply (i_linked _ _ Hv); by right|]. intros r s' E. wp_step. by apply H.
Qed.

Lemma safe_file_chunk : safe file_chunk.
Proof.
  intros s Hv. unfold file_chunk. wp_step. wp_step. destruct (negb _); [by wp_step|].
  destruct (_ <=? _).
  { wp_step. wp_step. wp_step. apply wp_take_download; [done|]. intros s1 Hv1 _.
    wp_step. apply wp_close_opt; [done|]. intros s2 Hv2 _ _. by wp_step. }
  wp_step. apply wp_take_download; [done|]. intros s1 Hv1 Hd1. wp_step.
  pose proof (download_cell s Hv) as HT.
  apply wp_read_taken; [done|]. intros got s2 E2. cbv zeta. destruct (_ =? 0)%nat.
  - wp_step. apply wp_close_opt; [by rewrite E2|]. intros s3 Hv3 _ _. by repeat wp_step.
  - wp_step. wp_step. wp_step. wp_step. wp_step. wp_step. wp_step.
    set (s3 := set_file_dl _ _). assert (Hv3 : vinv None (view s3)).
    { apply (dlf_none_held s1 (DOWNLOAD_FILE s)); try done. subst s3. rewrite <- E2. by destruct s2. }
    destruct (_ || _); [|wp_step; by wp_step].
    wp_step. apply wp_take_download; [done|]. intros s4 Hv4 _. apply wp_close_opt; [done|]. intros s5 Hv5 _ _. by wp_step.
Qed.

(** *** FTP transfers *)

Lemma wp_store_taken k x0 x T (s : St) (Q : unit -> St -> Prop) :
  vinv T (view s) -> (T = None \/ T = Some (FTP_ALLOC k)) -> FTP_XFER s !! k = Some x0 ->
  (hands x0 = (None, None) \/ T = None) ->
  (T = None -> hands x = hands x0) ->
  (T = Some (FTP_ALLOC k) -> hands x = (T, None) \/ hands x = (None, T)) ->
  (forall s', vinv None (view s') -> FTP_XFER s' !! k = Some x -> Q tt s') -> wp (put_xfer k x) s Q.
Proof.
  intros Hv HT Hx0 Hh HN HS H. destruct HT as [-> | ->].
  - apply (wp_put_same k None x0); [done|done|by apply HN|]. intros s' E Hx. apply H; [by rewrite E|done].
  - destruct Hh as [Hh|Hh]; [|done]. apply (wp_put_dl k x0); auto.
Qed.

Lemma slot_cells (s : St) k x : vinv None (view s) -> FTP_XFER s !! k = Some x ->
  (dl x = None \/ dl x = Some (FTP_ALLOC k)) /\ (wr x = None \/ wr x = Some (FTP_ALLOC k)) /\ (dl x = None \/ wr x = None).
Proof. intros Hv Hx. exact (i_hands _ _ Hv k _ _ (view_hands s k x Hx)). Qed.

(** The two ends of an open: the handle is stored in its slot, or closed again. *)
Lemma wp_keep k (f : FtpXfer -> FtpXfer) x2 (s s' : St) (Q : bool -> St -> Prop) :
  vinv (Some (FTP_ALLOC k)) (view s) -> (k < 3)%nat -> FTP_XFER s !! k = Some x2 -> hands x2 = (None, None) ->
  view s' = view s ->
  (forall x, hands x = (None, None) ->
     hands (f x) = (Some (FTP_ALLOC k), None) \/ hands (f x) = (None, Some (FTP_ALLOC k))) ->
  (forall s', vinv None (view s') -> Q true s') ->
  wp (x ← get_xfer k; put_xfer k (f x) ;; mret true) s' Q.
Proof.
  intros Hv Hk Hx Hh E Hf H. wp_step. eapply wp_get_xfer; [rewrite E; exact Hv|done|]. intros x Hx'.
  destruct (view_xfer_hands s s' k x2) as (x3 & Hx3 & Hh3); [by rewrite E|done|].
  rewrite Hx' in Hx3. injection Hx3 as <-. rewrite Hh in Hh3.
  wp_step. apply (wp_put_dl k x); [by rewrite E|done|done|by apply Hf|]. intros s5 Hv5 _. wp_step. by apply H.
Qed.

Lemma wp_discard c (s s' : St) (Q : bool -> St -> Prop) :
  vinv (Some c) (view s) -> view s' = view s -> (forall s', vinv None (view s') -> Q false s') ->
  wp (close_or_poison c ;; mret false) s' Q.
Proof.
  intros Hv E H. rewrite <- E in Hv. wp_step. apply wp_close; [by apply (i_linked _ _ Hv); right|].
  intros r s5 Hc. wp_step. apply H. exact (proj1 (closed_inv _ _ _ Hv Hc)).
Qed.

Lemma safe_ftp_open_read z path rest : safe (ftp_open_read z path rest).
Proof.
  intros s Hv. unfold ftp_open_read. set (k := slot_min z). pose proof (slot_min_lt z) as Hk. fold k in Hk.
  wp_step. apply wp_slot_close_all; [done|]. intros s1 x1 Hv1 Hx1 Hh1. rewrite slot_min_nat in Hx1 by done.
  wp_step. wp_step. destruct (FS_BAD s1) eqn:Hbad; [by wp_step|].
  destruct (ftp_path_of path) as [p|]; [|by wp_step]. wp_step.
  apply (wp_open_slot _ p k x1); [done|done|done|done| |intros s2 E; wp_step; by rewrite E].
  intros s2 x2 Hv2 Hx2 Hh2. assert (Hin : FTP_ALLOC k ∈ v_linked (view s2)) by (apply (i_linked _ _ Hv2); by right).
  wp_step. apply wp_handle; [done|]. intros len s3 E3. wp_step. destruct (0 <? rest).
  - wp_step. apply wp_handle; [by rewrite E3|]. intros r s4 E4. wp_step. rewrite E3 in E4. destruct (is_ok r); cbn [negb].
    + eapply (wp_keep k); [exact Hv2|done|done|done|done| |done]. intros x [= Hd Hw]. left. unfold hands. cbn. by rewrite Hw.
    + by eapply wp_discard.
  - wp_step. cbn [negb]. eapply (wp_keep k); [exact Hv2|done|done|done|done| |done].
    intros x [= Hd Hw]. left. unfold hands. cbn. by rewrite Hw.
Qed.

Lemma safe_ftp_open_write z path mode : safe (ftp_open_write z path mode).
Proof.
  intros s Hv. unfold ftp_open_write. set (k := slot_min z). pose proof (slot_min_lt z) as Hk. fold k in Hk.
  wp_step. apply wp_slot_close_all; [done|]. intros s1 x1 Hv1 Hx1 Hh1. fold k in Hx1.
  wp_step. wp_step. destruct (FS_BAD s1) eqn:Hbad; [by wp_step|].
  destruct (ftp_path_of path) as [p|]; [|by wp_step]. wp_step.
  apply (wp_open_slot _ p k x1); [done|done|done|done| |intros s2 E; repeat wp_step; by rewrite <- E in Hv1].
  intros s2 x2 Hv2 Hx2 Hh2. assert (Hin : FTP_ALLOC k ∈ v_linked (view s2)) by (apply (i_linked _ _ Hv2); by right).
  wp_step. wp_step.
  assert (Hgo : forall (b : bool) (s4 : St), view s4 = view s2 ->
    wp (if b then x ← get_xfer k; put_xfer k (with_wr (Some (FTP_ALLOC k)) x) ;; mret true
        else close_or_poison (FTP_ALLOC k) ;; mret false) s4
       (fun ok s => wp (modify (set_ftp_res (ok, false, 0))) s (fun _ s => vinv None (view s)))).
  { intros b s4 E4. destruct b.
    - eapply (wp_keep k); [exact Hv2|done|done|done|done| |intros; by wp_step].
      intros x [= Hd Hw]. right. unfold hands. cbn. by rewrite Hd.
    - eapply wp_discard; [exact Hv2|done|]. intros. by wp_step. }
  destruct mode.
  - wp_step. exact (Hgo true s2 eq_refl).
  - wp_step. apply wp_handle; [done|]. intros r s4 E4. wp_step. exact (Hgo _ s4 E4).
  - wp_step. apply wp_handle; [done|]. intros r s4 E4. wp_step. exact (Hgo _ s4 E4).
Qed.

Lemma safe_ftp_write_chunk z len : safe (ftp_write_chunk z len).
Proof.
  intros s Hv. unfold ftp_write_chunk. set (k := slot_min z). pose proof (slot_min_lt z) as Hk. fold k in Hk.
  wp_step. apply (wp_get_xfer k None); [done|done|]. intros x Hx. cbv zeta.
  destruct (slot_cells s k x Hv Hx) as (_ & Hw & Hdw).
  wp_step. eapply wp_put_taken_wr; [done|exact Hx|done|]. intros s1 Hv1 Hx1 _ _.
  assert (Hend : forall (ok : bool) (s2 : St), view s2 = view s1 -> wp (x2 ← get_xfer k;
    put_xfer k (mkFtpXfer (dl x2) (wr x) (x_size x2) (x_sent x2) (x_chunk x2) (x_chunk_len x2) (x_eof x2) (x_err x2)
      (if ok then x_werr x2 else true) (x_open x2) (wpos x2))) s2 (fun _ s => vinv None (view s))).
  { intros ok s2 E. wp_step. apply (wp_get_xfer k (wr x)); [by rewrite E|done|]. intros x2 Hx2.
    destruct (view_xfer_hands s1 s2 k _ (f_equal v_hands E) Hx1) as (x3 & Hx3 & Hh).
    rewrite Hx2 in Hx3. injection Hx3 as <-. unfold hands in Hh. cbn in Hh. injection Hh as Hd Hw2.
    apply (wp_store_taken k x2 _ (wr x)); [by rewrite E|done|done| | | |done]; unfold hands; cbn.
    - rewrite Hd, Hw2. destruct Hdw as [-> | ->]; [by left|by right].
    - intros ->. by rewrite Hw2.
    - intros Hs. right. rewrite Hd. destruct Hdw as [-> |Hn]; [done|congruence]. }
  destruct (wr x) as [c|] eqn:Ew.
  - destruct Hw as [|[= ->]]; [done|]. wp_step. wp_step. apply wp_write; [apply (i_linked _ _ Hv1); by right|]. intros r s2 E. wp_step.
    apply Hend. rewrite E, with_vfail_slot. by case_match.
  - wp_step. wp_step. exact (Hend true s1 eq_refl).
Qed.

Lemma safe_ftp_close_write z : safe (ftp_close_write z).
Proof.
  unfold ftp_close_write. pose proof (slot_min_lt z) as Hk. cbv zeta. apply safe_bind; [|intros; safe].
  intros s Hv. unfold ftp_close_write_quiet. wp_step. apply wp_take_wr; [done|done|].
  intros s1 x Hx Hv1 _ _ _. destruct (wr x) as [c|]; [|by wp_step].
  apply wp_close; [by apply (i_linked _ _ Hv1); right|]. intros r s2 Hc. exact (proj1 (closed_inv _ _ _ Hv1 Hc)).
Qed.

(** The end of a transfer: the handle is closed, the flags are set. *)
Lemma safe_finish_read k (f : FtpXfer -> FtpXfer) :
  (k < 3)%nat -> (forall x, hands (f x) = hands x) ->
  safe (d ← take_dl k; close_opt d ;; x ← get_xfer k; put_xfer k (f x)).
Proof.
  intros Hk Hf s Hv. wp_step. apply wp_take_dl; [done|done|]. intros s1 x Hx Hv1 _ _ _.
  wp_step. apply wp_close_opt; [done|]. intros s2 Hv2 _ _. by apply safe_update_xfer.
Qed.

Lemma safe_ftp_read_chunk z : safe (ftp_read_chunk z).
Proof.
  intros s Hv. unfold ftp_read_chunk. set (k := slot_min z). pose proof (slot_min_lt z) as Hk. fold k in Hk.
  wp_step. apply (wp_get_xfer k None); [done|done|]. intros x Hx. destruct (negb _); [by wp_step|].
  destruct (_ <=? _); [by apply safe_finish_read|].
  destruct (slot_cells s k x Hv Hx) as (Hd & _ & Hdw).
  wp_step. apply wp_take_dl; [done|done|]. intros s1 x1 Hx1 Hv1 Hs1 _ _.
  rewrite Hx in Hx1. injection Hx1 as <-. wp_step. apply wp_read_taken; [done|]. intros got s2 E. wp_step.
  assert (Hput : wp (match dl x with Some _ => x0 ← get_xfer k; put_xfer k (with_dl (dl x) x0) | None => mret tt end) s2
    (fun _ s => vinv None (view s))).
  { destruct (dl x) as [c|] eqn:Ed; [|wp_step; by rewrite E]. wp_step.
    apply (wp_get_xfer k (Some c)); [by rewrite E|done|]. intros x2 Hx2.
    destruct (view_xfer_hands s1 s2 k _ (f_equal v_hands E) Hs1) as (x3 & Hx3 & Hh).
    rewrite Hx2 in Hx3. injection Hx3 as <-. unfold hands in Hh. cbn in Hh. injection Hh as Hd2 Hw2.
    destruct Hdw as [|Hw]; [done|]. rewrite Hw in Hw2.
    apply (wp_store_taken k x2 _ (Some c)); [by rewrite E|done|done| | | |done]; unfold hands; cbn; rewrite ?Hd2, ?Hw2; auto.
    done. }
  eapply wp_mono; [exact Hput|]. intros [] s3 Hv3. cbv beta zeta. destruct (_ =? 0)%nat; [by apply safe_finish_read|].
  by apply safe_update_xfer.
Qed.

(** *** History *)

(** After a misuse nothing is known of the file system but that the history file had
    failed before, [n] failures ago or more; the tasks go on. *)
Definition misused (n : nat) (v : View) : Prop := v_mis v = true /\ (n < v_fails v)%nat /\ length (v_hands v) = 3%nat.
Definition dirty (n : nat) (s : St) : Prop := misused n (view s).

(** What never happens: a misuse is forgotten, a failure is not counted. *)
Definition grows {A} (f : Tracked FS -> A * Tracked FS) : Prop :=
  forall t, (misuse t = true -> misuse (f t).2 = true) /\ (hfails t <= hfails (f t).2)%nat.

Lemma failed_le c n : (n <= failed c n)%nat.
Proof. unfold failed. case_decide; lia. Qed.

Lemma grows_inner {A} (g : FS -> A * FS) : grows (on_inner g).
Proof. intros t. unfold on_inner. by destruct (g (inner t)). Qed.
Lemma grows_handle {A} c (g : FS -> A * FS) : grows (on_handle c g).
Proof. intros t. unfold on_handle. destruct (g (inner t)). cbn. split; [by intros ->|done]. Qed.
Lemma grows_open o c p : grows (lfs_open o c p).
Proof. intros t. cbn [lfs_open TrackedLfs]. destruct (lfs_open o c p (inner t)). cbn. split; [by intros ->|done]. Qed.
Lemma grows_write c l : grows (lfs_write c l).
Proof.
  intros t. cbn [lfs_write TrackedLfs]. pose proof (grows_handle c (lfs_write c l) t) as H.
  destruct (on_handle _ _ _) as [r t']. cbn [snd] in *. pose proof (failed_le c (hfails t')). destruct (is_ok r); cbn; [done|]. split; [apply H|lia].
Qed.
Lemma grows_close c : grows (lfs_close c).
Proof.
  intros t. cbn [lfs_close TrackedLfs]. pose proof (grows_handle c (lfs_close c) t) as H.
  destruct (on_handle _ _ _) as [r t']. cbn [snd] in *. pose proof (failed_le c (hfails t')). destruct (is_ok r); cbn; [done|]. split; [apply H|lia].
Qed.

(** A computation that runs to its end after a misuse. *)
Definition sticky {A} (m : M St A) : Prop := forall n s, dirty n s -> wp m s (fun _ s' => dirty n s').

Lemma sticky_ret {A} (a : A) : sticky (mret a).
Proof. intros n s Hs. by wp_step. Qed.
Lemma sticky_bind {A B} (m : M St A) (k : A -> M St B) : sticky m -> (forall a, sticky (k a)) -> sticky (m ≫= k).
Proof. intros Hm Hk n s Hs. wp_step. eapply wp_mono; [by apply Hm|]. intros a s' Hs'. by apply Hk. Qed.
Lemma sticky_reads {A} (f : St -> A) : sticky (reads f).
Proof. intros n s Hs. by wp_step. Qed.
Lemma sticky_modify (f : St -> St) : (forall s, s_fs (f s) = s_fs s /\ length (FTP_XFER (f s)) = length (FTP_XFER s)) -> sticky (modify f).
Proof.
  intros H n s Hs. wp_step. destruct (H s) as [E1 E2]. unfold dirty, misused, view in *. cbn in *. rewrite length_fmap in *. by rewrite E1, E2.
Qed.
Lemma sticky_fsop {A} (f : Tracked FS -> A * Tracked FS) : grows f -> sticky (fsop f).
Proof.
  intros H n s (H1 & H2 & H3). unfold fsop, wp. specialize (H (s_fs s)). destruct (f (s_fs s)) as [a t]. cbn [snd] in H.
  unfold dirty, misused, view in *. cbn in *. split; [by apply H|]. split; [lia|done].
Qed.
Lemma sticky_get_xfer k : (k < 3)%nat -> sticky (get_xfer k).
Proof.
  intros Hk n s Hs. unfold get_xfer. wp_step. wp_step. pose proof Hs as (_ & _ & Hl). cbn in Hl. rewrite length_fmap in Hl.
  destruct (lookup_lt_is_Some_2 (FTP_XFER s) k) as [x Hx]; [lia|]. by apply (wp_lift _ x).
Qed.
Lemma sticky_put_xfer k x : sticky (put_xfer k x).
Proof. apply sticky_modify. intros s. cbn. by rewrite length_insert. Qed.


Ltac grows := first [apply grows_inner|apply grows_handle|apply grows_open|apply grows_write|apply grows_close].
Ltac sticky :=
  repeat first
    [ apply sticky_ret | apply sticky_reads | apply sticky_put_xfer
    | apply sticky_get_xfer; first [apply slot_min_lt|lia]
    | match goal with |- sticky (_ ≫= _) => apply sticky_bind; intros end
    | apply sticky_fsop; grows
    | apply sticky_modify; intros; split; reflexivity
    | match goal with |- sticky (match ?x with _ => _ end) => destruct x end
    | match goal with |- sticky (let '(_, _) := ?x in _) => destruct x end
    | progress unfold take_open_file, put_open_file, close_opt, close_or_poison, take_download, bump, take_dl, take_wr; cbv zeta ].



















Lemma safe_bump : safe bump.
Proof. unfold bump. safe. Qed.
Lemma safe_close_keep_name : safe (f ← take_open_file; close_opt f).
Proof.
  intros s Hv. wp_step. apply wp_take_open; [done| |].
  - intros s1 Hv1 _ _ _. by apply wp_close_opt.
  - intros _. by apply wp_close_opt.
Qed.


End Safe.

Section Run.
Context {FS F : Type} `{!Lfs FS, !Flash F}.
Abbreviation St := (Store (Tracked FS) F).

#[local] Hint Resolve safe_ret safe_reads safe_inner safe_hist_sync safe_slot_close_all slot_min_lt safe_bump
  safe_close_keep_name safe_ftp_stat safe_ftp_ls safe_ftp_path_op safe_ftp_rename safe_fs_snapshot safe_file_open
  safe_file_chunk safe_ftp_open_read safe_ftp_open_write safe_ftp_write_chunk safe_ftp_close_write safe_ftp_read_chunk : safe.


End Run.

(** ** The task *)


Section Theorems.
Context {FS F : Type} `{!Lfs FS, !Flash F}.
Abbreviation St := (Store (Tracked FS) F).






End Theorems.

(** A device that has just started, over a file system in memory. *)
Definition store0 (room : Z) : Store (Tracked RamFs) NorImage :=
  Store_init (mkTracked (ram_empty room) [] false 0)
    (mkCfgState None (None, 0) (let r := RegMap_new 0 in mkRegMap (<[HOLDING_HISTORY_ENABLE_IDX := 1]> (holding r)) (input r))).

Definition rec0 : HisData := HisData_di TS_DEFAULT 0xFFFF 5.

(** A record, a download of the file, an FTP transfer on top of it. *)
Definition session0 : list (bool * Z * StorageCmd) :=
  [(false, TS_DEFAULT, Write rec0); (false, TS_DEFAULT, SnapReq);
   (false, TS_DEFAULT, FileOpen (take 24 (make_hist_name TS_DEFAULT ++ replicate 24 0))); (false, TS_DEFAULT, FileChunk);
   (false, TS_DEFAULT, FtpOpenWrite 1 (bs "/up" ++ [0;0]) Trunc); (false, TS_DEFAULT, FtpWriteChunk 1 100);
   (false, TS_DEFAULT, FtpOpenRead 1 (bs "/up" ++ [0;0]) 0); (false, TS_DEFAULT, FtpReadChunk 1);
   (false, TS_DEFAULT, CloseKeepName); (true, TS_DEFAULT, Write rec0)].


(** In that session nothing goes wrong; the second record on a full flash is the
    exception: the history file is opened again in its own cell. *)
Lemma session0_clean :
  match (storage_start ;; storage_loop session0) (store0 10000) with
  | Some (_, s) => misuse (s_fs s) = false /\ FS_BAD s = false /\ RPC_SEQ s = 7 /\ d_eof (FILE_DL s) = true
  | None => False
  end.
Proof. vm_compute. auto. Qed.

Lemma hist_write_full_disk :
  match (storage_start ;; storage_loop (replicate 2 (false, TS_DEFAULT, Write rec0))) (store0 10) with
  | Some (_, s) => misuse (s_fs s) = true /\ FS_BAD s = false
  | None => False
  end.
Proof. vm_compute. auto. Qed.
