(* ===== verification/StorageFiles.v ===== *)
(** * Downloads of a file through the storage task

    The web server reads a file by commands to the storage task: one that opens
    it, then one per chunk (httpd.rs, the download branch of [dispatch]).  On a
    file system that reads back what a file holds - the class [LfsReads] - the
    client receives the file. *)
From stdpp Require Import gmap.
From S2P Require Import Prelude TimeMath RegMap ConfigStore StorageCfg History Channels LfsNor StMonad Storage RamFs.
#[local] Open Scope Z_scope.

(** What a file system without device errors promises for files that are read:
    [reading fs c] is the contents behind an open handle and its position. *)
Class LfsReads (FS : Type) `{!Lfs FS} := {
  file_at : FS -> list Z -> option (list Z);
  reading : FS -> Cell -> option (list Z * nat);
  open_reads fs c p d : file_at fs p = Some d ->
    exists fs', lfs_open (mkOpen true false false false false) c p fs = (Ok tt, fs') /\ reading fs' c = Some (d, 0%nat);
  len_reads fs c d pos : reading fs c = Some (d, pos) ->
    exists fs', lfs_len c fs = (Ok (Z.of_nat (length d)), fs') /\ reading fs' c = Some (d, pos);
  read_reads fs c d pos n : reading fs c = Some (d, pos) ->
    exists fs', lfs_read c n fs = (Ok (take n (drop pos d)), fs') /\
      reading fs' c = Some (d, (pos + length (take n (drop pos d)))%nat);
  seek_reads fs c d pos q : reading fs c = Some (d, pos) -> 0 <= q <= LFS_FILE_MAX ->
    exists fs', lfs_seek_start c q fs = (Ok q, fs') /\ reading fs' c = Some (d, Z.to_nat q);
  seek_reads_far fs c d pos q : reading fs c = Some (d, pos) -> LFS_FILE_MAX < q < 4294967296 ->
    exists fs', lfs_seek_start c q fs = (Err, fs') /\ reading fs' c = Some (d, pos)
}.

Section Download.
Context {FS F : Type} `{!Lfs FS, !Flash F}.
Abbreviation St := (Store FS F).
Abbreviation T := (M St).

(** The loop of the download: a chunk is asked for, then written to the socket.
    The time and the upgrade flag do not matter to these commands. *)
Fixpoint download_loop (fuel : nat) (size : Z) : T (list Z) :=
  match fuel with
  | O => panic
  | S fuel =>
      handle_cmd false 0 FileChunk ;;
      d ← reads FILE_DL;
      if d_err d then mret [] else
      let out := if (0 <? d_chunk_len d)%nat then take (d_chunk_len d) (d_chunk d) else [] in
      if (d_eof d && (d_chunk_len d =? 0)%nat) || (size <=? d_sent d) then mret out else
      rest ← download_loop fuel size; mret (out ++ rest)
  end.

(** [None] is the answer 400. *)
Definition web_download (fuel : nat) (nb : list Z) : T (option (list Z)) :=
  handle_cmd false 0 (FileOpen nb) ;;
  d ← reads FILE_DL;
  if d_size d =? 0 then mret None else
  body ← download_loop fuel (d_size d); mret (Some body).

Context `{!LfsReads FS}.

(** The close of the download changes nothing that the client sees. *)
Lemma wp_close_dl f (s : St) (Q : unit -> St -> Prop) :
  (forall s', FILE_DL s' = FILE_DL s -> DOWNLOAD_FILE s' = DOWNLOAD_FILE s -> Q tt s') -> wp (close_opt f) s Q.
Proof.
  intros H. destruct f as [c|]; cbn [close_opt]; [|wp_step; by apply H].
  wp_step. unfold close_or_poison. wp_step. apply wp_fsop_any. intros r fs.
  destruct (is_ok r); repeat wp_step; by apply H.
Qed.

(** A download that stands at [pos]. *)
Record at_pos (d : list Z) (pos : nat) (s : St) : Prop := {
  p_file : DOWNLOAD_FILE s = Some DL_ALLOC;
  p_read : reading (s_fs s) DL_ALLOC = Some (d, pos);
  p_open : d_open (FILE_DL s) = true;
  p_size : d_size (FILE_DL s) = Z.of_nat (length d);
  p_sent : d_sent (FILE_DL s) = Z.of_nat pos;
  p_eof : d_eof (FILE_DL s) = false;
  p_err : d_err (FILE_DL s) = false;
  p_chunk : length (d_chunk (FILE_DL s)) = 2048%nat;
  p_pos : (pos < length d)%nat
}.

(** One chunk: the next 2048 bytes; the handle is closed with the last one. *)
Lemma chunk_next d pos (s : St) : is_u32 (Z.of_nat (length d)) -> at_pos d pos s ->
  wp (handle_cmd false 0 FileChunk) s (fun _ s' =>
    let got := take 2048 (drop pos d) in
    let f := FILE_DL s' in
    d_err f = false /\ d_chunk_len f = length got /\ take (d_chunk_len f) (d_chunk f) = got /\
    d_sent f = Z.of_nat (pos + length got) /\
    if (pos + length got =? length d)%nat then DOWNLOAD_FILE s' = None else at_pos d (pos + length got) s').
Proof.
  intros Hu []. unfold is_u32 in Hu. cbn [handle_cmd]. wp_step. set (got := take 2048 (drop pos d)).
  assert (Hg : (0 < length got <= 2048)%nat /\ (pos + length got <= length d)%nat) by (unfold got; len).
  unfold file_chunk. wp_step. wp_step. rewrite p_open0, p_size0, p_sent0. cbn [negb].
  rewrite (proj2 (Z.leb_gt _ _)) by lia. unfold take_download. wp_step. wp_step. wp_step. wp_step. wp_step. wp_step.
  rewrite p_file0. wp_step. wp_step.
  destruct (read_reads (s_fs s) DL_ALLOC d pos 2048 p_read0) as (fs & E & Hr). fold got in E, Hr.
  eapply wp_fsop; [exact E|]. wp_step. cbv zeta.
  rewrite (proj2 (Nat.eqb_neq (length got) 0)) by lia.
  wp_step. wp_step. wp_step. wp_step. wp_step. wp_step. cbn [FILE_DL set_fs set_download_file].
  set (sent := as_u32 (d_sent (FILE_DL s) + as_u32 (Z.of_nat (length got)))).
  assert (Hsent : sent = Z.of_nat (pos + length got)).
  { unfold sent. rewrite p_sent0, !as_u32_id; [|unfold is_u32; lia|rewrite as_u32_id; unfold is_u32; lia]. lia. }
  set (f := mkFileDl _ _ _ _ _ _ _ _).
  assert (Hf : d_err f = false /\ d_chunk_len f = length got /\ take (d_chunk_len f) (d_chunk f) = got /\
    d_sent f = Z.of_nat (pos + length got) /\ length (d_chunk f) = 2048%nat).
  { unfold f. cbn. repeat split; [done| |done|by rewrite length_inserts].
    rewrite list_inserts_split by (cbn -[Nat.add]; lia). rewrite take_0. by rewrite app_nil_l, take_app_length. }
  destruct Hf as (Hf1 & Hf2 & Hf3 & Hf4 & Hf5).
  rewrite p_eof0, Hsent. cbn [orb]. rewrite p_size0.
  destruct (Nat.eqb_spec (pos + length got) (length d)) as [He|Hn].
  - rewrite (proj2 (Z.leb_le _ _)) by lia. unfold take_download. repeat wp_step.
    apply wp_close_dl. intros s' E1 E2. cbn in E1, E2. unfold bump. repeat wp_step.
    cbn. rewrite E1, E2. done.
  - rewrite (proj2 (Z.leb_gt _ _)) by lia. unfold bump. repeat wp_step. cbn -[Z.of_nat].
    split; [done|]. split; [done|]. split; [done|]. split; [done|].
    split; cbn -[Z.of_nat]; try done; [|lia].
    by rewrite p_eof0, Hsent, p_size0, (proj2 (Z.leb_gt _ _)) by lia.
Qed.

Lemma download_loop_ok d fuel : is_u32 (Z.of_nat (length d)) -> forall pos (s : St),
  at_pos d pos s -> (length d <= pos + fuel * 2048)%nat ->
  wp (download_loop fuel (Z.of_nat (length d))) s (fun out s' => out = drop pos d /\ DOWNLOAD_FILE s' = None).
Proof.
  intros Hu. induction fuel as [|fuel IH]; intros pos s Hp Hf; [destruct Hp; lia|]. pose proof (p_pos _ _ _ Hp) as Hlt.
  cbn [download_loop]. wp_step. eapply wp_mono; [by apply (chunk_next d pos)|].
  intros [] s1. cbv beta zeta. set (got := take 2048 (drop pos d)). intros (H1 & H2 & H3 & H4 & H5).
  assert (Hg : (0 < length got)%nat /\ (length got = 2048 \/ pos + length got = length d)%nat) by (unfold got; len).
  assert (Hsplit : drop pos d = got ++ drop (pos + length got) d).
  { rewrite <- (take_drop 2048 (drop pos d)) at 1. fold got. f_equal. rewrite drop_drop.
    destruct Hg as [_ [-> |Hg]]; [f_equal; lia|]. rewrite !drop_ge; [done| |]; unfold got in *; len. }
  wp_step. wp_step. rewrite H1. cbv zeta. rewrite (proj2 (Nat.ltb_lt 0 _)) by lia. rewrite H3, H4.
  destruct (Nat.eqb_spec (pos + length got) (length d)) as [He|Hn].
  - rewrite He, (proj2 (Z.leb_le _ _)), orb_true_r by lia. wp_step. split; [|done].
    by rewrite Hsplit, He, drop_all, app_nil_r.
  - rewrite (p_eof _ _ _ H5). pose proof (p_pos _ _ _ H5). cbn [andb orb]. rewrite (proj2 (Z.leb_gt _ _)) by lia.
    wp_step. eapply wp_mono; [apply (IH (pos + length got)%nat s1 H5); lia|]. intros out s2 [-> Hd]. wp_step.
    by rewrite <- Hsplit.
Qed.

Lemma file_open_ok nb p d (s : St) :
  path_of (FS := FS) nb = Some p -> file_at (s_fs s) p = Some d -> is_u32 (Z.of_nat (length d)) -> (0 < length d)%nat ->
  FS_BAD s = false -> DOWNLOAD_FILE s = None -> length (d_chunk (FILE_DL s)) = 2048%nat ->
  wp (file_open nb) s (fun ok s' => ok = true /\ at_pos d 0 s').
Proof.
  intros Hp Hd Hu Hpos Hb Hdl Hc. unfold file_open. repeat wp_step. rewrite Hdl. cbn [close_opt]. repeat wp_step.
  change (FS_BAD _) with (FS_BAD s). rewrite Hb, Hp. wp_step.
  destruct (open_reads (s_fs s) DL_ALLOC p d Hd) as (fs & E & Hr). eapply wp_fsop; [exact E|]. cbv beta iota. wp_step.
  destruct (len_reads fs DL_ALLOC d 0 Hr) as (fs' & E' & Hr'). eapply wp_fsop; [exact E'|]. repeat wp_step.
  split; [done|]. split; cbn; try done. rewrite as_u32_id; [done|exact Hu].
Qed.

(** C10: A download of a file that is not empty delivers the file, whatever its
    length, and leaves no handle open.  [s1] is the state after the records of the
    open history file were written out, which the open of a download does first. *)
Theorem download_delivers nb p d fuel (s s1 : St) :
  hist_sync s = Some (tt, s1) ->
  path_of (FS := FS) nb = Some p -> file_at (s_fs s1) p = Some d -> is_u32 (Z.of_nat (length d)) -> (0 < length d)%nat ->
  FS_BAD s1 = false -> DOWNLOAD_FILE s1 = None -> length (d_chunk (FILE_DL s1)) = 2048%nat ->
  (length d <= fuel * 2048)%nat ->
  exists s', web_download fuel nb s = Some (Some d, s') /\ DOWNLOAD_FILE s' = None.
Proof.
  intros Hs Hp Hd Hu Hpos Hb Hdl Hc Hf.
  assert (H : wp (web_download fuel nb) s (fun r s' => r = Some d /\ DOWNLOAD_FILE s' = None)).
  { unfold web_download. cbn [handle_cmd]. wp_step. wp_step. eapply wp_intro; [exact Hs|]. wp_step.
    eapply wp_mono; [by apply (file_open_ok nb p d)|]. intros ok s2 [-> H2]. unfold bump. repeat wp_step.
    set (s3 := set_rpc_seq _ s2). assert (H3 : at_pos d 0 s3) by (destruct H2; by split).
    rewrite (p_size _ _ _ H3), (proj2 (Z.eqb_neq _ 0)) by lia. wp_step.
    eapply wp_mono; [apply (download_loop_ok d fuel Hu 0 s3 H3); lia|]. intros out s' [-> Hend]. by wp_step. }
  apply wp_elim in H as (r & s' & E & -> & H). by exists s'.
Qed.
End Download.

(** ** The file system in memory *)

Definition ram_reading (f : RamFs) (c : Cell) : option (list Z * nat) :=
  match rf_handle c (rf_open f) with
  | Some (p, (_, pos)) => d ← rf_files f !! rf_key p; Some (d, pos)
  | None => None
  end.

Lemma ram_reading_inv f c d pos : ram_reading f c = Some (d, pos) ->
  exists p app, rf_handle c (rf_open f) = Some (p, (app, pos)) /\ rf_files f !! rf_key p = Some d.
Proof.
  unfold ram_reading. destruct (rf_handle c (rf_open f)) as [[p [app q]]|]; [|done].
  destruct (rf_files f !! rf_key p) as [e|] eqn:E; [|done]. cbn. intros [= -> ->]. by exists p, app.
Qed.

Lemma rf_handle_head c e l : rf_handle c ((c, e) :: l) = Some e.
Proof. unfold rf_handle. by rewrite filter_cons_True. Qed.

Lemma ram_with_reads {A} c (k : list Z -> nat -> A * option nat) f d pos :
  ram_reading f c = Some (d, pos) ->
  exists f', rf_with c k f = (Ok (k d pos).1, f') /\
    ram_reading f' c = Some (d, default pos (k d pos).2).
Proof.
  intros H. destruct (ram_reading_inv f c d pos H) as (p & app & Hh & Hd).
  unfold rf_with. rewrite Hh. unfold rf_data. rewrite Hd. cbn. destruct (k d pos) as [a [q|]]; cbn.
  - eexists. split; [done|]. unfold rf_set_pos. rewrite Hh. unfold ram_reading. cbn.
    rewrite rf_handle_head. by rewrite Hd.
  - by exists f.
Qed.

#[export] Program Instance RamReads : LfsReads RamFs := {| file_at f p := rf_files f !! rf_key p; reading := ram_reading |}.
Next Obligation.
  intros fs c p d Hd. cbn. unfold rf_opened. cbn. rewrite Hd. rewrite bool_decide_true by done. eexists. split; [done|].
  unfold ram_reading. cbn. rewrite rf_handle_head. cbn. unfold rf_data. rewrite Hd. cbn. by rewrite lookup_insert_eq.
Qed.
Next Obligation. intros fs c d pos H. by apply (ram_with_reads c (fun d _ => (Z.of_nat (length d), None))) in H. Qed.
Next Obligation. intros fs c d pos n H. by apply (ram_with_reads c (fun d pos => (take n (drop pos d), Some (pos + length (take n (drop pos d)))%nat))) in H. Qed.
Next Obligation.
  intros fs c d pos q H Hq. cbn. rewrite (proj2 (Z.ltb_ge _ _)) by lia. by apply (ram_with_reads c (fun _ _ => (q, Some (Z.to_nat q)))) in H.
Qed.
Next Obligation. intros fs c d pos q H Hq. cbn. rewrite (proj2 (Z.ltb_lt _ _)) by lia. by exists fs. Qed.

(** A file of 5000 bytes: three chunks, the last one partial. *)
Definition file0 : list Z := (fun i => Z.of_nat (i mod 251)) <$> seq 0 5000.
Definition name0 : list Z := bs "data_07281530_12.raw" ++ replicate 4 0.
Definition files0 : Store RamFs NorImage :=
  set_open_file (Some None) (Store_init (mkRamFs {[ bs "data_07281530_12.raw" := file0 ]} [] 100000)
    (mkCfgState None (None, 0) (RegMap_new 0))).

Lemma download_delivers_witness :
  hist_sync files0 = Some (tt, files0) /\ length file0 = 5000%nat /\
  exists s', web_download 3 name0 files0 = Some (Some file0, s') /\ DOWNLOAD_FILE s' = None.
Proof.
  split; [reflexivity|]. split; [reflexivity|].
  apply (download_delivers name0 (bs "data_07281530_12.raw") file0 3 files0 files0); try reflexivity.
  - vm_compute. split; [discriminate|reflexivity].
  - change (length file0) with 5000%nat. lia.
  - change (length file0) with 5000%nat. lia.
Defined.
