(* ===== verification/StorageHist.v ===== *)
(** * Retention of the history files

    When the history writer has made a new file it removes the oldest ones.  On
    a file system whose listing and removal do what they say - the class
    [LfsDir] - what stays are the newest ten. *)
From stdpp Require Import gmap.
From S2P Require Import Prelude TimeMath RegMap ConfigStore StorageCfg History Channels LfsNor StMonad Storage RamFs HistNames.
#[local] Open Scope Z_scope.

(** [dir fs] is what a listing of the root gives; a file that is listed can be
    removed, by its name. *)
Class LfsDir (FS : Type) `{!Lfs FS} := {
  dir : FS -> list DirEntry;
  read_root fs : exists fs', lfs_read_dir (bs "/") fs = (Ok (dir fs), fs') /\ dir fs' = dir fs;
  remove_root fs e : e ∈ dir fs -> e_dir e = false -> path_ok (e_name e) = true ->
    exists fs', lfs_remove (e_name e) fs = (Ok tt, fs') /\
      dir fs' ≡ₚ filter (fun e' => e_name e' <> e_name e) (dir fs)
}.

(** The 24 bytes a name is kept in. *)
Definition pad (n : list Z) : list Z := n ++ replicate (24 - length n) 0.

Definition name_fits (n : list Z) : Prop := (length n <= 23)%nat /\ Forall (fun b => 0 < b) n.

#[export] Instance name_fits_dec n : Decision (name_fits n).
Proof. unfold name_fits. apply _. Defined.

Lemma ltb_pad m a b :
  (length a <= m)%nat -> (length b <= m)%nat -> Forall (fun b => 0 < b) a -> Forall (fun b => 0 < b) b ->
  bytes_ltb (a ++ replicate (m - length a) 0) (b ++ replicate (m - length b) 0) = bytes_ltb a b.
Proof.
  revert m b. induction a as [|x a IH]; intros m [|y b] Ha Hb Fa Fb; cbn [length] in *.
  - apply bytes_ltb_irrefl.
  - destruct m as [|m]; [lia|]. apply Forall_cons_1 in Fb as [Hy _]. rewrite Nat.sub_0_r. cbn. by rewrite (proj2 (Z.ltb_lt 0 y)).
  - destruct m as [|m]; [lia|]. apply Forall_cons_1 in Fa as [Hx _]. rewrite Nat.sub_0_r. cbn.
    rewrite (proj2 (Z.ltb_ge x 0)), (proj2 (Z.eqb_neq x 0)) by lia. done.
  - destruct m as [|m]; [lia|]. apply Forall_cons_1 in Fa as [_ Fa]. apply Forall_cons_1 in Fb as [_ Fb].
    cbn. by rewrite IH by (done || lia).
Qed.

Lemma pad_order a b : name_fits a -> name_fits b -> bytes_ltb (pad a) (pad b) = bytes_ltb a b.
Proof. intros [Ha Fa] [Hb Fb]. apply ltb_pad; auto; lia. Qed.

Lemma position_app {A} (p : A -> bool) l x r :
  Forall (fun y => p y = false) l -> p x = true -> position p (l ++ x :: r) = Some (length l).
Proof.
  intros H Hx. induction H as [|y l Hy Hl IH]; cbn; [by rewrite Hx|]. by rewrite Hy, IH.
Qed.

Lemma pad_position n : name_fits n -> position (Z.eqb 0) (pad n) = Some (length n) /\ take (length n) (pad n) = n.
Proof.
  intros [Hl Hp]. unfold pad. replace (24 - length n)%nat with (S (23 - length n)) by lia. cbn [replicate]. split.
  - apply position_app; [|done]. eapply Forall_impl; [|exact Hp]. intros b Hb. apply Z.eqb_neq. cbn in Hb. lia.
  - by rewrite take_app_length.
Qed.

Lemma push_name_pad names n : is_data 23 n = true -> name_fits n -> (length names < 12)%nat ->
  push_name names n = names ++ [pad n].
Proof.
  intros Hd [Hl _] Hn. unfold push_name. rewrite Hd, (proj2 (Nat.ltb_lt _ _)) by lia.
  rewrite Nat.min_l, take_ge by lia. do 2 f_equal. unfold pad.
  rewrite list_inserts_split by (rewrite length_replicate; lia). rewrite take_0, drop_replicate. cbn [app].
  replace (24 - (0 + length n))%nat with (S (23 - length n)) by lia.
  replace (24 - length n)%nat with (S (23 - length n)) by lia. cbn [replicate].
  replace (length n) with (length n + 0)%nat at 1 by lia. by rewrite insert_app_r.
Qed.

Lemma push_names_pad ns names :
  Forall (fun n => is_data 23 n = true -> name_fits n) ns ->
  (length names + length (filter (fun n => is_data 23 n = true) ns) <= 12)%nat ->
  foldl push_name names ns = names ++ (pad <$> filter (fun n => is_data 23 n = true) ns).
Proof.
  revert names. induction ns as [|n ns IH]; intros names Hf Hc; [by rewrite app_nil_r|].
  apply Forall_cons_1 in Hf as [Hn Hf]. cbn [foldl]. destruct (is_data 23 n) eqn:E.
  - rewrite filter_cons_True in * by done. cbn [length] in Hc.
    rewrite push_name_pad by (auto; lia). rewrite IH; [by rewrite <- app_assoc|done|].
    rewrite length_app. cbn. lia.
  - rewrite filter_cons_False in * by (rewrite E; discriminate).
    replace (push_name names n) with names by (unfold push_name; by rewrite E). by apply IH.
Qed.

Section Retention.
Context {FS F : Type} `{!Lfs FS, !Flash F, !LfsDir FS}.
Abbreviation St := (Store FS F).

(** The names of history files in a listing. *)
Definition data_names (es : list DirEntry) : list (list Z) := filter (fun n => is_data 23 n = true) (e_name <$> es).

(** The listing without the names of [R]. *)
Definition without (R : list (list Z)) (es : list DirEntry) : list DirEntry := filter (fun e => e_name e ∉ R) es.

Definition listing_ok (es : list DirEntry) : Prop :=
  NoDup (e_name <$> es) /\
  Forall (fun e => is_data 23 (e_name e) = true -> e_dir e = false /\ name_fits (e_name e) /\ path_ok (FS := FS) (e_name e) = true) es.

(** [K] stays, [R] was removed. *)
Record split_at (es : list DirEntry) (K R : list (list Z)) (s : St) : Prop := {
  sp_names : data_names es ≡ₚ K ++ R;
  sp_order : forall k r, k ∈ K -> r ∈ R -> bytes_ltb k r = false;
  sp_dir : dir (s_fs s) ≡ₚ without R es;
  sp_many : R = [] \/ (10 <= length K)%nat
}.

Lemma without_cons n R es : filter (fun e => e_name e <> n) (without R es) = without (n :: R) es.
Proof.
  unfold without. rewrite list_filter_filter. apply list_filter_iff. intros e. rewrite not_elem_of_cons. tauto.
Qed.

Lemma without_nil es : without [] es = es.
Proof. unfold without. induction es as [|e es IH]; [done|]. rewrite filter_cons_True by apply not_elem_of_nil. by rewrite IH. Qed.

Lemma data_names_elem es n : n ∈ data_names es -> exists e, e ∈ es /\ n = e_name e /\ is_data 23 n = true.
Proof.
  unfold data_names. rewrite list_elem_of_filter. intros [Hd Hn]. apply list_elem_of_fmap in Hn as (e & -> & He). by exists e.
Qed.

(** One removal: the smallest name goes. *)
Lemma remove_step es K K' R n (s : St) :
  listing_ok es -> split_at es K R s -> K ≡ₚ n :: K' -> (10 < length K)%nat ->
  (forall k, k ∈ K -> bytes_ltb k n = false) ->
  exists fs', lfs_remove n (s_fs s) = (Ok tt, fs') /\ split_at es K' (n :: R) (set_fs fs' s).
Proof.
  intros [Hnd Hok] [] HK Hlen Hmin. assert (Hn : n ∈ data_names es) by (rewrite sp_names0, HK; by left).
  destruct (data_names_elem es n Hn) as (e & He & -> & Hd).
  destruct (proj1 (list.Forall_forall _ _) Hok e He Hd) as (Hdir & _ & Hp).
  assert (HnR : e_name e ∉ R).
  { assert (NoDup (K ++ R)) as Hndk by (rewrite <- sp_names0; by apply list.NoDup_filter).
    apply list.NoDup_app in Hndk as (_ & Hdj & _). apply Hdj. rewrite HK. by left. }
  assert (Hin : e ∈ dir (s_fs s)) by (rewrite sp_dir0; unfold without; by apply list_elem_of_filter).
  destruct (remove_root (s_fs s) e Hin Hdir Hp) as (fs' & E & Hd'). exists fs'. split; [done|]. split.
  - rewrite sp_names0, HK. cbn. apply Permutation_middle.
  - intros k r Hk Hr. apply elem_of_cons in Hr as [->|Hr]; [apply Hmin|apply sp_order0; [|done]]; rewrite HK; by right.
  - cbn. rewrite Hd', sp_dir0. by rewrite without_cons.
  - right. apply Permutation_length in HK. cbn in HK. lia.
Qed.

Lemma fits_of es n : listing_ok es -> n ∈ data_names es -> name_fits n /\ path_ok (FS := FS) n = true.
Proof.
  intros [_ Hok] Hn. destruct (data_names_elem es n Hn) as (e & He & -> & Hd).
  destruct (proj1 (list.Forall_forall _ _) Hok e He Hd) as (_ & ? & ?). done.
Qed.

Lemma cleanup_loop_keeps es fuel : listing_ok es -> forall K R names (s : St),
  split_at es K R s -> names ≡ₚ pad <$> K -> (length K <= fuel)%nat ->
  wp (cleanup_loop fuel names) s (fun _ s' => exists K' R', split_at es K' R' s' /\ (length K' <= 10)%nat).
Proof.
  intros Hes. induction fuel as [|fuel IH]; intros K R names s Hsp Hnm Hf.
  all: pose proof (Permutation_length Hnm) as Hl; rewrite length_fmap in Hl; cbn [cleanup_loop]; unfold HIST_MAX_FILES in *.
  { destruct (Nat.ltb_spec 10 (length names)); [lia|]. wp_step. exists K, R. split; [done|lia]. }
  destruct (Nat.ltb_spec 10 (length names)) as [H10|H10]; [|wp_step; exists K, R; split; [done|lia]].
  assert (Hmi : (min_index names < length names)%nat) by (apply min_index_lt; lia).
  pose proof (swap_remove_perm _ _ Hmi) as Hperm. pose proof (min_index_min names) as Hmin.
  set (nm := names !!! min_index names) in *. set (rest := swap_remove_last (min_index names) names) in *.
  assert (Hnm_in : nm ∈ pad <$> K) by (rewrite <- Hnm, Hperm; by left).
  apply list_elem_of_fmap in Hnm_in as (n & En & HnK).
  apply elem_of_Permutation in HnK as (K' & HK).
  assert (HD : forall k, k ∈ K -> name_fits k /\ path_ok (FS := FS) k = true).
  { intros k Hk. apply (fits_of es); [done|]. rewrite (sp_names _ _ _ _ Hsp). apply elem_of_app. by left. }
  assert (HnK : n ∈ K) by (rewrite HK; by left). destruct (HD n HnK) as [Hfit Hpath].
  destruct (pad_position n Hfit) as [Hpos Htake].
  assert (Hle : forall k, k ∈ K -> bytes_ltb k n = false).
  { intros k Hk. rewrite <- pad_order by (done || by apply HD). rewrite <- En.
    assert (Hin : pad k ∈ names) by (rewrite Hnm; by apply list_elem_of_fmap_2).
    apply list_elem_of_lookup_1 in Hin as (j & Hj). rewrite <- (list_lookup_total_correct _ _ _ Hj).
    apply Hmin. by eapply lookup_lt_Some. }
  rewrite En, Hpos. cbn [default id]. cbv zeta. pose proof (proj1 Hfit).
  rewrite (proj2 (Nat.leb_gt 24 _)) by lia. rewrite Htake. unfold path_from. rewrite Hpath.
  destruct (remove_step es K K' R n s Hes Hsp HK) as (fs' & E & Hsp'); [lia|done|].
  wp_step. wp_step. eapply wp_fsop; [exact E|]. wp_step.
  apply (IH K' (n :: R)); [exact Hsp'| |apply Permutation_length in HK; cbn in HK; lia].
  rewrite Hnm, HK, En in Hperm. cbn in Hperm. by apply Permutation_cons_inv in Hperm.
Qed.

(** C38: Retention.  When the root holds at most twelve history files (their names
    short enough to be kept whole, as the ones the writer makes are), the clean-up
    removes files until ten are left: every file that stays is at least as new, by
    name, as every file that was removed, nothing else in the root changes, and
    nothing is removed when there are no more than ten. *)
Theorem retention_keeps_newest (s : St) :
  let es := dir (s_fs s) in
  listing_ok es -> (length (data_names es) <= 12)%nat ->
  exists s' kept removed, cleanup_old_files s = Some (tt, s') /\
    data_names es ≡ₚ kept ++ removed /\ length kept = Nat.min 10 (length (data_names es)) /\
    (forall k r, k ∈ kept -> r ∈ removed -> bytes_ltb k r = false) /\
    dir (s_fs s') ≡ₚ without removed es.
Proof.
  intros es Hes Hc.
  assert (H : wp cleanup_old_files s (fun _ s' => exists K R, split_at es K R s' /\ (length K <= 10)%nat)).
  { unfold cleanup_old_files. wp_step. destruct (read_root (s_fs s)) as (fs' & E & Hd). eapply wp_fsop; [exact E|]. cbv beta iota zeta.
    assert (Hnames : foldl push_name [] (e_name <$> es) = pad <$> data_names es).
    { rewrite push_names_pad; [done| |exact Hc]. apply Forall_fmap. eapply list.Forall_impl; [exact (proj2 Hes)|].
      intros e He Hd'. by destruct (He Hd') as (_ & ? & _). }
    fold es. rewrite Hnames. apply (cleanup_loop_keeps es _ Hes (data_names es) []); [|done|by rewrite length_fmap].
    split; [by rewrite app_nil_r|by intros k r _ ?%elem_of_nil| |by left].
    cbn. rewrite Hd. by rewrite without_nil. }
  apply wp_elim in H as ([] & s' & E & K & R & [] & Hk). exists s', K, R.
  split; [done|]. split; [done|]. split; [|done].
  apply Permutation_length in sp_names0. rewrite length_app in sp_names0.
  rewrite sp_names0. destruct sp_many0 as [->|H10]; cbn [length]; lia.
Qed.
End Retention.

(** ** The file system in memory *)

Lemma filter_id {A} (P : A -> Prop) `{!forall x, Decision (P x)} (l : list A) : (forall x, x ∈ l -> P x) -> filter P l = l.
Proof.
  induction l as [|x l IH]; intros HP; [done|]. rewrite filter_cons_True by (apply HP; by left).
  f_equal. apply IH. intros y Hy. apply HP. by right.
Qed.

Lemma rf_entries_delete n d f : rf_key n = n -> rf_files f !! n = Some d ->
  rf_entries (mkRamFs (delete n (rf_files f)) (rf_open f) (rf_room f)) ≡ₚ filter (fun e => e_name e <> n) (rf_entries f).
Proof.
  intros Hn Hd. unfold rf_entries. cbn [rf_files]. rewrite <- (map_to_list_delete _ _ _ Hd).
  rewrite filter_cons_True by done. rewrite fmap_cons, filter_cons_False by (cbn; auto).
  rewrite (filter_id (fun e => e_name e <> n)); [done|]. intros e He Heq. apply list_elem_of_fmap in He as ([k c] & -> & He).
  apply list_elem_of_filter in He as [_ He]. apply elem_of_map_to_list in He. cbn in Heq. subst k.
  by rewrite lookup_delete_eq in He.
Qed.

#[export] Program Instance RamDir : LfsDir RamFs := {| dir := rf_entries |}.
Next Obligation. intros f. by exists f. Qed.
Next Obligation.
  intros f e He Hdir Hp. apply list_elem_of_fmap in He as ([k c] & -> & He).
  apply list_elem_of_filter in He as [Hk He]. apply elem_of_map_to_list in He. cbn in *. rewrite Hk.
  rewrite bool_decide_true by done. eexists. split; [done|]. by apply (rf_entries_delete k c).
Qed.

(** Eleven history files, one a day, and a file that is not one. *)
Definition day (i : nat) : list Z := bs "data_0728" ++ [48 + Z.of_nat (i / 10); 48 + Z.of_nat (i mod 10)] ++ bs "_12.raw".
Definition files11 : Store RamFs NorImage :=
  set_open_file (Some None) (Store_init
    (mkRamFs (<[ bs "up" := [1] ]> (list_to_map ((fun i => (day i, [Z.of_nat i])) <$> seq 0 11))) [] 100000)
    (mkCfgState None (None, 0) (RegMap_new 0))).

Lemma retention_keeps_newest_witness :
  let es := dir (s_fs files11) in
  listing_ok (FS := RamFs) es /\ length (data_names es) = 11%nat /\
  exists s' kept removed, cleanup_old_files files11 = Some (tt, s') /\
    data_names es ≡ₚ kept ++ removed /\ length kept = Nat.min 10 (length (data_names es)) /\
    (forall k r, k ∈ kept -> r ∈ removed -> bytes_ltb k r = false) /\
    dir (s_fs s') ≡ₚ without removed es.
Proof.
  assert (H1 : listing_ok (FS := RamFs) (dir (s_fs files11))).
  { split; apply (bool_decide_unpack _); vm_compute; exact I. }
  split; [exact H1|]. split; [reflexivity|].
  apply (retention_keeps_newest files11 H1). vm_compute. lia.
Defined.

Lemma retention_demo :
  match cleanup_old_files files11 with
  | Some (_, s) => rf_files (s_fs s) !! day 0 = None /\ rf_files (s_fs s) !! day 1 = Some [1] /\ rf_files (s_fs s) !! bs "up" = Some [1]
  | None => False
  end.
Proof. vm_compute. auto. Qed.
