(* ===== verification/StorageBoot.v ===== *)
(** * The start of the storage task (storage_task in crates/firmware/src/storage.rs)

    Mounting, formatting, and what is served from which lane when neither helps. *)
From S2P Require Import Prelude RegMap History Channels System ConfigStore StorageCfg LfsNor StMonad Storage.

Section Boot.
Context {FS F : Type} `{!Lfs FS, !Flash F}.
(** [Filesystem::mount] and [Filesystem::format]. *)
Variables lfs_mount lfs_format : FS -> bool * FS.
Abbreviation St := (Store FS F).
Abbreviation T := (M St).

(** [true]: the file system is there. *)
Definition mount_or_format : T bool :=
  ok ← fsop lfs_mount;
  if ok : bool then mret true else
  fsop lfs_format ;; fsop lfs_mount.

Definition storage_boot : T bool :=
  ok ← mount_or_format;
  if ok : bool then storage_start ;; mret true else mret false.

(** The lane a command goes to: [CfgSave] and [CfgEraseAll] to the control lane, at every
    place that sends them. *)
Definition is_cfg (c : StorageCmd) : bool := match c with CfgSave | CfgEraseAll => true | _ => false end.
Definition send (c : StorageCmd) (l : Lanes) : Lanes := if is_cfg c then ctrl_send c l else queue_send c l.

(** [select]: the control lane is asked first. *)
Definition receive_any (l : Lanes) : option (StorageCmd * Lanes) :=
  match ctrl_queue l, queue l with
  | c :: r, q => Some (c, mkLanes q r)
  | [], c :: q => Some (c, mkLanes q [])
  | [], [] => None
  end.
Definition receive_queue (l : Lanes) : option (StorageCmd * Lanes) :=
  match queue l with c :: q => Some (c, mkLanes q (ctrl_queue l)) | [] => None end.

(** A producer sends; the task takes its turn, with the state of the upgrade and the
    time. *)
Inductive TaskEv := Sends (c : StorageCmd) | Turn (fw_active : bool) (epoch : Z).

Definition task_turn (online fw_active : bool) (epoch : Z) (l : Lanes) (s : St) : option (Lanes * St) :=
  match (if online then receive_any l else receive_queue l) with
  | Some (c, l) => '(_, s) ← (if online then handle_cmd fw_active epoch c else offline_cmd c) s; Some (l, s)
  | None => Some (l, s)
  end.

Fixpoint task_run (online : bool) (evs : list TaskEv) (l : Lanes) (s : St) : option (Lanes * St) :=
  match evs with
  | [] => Some (l, s)
  | Sends c :: evs => task_run online evs (send c l) s
  | Turn fw epoch :: evs => '(l, s) ← task_turn online fw epoch l s; task_run online evs l s
  end.

(** Without a file system the parameters can no longer be stored: whatever is sent, the
    turns of the task change nothing, for the lane of these commands is not read. *)
Lemma offline_config_lost evs : forall l s l' s', Forall (fun c => is_cfg c = false) (queue l) ->
  task_run false evs l s = Some (l', s') -> s' = s /\ exists r, ctrl_queue l' = ctrl_queue l ++ r.
Proof.
  induction evs as [|[c|fw epoch] evs IH]; intros l s l' s' Hq E; cbn [task_run] in E.
  - injection E as <- <-. split; [done|exists []; by rewrite app_nil_r].
  - destruct (IH (send c l) s l' s') as [-> [r Er]]; [|exact E|].
    + unfold send. destruct (is_cfg c) eqn:Ec; [done|]. unfold queue_send, try_send. cbn [queue].
      case_match; cbn [snd]; [|done]. apply list.Forall_app. split; [done|by constructor].
    + split; [done|]. rewrite Er. unfold send. destruct (is_cfg c); [|by exists r]. unfold ctrl_send. cbn [ctrl_queue].
      destruct (try_send_keeps CTRL_QUEUE_CAP c (ctrl_queue l)) as [r1 ->]. exists (r1 ++ r). by rewrite app_assoc.
  - unfold task_turn, receive_queue in E. destruct (queue l) as [|c q] eqn:Eq; [by eapply IH; rewrite ?Eq|].
    apply list.Forall_cons in Hq as [Hc Hq]. destruct c; try discriminate Hc.
    all: destruct (IH (mkLanes q (ctrl_queue l)) s l' s' Hq E) as [-> [r Er]]; split; [done|by exists r].
Qed.

(** With one, the next turn takes the oldest command of the control lane, whatever waits
    in the other. *)
Lemma online_config_first fw epoch l (s : St) q : ctrl_queue l = CfgSave :: q ->
  task_turn true fw epoch l s = Some (mkLanes (queue l) q, set_cfg (cfg_save (s_cfg s)) s).
Proof. intros E. unfold task_turn, receive_any. by rewrite E. Qed.

(** A fresh flash is formatted. *)
Lemma boot_formats s fs fs2 fs3 b : lfs_mount (s_fs s) = (false, fs) -> lfs_format fs = (b, fs2) -> lfs_mount fs2 = (true, fs3) ->
  mount_or_format s = Some (true, set_fs fs3 s).
Proof.
  intros E1 E2 E3. unfold mount_or_format, fsop, mbind, M_bind. rewrite E1. cbn [s_fs set_fs]. rewrite E2. cbn [s_fs set_fs]. rewrite E3. by destruct s.
Qed.
End Boot.
