(* ===== verification/HttpReq.v ===== *)
(** * HTTP requests (crates/firmware/src/httpd.rs)

    How the server cuts the bytes of a connection into requests: header lookup,
    request line, the loop over the requests in the buffer, what is answered
    without looking at the path. *)
From S2P Require Import Prelude Text.

Definition RX_BUF : nat := 640.
Definition BODY_MAX : Z := 128.

(** ** Bytes *)

Fixpoint take_while (p : Z -> bool) (l : list Z) : list Z :=
  match l with x :: l => if p x then x :: take_while p l else [] | [] => [] end.
Fixpoint drop_while (p : Z -> bool) (l : list Z) : list Z :=
  match l with x :: r => if p x then drop_while p r else l | [] => [] end.

Definition to_ascii_lowercase (b : Z) : Z := if (65 <=? b) && (b <=? 90) then b + 32 else b.
Definition eq_ignore_ascii_case (a b : list Z) : bool := bytes_eqb (to_ascii_lowercase <$> a) (to_ascii_lowercase <$> b).

Definition is_ascii_whitespace (b : Z) : bool := (b =? 32) || (b =? 9) || (b =? 10) || (b =? 12) || (b =? 13).
Definition trim_ascii (l : list Z) : list Z :=
  reverse (drop_while is_ascii_whitespace (reverse (drop_while is_ascii_whitespace l))).

(** ** The header *)

Definition CRLF2 : list Z := [13; 10; 13; 10].

Fixpoint find_hdr_end (rx : list Z) : option nat :=
  if starts_with rx CRLF2 then Some 0%nat
  else match rx with [] => None | _ :: rx => S <$> find_hdr_end rx end.

Definition is_blank (b : Z) : bool := (b =? 32) || (b =? 9).
Definition is_token (b : Z) : bool := negb (b =? 32) && negb (b =? 9) && negb (b =? 13) && negb (b =? 10).

Definition parse_request_line (rx : list Z) : option (list Z * list Z) :=
  let rx := drop_while is_blank rx in
  let m := take_while is_token rx in
  if (length m =? 0)%nat || (8 <? length m)%nat then None else
  let rx := drop_while is_blank (drop_while is_token rx) in
  let t := take_while is_token rx in
  if (length t =? 0)%nat then None else Some (m, take 96 t).

(** The value of a line with this key. *)
Definition hdr_line (key line : list Z) : option (list Z) :=
  if (length key <? length line)%nat && eq_ignore_ascii_case (take (length key) line) key && (line !!! length key =? 32)
  then Some (drop (S (length key)) line) else None.

Fixpoint hdr_lines (key : list Z) (lines : list (list Z)) : option (list Z) :=
  match lines with
  | [] => None
  | l :: lines => match hdr_line key l with Some v => Some v | None => hdr_lines key lines end
  end.

Definition hdr_find (hdr key : list Z) : option (list Z) := hdr_lines key (split 10 hdr).

(** [usize] has 32 bits on the target. *)
Definition hdr_content_len (hdr : list Z) : Z :=
  match hdr_find hdr (bs "Content-Length:") with
  | Some v => default 0 (parse_uint 4294967295 (trim (default [] (from_utf8 v))))
  | None => 0
  end.

Definition hdr_has (hdr needle : list Z) : bool := bool_decide (is_Some (hdr_find hdr needle)).

Definition hdr_eq (hdr key want : list Z) : bool :=
  match hdr_find hdr key with Some v => eq_ignore_ascii_case (trim_ascii v) want | None => false end.

(** ** The loop over the requests of a connection *)

(** What the loop asks for, in order.  A body of 400 is given by its text;
    [Upgrade] hands the header and the bytes after it to the WebSocket session. *)
Inductive HttpAct :=
| BadRequest (err : list Z)
| Dispatch (method target : list Z) (body : option (list Z))
| Upgrade (hdr pending : list Z).

(** The valid part of the buffer is [rx]; the result is what is left of it, or
    [None] when the connection ends. *)
Fixpoint parse_loop (fuel : nat) (rx : list Z) : list HttpAct * option (list Z) :=
  match fuel with
  | O => ([], Some rx)
  | S fuel =>
      match find_hdr_end rx with
      | None => if (RX_BUF - 1 <=? length rx)%nat then ([BadRequest (bs "header too large")], None) else ([], Some rx)
      | Some he =>
          let hdr := take he rx in
          match parse_request_line hdr with
          | None => ([BadRequest (bs "bad request")], None)
          | Some (m, target) =>
              let method := default [] (from_utf8 m) in
              let content_len := hdr_content_len hdr in
              let cli_close := hdr_eq hdr (bs "Connection:") (bs "close") in
              if BODY_MAX <? content_len then ([BadRequest (bs "body too large")], None) else
              let off := (he + 4)%nat in
              if bytes_eqb method (bs "GET") then
                if bytes_eqb target (bs "/ws") && hdr_eq hdr (bs "Upgrade:") (bs "websocket")
                then ([Upgrade hdr (drop off rx)], None) else
                let a := Dispatch method target None in
                if cli_close then ([a], None) else
                let '(acts, r) := parse_loop fuel (drop off rx) in (a :: acts, r)
              else
              if Z.of_nat (length rx - off) <? content_len then ([], Some rx) else
              let n := Z.to_nat content_len in
              let a := Dispatch method target (Some (take n (drop off rx))) in
              if cli_close then ([a], None) else
              let rest := drop (off + n) rx in
              if (0 <? length rest)%nat then let '(acts, r) := parse_loop fuel rest in (a :: acts, r)
              else ([a], Some rest)
          end
      end
  end.

(** One read of the socket: [chunk] is not empty and has at most [RX_BUF] bytes
    less what is buffered (at least 1). *)
Definition http_turn (chunk rx : list Z) : list HttpAct * option (list Z) :=
  let rx := take (RX_BUF - 1) (rx ++ chunk) in parse_loop (S (length rx)) rx.

(** The reads of a connection. *)
Fixpoint http_conn (chunks : list (list Z)) (rx : list Z) : list HttpAct * option (list Z) :=
  match chunks with
  | [] => ([], Some rx)
  | c :: chunks =>
      match http_turn c rx with
      | (acts, None) => (acts, None)
      | (acts, Some rx) => let '(acts', r) := http_conn chunks rx in (acts ++ acts', r)
      end
  end.

(** The half-request and keep-alive limits, in seconds. *)
Definition read_limit (rx : list Z) : Z := if (0 <? length rx)%nat then 5 else 60.

Example http_two_requests :
  http_conn [bs "GET /api/io HT"; bs "TP/1.1" ++ CRLF2 ++ bs "POST /api/do HTTP/1.1" ++ [13; 10] ++ bs "content-length: 5" ++ CRLF2 ++ bs "{1"; bs "23}GE"] [] =
  ([Dispatch (bs "GET") (bs "/api/io") None; Dispatch (bs "POST") (bs "/api/do") (Some (bs "{123}"))], Some (bs "GE")).
Proof. vm_compute. reflexivity. Qed.

(** ** Lemmas *)

Lemma starts_with_extend l p r : starts_with l p = true -> starts_with (l ++ r) p = true.
Proof.
  revert p. induction l as [|x l IH]; intros [|y p] H; cbn in *; try done; try (by destruct r). apply andb_true_iff in H as [-> H]. by apply IH.
Qed.

Lemma starts_with_len l p : starts_with l p = true -> (length p <= length l)%nat.
Proof.
  revert p. induction l as [|x l IH]; intros [|y p] H; try (cbn; lia); [done|]. cbn in *.
  apply andb_true_iff in H as [_ H]. apply IH in H. lia.
Qed.

Lemma starts_with_app_inv l p r : (length p <= length l)%nat -> starts_with (l ++ r) p = starts_with l p.
Proof.
  revert p. induction l as [|x l IH]; intros [|y p] H; cbn in *; try lia; try (by destruct r).
  by rewrite IH by lia.
Qed.

Lemma find_hdr_end_len rx he : find_hdr_end rx = Some he -> (he + 4 <= length rx)%nat.
Proof.
  revert he. induction rx as [|x rx IH]; intros he; cbn [find_hdr_end].
  - destruct (starts_with [] CRLF2) eqn:E; [apply starts_with_len in E; cbn in E; lia|done].
  - destruct (starts_with (x :: rx) CRLF2) eqn:E; [intros [= <-]; apply starts_with_len in E; cbn in *; lia|].
    destruct (find_hdr_end rx) as [k|]; [|done]. cbn. intros [= <-]. specialize (IH k eq_refl). lia.
Qed.

(** The end of the header does not move when more bytes arrive. *)
Lemma find_hdr_end_app rx c he : find_hdr_end rx = Some he -> find_hdr_end (rx ++ c) = Some he.
Proof.
  revert he. induction rx as [|x rx IH]; intros he; cbn [find_hdr_end app]; [done|].
  destruct (starts_with (x :: rx) CRLF2) eqn:E.
  - intros [= <-]. apply (starts_with_extend _ _ c) in E. cbn [app] in E. by rewrite E.
  - destruct (find_hdr_end rx) as [k|] eqn:Ek; [|done]. intros [= <-].
    pose proof (find_hdr_end_len rx k Ek). pose proof (starts_with_app_inv (x :: rx) CRLF2 c) as Ea. cbn [app] in Ea.
    rewrite Ea, E by (cbn; lia). by rewrite (IH k eq_refl).
Qed.

Lemma find_hdr_end_short p s he : find_hdr_end (p ++ s) = Some he -> (length p < he + 4)%nat -> find_hdr_end p = None.
Proof.
  intros H Hl. destruct (find_hdr_end p) as [k|] eqn:E; [|done].
  pose proof (find_hdr_end_len p k E). apply (find_hdr_end_app p s) in E. rewrite H in E. injection E as ->. lia.
Qed.

Lemma find_skip l s : Forall (fun b => b <> 13) l -> find_hdr_end (l ++ s) = Nat.add (length l) <$> find_hdr_end s.
Proof.
  induction 1 as [|b l Hb _ IH]; [cbn [app]; by destruct (find_hdr_end s)|]. cbn [app find_hdr_end starts_with CRLF2]. cbv beta in Hb.
  rewrite (proj2 (Z.eqb_neq b 13)) by done. cbn. rewrite IH. by destruct (find_hdr_end s).
Qed.

Lemma find_sep x s : x <> 13 -> find_hdr_end (13 :: 10 :: x :: s) = Nat.add 2 <$> find_hdr_end (x :: s).
Proof.
  intros Hx. cbn [find_hdr_end starts_with CRLF2]. rewrite (proj2 (Z.eqb_neq x 13)) by done. cbn.
  by destruct (find_hdr_end s).
Qed.

(** ** Rendering a request *)

Record Req := mkReq { q_method : list Z; q_target : list Z; q_extra : list (list Z); q_body : option (list Z) }.

Definition req_line (q : Req) : list Z := q_method q ++ [32] ++ q_target q ++ bs " HTTP/1.1".
Definition req_lines (q : Req) : list (list Z) :=
  req_line q :: q_extra q ++
  match q_body q with Some b => [bs "Content-Length: " ++ decimal (Z.of_nat (length b))] | None => [] end.

Fixpoint crlf_join (ls : list (list Z)) : list Z :=
  match ls with [] => [] | [l] => l | l :: ls => l ++ [13; 10] ++ crlf_join ls end.

Definition render (q : Req) : list Z := crlf_join (req_lines q) ++ CRLF2 ++ default [] (q_body q).
Definition act_of (q : Req) : HttpAct := Dispatch (q_method q) (q_target q) (q_body q).

(** A line that is not one of the headers the server acts on. *)
Definition plain_line (l : list Z) : Prop :=
  l <> [] /\ Forall (fun b => b <> 13 /\ b <> 10) l /\
  hdr_line (bs "Content-Length:") l = None /\ hdr_line (bs "Connection:") l = None.

Record req_ok (q : Req) : Prop := {
  r_method : (0 < length (q_method q) <= 8)%nat /\ Forall (fun b => is_token b = true) (q_method q) /\ is_ascii (q_method q);
  r_target : (0 < length (q_target q) <= 96)%nat /\ Forall (fun b => is_token b = true) (q_target q);
  r_line : plain_line (req_line q);
  r_extra : Forall plain_line (q_extra q);
  r_body : match q_body q with
           | Some b => q_method q <> bs "GET" /\ Z.of_nat (length b) <= BODY_MAX
           | None => q_method q = bs "GET" /\ q_target q <> bs "/ws"
           end
}.

Definition good_line (l : list Z) : Prop := l <> [] /\ Forall (fun b => b <> 13 /\ b <> 10) l.

Lemma find_crlf2 r : find_hdr_end (CRLF2 ++ r) = Some 0%nat.
Proof. by destruct r. Qed.

Lemma find_join ls r : ls <> [] -> Forall good_line ls -> find_hdr_end (crlf_join ls ++ CRLF2 ++ r) = Some (length (crlf_join ls)).
Proof.
  intros Hne H. induction H as [|l ls [Hl0 Hl] H IH]; [done|].
  assert (H13 : Forall (fun b => b <> 13) l) by (eapply Forall_impl; [|exact Hl]; by intros b []).
  destruct ls as [|l' ls].
  - cbn [crlf_join]. rewrite find_skip, find_crlf2 by done. cbn. by rewrite Nat.add_0_r.
  - change (crlf_join (l :: l' :: ls)) with (l ++ [13; 10] ++ crlf_join (l' :: ls)).
    rewrite <- !app_assoc, find_skip by done. specialize (IH ltac:(done)).
    assert (Hx : exists x s, crlf_join (l' :: ls) ++ CRLF2 ++ r = x :: s /\ x <> 13).
    { apply Forall_cons_1 in H as [[H0 H1] _]. destruct l' as [|x l']; [done|]. apply Forall_cons_1 in H1 as [[Hx _] _].
      destruct ls; eexists _, _; (split; [reflexivity|done]). }
    destruct Hx as (x & s & E & Hx). cbn [app]. rewrite E, find_sep by done. rewrite <- E, IH. cbn. f_equal.
    rewrite length_app. cbn. lia.
Qed.

Lemma take_while_app p l x r : Forall (fun b => p b = true) l -> p x = false -> take_while p (l ++ x :: r) = l.
Proof. intros H Hx. induction H as [|b l Hb _ IH]; cbn; [by rewrite Hx|]. by rewrite Hb, IH. Qed.
Lemma drop_while_app p l x r : Forall (fun b => p b = true) l -> p x = false -> drop_while p (l ++ x :: r) = x :: r.
Proof. intros H Hx. induction H as [|b l Hb _ IH]; cbn; [by rewrite Hx|]. by rewrite Hb. Qed.

Lemma token_not_blank l r : (0 < length l)%nat -> Forall (fun b => is_token b = true) l -> drop_while is_blank (l ++ r) = l ++ r.
Proof.
  destruct l as [|b l]; cbn; [lia|]. intros _ H. apply Forall_cons_1 in H as [Hb _].
  unfold is_token, is_blank in *. by destruct (b =? 32), (b =? 9).
Qed.

Lemma request_line_ok q r : req_ok q -> parse_request_line (req_line q ++ r) = Some (q_method q, q_target q).
Proof.
  intros []. destruct r_method0 as (Hm & Ht & _), r_target0 as [Hn Hk]. unfold parse_request_line, req_line.
  rewrite <- !app_assoc, token_not_blank by (done || lia). cbn [app].
  rewrite take_while_app, drop_while_app by done. cbn [drop_while]. change (is_blank 32) with true. cbv iota.
  rewrite token_not_blank by (done || lia). change (bs " HTTP/1.1" ++ r) with (32 :: bs "HTTP/1.1" ++ r).
  rewrite take_while_app by done. rewrite (proj2 (Nat.eqb_neq _ 0)), (proj2 (Nat.ltb_ge 8 _)), (proj2 (Nat.eqb_neq _ 0)) by lia.
  cbn [orb]. by rewrite take_ge by lia.
Qed.

(** The header lines as [split] gives them: all but the last end in a CR. *)
Fixpoint cr_lines (ls : list (list Z)) : list (list Z) :=
  match ls with [] => [] | [l] => [l] | l :: ls => (l ++ [13]) :: cr_lines ls end.

Lemma split_crlf ls : ls <> [] -> Forall good_line ls -> split 10 (crlf_join ls) = cr_lines ls.
Proof.
  intros Hne H. induction H as [|l ls [_ Hl] H IH]; [done|].
  assert (H10 : Forall (fun b => b <> 10) l) by (eapply Forall_impl; [|exact Hl]; by intros b []).
  destruct ls as [|l' ls]; [by apply split_plain|].
  change (crlf_join (l :: l' :: ls)) with (l ++ [13; 10] ++ crlf_join (l' :: ls)).
  change (cr_lines (l :: l' :: ls)) with ((l ++ [13]) :: cr_lines (l' :: ls)).
  rewrite (app_assoc l [13; 10] _). change [13; 10] with ([13] ++ [10]). rewrite (app_assoc l [13] [10]), <- (app_assoc _ [10]).
  rewrite <- IH by done. apply split_app. apply Forall_app. split; [done|by apply Forall_singleton].
Qed.

Lemma hdr_line_cr key l : hdr_line key l = None -> hdr_line key (l ++ [13]) = None.
Proof.
  unfold hdr_line. rewrite length_app. cbn [length]. intros H.
  destruct (Nat.ltb_spec (length key) (length l)) as [Hl|Hl].
  - rewrite (proj2 (Nat.ltb_lt _ _)) by lia. rewrite take_app_le by lia. rewrite lookup_total_app_l by lia.
    destruct (_ && _ && _); [done|done].
  - destruct (Nat.ltb_spec (length key) (length l + 1)) as [Hk|Hk]; [|done].
    replace (length key) with (length l) by lia. rewrite (list_lookup_total_middle l [] 13) by done. by rewrite andb_false_r.
Qed.

Lemma hdr_lines_plain key ls r : Forall (fun l => hdr_line key l = None) ls -> hdr_lines key (ls ++ r) = hdr_lines key r.
Proof. induction 1 as [|l ls Hl _ IH]; [done|]. cbn. by rewrite Hl. Qed.

Lemma cr_lines_app ls l : cr_lines (ls ++ [l]) = ((fun l => l ++ [13]) <$> ls) ++ [l].
Proof.
  induction ls as [|x ls IH]; [done|]. cbn [app]. destruct (ls ++ [l]) as [|y r] eqn:E; [by destruct ls|].
  change (cr_lines (x :: y :: r)) with ((x ++ [13]) :: cr_lines (y :: r)). by rewrite IH.
Qed.

Lemma hdr_find_last key ls l : Forall good_line (ls ++ [l]) -> Forall (fun l => hdr_line key l = None) ls ->
  hdr_find (crlf_join (ls ++ [l])) key = hdr_line key l.
Proof.
  intros Hg H. unfold hdr_find. rewrite split_crlf by (done || by destruct ls). rewrite cr_lines_app, hdr_lines_plain.
  - cbn. by destruct (hdr_line key l).
  - apply Forall_fmap. eapply Forall_impl; [|exact H]. intros x. apply hdr_line_cr.
Qed.

Lemma good_lines q : req_ok q -> Forall good_line (req_lines q).
Proof.
  intros []. unfold req_lines. constructor; [by destruct r_line0 as (? & ? & _)|]. apply Forall_app. split.
  - eapply Forall_impl; [|exact r_extra0]. intros l (? & ? & _). done.
  - destruct (q_body q) as [b|]; [|constructor]. apply Forall_singleton. split; [done|].
    apply Forall_app. split; [repeat constructor; discriminate|].
    destruct r_body0 as [_ Hb]. unfold BODY_MAX in Hb.
    destruct (parse_decimal (Z.of_nat (length b)) 4294967295) as (_ & H & _); [lia|lia|].
    eapply Forall_impl; [|exact H]. intros c Hc. cbv beta in Hc. lia.
Qed.

Lemma find_render q r : req_ok q -> find_hdr_end (render q ++ r) = Some (length (crlf_join (req_lines q))).
Proof. intros Hq. unfold render. rewrite <- !app_assoc. apply find_join; [done|by apply good_lines]. Qed.

(** What the header of a request says. *)
Lemma plain_connection q : req_ok q -> hdr_eq (crlf_join (req_lines q)) (bs "Connection:") (bs "close") = false.
Proof.
  intros Hq. pose proof (good_lines q Hq) as Hg. destruct Hq. unfold hdr_eq.
  assert (hdr_find (crlf_join (req_lines q)) (bs "Connection:") = None) as ->; [|done].
  assert (Hx : Forall (fun l => hdr_line (bs "Connection:") l = None) (req_line q :: q_extra q)).
  { constructor; [apply r_line0|]. eapply Forall_impl; [|exact r_extra0]. by intros l (_ & _ & _ & ?). }
  unfold req_lines in *. destruct (q_body q) as [b|].
  - rewrite app_comm_cons in *. rewrite hdr_find_last by done. unfold hdr_line. cbn [length]. by rewrite andb_false_r || (rewrite (andb_comm (_ <? _)%nat); reflexivity).
  - rewrite app_nil_r in *. destruct (exists_last (l := req_line q :: q_extra q)) as (ls & l & E); [done|].
    rewrite E in *. apply Forall_app in Hx as [H1 H2]. rewrite hdr_find_last by done. by apply Forall_cons_1 in H2 as [? _].
Qed.

Definition first_no_digit (p : list Z) : bool := match p with c :: _ => (c <? 48) || (57 <? c) | [] => false end.

Lemma strip_all_digits fuel ps l :
  forallb first_no_digit ps = true -> Forall (fun b => 48 <= b <= 57) l -> strip_all fuel ps l = l.
Proof.
  intros Hps Hl. destruct fuel as [|fuel]; [done|]. cbn [strip_all].
  assert (strip_first ps l = None) as ->; [|done].
  induction ps as [|p ps IH]; [done|]. cbn [forallb] in Hps. apply andb_true_iff in Hps as [Hp Hps].
  specialize (IH Hps). cbn [strip_first]. destruct p as [|c p]; [done|].
  destruct Hl as [|b l Hb Hl]; [exact IH|]. cbn [starts_with].
  destruct (Z.eqb_spec b c) as [->|]; [|exact IH]. unfold first_no_digit in Hp. zbool; lia.
Qed.

Lemma trim_all_digits l : Forall (fun b => 48 <= b <= 57) l -> trim l = l.
Proof.
  intros H. unfold trim, trim_start, trim_end. rewrite (strip_all_digits _ white_spaces l) by done.
  rewrite strip_all_digits; [apply reverse_involutive|reflexivity|by apply Forall_reverse].
Qed.

Lemma content_length_line d : hdr_line (bs "Content-Length:") (bs "Content-Length: " ++ d) = Some d.
Proof. reflexivity. Qed.

Lemma content_len_ok q : req_ok q ->
  hdr_content_len (crlf_join (req_lines q)) = match q_body q with Some b => Z.of_nat (length b) | None => 0 end.
Proof.
  intros Hq. pose proof (good_lines q Hq) as Hg. destruct Hq. unfold hdr_content_len.
  assert (Hx : Forall (fun l => hdr_line (bs "Content-Length:") l = None) (req_line q :: q_extra q)).
  { constructor; [apply r_line0|]. eapply Forall_impl; [|exact r_extra0]. by intros l (_ & _ & ? & _). }
  unfold req_lines in *. destruct (q_body q) as [b|].
  - rewrite app_comm_cons in *. rewrite hdr_find_last by done.
    destruct r_body0 as [_ Hb]. unfold BODY_MAX in Hb.
    destruct (parse_decimal (Z.of_nat (length b)) 4294967295) as (Hp & Hd & _); [lia|lia|].
    rewrite content_length_line, from_utf8_ascii by (by apply is_ascii_digits). cbn [default id]. by rewrite trim_all_digits, Hp.
  - rewrite app_nil_r in *. destruct (exists_last (l := req_line q :: q_extra q)) as (ls & l & E); [done|].
    rewrite E in *. apply Forall_app in Hx as [H1 H2]. rewrite hdr_find_last by done.
    by apply Forall_cons_1 in H2 as [-> _].
Qed.

(** ** Requests and reads *)

Lemma parse_nil fuel : parse_loop fuel [] = ([], Some []).
Proof. by destruct fuel. Qed.

Lemma hdr_request_line q : exists s, crlf_join (req_lines q) = req_line q ++ s.
Proof. unfold req_lines. destruct (q_extra q ++ _) as [|l ls]; [exists []; by rewrite app_nil_r|by eexists]. Qed.

(** A complete request at the front of the buffer is asked for; the loop goes on
    behind it. *)
Lemma parse_request q fuel r : req_ok q ->
  parse_loop (S fuel) (render q ++ r) = (act_of q :: fst (parse_loop fuel r), snd (parse_loop fuel r)).
Proof.
  intros Hq. cbn [parse_loop]. rewrite find_render by done.
  assert (Hhdr : take (length (crlf_join (req_lines q))) (render q ++ r) = crlf_join (req_lines q)).
  { unfold render. by rewrite <- !app_assoc, take_app_length. }
  rewrite Hhdr. cbv zeta. rewrite content_len_ok, plain_connection by done.
  assert (Hdrop : drop (length (crlf_join (req_lines q)) + 4) (render q ++ r) = default [] (q_body q) ++ r).
  { unfold render. rewrite <- !app_assoc. rewrite (app_assoc _ CRLF2). apply drop_app_length'. by rewrite length_app. }
  rewrite Hdrop. destruct (hdr_request_line q) as [s Hline]. rewrite Hline at 1. rewrite request_line_ok by done.
  destruct Hq. destruct r_method0 as (_ & _ & Ha). rewrite from_utf8_ascii by done. cbn [default id].
  unfold act_of. destruct (q_body q) as [b|] eqn:Eb; cbn [default id].
  - destruct r_body0 as [Hget Hb]. rewrite (proj2 (Z.ltb_ge _ _)) by lia.
    unfold bytes_eqb. rewrite bool_decide_false by done.
    assert (Hlen : (length (render q ++ r) - (length (crlf_join (req_lines q)) + 4) = length b + length r)%nat).
    { unfold render. rewrite !length_app, Eb. cbn. lia. }
    rewrite Hlen, (proj2 (Z.ltb_ge _ _)) by lia. rewrite Nat2Z.id, take_app_length.
    rewrite <- drop_drop, Hdrop, drop_app_length.
    destruct (Nat.ltb_spec 0 (length r)); [by destruct (parse_loop fuel r)|].
    destruct r; [by rewrite parse_nil|cbn in *; lia].
  - destruct r_body0 as [Hget Hws]. rewrite (proj2 (Z.ltb_ge _ _)) by (unfold BODY_MAX; lia).
    unfold bytes_eqb. rewrite bool_decide_true by done. rewrite (bool_decide_false (q_target q = _)) by done.
    cbn [andb app]. by destruct (parse_loop fuel r).
Qed.

(** A request that is not there in full is left in the buffer. *)
Lemma parse_incomplete q fuel p s : req_ok q -> p ++ s = render q -> s <> [] -> (length p < RX_BUF - 1)%nat ->
  parse_loop fuel p = ([], Some p).
Proof.
  intros Hq E Hs Hl. destruct fuel as [|fuel]; [done|]. cbn [parse_loop].
  pose proof (find_render q [] Hq) as Hf. rewrite app_nil_r, <- E in Hf.
  set (hdr := crlf_join (req_lines q)) in *.
  destruct (Nat.ltb_spec (length p) (length hdr + 4)) as [Hp|Hp].
  { rewrite (find_hdr_end_short p s (length hdr)) by done. by rewrite (proj2 (Nat.leb_gt _ _)) by done. }
  assert (Hx : exists b1, p = hdr ++ CRLF2 ++ b1 /\ b1 ++ s = default [] (q_body q)).
  { exists (drop (length hdr + 4) p). unfold render in E. fold hdr in E. rewrite app_assoc in E.
    assert (Et : take (length hdr + 4) p = hdr ++ CRLF2).
    { rewrite <- (take_app_le p s) by lia. rewrite E. apply take_app_length'. by rewrite length_app. }
    rewrite app_assoc, <- Et, take_drop. split; [done|].
    rewrite <- drop_app_le by lia. rewrite E. apply drop_app_length'. by rewrite length_app. }
  destruct Hx as (b1 & -> & Eb). subst hdr. rewrite find_join by (done || by apply good_lines).
  rewrite take_app_length. cbv zeta. destruct (hdr_request_line q) as [s' Hline].
  rewrite Hline at 1. rewrite request_line_ok, content_len_ok by done.
  pose proof (r_method q Hq) as (_ & _ & Ha). rewrite from_utf8_ascii by done. cbn [default id].
  pose proof (r_body q Hq) as Hb. destruct (q_body q) as [b|]; cbn [default id] in *.
  - destruct Hb as [Hget Hb]. rewrite (proj2 (Z.ltb_ge _ _)) by lia. unfold bytes_eqb. rewrite bool_decide_false by done.
    rewrite (proj2 (Z.ltb_lt _ _)); [done|]. rewrite <- Eb, !length_app. destruct s; [done|]. cbn. lia.
  - apply app_eq_nil in Eb as [_ ->]. done.
Qed.

Lemma render_long q : (4 <= length (render q))%nat.
Proof. unfold render. rewrite !length_app. cbn. lia. Qed.

(** What waits at the front of the buffer. *)
Definition waits (rs : list Req) (rx : list Z) : Prop :=
  match rs with [] => rx = [] | q :: _ => (length rx < length (render q))%nat end.

Lemma parse_prefix rs fuel p s :
  Forall req_ok rs -> p ++ s = concat (render <$> rs) -> (length p < RX_BUF - 1)%nat -> (length p < fuel)%nat ->
  exists rs1 rs2 r, rs = rs1 ++ rs2 /\ r ++ s = concat (render <$> rs2) /\
    parse_loop fuel p = (act_of <$> rs1, Some r) /\ waits rs2 r.
Proof.
  intros H. revert fuel p. induction H as [|q rs Hq H IH]; intros fuel p E Hl Hf.
  { apply app_eq_nil in E as [-> ->]. exists [], [], []. by rewrite parse_nil. }
  cbn [fmap list_fmap concat] in E. destruct (Nat.ltb_spec (length p) (length (render q))) as [Hp|Hp].
  - exists [], (q :: rs), p. split; [done|]. split; [done|]. split; [|done].
    set (s1 := drop (length p) (render q)). apply (parse_incomplete q fuel p s1); [done| | |done].
    + unfold s1. rewrite <- (take_drop (length p) (render q)) at 2. f_equal.
      rewrite <- (take_app_le _ (concat (render <$> rs))) by lia. by rewrite <- E, take_app_length.
    + intros Hn. apply (f_equal length) in Hn. unfold s1 in Hn. rewrite length_drop in Hn. cbn [length] in Hn. lia.
  - destruct fuel as [|fuel]; [lia|]. pose proof (render_long q).
    assert (Ep : p = render q ++ drop (length (render q)) p).
    { rewrite <- (take_drop (length (render q)) p) at 1. f_equal. rewrite <- (take_app_le p s) by lia.
      by rewrite E, take_app_length. }
    set (p' := drop (length (render q)) p) in *. rewrite Ep in E. rewrite <- app_assoc in E. apply app_inv_head in E.
    destruct (IH fuel p' E) as (rs1 & rs2 & r & -> & Er & Hr & Hw); [unfold p'; rewrite length_drop; lia..|].
    exists (q :: rs1), rs2, r. split; [done|]. split; [done|]. split; [|done].
    rewrite Ep, parse_request by done. by rewrite Hr.
Qed.

(** Every read fits in the buffer with what waits there. *)
Fixpoint fits (rx : list Z) (chunks : list (list Z)) : Prop :=
  match chunks with
  | [] => True
  | c :: chunks => (length rx + length c < RX_BUF - 1)%nat /\
      match snd (http_turn c rx) with Some rx => fits rx chunks | None => True end
  end.

Lemma conn_requests chunks : forall rs rx,
  Forall req_ok rs -> rx ++ concat chunks = concat (render <$> rs) -> waits rs rx -> fits rx chunks ->
  http_conn chunks rx = (act_of <$> rs, Some []).
Proof.
  induction chunks as [|c chunks IH]; intros rs rx Hrs E Hw Hf.
  { cbn in E. rewrite app_nil_r in E. destruct rs as [|q rs]; [cbn in *; by subst|].
    cbn in Hw, E. subst rx. rewrite length_app in Hw. lia. }
  cbn [concat] in E. cbn [fits http_conn] in *. destruct Hf as [Hl Hf]. unfold http_turn in *.
  rewrite take_ge in * by (rewrite length_app; lia). rewrite app_assoc in E.
  destruct (parse_prefix rs (S (length (rx ++ c))) (rx ++ c) (concat chunks) Hrs E) as (rs1 & rs2 & r & -> & Er & Hr & Hw2).
  { rewrite length_app. lia. } { lia. }
  rewrite Hr in *. cbn [snd] in Hf. apply Forall_app in Hrs as [_ Hrs2].
  rewrite (IH rs2 r Hrs2 Er Hw2 Hf). by rewrite fmap_app.
Qed.

(** C13: A client that sends requests one after the other, without waiting, gets each of
    them served, in order and with its body, however the bytes are cut into reads
    - as long as a read does not fill the buffer. *)
Theorem http_requests_delivered rs chunks :
  Forall req_ok rs -> concat chunks = concat (render <$> rs) -> fits [] chunks ->
  http_conn chunks [] = (act_of <$> rs, Some []).
Proof.
  intros Hrs E Hf. apply conn_requests; [done|done| |done].
  destruct rs as [|q rs]; [done|]. pose proof (render_long q). unfold waits; cbn [length]; lia.
Qed.

(** Three requests in four reads. *)
Definition reqs0 : list Req :=
  [mkReq (bs "GET") (bs "/api/io") [bs "Host: x"] None;
   mkReq (bs "POST") (bs "/api/do") [] (Some (bs "{index:1,value:1}"));
   mkReq (bs "GET") (bs "/api/regs") [bs "Accept: */*"] None].

Definition stream0 : list Z := concat (render <$> reqs0).
Definition reads0 : list (list Z) := [take 10 stream0; take 50 (drop 10 stream0); take 60 (drop 60 stream0); drop 120 stream0].

Lemma http_requests_delivered_witness :
  Forall req_ok reqs0 /\ fits [] reads0 /\ http_conn reads0 [] = (act_of <$> reqs0, Some []).
Proof.
  assert (H : Forall req_ok reqs0).
  { repeat (constructor; [split; [repeat split; try (vm_compute; lia); repeat constructor; discriminate..]|]);
    try constructor. }
  assert (Hf : fits [] reads0) by (vm_compute; repeat split; lia).
  split; [exact H|]. split; [exact Hf|]. exact (http_requests_delivered reqs0 reads0 H eq_refl Hf).
Defined.

(** A read that fills the buffer loses its last byte: 22 requests for [/api/io]
    in a read of 640 bytes and another, the last one is for [/api/o]. *)
Lemma http_full_read_loses_byte :
  let r := mkReq (bs "GET") (bs "/api/io") [bs "A: 1"] None in
  let s := concat (replicate 22 (render r)) in
  fst (http_conn [take 640 s; drop 640 s] []) =
    replicate 21 (act_of r) ++ [Dispatch (bs "GET") (bs "/api/o") None].
Proof. vm_compute. reflexivity. Qed.
