(* ===== verification/Web.v ===== *)
(** * The web server: commands and routes (crates/firmware/src/httpd.rs)

    What a request does and what it is answered.  The statics the handlers reach
    are one record, [Web]: the registers, the state of the hooks, the upgrade
    session.  The build identification, the MAC address and the link state come
    from other files and are parameters. *)
From S2P Require Import Prelude Text Bytes TimeMath RegMap ConfigStore UdpCfg WebJson History.
From S2P Require Import Channels System Ws FwUpg FwSession StMonad FtpArgs Storage HttpReq.

(** JSON text is written with single quotes here. *)
Definition js (s : String.string) : list Z := (fun b => if b =? 39 then 34 else b) <$> bs s.
Arguments js _%_string_scope.

Record Web (F : Type) := mkWeb { w_regs : RegMap; w_sys : Sys; w_fw : FwW F }.
Arguments mkWeb {F} _ _ _.
Arguments w_regs {F} _.
Arguments w_sys {F} _.
Arguments w_fw {F} _.

Definition set_regs {F} (r : RegMap) (w : Web F) : Web F := mkWeb r (w_sys w) (w_fw w).
Definition set_sys {F} (s : Sys) (w : Web F) : Web F := mkWeb (w_regs w) s (w_fw w).
Definition set_fw {F} (u : FwW F) (w : Web F) : Web F := mkWeb (w_regs w) (w_sys w) u.

(** ** Text in bounded buffers *)

(** [write!] on a [heapless::String] of capacity [cap]: the pieces of the format
    in order, up to the first that does not fit. *)
Fixpoint write_pieces (cap : nat) (pieces : list (list Z)) (s : list Z) : list Z :=
  match pieces with
  | [] => s
  | p :: pieces => if (length s + length p <=? cap)%nat then write_pieces cap pieces (s ++ p) else s
  end.

(** [heapless::Vec::extend_from_slice]: all or nothing. *)
Definition extend (cap : nat) (l out : list Z) : list Z := if (length out + length l <=? cap)%nat then out ++ l else out.

Definition hex_digit (v : Z) : Z := if v <? 10 then 48 + v else 87 + v.
Definition hex2 (b : Z) : list Z := [hex_digit (Z.shiftr b 4); hex_digit (Z.land b 15)].

Section Json.
Variables FW_VERSION FW_BUILD : list Z.

Definition info_pieces (r : RegMap) (mac : list Z) (link : bool) (uptime_ms epoch : Z) (lfs_free lfs_total : Z) : list (list Z) :=
  let g i := decimal (get_holding r (Z.of_nat i)) in
  [js "{'t':'info','version':'"; FW_VERSION; js "','build':'"; FW_BUILD;
   js "','board':'io_edge_f407vet6','hclk_mhz':168,'flash_kb':512,'sram_kb':192,'mac':'";
   hex2 (mac !!! 0%nat); js ":"; hex2 (mac !!! 1%nat); js ":"; hex2 (mac !!! 2%nat); js ":";
   hex2 (mac !!! 3%nat); js ":"; hex2 (mac !!! 4%nat); js ":"; hex2 (mac !!! 5%nat);
   js "','ip':'"; g HOLDING_IP_OCTET1_IDX; js "."; g HOLDING_IP_OCTET2_IDX; js "."; g HOLDING_IP_OCTET3_IDX; js ".";
   g HOLDING_IP_OCTET4_IDX; js "','slave_id':"; g HOLDING_SLAVE_ID_IDX; js ",'rs485_baud':"; g HOLDING_RS485_BAUDRATE_IDX;
   js ",'can_id':"; g HOLDING_CAN_ID_IDX; js ",'can_baud':"; g HOLDING_CAN_BAUDRATE_IDX;
   js ",'uptime_ms':"; decimal uptime_ms; js ",'time':"; decimal epoch;
   js ",'hist_en':"; (if get_holding r (Z.of_nat HOLDING_HISTORY_ENABLE_IDX) =? 0 then bs "false" else bs "true");
   js ",'lfs_free':"; decimal lfs_free; js ",'lfs_total':"; decimal lfs_total;
   js ",'net_up':"; (if link then bs "true" else bs "false");
   js ",'di_ms':"; g HOLDING_DI_SAMPLE_MS_IDX; js ",'ai_ms':"; g HOLDING_AI_SAMPLE_MS_IDX; js "}"].

Definition build_info_json (r : RegMap) (s : Sys) (mac : list Z) (link : bool) (snap : FsSnap) : list Z :=
  write_pieces 704 (info_pieces r mac link (as_millis s) (epoch s) (free snap) (snap_total snap)) [].
End Json.

(** One [write!] after another. *)
Definition writes (cap : nat) (ws : list (list (list Z))) : list Z := foldl (fun s p => write_pieces cap p s) [] ws.

Definition bits (n : nat) (v : Z) : list Z := (fun i => Z.land (Z.shiftr v (Z.of_nat i)) 1) <$> seq 0 n.

(** The separate [write!]s of an array. *)
Definition elems (vals : list Z) : list (list (list Z)) :=
  imap (fun i v => [if (0 <? i)%nat then [44] else []; decimal v]) vals.

Definition io_writes (r : RegMap) (s : Sys) : list (list (list Z)) :=
  let di := get_input r (Z.of_nat INPUT_DI_IDX) in
  let do_v := get_holding r (Z.of_nat HOLDING_DO_IDX) in
  [[js "{'t':'io','di':["]] ++ elems (bits 16 di) ++ [[js "],'do':["]] ++ elems (bits 8 do_v) ++ [[js "],'ai':["]] ++
  elems ((fun i => get_input r (Z.of_nat (INPUT_AI0_IDX + i))) <$> seq 0 4) ++
  [[js "],'di_en':"; decimal (get_holding r (Z.of_nat HOLDING_DI_ENABLE_IDX));
    js ",'ai_en':"; decimal (get_holding r (Z.of_nat HOLDING_AI_ENABLE_IDX)); js ",'ms':"; decimal (as_millis s); js "}"]].

Definition build_io_json (r : RegMap) (s : Sys) : list Z := writes 256 (io_writes r s).

Definition regs_writes (r : RegMap) (s : Sys) : list (list (list Z)) :=
  [[js "{'t':'regs','holding':["]] ++
  elems ((fun i => io_read_holding r (Z.of_nat i) s) <$> seq 0 MODBUS_HOLDING_REGISTER_NUMBERS) ++ [[js "],'input':["]] ++
  elems ((fun i => get_input r (Z.of_nat i)) <$> seq 0 MODBUS_INPUT_REGISTER_NUMBERS) ++ [[js "]}"]].

Definition build_regs_json (r : RegMap) (s : Sys) : list Z := writes 256 (regs_writes r s).

Section Commands.
Context {F : Type} `{!Flash F}.
Abbreviation T := (M (Web F)).

(** ** Commands *)

(** A write to the registers through the hooks; whether it was accepted. *)
Definition on_regs (f : RegMap -> Sys -> result unit * RegMap * Sys) : T bool := fun w =>
  let '(r, regs, sys) := f (w_regs w) (w_sys w) in Some (is_ok r, set_sys sys (set_regs regs w)).

Definition on_sys (f : Sys -> Sys) : T unit := modify (fun w => set_sys (f (w_sys w)) w).

Definition web_write_do_bit (bit : Z) (state : bool) : T bool := on_regs (io_write_do_bit bit state).

Definition web_cmd_reg (addr value : Z) : T bool :=
  if negb ((0 <=? addr) && (addr <? Z.of_nat MODBUS_HOLDING_REGISTER_NUMBERS)) || negb ((0 <=? value) && (value <=? 0xFFFF))
  then mret false
  else if (Z.to_nat addr =? HOLDING_REBOOT_IDX)%nat then
    (if negb (value =? 0) then on_sys (set_reboot_status true) else mret tt) ;; mret true
  else on_regs (io_write_holding addr value).

Definition set_octet (i : nat) (v : Z) : T unit :=
  on_regs (io_write_holding (Z.of_nat (HOLDING_IP_OCTET1_IDX + i)) v) ;; mret tt.

(** The address field: [None] goes on, [Some e] returns [e]. *)
Definition cfg_ip (body : list Z) : T (option (option (list Z))) :=
  ip ← lift (json_get_str body (bs "ip"));
  match ip with
  | None => mret None
  | Some ip =>
      match from_utf8 ip with
      | None => mret (Some None)
      | Some s =>
          match parse_parts 4 255 (split 46 s) with
          | Some ([a; b; c; d], []) =>
              if ip_addr_valid a b c d then
                set_octet 0 a ;; set_octet 1 b ;; set_octet 2 c ;; set_octet 3 d ;; mret None
              else mret (Some (Some (bs "invalid ip")))
          | _ => mret (Some (Some (bs "invalid ip")))
          end
      end
  end.

(** A number field: checked, then written. *)
Definition cfg_num (body key : list Z) (valid : Z -> bool) (idx : nat) (err : list Z) : T (option (list Z)) :=
  v ← lift (json_get_i32 body key);
  match v with
  | None => mret None
  | Some v => if valid v then web_cmd_reg (Z.of_nat idx) v ;; mret None else mret (Some err)
  end.

(** [None] is success. *)
Definition web_cmd_cfg (body : list Z) : T (option (list Z)) :=
  ip ← cfg_ip body;
  match ip with
  | Some r => mret r
  | None =>
      e ← cfg_num body (bs "rs485") (fun v => (1200 <=? v) && (v <=? 115200)) HOLDING_RS485_BAUDRATE_IDX (bs "invalid rs485 baud");
      if e is Some e then mret (Some e) else
      e ← cfg_num body (bs "sid") (fun v => (1 <=? v) && (v <=? 247)) HOLDING_SLAVE_ID_IDX (bs "invalid slave id");
      if e is Some e then mret (Some e) else
      e ← cfg_num body (bs "can_bps") (fun v => bool_decide (v ∈ [50; 100; 125; 250; 500; 800; 1000])) HOLDING_CAN_BAUDRATE_IDX (bs "invalid can baud");
      if e is Some e then mret (Some e) else
      cfg_num body (bs "can_id") (fun v => (1 <=? v) && (v <=? 0x7FF)) HOLDING_CAN_ID_IDX (bs "invalid can id")
  end.

(** A time set by a client. *)
Definition web_set_time (ts : Z) : T bool := fun w =>
  let '(ok, s) := set_timestamp (as_u32 ts) (w_sys w) in Some (ok, set_sys s w).

Definition web_do (body : list Z) : T bool :=
  i ← lift (json_get_i32 body (bs "index")); v ← lift (json_get_i32 body (bs "value"));
  match i, v with
  | Some i, Some v => if (0 <=? i) && (i <? 8) then web_write_do_bit i (negb (v =? 0)) else mret false
  | _, _ => mret false
  end.
End Commands.

(** ** Answers *)

Definition header_pieces (status ctype : list Z) (n : nat) (keep : bool) : list (list Z) :=
  [bs "HTTP/1.1 "; status; [13; 10] ++ bs "Content-Type: "; ctype; [13; 10] ++ bs "Content-Length: ";
   decimal (Z.of_nat n); [13; 10] ++ bs "Connection: "; if keep then bs "keep-alive" else bs "close"; CRLF2].

(** The bytes written to the socket. *)
Definition respond (status ctype body : list Z) (keep : bool) : list Z :=
  write_pieces 192 (header_pieces status ctype (length body) keep) [] ++ body.

Definition respond_extra (status ctype body extra : list Z) : list Z :=
  write_pieces 256 [bs "HTTP/1.1 "; status; [13; 10] ++ bs "Content-Type: "; ctype; [13; 10] ++ bs "Content-Length: ";
    decimal (Z.of_nat (length body)); [13; 10] ++ bs "Connection: keep-alive" ++ [13; 10]; extra; [13; 10]] []
  ++ body.

Definition OK_200 : list Z := bs "200 OK".
Definition BAD_400 : list Z := bs "400 Bad Request".
Definition JSON : list Z := bs "application/json".

Definition json_ok : list Z := respond OK_200 JSON (js "{'ok':true}") true.
Definition err_body (err : list Z) : list Z := write_pieces 96 [js "{'ok':false,'err':'"; err; js "'}"] [].
Definition json_err (status err : list Z) : list Z := respond status JSON (err_body err) true.

(** An error the connection is closed with, as the request loop answers it. *)
Definition bad_request (err : list Z) : list Z := respond BAD_400 JSON (js "{'ok':false,'err':'" ++ err ++ js "'}") false.

(** The listing of the history: as many entries as leave a margin of 64 bytes. *)
Fixpoint history_entries (i : nat) (es : list (list Z)) (b : list Z) : list Z :=
  match es with
  | [] => b
  | e :: es =>
      let name_end := default 20%nat (position (Z.eqb 0) (take 20 e)) in
      let size := from_be_bytes32 (e !!! 20%nat) (e !!! 21%nat) (e !!! 22%nat) (e !!! 23%nat) in
      if (704 <? length b + 64)%nat then b else
      history_entries (S i) es (write_pieces 704
        [if (0 <? i)%nat then [44] else []; js "{'name':'"; default [] (from_utf8 (take name_end e)); js "','size':"; decimal size; js "}"] b)
  end.

Definition history_json (snap : FsSnap) : list Z :=
  let b := write_pieces 704 [js "{'files':["] [] in
  let b := history_entries 0 (take (count snap) (entries snap)) b in
  write_pieces 704 [js "]}"] b.

(** The header of a download. *)
Definition download_header (size : Z) (name : list Z) : list Z :=
  write_pieces 256 [bs "HTTP/1.1 200 OK" ++ [13; 10] ++ bs "Content-Type: application/octet-stream" ++ [13; 10] ++ bs "Content-Length: ";
    decimal size; [13; 10] ++ bs "Connection: close" ++ [13; 10] ++ js "Content-Disposition: attachment; filename='";
    default [] (from_utf8 name); js "'" ++ CRLF2] [].

(** ** Routes *)

(** What a route ends in: an answer; the two routes that wait for the storage
    task; an answer after which the device restarts 150 ms later. *)
Inductive Reply :=
| Answer (bytes : list Z)
| AnswerListing (sent : bool)
| AnswerFile (nb : list Z)
| AnswerReboot (bytes : list Z).

Definition KNOWN : list (list Z) :=
  [bs "/"; bs "/api/info"; bs "/api/io"; bs "/api/regs"; bs "/api/history"; bs "/api/history/download"; bs "/ws";
   bs "/api/do"; bs "/api/reg"; bs "/api/time"; bs "/api/cfg"; bs "/api/save"; bs "/api/reboot"; bs "/api/history/delete"].

(** A name for the storage task: 24 bytes, NUL-padded. *)
Definition name24 (n : list Z) : list Z := list_inserts 0 (take 23 n) (replicate 24 0).

Section Dispatch.
Context {F : Type} `{!Flash F}.
Abbreviation T := (M (Web F)).
(** The page of the single-page application, the JSON of the device, and the
    lengths of the other files' identifications. *)
Variable INDEX_GZ : list Z.
Variable info_json : Web F -> list Z.

Definition send_queue (c : StorageCmd) : T bool := fun w =>
  let '(ok, q) := try_send QUEUE_CAP c (queue (lanes (w_sys w))) in
  Some (ok, set_sys (set_lanes (mkLanes q (ctrl_queue (lanes (w_sys w)))) (w_sys w)) w).

Definition answer_if (ok : bool) (err : list Z) : Reply := Answer (if ok then json_ok else json_err BAD_400 err).

Definition get_route (path : list Z) (query : option (list Z)) : option (T Reply) :=
  if bytes_eqb path (bs "/") then
    Some (mret (Answer (respond_extra OK_200 (bs "text/html") INDEX_GZ (bs "Content-Encoding: gzip" ++ [13; 10]))))
  else if bytes_eqb path (bs "/api/info") then
    Some (b ← reads info_json; mret (Answer (respond OK_200 JSON b true)))
  else if bytes_eqb path (bs "/api/io") then
    Some (b ← reads (fun w => build_io_json (w_regs w) (w_sys w)); mret (Answer (respond OK_200 JSON b true)))
  else if bytes_eqb path (bs "/api/regs") then
    Some (b ← reads (fun w => build_regs_json (w_regs w) (w_sys w)); mret (Answer (respond OK_200 JSON b true)))
  else if bytes_eqb path (bs "/api/history") then Some (ok ← send_queue SnapReq; mret (AnswerListing ok))
  else if bytes_eqb path (bs "/api/history/download") then
    Some (
      let name := q ← query; url_query_get q (bs "name") in
      match name with
      | Some n =>
          if history_web_name_valid n then send_queue (FileOpen (name24 n)) ;; mret (AnswerFile (name24 n))
          else mret (answer_if false (bs "invalid file name"))
      | None => mret (answer_if false (bs "invalid file name"))
      end)
  else None.

Definition post_route (path b : list Z) : option (T Reply) :=
  if bytes_eqb path (bs "/api/do") then Some (ok ← web_do b; mret (answer_if ok (bs "invalid index/value")))
  else if bytes_eqb path (bs "/api/reg") then
    Some (a ← lift (json_get_i32 b (bs "addr")); v ← lift (json_get_i32 b (bs "value"));
          ok ← match a, v with Some a, Some v => web_cmd_reg a v | _, _ => mret false end;
          mret (answer_if ok (bs "invalid addr/value")))
  else if bytes_eqb path (bs "/api/time") then
    Some (ts ← lift (json_get_i32 b (bs "ts"));
          ok ← match ts with Some ts => web_set_time ts | None => mret false end;
          mret (answer_if ok (bs "invalid timestamp")))
  else if bytes_eqb path (bs "/api/save") then Some (on_sys holding_save ;; mret (Answer json_ok))
  else if bytes_eqb path (bs "/api/reboot") then
    Some (on_sys (fun s => cold (at_ticks (ticks s + 150 * tick_khz s) s)) ;; mret (AnswerReboot json_ok))
  else if bytes_eqb path (bs "/api/cfg") then
    Some (e ← web_cmd_cfg b; mret (match e with None => Answer json_ok | Some e => Answer (json_err BAD_400 e) end))
  else if bytes_eqb path (bs "/api/history/delete") then
    Some (n ← lift (json_get_str b (bs "name"));
          ok ← match n with
               | Some n => if history_web_name_valid n then send_queue (Del (name24 n)) else mret false
               | None => mret false
               end;
          mret (answer_if ok (bs "delete failed")))
  else None.

Definition no_route (path : list Z) : Reply :=
  if bool_decide (path ∈ KNOWN) then Answer (json_err (bs "405 Method Not Allowed") (bs "method not allowed"))
  else Answer (respond (bs "404 Not Found") JSON (js "{'ok':false,'err':'not found'}") true).

Definition dispatch (method target : list Z) (body : option (list Z)) : T Reply :=
  let '(path, query) := match position (Z.eqb 63) target with
                        | Some q => (take q target, Some (drop (S q) target))
                        | None => (target, None)
                        end in
  let path := default [] (from_utf8 path) in
  let route := if bytes_eqb method (bs "GET") then get_route path query
               else if bytes_eqb method (bs "POST") then post_route path (default [] body) else None in
  match route with
  | Some t => t
  | None => mret (no_route path)
  end.
End Dispatch.

(** A device at boot. *)
Definition web0 {F} (nor : option F) : Web F :=
  mkWeb (RegMap_new 0x1234) (mkSys TS_DEFAULT None 0 None (replicate 8 (Some false)) (replicate 8 (Some false)) (mkLanes [] []) 5000 1)
    (mkFwW FW_init [] nor).
