(* ===== verification/WsSession.v ===== *)
(** * The WebSocket session of the web server (crates/firmware/src/httpd.rs)

    Commands, firmware upload in binary frames, close and ping, the reply buffer
    that is flushed after each read. *)
From S2P Require Import Prelude Text Bytes Crc TimeMath RegMap ConfigStore StorageCfg UdpCfg WebJson History Channels.
From S2P Require Import System Ws WsFrames FwUpg W25q NorSpec FwSession StMonad Storage HttpReq Web.

Definition ws_extract_key (hdr : list Z) : option (list Z) :=
  v ← hdr_find hdr (bs "Sec-WebSocket-Key:");
  if (length v <? 24)%nat then None else Some (take 24 v).

(** The reply buffer holds 768 bytes; header and payload are appended one after
    the other, each only if it fits.  [usize] has 32 bits. *)
Definition ws_queue_frame (opcode : Z) (payload out : list Z) : list Z :=
  let '(hdr, hl) := ws_frame_hdr 32 (replicate 10 0) opcode (Z.of_nat (length payload)) in
  extend 768 payload (extend 768 (take hl hdr) out).

(** [None]: the frame does not fit in the scratch buffer of 800 bytes. *)
Definition ws_frame_buf (payload : list Z) : option (list Z) :=
  let '(hdr, hl) := ws_frame_hdr 32 (replicate 10 0) 1 (Z.of_nat (length payload)) in
  if (hl + length payload <=? 800)%nat then Some (take hl hdr ++ payload) else None.

(** What a session works on: the device, the CRC of the upload, the reply buffer,
    whether the session goes on. *)
Record WsS (F : Type) := mkWsS { ws_web : Web F; fw_crc : Z; ws_out : list Z; alive : bool }.
Arguments mkWsS {F} _ _ _ _.
Arguments ws_web {F} _.
Arguments fw_crc {F} _.
Arguments ws_out {F} _.
Arguments alive {F} _.

Section Session.
Context {F : Type} `{!Flash F}.
Abbreviation T := (M (WsS F)).

Definition on_web {A} (m : M (Web F) A) : T A := fun s =>
  match m (ws_web s) with
  | Some (a, w) => Some (a, mkWsS w (fw_crc s) (ws_out s) (alive s))
  | None => None
  end.
Definition queue_frame (opcode : Z) (payload : list Z) : T unit :=
  modify (fun s => mkWsS (ws_web s) (fw_crc s) (ws_queue_frame opcode payload (ws_out s)) (alive s)).
Definition set_crc (v : Z) : T unit := modify (fun s => mkWsS (ws_web s) v (ws_out s) (alive s)).
Definition stop : T unit := modify (fun s => mkWsS (ws_web s) (fw_crc s) (ws_out s) false).

(** An operation of the upgrade session. *)
Definition on_fw {A} (f : FwW F -> option (A * FwW F)) : T A := on_web (fun w =>
  match f (w_fw w) with Some (a, u) => Some (a, set_fw u w) | None => None end).
Definition fw_reads {A} (f : FwW F -> A) : T A := reads (fun s => f (w_fw (ws_web s))).

Definition fw_abort : T unit := on_fw (fun u => Some (tt, abort u)).

Definition OK_TXT : list Z := js "{'ok':true}".
Definition NO_TXT : list Z := js "{'ok':false}".
Definition err_txt (e : list Z) : list Z := js "{'ok':false,'err':'" ++ e ++ js "'}".

(** The answer of [fw_end]. *)
Definition ws_fw_end : T (list Z) :=
  got ← fw_reads received;
  if got =? 0 then fw_abort ;; mret (err_txt (bs "no data")) else
  tot ← fw_reads total;
  if negb (got =? tot) then fw_abort ;; mret (err_txt (bs "size mismatch")) else
  crc ← reads fw_crc;
  ok ← on_fw (finish (Some crc));
  if negb ok then set_crc 0 ;; mret (err_txt (bs "crc mismatch")) else
  set_crc 0 ;;
  p ← on_fw (fun u => let '(p, nor) := boot_set_pending true (FNOR u) in Some (p, mkFwW (FW u) (FW_DBG u) nor));
  if negb p then mret (err_txt (bs "boot_request")) else mret OK_TXT.

Definition fw_start_reply (rc : Z) : list Z :=
  if rc =? 0 then OK_TXT
  else if rc =? -2 then err_txt (bs "keyhash mismatch")
  else if rc =? -3 then err_txt (bs "already in progress")
  else err_txt (bs "erase/init").

Definition ws_fw_start (payload : list Z) : T unit :=
  size ← on_web (lift (json_get_i32 payload (bs "size")));
  let size := default 0 size in
  if size <=? 0 then queue_frame 1 (err_txt (bs "bad size")) else
  b64 ← on_web (lift (json_get_str payload (bs "keyhash")));
  match b64 with
  | None =>
      rc ← on_fw (fun u => Some (start (as_u32 size) None u)); queue_frame 1 (fw_start_reply rc)
  | Some b64 =>
      d ← on_web (lift (b64_decode b64 (replicate 32 0)));
      match d with
      | (Some n, kh) =>
          if (n =? 32)%nat then rc ← on_fw (fun u => Some (start (as_u32 size) (Some kh) u)); queue_frame 1 (fw_start_reply rc)
          else queue_frame 1 (err_txt (bs "keyhash mismatch"))
      | (None, _) => queue_frame 1 (err_txt (bs "keyhash mismatch"))
      end
  end.

Definition ok_txt (ok : bool) : list Z := if ok then OK_TXT else NO_TXT.

Definition ws_handle_cmd (payload : list Z) : T unit :=
  cmd ← on_web (lift (json_get_str payload (bs "cmd")));
  let cmd := default [] cmd in
  if bytes_eqb cmd (bs "do") then
    ok ← on_web (web_do payload);
    if ok : bool then
      b ← reads (fun s => build_io_json (w_regs (ws_web s)) (w_sys (ws_web s))); queue_frame 1 b
    else queue_frame 1 (err_txt (bs "bad index"))
  else if bytes_eqb cmd (bs "reg") then
    a ← on_web (lift (json_get_i32 payload (bs "addr"))); v ← on_web (lift (json_get_i32 payload (bs "value")));
    match a, v with
    | Some a, Some v => ok ← on_web (web_cmd_reg a v); queue_frame 1 (ok_txt ok)
    | _, _ => queue_frame 1 NO_TXT
    end
  else if bytes_eqb cmd (bs "time") then
    ts ← on_web (lift (json_get_i32 payload (bs "ts")));
    match ts with
    | Some ts => ok ← on_web (web_set_time ts); queue_frame 1 (ok_txt ok)
    | None => queue_frame 1 NO_TXT
    end
  else if bytes_eqb cmd (bs "cfg") then
    e ← on_web (web_cmd_cfg payload); queue_frame 1 (match e with None => OK_TXT | Some e => err_body e end)
  else if bytes_eqb cmd (bs "save") then on_web (on_sys holding_save) ;; queue_frame 1 OK_TXT
  else if bytes_eqb cmd (bs "factory_reset") then
    on_web (on_sys config_erase_all) ;; queue_frame 1 OK_TXT ;; on_web (on_sys (set_reboot_status true))
  else if bytes_eqb cmd (bs "fw_start") then ws_fw_start payload
  else if bytes_eqb cmd (bs "fw_end") then
    act ← fw_reads active;
    if negb act then queue_frame 1 (err_txt (bs "not in progress")) else
    r ← ws_fw_end;
    (if bytes_eqb r OK_TXT then on_web (on_sys history_sync) ;; on_web (on_sys (set_reboot_status true)) else mret tt) ;;
    queue_frame 1 r
  else queue_frame 1 (err_txt (bs "unknown cmd")).

(** A binary frame: firmware data, dropped unless an upload runs. *)
Definition ws_binary (data : list Z) : T unit :=
  act ← fw_reads active;
  if act : bool then
    ok ← on_fw (write data);
    if ok : bool then s ← reads fw_crc; set_crc (fw_crc16_ccitt s data) else mret tt
  else mret tt.

Definition ws_frame (p : WsParser) (ev : FeedEvent) : T unit :=
  match ev with
  | Close => stop
  | Frame fin opcode payload_len =>
      if negb fin then queue_frame 8 [] ;; stop
      else if opcode =? 1 then ws_handle_cmd (take (Nat.min payload_len 255) (payload p))
      else if opcode =? 2 then ws_binary (take (Nat.min payload_len (length (payload p))) (payload p))
      else if opcode =? 8 then queue_frame 8 [] ;; stop
      else if opcode =? 9 then
        if (payload_len <=? length (payload p))%nat then queue_frame 10 (take payload_len (payload p)) else panic
      else if opcode =? 10 then mret tt
      else stop
  end.

(** The callback of the parser; a panic in it stays one. *)
Definition ws_event (p : WsParser) (ev : FeedEvent) (e : option (WsS F)) : WsParser * option (WsS F) :=
  (p, s ← e; '(_, s) ← ws_frame p ev s; Some s).

(** The closure [step]: the bytes of one read. *)
Definition ws_step (data : list Z) (p : WsParser) (s : WsS F) : option (WsParser * WsS F) :=
  '(ok, p, e) ← ws_feed 32 ws_event data p (Some s);
  s ← e;
  Some (p, mkWsS (ws_web s) (fw_crc s) (ws_out s) (alive s && ok)).

(** One turn of the session: a read ([None]: closed or failed), or one of the two
    tickers.  The result is what is written to the socket, and the state unless
    the session ends. *)
Inductive WsTurn := WsRead (data : option (list Z)) | WsPush | WsInfo.

Variable info_json : Web F -> list Z.

Definition ws_turn (t : WsTurn) (p : WsParser) (s : WsS F) : option (list Z * option (WsParser * WsS F)) :=
  match t with
  | WsRead None => Some ([], None)
  | WsRead (Some data) =>
      '(p, s) ← ws_step data p (mkWsS (ws_web s) (fw_crc s) [] (alive s));
      Some (ws_out s, if alive s then Some (p, s) else None)
  | WsPush =>
      let w := ws_web s in
      a ← ws_frame_buf (build_io_json (w_regs w) (w_sys w));
      b ← ws_frame_buf (build_regs_json (w_regs w) (w_sys w));
      Some (a ++ b, Some (p, s))
  | WsInfo => a ← ws_frame_buf (info_json (ws_web s)); Some (a, Some (p, s))
  end.

(** The session from the handshake on; [pending] came with the request. *)
Definition ws_start (pending : list Z) (w : Web F) : option (list Z * option (WsParser * WsS F)) :=
  '(p, s) ← ws_step pending WsParser_new (mkWsS w 0 [] true);
  Some (ws_out s, if alive s then Some (p, s) else None).
End Session.

(** ** The frames of a stream *)

Section Stream.
Context {F : Type} `{!Flash F}.
Abbreviation T := (M (WsS F)).

(** A frame by what the parser delivers: fin bit, opcode, payload. *)
Definition handle_frame (log : bool * Z * list Z) : T unit :=
  let '(fin, op, data) := log in
  if negb fin then queue_frame 8 [] ;; stop
  else if op =? 1 then ws_handle_cmd (take 255 data)
  else if op =? 2 then ws_binary data
  else if op =? 8 then queue_frame 8 [] ;; stop
  else if op =? 9 then queue_frame 10 data
  else if op =? 10 then mret tt
  else stop.

Lemma ws_frame_handle (p : WsParser) f op n : ws_wf p -> (n <= PAYLOAD_MAX)%nat ->
  ws_frame p (Frame f op n) = (handle_frame (f, op, take n (payload p)) : T unit).
Proof.
  intros Hp Hn. pose proof (wf_payload p Hp). unfold ws_frame, handle_frame.
  rewrite take_take, (Nat.min_comm 255), (Nat.min_l n (length _)), (proj2 (Nat.leb_le n _)) by lia. done.
Qed.

(** The frames of a stream in order; a panic ends them. *)
Fixpoint run_frames (logs : list (bool * Z * list Z)) : T unit :=
  match logs with [] => mret tt | l :: logs => handle_frame l ;; run_frames logs end.

Lemma event_none p ev : ws_event p ev (None : option (WsS F)) = (p, None).
Proof. done. Qed.

Lemma feed_frames_ws frames : forall p e,
  idle p -> Forall cframe_ok frames ->
  exists p', ws_feed 32 ws_event (concat (cframe_bytes <$> frames)) p e =
    Some (true, p', (s ← e; '(_, s) ← run_frames (cframe_log <$> frames) s; Some s) : option (WsS F)) /\ idle p'.
Proof.
  induction frames as [|[[[f op] key] ds] frames IH]; intros p e Hp Hf.
  - exists p. split; [|done]. by destruct e.
  - apply Forall_cons_1 in Hf as [[Hop Hn] Hf]. cbn [fmap list_fmap concat cframe_bytes cframe_log run_frames].
    destruct (feed_client_frame 32 ws_event f op key ds (concat (cframe_bytes <$> frames)) p e Hp Hop Hn)
      as (p1 & E1 & Ht & Hw & _). rewrite E1. unfold ws_event at 1.
    destruct (IH (to_header p1) (s ← e; '(_, s) ← ws_frame p1 (Frame f op (length ds)) s; Some s)) as (p' & E2 & Hi);
      [by apply to_header_idle|done|].
    exists p'. split; [|done]. rewrite E2. do 2 f_equal. destruct e as [s|]; [|done]. cbn [mbind option_bind].
    rewrite ws_frame_handle by (done || lia). rewrite Ht. unfold mbind, M_bind, option_bind.
    by destruct (handle_frame (f, op, ds) s) as [[? s1]|].
Qed.

(** ** The reply buffer does not matter *)

(** The same but for the replies. *)
Definition same (s s' : WsS F) : Prop := ws_web s = ws_web s' /\ fw_crc s = fw_crc s' /\ alive s = alive s'.

(** Same result, same state but for the replies, and a session that has ended
    stays so. *)
Definition outless {A} (m : T A) : Prop := forall s s', same s s' ->
  match m s, m s' with
  | Some (a, s1), Some (a', s1') => a = a' /\ same s1 s1' /\ (alive s1 = true -> alive s = true)
  | None, None => True
  | _, _ => False
  end.

Lemma outless_ret {A} (a : A) : outless (mret a).
Proof. intros s s' H. done. Qed.
Lemma outless_panic {A} : outless (panic : T A).
Proof. done. Qed.
Lemma outless_bind {A B} (m : T A) (k : A -> T B) : outless m -> (forall a, outless (k a)) -> outless (m ≫= k).
Proof.
  intros Hm Hk s s' H. specialize (Hm s s' H). unfold mbind, M_bind.
  destruct (m s) as [[a s1]|], (m s') as [[a' s1']|]; try done. destruct Hm as (<- & H1 & Hal).
  specialize (Hk a s1 s1' H1). destruct (k a s1) as [[b s2]|], (k a s1') as [[b' s2']|]; try done.
  destruct Hk as (-> & H2 & Hal2). auto.
Qed.
Lemma outless_web {A} (m : M (Web F) A) : outless (on_web m).
Proof. intros s s' (E1 & E2 & E3). unfold on_web. rewrite <- E1. destruct (m (ws_web s)) as [[a w]|]; [|done]. done. Qed.
Lemma outless_reads {A} (f : WsS F -> A) : (forall s s', same s s' -> f s = f s') -> outless (reads f).
Proof. intros Hf s s' H. cbn. by rewrite (Hf s s' H). Qed.
Lemma outless_queue op l : outless (queue_frame op l).
Proof. intros s s' (E1 & E2 & E3). done. Qed.
Lemma outless_crc v : outless (set_crc v).
Proof. intros s s' (E1 & E2 & E3). done. Qed.
Lemma outless_stop : outless stop.
Proof. intros s s' (E1 & E2 & E3). done. Qed.

Ltac outless :=
  repeat first
    [ apply outless_ret | apply outless_panic | apply outless_web | apply outless_queue | apply outless_crc | apply outless_stop
    | apply outless_reads; intros s1 s2 (E1 & E2 & E3); cbv beta; congruence
    | match goal with |- outless (_ ≫= _) => apply outless_bind; intros end
    | match goal with |- outless (match ?x with _ => _ end) => destruct x end
    | match goal with |- outless (let '(_, _) := ?x in _) => destruct x end ].

Lemma outless_fw_end : outless ws_fw_end.
Proof. unfold ws_fw_end, on_fw, fw_reads, fw_abort, on_fw. outless. Qed.
Lemma outless_fw_start l : outless (ws_fw_start l).
Proof. unfold ws_fw_start, on_fw. cbv zeta. outless. Qed.
Lemma outless_cmd l : outless (ws_handle_cmd l).
Proof.
  unfold ws_handle_cmd, fw_reads. cbv zeta.
  repeat first [apply outless_fw_end | apply outless_fw_start | progress outless].
Qed.
Lemma outless_frame p ev : outless (ws_frame p ev).
Proof.
  unfold ws_frame, ws_binary, on_fw, fw_reads. repeat first [apply outless_cmd | progress outless].
Qed.

(** A session state that may have panicked. *)
Definition same_opt (e e' : option (WsS F)) : Prop :=
  match e, e' with Some s, Some s' => same s s' | None, None => True | _, _ => False end.

Lemma same_event p ev e e' : same_opt e e' -> same_opt (ws_event p ev e).2 (ws_event p ev e').2.
Proof.
  destruct e as [s|], e' as [s'|]; try done. intros H. unfold ws_event. cbn [snd].
  pose proof (outless_frame p ev s s' H) as Ho. cbn [mbind option_bind].
  destruct (ws_frame p ev s) as [[a s1]|], (ws_frame p ev s') as [[a' s1']|]; try done. by destruct Ho as (_ & ? & _).
Qed.

(** The end of the session is final. *)
Definition live (e : option (WsS F)) : Prop := match e with Some s => alive s = true | None => False end.

Lemma live_event p ev e : live (ws_event p ev e).2 -> live e.
Proof.
  destruct e as [s|]; [|done]. unfold ws_event. cbn [snd mbind option_bind].
  assert (Hs : same s s) by done. pose proof (outless_frame p ev s s Hs) as Ho.
  destruct (ws_frame p ev s) as [[a s1]|]; [|done]. destruct Ho as (_ & _ & Ho). exact Ho.
Qed.

(** What the parser does with a byte does not depend on the session. *)
Lemma feed1_rel b p e e' : same_opt e e' ->
  match feed1 32 ws_event b p e, feed1 32 ws_event b p e' with
  | Some (ok, q, e1), Some (ok', q', e1') => ok = ok' /\ q = q' /\ same_opt e1 e1' /\ (live e1 -> live e)
  | None, None => True
  | _, _ => False
  end.
Proof.
  intros H. unfold feed1.
  assert (Hev : forall p ev, same_opt (ws_event p ev e).2 (ws_event p ev e').2) by (intros; by apply same_event).
  destruct (ws_state p); cbn [mbind option_bind];
  repeat match goal with
  | |- context [upd ?a ?b ?c] => destruct (upd a b c); cbn [option_bind mbind]
  | |- context [if ?c then _ else _] => match type of c with bool => destruct c end
  end; try done.
  match goal with |- context [ws_event ?q ?ev e] =>
    pose proof (Hev q ev) as Hq; pose proof (live_event q ev e) as Hl;
    assert ((ws_event q ev e).1 = (ws_event q ev e').1) as E by done;
    destruct (ws_event q ev e), (ws_event q ev e') end.
  cbn in *. subst. done.
Qed.

Lemma feed_rel data : forall p e e', same_opt e e' ->
  match ws_feed 32 ws_event data p e, ws_feed 32 ws_event data p e' with
  | Some (ok, q, e1), Some (ok', q', e1') => ok = ok' /\ q = q' /\ same_opt e1 e1' /\ (live e1 -> live e)
  | None, None => True
  | _, _ => False
  end.
Proof.
  induction data as [|b data IH]; intros p e e' H; [done|]. rewrite !feed_cons.
  pose proof (feed1_rel b p e e' H) as H1.
  destruct (feed1 32 ws_event b p e) as [[[ok q] e1]|], (feed1 32 ws_event b p e') as [[[ok' q'] e1']|]; try done.
  destruct H1 as (<- & <- & Hs & Hl). cbn [mbind option_bind]. destruct ok; [|done].
  specialize (IH q e1 e1' Hs). destruct (ws_feed _ _ data q e1) as [[[? ?] ?]|], (ws_feed _ _ data q e1') as [[[? ?] ?]|]; try done.
  destruct IH as (-> & -> & ? & Hl2). split_and!; auto.
Qed.

(** The reads of a session: the replies are written out and cleared each time. *)
Definition clear_out (s : WsS F) : WsS F := mkWsS (ws_web s) (fw_crc s) [] (alive s).

Fixpoint ws_reads (chunks : list (list Z)) (p : WsParser) (s : WsS F) : option (WsParser * WsS F) :=
  match chunks with
  | [] => Some (p, s)
  | c :: chunks => '(p, s) ← ws_step c p (clear_out s); if alive s then ws_reads chunks p s else Some (p, s)
  end.

(** A session that stays open does to the device what its frames say, however
    they are cut into reads. *)
Lemma reads_feed chunks : forall p s1 s2 p' s', same s1 s2 ->
  ws_feed 32 ws_event (concat chunks) p (Some s1) = Some (true, p', Some s') -> alive s' = true ->
  exists s'', ws_reads chunks p s2 = Some (p', s'') /\ same s' s''.
Proof.
  induction chunks as [|c chunks IH]; intros p s1 s2 p' s' Hs Hf Hal.
  { injection Hf as <- <-. exists s2. done. }
  cbn [concat] in Hf. rewrite feed_app in Hf.
  assert (Hs2 : same_opt (Some s1) (Some (clear_out s2))) by exact Hs.
  pose proof (feed_rel c p (Some s1) (Some (clear_out s2)) Hs2) as Hr.
  destruct (ws_feed 32 ws_event c p (Some s1)) as [[[ok q] e1]|]; [|done]. cbn [mbind option_bind] in Hf.
  destruct ok; [|done]. pose proof (feed_rel (concat chunks) q e1 e1) as Hr2. rewrite Hf in Hr2.
  assert (same_opt e1 e1) as Hrefl by (by destruct e1). destruct (Hr2 Hrefl) as (_ & _ & _ & Hl).
  specialize (Hl Hal). destruct e1 as [s1'|]; [|done]. cbn in Hl.
  cbn [ws_reads]. unfold ws_step. destruct (ws_feed 32 ws_event c p (Some (clear_out s2))) as [[[ok' q'] e2]|]; [|done].
  destruct Hr as (<- & <- & Hs' & _). destruct e2 as [s2'|]; [|done]. cbn [mbind option_bind].
  destruct Hs' as (E1 & E2 & E3). rewrite <- E3, Hl. cbn [andb].
  apply (IH q s1'); [|exact Hf|done]. by split.
Qed.
End Stream.

(** ** An upload *)

Section Upload.
Context {F : Type} `{!Flash F, !NorSpec F}.
Abbreviation S := (WsS F).

(** Comparisons of commands that are known. *)
Ltac beq :=
  repeat match goal with
  | |- context [bytes_eqb ?a ?b] => let v := eval vm_compute in (bytes_eqb a b) in change (bytes_eqb a b) with v
  end; cbv beta iota; cbn [ws_web fw_crc ws_out alive w_fw w_sys w_regs set_fw set_sys negb].

Ltac m_unfold := unfold on_fw, fw_reads, on_web, on_sys, queue_frame, set_crc, lift, reads, modify, mbind, M_bind, mret, M_ret; cbv beta.

Lemma cmd_fw_start l t u1 (s : S) :
  json_get_str l (bs "cmd") = Some (Some (bs "fw_start")) -> json_get_i32 l (bs "size") = Some (Some t) ->
  json_get_str l (bs "keyhash") = Some None -> 0 < t < 4294967296 -> start t None (w_fw (ws_web s)) = (0, u1) ->
  exists out, ws_handle_cmd l s = Some (tt, mkWsS (set_fw u1 (ws_web s)) (fw_crc s) out (alive s)).
Proof.
  intros Hc Hs Hk Ht E. unfold ws_handle_cmd. m_unfold. rewrite Hc. cbn [default id ws_web]. beq.
  unfold ws_fw_start. m_unfold. rewrite Hs. cbn [default id ws_web]. rewrite (proj2 (Z.leb_gt t 0)) by lia. rewrite Hk.
  cbn [ws_web]. rewrite as_u32_id by (unfold is_u32; lia). rewrite E. by eexists.
Qed.

Lemma crc_app a c d : fw_crc16_ccitt a (c ++ d) = fw_crc16_ccitt (fw_crc16_ccitt a c) d.
Proof. apply foldl_app. Qed.

(** The binary frames append to what was received. *)
Lemma run_binary m0 t pieces : forall d (s : S) f,
  FNOR (w_fw (ws_web s)) = Some f -> receiving m0 t d (FW (w_fw (ws_web s))) f -> bytes_ok (concat pieces) ->
  Z.of_nat (length (d ++ concat pieces)) <= t ->
  exists u f', run_frames ((fun c => (true, 2, c)) <$> pieces) s =
      Some (tt, mkWsS (set_fw u (ws_web s)) (fw_crc16_ccitt (fw_crc s) (concat pieces)) (ws_out s) (alive s)) /\
    FNOR u = Some f' /\ receiving m0 t (d ++ concat pieces) (FW u) f'.
Proof.
  induction pieces as [|c pieces IH]; intros d s f Hn Hr Hb Ht; cbn [concat fmap list_fmap run_frames] in *.
  { exists (w_fw (ws_web s)), f. rewrite app_nil_r. split; [|done]. by destruct s as [[? ? ?] ? ? ?]. }
  apply bytes_ok_app_inv in Hb as [Hc Hb]. rewrite app_assoc in *.
  destruct (write_ok m0 t d c (w_fw (ws_web s)) f Hn Hr Hc) as (u1 & f1 & E1 & Hn1 & _ & Hr1); [rewrite length_app in Ht; lia|].
  set (s1 := mkWsS (set_fw u1 (ws_web s)) (fw_crc16_ccitt (fw_crc s) c) (ws_out s) (alive s)).
  destruct (IH (d ++ c) s1 f1 Hn1 Hr1 Hb Ht) as (u & f' & E & Hn' & Hr'). exists u, f'. split; [|done].
  unfold mbind at 1, M_bind at 1. assert (handle_frame (true, 2, c) s = Some (tt, s1)) as ->.
  { cbn [handle_frame negb]. cbn [Z.eqb Pos.eqb]. unfold ws_binary. m_unfold. unfold active.
    rewrite (rcv_active _ _ _ _ _ Hr). cbn [ws_web]. by rewrite E1. }
  rewrite E. subst s1. cbn [ws_web fw_crc ws_out alive]. by rewrite crc_app.
Qed.

(** The end of a complete upload. *)
Lemma cmd_fw_end l img m0 (s : S) f :
  json_get_str l (bs "cmd") = Some (Some (bs "fw_end")) ->
  FNOR (w_fw (ws_web s)) = Some f -> receiving m0 (Z.of_nat (length img)) img (FW (w_fw (ws_web s))) f ->
  64 <= Z.of_nat (length img) <= SLOT1_SIZE - 40 -> slot_keyhash (slot_mem m0 img) = true ->
  fw_crc s = fw_crc16_ccitt 0 img ->
  exists u f' out, ws_handle_cmd l s = Some (tt,
      mkWsS (mkWeb (w_regs (ws_web s)) (set_reboot_status true (history_sync (w_sys (ws_web s)))) u) 0 out (alive s)) /\
    FNOR u = Some f' /\ active u = false /\ holds f' (pending_mem true (slot_mem m0 img)).
Proof.
  intros Hc Hn Hr Hlen Hkh Hcrc. unfold SLOT1_SIZE in Hlen.
  pose proof (received_ok m0 _ img _ f Hr ltac:(lia)) as Hrec.
  destruct (finish_ok m0 img (w_fw (ws_web s)) f (Some (fw_crc s)) Hn Hr) as (u1 & f1 & E1 & Hn1 & Ha1 & H1); [lia|].
  assert (Eok : accepted (Some (fw_crc s)) (slot_mem m0 img) img = true).
  { unfold accepted. by rewrite Hkh, Hcrc, Z.eqb_refl. }
  rewrite Eok in E1.
  destruct (boot_set_pending_ok true (slot_mem m0 img) f1 H1) as (f2 & E2 & H2).
  { intros x Hx. unfold slot_mem, SLOT1_SIZE in *. rewrite decide_False by lia. by rewrite decide_True by lia. }
  exists (mkFwW (FW u1) (FW_DBG u1) (Some f2)), f2. eexists. split; [|done].
  unfold ws_handle_cmd. m_unfold. rewrite Hc. cbn [default id ws_web]. beq.
  unfold active. rewrite (rcv_active _ _ _ _ _ Hr). beq.
  unfold ws_fw_end. m_unfold. cbn [ws_web]. rewrite Hrec, (proj2 (Z.eqb_neq _ 0)) by lia. beq.
  unfold total. rewrite (rcv_active _ _ _ _ _ Hr), (rcv_total _ _ _ _ _ Hr), Z.eqb_refl. beq.
  rewrite E1. beq. rewrite Hn1, E2. beq. reflexivity.
Qed.

Lemma run_frames_app a b (s : S) :
  run_frames (a ++ b) s = match run_frames a s with Some (_, s) => run_frames b s | None => None end.
Proof.
  revert s. induction a as [|l a IH]; intros s; [done|]. cbn [app run_frames]. unfold mbind, M_bind.
  destruct (handle_frame l s) as [[? s1]|]; [apply IH|done].
Qed.

(** The frames of an upload: a command, the image in pieces, a command; any masks. *)
Definition upload_frames (k0 k1 : option (Z * Z * Z * Z)) (txt0 txt1 : list Z) (pieces : list (option (Z * Z * Z * Z) * list Z)) : list cframe :=
  (true, 1, k0, txt0) :: ((fun c => (true, 2, c.1, c.2)) <$> pieces) ++ [(true, 1, k1, txt1)].

(** Up to the closing command. *)
Lemma run_upload m0 img k0 txt0 pieces (s : S) f :
  FNOR (w_fw (ws_web s)) = Some f -> holds f m0 -> active (w_fw (ws_web s)) = false ->
  length (s_page (FW (w_fw (ws_web s)))) = PAGE_SZ -> bytes_ok img -> 64 <= Z.of_nat (length img) <= SLOT1_SIZE ->
  concat (snd <$> pieces) = img ->
  json_get_str (take 255 txt0) (bs "cmd") = Some (Some (bs "fw_start")) ->
  json_get_i32 (take 255 txt0) (bs "size") = Some (Some (Z.of_nat (length img))) ->
  json_get_str (take 255 txt0) (bs "keyhash") = Some None ->
  exists u f' out, run_frames (cframe_log <$> (true, 1, k0, txt0) :: ((fun c => (true, 2, c.1, c.2)) <$> pieces)) s =
      Some (tt, mkWsS (set_fw u (ws_web s)) (fw_crc16_ccitt (fw_crc s) img) out (alive s)) /\
    FNOR u = Some f' /\ receiving m0 (Z.of_nat (length img)) img (FW u) f'.
Proof.
  intros Hn Hf Ha Hp Hb Hlen Hpc Hc0 Hs0 Hk0. unfold SLOT1_SIZE in Hlen.
  destruct (start_ok m0 (Z.of_nat (length img)) None (w_fw (ws_web s)) f Hn Hf Ha Hp) as (u1 & f1 & E1 & Hn1 & _ & Hr1);
    [unfold SLOT1_SIZE; lia|by left|].
  destruct (cmd_fw_start _ _ u1 s Hc0 Hs0 Hk0 ltac:(lia) E1) as (out1 & R1).
  set (s1 := mkWsS (set_fw u1 (ws_web s)) (fw_crc s) out1 (alive s)) in *.
  destruct (run_binary m0 (Z.of_nat (length img)) (snd <$> pieces) [] s1 f1 Hn1 Hr1) as (u2 & f2 & R2 & Hn2 & Hr2);
    [by rewrite Hpc|rewrite Hpc; cbn [app]; lia|].
  cbn [app] in Hr2. rewrite Hpc in R2, Hr2. exists u2, f2, out1. split; [|done].
  rewrite fmap_cons. cbn [cframe_log run_frames]. unfold mbind at 1, M_bind at 1.
  change (handle_frame (true, 1, txt0) s) with (ws_handle_cmd (take 255 txt0) s). rewrite R1.
  replace (cframe_log <$> ((fun c => (true, 2, c.1, c.2)) <$> pieces))
    with ((fun c => (true, 2, c)) <$> (snd <$> pieces)) by (by rewrite <- !list_fmap_compose).
  exact R2.
Qed.

(** The closing command, when the CRC that the session kept is not the image's. *)
Lemma cmd_fw_end_bad l img m0 (s : S) f :
  json_get_str l (bs "cmd") = Some (Some (bs "fw_end")) ->
  FNOR (w_fw (ws_web s)) = Some f -> receiving m0 (Z.of_nat (length img)) img (FW (w_fw (ws_web s))) f ->
  64 <= Z.of_nat (length img) <= SLOT1_SIZE -> fw_crc s <> fw_crc16_ccitt 0 img ->
  exists u, ws_handle_cmd l s = Some (tt, mkWsS (set_fw u (ws_web s)) 0
      (ws_queue_frame 1 (err_txt (bs "crc mismatch")) (ws_out s)) (alive s)) /\ active u = false.
Proof.
  intros Hc Hn Hr Hlen Hcrc. unfold SLOT1_SIZE in Hlen.
  pose proof (received_ok m0 _ img _ f Hr ltac:(lia)) as Hrec.
  destruct (finish_ok m0 img (w_fw (ws_web s)) f (Some (fw_crc s)) Hn Hr) as (u1 & f1 & E1 & Hn1 & Ha1 & H1); [lia|].
  unfold accepted in E1. rewrite (proj2 (Z.eqb_neq _ _)) in E1 by congruence. cbn [andb] in E1.
  exists u1. split; [|done]. unfold ws_handle_cmd. m_unfold. rewrite Hc. cbn [default id ws_web]. beq.
  unfold active. rewrite (rcv_active _ _ _ _ _ Hr). beq.
  unfold ws_fw_end. m_unfold. cbn [ws_web]. rewrite Hrec, (proj2 (Z.eqb_neq _ 0)) by lia. beq.
  unfold total. rewrite (rcv_active _ _ _ _ _ Hr), (rcv_total _ _ _ _ _ Hr), Z.eqb_refl. beq.
  rewrite E1. beq. reflexivity.
Qed.

(** The closing command of an upload that is too short: the transfer is dropped,
    the CRC of what had arrived is not. *)
Lemma cmd_fw_end_short l d t m0 (s : S) f :
  json_get_str l (bs "cmd") = Some (Some (bs "fw_end")) ->
  receiving m0 t d (FW (w_fw (ws_web s))) f -> 0 < Z.of_nat (length d) < t ->
  ws_handle_cmd l s = Some (tt, mkWsS (set_fw (abort (w_fw (ws_web s))) (ws_web s)) (fw_crc s)
      (ws_queue_frame 1 (err_txt (bs "size mismatch")) (ws_out s)) (alive s)).
Proof.
  intros Hc Hr Hlen. pose proof (received_ok m0 _ d _ f Hr ltac:(lia)) as Hrec.
  unfold ws_handle_cmd. m_unfold. rewrite Hc. cbn [default id ws_web]. beq.
  unfold active. rewrite (rcv_active _ _ _ _ _ Hr). beq.
  unfold ws_fw_end, fw_abort. m_unfold. cbn [ws_web]. rewrite Hrec, (proj2 (Z.eqb_neq _ 0)) by lia. beq.
  unfold total. rewrite (rcv_active _ _ _ _ _ Hr), (rcv_total _ _ _ _ _ Hr), (proj2 (Z.eqb_neq _ t)) by lia. beq.
  reflexivity.
Qed.

(** C12: A firmware upload over the WebSocket, from the bytes of the connection to the
    flash.  A client announces a signed image of [size] bytes, sends it in binary
    frames of any sizes and ends the upload; however the stream is cut into reads,
    the session stays open, the slot then holds the image and the trailer that asks
    the boot loader for a permanent swap, the history is asked to be written out and
    the restart is scheduled. *)
Theorem ws_upgrade m0 (w : Web F) f i k0 k1 txt0 txt1 pieces reads
    (Hn : FNOR (w_fw w) = Some f) (Hf : holds f m0) (Ha : s_active (FW (w_fw w)) = false)
    (Hp : length (s_page (FW (w_fw w))) = PAGE_SZ) (Hi : signed_ok i)
    (Hlen : Z.of_nat (length (signed_bytes i)) <= SLOT1_SIZE - 40) (Hkh : first_keyhash (img_tlvs i) = Some FW_KEYHASH)
    (Hfr : Forall cframe_ok (upload_frames k0 k1 txt0 txt1 pieces))
    (Hpc : concat (snd <$> pieces) = signed_bytes i)
    (Hc0 : json_get_str (take 255 txt0) (bs "cmd") = Some (Some (bs "fw_start")))
    (Hs0 : json_get_i32 (take 255 txt0) (bs "size") = Some (Some (Z.of_nat (length (signed_bytes i)))))
    (Hk0 : json_get_str (take 255 txt0) (bs "keyhash") = Some None)
    (Hc1 : json_get_str (take 255 txt1) (bs "cmd") = Some (Some (bs "fw_end")))
    (Hrd : concat reads = concat (cframe_bytes <$> upload_frames k0 k1 txt0 txt1 pieces)) :
  exists p s f', ws_reads reads WsParser_new (mkWsS w 0 [] true) = Some (p, s) /\ alive s = true /\
    w_regs (ws_web s) = w_regs w /\ w_sys (ws_web s) = set_reboot_status true (history_sync (w_sys w)) /\
    active (w_fw (ws_web s)) = false /\ FNOR (w_fw (ws_web s)) = Some f' /\
    holds f' (pending_mem true (slot_mem m0 (signed_bytes i))).
Proof.
  set (img := signed_bytes i) in *. set (s0 := mkWsS w 0 [] true).
  assert (Ht : 64 <= Z.of_nat (length img)).
  { pose proof (signed_head_length i Hi). unfold img, signed_bytes. rewrite length_app. lia. }
  destruct (run_upload m0 img k0 txt0 pieces s0 f) as (u2 & f2 & out & R & Hn2 & Hr2); try done;
    [apply Hi|unfold SLOT1_SIZE in *; lia|].
  destruct (cmd_fw_end (take 255 txt1) img m0 (mkWsS (set_fw u2 w) (fw_crc16_ccitt 0 img) out true) f2 Hc1 Hn2 Hr2)
    as (u3 & f3 & out3 & R3 & Hn3 & Ha3 & H3);
    [done|unfold img; rewrite slot_keyhash_signed, Hkh by done; by apply bool_decide_true|done|].
  assert (Hrun : run_frames (cframe_log <$> upload_frames k0 k1 txt0 txt1 pieces) s0 =
    Some (tt, mkWsS (mkWeb (w_regs w) (set_reboot_status true (history_sync (w_sys w))) u3) 0 out3 true)).
  { unfold upload_frames. rewrite app_comm_cons, fmap_app, run_frames_app, R. cbn [fmap list_fmap cframe_log run_frames].
    unfold mbind, M_bind. change (handle_frame (true, 1, txt1)) with (ws_handle_cmd (F := F) (take 255 txt1)).
    cbn [ws_web fw_crc alive s0]. by rewrite R3. }
  destruct (feed_frames_ws (upload_frames k0 k1 txt0 txt1 pieces) WsParser_new (Some s0) new_idle Hfr) as (p' & Ef & _).
  cbn [mbind option_bind] in Ef. rewrite Hrun, <- Hrd in Ef.
  destruct (reads_feed reads WsParser_new s0 s0 p' _ ltac:(done) Ef eq_refl) as (s' & Er & E1' & E2' & E3').
  exists p', s', f3. rewrite <- E1', <- E3'. done.
Qed.

(** A short upload leaves its CRC behind: after a transfer that was closed too
    early, a complete upload of any image in the same session is refused for its
    checksum, unless the CRC that was left behind happens to be 0. *)
Theorem ws_stale_crc m0 t d (s : S) f i k0 k1 txt0 txt1 pieces
    (Hn : FNOR (w_fw (ws_web s)) = Some f) (Hr : receiving m0 t d (FW (w_fw (ws_web s))) f)
    (Hd : 0 < Z.of_nat (length d) < t) (Hi : signed_ok i)
    (Hlen : Z.of_nat (length (signed_bytes i)) <= SLOT1_SIZE)
    (Hcrc : 0 < fw_crc s < 65536)
    (Hpc : concat (snd <$> pieces) = signed_bytes i)
    (Hc0 : json_get_str (take 255 txt0) (bs "cmd") = Some (Some (bs "fw_start")))
    (Hs0 : json_get_i32 (take 255 txt0) (bs "size") = Some (Some (Z.of_nat (length (signed_bytes i)))))
    (Hk0 : json_get_str (take 255 txt0) (bs "keyhash") = Some None)
    (Hc1 : json_get_str (take 255 txt1) (bs "cmd") = Some (Some (bs "fw_end"))) :
  exists s' out, run_frames (cframe_log <$> (true, 1, k1, txt1) :: upload_frames k0 k1 txt0 txt1 pieces) s = Some (tt, s') /\
    ws_out s' = ws_queue_frame 1 (err_txt (bs "crc mismatch")) out /\ w_sys (ws_web s') = w_sys (ws_web s) /\
    active (w_fw (ws_web s')) = false.
Proof.
  assert (Ht : 64 <= Z.of_nat (length (signed_bytes i))).
  { pose proof (signed_head_length i Hi). unfold signed_bytes. rewrite length_app. lia. }
  set (out0 := ws_queue_frame 1 (err_txt (bs "size mismatch")) (ws_out s)).
  set (s1 := mkWsS (set_fw (abort (w_fw (ws_web s))) (ws_web s)) (fw_crc s) out0 (alive s)).
  pose proof (cmd_fw_end_short (take 255 txt1) d t m0 s f Hc1 Hr Hd) as R0.
  pose proof Hr as [_ _ _ _ _ Hpg _ (p & _ & _ & _ & Hh)].
  destruct (run_upload (slot_mem m0 p) (signed_bytes i) k0 txt0 pieces s1 f) as (u2 & f2 & out & R & Hn2 & Hr2); try done;
    [apply Hi|].
  destruct (cmd_fw_end_bad (take 255 txt1) (signed_bytes i) (slot_mem m0 p)
    (mkWsS (set_fw u2 (ws_web s1)) (fw_crc16_ccitt (fw_crc s) (signed_bytes i)) out (alive s)) f2 Hc1 Hn2 Hr2 ltac:(lia))
    as (u3 & R3 & Ha3).
  { cbn [fw_crc]. rewrite !fw_crc16_ccitt_eq by (apply Hi || unfold is_u16; lia). intros E%crc16_ccitt_seed_inj; [lia|apply Hi|unfold is_u16; lia..]. }
  eexists _, out. split.
  - unfold upload_frames. rewrite fmap_cons. cbn [cframe_log run_frames]. unfold mbind at 1, M_bind at 1.
    change (handle_frame (true, 1, txt1) s) with (ws_handle_cmd (take 255 txt1) s). rewrite R0. fold out0 s1.
    rewrite app_comm_cons, fmap_app, run_frames_app, R. cbn [fmap list_fmap cframe_log run_frames].
    unfold mbind, M_bind. change (handle_frame (true, 1, txt1)) with (ws_handle_cmd (F := F) (take 255 txt1)).
    change (ws_web s1) with (set_fw (abort (w_fw (ws_web s))) (ws_web s)) in *. cbn [fw_crc alive s1] in R3 |- *. rewrite R3. reflexivity.
  - done.
Qed.
End Upload.

(** ** Witnesses *)

Definition start_txt (n : nat) : list Z := js "{'cmd':'fw_start','size':" ++ decimal (Z.of_nat n) ++ js "}".
Definition end_txt : list Z := js "{'cmd':'fw_end'}".
Definition web_blank : Web Chip := set_fw fw_blank (web0 None).
Definition mask_demo : option (Z * Z * Z * Z) := Some (0x37, 0xfa, 0x21, 0x3d).
Definition pieces_demo : list (option (Z * Z * Z * Z) * list Z) :=
  let img := signed_bytes image_demo in [(mask_demo, take 300 img); (mask_demo, drop 300 img)].
Definition stream_demo : list Z :=
  concat (cframe_bytes <$> upload_frames mask_demo mask_demo (start_txt (length (signed_bytes image_demo))) end_txt pieces_demo).

Lemma ws_upgrade_witness :
  exists p s f', ws_reads [take 40 stream_demo; drop 40 stream_demo] WsParser_new (mkWsS web_blank 0 [] true) = Some (p, s) /\ alive s = true /\
    w_regs (ws_web s) = w_regs web_blank /\ w_sys (ws_web s) = set_reboot_status true (history_sync (w_sys web_blank)) /\
    active (w_fw (ws_web s)) = false /\ FNOR (w_fw (ws_web s)) = Some f' /\
    holds f' (pending_mem true (slot_mem (fun _ => 255) (signed_bytes image_demo))).
Proof.
  apply (ws_upgrade (fun _ => 255) web_blank chip_blank image_demo mask_demo mask_demo
    (start_txt (length (signed_bytes image_demo))) end_txt pieces_demo [take 40 stream_demo; drop 40 stream_demo]
    eq_refl chip_blank_holds eq_refl eq_refl image_demo_ok); try (vm_compute; reflexivity).
  - apply Z.leb_le. vm_compute. reflexivity.
  - pose proof PAYLOAD_MAX_big. repeat (apply Forall_cons_2; [split; [lia|split; apply Nat.leb_le; vm_compute; reflexivity]|]). constructor.
Defined.

Lemma ws_stale_crc_witness :
  exists (s' : WsS Chip) out, run_frames (cframe_log <$> (true, 1, mask_demo, end_txt) ::
      upload_frames mask_demo mask_demo (start_txt (length (signed_bytes image_demo))) end_txt pieces_demo)
      (mkWsS (set_fw (mkFwW session_demo [] (Some chip_blank)) web_blank) (fw_crc16_ccitt 0 [5; 6]) [] true) = Some (tt, s') /\
    ws_out s' = ws_queue_frame 1 (err_txt (bs "crc mismatch")) out /\ w_sys (ws_web s') = w_sys web_blank /\
    active (w_fw (ws_web s')) = false.
Proof.
  apply (ws_stale_crc (fun _ => 255) 100 [5; 6]
    (mkWsS (set_fw (mkFwW session_demo [] (Some chip_blank)) web_blank) (fw_crc16_ccitt 0 [5; 6]) [] true) chip_blank image_demo
    mask_demo mask_demo (start_txt (length (signed_bytes image_demo))) end_txt pieces_demo eq_refl session_demo_receiving);
    try (vm_compute; reflexivity).
  - split; reflexivity.
  - exact image_demo_ok.
  - apply Z.leb_le. vm_compute. reflexivity.
  - split; vm_compute; reflexivity.
Defined.
