(* ===== verification/WebInv.v ===== *)
(** * What no client of the web server can break

    An invariant of the device that every HTTP route and every WebSocket frame
    keeps, and the parameters that the configuration command stores. *)
From S2P Require Import Prelude Text RegMap MbSpec ConfigStore UdpCfg WebJson History Channels System Outputs.
From S2P Require Import FtpArgs W25q NorSpec FwSession StMonad Storage Web Ws WsFrames WsSession.

(** The register map is well formed, the outputs show the DO register, no queue
    holds more than its capacity. *)
Definition device_inv {F} (w : Web F) : Prop :=
  reg_inv (w_regs w) /\ pins_show (w_regs w) (w_sys w) /\ lanes_wf (lanes (w_sys w)).

(** ** The hooks and the queues *)

Lemma apply_event_lanes (s : Sys) e : lanes_wf (lanes s) -> lanes_wf (lanes (apply_event s e)).
Proof.
  intros H. destruct e as [v|[]|ts| | |]; cbn; try done; try (by apply queue_send_wf); try (by apply ctrl_send_wf).
  unfold systime_set_timestamp. destruct (negb _); [done|]. by destruct (rtc s).
Qed.

Lemma apply_events_lanes es : forall s : Sys, lanes_wf (lanes s) -> lanes_wf (lanes (apply_events s es)).
Proof. induction es as [|e es IH]; intros s H; [done|]. by apply IH, apply_event_lanes. Qed.

Lemma run_wr_lanes w r (s : Sys) : wr_ok w -> reg_inv r -> lanes_wf (lanes s) -> lanes_wf (lanes (run_wr (r, s) w).2).
Proof.
  intros Hw Hr Hl. destruct w as [b st|a v]; cbn [run_wr fst snd wr_ok] in *.
  - unfold io_write_do_bit. destruct (DO_NUM <=? b); exact Hl.
  - destruct (io_write_holding_cases a v r s Hr) as [[-> _]|(r' & -> & _)]; [tauto..|done|].
    by apply apply_events_lanes.
Qed.

Section Inv.
Context {F : Type}.
Abbreviation keep := (keeps (device_inv (F := F))).

(** A write that the register map performs. *)
Lemma device_inv_wr w (d : Web F) : wr_ok w -> device_inv d ->
  device_inv (mkWeb (run_wr (w_regs d, w_sys d) w).1 (run_wr (w_regs d, w_sys d) w).2 (w_fw d)).
Proof.
  intros Hw (Hr & Hp & Hl). split_and!; cbn [w_regs w_sys].
  - exact (run_writes_inv [w] (w_regs d, w_sys d) ltac:(by repeat constructor) Hr).
  - by apply run_wr_shows.
  - by apply run_wr_lanes.
Qed.

Lemma keeps_write a v : 0 <= a -> is_u16 v -> keep (on_regs (io_write_holding a v)).
Proof.
  intros Ha Hv d Hd. pose proof (device_inv_wr (WReg a v) d (conj Ha Hv) Hd) as H. cbn [run_wr fst snd] in H.
  unfold on_regs. by destruct (io_write_holding a v (w_regs d) (w_sys d)) as [[r regs] sys].
Qed.

Lemma keeps_do_bit b st : 0 <= b -> keep (web_write_do_bit b st).
Proof.
  intros Hb d Hd. pose proof (device_inv_wr (WBit b st) d Hb Hd) as H. cbn [run_wr fst snd] in H.
  unfold web_write_do_bit, on_regs. by destruct (io_write_do_bit b st (w_regs d) (w_sys d)) as [[r regs] sys].
Qed.

(** An operation on the hooks that leaves the outputs alone. *)
Lemma keeps_on_sys f :
  (forall s, do_outs (f s) = do_outs s /\ led_outs (f s) = led_outs s) -> (forall s, lanes_wf (lanes s) -> lanes_wf (lanes (f s))) ->
  keep (on_sys f).
Proof.
  intros Ho Hl. apply keeps_modify. intros d (Hr & [Hd1 Hd2] & Hw). destruct (Ho (w_sys d)) as [E1 E2].
  split_and!; cbn; [done| |by apply Hl]. split; cbn; [by rewrite E1|by rewrite E2].
Qed.

Lemma keeps_event e : not_do e -> keep (on_sys (fun s => apply_event s e)).
Proof. intros He. apply keeps_on_sys; intros s; [by apply apply_event_outs|apply apply_event_lanes]. Qed.

Lemma keeps_reboot on : keep (on_sys (set_reboot_status on)).
Proof. by apply keeps_on_sys. Qed.

Lemma keeps_queue c : keep (send_queue c).
Proof.
  intros d (Hr & Hp & Hq & Hc). unfold send_queue. pose proof (try_send_cap QUEUE_CAP c _ Hq) as H.
  destruct (try_send QUEUE_CAP c (queue (lanes (w_sys d)))) as [ok q]. split_and!; done.
Qed.

(** ** The commands *)

Lemma keeps_reg a v : keep (web_cmd_reg a v).
Proof.
  unfold web_cmd_reg. destruct (negb _ || negb _) eqn:E; [apply keeps_ret|].
  apply orb_false_iff in E as [Ea Ev]. rewrite negb_false_iff in Ea, Ev.
  apply andb_true_iff in Ea as [Ea _], Ev as [Ev1 Ev2].
  keeps; [apply keeps_reboot|]. apply keeps_write; unfold is_u16; lia.
Qed.

Lemma keeps_octet i v : is_u8 v -> keep (set_octet i v).
Proof. intros Hv. unfold set_octet. keeps. apply keeps_write; [lia|by apply is_u8_u16]. Qed.

Lemma keeps_num body key valid idx err : keep (cfg_num body key valid idx err).
Proof. unfold cfg_num. keeps. apply keeps_reg. Qed.

Lemma keeps_ip body : keep (cfg_ip body).
Proof.
  unfold cfg_ip. keeps. subst.
  all: match goal with H : parse_parts 4 255 _ = Some _ |- _ => apply parse_parts_bound in H as [_ H]; [|lia] end.
  all: repeat match goal with H : Forall _ (_ :: _) |- _ => apply Forall_cons_1 in H as [? H] end.
  all: apply keeps_octet; unfold is_u8; cbv beta in *; lia.
Qed.

Lemma keeps_cfg body : keep (web_cmd_cfg body).
Proof. unfold web_cmd_cfg. keeps; first [apply keeps_ip|apply keeps_num]. Qed.

Lemma keeps_time ts : keep (web_set_time ts).
Proof.
  intros d Hd. pose proof (keeps_event (EvSetTime (as_u32 ts)) I d Hd) as H. cbn in H.
  unfold web_set_time. cbn [set_timestamp Hooks]. by destruct (systime_set_timestamp (as_u32 ts) (w_sys d)).
Qed.

Lemma keeps_do body : keep (web_do body).
Proof. unfold web_do. keeps. apply keeps_do_bit. lia. Qed.

Lemma keeps_save : keep (on_sys holding_save).
Proof. exact (keeps_event EvSave I). Qed.
Lemma keeps_sync : keep (on_sys history_sync).
Proof. exact (keeps_event EvSync I). Qed.
Lemma keeps_erase : keep (on_sys config_erase_all).
Proof. apply keeps_on_sys; [done|]. intros s. apply ctrl_send_wf. Qed.
Lemma keeps_cold : keep (on_sys (fun s => cold (at_ticks (ticks s + 150 * tick_khz s) s))).
Proof. by apply keeps_on_sys. Qed.
End Inv.

#[export] Hint Resolve keeps_reg keeps_cfg keeps_time keeps_do keeps_save keeps_sync keeps_erase keeps_cold keeps_queue
  keeps_reboot : keeps.

(** ** The parser

    What the callback keeps, the parser keeps. *)
Lemma feed1_keeps {E} (W : Z) (event : WsParser -> FeedEvent -> E -> WsParser * E) (P : E -> Prop) b p e :
  (forall p ev e, P e -> P (event p ev e).2) -> P e ->
  match feed1 W event b p e with Some (_, _, e') => P e' | None => True end.
Proof.
  intros Hev H. unfold feed1, after_len.
  destruct (ws_state p); cbn [mbind option_bind]; repeat first
    [ done
    | match goal with |- context [upd ?a ?b ?c] => destruct (upd a b c); cbn [option_bind mbind] end
    | match goal with |- context [if ?c then _ else _] => match type of c with bool => destruct c end end ].
  match goal with |- context [event ?q ?ev e] => pose proof (Hev q ev e H) as Hq; by destruct (event q ev e) end.
Qed.

Lemma feed_keeps {E} (W : Z) (event : WsParser -> FeedEvent -> E -> WsParser * E) (P : E -> Prop) :
  (forall p ev e, P e -> P (event p ev e).2) -> forall data p e, P e ->
  match ws_feed W event data p e with Some (_, _, e') => P e' | None => True end.
Proof.
  intros Hev data. induction data as [|b data IH]; intros p e H; [done|].
  rewrite feed_cons. pose proof (feed1_keeps W event P b p e Hev H) as H1.
  destruct (feed1 W event b p e) as [[[ok q] e1]|]; [|done]. cbn [mbind option_bind].
  destruct ok; [by apply IH|done].
Qed.

Section Routes.
Context {F : Type} `{!Flash F}.
Variables (INDEX_GZ : list Z) (info_json : Web F -> list Z).
Abbreviation keep := (keeps (device_inv (F := F))).

(** Every entry of a route table keeps the invariant. *)
Definition keeps_route {A} (o : option (M (Web F) A)) : Prop := match o with Some t => keep t | None => True end.

Lemma keeps_get path query : keeps_route (get_route INDEX_GZ info_json path query).
Proof. unfold get_route. repeat case_match; cbn [keeps_route]; try done; keeps; auto with keeps. Qed.

Lemma keeps_post path body : keeps_route (post_route path body : option (M (Web F) Reply)).
Proof. unfold post_route. repeat case_match; cbn [keeps_route]; try done; keeps; auto with keeps. Qed.

Lemma keeps_dispatch method target body : keep (dispatch INDEX_GZ info_json method target body).
Proof.
  unfold dispatch. destruct (match position (Z.eqb 63) target with Some q => _ | None => _ end) as [path query].
  cbv zeta. set (p := default [] (from_utf8 path)).
  pose proof (keeps_get p query) as Hg. pose proof (keeps_post p (default [] body)) as Hp.
  destruct (bytes_eqb method (bs "GET")); [|destruct (bytes_eqb method (bs "POST"))].
  - destruct (get_route INDEX_GZ info_json p query); [exact Hg|]. keeps.
  - destruct (post_route p (default [] body)); [exact Hp|]. keeps.
  - keeps.
Qed.

(** ** The frames of a WebSocket *)

(** The reply buffer never grows past its 768 bytes. *)
Definition ws_inv (s : WsS F) : Prop := device_inv (ws_web s) /\ (length (ws_out s) <= 768)%nat.
Abbreviation keep_ws := (keeps ws_inv).

Lemma keeps_on_web {A} (m : M (Web F) A) : keep m -> keep_ws (on_web m).
Proof. intros Hm s [Hs Hl]. specialize (Hm _ Hs). unfold on_web. by destruct (m (ws_web s)) as [[a w]|]. Qed.

Lemma keeps_fw {A} (f : FwW F -> option (A * FwW F)) : keep_ws (on_fw f).
Proof. apply keeps_on_web. intros d Hd. by destruct (f (w_fw d)) as [[a u]|]. Qed.

Lemma extend_length cap l out : (length out <= cap)%nat -> (length (extend cap l out) <= cap)%nat.
Proof. intros H. unfold extend. destruct (Nat.leb_spec (length out + length l) cap); [by rewrite length_app|done]. Qed.

Lemma keeps_frame op l : keep_ws (queue_frame op l).
Proof.
  apply keeps_modify. intros s [Hs Hl]. split; [done|]. cbn [ws_out]. unfold ws_queue_frame.
  destruct (ws_frame_hdr _ _ _ _). by apply extend_length, extend_length.
Qed.
Lemma keeps_crc v : keep_ws (set_crc v).
Proof. by apply keeps_modify. Qed.
Lemma keeps_stop : keep_ws stop.
Proof. by apply keeps_modify. Qed.

Hint Resolve keeps_on_web keeps_fw keeps_frame keeps_crc keeps_stop keeps_lift : keeps.

Lemma keeps_fw_end : keep_ws ws_fw_end.
Proof. unfold ws_fw_end, fw_abort, fw_reads. keeps; auto with keeps. Qed.
Lemma keeps_fw_start l : keep_ws (ws_fw_start l).
Proof. unfold ws_fw_start. cbv zeta. keeps; auto with keeps. Qed.
Hint Resolve keeps_fw_end keeps_fw_start : keeps.
Lemma keeps_cmd l : keep_ws (ws_handle_cmd l).
Proof. unfold ws_handle_cmd, fw_reads. cbv zeta. keeps; auto with keeps. Qed.
Hint Resolve keeps_cmd : keeps.
Lemma keeps_ws_frame p ev : keep_ws (ws_frame p ev).
Proof. unfold ws_frame, ws_binary, fw_reads. keeps; auto with keeps. Qed.

(** What one read does. *)
Definition opt_inv (e : option (WsS F)) : Prop := match e with Some s => ws_inv s | None => True end.

Lemma event_inv p ev e : opt_inv e -> opt_inv (ws_event p ev e).2.
Proof.
  destruct e as [s|]; [|done]. intros Hs. unfold ws_event. cbn [snd mbind option_bind].
  pose proof (keeps_ws_frame p ev s Hs) as H. by destruct (ws_frame p ev s) as [[a s']|].
Qed.

Lemma step_inv data p s p' s' : ws_inv s -> ws_step data p s = Some (p', s') -> ws_inv s'.
Proof.
  intros Hs E. unfold ws_step in E.
  pose proof (feed_keeps 32 ws_event opt_inv event_inv data p (Some s) Hs) as H.
  destruct (ws_feed 32 ws_event data p (Some s)) as [[[ok q] e]|]; [|done]. cbn [mbind option_bind] in E.
  destruct e as [s1|]; [|done]. by injection E as <- <-.
Qed.
End Routes.

(** ** A session, read by read *)

Section Reads.
Context {F : Type} `{!Flash F}.

Lemma reads_inv chunks : forall p (s : WsS F) p' s', ws_inv s -> ws_reads chunks p s = Some (p', s') -> ws_inv s'.
Proof.
  induction chunks as [|c chunks IH]; intros p s p' s' Hs E; cbn [ws_reads] in E; [by injection E as <- <-|].
  assert (Hc : ws_inv (clear_out s)) by (split; [apply Hs|cbn; lia]).
  destruct (ws_step c p (clear_out s)) as [[p1 s1]|] eqn:E1; [|done]. cbn [mbind option_bind] in E.
  pose proof (step_inv c p (clear_out s) p1 s1 Hc E1) as H1.
  destruct (alive s1); [by apply (IH p1 s1 p' s')|by injection E as <- <-].
Qed.

(** No client can break the device: whatever the method, the target and the body
    of a request, and whatever bytes a WebSocket client sends in whatever reads,
    if the registers are well formed, the outputs and their LEDs show the DO
    register and no queue is over its capacity, then all of that holds
    afterwards; the reply buffer of a session never grows past its 768 bytes. *)
Theorem web_keeps_device INDEX_GZ info_json (w : Web F) (Hw : device_inv w) :
  (forall method target body r w', dispatch INDEX_GZ info_json method target body w = Some (r, w') -> device_inv w') /\
  (forall chunks p s, ws_reads chunks WsParser_new (mkWsS w 0 [] true) = Some (p, s) ->
     device_inv (ws_web s) /\ (length (ws_out s) <= 768)%nat).
Proof.
  split.
  - intros method target body r w' E. by eapply keeps_elim; [apply keeps_dispatch| |exact E].
  - intros chunks p s E. apply (reads_inv chunks WsParser_new (mkWsS w 0 [] true) p s); [|done]. split; [done|cbn; lia].
Qed.
End Reads.

(** ** The parameters *)

(** A data register, by evaluation. *)
Ltac plain := split; [apply Nat.ltb_lt; reflexivity|discriminate].

Section Cfg.
Context {F : Type}.

(** The parameters that the other services read. *)
Definition cfg_valid (h : list Z) : Prop :=
  ip_addr_valid (h !!! HOLDING_IP_OCTET1_IDX) (h !!! HOLDING_IP_OCTET2_IDX) (h !!! HOLDING_IP_OCTET3_IDX)
    (h !!! HOLDING_IP_OCTET4_IDX) = true /\
  1200 <= h !!! HOLDING_RS485_BAUDRATE_IDX <= 65535 /\ 1 <= h !!! HOLDING_SLAVE_ID_IDX <= 247 /\
  h !!! HOLDING_CAN_BAUDRATE_IDX ∈ [50; 100; 125; 250; 500; 800; 1000] /\ 1 <= h !!! HOLDING_CAN_ID_IDX <= 0x7FF.

(** What a number field does to the registers; the address. *)
Definition put_num (o : option Z) (idx : nat) (h : list Z) : list Z :=
  match o with Some v => if v <=? 65535 then <[idx := v]> h else h | None => h end.
Definition put_ip (o : option (list Z)) (h : list Z) : list Z :=
  match o with Some l => list_inserts HOLDING_IP_OCTET1_IDX l h | None => h end.

(** The registers that hold data only. *)
Definition plain_reg (i : nat) : Prop := (i < 17)%nat /\ i <> HOLDING_CONFIG_SAVE_IDX.

Lemma list18 {A} (h : list A) : length h = 18%nat ->
  exists a0 a1 a2 a3 a4 a5 a6 a7 a8 a9 a10 a11 a12 a13 a14 a15 a16 a17,
    h = [a0; a1; a2; a3; a4; a5; a6; a7; a8; a9; a10; a11; a12; a13; a14; a15; a16; a17].
Proof. intros H. do 18 (destruct h as [|? h]; [done|]). destruct h; [|done]. by do 18 eexists. Qed.

Lemma write_plain i v (w : Web F) : reg_inv (w_regs w) -> plain_reg i -> is_u16 v ->
  exists w', on_regs (io_write_holding (Z.of_nat i) v) w = Some (true, w') /\ reg_inv (w_regs w') /\
    holding (w_regs w') = <[i := v]> (holding (w_regs w)).
Proof.
  intros Hr [Hi Hs] Hv. unfold on_regs.
  destruct (io_write_holding_cases (Z.of_nat i) v (w_regs w) (w_sys w) Hr) as [[_ ?]|(r' & -> & -> & H & _)]; [lia|done|lia|].
  eexists. split; [done|]. cbn. split; [exact H|]. rewrite Nat2Z.id. f_equal. unfold stored.
  rewrite decide_False; [done|]. unfold HOLDING_REBOOT_IDX. lia.
Qed.

Lemma cmd_reg_plain i v (w : Web F) : reg_inv (w_regs w) -> plain_reg i -> 0 <= v ->
  exists ok w', web_cmd_reg (Z.of_nat i) v w = Some (ok, w') /\ reg_inv (w_regs w') /\
    holding (w_regs w') = put_num (Some v) i (holding (w_regs w)).
Proof.
  intros Hr Hi Hv. pose proof Hi as [Hlt Hs]. unfold web_cmd_reg, put_num, MODBUS_HOLDING_REGISTER_NUMBERS.
  rewrite (proj2 (Z.leb_le 0 (Z.of_nat i))), (proj2 (Z.ltb_lt (Z.of_nat i) _)), (proj2 (Z.leb_le 0 v)) by lia.
  cbn [andb negb orb]. destruct (Z.leb_spec v 65535); cbn [negb].
  - rewrite Nat2Z.id, (proj2 (Nat.eqb_neq i _)) by (unfold HOLDING_REBOOT_IDX; lia).
    destruct (write_plain i v w Hr Hi) as (w' & E & H1 & H2); [unfold is_u16; lia|]. eauto.
  - exists false, w. done.
Qed.

Lemma cfg_num_spec body key valid idx err (w : Web F) e w' :
  reg_inv (w_regs w) -> plain_reg idx -> (forall v, valid v = true -> 0 <= v) -> cfg_num body key valid idx err w = Some (e, w') ->
  exists o, json_get_i32 body key = Some o /\ reg_inv (w_regs w') /\
    holding (w_regs w') = (match e with None => put_num o idx (holding (w_regs w)) | Some _ => holding (w_regs w) end) /\
    (e = None -> match o with Some v => valid v = true | None => True end).
Proof.
  intros Hr Hi Hv E. unfold cfg_num, lift, mbind, M_bind in E. destruct (json_get_i32 body key) as [[v|]|]; [|by injection E as <- <-; exists None|done].
  destruct (valid v) eqn:Ev; [|by injection E as <- <-; exists (Some v)].
  destruct (cmd_reg_plain idx v w Hr Hi (Hv v Ev)) as (ok & w1 & E1 & H1 & H2). rewrite E1 in E. injection E as <- <-. exists (Some v). auto.
Qed.

(** The octets of an acceptable address. *)
Definition addr_octets (s : list Z) : option (list Z) :=
  match parse_parts 4 255 (split 46 s) with
  | Some ([a; b; c; d], []) => if ip_addr_valid a b c d then Some [a; b; c; d] else None
  | _ => None
  end.

Lemma set_octets_spec a b c d (w : Web F) : reg_inv (w_regs w) -> is_u8 a -> is_u8 b -> is_u8 c -> is_u8 d ->
  exists w', (set_octet 0 a ;; set_octet 1 b ;; set_octet 2 c ;; set_octet 3 d ;; mret (None : option (option (list Z)))) w = Some (None, w') /\
    reg_inv (w_regs w') /\ holding (w_regs w') = put_ip (Some [a; b; c; d]) (holding (w_regs w)).
Proof.
  intros Hr Ha Hb Hc Hd. unfold set_octet, mbind, M_bind.
  destruct (write_plain (HOLDING_IP_OCTET1_IDX + 0) a w Hr) as (w1 & -> & H1 & E1); [plain|by apply is_u8_u16|].
  cbn [mret M_ret]. destruct (write_plain (HOLDING_IP_OCTET1_IDX + 1) b w1 H1) as (w2 & -> & H2 & E2); [plain|by apply is_u8_u16|].
  cbn [mret M_ret]. destruct (write_plain (HOLDING_IP_OCTET1_IDX + 2) c w2 H2) as (w3 & -> & H3 & E3); [plain|by apply is_u8_u16|].
  cbn [mret M_ret]. destruct (write_plain (HOLDING_IP_OCTET1_IDX + 3) d w3 H3) as (w4 & -> & H4 & E4); [plain|by apply is_u8_u16|].
  exists w4. split; [done|]. split; [done|]. rewrite E4, E3, E2, E1.
  pose proof Hr as ((Hl & _) & _). destruct (list18 _ Hl) as (? & ? & ? & ? & ? & ? & ? & ? & ? & ? & ? & ? & ? & ? & ? & ? & ? & ? & ->). reflexivity.
Qed.

Lemma cfg_ip_spec body (w : Web F) r w' :
  reg_inv (w_regs w) -> cfg_ip body w = Some (r, w') ->
  reg_inv (w_regs w') /\
  match json_get_str body (bs "ip") with
  | Some None => r = None /\ w' = w
  | Some (Some t) =>
      match from_utf8 t with
      | None => r = Some None /\ w' = w
      | Some s =>
          match addr_octets s with
          | Some o => r = None /\ holding (w_regs w') = put_ip (Some o) (holding (w_regs w))
          | None => r = Some (Some (bs "invalid ip")) /\ w' = w
          end
      end
  | None => False
  end.
Proof.
  intros Hr E. unfold cfg_ip, lift in E. unfold mbind at 1, M_bind in E.
  destruct (json_get_str body (bs "ip")) as [[t|]|]; [|by injection E as <- <-|done].
  destruct (from_utf8 t) as [s|]; [|by injection E as <- <-]. unfold addr_octets.
  destruct (parse_parts 4 255 (split 46 s)) as [[vs it]|] eqn:Ep; [|by injection E as <- <-].
  destruct (parse_parts_bound 4 255 _ _ _ ltac:(lia) Ep) as [Hl Hb].
  destruct vs as [|a [|b [|c [|d [|]]]]]; try done. destruct it; [|by injection E as <- <-].
  destruct (ip_addr_valid a b c d); [|by injection E as <- <-].
  repeat match goal with H : Forall _ (_ :: _) |- _ => apply Forall_cons_1 in H as [? H] end. cbv beta in *.
  destruct (set_octets_spec a b c d w Hr) as (w1 & E1 & Q1 & Q2); [unfold is_u8; lia..|].
  unfold mbind, M_bind in E, E1. rewrite E1 in E. injection E as <- <-. done.
Qed.

(** The address of a body, if it has one that is acceptable. *)
Definition ip_field (body : list Z) : option (list Z) :=
  match json_get_str body (bs "ip") with
  | Some (Some t) => match from_utf8 t with Some s => addr_octets s | None => None end
  | _ => None
  end.
Definition num_field (body key : list Z) : option Z := default None (json_get_i32 body key).

Definition rs485_ok (v : Z) : bool := (1200 <=? v) && (v <=? 115200).
Definition sid_ok (v : Z) : bool := (1 <=? v) && (v <=? 247).
Definition can_bps_ok (v : Z) : bool := bool_decide (v ∈ [50; 100; 125; 250; 500; 800; 1000]).
Definition can_id_ok (v : Z) : bool := (1 <=? v) && (v <=? 0x7FF).
Definition opt_ok (ok : Z -> bool) (o : option Z) : Prop := match o with Some v => ok v = true | None => True end.

Lemma cfg_num_field body key valid idx err (w : Web F) e w' :
  reg_inv (w_regs w) -> plain_reg idx -> (forall v, valid v = true -> 0 <= v) -> cfg_num body key valid idx err w = Some (e, w') ->
  reg_inv (w_regs w') /\
  (e = None /\ opt_ok valid (num_field body key) /\ holding (w_regs w') = put_num (num_field body key) idx (holding (w_regs w)) \/
   (exists x, e = Some x) /\ holding (w_regs w') = holding (w_regs w)).
Proof.
  intros Hr Hi Hv E. destruct (cfg_num_spec body key valid idx err w e w' Hr Hi Hv E) as (o & Ho & H1 & H2 & H3).
  unfold num_field. rewrite Ho. split; [done|]. destruct e as [x|]; [right; split; [by eexists|exact H2]|left]. split; [done|]. split; [|exact H2]. exact (H3 eq_refl).
Qed.


Lemma put_num_length o i h : length (put_num o i h) = length h.
Proof. unfold put_num. destruct o; [|done]. destruct (_ <=? _); [apply length_insert|done]. Qed.

(** Each field keeps the parameters valid. *)
Lemma put_num_valid o h :
  length h = 18%nat ->
  (opt_ok rs485_ok o -> cfg_valid h -> cfg_valid (put_num o HOLDING_RS485_BAUDRATE_IDX h)) /\
  (opt_ok sid_ok o -> cfg_valid h -> cfg_valid (put_num o HOLDING_SLAVE_ID_IDX h)) /\
  (opt_ok can_bps_ok o -> cfg_valid h -> cfg_valid (put_num o HOLDING_CAN_BAUDRATE_IDX h)) /\
  (opt_ok can_id_ok o -> cfg_valid h -> cfg_valid (put_num o HOLDING_CAN_ID_IDX h)).
Proof.
  intros Hl. destruct o as [v|]; [|done]. unfold put_num. destruct (Z.leb_spec v 65535); [|done].
  destruct (list18 _ Hl) as (? & ? & ? & ? & ? & ? & ? & ? & ? & ? & ? & ? & ? & ? & ? & ? & ? & ? & ->).
  unfold opt_ok, rs485_ok, sid_ok, can_bps_ok, can_id_ok.
  split_and!; intros Ho (Q1 & Q2 & Q3 & Q4 & Q5); (split; [exact Q1|]); (split; [first [exact Q2|cbn; lia]|]); (split; [first [exact Q3|cbn; lia]|]);
    (split; [first [exact Q4|exact (bool_decide_eq_true_1 _ Ho)]|first [exact Q5|cbn; lia]]).
Qed.

Lemma put_ip_valid s o h : length h = 18%nat -> addr_octets s = Some o -> cfg_valid h -> cfg_valid (put_ip (Some o) h).
Proof.
  intros Hl E (Q1 & Q2). unfold addr_octets in E.
  destruct (parse_parts 4 255 (split 46 s)) as [[vs it]|]; [|done].
  destruct vs as [|a [|b [|c [|d [|]]]]]; try done. destruct it; [|done].
  destruct (ip_addr_valid a b c d) eqn:Ev; [|done]. injection E as <-.
  destruct (list18 _ Hl) as (? & ? & ? & ? & ? & ? & ? & ? & ? & ? & ? & ? & ? & ? & ? & ? & ? & ? & ->).
  split; [exact Ev|exact Q2].
Qed.

(** A step of the configuration command after the address. *)
Lemma cfg_step body key valid idx err (k : option (list Z) -> M (Web F) (option (list Z))) (w : Web F) e w' :
  (forall x, k (Some x) = mret (Some x)) -> reg_inv (w_regs w) -> plain_reg idx -> (forall v, valid v = true -> 0 <= v) ->
  (cfg_num body key valid idx err ≫= k) w = Some (e, w') ->
  (is_Some e /\ reg_inv (w_regs w') /\ holding (w_regs w') = holding (w_regs w)) \/
  exists w1, reg_inv (w_regs w1) /\ opt_ok valid (num_field body key) /\
    holding (w_regs w1) = put_num (num_field body key) idx (holding (w_regs w)) /\ k None w1 = Some (e, w').
Proof.
  intros Hk Hr Hi Hv E. unfold mbind, M_bind in E.
  destruct (cfg_num body key valid idx err w) as [[x w1]|] eqn:E1; [|done].
  destruct (cfg_num_field body key valid idx err w x w1 Hr Hi Hv E1) as (H1 & [(-> & H2 & H3)|([y ->] & H3)]).
  - right. eauto.
  - left. rewrite Hk in E. injection E as <- <-. eauto.
Qed.

(** The number fields, in the order of the code. *)
Definition web_cfg_nums (body : list Z) : M (Web F) (option (list Z)) :=
  e ← cfg_num body (bs "rs485") rs485_ok HOLDING_RS485_BAUDRATE_IDX (bs "invalid rs485 baud");
  if e is Some e then mret (Some e) else
  e ← cfg_num body (bs "sid") sid_ok HOLDING_SLAVE_ID_IDX (bs "invalid slave id");
  if e is Some e then mret (Some e) else
  e ← cfg_num body (bs "can_bps") can_bps_ok HOLDING_CAN_BAUDRATE_IDX (bs "invalid can baud");
  if e is Some e then mret (Some e) else
  cfg_num body (bs "can_id") can_id_ok HOLDING_CAN_ID_IDX (bs "invalid can id").

Lemma reg_inv_length r : reg_inv r -> length (holding r) = 18%nat.
Proof. intros ((Hl & _) & _). exact Hl. Qed.

Lemma rs485_nat v : rs485_ok v = true -> 0 <= v.
Proof. unfold rs485_ok. lia. Qed.
Lemma sid_nat v : sid_ok v = true -> 0 <= v.
Proof. unfold sid_ok. lia. Qed.
Lemma can_id_nat v : can_id_ok v = true -> 0 <= v.
Proof. unfold can_id_ok. lia. Qed.
Lemma can_bps_nat v : can_bps_ok v = true -> 0 <= v.
Proof. intros H%bool_decide_eq_true_1. repeat (apply elem_of_cons in H as [->|H]; [lia|]). by apply elem_of_nil in H. Qed.
Hint Resolve rs485_nat sid_nat can_id_nat can_bps_nat : core.

Lemma cfg_nums body (w : Web F) e w' :
  reg_inv (w_regs w) -> web_cfg_nums body w = Some (e, w') ->
  (cfg_valid (holding (w_regs w)) -> cfg_valid (holding (w_regs w'))) /\
  (e = None -> holding (w_regs w') =
     put_num (num_field body (bs "can_id")) HOLDING_CAN_ID_IDX (put_num (num_field body (bs "can_bps")) HOLDING_CAN_BAUDRATE_IDX
       (put_num (num_field body (bs "sid")) HOLDING_SLAVE_ID_IDX (put_num (num_field body (bs "rs485")) HOLDING_RS485_BAUDRATE_IDX
         (holding (w_regs w)))))).
Proof.
  intros Hr E. unfold web_cfg_nums in E.
  apply cfg_step in E as [([x ->] & _ & ->)|(w1 & Hr1 & Ho1 & E1 & E)]; [done| |done|done|plain|auto].
  assert (V1 : cfg_valid (holding (w_regs w)) -> cfg_valid (holding (w_regs w1))).
  { rewrite E1. by apply put_num_valid; [apply reg_inv_length|]. }
  apply cfg_step in E as [([x ->] & _ & ->)|(w2 & Hr2 & Ho2 & E2 & E)]; [done| |done|done|plain|auto].
  assert (V2 : cfg_valid (holding (w_regs w1)) -> cfg_valid (holding (w_regs w2))).
  { rewrite E2. by apply put_num_valid; [apply reg_inv_length|]. }
  apply cfg_step in E as [([x ->] & _ & ->)|(w3 & Hr3 & Ho3 & E3 & E)]; [split; [auto|done]| |done|done|plain|auto].
  assert (V3 : cfg_valid (holding (w_regs w2)) -> cfg_valid (holding (w_regs w3))).
  { rewrite E3. by apply put_num_valid; [apply reg_inv_length|]. }
  assert (Hp : plain_reg HOLDING_CAN_ID_IDX) by plain.
  destruct (cfg_num_field _ _ _ _ _ _ _ _ Hr3 Hp can_id_nat E) as (_ & [(-> & Ho4 & E4)|([x ->] & E4)]);
    rewrite E4; [|split; [auto|done]].
  split; [|by rewrite E3, E2, E1]. intros H. apply put_num_valid; [by apply reg_inv_length|done|auto].
Qed.

(** C36: The configuration command stores valid parameters only.  Whatever the body and
    however the command ends, parameters that were valid stay valid.  If it
    reports success, and the address (if any) is text, the registers are the old
    ones with exactly the given fields replaced; the baud rate is stored if it has
    16 bits.  If it reports an error, fields before the refused one are stored. *)
Theorem web_cfg_valid body (w : Web F) e w' (Hr : reg_inv (w_regs w)) (E : web_cmd_cfg body w = Some (e, w')) :
  let h := holding (w_regs w) in
  (cfg_valid h -> cfg_valid (holding (w_regs w'))) /\
  (e = None -> (forall t, json_get_str body (bs "ip") = Some (Some t) -> is_Some (from_utf8 t)) ->
   holding (w_regs w') =
     put_num (num_field body (bs "can_id")) HOLDING_CAN_ID_IDX (put_num (num_field body (bs "can_bps")) HOLDING_CAN_BAUDRATE_IDX
       (put_num (num_field body (bs "sid")) HOLDING_SLAVE_ID_IDX (put_num (num_field body (bs "rs485")) HOLDING_RS485_BAUDRATE_IDX
         (put_ip (ip_field body) h))))).
Proof.
  unfold web_cmd_cfg in E. unfold mbind at 1, M_bind in E. cbv zeta.
  destruct (cfg_ip body w) as [[r w0]|] eqn:E0; [|done].
  destruct (cfg_ip_spec body w r w0 Hr E0) as (Hr0 & Hip).
  assert (Hd : (exists x, r = Some x /\ w0 = w /\ (x = None -> exists t, json_get_str body (bs "ip") = Some (Some t) /\ from_utf8 t = None)) \/
     r = None /\ holding (w_regs w0) = put_ip (ip_field body) (holding (w_regs w)) /\
       (cfg_valid (holding (w_regs w)) -> cfg_valid (holding (w_regs w0)))).
  { unfold ip_field. pose proof (reg_inv_length _ Hr) as Hlen.
    destruct (json_get_str body (bs "ip")) as [[t|]|]; [|by destruct Hip as [-> ->]; right|done].
    destruct (from_utf8 t) as [s|] eqn:Et; [|destruct Hip as [-> ->]; left; exists None; eauto].
    destruct (addr_octets s) as [o|] eqn:Eo; [destruct Hip as [-> ->]; right|destruct Hip as [-> ->]; left; eexists; split; [done|split; [done|intros [=]]]].
    split; [done|]. split; [done|]. by apply (put_ip_valid s o _ Hlen Eo). }
  destruct Hd as [(x & -> & -> & Hx)|(-> & E1 & Hv0)].
  { injection E as <- <-. split; [done|]. intros -> Ht. destruct (Hx eq_refl) as (t & Ha & Hb). destruct (Ht t Ha). congruence. }
  rewrite <- E1. clear E0 Hip E1. cut ((cfg_valid (holding (w_regs w0)) -> cfg_valid (holding (w_regs w'))) /\
   (e = None -> holding (w_regs w') =
     put_num (num_field body (bs "can_id")) HOLDING_CAN_ID_IDX (put_num (num_field body (bs "can_bps")) HOLDING_CAN_BAUDRATE_IDX
       (put_num (num_field body (bs "sid")) HOLDING_SLAVE_ID_IDX (put_num (num_field body (bs "rs485")) HOLDING_RS485_BAUDRATE_IDX
         (holding (w_regs w0))))))); [tauto|]. clear Hv0 Hr w. by apply cfg_nums.
Qed.
End Cfg.

(** ** Witnesses *)

Lemma web_blank_inv : device_inv web_blank.
Proof.
  split_and!.
  - apply RegMap_new_inv. unfold is_u16. lia.
  - split; intros i Hi; do 8 (destruct i as [|i]; [reflexivity|]); lia.
  - split; cbn; unfold QUEUE_CAP, CTRL_QUEUE_CAP; lia.
Qed.

Lemma web_keeps_device_witness :
  exists r w', dispatch [] (fun _ => []) (bs "POST") (bs "/api/do") (Some (js "{'index':3,'value':1}")) web_blank = Some (r, w') /\
    device_inv w' /\ holding (w_regs w') !! HOLDING_DO_IDX = Some 8.
Proof.
  destruct (dispatch [] (fun _ => []) (bs "POST") (bs "/api/do") (Some (js "{'index':3,'value':1}")) web_blank) as [[r w']|] eqn:E;
    [|vm_compute in E; discriminate].
  exists r, w'. split; [done|]. split; [exact (proj1 (web_keeps_device [] (fun _ => []) web_blank web_blank_inv) _ _ _ _ _ E)|].
  vm_compute in E. injection E as <- <-. reflexivity.
Defined.

Lemma web_cfg_valid_witness :
  exists w', web_cmd_cfg (js "{'ip':'192.168.1.9','sid':7}") web_blank = Some (None, w') /\
    holding (w_regs w') = put_num (Some 7) HOLDING_SLAVE_ID_IDX (put_ip (Some [192; 168; 1; 9]) (holding (w_regs web_blank))).
Proof.
  destruct (web_cmd_cfg (js "{'ip':'192.168.1.9','sid':7}") web_blank) as [[e w']|] eqn:E; [|vm_compute in E; discriminate].
  pose proof (proj2 (web_cfg_valid (js "{'ip':'192.168.1.9','sid':7}") web_blank e w' (proj1 web_blank_inv) E)) as H.
  assert (e = None) as -> by (vm_compute in E; by injection E as <- _).
  exists w'. split; [done|]. refine (H eq_refl _). intros t Ht. vm_compute in Ht. injection Ht as <-. eexists. vm_compute. reflexivity.
Defined.
