(* ===== verification/WebText.v ===== *)
(** * The texts of the web server fit their buffers

    The server formats into buffers of fixed size and drops what does not fit.
    The texts that describe the device always fit, so none is ever cut. *)
From S2P Require Import Prelude Text Bytes TimeMath RegMap MbSpec ConfigStore UdpCfg WebJson History Channels System.
From S2P Require Import Storage HttpReq Web Ws WsFrames FwUpg W25q NorSpec FwSession StMonad WsSession.

(** ** Lengths *)

Lemma digits_go_length fuel : forall n k, 0 <= n < 10 ^ Z.of_nat k -> (1 <= k)%nat ->
  (length (digits_go fuel n []) <= k)%nat.
Proof.
  induction fuel as [|fuel IH]; intros n k Hn Hk; cbn [digits_go]; [cbn; lia|].
  destruct (Z.ltb_spec n 10); [cbn; lia|]. rewrite digits_go_app, length_app. cbn [length].
  destruct (decide (k = 1)%nat) as [->|]; [cbn in Hn; lia|].
  destruct k as [|k]; [lia|]. assert (Hd : 0 <= n / 10 < 10 ^ Z.of_nat k).
  { rewrite Nat2Z.inj_succ, Z.pow_succ_r in Hn by lia. split; [apply Z.div_pos; lia|apply Z.div_lt_upper_bound; lia]. }
  specialize (IH (n / 10) k Hd ltac:(lia)). lia.
Qed.

Lemma decimal_length n k : 0 <= n < 10 ^ Z.of_nat k -> (1 <= k)%nat -> (length (decimal n) <= k)%nat.
Proof. apply digits_go_length. Qed.

Lemma decimal_u16 n : is_u16 n -> (length (decimal n) <= 5)%nat.
Proof. intros Hn. unfold is_u16 in Hn. apply decimal_length; [change (10 ^ Z.of_nat 5) with 100000|]; lia. Qed.
Lemma decimal_u32 n : is_u32 n -> (length (decimal n) <= 10)%nat.
Proof. intros Hn. unfold is_u32 in Hn. apply decimal_length; [change (10 ^ Z.of_nat 10) with 10000000000|]; lia. Qed.
Lemma decimal_u64 n : 0 <= n < 2 ^ 64 -> (length (decimal n) <= 20)%nat.
Proof. intros Hn. apply decimal_length; [change (10 ^ Z.of_nat 20) with 100000000000000000000|]; lia. Qed.

(** ** Formats that fit *)

Lemma write_pieces_fit cap ps : forall s, (length s + length (concat ps) <= cap)%nat -> write_pieces cap ps s = s ++ concat ps.
Proof.
  induction ps as [|p ps IH]; intros s H; cbn [write_pieces concat] in *; [by rewrite app_nil_r|].
  rewrite length_app in H. rewrite (proj2 (Nat.leb_le _ _)) by lia. rewrite IH by (rewrite length_app; lia). by rewrite app_assoc.
Qed.

Lemma write_pieces_cap cap ps : forall s, (length s <= cap)%nat -> (length (write_pieces cap ps s) <= cap)%nat.
Proof.
  induction ps as [|p ps IH]; intros s H; cbn [write_pieces]; [done|].
  destruct (Nat.leb_spec (length s + length p) cap); [|done]. apply IH. by rewrite length_app.
Qed.

Lemma writes_fit cap ws : (length (concat (concat ws)) <= cap)%nat -> writes cap ws = concat (concat ws).
Proof.
  unfold writes. change (concat (concat ws)) with ([] ++ concat (concat ws)) at 2. change (length (concat (concat ws)))
    with (length (@nil Z) + length (concat (concat ws)))%nat. generalize (@nil Z) as s.
  induction ws as [|w ws IH]; intros s H; cbn [foldl concat] in *; [by rewrite app_nil_r|].
  rewrite concat_app, length_app in H. rewrite write_pieces_fit by lia.
  rewrite IH by (rewrite length_app; lia). by rewrite concat_app, app_assoc.
Qed.

(** An array of numbers of at most [k] digits. *)
Lemma sep_length k (sep : nat -> list Z) vals : (forall i, (length (sep i) <= 1)%nat) ->
  Forall (fun v => (length (decimal v) <= k)%nat) vals ->
  (length (concat (concat (imap (fun i v => [sep i; decimal v]) vals))) <= length vals * S k)%nat.
Proof.
  revert sep. induction vals as [|v vals IH]; intros sep Hs H; [done|]. apply Forall_cons_1 in H as [Hv H].
  rewrite imap_cons. cbn [concat app length]. rewrite !length_app. specialize (Hs 0%nat) as H0.
  pose proof (IH (sep ∘ S) (fun i => Hs (S i)) H) as Hi. unfold compose in *. cbn [Nat.mul]. lia.
Qed.

Lemma elems_length k vals : Forall (fun v => (length (decimal v) <= k)%nat) vals ->
  (length (concat (concat (elems vals))) <= length vals * S k)%nat.
Proof. intros H. unfold elems. apply (sep_length k (fun i : nat => if (0 <? i)%nat then [44] else [])); [|done]. intros [|i]; cbn; lia. Qed.

Lemma bits_length n v : (length (concat (concat (elems (bits n v)))) <= n * 2)%nat.
Proof.
  eapply Nat.le_trans; [apply (elems_length 1)|unfold bits; by rewrite length_fmap, length_seq].
  unfold bits. apply Forall_fmap, Forall_true. intros i. cbn. change 1 with (Z.ones 1). rewrite Z.land_ones by lia.
  change (2 ^ 1) with 2. apply decimal_length; [|lia]. change (10 ^ Z.of_nat 1) with 10. zdm.
Qed.

Lemma inv_wf r : reg_inv r -> reg_wf r.
Proof. by intros [H _]. Qed.

Lemma read_holding_u16 r a (s : Sys) : reg_inv r -> is_u16 (io_read_holding r a s).
Proof.
  intros H. unfold io_read_holding. destruct (_ =? _)%nat; [apply as_u16_range|].
  destruct (_ =? _)%nat; [apply as_u16_range|by apply get_holding_u16, H].
Qed.

Ltac u16_list := apply Forall_fmap, Forall_true; intros i; cbv beta; apply decimal_u16;
  first [by apply get_input_u16, inv_wf|by apply get_holding_u16, inv_wf|by apply read_holding_u16].

(** What a list of formats amounts to. *)
Lemma concat2_app {A} (a b : list (list (list A))) : concat (concat (a ++ b)) = concat (concat a) ++ concat (concat b).
Proof. by rewrite !concat_app. Qed.

Definition millis_ok (s : Sys) : Prop := 0 <= as_millis s < 2 ^ 64.

Lemma io_length r s : reg_inv r -> millis_ok s -> (length (concat (concat (io_writes r s))) <= 160)%nat.
Proof.
  intros Hr Ht. unfold io_writes. rewrite !concat2_app. cbn [concat app]. rewrite ?app_nil_r, !length_app.
  pose proof (bits_length 16 (get_input r (Z.of_nat INPUT_DI_IDX))) as H1.
  pose proof (bits_length 8 (get_holding r (Z.of_nat HOLDING_DO_IDX))) as H2.
  pose proof (elems_length 5 ((fun i => get_input r (Z.of_nat (INPUT_AI0_IDX + i))) <$> seq 0 4) ltac:(u16_list)) as H3.
  rewrite length_fmap, length_seq in H3.
  pose proof (decimal_u16 _ (get_holding_u16 r (Z.of_nat HOLDING_DI_ENABLE_IDX) (inv_wf r Hr))) as H4.
  pose proof (decimal_u16 _ (get_holding_u16 r (Z.of_nat HOLDING_AI_ENABLE_IDX) (inv_wf r Hr))) as H5.
  pose proof (decimal_u64 _ Ht) as H6.
  repeat match goal with |- context [length (js ?x)] => let v := eval vm_compute in (length (js x)) in change (length (js x)) with v end.
  cbn [length app]. lia.
Qed.

Lemma regs_length r s : reg_inv r -> (length (concat (concat (regs_writes r s))) <= 180)%nat.
Proof.
  intros Hr. unfold regs_writes. rewrite !concat2_app. cbn [concat app]. rewrite ?app_nil_r, !length_app.
  pose proof (elems_length 5 ((fun i => io_read_holding r (Z.of_nat i) s) <$> seq 0 MODBUS_HOLDING_REGISTER_NUMBERS) ltac:(u16_list)) as H1.
  pose proof (elems_length 5 ((fun i => get_input r (Z.of_nat i)) <$> seq 0 MODBUS_INPUT_REGISTER_NUMBERS) ltac:(u16_list)) as H2.
  rewrite length_fmap, length_seq in H1, H2.
  repeat match goal with |- context [length (js ?x)] => let v := eval vm_compute in (length (js x)) in change (length (js x)) with v end.
  unfold MODBUS_HOLDING_REGISTER_NUMBERS, MODBUS_INPUT_REGISTER_NUMBERS in *. lia.
Qed.

Ltac lengths :=
  repeat match goal with
  | |- context [length (js ?x)] => let v := eval vm_compute in (length (js x)) in change (length (js x)) with v
  | |- context [length (bs ?x)] => let v := eval vm_compute in (length (bs x)) in change (length (bs x)) with v
  end; unfold CRLF2; cbn [length app].

Lemma concat_length (ns : list nat) (ps : list (list Z)) :
  Forall2 (fun p n => (length p <= n)%nat) ps ns -> (length (concat ps) <= sum_list ns)%nat.
Proof. induction 1 as [|p n ps ns H _ IH]; [done|]. cbn. rewrite length_app. lia. Qed.

Lemma info_length V B r mac link uptime t free total :
  reg_inv r -> (length V + length B <= 200)%nat -> 0 <= uptime < 2 ^ 64 -> is_u32 t -> is_u32 free -> is_u32 total ->
  (length (concat (info_pieces V B r mac link uptime t free total)) <= 704)%nat.
Proof.
  intros Hr HV Hu Ht Hf Htot.
  eapply Nat.le_trans.
  - apply (concat_length [23; length V; 11; length B; 80; 2; 1; 2; 1; 2; 1; 2; 1; 2; 1; 2; 8; 5; 1; 5; 1; 5; 1; 5; 13; 5; 14; 5; 10; 5; 12; 5; 13; 20; 8; 10; 11; 5; 12; 10; 13; 10; 10; 5; 9; 5; 9; 5; 1]%nat).
    unfold info_pieces. cbv zeta.
    repeat (constructor; [cbv beta; first [exact (Nat.le_refl _) | by apply decimal_u16, get_holding_u16, inv_wf
      | by apply decimal_u64 | by apply decimal_u32 | apply Nat.leb_le; vm_compute; reflexivity
      | destruct link; apply Nat.leb_le; vm_compute; reflexivity
      | destruct (_ =? _); apply Nat.leb_le; vm_compute; reflexivity]|]). constructor.
  - cbn [sum_list_with sum_list foldr Nat.add] in *. cbn. lia.
Qed.

(** ** Responses *)

Lemma respond_fit status ctype body keep :
  (length status <= 32)%nat -> (length ctype <= 32)%nat -> is_u32 (Z.of_nat (length body)) ->
  respond status ctype body keep = concat (header_pieces status ctype (length body) keep) ++ body.
Proof.
  intros Hs Hc Hb. unfold respond. f_equal. rewrite write_pieces_fit; [done|].
  pose proof (decimal_u32 _ Hb). unfold header_pieces. cbn [concat length Nat.add]. rewrite ?app_nil_r, !length_app.
  assert ((length (if keep then bs "keep-alive" else bs "close") <= 10)%nat) by (destruct keep; apply Nat.leb_le; reflexivity).
  lengths. lia.
Qed.

(** ** Pushes of a session *)

(** A server frame with a text. *)
Definition txt_frame (payload : list Z) : list Z :=
  let '(hdr, hl) := ws_frame_hdr 32 (replicate 10 0) 1 (Z.of_nat (length payload)) in take hl hdr ++ payload.

Lemma ws_frame_buf_fit payload : (length payload <= 790)%nat -> ws_frame_buf payload = Some (txt_frame payload).
Proof.
  intros H. unfold ws_frame_buf, txt_frame, ws_frame_hdr. repeat case_match; simplify_eq;
    repeat match goal with H : (_ <=? _)%nat = false |- _ => apply Nat.leb_gt in H end; try done; lia.
Qed.

(** C37: Nothing the server says about the device is ever cut.  Of a well-formed
    register map, with a version and a build text of at most 200 bytes together,
    the three descriptions (I/O, registers, device) are formatted in full within
    256, 256 and 704 bytes; an answer with one of them has its full header; and
    the pushes of a WebSocket session carry them in full and never panic. *)
Theorem web_texts_complete {F} `{!Flash F} (V B mac : list Z) (link : bool) (snap : FsSnap) (w : Web F) p s
    (Hr : reg_inv (w_regs w)) (Ht : millis_ok (w_sys w)) (He : is_u32 (epoch (w_sys w)))
    (Hf : is_u32 (free snap)) (Htot : is_u32 (snap_total snap)) (HV : (length V + length B <= 200)%nat) (Hs : ws_web s = w) :
  let io := concat (concat (io_writes (w_regs w) (w_sys w))) in
  let regs := concat (concat (regs_writes (w_regs w) (w_sys w))) in
  let info := concat (info_pieces V B (w_regs w) mac link (as_millis (w_sys w)) (epoch (w_sys w)) (free snap) (snap_total snap)) in
  let ok t := concat (header_pieces OK_200 JSON (length t) true) ++ t in
  let info_json (w : Web F) := build_info_json V B (w_regs w) (w_sys w) mac link snap in
  respond OK_200 JSON (build_io_json (w_regs w) (w_sys w)) true = ok io /\
  respond OK_200 JSON (build_regs_json (w_regs w) (w_sys w)) true = ok regs /\
  respond OK_200 JSON (info_json w) true = ok info /\
  ws_turn info_json WsPush p s = Some (txt_frame io ++ txt_frame regs, Some (p, s)) /\
  ws_turn info_json WsInfo p s = Some (txt_frame info, Some (p, s)).
Proof.
  intros io regs info ok info_json.
  pose proof (io_length _ _ Hr Ht) as H1. pose proof (regs_length _ (w_sys w) Hr) as H2.
  pose proof (info_length V B _ mac link _ _ _ _ Hr HV Ht He Hf Htot) as H3. fold io in H1. fold regs in H2. fold info in H3.
  assert (Eio : build_io_json (w_regs w) (w_sys w) = io) by (apply writes_fit; fold io; lia).
  assert (Er : build_regs_json (w_regs w) (w_sys w) = regs) by (apply writes_fit; fold regs; lia).
  assert (Ei : info_json w = info) by (apply (write_pieces_fit 704 _ []); exact H3).
  assert (Hok : forall t, (length t <= 704)%nat -> respond OK_200 JSON t true = ok t).
  { intros t H. apply respond_fit; [apply Nat.leb_le; reflexivity..|unfold is_u32; lia]. }
  rewrite Eio, Er, Ei, !Hok by lia. split_and!; try done; unfold ws_turn; rewrite Hs.
  - cbv zeta. rewrite Eio, Er, !ws_frame_buf_fit by lia. done.
  - rewrite Ei, ws_frame_buf_fit by lia. done.
Qed.

Lemma web_texts_complete_witness :
  let w := web_blank in let s := mkWsS w 0 [] true in
  let info_json (w : Web Chip) := build_info_json (bs "1.2.3") (bs "abc") (w_regs w) (w_sys w) (replicate 6 1) true FsSnap_init in
  exists b, ws_turn info_json WsPush WsParser_new s = Some (b, Some (WsParser_new, s)).
Proof.
  intros w s info_json.
  assert (Hr : reg_inv (w_regs w)) by (apply RegMap_new_inv; unfold is_u16; lia).
  assert (Ht : millis_ok (w_sys w)) by (unfold millis_ok; split; [discriminate|reflexivity]).
  assert (He : is_u32 (epoch (w_sys w))) by (split; [discriminate|reflexivity]).
  assert (Hf : is_u32 (free FsSnap_init) /\ is_u32 (snap_total FsSnap_init)) by (repeat split; discriminate || reflexivity).
  assert (HV : (length (bs "1.2.3") + length (bs "abc") <= 200)%nat) by (apply Nat.leb_le; reflexivity).
  destruct (web_texts_complete (bs "1.2.3") (bs "abc") (replicate 6 1) true FsSnap_init w WsParser_new s
    Hr Ht He (proj1 Hf) (proj2 Hf) HV eq_refl) as (_ & _ & _ & E & _).
  eexists. exact E.
Defined.
