(* ===== verification/WsOpen.v ===== *)
(** * Opening a WebSocket (serve in crates/firmware/src/httpd.rs)

    The answer to an upgrade, and the slot for one session that the two connection
    tasks share.  A task gives up the processor while it answers and while its session
    runs, so the tasks take these steps in any order. *)
From S2P Require Import Prelude Text Bytes RegMap Ws Base64 Storage HttpReq Web WebText WsSession.

(** ** The steps *)

(** A task between requests, in the branch that holds the slot (a session, or the answer
    to a header without a key), in the 50 ms after a refusal. *)
Inductive WsTask := Requests | Holds (session : bool) | Refused.

#[export] Instance WsTask_eq_dec : EqDecision WsTask.
Proof. solve_decision. Defined.

Record WsSlots := mkWsSlots { conns : list WsTask; WS_ACTIVE : bool }.
Definition WsSlots_init : WsSlots := mkWsSlots [Requests; Requests] false.

Definition busy_answer : list Z := respond (bs "503 Service Unavailable") JSON (js "{'ok':false,'err':'ws busy'}") false.
Definition switch_pieces (accept : list Z) : list (list Z) :=
  [bs "HTTP/1.1 101 Switching Protocols" ++ [13; 10] ++ bs "Upgrade: websocket" ++ [13; 10] ++ bs "Connection: Upgrade" ++ [13; 10] ++ bs "Sec-WebSocket-Accept: ";
   default [] (from_utf8 accept); [13; 10; 13; 10]].

(** [compare_exchange], then the key of the header: the answer, what the task does next,
    the flag.  [None] is a panic. *)
Definition ws_open (hdr : list Z) (active : bool) : option (list Z * WsTask * bool) :=
  if active then Some (busy_answer, Refused, active) else
  match ws_extract_key hdr with
  | Some key => accept ← ws_accept_key key; Some (write_pieces 160 (switch_pieces accept) [], Holds true, true)
  | None => Some (json_err BAD_400 (bs "bad request"), Holds false, true)
  end.

(** A task reads an upgrade; the branch that held the slot, or the wait, ends. *)
Inductive WsEv := Upgrades (k : nat) (hdr : list Z) | Ends (k : nat).

Definition upgrade_step (e : WsEv) (t : WsSlots) : option (list Z * WsSlots) :=
  match e with
  | Upgrades k hdr =>
      match conns t !! k with
      | Some Requests => '(out, c, active) ← ws_open hdr (WS_ACTIVE t); Some (out, mkWsSlots (<[k := c]> (conns t)) active)
      | _ => None
      end
  | Ends k =>
      match conns t !! k with
      | Some (Holds _) => Some ([], mkWsSlots (<[k := Requests]> (conns t)) false)
      | Some Refused => Some ([], mkWsSlots (<[k := Requests]> (conns t)) (WS_ACTIVE t))
      | _ => None
      end
  end.

Fixpoint upgrade_run (evs : list WsEv) (t : WsSlots) : option WsSlots :=
  match evs with [] => Some t | e :: evs => '(_, t) ← upgrade_step e t; upgrade_run evs t end.

(** ** The accept key *)

Lemma sha1_length m : length (sha1_spec m) = 20%nat.
Proof. done. Qed.

Lemma ws_accept_key_spec key : ws_accept_key key = Some (b64_enc (sha1_spec (key ++ GUID))) /\ length (b64_enc (sha1_spec (key ++ GUID))) = 28%nat.
Proof.
  assert (length (chunks3 (sha1_spec (key ++ GUID))) = 7%nat) as Hc by done.
  assert (length (b64_enc (sha1_spec (key ++ GUID))) = 28%nat) as Hl by done. split; [|done].
  unfold ws_accept_key. destruct (sha_update_abs key Sha1_new [] sha_new_abs) as (s1 & -> & H1). cbn [mbind option_bind].
  destruct (sha_update_abs GUID s1 _ H1) as (s2 & -> & H2). cbn [mbind option_bind]. rewrite (sha_finalize_abs _ _ H2). cbn [mbind option_bind app].
  rewrite b64_encode_enc by (rewrite Hc, length_replicate; lia). done.
Qed.

Lemma b64_at i : 0 <= B64 !!! i < 128.
Proof.
  rewrite list_lookup_total_alt. destruct (B64 !! i) as [c|] eqn:E; [|cbn; lia].
  assert (forallb (fun c => (0 <=? c) && (c <? 128)) B64 = true) as H by (vm_compute; done).
  rewrite forallb_forall in H. specialize (H c ltac:(apply list_elem_of_In; by eapply list_elem_of_lookup_2)).
  apply andb_true_iff in H as [?%Z.leb_le ?%Z.ltb_lt]. done.
Qed.

Lemma b64_ascii l : is_ascii (b64_enc l).
Proof.
  apply list.Forall_bind, list.Forall_forall. intros chunk _. unfold b64_chars. apply list.Forall_app. split.
  - apply list.Forall_take. repeat (constructor; [apply b64_at|]). constructor.
  - by apply Forall_replicate.
Qed.

(** RFC 6455: SHA-1 of the key and the GUID, in base64. *)
Definition rfc_accept (key : list Z) : list Z := b64_enc (sha1_spec (key ++ GUID)).

Lemma ws_open_free hdr : ws_open hdr false = Some (
  match ws_extract_key hdr with
  | Some key => (bs "HTTP/1.1 101 Switching Protocols" ++ [13; 10] ++ bs "Upgrade: websocket" ++ [13; 10] ++ bs "Connection: Upgrade" ++ [13; 10] ++
                 bs "Sec-WebSocket-Accept: " ++ rfc_accept key ++ [13; 10; 13; 10], Holds true, true)
  | None => (json_err BAD_400 (bs "bad request"), Holds false, true)
  end).
Proof.
  unfold ws_open. destruct (ws_extract_key hdr) as [key|]; [|done]. destruct (ws_accept_key_spec key) as [-> Hl]. cbn [mbind option_bind].
  unfold switch_pieces. rewrite from_utf8_ascii by apply b64_ascii. cbn [default from_option id]. fold (rfc_accept key) in *.
  rewrite write_pieces_fit; [|cbn [concat]; rewrite !length_app, Hl; vm_compute; lia]. cbn [concat]. by rewrite <- !app_assoc, app_nil_r.
Qed.

(** ** One session *)

Definition holds (c : WsTask) : Prop := match c with Holds _ => True | _ => False end.
#[export] Instance holds_dec c : Decision (holds c).
Proof. destruct c; apply _. Defined.

Definition holders (t : WsSlots) : nat := length (filter holds (conns t)).
Definition slot_inv (t : WsSlots) : Prop := holders t = if WS_ACTIVE t then 1%nat else 0%nat.

Lemma ws_open_total hdr active : exists out c active', ws_open hdr active = Some (out, c, active') /\
  if active then c = Refused /\ active' = true else holds c /\ active' = true.
Proof.
  destruct active; [by eexists _, _, _|]. rewrite ws_open_free. destruct (ws_extract_key hdr); by eexists _, _, _.
Qed.

Lemma upgrade_step_inv e t out t' : slot_inv t -> upgrade_step e t = Some (out, t') -> slot_inv t'.
Proof.
  unfold slot_inv, holders. intros H E. destruct e as [k hdr|k]; cbn [upgrade_step] in E; destruct (conns t !! k) as [[|se|]|] eqn:Ek; try done.
  - destruct (ws_open_total hdr (WS_ACTIVE t)) as (o & c & a & Eo & Hc). rewrite Eo in E. injection E as <- <-. cbn [conns WS_ACTIVE].
    pose proof (count_insert holds _ _ _ c Ek) as Hi. destruct (WS_ACTIVE t), Hc as [Hc ->]; [subst c|]; repeat case_decide; try done; lia.
  - injection E as <- <-. cbn [conns WS_ACTIVE]. pose proof (count_insert holds _ _ _ Requests Ek) as Hi.
    destruct (WS_ACTIVE t); repeat case_decide; try done; lia.
  - injection E as <- <-. cbn [conns WS_ACTIVE]. pose proof (count_insert holds _ _ _ Requests Ek) as Hi.
    repeat case_decide; try done; lia.
Qed.

Lemma upgrade_run_inv evs : forall t t', slot_inv t -> upgrade_run evs t = Some t' -> slot_inv t'.
Proof.
  induction evs as [|e evs IH]; intros t t' H E; [by injection E as <-|]. cbn [upgrade_run] in E.
  destruct (upgrade_step e t) as [[o t1]|] eqn:Es; [|done]. by apply (IH t1); [eapply upgrade_step_inv|].
Qed.

(** C11: The handshake, and one session at a time.  In any interleaving of the two tasks
    the flag is set exactly while one of them, and only one, has the slot.  An upgrade
    that finds it free is answered with the accept key of RFC 6455, and the session
    starts; one without a key with 400; one that finds it taken with 503, and the running
    session keeps the slot. *)
Theorem ws_handshake evs t k hdr (Hrun : upgrade_run evs WsSlots_init = Some t) (Hk : conns t !! k = Some Requests) :
  holders t = (if WS_ACTIVE t then 1 else 0)%nat /\
  upgrade_step (Upgrades k hdr) t = Some (
    if WS_ACTIVE t then (busy_answer, mkWsSlots (<[k := Refused]> (conns t)) true) else
    match ws_extract_key hdr with
    | Some key => (bs "HTTP/1.1 101 Switching Protocols" ++ [13; 10] ++ bs "Upgrade: websocket" ++ [13; 10] ++ bs "Connection: Upgrade" ++ [13; 10] ++
                   bs "Sec-WebSocket-Accept: " ++ rfc_accept key ++ [13; 10; 13; 10], mkWsSlots (<[k := Holds true]> (conns t)) true)
    | None => (json_err BAD_400 (bs "bad request"), mkWsSlots (<[k := Holds false]> (conns t)) true)
    end).
Proof.
  split; [by apply (upgrade_run_inv evs WsSlots_init)|]. cbn [upgrade_step]. rewrite Hk. destruct (WS_ACTIVE t); [done|].
  rewrite ws_open_free. cbn [mbind option_bind]. by destruct (ws_extract_key hdr).
Qed.

(** The example of the RFC; a second client while the session runs, and after it. *)
Definition rfc_hdr : list Z :=
  bs "GET /ws HTTP/1.1" ++ [13; 10] ++ bs "Upgrade: websocket" ++ [13; 10] ++ bs "Sec-WebSocket-Key: dGhlIHNhbXBsZSBub25jZQ==".

Lemma ws_handshake_witness :
  let evs := [Upgrades 0 rfc_hdr; Upgrades 1 rfc_hdr; Ends 1; Ends 0] in
  exists t, upgrade_run evs WsSlots_init = Some t /\ conns t !! 1%nat = Some Requests /\ holders t = (if WS_ACTIVE t then 1 else 0)%nat /\
    (fun r => r.1) <$> upgrade_step (Upgrades 1 rfc_hdr) t = Some (bs "HTTP/1.1 101 Switching Protocols" ++ [13; 10] ++ bs "Upgrade: websocket" ++ [13; 10] ++
      bs "Connection: Upgrade" ++ [13; 10] ++ bs "Sec-WebSocket-Accept: s3pPLMBiTxaQ9kYGzzhZRbK+xOo=" ++ [13; 10; 13; 10]).
Proof.
  intros evs. destruct (upgrade_run evs WsSlots_init) as [t|] eqn:E; [|vm_compute in E; discriminate E].
  assert (t = mkWsSlots [Requests; Requests] false) as Et by (vm_compute in E; congruence).
  assert (conns t !! 1%nat = Some Requests) as Hk by (by rewrite Et).
  destruct (ws_handshake evs t 1 rfc_hdr E Hk) as [H1 H2]. exists t. split; [done|]. split; [done|]. split; [done|].
  rewrite H2, Et. vm_compute. reflexivity.
Defined.
