(* ===== verification/NetUdp.v ===== *)
(** * The UDP configuration task (crates/firmware/src/net.rs)

    One turn of the task: a datagram, what it changes, what is sent, whether the
    device restarts.  The socket and the chip set-up are I/O. *)
From S2P Require Import Prelude Bytes TimeMath RegMap MbSpec ConfigStore UdpCfg History Channels System Outputs.
From S2P Require Import FwUpg W25q NorSpec FwSession FwUdp StMonad Storage Web WsSession WebInv.

(** The MAC address from the 96-bit identifier of the chip. *)
Definition derive_mac_from_uid (uid : list Z) : list Z :=
  let x i := Z.lxor (Z.lxor (Z.lxor (uid !!! i) (uid !!! (i + 3)%nat)) (uid !!! (i + 6)%nat)) (uid !!! (i + 9)%nat) in
  [0x00; 0x08; 0xDC; x 0%nat; x 1%nat; x 2%nat].

(** The address and the gateway at boot. *)
Definition static_ip (r : RegMap) : list Z * list Z :=
  let ip := ip_octets r in (ip, take 3 ip ++ [1]).

(** An IPv4 address and a port. *)
Definition Endpoint : Type := list Z * Z.

(** The sender shares the /24 of the device. *)
Definition same_subnet24 (addr : list Z) (r : RegMap) : bool := bytes_eqb (take 3 addr) (take 3 (ip_octets r)).

(** What the task reaches: the device, the pending state of the commands, the
    counters of the shell, the state of the download and its sequence number. *)
Record Net (F : Type) := mkNet { n_web : Web F; n_udp : UdpCfgState; n_rx_count : Z; n_rx_got : Z; n_dl : FileDl; n_seq : Z }.
Arguments mkNet {F} _ _ _ _ _ _.
Arguments n_web {F} _.
Arguments n_udp {F} _.
Arguments n_rx_count {F} _.
Arguments n_rx_got {F} _.
Arguments n_dl {F} _.
Arguments n_seq {F} _.

Definition with_web {F} (w : Web F) (n : Net F) : Net F := mkNet w (n_udp n) (n_rx_count n) (n_rx_got n) (n_dl n) (n_seq n).
Definition with_udp {F} (u : UdpCfgState) (n : Net F) : Net F := mkNet (n_web n) u (n_rx_count n) (n_rx_got n) (n_dl n) (n_seq n).

(** The configuration hook acts on the same statics as the register hooks; a
    command calls one of the two, so the second is kept as what remains to do. *)
#[export] Instance CfgLater : CfgHooks (Sys -> Sys) := {| config_erase_all f := fun s => config_erase_all (f s) |}.

(** The debug replies. *)
Definition rx_dump (count got : Z) : list Z := 0xFA :: to_le_bytes32 count ++ to_le_bytes32 got.
Definition fw_dump (d : list Z) : list Z := 0xFB :: (d ≫= to_le_bytes32).
Definition dl_dump (seq : Z) (d : FileDl) : list Z :=
  0xFC :: to_le_bytes32 seq ++ [Z.b2z (d_open d); Z.b2z (d_eof d); Z.b2z (d_err d)] ++ to_be_bytes32 (d_size d) ++ to_be_bytes32 (d_sent d).

Section Task.
Context {F : Type} `{!Flash F}.

Definition apply_cmd (ver : UdpVersion) (cmd : Z) (data reply : list Z) (n : Net F) : option (list Z * Net F) :=
  let w := n_web n in
  '(rlen, reply, regs, sys, later, st) ←
    udp_app_cmd cmd data reply (w_regs w) (w_sys w) (fun s => s) (n_udp n) (now_ms (w_sys w)) ver;
  Some (take rlen reply, with_udp st (with_web (mkWeb regs (later sys) (w_fw w)) n)).

(** The datagrams sent, whether the system is reset, the state.  100 ms pass
    before a reset. *)
Definition udp_turn (ver : UdpVersion) (src : Endpoint) (rx : list Z) (n : Net F)
    : option (list (list Z * Endpoint) * bool * Net F) :=
  match rx with
  | [] => Some ([], false, n)
  | cmd :: payload =>
      let same := same_subnet24 src.1 (w_regs (n_web n)) in
      if negb same && negb (udp_cmd_bcast_allowed cmd) then Some ([], false, n)
      else if cmd =? 0xFA then Some ([(rx_dump (n_rx_count n) (n_rx_got n), src)], false, n)
      else if cmd =? 0xFB then Some ([(fw_dump (FW_DBG (w_fw (n_web n))), src)], false, n)
      else
        '(r, u) ← fw_udp_cmd cmd payload (w_fw (n_web n));
        let n := with_web (set_fw u (n_web n)) n in
        match r with
        | Some (rep, rlen) => Some (if (0 <? rlen)%nat then [(take rlen rep, src)] else [], false, n)
        | None =>
            if cmd =? 0xFC then Some ([(dl_dump (n_seq n) (n_dl n), src)], false, n) else
            '(rep, n) ← apply_cmd ver cmd payload (replicate 64 0) n;
            if (length rep =? 0)%nat then Some ([], false, n) else
            let target := if same then src else ([255; 255; 255; 255], UDP_CFG_BCAST_PORT) in
            let '(reboot_now, st) := take_reboot_pending (n_udp n) in
            let n := with_udp st n in
            if reboot_now then
              let s := history_sync (w_sys (n_web n)) in
              Some ([(rep, target)], true, with_web (set_sys (at_ticks (ticks s + 100 * tick_khz s) s) (n_web n)) n)
            else Some ([(rep, target)], false, n)
        end
  end.
End Task.

(** ** Lemmas *)

Section Props.
Context {F : Type} `{!Flash F}.

(** Commands of the configuration layer. *)
Definition own_cmd (cmd : Z) : Prop := cmd ∉ [0x01; 0x02; 0x03; 0x06; 0xFA; 0xFB; 0xFC].

Lemma own_cmd_not cmd k : own_cmd cmd -> k ∈ [0x01; 0x02; 0x03; 0x06; 0xFA; 0xFB; 0xFC] -> (cmd =? k) = false.
Proof. intros Ho Hk. apply Z.eqb_neq. by intros ->. Qed.

Ltac listed := repeat (first [apply list_elem_of_here | apply list_elem_of_further]).

Lemma fw_udp_other cmd payload (u : FwW F) : own_cmd cmd -> fw_udp_cmd cmd payload u = Some (None, u).
Proof. intros Ho. unfold fw_udp_cmd. rewrite !(own_cmd_not cmd _ Ho) by listed. done. Qed.

Lemma from_be_bytes32_u32 a b c d : is_u8 a -> is_u8 b -> is_u8 c -> is_u8 d -> is_u32 (from_be_bytes32 a b c d).
Proof. unfold is_u8, is_u32, from_be_bytes32, from_le_bytes32. lia. Qed.

Lemma known_own cmd : udp_known cmd -> own_cmd cmd.
Proof.
  unfold udp_known, own_cmd. intros H. repeat (apply elem_of_cons in H as [->|H]; [by apply (bool_decide_eq_true_1 _)|]).
  by apply elem_of_nil in H.
Qed.

(** What the end of a turn does with a pending restart. *)
Definition settle_reboot (n : Net F) : bool * Net F :=
  let '(now, st) := take_reboot_pending (n_udp n) in
  let n := with_udp st n in
  if now then
    let s := history_sync (w_sys (n_web n)) in
    (true, with_web (set_sys (at_ticks (ticks s + 100 * tick_khz s) s) (n_web n)) n)
  else (false, n).

Lemma udp_turn_own ver src cmd payload (n : Net F) rep n1 :
  own_cmd cmd -> same_subnet24 src.1 (w_regs (n_web n)) = true \/ (udp_cmd_bcast_allowed cmd = true) ->
  apply_cmd ver cmd payload (replicate 64 0) n = Some (rep, n1) -> rep <> [] ->
  udp_turn ver src (cmd :: payload) n =
    Some ([(rep, if same_subnet24 src.1 (w_regs (n_web n)) then src else ([255; 255; 255; 255], UDP_CFG_BCAST_PORT))],
          (settle_reboot n1).1, (settle_reboot n1).2).
Proof.
  intros Ho Hs E Hrep. unfold udp_turn.
  assert (negb (same_subnet24 src.1 (w_regs (n_web n))) && negb (udp_cmd_bcast_allowed cmd) = false) as ->.
  { destruct Hs as [-> | ->]; [done|by rewrite andb_false_r]. }
  rewrite !(own_cmd_not cmd _ Ho) by listed. rewrite (fw_udp_other cmd payload _ Ho). cbn [mbind option_bind].
  assert (with_web (set_fw (w_fw (n_web n)) (n_web n)) n = n) as -> by (by destruct n as [[? ? ?] ? ? ? ? ?]).
  rewrite E. cbn [mbind option_bind]. destruct rep as [|x rep]; [done|]. cbn [length Nat.eqb].
  unfold settle_reboot. destruct (take_reboot_pending (n_udp n1)) as [[|] st]; done.
Qed.

Lemma udp_spec_answers cmd data r (s : Sys) ver :
  udp_known cmd -> cmd <> UDP_CMD_REBOOT -> cmd <> UDP_CMD_FACTORY_RESET -> (udp_spec cmd data r s ver).1.1 <> [].
Proof.
  intros Hk H1 H2. unfold udp_spec. repeat case_decide; repeat case_match; cbn [fst snd] in *; simplify_eq; try done.
  unfold udp_known in Hk. repeat (apply elem_of_cons in Hk as [->|Hk]; [done|]). by apply elem_of_nil in Hk.
Qed.

(** What a command does to the device and what it answers. *)
Lemma apply_cmd_spec ver cmd payload (n : Net F) :
  udp_known cmd -> cmd <> UDP_CMD_REBOOT -> cmd <> UDP_CMD_FACTORY_RESET -> bytes_ok payload ->
  reg_wf (w_regs (n_web n)) -> length (git ver) = 6%nat ->
  let '(rsp, r, s) := udp_spec cmd payload (w_regs (n_web n)) (w_sys (n_web n)) ver in
  apply_cmd ver cmd payload (replicate 64 0) n = Some (rsp, with_web (mkWeb r s (w_fw (n_web n))) n) /\ rsp <> [].
Proof.
  intros Hk H1 H2 Hb Hr Hg.
  pose proof (udp_app_cmd_correct cmd payload (replicate 64 0) (w_regs (n_web n)) (w_sys (n_web n)) (fun s : Sys => s) (n_udp n)
    (now_ms (w_sys (n_web n))) ver H1 H2 Hb ltac:(rewrite length_replicate; lia) Hr Hg) as A.
  pose proof (udp_spec_answers cmd payload (w_regs (n_web n)) (w_sys (n_web n)) ver Hk H1 H2) as Hne.
  destruct (udp_spec cmd payload (w_regs (n_web n)) (w_sys (n_web n)) ver) as [[rsp r] s].
  destruct A as (reply' & E & Hp & _). split; [|done]. unfold apply_cmd. rewrite E. cbn [mbind option_bind].
  unfold prefix_is in Hp. rewrite Hp. by destruct n as [[? ? ?] ? ? ? ? ?].
Qed.

(** ** The invariant of the device *)

Lemma inv_data i v r (s : Sys) : reg_inv r -> pins_show r s -> plain_reg i -> i <> HOLDING_DO_IDX -> is_u16 v ->
  reg_inv (set_holding (<[i := v]>) r) /\ pins_show (set_holding (<[i := v]>) r) s.
Proof.
  intros (Hwf & Hs & Hb) [H1 H2] [Hi Hne] Hd Hv. split.
  - split; [by apply reg_wf_insert|]. cbn. unfold HOLDING_REBOOT_IDX in *. rewrite !list_lookup_insert_ne by lia. done.
  - unfold pins_show. cbn [holding set_holding]. by rewrite list_lookup_total_insert_ne.
Qed.

Lemma set_holding_app f g r : set_holding f (set_holding g r) = set_holding (fun h => f (g h)) r.
Proof. done. Qed.

Lemma inv_udp_spec cmd data (w : Web F) ver : bytes_ok data -> device_inv w ->
  device_inv (mkWeb (udp_spec cmd data (w_regs w) (w_sys w) ver).1.2 (udp_spec cmd data (w_regs w) (w_sys w) ver).2 (w_fw w)).
Proof.
  intros Hb (Hr & Hp & Hl). unfold udp_spec.
  pose proof (ctrl_send_wf CfgSave _ Hl) as Hl2.
  repeat case_decide.
  - destruct data as [|a [|b [|c [|d l]]]]; try done. bytes_inv. destruct (ip_addr_valid a b c d); [|done].
    cbn [fst snd]. unfold with_ip. rewrite <- (set_holding_app (<[13%nat := d]>)), <- (set_holding_app (<[12%nat := c]>)), <- (set_holding_app (<[11%nat := b]>)).
    pose proof is_u8_u16 as U.
    destruct (inv_data 10 a _ _ Hr Hp) as [R1 P1]; [plain|done|auto|]. destruct (inv_data 11 b _ _ R1 P1) as [R2 P2]; [plain|done|auto|].
    destruct (inv_data 12 c _ _ R2 P2) as [R3 P3]; [plain|done|auto|]. destruct (inv_data 13 d _ _ R3 P3) as [R4 P4]; [plain|done|auto|].
    split; [exact R4|]. split; [exact P4|exact Hl2].
  - done.
  - destruct data as [|u [|b1 [|b0 l]]]; try done. bytes_inv.
    cbn [fst snd]. unfold with_modbus. rewrite <- (set_holding_app (<[8%nat := 256 * b1 + b0]>)).
    destruct (inv_data 9 u _ _ Hr Hp) as [R1 P1]; [plain|done|by apply is_u8_u16|].
    destruct (inv_data 8 (256 * b1 + b0) _ _ R1 P1) as [R2 P2]; [plain|done|unfold is_u8, is_u16 in *; lia|].
    split; [exact R2|]. split; [exact P2|exact Hl2].
  - done.
  - destruct data as [|t3 [|t2 [|t1 [|t0 l]]]]; try done.
    pose proof (keeps_time (F := F) (from_be_bytes32 t3 t2 t1 t0) w (conj Hr (conj Hp Hl))) as Hk. unfold web_set_time in Hk.
    bytes_inv. rewrite as_u32_id in Hk by (by apply from_be_bytes32_u32).
    destruct (set_timestamp (from_be_bytes32 t3 t2 t1 t0) (w_sys w)) as [ok s]. exact Hk.
  - done.
  - done.
Qed.

(** A command of this layer, known or not. *)
Lemma apply_cmd_inv ver cmd payload (n : Net F) rep n' :
  bytes_ok payload -> length (git ver) = 6%nat -> device_inv (n_web n) ->
  apply_cmd ver cmd payload (replicate 64 0) n = Some (rep, n') -> device_inv (n_web n').
Proof.
  intros Hb Hg Hi E. pose proof Hi as (Hr & Hp & Hl).
  destruct (decide (cmd = UDP_CMD_REBOOT)) as [->|N1]; [vm_compute in E; by injection E as <- <-|].
  destruct (decide (cmd = UDP_CMD_FACTORY_RESET)) as [->|N2].
  - unfold apply_cmd, udp_app_cmd in E. cbn [Z.eqb Pos.eqb UDP_CMD_FACTORY_RESET UDP_CMD_SET_IP UDP_CMD_GET_IP
      UDP_CMD_SET_MODBUS UDP_CMD_GET_MODBUS UDP_CMD_SET_TIME UDP_CMD_GET_VERSION UDP_CMD_REBOOT] in E.
    unfold factory_reset in E. destruct (_ && _); destruct (reply_ok _ _ _) as [[? ?]|]; cbn [mbind option_bind] in E; simplify_eq; [done|].
    exact (keeps_erase (F := F) _ Hi).
  - pose proof (udp_app_cmd_correct cmd payload (replicate 64 0) (w_regs (n_web n)) (w_sys (n_web n)) (fun s : Sys => s) (n_udp n)
      (now_ms (w_sys (n_web n))) ver N1 N2 Hb ltac:(rewrite length_replicate; lia) (proj1 Hr) Hg) as A.
    pose proof (inv_udp_spec cmd payload (n_web n) ver Hb Hi) as Hd.
    destruct (udp_spec cmd payload (w_regs (n_web n)) (w_sys (n_web n)) ver) as [[rsp r] s]. destruct A as (reply' & E' & _).
    unfold apply_cmd in E. rewrite E' in E. cbn [mbind option_bind] in E. by injection E as _ <-.
Qed.

Lemma settle_inv (n : Net F) : device_inv (n_web n) -> device_inv (n_web (settle_reboot n).2).
Proof.
  intros Hi. unfold settle_reboot. destruct (take_reboot_pending (n_udp n)) as [[|] st]; [|exact Hi].
  exact (keeps_sync (F := F) _ Hi).
Qed.
End Props.

(** ** Properties *)

(** C26: A datagram from another subnet cannot touch the device: it is dropped without
    an answer, whatever the command, unless it asks for the address; that is
    answered by broadcast on the next port, and changes nothing either. *)
Theorem udp_subnet_isolation {F} `{!Flash F} ver src cmd payload (n : Net F)
    (Hs : same_subnet24 src.1 (w_regs (n_web n)) = false) (Hb : bytes_ok payload) (Hr : reg_wf (w_regs (n_web n)))
    (Hg : length (git ver) = 6%nat) (Hp : factory_reboot_pending (n_udp n) = false /\ st_reboot_pending (n_udp n) = false) :
  udp_turn ver src (cmd :: payload) n =
    Some (if decide (cmd = UDP_CMD_GET_IP)
          then [(UDP_CMD_GET_IP :: ip_octets (w_regs (n_web n)), ([255; 255; 255; 255], 8601))] else [], false, n).
Proof.
  destruct (decide (cmd = UDP_CMD_GET_IP)) as [->|Hne].
  - assert (Hk : udp_known UDP_CMD_GET_IP) by (apply (bool_decide_eq_true_1 _); reflexivity).
    destruct (apply_cmd_spec ver UDP_CMD_GET_IP payload n Hk ltac:(done) ltac:(done) Hb Hr Hg) as [E Hrep].
    rewrite (udp_turn_own _ _ _ _ _ _ _ (known_own _ Hk) (or_intror eq_refl) E Hrep), Hs.
    destruct n as [[? ? ?] [? ? fp sp] ? ? ? ?]. cbn in Hp. destruct Hp as [-> ->]. done.
  - unfold udp_turn. rewrite Hs. unfold udp_cmd_bcast_allowed. by rewrite (proj2 (Z.eqb_neq _ _) Hne).
Qed.

(** C25: What the task does with a datagram from its own subnet.  A known command other
    than the two restarts is answered to the sender as [udp_spec] says, and the
    registers and hooks change as it says.  REBOOT is answered before the device
    restarts: the history is asked to be written out, 100 ms pass, then the reset.
    FACTORY_RESET does the same, with the parameters erased first, exactly when it
    is confirmed, that is at most 5000 ms after the time on record. *)
Theorem udp_task_contract {F} `{!Flash F} ver src cmd payload (n : Net F)
    (Hs : same_subnet24 src.1 (w_regs (n_web n)) = true) (Hb : bytes_ok payload) (Hr : reg_wf (w_regs (n_web n)))
    (Hg : length (git ver) = 6%nat) (Hk : udp_known cmd) (Hc : factory_confirmed (n_udp n) = false)
    (Hp : factory_reboot_pending (n_udp n) = false /\ st_reboot_pending (n_udp n) = false) :
  let w := n_web n in let s := w_sys w in
  let confirmed := wrapping_sub_u32 (now_ms s) (factory_pending_ms (n_udp n)) <=? 5000 in
  let restart s := (fun s => at_ticks (ticks s + 100 * tick_khz s) s) (history_sync s) in
  udp_turn ver src (cmd :: payload) n = Some (
    if decide (cmd = UDP_CMD_REBOOT) then
      ([([cmd; 1], src)], true, with_web (set_sys (restart s) w) n)
    else if decide (cmd = UDP_CMD_FACTORY_RESET) then
      if confirmed then ([([cmd; 1], src)], true, with_web (set_sys (restart (config_erase_all s)) w) n)
      else ([([cmd; 0], src)], false, with_udp (mkUdpCfgState (now_ms s) false false false) n)
    else
      let '(rsp, r, s) := udp_spec cmd payload (w_regs w) s ver in ([(rsp, src)], false, with_web (mkWeb r s (w_fw w)) n)).
Proof.
  intros w s confirmed restart. destruct n as [w0 [pm fc frp srp] rc rg dl sq]. cbn [n_web n_udp] in *. subst w s.
  cbn [factory_confirmed factory_reboot_pending st_reboot_pending] in *. destruct Hp as [-> ->]. subst fc.
  case_decide as D1; [subst cmd|case_decide as D2; [subst cmd|]].
  - erewrite udp_turn_own; [|by apply known_own|by left|reflexivity|done]. cbn [n_web with_web w_regs]. rewrite Hs. reflexivity.
  - unfold confirmed. cbn [n_udp factory_pending_ms n_web w_sys] in *.
    assert (E : apply_cmd ver UDP_CMD_FACTORY_RESET payload (replicate 64 0) (mkNet w0 (mkUdpCfgState pm false false false) rc rg dl sq) = Some
      (if wrapping_sub_u32 (now_ms (w_sys w0)) pm <=? 5000
       then ([UDP_CMD_FACTORY_RESET; 1], mkNet (set_sys (config_erase_all (w_sys w0)) w0) (mkUdpCfgState pm false true false) rc rg dl sq)
       else ([UDP_CMD_FACTORY_RESET; 0], mkNet w0 (mkUdpCfgState (now_ms (w_sys w0)) false false false) rc rg dl sq))).
    { unfold apply_cmd, udp_app_cmd. cbn [Z.eqb Pos.eqb UDP_CMD_FACTORY_RESET UDP_CMD_SET_IP UDP_CMD_GET_IP
        UDP_CMD_SET_MODBUS UDP_CMD_GET_MODBUS UDP_CMD_SET_TIME UDP_CMD_GET_VERSION UDP_CMD_REBOOT].
      unfold factory_reset. cbn [factory_confirmed negb andb factory_pending_ms n_udp n_web].
      rewrite Z.leb_antisym. destruct (5000 <? _); cbn [negb]; by destruct w0. }
    destruct (wrapping_sub_u32 (now_ms (w_sys w0)) pm <=? 5000).
    + erewrite udp_turn_own; [|by apply known_own|by left|exact E|done]. cbn [n_web]. rewrite Hs. reflexivity.
    + erewrite udp_turn_own; [|by apply known_own|by left|exact E|done]. cbn [n_web]. rewrite Hs. reflexivity.
  - pose proof (apply_cmd_spec ver cmd payload (mkNet w0 (mkUdpCfgState pm false false false) rc rg dl sq) Hk D1 D2 Hb Hr Hg) as A.
    cbn [n_web] in *. destruct (udp_spec cmd payload (w_regs w0) (w_sys w0) ver) as [[rsp r] s]. destruct A as [E Hrep].
    erewrite udp_turn_own; [|by apply known_own|by left|exact E|done]. cbn [n_web]. rewrite Hs. reflexivity.
Qed.

Lemma udp_turn_inv {F} `{!Flash F} ver src rx (n : Net F) outs rst n'
    (Hi : device_inv (n_web n)) (Hb : bytes_ok rx) (Hg : length (git ver) = 6%nat)
    (E : udp_turn ver src rx n = Some (outs, rst, n')) :
  device_inv (n_web n').
Proof.
  destruct rx as [|cmd payload]; [by injection E as <- <- <-|]. unfold udp_turn in E. bytes_inv.
  destruct (_ && _); [by injection E as <- <- <-|].
  destruct (cmd =? 0xFA); [by injection E as <- <- <-|]. destruct (cmd =? 0xFB); [by injection E as <- <- <-|].
  destruct (fw_udp_cmd cmd payload (w_fw (n_web n))) as [[[[rep rlen]|] u]|]; [by injection E as <- <- <-| |done].
  cbn [mbind option_bind] in E. destruct (cmd =? 0xFC); [by injection E as <- <- <-|].
  set (n0 := with_web (set_fw u (n_web n)) n) in *.
  destruct (apply_cmd ver cmd payload (replicate 64 0) n0) as [[rep n1]|] eqn:Ea; [|done]. cbn [mbind option_bind] in E.
  assert (H1 : device_inv (n_web n1)) by (exact (apply_cmd_inv ver cmd payload n0 rep n1 Hb Hg Hi Ea)).
  destruct (length rep =? 0)%nat; [by injection E as <- <- <-|].
  pose proof (settle_inv n1 H1) as H2. unfold settle_reboot in H2.
  destruct (take_reboot_pending (n_udp n1)) as [[|] st]; by injection E as <- <- <-.
Qed.

(** No datagram can break the device, from whatever address: the registers stay
    well formed, the outputs and LEDs show the DO register, no queue is over its
    capacity; the firmware commands included. *)
Theorem udp_keeps_device {F} `{!Flash F} ver src rx (n : Net F) outs rst n'
    (Hi : device_inv (n_web n)) (Hb : bytes_ok rx) (Hg : length (git ver) = 6%nat)
    (E : udp_turn ver src rx n = Some (outs, rst, n')) :
  device_inv (n_web n').
Proof. exact (udp_turn_inv ver src rx n outs rst n' Hi Hb Hg E). Qed.

(** ** Witnesses *)

Definition net_demo : Net Chip := mkNet (mkWeb (RegMap_new 0x1234) (w_sys web_blank) fw_blank) UdpCfgState_new 0 0 FileDl_init 0.
Definition ver_demo : UdpVersion := mkUdpVersion 1 2 13 (bs "abc123").

Lemma udp_subnet_isolation_witness :
  udp_turn ver_demo ([10; 1; 1; 1], 8600) [UDP_CMD_REBOOT] net_demo = Some ([], false, net_demo).
Proof.
  apply (udp_subnet_isolation ver_demo ([10; 1; 1; 1], 8600) UDP_CMD_REBOOT [] net_demo).
  - reflexivity.
  - constructor.
  - apply RegMap_new_inv. unfold is_u16. lia.
  - reflexivity.
  - split; reflexivity.
Defined.

Lemma udp_task_contract_witness :
  let s := w_sys (n_web net_demo) in
  udp_turn ver_demo (ip_octets (w_regs (n_web net_demo)), 8600) [UDP_CMD_REBOOT; 1] net_demo =
    Some ([([UDP_CMD_REBOOT; 1], (ip_octets (w_regs (n_web net_demo)), 8600))], true,
      with_web (set_sys (at_ticks (ticks (history_sync s) + 100 * tick_khz (history_sync s)) (history_sync s)) (n_web net_demo)) net_demo).
Proof.
  apply (udp_task_contract ver_demo (ip_octets (w_regs (n_web net_demo)), 8600) UDP_CMD_REBOOT [1] net_demo).
  - vm_compute. reflexivity.
  - repeat (apply bytes_ok_cons; [unfold is_u8; lia|]). constructor.
  - apply RegMap_new_inv. unfold is_u16. lia.
  - reflexivity.
  - apply (bool_decide_eq_true_1 _). reflexivity.
  - reflexivity.
  - split; reflexivity.
Defined.

Lemma udp_keeps_device_witness :
  exists outs rst n', udp_turn ver_demo (ip_octets (w_regs (n_web net_demo)), 8600) [UDP_CMD_SET_IP; 10; 0; 0; 9] net_demo = Some (outs, rst, n') /\
    device_inv (n_web n') /\ ip_octets (w_regs (n_web n')) = [10; 0; 0; 9].
Proof.
  destruct (udp_turn ver_demo (ip_octets (w_regs (n_web net_demo)), 8600) [UDP_CMD_SET_IP; 10; 0; 0; 9] net_demo) as [[[outs rst] n']|] eqn:E;
    [|vm_compute in E; discriminate].
  exists outs, rst, n'. split; [done|]. split.
  - apply (udp_keeps_device ver_demo (ip_octets (w_regs (n_web net_demo)), 8600) [UDP_CMD_SET_IP; 10; 0; 0; 9] net_demo outs rst n').
    + exact web_blank_inv.
    + apply bytes_okb_ok. reflexivity.
    + reflexivity.
    + exact E.
  - vm_compute in E. injection E as <- <- <-. reflexivity.
Defined.
