(* ===== verification/FtpPaths.v ===== *)
(** * Paths of the FTP server (crates/firmware/src/ftpd.rs)

    The normalisation of a path argument and what it guarantees: whatever a client
    sends, the result is an absolute path that never climbs. *)
From S2P Require Import Prelude Text UdpCfg StMonad Channels Web.

(** [chars().take(n)] on UTF-8 text. *)
Fixpoint take_chars (n : nat) (l : list Z) : list Z :=
  match l with
  | [] => []
  | b :: l =>
      if cont b then b :: take_chars n l
      else match n with O => [] | S n => b :: take_chars n l end
  end.

Section Paths.
(** [collect] into a [heapless::String] of a capacity: a panic is [None]. *)
Variable collect : nat -> list Z -> option (list Z).

(** The path components: a stack of at most eight. *)
Fixpoint push_parts (segs parts : list (list Z)) : option (list (list Z)) :=
  match segs with
  | [] => Some parts
  | seg :: segs =>
      if bytes_eqb seg [] || bytes_eqb seg (bs ".") then push_parts segs parts
      else if bytes_eqb seg (bs "..") then push_parts segs (removelast parts)
      else
        p ← collect 48 (take_chars 47 seg);
        push_parts segs (if (length parts <? 8)%nat then parts ++ [p] else parts)
  end.

(** The parts with slashes in a buffer of 64 bytes; what does not fit is dropped. *)
Fixpoint join_parts (i : nat) (parts : list (list Z)) (out : list Z) : list Z :=
  match parts with
  | [] => out
  | p :: parts => join_parts (S i) parts (write_pieces 64 [p] (if (0 <? i)%nat then write_pieces 64 [[47]] out else out))
  end.

Definition norm_path (cwd input : list Z) : option (list Z) :=
  joined ← (if starts_with input [47] then collect 160 (take_chars 159 input)
            else Some (write_pieces 160 [cwd; [47]; input] []));
  parts ← push_parts (split 47 joined) [];
  Some (join_parts 0 parts [47]).

Definition ftp_path_bytes (p : list Z) : FtpPath := list_inserts 0 (take 94 p) (replicate 96 0).

(** What the server relies on: text that fits is collected as it is. *)
Hypothesis collect_fits : forall n l, (length l <= n)%nat -> collect n l = Some l.
Hypothesis collect_same : forall n l l', collect n l = Some l' -> l' = l.

(** ** The result never climbs *)

(** A component that is neither empty nor a step up, nor holds a slash. *)
Definition plain_part (p : list Z) : Prop := p <> [] /\ p <> bs "." /\ p <> bs ".." /\ Forall (fun b => b <> 47) p.

Lemma split_no_sep c l : Forall (fun p => Forall (fun b => b <> c) p) (split c l).
Proof.
  induction l as [|b l IH]; cbn [split]; [by repeat constructor|]. destruct (Z.eqb_spec b c) as [->|Hb].
  - by constructor.
  - destruct (split c l) as [|p ps]; [by repeat constructor|]. apply Forall_cons_1 in IH as [Hp Hps]. by repeat constructor.
Qed.

Lemma take_chars_prefix n l : exists r, l = take_chars n l ++ r.
Proof.
  revert n. induction l as [|b l IH]; intros n; [by exists []|]. cbn [take_chars].
  destruct (cont b); [destruct (IH n) as [r E]; exists r; cbn; by rewrite E at 1|].
  destruct n as [|n]; [by exists (b :: l)|]. destruct (IH n) as [r E]. exists r. cbn. by rewrite E at 1.
Qed.

Lemma take_chars_short n l : (length l <= n)%nat -> take_chars n l = l.
Proof.
  revert n. induction l as [|b l IH]; intros n H; cbn [take_chars length] in *; [done|].
  destruct (cont b); [by rewrite IH by lia|]. destruct n as [|n]; [lia|]. by rewrite IH by lia.
Qed.

Lemma take_chars_long n l : take_chars n l = l \/ (n <= length (take_chars n l))%nat.
Proof.
  revert n. induction l as [|b l IH]; intros n; cbn [take_chars]; [by left|].
  destruct (cont b); [destruct (IH n) as [-> |]; [by left|right; cbn; lia]|].
  destruct n as [|n]; [right; cbn; lia|]. destruct (IH n) as [-> |]; [by left|right; cbn; lia].
Qed.

Lemma plain_take seg : plain_part seg -> plain_part (take_chars 47 seg).
Proof.
  intros (H1 & H2 & H3 & H4). destruct (take_chars_long 47 seg) as [-> |Hl]; [done|].
  split_and!; try (intros E; rewrite E in Hl; cbn in Hl; lia).
  destruct (take_chars_prefix 47 seg) as [r E]. rewrite E in H4. by apply Forall_app in H4 as [H4 _].
Qed.

Lemma length_removelast {A} (l : list A) : length (removelast l) = (length l - 1)%nat.
Proof. destruct l as [|x l _] using rev_ind; [done|]. rewrite removelast_last, length_app. cbn. lia. Qed.

Lemma push_parts_plain segs : forall parts out,
  Forall (fun p => Forall (fun b => b <> 47) p) segs -> Forall plain_part parts -> (length parts <= 8)%nat ->
  push_parts segs parts = Some out -> Forall plain_part out /\ (length out <= 8)%nat.
Proof.
  induction segs as [|seg segs IH]; intros parts out Hs Hp Hl E; cbn [push_parts] in E; [by injection E as <-|].
  apply Forall_cons_1 in Hs as [Hseg Hs]. unfold bytes_eqb in E.
  destruct (bool_decide (seg = []) || bool_decide (seg = bs ".")) eqn:E1; [by apply (IH parts)|].
  apply orb_false_iff in E1 as [N1 N2]. apply bool_decide_eq_false_1 in N1, N2.
  destruct (bool_decide (seg = bs "..")) eqn:E2.
  { apply (IH (removelast parts)); [done| |rewrite length_removelast; lia|done].
    destruct parts as [|p parts _] using rev_ind; [done|]. rewrite removelast_last. by apply Forall_app in Hp as [Hp _]. }
  apply bool_decide_eq_false_1 in E2. destruct (collect 48 (take_chars 47 seg)) as [p|] eqn:Ec; [|done].
  apply collect_same in Ec as ->. cbn [mbind option_bind] in E.
  assert (Hpl : plain_part (take_chars 47 seg)) by (by apply plain_take).
  apply (IH (if (length parts <? 8)%nat then parts ++ [take_chars 47 seg] else parts)); [done| | |done];
    destruct (Nat.ltb_spec (length parts) 8); try done.
  - apply Forall_app. split; [done|by constructor].
  - rewrite length_app. cbn. lia.
Qed.

(** An absolute path in a buffer of 64 bytes, with plain or empty components. *)
Record confined (out : list Z) : Prop := {
  c_abs : take 1 out = [47];
  c_len : (length out <= 64)%nat;
  c_parts : Forall (fun p => p = [] \/ plain_part p) (split 47 out)
}.

Lemma split_snoc c l : split c (l ++ [c]) = split c l ++ [[]].
Proof.
  induction l as [|b l IH]; cbn [app split]; [by rewrite Z.eqb_refl|]. rewrite IH. destruct (b =? c); [done|].
  destruct (split c l) as [|p ps] eqn:E; [by destruct l; cbn in E; repeat case_match|done].
Qed.

Lemma split_snoc_app c l p : Forall (fun b => b <> c) p -> split c (l ++ [c] ++ p) = split c l ++ [p].
Proof.
  intros Hp. induction l as [|b l IH]; cbn [app split].
  - rewrite Z.eqb_refl. f_equal. by apply split_plain.
  - cbn [app] in IH. rewrite IH. destruct (b =? c); [done|].
    destruct (split c l) as [|q ps] eqn:E; [by destruct l; cbn in E; repeat case_match|done].
Qed.

Lemma confined_take1 out r : take 1 out = [47] -> take 1 (out ++ r) = [47].
Proof. destruct out; [done|]. cbn. by rewrite !take_0. Qed.

Lemma confined_slash out : confined out -> (length out < 64)%nat -> confined (out ++ [47]).
Proof.
  intros [H1 H2 H3] Hl. split; [by apply confined_take1|rewrite length_app; cbn; lia|].
  rewrite split_snoc. apply Forall_app. split; [done|]. constructor; [by left|constructor].
Qed.

Lemma confined_part out p : confined (out ++ [47]) -> plain_part p -> (length out + 1 + length p <= 64)%nat ->
  confined ((out ++ [47]) ++ p).
Proof.
  intros [H1 H2 H3] Hp Hl. rewrite <- app_assoc. split; [rewrite app_assoc; by apply confined_take1|rewrite !length_app; cbn; lia|].
  rewrite split_snoc_app by apply Hp. rewrite split_snoc in H3. apply Forall_app in H3 as [H3 _].
  apply Forall_app. split; [done|]. constructor; [by right|constructor].
Qed.

Lemma confined_root : confined [47].
Proof. split; [done|cbn; lia|]. cbn. repeat (constructor; [by left|]). constructor. Qed.

Lemma join_confined parts : forall i out, Forall plain_part parts -> confined out -> (0 < i)%nat \/ out = [47] ->
  confined (join_parts i parts out).
Proof.
  induction parts as [|p parts IH]; intros i out Hp Ho Hi; cbn [join_parts]; [done|].
  apply Forall_cons_1 in Hp as [Hp Hps]. apply IH; [done| |left; lia].
  pose proof Hp as (Hne & _). assert (0 < length p)%nat by (destruct p; [done|cbn; lia]).
  assert (Hstep : forall o, confined o -> (exists o', o = o' ++ [47]) \/ length o = 64%nat -> confined (write_pieces 64 [p] o)).
  { intros o Hc Ho'. cbn [write_pieces]. destruct (Nat.leb_spec (length o + length p) 64); [|done].
    destruct Ho' as [[o' ->]|Hlen]; [|lia]. apply confined_part; [done|done|]. rewrite length_app in *. cbn [length] in *. lia. }
  destruct (Nat.ltb_spec 0 i).
  - cbn [write_pieces length]. pose proof (c_len _ Ho). destruct (Nat.leb_spec (length out + 1) 64).
    + apply Hstep; [apply confined_slash; [done|lia]|left; by eexists].
    + apply Hstep; [done|right; lia].
  - destruct Hi as [? | ->]; [lia|]. apply Hstep; [apply confined_root|left; by exists []].
Qed.

(** C24: No path climbs.  Whatever the directory of the session and the argument, a
    normalised path is absolute, fits 64 bytes, and no component of it is a dot or
    a double dot: every command stays below the root of the file system. *)
Theorem norm_path_confined cwd input out : norm_path cwd input = Some out -> confined out.
Proof.
  unfold norm_path. intros E. destruct (if starts_with input [47] then _ else _) as [joined|]; [|done].
  cbn [mbind option_bind] in E. destruct (push_parts (split 47 joined) []) as [parts|] eqn:Ep; [|done].
  injection E as <-. apply push_parts_plain in Ep as [Hp _]; [|apply split_no_sep|done|cbn; lia].
  apply join_confined; [done|apply confined_root|by right].
Qed.

(** ** The result is the normal form, within the limits *)

(** What a path means: steps on a stack of names. *)
Definition step_path (st : list (list Z)) (seg : list Z) : list (list Z) :=
  if decide (seg = [] \/ seg = bs ".") then st
  else if decide (seg = bs "..") then removelast st else st ++ [seg].
Definition resolve (segs : list (list Z)) : list (list Z) := foldl step_path [] segs.
Definition slash_all (st : list (list Z)) : list Z := concat (cons 47 <$> st).
Definition slashed (st : list (list Z)) : list Z := match st with [] => [47] | _ => slash_all st end.

Lemma push_parts_resolve segs : forall st, Forall (fun seg => (length seg <= 47)%nat) segs ->
  (length st + length segs <= 8)%nat -> push_parts segs st = Some (foldl step_path st segs).
Proof.
  induction segs as [|seg segs IH]; intros st Hs Hl; cbn [push_parts foldl length] in *; [done|].
  apply Forall_cons_1 in Hs as [Hseg Hs]. unfold step_path at 2, bytes_eqb.
  destruct (decide (seg = [] \/ seg = bs ".")) as [D|D].
  { destruct D as [-> | ->]; cbn [bool_decide orb]; [rewrite bool_decide_true by done|rewrite orb_comm, bool_decide_true by done]; cbn [orb]; apply IH; try done; lia. }
  rewrite !bool_decide_false by tauto. cbn [orb].
  destruct (decide (seg = bs "..")) as [->|N].
  { rewrite bool_decide_true by done. apply IH; [done|]. rewrite length_removelast. lia. }
  rewrite bool_decide_false by done. rewrite take_chars_short, collect_fits by lia. cbn [mbind option_bind].
  rewrite (proj2 (Nat.ltb_lt _ _)) by lia. apply IH; [done|]. rewrite length_app. cbn. lia.
Qed.

Lemma join_fits parts : forall i out, (0 < i)%nat -> (length out + length (slash_all parts) <= 64)%nat ->
  join_parts i parts out = out ++ (slash_all parts).
Proof.
  induction parts as [|p parts IH]; intros i out Hi Hl; cbn [join_parts slash_all fmap list_fmap concat] in *; [by rewrite app_nil_r|].
  fold (slash_all parts) in *. cbn [app length] in Hl. rewrite length_app in Hl. rewrite (proj2 (Nat.ltb_lt 0 i)) by lia.
  cbn [write_pieces length]. rewrite (proj2 (Nat.leb_le (length out + 1) 64)) by lia.
  rewrite length_app. cbn [length]. rewrite (proj2 (Nat.leb_le _ 64)) by lia.
  rewrite IH by (rewrite ?length_app; cbn [length]; lia). rewrite <- !app_assoc. done.
Qed.

(** Within the limits of the server, the normal form of a path is the one of
    RFC 3659 style resolution: the argument after the directory (or alone, when it
    is absolute), names pushed, double dots popped, never above the root. *)
Theorem norm_path_resolves cwd input :
  let joined := if starts_with input [47] then input else cwd ++ [47] ++ input in
  let segs := split 47 joined in
  (length joined <= 159)%nat -> (length segs <= 8)%nat -> Forall (fun seg => (length seg <= 47)%nat) segs ->
  (length (slashed (resolve segs)) <= 64)%nat ->
  norm_path cwd input = Some (slashed (resolve segs)).
Proof.
  intros joined segs Hj Hn Hs Hlen. unfold norm_path.
  assert ((if starts_with input [47] then collect 160 (take_chars 159 input) else Some (write_pieces 160 [cwd; [47]; input] [])) = Some joined) as ->.
  { subst joined. destruct (starts_with input [47]).
    - rewrite take_chars_short by done. apply collect_fits. lia.
    - rewrite !length_app in Hj. cbn [length] in Hj. cbn [write_pieces length app Nat.add].
      rewrite (proj2 (Nat.leb_le _ 160)) by lia. rewrite length_app. cbn [length]. rewrite (proj2 (Nat.leb_le _ 160)) by lia.
      rewrite (proj2 (Nat.leb_le _ 160)) by lia. by rewrite <- app_assoc. }
  cbn [mbind option_bind]. change (split 47 joined) with segs. rewrite (push_parts_resolve segs []) by (done || (cbn; lia)).
  cbn [mbind option_bind]. fold (resolve segs). f_equal. destruct (resolve segs) as [|p st]; [done|].
  cbn [join_parts Nat.ltb Nat.leb slashed slash_all fmap list_fmap concat app length] in *. fold (slash_all st) in *. rewrite length_app in Hlen.
  cbn [write_pieces length]. rewrite (proj2 (Nat.leb_le _ 64)) by lia.
  rewrite join_fits by (cbn [app length]; lia). done.
Qed.

(** An argument that is too long is not refused: it is dropped, and the command
    works on the directory of the session itself. *)
Lemma norm_path_drops cwd input : starts_with input [47] = false -> (length cwd <= 64)%nat ->
  (159 < length cwd + length input)%nat -> norm_path cwd input = norm_path cwd [].
Proof.
  intros Hs Hc Hl. unfold norm_path. rewrite Hs. cbn [starts_with write_pieces length Nat.add app].
  repeat (rewrite ?length_app; cbn [length];
    first [rewrite (proj2 (Nat.leb_le _ 160)) by lia | rewrite (proj2 (Nat.leb_gt _ 160)) by lia]).
  by rewrite app_nil_r.
Qed.
End Paths.

(** [collect] when it panics on text that does not fit. *)
Definition collect_or_panic (n : nat) (l : list Z) : option (list Z) := if (length l <=? n)%nat then Some l else None.

Lemma collect_or_panic_fits n l : (length l <= n)%nat -> collect_or_panic n l = Some l.
Proof. intros H. unfold collect_or_panic. by rewrite (proj2 (Nat.leb_le _ _)) by done. Qed.
Lemma collect_or_panic_same n l l' : collect_or_panic n l = Some l' -> l' = l.
Proof. unfold collect_or_panic. destruct (_ <=? _)%nat; [by intros [= ->]|done]. Qed.

Lemma norm_path_confined_witness :
  exists out, norm_path collect_or_panic (bs "/a/b") (bs "../../../etc/./x") = Some out /\ confined out.
Proof.
  destruct (norm_path collect_or_panic (bs "/a/b") (bs "../../../etc/./x")) as [out|] eqn:E; [|vm_compute in E; discriminate].
  exists out. split; [done|].
  exact (norm_path_confined collect_or_panic collect_or_panic_same (bs "/a/b") (bs "../../../etc/./x") out E).
Defined.

Lemma norm_path_resolves_witness :
  norm_path collect_or_panic (bs "/a/b") (bs "../../../etc/x") = Some (bs "/etc/x").
Proof.
  refine (norm_path_resolves collect_or_panic collect_or_panic_fits (bs "/a/b") (bs "../../../etc/x") _ _ _ _).
  - apply Nat.leb_le. reflexivity.
  - apply Nat.leb_le. reflexivity.
  - apply (bool_decide_eq_true_1 _). vm_compute. reflexivity.
  - apply Nat.leb_le. reflexivity.
Defined.
