(* ===== verification/Ftpd.v ===== *)
(** * The FTP server (crates/firmware/src/ftpd.rs)

    A session: its state, every command, the transfers.  What the server calls -
    the storage task, the data connection, the clock and the registers - is the
    interface [FtpEnv], so that what holds of a session holds of it over any of
    them.  Logging is left out. *)
From S2P Require Import Prelude Text Bytes TimeMath RegMap UdpCfg History Channels StMonad Storage Web FtpArgs FtpPaths.

Definition Endpoint : Type := list Z * Z.

(** What the server calls. *)
Class FtpEnv (E : Type) := {
  env_rpc : StorageCmd -> M E bool;            (* rpc_send, then rpc_wait *)
  env_send : StorageCmd -> M E unit;           (* rpc_send alone *)
  env_res : E -> FtpRes;                       (* ftp_res *)
  env_ls : E -> list (list Z) * nat;           (* FTP_LS *)
  env_xfer : nat -> E -> FtpXfer;              (* FTP_XFER[slot] *)
  env_put_chunk : nat -> list Z -> M E unit;   (* its chunk, from the start *)
  env_next_port : M E Z;                       (* PASV_PORT.fetch_add(1), a u8 *)
  env_ip : E -> list Z;                        (* local_ip *)
  env_epoch : E -> Z;                          (* systime::now_epoch *)
  env_arm : Z -> M E unit;                     (* data.abort, then one poll of data.accept *)
  env_connect : Endpoint -> M E bool;          (* data.abort, then data.connect *)
  env_wait_ready : M E bool;                   (* wait_write_ready within 10 s *)
  env_write : list Z -> M E bool;              (* data.write_all *)
  env_read : M E (option (list Z));            (* data.read: [None] is the end or an error *)
  env_close : M E unit                         (* data.flush, data.close *)
}.

Record Session := mkSession {
  authed : bool; anon : bool; cwd : list Z; type_ascii : bool; f_rest : Z; rename_from : FtpPath; rename_pending : bool;
  port_ep : option Endpoint; passive_port : Z; slot : Z; quit : bool
}.

Definition Session_new (slot : Z) : Session :=
  mkSession false false [47] false 0 (replicate 96 0) false None 0 slot false.

(** A session at work: its state, the lines it sent, what it works on. *)
Record Ftp (E : Type) := mkFtp { f_ses : Session; f_out : list (list Z); f_env : E }.
Arguments mkFtp {E} _ _ _.
Arguments f_ses {E} _.
Arguments f_out {E} _.
Arguments f_env {E} _.

(** The name of a listing at a time: [{} {:2} {:02}:{:02}]. *)
Definition pad2 (c : Z) (n : Z) : list Z := let d := decimal n in replicate (2 - length d) c ++ d.
Definition pad10 (n : Z) : list Z := let d := decimal n in replicate (10 - length d) 32 ++ d.

Definition MONTHS : list (list Z) :=
  [bs "Jan"; bs "Feb"; bs "Mar"; bs "Apr"; bs "May"; bs "Jun"; bs "Jul"; bs "Aug"; bs "Sep"; bs "Oct"; bs "Nov"; bs "Dec"].

Definition ls_time_pieces (mon : nat) (day h m : Z) : list (list Z) :=
  [MONTHS !!! mon; [32]; pad2 32 day; [32]; pad2 48 h; [58]; pad2 48 m].

(** Two digits of a name. *)
Definition two_at (b : list Z) (i : nat) : option (option Z) :=
  d ← slice b i (i + 2); Some (s ← from_utf8 d; parse_uint 4294967295 s).

(** The time of a history file is in its name; other files get the time of the
    listing.  [None] is a panic. *)
Definition fmt_ls_time (name : list Z) (epoch : Z) : option (list Z) :=
  named ← (if (14 <=? length name)%nat && bytes_eqb (take 5 name) (bs "data_") then
             mon ← two_at name 5; day ← two_at name 7; h ← two_at name 10; m ← two_at name 12;
             Some (match mon, day, h, m with
                   | Some mon, Some day, Some h, Some m =>
                       if (1 <=? mon) && (mon <=? 12) && (1 <=? day) && (day <=? 31) && (h <=? 23) && (m <=? 59)
                       then Some (write_pieces 20 (ls_time_pieces (Z.to_nat (mon - 1)) day h m) []) else None
                   | _, _, _, _ => None
                   end)
           else Some None);
  match named with
  | Some t => Some t
  | None =>
      let now := epoch + 8 * 3600 in
      let days := now / 86400 in
      let secs := now mod 86400 in
      let z := days + 719468 in
      let era := Z.quot (if 0 <=? z then z else z - 146096) 146097 in
      let doe := as_u64 (z - era * 146097) in
      let yoe := (doe - doe / 1460 + doe / 36524 - doe / 146096) / 365 in
      let doy := doe - (365 * yoe + yoe / 4 - yoe / 100) in
      let mp := (5 * doy + 2) / 153 in
      let d := doy - (153 * mp + 2) / 5 + 1 in
      let m := if mp <? 10 then mp + 3 else mp - 9 in
      Some (write_pieces 20 (ls_time_pieces (Nat.min (Z.to_nat m - 1) 11) d (secs / 3600) (secs / 60 mod 60)) [])
  end.

(** A row of a listing. *)
Definition ls_line (long : bool) (e : list Z) (epoch : Z) : option (list Z) :=
  let nlen := default 24%nat (position (Z.eqb 0) (take 24 e)) in
  let name := default [] (from_utf8 (take nlen e)) in
  let size := from_be_bytes32 (e !!! 24%nat) (e !!! 25%nat) (e !!! 26%nat) (e !!! 27%nat) in
  if long then
    t ← fmt_ls_time name epoch;
    Some (write_pieces 256 [if e !!! 28%nat =? 1 then bs "drwxr-xr-x" else bs "-rw-r--r--"; bs " 1 owner group "; pad10 size; [32]; t; [32]; name; [13; 10]] [])
  else Some (write_pieces 256 [name; [13; 10]] []).

(** ASCII: a line feed goes out as two bytes. *)
Definition ascii_out (l : list Z) : list Z := l ≫= fun b => if b =? 10 then [13; 10] else [b].

(** ASCII, the other way, on the bytes of one read: the carriage return of a pair
    is dropped; one at the end is held back.  [pending] says that the previous read
    ended in one. *)
Fixpoint drop_cr (l : list Z) : list Z :=
  match l with
  | [] => []
  | b :: l' => if (b =? 13) && match l' with c :: _ => c =? 10 | [] => false end then drop_cr l' else b :: drop_cr l'
  end.
Definition ascii_in (pending : bool) (buf : list Z) : bool * list Z :=
  let body := if pending && match buf with b :: _ => b =? 10 | [] => false end then drop 1 buf else buf in
  let out := drop_cr body in
  match buf !! (length buf - 1)%nat with
  | Some b => if (0 <? length body)%nat && (b =? 13) && (0 <? length out)%nat then (true, removelast out) else (false, out)
  | None => (false, out)
  end.

(** ** Commands *)

Section Cmds.
Context {E : Type} `{!FtpEnv E}.
Variable collect : nat -> list Z -> option (list Z).
Abbreviation T := (M (Ftp E)).

Definition on_env {A} (m : M E A) : T A := fun s =>
  match m (f_env s) with Some (a, e) => Some (a, mkFtp (f_ses s) (f_out s) e) | None => None end.
Definition env_get {A} (f : E -> A) : T A := reads (fun s => f (f_env s)).
Definition ses_get {A} (f : Session -> A) : T A := reads (fun s => f (f_ses s)).
Definition ses_set (f : Session -> Session) : T unit := modify (fun s => mkFtp (f (f_ses s)) (f_out s) (f_env s)).

Definition send_line (msg : list Z) : T unit := modify (fun s => mkFtp (f_ses s) (f_out s ++ [msg ++ [13; 10]]) (f_env s)).

Definition rpc (c : StorageCmd) : T bool := on_env (env_rpc c).

(** A command, and its result if it was waited for. *)
Definition rpc_res (c : StorageCmd) : T FtpRes :=
  ok ← rpc c; if ok : bool then env_get env_res else mret (false, false, 0).

Definition path (arg : list Z) : T (list Z) := c ← ses_get cwd; lift (norm_path collect c arg).

Definition set_anon v s := mkSession (authed s) v (cwd s) (type_ascii s) (f_rest s) (rename_from s) (rename_pending s) (port_ep s) (passive_port s) (slot s) (quit s).
Definition set_authed v s := mkSession v (anon s) (cwd s) (type_ascii s) (f_rest s) (rename_from s) (rename_pending s) (port_ep s) (passive_port s) (slot s) (quit s).
Definition set_cwd v s := mkSession (authed s) (anon s) v (type_ascii s) (f_rest s) (rename_from s) (rename_pending s) (port_ep s) (passive_port s) (slot s) (quit s).
Definition set_ascii v s := mkSession (authed s) (anon s) (cwd s) v (f_rest s) (rename_from s) (rename_pending s) (port_ep s) (passive_port s) (slot s) (quit s).
Definition set_rest v s := mkSession (authed s) (anon s) (cwd s) (type_ascii s) v (rename_from s) (rename_pending s) (port_ep s) (passive_port s) (slot s) (quit s).
Definition set_rename f p s := mkSession (authed s) (anon s) (cwd s) (type_ascii s) (f_rest s) f p (port_ep s) (passive_port s) (slot s) (quit s).
Definition set_port v s := mkSession (authed s) (anon s) (cwd s) (type_ascii s) (f_rest s) (rename_from s) (rename_pending s) v (passive_port s) (slot s) (quit s).
Definition set_passive v s := mkSession (authed s) (anon s) (cwd s) (type_ascii s) (f_rest s) (rename_from s) (rename_pending s) None v (slot s) (quit s).
Definition set_quit s := mkSession (authed s) (anon s) (cwd s) (type_ascii s) (f_rest s) (rename_from s) (rename_pending s) (port_ep s) (passive_port s) (slot s) true.

(** Who may change files. *)
Definition privileged (s : Session) : bool := authed s && negb (anon s).

Definition open_data : T bool :=
  ep ← ses_get port_ep;
  ses_set (set_port None) ;;
  match ep with
  | Some ep => on_env (env_connect ep)
  | None => p ← ses_get passive_port; if p =? 0 then mret false else on_env env_wait_ready
  end.

Fixpoint write_rows (long : bool) (es : list (list Z)) : T unit :=
  match es with
  | [] => mret tt
  | e :: es =>
      t ← env_get env_epoch;
      l ← lift (ls_line long e t);
      ok ← on_env (env_write l);
      if ok : bool then write_rows long es else mret tt
  end.

Definition cmd_list (arg : list Z) (long : bool) : T unit :=
  let path_arg := if starts_with arg (bs "- ") then drop 2 arg
                  else if starts_with arg (bs "-") && negb (bool_decide (47 ∈ arg)) then [] else arg in
  fp ← path path_arg;
  ok ← rpc (FtpLs (ftp_path_bytes fp));
  if negb ok then send_line (bs "550 No such file or directory") else
  ls ← env_get env_ls;
  if (ls.2 =? 0)%nat then send_line (bs "550 No such file or directory") else
  send_line (bs "150 Here comes the directory listing") ;;
  d ← open_data;
  if negb d then send_line (bs "425 No data connection") else
  write_rows long (take ls.2 ls.1) ;;
  on_env env_close ;;
  send_line (bs "226 Directory send OK").

(** The loop of a download; [None] when the fuel runs out. *)
Fixpoint retr_loop (fuel : nat) (size rest : Z) : T unit :=
  match fuel with
  | O => panic
  | S fuel =>
      k ← ses_get slot; ascii ← ses_get type_ascii;
      ok ← rpc (FtpReadChunk k);
      if negb ok then mret tt else
      x ← env_get (env_xfer (Z.to_nat k));
      let len := x_chunk_len x in
      go ← (if (0 <? len)%nat then on_env (env_write (if ascii : bool then ascii_out (take len (x_chunk x)) else take len (x_chunk x)))
            else mret true);
      if negb go then mret tt else
      if x_eof x && ((len =? 0)%nat || (size <=? x_sent x) || (as_u32 (size + rest) <=? x_sent x)) then mret tt
      else retr_loop fuel size rest
  end.

Definition cmd_retr (fuel : nat) (arg : list Z) : T unit :=
  a ← ses_get authed;
  if negb a then send_line (bs "530 Not logged in") else
  fp ← path arg;
  k ← ses_get slot; rest ← ses_get f_rest;
  r ← rpc_res (FtpOpenRead k (ftp_path_bytes fp) rest);
  x ← env_get (env_xfer (Z.to_nat k));
  ses_set (set_rest 0) ;;
  if negb r.1.1 || negb (x_open x) then send_line (bs "550 Failed to open file") else
  send_line (bs "150 Opening data connection") ;;
  d ← open_data;
  if negb d then on_env (env_send (FtpCloseWrite k)) ;; send_line (bs "425 No data connection") else
  retr_loop fuel (x_size x) rest ;;
  x ← env_get (env_xfer (Z.to_nat k));
  on_env env_close ;;
  if x_err x then send_line (bs "426 Transfer aborted: read error") else send_line (bs "226 Transfer complete").

(** The loop of an upload; the result is [xfer_err]. *)
Fixpoint stor_loop (fuel : nat) (pending : bool) : T bool :=
  match fuel with
  | O => panic
  | S fuel =>
      k ← ses_get slot; ascii ← ses_get type_ascii;
      r ← on_env env_read;
      match r with
      | None => mret false
      | Some buf =>
          let '(pending, out) := if ascii : bool then ascii_in pending buf else (pending, buf) in
          if (length out =? 0)%nat then stor_loop fuel pending else
          on_env (env_put_chunk (Z.to_nat k) out) ;;
          ok ← rpc (FtpWriteChunk k (length out));
          if negb ok then mret true else
          x ← env_get (env_xfer (Z.to_nat k));
          if x_werr x then mret true else stor_loop fuel pending
      end
  end.

Definition cmd_stor (fuel : nat) (arg : list Z) (is_appe : bool) : T unit :=
  p ← ses_get privileged;
  if negb p then send_line (bs "530 Permission denied") else
  fp ← path arg;
  k ← ses_get slot; rest ← ses_get f_rest;
  let mode := if is_appe then Append else if 0 <? rest then Rest rest else Trunc in
  r ← rpc_res (FtpOpenWrite k (ftp_path_bytes fp) mode);
  ses_set (set_rest 0) ;;
  if negb r.1.1 then send_line (bs "550 Failed to open file") else
  send_line (bs "150 Ok to send data") ;;
  d ← open_data;
  if negb d then rpc (FtpCloseWrite k) ;; send_line (bs "425 No data connection") else
  err ← stor_loop fuel false;
  r ← rpc_res (FtpCloseWrite k);
  on_env env_close ;;
  if err || negb r.1.1 then send_line (bs "451 Requested action aborted: local error") else send_line (bs "226 Transfer complete").

Definition quoted (pre l post : list Z) (cap : nat) : list Z := write_pieces cap [pre ++ [34]; l; [34] ++ post] [].

(** PASV and EPSV: the listener is armed before the answer. *)
Definition cmd_pasv (extended : bool) : T unit :=
  n ← on_env env_next_port;
  let p := 40000 + n mod 1000 in
  ses_set (set_passive p) ;;
  ip ← env_get env_ip;
  on_env (env_arm p) ;;
  let g i := decimal (ip !!! i) in
  send_line (if extended then write_pieces 96 [bs "229 Entering Extended Passive Mode (|||"; decimal p; bs "|)"] []
    else write_pieces 96 [bs "227 Entering Passive Mode ("; g 0%nat; bs ","; g 1%nat; bs ","; g 2%nat; bs ","; g 3%nat; bs ",";
      decimal (Z.land (Z.shiftr p 8) 0xFF); bs ","; decimal (Z.land p 0xFF); bs ")"] []).

(** A command on a path that needs the rights. *)
Definition guarded (m : T unit) : T unit :=
  p ← ses_get privileged; if negb p then send_line (bs "550 Permission denied") else m.

Definition CRLF : list Z := [13; 10].
Definition FEAT_TXT : list Z :=
  bs "211-Features:" ++ CRLF ++ bs " SIZE" ++ CRLF ++ bs " PASV" ++ CRLF ++ bs " EPSV" ++ CRLF ++ bs " PORT" ++ CRLF ++ bs " EPRT" ++ CRLF ++
  bs " REST STREAM" ++ CRLF ++ bs " TYPE A;I" ++ CRLF ++ bs " NLST" ++ CRLF ++ bs " MKD" ++ CRLF ++ bs " RMD" ++ CRLF ++ bs "211 END".

(** [text.find(' ')]: the command and the trimmed argument. *)
Definition split_cmd (text : list Z) : list Z * list Z :=
  match position (Z.eqb 32) text with
  | Some i => (take i text, trim (drop (S i) text))
  | None => (text, [])
  end.

(** The characters of UTF-8 text. *)
Fixpoint chars (l : list Z) : list (list Z) :=
  match l with
  | [] => []
  | b :: l' =>
      match chars l' with
      | (c :: p) :: ps => if cont c then (b :: c :: p) :: ps else [b] :: (c :: p) :: ps
      | _ => [[b]]
      end
  end.

(** In upper case, the characters that fit eight bytes. *)
Definition upper8 (cmd : list Z) : list Z :=
  foldl (fun s c => if (length s + length c <=? 8)%nat then s ++ c else s) []
    (chars ((fun b => if (97 <=? b) && (b <=? 122) then b - 32 else b) <$> cmd)).

Definition is_cmd (cmd : list Z) (names : list (list Z)) : bool := existsb (bytes_eqb cmd) names.

Definition del_msg (dele ok : bool) : list Z :=
  if dele then (if ok then bs "250 Delete OK" else bs "550 Delete failed")
  else (if ok then bs "250 Remove OK" else bs "550 Cannot remove").

Definition cmd_size (arg : list Z) : T unit :=
  fp ← path arg;
  rpc (FtpStat (ftp_path_bytes fp)) ;;
  r ← (env_get env_res : T FtpRes);
  if r.1.1 && negb r.1.2 then send_line (write_pieces 32 [bs "213 "; decimal r.2] []) else send_line (bs "550 Not found").

Definition cmd_rest (arg : list Z) : T unit :=
  let n := default 0 (parse_uint 4294967295 arg) in
  ses_set (set_rest n) ;;
  send_line (write_pieces 48 [bs "350 Restart position accepted ("; decimal n; bs ")"] []).

Definition cmd_rnfr (arg : list Z) : T unit :=
  fp ← path arg;
  rpc (FtpStat (ftp_path_bytes fp)) ;;
  r ← (env_get env_res : T FtpRes);
  p ← ses_get privileged;
  if negb r.1.1 || negb p then send_line (bs "550 No such file")
  else ses_set (set_rename (ftp_path_bytes fp) true) ;; send_line (bs "350 Ready for RNTO").

Definition cmd_rnto (arg : list Z) : T unit :=
  fp ← path arg;
  ok ← (s ← ses_get (fun s => s);
        if rename_pending s && privileged s then
          rpc (FtpRename (rename_from s) (ftp_path_bytes fp)) ;; r ← (env_get env_res : T FtpRes); mret r.1.1
        else mret false);
  ses_set (fun s => set_rename (rename_from s) false s) ;;
  send_line (if ok : bool then bs "250 Rename successful" else bs "550 Rename failed").

(** The fuel is for the transfers. *)
Definition handle_command (fuel : nat) (line : list Z) : T unit :=
  let '(cmd, arg) := split_cmd (default [] (from_utf8 line)) in
  let cmd := upper8 cmd in
  if is_cmd cmd [bs "USER"] then
    ses_set (set_anon (bytes_eqb arg (bs "anonymous") || bytes_eqb arg (bs "ftp"))) ;;
    ses_set (fun s => set_rename (rename_from s) false s) ;;
    send_line (bs "331 Please specify the password")
  else if is_cmd cmd [bs "PASS"] then
    a ← ses_get anon;
    if a || bytes_eqb arg (bs "admin") then ses_set (set_authed true) ;; send_line (bs "230 Login successful")
    else ses_set (set_authed false) ;; send_line (bs "530 Login incorrect")
  else if is_cmd cmd [bs "SYST"] then send_line (bs "215 UNIX Type: L8")
  else if is_cmd cmd [bs "FEAT"] then send_line FEAT_TXT
  else if is_cmd cmd [bs "TYPE"] then
    ses_set (set_ascii (starts_with arg (bs "A") || starts_with arg (bs "a"))) ;; send_line (bs "200 Type set")
  else if is_cmd cmd [bs "PWD"] then
    c ← ses_get cwd; send_line (quoted (bs "257 ") c (bs " is the current directory") 96)
  else if is_cmd cmd [bs "CWD"] then
    p ← path arg; ses_set (set_cwd p) ;; send_line (bs "250 Directory successfully changed")
  else if is_cmd cmd [bs "CDUP"] then
    p ← path (bs ".."); ses_set (set_cwd p) ;; send_line (bs "250 Directory successfully changed")
  else if is_cmd cmd [bs "PASV"] then cmd_pasv false
  else if is_cmd cmd [bs "EPSV"] then cmd_pasv true
  else if is_cmd cmd [bs "PORT"] then
    match parse_port_arg arg with
    | Some ep => ses_set (set_port (Some ep)) ;; send_line (bs "200 PORT command successful")
    | None => send_line (bs "501 Syntax error in parameters")
    end
  else if is_cmd cmd [bs "EPRT"] then
    match parse_eprt_arg arg with
    | Some ep => ses_set (set_port (Some ep)) ;; send_line (bs "200 EPRT command successful")
    | None => send_line (bs "522 Network protocol not supported, use (1)")
    end
  else if is_cmd cmd [bs "LIST"] then cmd_list arg true
  else if is_cmd cmd [bs "NLST"] then cmd_list arg false
  else if is_cmd cmd [bs "RETR"] then cmd_retr fuel arg
  else if is_cmd cmd [bs "STOR"] then cmd_stor fuel arg false
  else if is_cmd cmd [bs "APPE"] then cmd_stor fuel arg true
  else if is_cmd cmd [bs "DELE"; bs "RMD"; bs "XRMD"] then
    guarded (fp ← path arg; r ← (rpc_res (FtpRemove (ftp_path_bytes fp)) : T FtpRes); send_line (del_msg (is_cmd cmd [bs "DELE"]) r.1.1))
  else if is_cmd cmd [bs "MKD"; bs "XMKD"] then
    guarded (
      fp ← path arg; r ← (rpc_res (FtpMkdir (ftp_path_bytes fp)) : T FtpRes);
      if r.1.1 : bool then send_line (quoted (bs "257 ") arg (bs " created") 128) else send_line (bs "550 Cannot create directory"))
  else if is_cmd cmd [bs "SIZE"] then cmd_size arg
  else if is_cmd cmd [bs "REST"] then cmd_rest arg
  else if is_cmd cmd [bs "RNFR"] then cmd_rnfr arg
  else if is_cmd cmd [bs "RNTO"] then cmd_rnto arg
  else if is_cmd cmd [bs "QUIT"] then send_line (bs "221 Goodbye") ;; ses_set set_quit
  else if is_cmd cmd [bs "NOOP"; bs "ALLO"] then send_line (bs "200 OK")
  else send_line (bs "502 Command not implemented").

(** The lines of the receive buffer, in order; what is left of it, or [None] when
    a line overflows.  A command sees at most 255 bytes of its line. *)
Fixpoint line_loop (fuel : nat) (rx : list Z) : list (list Z) * option (list Z) :=
  match fuel with
  | O => ([], Some rx)
  | S fuel =>
      match position (Z.eqb 10) rx with
      | None => ([], if (1023 <=? length rx)%nat then None else Some rx)
      | Some eol =>
          let n := if (0 <? eol)%nat && (rx !!! (eol - 1)%nat =? 13) then (eol - 1)%nat else eol in
          let '(ls, r) := line_loop fuel (drop (S eol) rx) in
          (take (Nat.min n 255) rx :: ls, r)
      end
  end.

Fixpoint run_lines (fuel : nat) (ls : list (list Z)) : T unit :=
  match ls with [] => mret tt | l :: ls => handle_command fuel l ;; run_lines fuel ls end.

(** One read of the control connection: at most what is free of the 1024 bytes. *)
Definition ctrl_turn (fuel : nat) (chunk rx : list Z) : T (option (list Z)) :=
  let '(ls, r) := line_loop (S (length rx + length chunk)) (rx ++ chunk) in
  run_lines fuel ls ;; mret r.

(** A session on the reads of its connection. *)
Fixpoint ftp_session (fuel : nat) (chunks : list (list Z)) (rx : list Z) : T unit :=
  match chunks with
  | [] => mret tt
  | c :: chunks =>
      r ← ctrl_turn fuel c rx;
      q ← ses_get quit;
      match r with
      | Some rx => if q : bool then mret tt else ftp_session fuel chunks rx
      | None => mret tt
      end
  end.

Definition ftp_start (fuel : nat) (k : Z) (chunks : list (list Z)) (e : E) : option (unit * Ftp E) :=
  (send_line (bs "220 io-edge-hub FTP service ready") ;; ftp_session fuel chunks [] : T unit) (mkFtp (Session_new k) [] e).
End Cmds.
