(* ===== verification/FtpSafe.v ===== *)
(** * Who may change files over FTP

    A session without rights changes nothing: whatever it sends, the storage task
    gets commands that only read.  How a session gets its rights. *)
From S2P Require Import Prelude Text UdpCfg History Channels StMonad Storage Web FtpArgs FtpPaths Ftpd.

(** The commands that change no file. *)
Definition read_cmd (c : StorageCmd) : Prop :=
  match c with
  | FtpStat _ | FtpLs _ | FtpOpenRead _ _ _ | FtpReadChunk _ | FtpCloseWrite _ => True
  | _ => False
  end.

Section Rights.
Context {E : Type} `{!FtpEnv E}.
Variable collect : nat -> list Z -> option (list Z).
Variable P : E -> Prop.
Abbreviation T := (M (Ftp E)).

(** What a predicate on the world must survive: the commands that only read and
    the data connection. *)
Record survives : Prop := {
  sv_rpc c : read_cmd c -> keeps P (env_rpc c);
  sv_send c : read_cmd c -> keeps P (env_send c);
  sv_port : keeps P env_next_port;
  sv_arm p : keeps P (env_arm p);
  sv_connect ep : keeps P (env_connect ep);
  sv_wait : keeps P env_wait_ready;
  sv_write l : keeps P (env_write l);
  sv_close : keeps P env_close
}.
Context (HP : survives).

(** A session without rights. *)
Definition harmless (s : Ftp E) : Prop := privileged (f_ses s) = false /\ P (f_env s).
Abbreviation keep := (keeps harmless).

Lemma keep_env {A} (m : M E A) : keeps P m -> keep (on_env m : T A).
Proof. intros Hm s [H1 H2]. specialize (Hm _ H2). unfold on_env. by destruct (m (f_env s)) as [[a e]|]. Qed.
Lemma keep_line l : keep (send_line l).
Proof. apply keeps_modify. by intros s [H1 H2]. Qed.
Lemma keep_set f : (forall x, authed (f x) = authed x /\ anon (f x) = anon x) -> keep (ses_set f).
Proof. intros Hf. apply keeps_modify. intros s [H1 H2]. destruct (Hf (f_ses s)) as [E1 E2]. split; [|done]. cbn. unfold privileged in *. by rewrite E1, E2. Qed.

(** A read of the session, which has no rights. *)
Lemma keep_get {A B} (f : Session -> A) (k : A -> T B) :
  (forall x, privileged x = false -> keep (k (f x))) -> keep (ses_get f ≫= k).
Proof. intros Hk s Hs. pose proof Hs as [H1 _]. exact (Hk (f_ses s) H1 s Hs). Qed.

Lemma keep_rpc c : read_cmd c -> keep (rpc c).
Proof. intros Hc. by apply keep_env, HP. Qed.
Lemma keep_send c : read_cmd c -> keep (on_env (env_send c)).
Proof. intros Hc. by apply keep_env, HP. Qed.
Lemma keep_res c : read_cmd c -> keep (rpc_res c).
Proof. intros Hc. unfold rpc_res. keeps. by apply keep_rpc. Qed.

Hint Resolve keep_line keep_rpc keep_res keep_send keeps_reads : keeps.
Hint Extern 1 (keep (ses_set _)) => apply keep_set; intros []; split; reflexivity : keeps.
Hint Extern 1 (keep (on_env env_close)) => apply keep_env, HP : keeps.
Hint Extern 1 (keep (on_env (env_write _))) => apply keep_env, HP : keeps.
Hint Extern 1 (keep (on_env env_wait_ready)) => apply keep_env, HP : keeps.
Hint Extern 1 (keep (on_env env_next_port)) => apply keep_env, HP : keeps.
Hint Extern 1 (keep (on_env (env_arm _))) => apply keep_env, HP : keeps.
Hint Extern 1 (keep (on_env (env_connect _))) => apply keep_env, HP : keeps.
Hint Extern 1 (read_cmd _) => exact I : keeps.
Hint Extern 1 (keep (ses_get _)) => apply keeps_reads : keeps.
Hint Extern 1 (keep (env_get _)) => apply keeps_reads : keeps.

Ltac walk := keeps; auto with keeps.

Lemma keep_path arg : keep (path collect arg).
Proof. unfold path. walk. Qed.
Lemma keep_open_data : keep open_data.
Proof. unfold open_data. walk. Qed.
Hint Resolve keep_path keep_open_data : keeps.

Lemma keep_rows long es : keep (write_rows long es).
Proof. induction es as [|e es IH]; cbn [write_rows]; walk. Qed.
Hint Resolve keep_rows : keeps.
Lemma keep_list arg long : keep (cmd_list collect arg long).
Proof. unfold cmd_list. cbv zeta. walk. Qed.
Lemma keep_retr_loop fuel size rest : keep (retr_loop fuel size rest).
Proof. induction fuel as [|fuel IH]; cbn [retr_loop]; cbv zeta; walk. Qed.
Hint Resolve keep_retr_loop : keeps.
Lemma keep_retr fuel arg : keep (cmd_retr collect fuel arg).
Proof. unfold cmd_retr. walk. Qed.
Lemma keep_pasv ext : keep (cmd_pasv ext).
Proof. unfold cmd_pasv. cbv zeta. walk. Qed.
Lemma keep_stor fuel arg appe : keep (cmd_stor collect fuel arg appe).
Proof. unfold cmd_stor. apply keep_get. intros x ->. cbn [negb]. walk. Qed.
Lemma keep_guarded m : keep (guarded m).
Proof. unfold guarded. apply keep_get. intros x ->. cbn [negb]. walk. Qed.
Hint Resolve keep_list keep_retr keep_pasv keep_stor keep_guarded : keeps.

Lemma keep_rnto fp : keep (
  s ← ses_get (fun s => s);
  if rename_pending s && privileged s then rpc (FtpRename (rename_from s) fp) ;; r ← env_get env_res; mret r.1.1 else mret false).
Proof. apply keep_get. intros x ->. rewrite andb_false_r. walk. Qed.

Lemma keep_size arg : keep (cmd_size collect arg).
Proof. unfold cmd_size. walk. Qed.
Lemma keep_rest arg : keep (cmd_rest arg).
Proof. unfold cmd_rest. cbv zeta. walk. Qed.
Lemma keep_rnfr arg : keep (cmd_rnfr collect arg).
Proof. unfold cmd_rnfr. walk. Qed.
Lemma keep_rename arg : keep (cmd_rnto collect arg).
Proof. unfold cmd_rnto. keeps_with ltac:(apply keep_rnto); auto with keeps. Qed.
Hint Resolve keep_size keep_rest keep_rnfr keep_rename : keeps.

(** USER and PASS do not touch the world. *)
Abbreviation keep_w := (keeps (fun s : Ftp E => P (f_env s))).
Lemma keep_w_line l : keep_w (send_line l).
Proof. by apply keeps_modify. Qed.
Lemma keep_w_set f : keep_w (ses_set f).
Proof. by apply keeps_modify. Qed.
Hint Resolve keep_w_line keep_w_set : keeps.
Hint Extern 1 (keep_w (ses_get _)) => apply keeps_reads : keeps.

Lemma keeps_harmless {A} (m : T A) : keep m -> forall s a s', harmless s -> m s = Some (a, s') -> P (f_env s').
Proof. intros Hm s a s' Hs E1. by apply (keeps_elim _ m s a s' Hm Hs E1). Qed.

(** Any other command leaves a session without rights. *)
Lemma command_keeps fuel line cmd arg : split_cmd (default [] (from_utf8 line)) = (cmd, arg) ->
  is_cmd (upper8 cmd) [bs "USER"] = false -> is_cmd (upper8 cmd) [bs "PASS"] = false -> keep (handle_command collect fuel line).
Proof.
  intros Ec Eu Ep. unfold handle_command. rewrite Ec. cbv zeta. rewrite Eu, Ep.
  walk.
Qed.

Lemma command_harmless fuel line s a s' : harmless s -> handle_command collect fuel line s = Some (a, s') -> P (f_env s').
Proof.
  intros Hs. destruct (split_cmd (default [] (from_utf8 line))) as [cmd arg] eqn:Ec.
  destruct (is_cmd (upper8 cmd) [bs "USER"]) eqn:Eu; [|destruct (is_cmd (upper8 cmd) [bs "PASS"]) eqn:Ep].
  1,2: intros E1; refine (keeps_elim (fun s : Ftp E => P (f_env s)) _ s a s' _ (proj2 Hs) E1);
    unfold handle_command; rewrite Ec; cbv zeta; rewrite ?Eu, ?Ep; walk.
  apply keeps_harmless; [by apply (command_keeps fuel line cmd arg)|done].
Qed.
End Rights.

(** ** Properties *)

Section Theorems.
Context {E : Type} `{!FtpEnv E}.
Variable collect : nat -> list Z -> option (list Z).

Lemma survives_true : survives (fun _ : E => True).
Proof. split; intros; intros e _; by repeat case_match. Qed.

(** The commands that give a session without rights its rights: the password of the
    user, and any other name after an anonymous login. *)
Definition grants (cmd arg : list Z) (s : Session) : Prop :=
  (cmd = bs "PASS" /\ arg = bs "admin" /\ anon s = false) \/
  (cmd = bs "USER" /\ arg <> bs "anonymous" /\ arg <> bs "ftp" /\ authed s = true).

(** How a session gets the right to change files: by the password, or - and this
    is not meant - by a USER command after an anonymous login, which clears the
    anonymous mark and leaves the login.  No other command gives it. *)
Theorem ftp_rights fuel line (s s' : Ftp E)
    (Hs : privileged (f_ses s) = false) (Hrun : handle_command collect fuel line s = Some (tt, s')) :
  let '(cmd, arg) := split_cmd (default [] (from_utf8 line)) in
  privileged (f_ses s') = true <-> grants (upper8 cmd) arg (f_ses s).
Proof.
  unfold grants.
  destruct (split_cmd (default [] (from_utf8 line))) as [cmd arg] eqn:Ec.
  destruct (bytes_eqb (upper8 cmd) (bs "USER")) eqn:Eu; [|destruct (bytes_eqb (upper8 cmd) (bs "PASS")) eqn:Ep].
  - apply bool_decide_eq_true_1 in Eu. unfold handle_command in Hrun. rewrite Ec, Eu in Hrun. injection Hrun as <-.
    unfold bytes_eqb. cbn. unfold privileged in *. cbn. split.
    + intros H%andb_true_iff. right. destruct H as [Ha Hn]. apply negb_true_iff, orb_false_iff in Hn as [N1 N2].
      apply bool_decide_eq_false_1 in N1, N2. done.
    + intros [(H & _)|(_ & N1 & N2 & ->)]; [rewrite Eu in H; by vm_compute in H|]. by rewrite !bool_decide_false.
  - apply bool_decide_eq_true_1 in Ep. unfold handle_command in Hrun. rewrite Ec, Ep in Hrun.
    change (is_cmd (bs "PASS") [bs "USER"]) with false in Hrun. change (is_cmd (bs "PASS") [bs "PASS"]) with true in Hrun.
    cbv beta iota zeta in Hrun. unfold ses_get, reads, ses_set, send_line, modify, mbind, M_bind in Hrun.
    unfold bytes_eqb in Hrun. unfold privileged in *.
    destruct (anon (f_ses s) || bool_decide (arg = bs "admin")) eqn:Ea; injection Hrun as <-; cbn.
    + destruct (anon (f_ses s)) eqn:An; cbn.
      * split; [done|]. intros [(_ & _ & ?)|(H & _)]; [done|]. rewrite Ep in H. by vm_compute in H.
      * apply bool_decide_eq_true_1 in Ea. split; [by left|done].
    + apply orb_false_iff in Ea as [An Ea]. apply bool_decide_eq_false_1 in Ea. split; [done|].
      intros [(_ & ? & _)|(H & _)]; [done|]. rewrite Ep in H. by vm_compute in H.
  - apply bool_decide_eq_false_1 in Eu, Ep. split; [|intros [(? & _)|(? & _)]; done].
    intros Hp. exfalso. assert (Hq : privileged (f_ses s') = false); [|congruence].
    assert (is_cmd (upper8 cmd) [bs "USER"] = false) as Ef1 by (unfold is_cmd, bytes_eqb; cbn [existsb]; by rewrite bool_decide_false).
    assert (is_cmd (upper8 cmd) [bs "PASS"] = false) as Ef2 by (unfold is_cmd, bytes_eqb; cbn [existsb]; by rewrite bool_decide_false).
    pose proof (command_keeps collect (fun _ => True) survives_true fuel line cmd arg Ec Ef1 Ef2) as Hk.
    exact (proj1 (keeps_elim _ _ s tt s' Hk (conj Hs I) Hrun)).
Qed.

(** The way in without the password. *)
Lemma ftp_escalation fuel e : exists s, run_lines collect fuel [bs "USER anonymous"; bs "PASS x"; bs "USER y"] (mkFtp (Session_new 0) [] e) = Some (tt, s) /\
  privileged (f_ses s) = true.
Proof. eexists. by split; [vm_compute; reflexivity|]. Qed.

(** What lines without rights leave, up to the one that gives them. *)
Lemma lines_harmless {C} (f : E -> C) : (forall c, survives (fun e => f e = c)) -> forall fuel ls (s s' : Ftp E),
  privileged (f_ses s) = false -> run_lines collect fuel ls s = Some (tt, s') ->
  f (f_env s') = f (f_env s) \/
  exists l1 l2 s1, ls = l1 ++ l2 /\ run_lines collect fuel l1 s = Some (tt, s1) /\ privileged (f_ses s1) = true /\ f (f_env s1) = f (f_env s).
Proof.
  intros Hf fuel ls. induction ls as [|l ls IH]; intros s s' Hs Hrun; [injection Hrun as <-; by left|].
  cbn [run_lines] in Hrun. unfold mbind, M_bind in Hrun. destruct (handle_command collect fuel l s) as [[[] s1]|] eqn:E1; [|done].
  assert (Hc : f (f_env s1) = f (f_env s)) by (by apply (command_harmless collect _ (Hf _) fuel l s tt s1)).
  destruct (privileged (f_ses s1)) eqn:Hp.
  - right. exists [l], ls, s1. split; [done|]. split; [|done]. cbn [run_lines]. unfold mbind, M_bind. by rewrite E1.
  - destruct (IH s1 s' Hp Hrun) as [H|(l1 & l2 & s2 & -> & H2 & H3 & H4)]; [left; congruence|].
    right. exists (l :: l1), l2, s2. split; [done|]. split; [|split; [done|congruence]].
    cbn [run_lines]. unfold mbind, M_bind. by rewrite E1.
Qed.

End Theorems.
