(* ===== verification/FtpFiles.v ===== *)
(** * Transfers over FTP

    The FTP server with the storage task behind it: a download sends the file, an
    upload stores what was sent. *)
From stdpp Require Import gmap.
From S2P Require Import Prelude Text TimeMath RegMap ConfigStore StorageCfg UdpCfg History Channels LfsNor StMonad Storage.
From S2P Require Import RamFs StorageFiles Web FtpArgs FtpPaths Ftpd FtpSafe.
#[local] Open Scope Z_scope.

(** A storage task that serves every command at once, a client that takes all that
    is sent and sends [w_up]. *)
Record World (FS F : Type) := mkWorld { w_store : Store FS F; w_data : list Z; w_up : list (list Z); w_next : Z; w_ip : list Z; w_time : Z }.
Arguments mkWorld {FS F} _ _ _ _ _ _.
Arguments w_store {FS F} _.
Arguments w_data {FS F} _.
Arguments w_up {FS F} _.
Arguments w_next {FS F} _.
Arguments w_ip {FS F} _.
Arguments w_time {FS F} _.

Ltac st_cbn := cbn [FTP_XFER set_fs set_ftp_xfer set_rpc_seq set_ftp_res s_fs FS_BAD with_dl with_wr dl wr x_size x_sent x_chunk x_chunk_len
  x_eof x_err x_werr x_open wpos].
Ltac slot_lookup := st_cbn; by rewrite list_lookup_insert_eq by (rewrite ?length_insert; lia).

(** ** What reading leaves alone

    The files as the storage task sees them, names and bytes, and the operations of
    littlefs that leave them as they are: opening to read, reading, seeking, sync and
    close. *)
Class LfsFrame (FS : Type) `{!Lfs FS} := {
  contents : FS -> gmap (list Z) (list Z);
  metadata_frame p fs : contents (lfs_metadata p fs).2 = contents fs;
  read_dir_frame p fs : contents (lfs_read_dir p fs).2 = contents fs;
  open_frame c p fs : contents (lfs_open (mkOpen true false false false false) c p fs).2 = contents fs;
  len_frame c fs : contents (lfs_len c fs).2 = contents fs;
  read_frame c n fs : contents (lfs_read c n fs).2 = contents fs;
  seek_frame c q fs : contents (lfs_seek_start c q fs).2 = contents fs;
  sync_frame c fs : contents (lfs_sync c fs).2 = contents fs;
  close_frame c fs : contents (lfs_close c fs).2 = contents fs
}.

Section Server.
Context {FS F : Type} `{!Lfs FS, !Flash F}.
Abbreviation W := (World FS F).
Abbreviation St := (Store FS F).

Definition set_store (st : St) (w : W) : W := mkWorld st (w_data w) (w_up w) (w_next w) (w_ip w) (w_time w).

Definition on_store {A} (m : M St A) : M W A := fun w =>
  match m (w_store w) with Some (a, st) => Some (a, set_store st w) | None => None end.

#[export] Instance StoreEnv : FtpEnv W := {|
  env_rpc c := on_store (handle_cmd false 0 c) ;; mret true;
  env_send c := on_store (handle_cmd false 0 c);
  env_res w := FTP_RES (w_store w);
  env_ls w := FTP_LS (w_store w);
  env_xfer k w := default FtpXfer_init (FTP_XFER (w_store w) !! k);
  env_put_chunk k l := on_store (x ← get_xfer k;
    put_xfer k (mkFtpXfer (dl x) (wr x) (x_size x) (x_sent x) (list_inserts 0 l (x_chunk x)) (x_chunk_len x) (x_eof x) (x_err x)
      (x_werr x) (x_open x) (wpos x)));
  env_next_port w := Some (w_next w, mkWorld (w_store w) (w_data w) (w_up w) (as_u8 (w_next w + 1)) (w_ip w) (w_time w));
  env_ip := w_ip;
  env_epoch := w_time;
  env_arm _ := mret tt;
  env_connect _ := mret true;
  env_wait_ready := mret true;
  env_write l w := Some (true, mkWorld (w_store w) (w_data w ++ l) (w_up w) (w_next w) (w_ip w) (w_time w));
  env_read w :=
    match w_up w with
    | [] => Some (None, w)
    | b :: r => Some (Some b, mkWorld (w_store w) (w_data w) r (w_next w) (w_ip w) (w_time w))
    end;
  env_close := mret tt
|}.

Abbreviation T := (M (Ftp W)).

Lemma wp_on_store {A} (m : M St A) (w : W) (Q : A -> W -> Prop) :
  wp m (w_store w) (fun a st => Q a (set_store st w)) -> wp (on_store m) w Q.
Proof. unfold wp, on_store. by destruct (m (w_store w)) as [[a st]|]. Qed.

Lemma wp_on_env {A} (m : M W A) (s : Ftp W) (Q : A -> Ftp W -> Prop) :
  wp m (f_env s) (fun a e => Q a (mkFtp (f_ses s) (f_out s) e)) -> wp (on_env m) s Q.
Proof. unfold wp, on_env. by destruct (m (f_env s)) as [[a e]|]. Qed.

(** With the storage task served at once. *)
Definition with_store (st : St) (s : Ftp W) : Ftp W := mkFtp (f_ses s) (f_out s) (set_store st (f_env s)).

Lemma wp_rpc c (s : Ftp W) (Q : bool -> Ftp W -> Prop) :
  wp (handle_cmd false 0 c) (w_store (f_env s)) (fun _ st => Q true (with_store st s)) -> wp (rpc c) s Q.
Proof.
  intros H. unfold rpc. apply wp_on_env. cbn [env_rpc StoreEnv]. apply wp_bind, wp_on_store.
  eapply wp_mono; [exact H|]. intros [] st Hq. by apply wp_ret.
Qed.

Lemma wp_send_line l (s : Ftp W) (Q : unit -> Ftp W -> Prop) :
  Q tt (mkFtp (f_ses s) (f_out s ++ [l ++ [13; 10]]) (f_env s)) -> wp (send_line l) s Q.
Proof. done. Qed.

Lemma wp_path collect arg fp (s : Ftp W) (Q : list Z -> Ftp W -> Prop) :
  norm_path collect (cwd (f_ses s)) arg = Some fp -> Q fp s -> wp (path collect arg) s Q.
Proof. intros E H. unfold path, ses_get. apply wp_bind, wp_reads. by apply (wp_lift _ fp). Qed.

(** A session whose data connection can be opened. *)
Definition can_connect (s : Session) : Prop := port_ep s <> None \/ passive_port s <> 0.

Lemma wp_open_data (s : Ftp W) (Q : bool -> Ftp W -> Prop) :
  can_connect (f_ses s) -> Q true (mkFtp (set_port None (f_ses s)) (f_out s) (f_env s)) -> wp open_data s Q.
Proof.
  intros Hc H. unfold open_data, ses_get, ses_set. repeat wp_step. cbv beta. destruct (port_ep (f_ses s)) as [ep|] eqn:Ep.
  - apply wp_on_env. exact H.
  - repeat wp_step. destruct Hc as [?|Hc]; [done|]. cbn [set_port passive_port f_ses].
    rewrite (proj2 (Z.eqb_neq _ _)) by done. apply wp_on_env. exact H.
Qed.

(** ** Downloads *)

Context `{!LfsReads FS}.

Lemma wp_xfer k x (st : St) (Q : FtpXfer -> St -> Prop) : FTP_XFER st !! k = Some x -> Q x st -> wp (get_xfer k) st Q.
Proof. intros E H. unfold get_xfer. apply wp_bind, wp_reads. by apply (wp_lift _ x). Qed.

Lemma wp_put_xfer k x (st : St) (Q : unit -> St -> Prop) : Q tt (set_ftp_xfer (<[k := x]> (FTP_XFER st)) st) -> wp (put_xfer k x) st Q.
Proof. done. Qed.

(** The transfer of slot [k] stands at [sent] of [e], which is the file [d] from [rest] on. *)
Record xfer_at (k : nat) (d : list Z) (rest : Z) (sent : nat) (st : St) : Prop := {
  xa_k : (k < 3)%nat /\ length (FTP_XFER st) = 3%nat;
  xa_read : reading (s_fs st) (FTP_ALLOC k) = Some (d, (Z.to_nat rest + sent)%nat);
  xa_x : exists ch cl eof, FTP_XFER st !! k = Some (mkFtpXfer (Some (FTP_ALLOC k)) None (Z.of_nat (length (drop (Z.to_nat rest) d)))
    (Z.of_nat sent) ch cl eof false false true 0) /\ length ch = 2048%nat /\
    (sent = 0%nat -> cl = 0%nat)
}.

Lemma slot_min_id k : (k < 3)%nat -> slot_min (Z.of_nat k) = k.
Proof. intros H. unfold slot_min. rewrite Nat2Z.id. lia. Qed.

Lemma wp_drop_dl k x (st : St) (Q : option Cell -> St -> Prop) : FTP_XFER st !! k = Some x ->
  Q (dl x) (set_ftp_xfer (<[k := with_dl None x]> (FTP_XFER st)) st) -> wp (take_dl k) st Q.
Proof. intros E H. unfold take_dl. wp_step. eapply wp_xfer; [exact E|]. wp_step. apply wp_put_xfer. by apply wp_ret. Qed.

(** What the server sees after a chunk. *)
Record chunk_out (k : nat) (d : list Z) (rest : Z) (sent : nat) (got : list Z) (st : St) (x : FtpXfer) : Prop := {
  co_x : FTP_XFER st !! k = Some x;
  co_len : x_chunk_len x = length got;
  co_chunk : take (x_chunk_len x) (x_chunk x) = got;
  co_sent : x_sent x = Z.of_nat (sent + length got);
  co_size : x_size x = Z.of_nat (length (drop (Z.to_nat rest) d));
  co_eof : (sent + length got = length (drop (Z.to_nat rest) d))%nat -> x_eof x = true;
  co_err : x_err x = false
}.

(** One chunk of what is left. *)
Lemma read_next k d rest sent (st : St) : let e := drop (Z.to_nat rest) d in
  is_u32 (Z.of_nat (length e)) -> xfer_at k d rest sent st -> (sent < length e)%nat ->
  wp (handle_cmd false 0 (FtpReadChunk (Z.of_nat k))) st (fun _ st' =>
    let got := take 2048 (drop sent e) in
    exists x, chunk_out k d rest sent got st' x /\ xfer_at k d rest (sent + length got) st').
Proof.
  intros e Hu [[Hk Hl] Hr (ch & cl & eof & Hx & Hch & _)] Hs. unfold is_u32 in Hu. set (got := take 2048 (drop sent e)).
  assert (Hg : (0 < length got <= 2048)%nat /\ (sent + length got <= length e)%nat) by (unfold got; len).
  assert (Hgot : got = take 2048 (drop (Z.to_nat rest + sent) d)) by (unfold got, e; by rewrite drop_drop).
  cbn [handle_cmd]. wp_step. unfold ftp_read_chunk. rewrite slot_min_id by done. wp_step.
  eapply wp_xfer; [exact Hx|]. cbn [x_open negb x_size x_sent]. fold e. rewrite (proj2 (Z.leb_gt _ _)) by lia.
  wp_step. eapply wp_drop_dl; [exact Hx|]. cbn [dl]. wp_step. wp_step.
  destruct (read_reads (s_fs st) (FTP_ALLOC k) d _ 2048 Hr) as (fs & E & Hr'). rewrite <- Hgot in E, Hr'.
  eapply wp_fsop; [exact E|]. wp_step. cbv zeta. wp_step. wp_step.
  eapply wp_xfer; [cbn [FTP_XFER set_fs set_ftp_xfer]; by rewrite list_lookup_insert_eq by lia|]. apply wp_put_xfer.
  rewrite (proj2 (Nat.eqb_neq (length got) 0)) by lia. wp_step.
  eapply wp_xfer; [cbn [FTP_XFER set_fs set_ftp_xfer]; by rewrite list_lookup_insert_eq by (rewrite length_insert; lia)|].
  apply wp_put_xfer. unfold bump. apply wp_modify. cbn [FTP_XFER set_fs set_ftp_xfer set_rpc_seq s_fs with_dl dl wr x_size x_sent x_chunk x_chunk_len x_eof x_err x_werr x_open wpos orb].
  set (n := as_u32 (Z.of_nat sent + as_u32 (Z.of_nat (length got)))).
  assert (Hn : n = Z.of_nat (sent + length got)).
  { unfold n. rewrite !as_u32_id; [|unfold is_u32; lia|rewrite as_u32_id; unfold is_u32; lia]. lia. }
  eexists. split.
  - split; [cbn [FTP_XFER set_fs set_ftp_xfer set_rpc_seq s_fs]; rewrite list_lookup_insert_eq by (rewrite !length_insert; lia); reflexivity|done| |exact Hn|done| |done].
    + cbn [x_chunk_len x_chunk]. rewrite list_inserts_split by (cbn -[Nat.add]; lia). rewrite take_0. by rewrite app_nil_l, take_app_length.
    + intros He. cbn [x_eof]. rewrite Hn. fold e in He |- *. rewrite He, (proj2 (Z.leb_le _ _)) by lia. by rewrite orb_true_r.
  - split; [split; [done|cbn [FTP_XFER set_fs set_ftp_xfer set_rpc_seq s_fs]; by rewrite !length_insert]| |].
    + cbn [FTP_XFER set_fs set_ftp_xfer set_rpc_seq s_fs]. rewrite Hr'. do 2 f_equal. lia.
    + eexists _, _, _. cbn [FTP_XFER set_fs set_ftp_xfer set_rpc_seq s_fs]. rewrite list_lookup_insert_eq by (rewrite !length_insert; lia). rewrite Hn.
      split; [reflexivity|]. split; [by rewrite length_inserts|lia].
Qed.

(** A slot that no transfer holds. *)
Definition idle_slot (k : nat) (st : St) : Prop :=
  (k < 3)%nat /\ length (FTP_XFER st) = 3%nat /\ FS_BAD st = false /\
  exists x, FTP_XFER st !! k = Some x /\ dl x = None /\ wr x = None /\ length (x_chunk x) = 2048%nat.

Lemma wp_close_idle k (st : St) (Q : unit -> St -> Prop) : idle_slot k st ->
  (forall st' ch, length ch = 2048%nat -> (k < 3)%nat -> length (FTP_XFER st') = 3%nat -> FS_BAD st' = false -> s_fs st' = s_fs st ->
     FTP_XFER st' !! k = Some (mkFtpXfer None None 0 0 ch 0 false false false false 0) -> Q tt st') ->
  wp (slot_close_all (Z.of_nat k)) st Q.
Proof.
  intros (Hk & Hl & Hb & x & Hx & Hd & Hw & Hc) HQ. unfold slot_close_all. rewrite slot_min_id by done. cbv zeta.
  wp_step. eapply wp_drop_dl; [exact Hx|]. rewrite Hd. unfold take_wr. wp_step. wp_step.
  eapply wp_xfer; [slot_lookup|]. wp_step. apply wp_put_xfer. st_cbn. rewrite Hw. repeat wp_step. cbn [close_opt].
  repeat wp_step. eapply wp_xfer; [slot_lookup|]. apply wp_put_xfer. st_cbn.
  eapply (HQ _ (x_chunk x)); st_cbn; try done; [by rewrite !length_insert|slot_lookup].
Qed.

Lemma open_read_ok k path p d rest (st : St) : idle_slot k st -> ftp_path_of (FS := FS) path = Some p ->
  file_at (s_fs st) p = Some d -> is_u32 (Z.of_nat (length d)) -> 0 <= rest <= LFS_FILE_MAX ->
  wp (ftp_open_read (Z.of_nat k) path rest) st (fun ok st' => ok = true /\ xfer_at k d rest 0 st').
Proof.
  intros Hi Hp Hd Hu Hrest. unfold ftp_open_read. rewrite slot_min_id by apply Hi. wp_step.
  apply wp_close_idle; [done|]. intros st1 ch Hch Hk Hl Hb Hfs Hx. wp_step. wp_step. rewrite Hb, Hp. wp_step.
  rewrite <- Hfs in Hd. destruct (open_reads (s_fs st1) (FTP_ALLOC k) p d Hd) as (fs & E & Hr).
  eapply wp_fsop; [exact E|]. cbv beta iota. wp_step.
  destruct (len_reads fs (FTP_ALLOC k) d 0 Hr) as (fs1 & E1 & Hr1). eapply wp_fsop; [exact E1|]. cbv zeta. rewrite as_u32_id by done.
  assert (Hsize : (if 0 <? rest then Z.max 0 (Z.of_nat (length d) - rest) else Z.of_nat (length d)) = Z.of_nat (length (drop (Z.to_nat rest) d))).
  { rewrite length_drop. destruct (Z.ltb_spec 0 rest); lia. }
  assert (Hend : forall st2 : St, reading (s_fs st2) (FTP_ALLOC k) = Some (d, Z.to_nat rest) -> FTP_XFER st2 = FTP_XFER st1 ->
    wp (x ← get_xfer k;
        put_xfer k (mkFtpXfer (Some (FTP_ALLOC k)) (wr x) (Z.of_nat (length (drop (Z.to_nat rest) d))) (x_sent x) (x_chunk x) (x_chunk_len x)
          (x_eof x) (x_err x) (x_werr x) true (wpos x)) ;; mret true) st2 (fun ok st' => ok = true /\ xfer_at k d rest 0 st')).
  { intros st2 Hr2 Ex. wp_step. eapply wp_xfer; [by rewrite Ex|]. wp_step. apply wp_put_xfer. st_cbn. apply wp_ret.
    split; [done|]. split; st_cbn; [by rewrite Ex, length_insert|by rewrite Nat.add_0_r|].
    rewrite Ex, list_lookup_insert_eq by lia. by eexists _, _, _. }
  destruct (Z.ltb_spec 0 rest) as [Hpos|Hz].
  - wp_step. wp_step. destruct (seek_reads fs1 (FTP_ALLOC k) d 0 rest Hr1 ltac:(lia)) as (fs2 & E2 & Hr2).
    eapply wp_fsop; [exact E2|]. apply wp_ret. cbn [is_ok negb]. rewrite Hsize. by apply Hend.
  - repeat wp_step. cbn [negb]. rewrite Hsize. apply Hend; [|done]. st_cbn. rewrite Hr1. do 2 f_equal. lia.
Qed.

(** A restart that littlefs cannot seek to: the handle is closed again. *)
Lemma open_read_far k path p d rest (st : St) : idle_slot k st -> ftp_path_of (FS := FS) path = Some p ->
  file_at (s_fs st) p = Some d -> LFS_FILE_MAX < rest < 4294967296 ->
  wp (ftp_open_read (Z.of_nat k) path rest) st (fun ok st' => ok = false /\ exists x, FTP_XFER st' !! k = Some x).
Proof.
  intros Hi Hp Hd Hrest. unfold ftp_open_read. rewrite slot_min_id by apply Hi. wp_step.
  apply wp_close_idle; [done|]. intros st1 ch Hch Hk Hl Hb Hfs Hx. wp_step. wp_step. rewrite Hb, Hp. wp_step.
  rewrite <- Hfs in Hd. destruct (open_reads (s_fs st1) (FTP_ALLOC k) p d Hd) as (fs & E & Hr).
  eapply wp_fsop; [exact E|]. cbv beta iota. wp_step.
  destruct (len_reads fs (FTP_ALLOC k) d 0 Hr) as (fs1 & E1 & Hr1). eapply wp_fsop; [exact E1|]. cbv zeta.
  rewrite (proj2 (Z.ltb_lt 0 rest)) by (unfold LFS_FILE_MAX in *; lia). wp_step. wp_step.
  destruct (seek_reads_far fs1 (FTP_ALLOC k) d 0 rest Hr1 Hrest) as (fs2 & E2 & _).
  eapply wp_fsop; [exact E2|]. apply wp_ret. cbn [is_ok negb]. wp_step. unfold close_or_poison. wp_step. apply wp_fsop_any.
  intros r fs3. destruct (is_ok r); repeat wp_step; (split; [done|]); eexists; st_cbn; exact Hx.
Qed.

Lemma wp_env_get {A} (f : W -> A) (s : Ftp W) (Q : A -> Ftp W -> Prop) : Q (f (f_env s)) s -> wp (env_get f) s Q.
Proof. done. Qed.

(** ASCII or not. *)
Definition conv (ascii : bool) (l : list Z) : list Z := if ascii then ascii_out l else l.

Lemma conv_app ascii a b : conv ascii (a ++ b) = conv ascii a ++ conv ascii b.
Proof. destruct ascii; [|done]. apply bind_app. Qed.

Definition with_data (l : list Z) (w : W) : W := mkWorld (w_store w) (w_data w ++ l) (w_up w) (w_next w) (w_ip w) (w_time w).

Lemma retr_loop_ok k d rest fuel : let e := drop (Z.to_nat rest) d in
  is_u32 (Z.of_nat (length d)) -> 0 <= rest -> forall sent (s : Ftp W),
  xfer_at k d rest sent (w_store (f_env s)) -> (sent < length e)%nat -> slot (f_ses s) = Z.of_nat k ->
  (length e <= sent + fuel * 2048)%nat ->
  wp (retr_loop fuel (Z.of_nat (length e)) rest) s (fun _ s' =>
    f_ses s' = f_ses s /\ f_out s' = f_out s /\ w_data (f_env s') = w_data (f_env s) ++ conv (type_ascii (f_ses s)) (drop sent e) /\
    exists x, FTP_XFER (w_store (f_env s')) !! k = Some x /\ x_err x = false).
Proof.
  intros e Hu Hrest. pose proof Hu as Hu'. unfold is_u32 in Hu'.
  assert (Hle : (length e = length d - Z.to_nat rest)%nat) by (unfold e; by rewrite length_drop).
  induction fuel as [|fuel IH]; intros sent s Hx Hs Hk Hf; [lia|].
  assert (rest < Z.of_nat (length d)) by lia.
  cbn [retr_loop]. unfold ses_get. wp_step. wp_step. wp_step. wp_step. rewrite Hk. wp_step. apply wp_rpc.
  eapply wp_mono; [apply (read_next k d rest sent); [unfold is_u32; fold e; lia|done|done]|].
  intros [] st1 (x & Ho & Hx1). cbn [negb]. fold e in Ho, Hx1. set (got := take 2048 (drop sent e)) in *.
  assert (Hg : (0 < length got)%nat /\ (sent + length got <= length e)%nat /\ (length got = 2048 \/ sent + length got = length e)%nat)
    by (unfold got; len).
  assert (Hsplit : drop sent e = got ++ drop (sent + length got) e).
  { rewrite <- (take_drop 2048 (drop sent e)) at 1. fold got. f_equal. rewrite drop_drop.
    assert (length got = 2048 \/ sent + length got = length e)%nat as [-> |Hg'] by (unfold got; len); [f_equal; lia|].
    rewrite !drop_ge; [done| |]; unfold got in *; len. }
  wp_step. apply wp_env_get. cbn [env_xfer StoreEnv f_env with_store set_store w_store]. rewrite Nat2Z.id, (co_x _ _ _ _ _ _ _ Ho).
  cbn [default id]. cbv zeta. rewrite (co_len _ _ _ _ _ _ _ Ho), (proj2 (Nat.ltb_lt 0 _)) by lia.
  rewrite <- (co_len _ _ _ _ _ _ _ Ho), (co_chunk _ _ _ _ _ _ _ Ho). wp_step. apply wp_on_env. cbn [env_write StoreEnv].
  unfold wp at 1. cbn [negb]. rewrite (co_len _ _ _ _ _ _ _ Ho), (proj2 (Nat.eqb_neq (length got) 0)), (co_sent _ _ _ _ _ _ _ Ho) by lia.
  rewrite as_u32_id by (unfold is_u32; lia). cbn [orb].
  destruct (decide (sent + length got = length e)%nat) as [He|Hn].
  - rewrite (co_eof _ _ _ _ _ _ _ Ho He), (proj2 (Z.leb_le _ _)) by lia. cbn [andb orb]. apply wp_ret. cbn.
    split; [done|]. split; [done|]. split; [|exists x; split; [apply Ho|apply Ho]].
    rewrite Hsplit, He, drop_all, app_nil_r. by destruct (type_ascii (f_ses s)).
  - rewrite !(proj2 (Z.leb_gt _ _)) by lia. rewrite andb_false_r.
    assert (Hf' : (length e <= sent + length got + fuel * 2048)%nat) by lia.
    assert (Hs' : (sent + length got < length e)%nat) by lia.
    eapply wp_mono; [apply (IH (sent + length got)%nat); [exact Hx1|exact Hs'|exact Hk|exact Hf']|].
    intros [] s2 (E1 & E2 & E3 & E4). cbn in E1, E2, E3. split; [done|]. split; [done|]. split; [|done].
    rewrite E3, <- app_assoc. f_equal. rewrite Hsplit, conv_app. by destruct (type_ascii (f_ses s)).
Qed.

(** Closing a handle changes no transfer. *)
Lemma wp_close_xfer f (st : St) (Q : unit -> St -> Prop) :
  (forall st', FTP_XFER st' = FTP_XFER st -> Q tt st') -> wp (close_opt f) st Q.
Proof.
  intros H. destruct f as [c|]; cbn [close_opt]; [|wp_step; by apply H].
  wp_step. unfold close_or_poison. wp_step. apply wp_fsop_any. intros r fs. destruct (is_ok r); repeat wp_step; by apply H.
Qed.

(** Nothing to send: an empty file, or a restart past its end. *)
Lemma retr_nothing k d rest fuel (s : Ftp W) : drop (Z.to_nat rest) d = [] ->
  xfer_at k d rest 0 (w_store (f_env s)) -> slot (f_ses s) = Z.of_nat k ->
  wp (retr_loop (S fuel) 0 rest) s (fun _ s' =>
    f_ses s' = f_ses s /\ f_out s' = f_out s /\ w_data (f_env s') = w_data (f_env s) /\
    exists x, FTP_XFER (w_store (f_env s')) !! k = Some x /\ x_err x = false).
Proof.
  intros He [[Hlk Hl] _ (ch & cl & eof & Hx & Hch & Hcl)] Hk. rewrite He in Hx. specialize (Hcl eq_refl) as ->.
  cbn [retr_loop]. unfold ses_get. do 4 wp_step. rewrite Hk. wp_step. apply wp_rpc.
  cbn [handle_cmd]. wp_step. unfold ftp_read_chunk. rewrite slot_min_id by done. wp_step.
  eapply wp_xfer; [exact Hx|]. cbn [x_open negb x_size x_sent length]. change (Z.of_nat 0 <=? Z.of_nat 0) with true. cbv iota.
  wp_step. eapply wp_drop_dl; [exact Hx|]. cbn [dl]. wp_step. apply wp_close_xfer. intros st1 E1. wp_step.
  cbn [FTP_XFER set_ftp_xfer] in E1.
  eapply wp_xfer; [rewrite E1; by rewrite list_lookup_insert_eq by lia|]. apply wp_put_xfer.
  unfold bump. apply wp_modify. cbn [negb]. wp_step. apply wp_env_get. st_cbn.
  cbn [env_xfer StoreEnv f_env with_store set_store w_store FTP_XFER set_ftp_xfer set_rpc_seq].
  rewrite Nat2Z.id, E1, list_lookup_insert_eq by (rewrite length_insert; lia). cbn [default id x_chunk_len x_eof x_sent with_dl Nat.ltb Nat.leb].
  wp_step. wp_step. cbn. apply wp_ret. split; [done|]. split; [done|]. split; [done|].
  eexists. rewrite list_lookup_insert_eq by (rewrite ?E1, !length_insert; lia). by split.
Qed.

Lemma xfer_at_ext k d rest sent (st st' : St) : s_fs st' = s_fs st -> FTP_XFER st' = FTP_XFER st ->
  xfer_at k d rest sent st -> xfer_at k d rest sent st'.
Proof. intros E1 E2 [H1 H2 H3]. split; by rewrite ?E1, ?E2. Qed.

(** The whole loop. *)
Lemma retr_all k d rest fuel (s : Ftp W) : let e := drop (Z.to_nat rest) d in
  is_u32 (Z.of_nat (length d)) -> 0 <= rest -> xfer_at k d rest 0 (w_store (f_env s)) ->
  slot (f_ses s) = Z.of_nat k -> (length d < fuel * 2048)%nat ->
  wp (retr_loop fuel (Z.of_nat (length e)) rest) s (fun _ s' =>
    f_ses s' = f_ses s /\ f_out s' = f_out s /\ w_data (f_env s') = w_data (f_env s) ++ conv (type_ascii (f_ses s)) e /\
    exists x, FTP_XFER (w_store (f_env s')) !! k = Some x /\ x_err x = false).
Proof.
  intros e Hu Hr Hx Hk Hf. assert (Hle : (length e <= length d)%nat) by (unfold e; len).
  destruct (decide (e = [])) as [He|He].
  - destruct fuel as [|fuel]; [lia|]. rewrite He. eapply wp_mono; [by apply (retr_nothing k d)|].
    intros [] s' (E1 & E2 & E3 & E4). split; [done|]. split; [done|]. split; [|done]. rewrite E3.
    destruct (type_ascii (f_ses s)); by rewrite app_nil_r.
  - assert (0 < length e)%nat by (by destruct e; cbn; [|lia]).
    eapply wp_mono; [apply (retr_loop_ok k d rest fuel Hu Hr 0); [done|done|done|fold e; lia]|]. done.
Qed.

(** ** Properties *)

(** The command up to the answer of the storage task. *)
Lemma retr_opened collect arg fp k fuel (s : Ftp W) st (Q : unit -> Ftp W -> Prop)
    (Ha : authed (f_ses s) = true) (Hk : slot (f_ses s) = Z.of_nat k)
    (Hn : norm_path collect (cwd (f_ses s)) arg = Some fp)
    (Hsync : hist_sync (w_store (f_env s)) = Some (tt, st)) :
  let rest := f_rest (f_ses s) in
  wp (ftp_open_read (Z.of_nat k) (ftp_path_bytes fp) rest) st (fun ok st1 => exists x, FTP_XFER st1 !! k = Some x /\
    let s1 := mkFtp (set_rest 0 (f_ses s)) (f_out s) (set_store (set_rpc_seq (as_u32 (RPC_SEQ st1 + 1)) (set_ftp_res (ok, false, x_size x) st1)) (f_env s)) in
    wp (if negb ok || negb (x_open x) then send_line (bs "550 Failed to open file") else
        send_line (bs "150 Opening data connection") ;;
        d ← open_data;
        if negb d then on_env (env_send (FtpCloseWrite (Z.of_nat k))) ;; send_line (bs "425 No data connection") else
        retr_loop fuel (x_size x) rest ;;
        x ← env_get (env_xfer (Z.to_nat (Z.of_nat k)));
        on_env env_close ;;
        if x_err x then send_line (bs "426 Transfer aborted: read error") else send_line (bs "226 Transfer complete")) s1 Q) ->
  wp (cmd_retr collect fuel arg) s Q.
Proof.
  intros rest H. unfold cmd_retr, ses_get, ses_set. do 2 wp_step. rewrite Ha. cbn [negb]. wp_step. apply (wp_path _ _ fp); [done|].
  do 4 wp_step. rewrite Hk. wp_step. unfold rpc_res. wp_step. apply wp_rpc. cbn [handle_cmd]. wp_step.
  apply (wp_intro _ _ tt st); [done|]. wp_step. eapply wp_mono; [exact H|]. intros ok st1 (x & Ex & Hw).
  wp_step. rewrite Nat2Z.id. eapply wp_xfer; [exact Ex|].
  wp_step. apply wp_modify. unfold bump. apply wp_modify. apply wp_env_get. wp_step. apply wp_env_get. cbn [env_xfer StoreEnv].
  wp_step. apply wp_modify. cbn [env_res StoreEnv f_env with_store set_store w_store FTP_RES FTP_XFER set_ftp_res set_rpc_seq].
  rewrite ?Nat2Z.id, Ex. cbn [fst snd default id]. rewrite ?Nat2Z.id in *. exact Hw.
Qed.

(** C23: A download delivers the file.  A logged-in session that can open its data
    connection asks for the file that its path names, in the state that the sync of
    the history leaves.  Up to the largest position littlefs can seek to, the data
    connection gets exactly the bytes of the file from the restart position on,
    converted when the type is ASCII, whatever the length (an empty file and a restart
    past the end included), and the client reads 150 and 226; a restart position beyond
    that is answered 550 and nothing is sent.  The restart position is used up. *)
Theorem ftp_retr_delivers collect arg fp p d k fuel (s : Ftp W) st
    (Ha : authed (f_ses s) = true) (Hk : slot (f_ses s) = Z.of_nat k) (Hc : can_connect (f_ses s))
    (Hrest : is_u32 (f_rest (f_ses s)))
    (Hn : norm_path collect (cwd (f_ses s)) arg = Some fp) (Hp : ftp_path_of (FS := FS) (ftp_path_bytes fp) = Some p)
    (Hsync : hist_sync (w_store (f_env s)) = Some (tt, st)) (Hi : idle_slot k st)
    (Hd : file_at (s_fs st) p = Some d) (Hu : is_u32 (Z.of_nat (length d)))
    (Hf : (length d < fuel * 2048)%nat) :
  exists s', cmd_retr collect fuel arg s = Some (tt, s') /\ f_rest (f_ses s') = 0 /\
    if f_rest (f_ses s) <=? LFS_FILE_MAX then
      w_data (f_env s') = w_data (f_env s) ++ conv (type_ascii (f_ses s)) (drop (Z.to_nat (f_rest (f_ses s))) d) /\
      f_out s' = f_out s ++ [bs "150 Opening data connection" ++ [13; 10]; bs "226 Transfer complete" ++ [13; 10]]
    else w_data (f_env s') = w_data (f_env s) /\ f_out s' = f_out s ++ [bs "550 Failed to open file" ++ [13; 10]].
Proof.
  set (rest := f_rest (f_ses s)) in *. unfold is_u32 in Hrest.
  destruct (Z.leb_spec rest LFS_FILE_MAX) as [Hle|Hgt]; match goal with |- exists s', _ /\ ?P =>
    cut (wp (cmd_retr collect fuel arg) s (fun _ s' => P)); [intros H; apply wp_elim in H as ([] & s' & E & H); by exists s'|] end.
  - eapply (retr_opened collect arg fp k); [done..|].
    eapply wp_mono; [apply (open_read_ok k _ p d rest); [done..|lia]|]. intros ok st1 [-> Hx].
    pose proof Hx as [[Hlk Hl] _ (ch & cl & eof & Ex & _)]. eexists. split; [exact Ex|]. cbn [x_open x_size negb orb].
    wp_step. apply wp_send_line. wp_step. apply wp_open_data; [exact Hc|]. cbn [negb]. fold rest. wp_step.
    eapply wp_mono; [apply (retr_all k d rest fuel); [done|lia| |exact Hk|done]|].
    + eapply xfer_at_ext; [| |exact Hx]; reflexivity.
    + intros [] s2 (E1 & E2 & E3 & x2 & E4 & E5). wp_step. apply wp_env_get. cbn [env_xfer StoreEnv]. rewrite ?Nat2Z.id, E4.
      cbn [default id]. wp_step. apply wp_on_env. apply wp_ret. rewrite E5. apply wp_send_line. cbn.
      split; [by rewrite E1|]. split; [by rewrite E3|]. rewrite E2. cbn. by rewrite <- app_assoc.
  - eapply (retr_opened collect arg fp k); [done..|].
    eapply wp_mono; [apply (open_read_far k _ p d rest); [done..|lia]|]. intros ok st1 [-> [x Ex]].
    exists x. split; [exact Ex|]. cbn [negb orb]. by apply wp_send_line.
Qed.

(** ** Rights *)

Context `{!LfsFrame FS}.
Abbreviation keep c := (keeps (fun st : St => contents (s_fs st) = c)).

Lemma keep_fsop {A} c (f : FS -> A * FS) : (forall fs, contents (f fs).2 = contents fs) -> keep c (fsop f).
Proof. intros Hf st <-. unfold fsop. specialize (Hf (s_fs st)). by destruct (f (s_fs st)). Qed.
Lemma keep_modify c (f : St -> St) : (forall st, s_fs (f st) = s_fs st) -> keep c (modify f).
Proof. intros Hf. apply keeps_modify. intros st <-. by rewrite Hf. Qed.

Ltac walk := keeps_with ltac:(first [
  apply keep_modify; intros []; reflexivity
| apply keep_fsop; first [apply metadata_frame|apply read_dir_frame|apply open_frame|apply len_frame|apply read_frame|apply seek_frame|apply sync_frame|apply close_frame]
| progress unfold get_xfer, put_xfer, take_dl, take_wr, close_opt, close_or_poison, bump, take_open_file, put_open_file, slot_close_all; cbv zeta ]).

Lemma sync_reads c : keep c hist_sync.
Proof. unfold hist_sync. walk. Qed.
Lemma stat_reads c p : keep c (ftp_stat p).
Proof. unfold ftp_stat. walk. Qed.
Lemma ls_reads c p : keep c (ftp_ls p).
Proof. unfold ftp_ls. walk. Qed.
Lemma open_reads_only c k p rest : keep c (ftp_open_read k p rest).
Proof. unfold ftp_open_read. walk. Qed.
Lemma chunk_reads c k : keep c (ftp_read_chunk k).
Proof. unfold ftp_read_chunk. cbv zeta. walk. Qed.
Lemma close_reads c k : keep c (ftp_close_write k).
Proof. unfold ftp_close_write, ftp_close_write_quiet. walk. Qed.

Lemma read_cmd_reads c m up t : read_cmd c -> keep m (handle_cmd up t c).
Proof.
  destruct c; try done; intros _; cbn [handle_cmd];
    repeat (apply keeps_bind; [|intros ?]); auto using sync_reads, stat_reads, ls_reads, open_reads_only, chunk_reads, close_reads; walk.
Qed.

Definition w_contents (w : W) : gmap (list Z) (list Z) := contents (s_fs (w_store w)).

Lemma on_store_keeps {A} m (n : M St A) : keep m n -> keeps (fun w : W => w_contents w = m) (on_store n).
Proof. intros Hn w Hw. unfold on_store. specialize (Hn (w_store w) Hw). by destruct (n (w_store w)) as [[a st]|]. Qed.

Lemma store_survives m : survives (fun w : W => w_contents w = m).
Proof.
  split; try (by intros; intros w Hw); intros; cbn [env_rpc env_send StoreEnv].
  - apply keeps_bind; [by apply on_store_keeps, read_cmd_reads|intros ?; apply keeps_ret].
  - by apply on_store_keeps, read_cmd_reads.
Qed.

(** C15: Only a session with rights changes the files.  Over any command lines, from a
    session without rights: the files are at the end what they were at the start, or
    some prefix of the lines has given the session its rights, and up to there they
    had not changed either. *)
Theorem ftp_changes_need_rights collect fuel ls (s s' : Ftp W)
    (Hs : privileged (f_ses s) = false) (Hrun : run_lines collect fuel ls s = Some (tt, s')) :
  w_contents (f_env s') = w_contents (f_env s) \/
  exists l1 l2 s1, ls = l1 ++ l2 /\ run_lines collect fuel l1 s = Some (tt, s1) /\ privileged (f_ses s1) = true /\
    w_contents (f_env s1) = w_contents (f_env s).
Proof. exact (lines_harmless collect w_contents store_survives fuel ls s s' Hs Hrun). Qed.
End Server.

(** ** At work over the file system in memory *)

Lemma ram_with_frame {A} c (k : list Z -> nat -> A * option nat) f : rf_files (rf_with c k f).2 = rf_files f.
Proof.
  unfold rf_with. destruct (rf_handle c (rf_open f)) as [[p [app pos]]|] eqn:E; [|done]. destruct (k _ pos) as [a [q|]]; [|done].
  unfold rf_set_pos. cbn. by rewrite E.
Qed.

#[export] Program Instance RamFrame : LfsFrame RamFs := {| contents := rf_files |}.
Next Obligation. done. Qed.
Next Obligation. done. Qed.
Next Obligation.
  intros c p f. cbn. unfold rf_opened, rf_data. cbn. rewrite andb_true_r.
  destruct (rf_files f !! rf_key p) as [d|] eqn:E; cbn; [by apply insert_id|done].
Qed.
Next Obligation. intros. apply ram_with_frame. Qed.
Next Obligation. intros. apply ram_with_frame. Qed.
Next Obligation. intros c q fs. cbn. case_match; [done|]. apply ram_with_frame. Qed.
Next Obligation. intros. apply ram_with_frame. Qed.
Next Obligation. intros c f. cbn. by destruct (rf_handle c (rf_open f)). Qed.

(** A client, logged in as [anon] says, in passive mode. *)
Definition client0 (anonymous : bool) : Ftp (World RamFs NorImage) :=
  mkFtp (mkSession true anonymous [47] true 100 (replicate 96 0) false None 40001 0 false) [] (mkWorld files0 [] [bs "new"] 0 [192; 168; 12; 101] 1785240000).

Lemma ftp_retr_delivers_witness : exists s',
  cmd_retr collect_or_panic 3 (bs "data_07281530_12.raw") (client0 false) = Some (tt, s') /\ f_rest (f_ses s') = 0 /\
  w_data (f_env s') = w_data (f_env (client0 false)) ++ conv true (drop (Z.to_nat 100) file0) /\
  f_out s' = f_out (client0 false) ++ [bs "150 Opening data connection" ++ [13; 10]; bs "226 Transfer complete" ++ [13; 10]].
Proof.
  apply (ftp_retr_delivers collect_or_panic _ (bs "/data_07281530_12.raw") (bs "/data_07281530_12.raw") file0 0 3 (client0 false) files0);
    try reflexivity.
  - by right.
  - vm_compute. split; [discriminate|reflexivity].
  - split; [lia|]. split; [reflexivity|]. split; [reflexivity|]. exists FtpXfer_init. repeat split.
  - vm_compute. split; [discriminate|reflexivity].
  - change (length file0) with 5000%nat. lia.
Defined.

Lemma ftp_changes_need_rights_witness :
  let ls := [bs "DELE data_07281530_12.raw"; bs "STOR x"; bs "RNFR data_07281530_12.raw"; bs "RNTO x"; bs "RMD y"] in
  exists s', run_lines collect_or_panic 3 ls (client0 true) = Some (tt, s') /\
    (w_contents (f_env s') = w_contents (f_env (client0 true)) \/
     exists l1 l2 s1, ls = l1 ++ l2 /\ run_lines collect_or_panic 3 l1 (client0 true) = Some (tt, s1) /\ privileged (f_ses s1) = true /\
       w_contents (f_env s1) = w_contents (f_env (client0 true))).
Proof.
  intros ls. destruct (run_lines collect_or_panic 3 ls (client0 true)) as [[[] s']|] eqn:E; [|vm_compute in E; discriminate].
  exists s'. split; [done|]. exact (ftp_changes_need_rights collect_or_panic 3 ls (client0 true) s' eq_refl E).
Defined.

(** The password of anyone who was once anonymous. *)
Lemma ftp_rights_witness : exists s',
  handle_command collect_or_panic 3 (bs "user z") (client0 true) = Some (tt, s') /\
  (privileged (f_ses s') = true <-> grants (bs "USER") (bs "z") (f_ses (client0 true))).
Proof.
  destruct (handle_command collect_or_panic 3 (bs "user z") (client0 true)) as [[[] s']|] eqn:E; [|vm_compute in E; discriminate].
  exists s'. split; [done|]. exact (ftp_rights collect_or_panic 3 (bs "user z") (client0 true) s' eq_refl E).
Defined.

(** Anonymous users can then overwrite files. *)
Lemma ftp_anonymous_overwrites : exists s',
  run_lines collect_or_panic 3 [bs "USER anonymous"; bs "PASS x"; bs "USER y"; bs "EPSV"; bs "STOR data_07281530_12.raw"]
    (mkFtp (Session_new 0) [] (f_env (client0 true))) = Some (tt, s') /\
  w_contents (f_env s') !! bs "data_07281530_12.raw" = Some (bs "new").
Proof. eexists. split; vm_compute; reflexivity. Qed.
