(* ===== verification/FtpUpload.v ===== *)
(** * Uploads over FTP

    An upload stores what was sent, in each of the three modes: from the start, from
    a restart position, at the end of the file. *)
From stdpp Require Import gmap.
From S2P Require Import Prelude Text TimeMath RegMap ConfigStore StorageCfg UdpCfg History Channels LfsNor StMonad Storage.
From S2P Require Import NorSpec RamFs StorageFiles Web FtpArgs FtpPaths Ftpd FtpSafe FtpFiles.
#[local] Open Scope Z_scope.

(** Bytes written at a position of a file; a gap is filled with zeros. *)
Definition splice (pos : nat) (l d : list Z) : list Z := take pos d ++ replicate (pos - length d) 0 ++ l ++ drop (pos + length l) d.

Lemma splice_length pos l d : length (splice pos l d) = Nat.max (pos + length l) (length d).
Proof. unfold splice. rewrite !length_app, length_take, length_replicate, length_drop. lia. Qed.

Lemma splice_end l d : splice (length d) l d = d ++ l.
Proof. unfold splice. rewrite firstn_all, Nat.sub_diag, drop_ge by lia. cbn. by rewrite app_nil_r. Qed.

(** What is before the bytes written, and what is after. *)
Lemma splice_head pos l d : splice pos l d = ((take pos d ++ replicate (pos - length d) 0) ++ l) ++ drop (pos + length l) d.
Proof. unfold splice. by rewrite <- !app_assoc. Qed.

Lemma head_length (pos : nat) (d : list Z) : length (take pos d ++ replicate (pos - length d) 0) = pos.
Proof. rewrite length_app, length_take, length_replicate. lia. Qed.

Lemma splice_splice pos a b d : splice (pos + length a) b (splice pos a d) = splice pos (a ++ b) d.
Proof.
  set (h := take pos d ++ replicate (pos - length d) 0).
  assert (Hh : length (h ++ a) = (pos + length a)%nat) by (rewrite length_app; unfold h; by rewrite head_length).
  rewrite (splice_head (pos + length a)), splice_length. rewrite (splice_head pos a d) at 1 2. fold h.
  rewrite take_app_length' by done. rewrite drop_app_ge by lia. rewrite drop_drop, Hh.
  replace (pos + length a - Nat.max (pos + length a) (length d))%nat with 0%nat by lia. cbn [replicate]. rewrite app_nil_r.
  rewrite (splice_head pos (a ++ b)), length_app. fold h. rewrite <- !app_assoc. do 4 f_equal. lia.
Qed.

(** The operations of littlefs on a file that is open for writing: its path, whether
    it appends, its contents, the position.  [capacity] is the size that the file at a
    path can be given with the blocks that are free, zeros in a gap included;
    [creatable] holds for the names that a file can have.  A position is at most
    [LFS_FILE_MAX], and so is a size. *)
Class LfsWrites (FS : Type) `{!Lfs FS, !LfsReads FS} := {
  capacity : FS -> list Z -> Z;
  creatable : FS -> list Z -> Prop;
  writing : FS -> Cell -> option (list Z * bool * list Z * nat);
  capacity_max fs p : capacity fs p <= LFS_FILE_MAX;
  open_writes fs c p app trunc : creatable fs p ->
    exists fs' pos, lfs_open (mkOpen false true true app trunc) c p fs = (Ok tt, fs') /\ capacity fs' p = capacity fs p /\
      writing fs' c = Some (p, app, if trunc : bool then [] else default [] (file_at fs p), pos) /\ (app = false -> pos = 0%nat);
  seek_end_writes fs c p app d pos : writing fs c = Some (p, app, d, pos) -> Z.of_nat (length d) <= capacity fs p ->
    exists fs', lfs_seek_end c fs = (Ok (Z.of_nat (length d)), fs') /\ capacity fs' p = capacity fs p /\ writing fs' c = Some (p, app, d, length d);
  seek_start_writes fs c p app d pos q : writing fs c = Some (p, app, d, pos) -> Z.of_nat (length d) <= capacity fs p ->
    0 <= q <= LFS_FILE_MAX ->
    exists fs', lfs_seek_start c q fs = (Ok q, fs') /\ capacity fs' p = capacity fs p /\ writing fs' c = Some (p, app, d, Z.to_nat q);
  seek_far_writes fs c p app d pos q : writing fs c = Some (p, app, d, pos) -> LFS_FILE_MAX < q < 4294967296 ->
    exists fs', lfs_seek_start c q fs = (Err, fs') /\ capacity fs' p = capacity fs p /\ writing fs' c = Some (p, app, d, pos);
  write_writes fs c p app d pos l : writing fs c = Some (p, app, d, pos) -> l <> [] ->
    let at_ := if app : bool then length d else pos in
    Z.of_nat (length (splice at_ l d)) <= capacity fs p ->
    exists fs', lfs_write c l fs = (Ok (length l), fs') /\ capacity fs' p = capacity fs p /\
      writing fs' c = Some (p, app, splice at_ l d, (at_ + length l)%nat);
  close_writes fs c p app d pos : writing fs c = Some (p, app, d, pos) -> Z.of_nat (length d) <= capacity fs p ->
    exists fs', lfs_close c fs = (Ok tt, fs') /\ file_at fs' p = Some d
}.

Section Upload.
Context {FS F : Type} `{!Lfs FS, !Flash F, !LfsReads FS, !LfsWrites FS}.
Abbreviation W := (World FS F).
Abbreviation St := (Store FS F).

(** What is stored, of the reads of the data connection. *)
Fixpoint stored (ascii pending : bool) (bufs : list (list Z)) : list Z :=
  match bufs with
  | [] => []
  | b :: bufs => let '(p, out) := if ascii then ascii_in pending b else (pending, b) in out ++ stored ascii p bufs
  end.

Lemma stored_binary pending bufs : stored false pending bufs = concat bufs.
Proof. induction bufs as [|b bufs IH]; [done|]. cbn. by rewrite IH. Qed.

(** The slot [k] is uploading to [p]: [d] is there, the next byte goes to [pos]. *)
Record upload_at (k : nat) (p : list Z) (d : list Z) (pos : nat) (st : St) : Prop := {
  up_k : (k < 3)%nat /\ length (FTP_XFER st) = 3%nat;
  up_write : exists app q, writing (s_fs st) (FTP_ALLOC k) = Some (p, app, d, q) /\ pos = (if app : bool then length d else q);
  up_x : exists ch, FTP_XFER st !! k = Some (mkFtpXfer None (Some (FTP_ALLOC k)) 0 0 ch 0 false false false false 0) /\ length ch = 2048%nat
}.

Lemma upload_ext k p d pos (st st' : St) : s_fs st' = s_fs st -> FTP_XFER st' = FTP_XFER st ->
  upload_at k p d pos st -> upload_at k p d pos st'.
Proof. intros E1 E2 [H1 H2 H3]. split; by rewrite ?E1, ?E2. Qed.

(** Where an upload begins. *)
Definition start_of (mode : FtpWrMode) (old : option (list Z)) : list Z * nat :=
  match mode with
  | Append => (default [] old, length (default [] old))
  | Trunc => ([], 0%nat)
  | Rest q => (default [] old, Z.to_nat q)
  end.

Lemma open_write_ok k path p mode (st : St) : idle_slot k st -> ftp_path_of (FS := FS) path = Some p ->
  creatable (s_fs st) p -> Z.of_nat (length (start_of mode (file_at (s_fs st) p)).1) <= capacity (s_fs st) p ->
  (forall q, mode = Rest q -> 0 <= q <= LFS_FILE_MAX) ->
  wp (ftp_open_write (Z.of_nat k) path mode) st (fun _ st' =>
    FTP_RES st' = (true, false, 0) /\ capacity (s_fs st') p = capacity (s_fs st) p /\
    upload_at k p (start_of mode (file_at (s_fs st) p)).1 (start_of mode (file_at (s_fs st) p)).2 st').
Proof.
  intros Hi Hp Hc Hroom Hq. unfold ftp_open_write. wp_step. apply wp_close_idle; [done|]. intros st1 ch Hch Hk Hl Hb Hfs Hx.
  rewrite slot_min_id by done. cbv zeta. wp_step. wp_step. rewrite Hb, Hp. rewrite <- Hfs in *.
  set (old := file_at (s_fs st1) p) in *.
  assert (Hend : forall st2 : St, FTP_XFER st2 = FTP_XFER st1 -> capacity (s_fs st2) p = capacity (s_fs st1) p ->
    (exists app q, writing (s_fs st2) (FTP_ALLOC k) = Some (p, app, (start_of mode old).1, q) /\
       (start_of mode old).2 = (if app : bool then length (start_of mode old).1 else q)) ->
    wp (x ← get_xfer k; put_xfer k (with_wr (Some (FTP_ALLOC k)) x) ;; mret true) st2
      (fun ok st3 => wp (modify (set_ftp_res (ok, false, 0))) st3 (fun _ st' => FTP_RES st' = (true, false, 0) /\
        capacity (s_fs st') p = capacity (s_fs st1) p /\ upload_at k p (start_of mode old).1 (start_of mode old).2 st'))).
  { intros st2 Ex Er Hw. wp_step. eapply wp_xfer; [by rewrite Ex|]. wp_step. apply wp_put_xfer. wp_step. wp_step.
    split; [done|]. split; [done|]. split; cbn [FTP_XFER set_ftp_xfer set_ftp_res s_fs];
      [by rewrite Ex, length_insert|done|]. rewrite Ex, list_lookup_insert_eq by lia. by exists ch. }
  destruct mode as [| |q].
  - destruct (open_writes (s_fs st1) (FTP_ALLOC k) p false true Hc) as (fs & q & E & Er & Ew & Hz).
    wp_step. eapply wp_fsop; [exact E|]. do 3 wp_step. apply Hend; [done|done|]. exists false, q. split; [exact Ew|]. by rewrite Hz.
  - destruct (open_writes (s_fs st1) (FTP_ALLOC k) p true false Hc) as (fs & q & E & Er & Ew & _).
    destruct (seek_end_writes fs _ _ _ _ _ Ew) as (fs2 & E2 & Er2 & Ew2); [by rewrite Er|].
    wp_step. eapply wp_fsop; [exact E|]. do 2 wp_step. wp_step. eapply wp_fsop; [exact E2|]. wp_step.
    apply Hend; [done|cbn; congruence|]. by exists true, (length (default [] old)).
  - destruct (open_writes (s_fs st1) (FTP_ALLOC k) p false false Hc) as (fs & q0 & E & Er & Ew & _).
    destruct (seek_start_writes fs _ _ _ _ _ q Ew) as (fs2 & E2 & Er2 & Ew2); [by rewrite Er|by apply Hq|].
    wp_step. eapply wp_fsop; [exact E|]. do 2 wp_step. wp_step. eapply wp_fsop; [exact E2|]. wp_step.
    apply Hend; [done|cbn; congruence|]. by exists false, (Z.to_nat q).
Qed.

(** A restart position that littlefs cannot seek to: the file is opened - created, if
    there was none - and closed again. *)
Lemma open_write_far k path p q (st : St) : idle_slot k st -> ftp_path_of (FS := FS) path = Some p ->
  creatable (s_fs st) p -> Z.of_nat (length (default [] (file_at (s_fs st) p))) <= capacity (s_fs st) p ->
  LFS_FILE_MAX < q < 4294967296 ->
  wp (ftp_open_write (Z.of_nat k) path (Rest q)) st (fun _ st' =>
    FTP_RES st' = (false, false, 0) /\ file_at (s_fs st') p = Some (default [] (file_at (s_fs st) p))).
Proof.
  intros Hi Hp Hc Hroom Hq. unfold ftp_open_write. wp_step. apply wp_close_idle; [done|]. intros st1 ch Hch Hk Hl Hb Hfs Hx.
  rewrite slot_min_id by done. cbv zeta. wp_step. wp_step. rewrite Hb, Hp. rewrite <- Hfs in *.
  destruct (open_writes (s_fs st1) (FTP_ALLOC k) p false false Hc) as (fs & q0 & E & Er & Ew & _).
  destruct (seek_far_writes fs _ _ _ _ _ q Ew Hq) as (fs2 & E2 & Er2 & Ew2).
  destruct (close_writes fs2 _ _ _ _ _ Ew2) as (fs3 & E3 & Hd); [by rewrite Er2, Er|].
  wp_step. eapply wp_fsop; [exact E|]. do 2 wp_step. wp_step. eapply wp_fsop; [exact E2|]. wp_step. cbn [is_ok]. wp_step.
  unfold close_or_poison. wp_step. eapply wp_fsop; [exact E3|]. cbn [is_ok]. repeat wp_step. by split.
Qed.

(** ** One chunk *)

Lemma drop_cr_length l : (length (drop_cr l) <= length l)%nat.
Proof. induction l as [|b l IH]; [done|]. cbn [drop_cr]. destruct (_ && _); cbn [length]; lia. Qed.

Lemma ascii_in_length pending buf : (length (ascii_in pending buf).2 <= length buf)%nat.
Proof.
  unfold ascii_in. set (body := if pending && _ then drop 1 buf else buf).
  assert (H : (length (drop_cr body) <= length buf)%nat).
  { pose proof (drop_cr_length body). assert (length body <= length buf)%nat; [|lia]. unfold body. destruct (_ && _); [|done]. len. }
  clearbody body. destruct (buf !! _) as [b|]; [|exact H]. destruct (_ && _); [|exact H]. cbn [snd].
  destruct (drop_cr body) as [|x l] using rev_ind; [done|]. rewrite removelast_last. rewrite length_app in H. cbn in H. lia.
Qed.

Lemma wp_drop_wr k x (st : St) (Q : option Cell -> St -> Prop) : FTP_XFER st !! k = Some x ->
  Q (wr x) (set_ftp_xfer (<[k := with_wr None x]> (FTP_XFER st)) st) -> wp (take_wr k) st Q.
Proof. intros E H. unfold take_wr. wp_step. eapply wp_xfer; [exact E|]. wp_step. apply wp_put_xfer. by apply wp_ret. Qed.

Lemma write_next k p d pos l (st : St) (Q : unit -> St -> Prop) :
  upload_at k p d pos st -> l <> [] -> (length l <= 512)%nat -> Z.of_nat (length (splice pos l d)) <= capacity (s_fs st) p ->
  (forall st', capacity (s_fs st') p = capacity (s_fs st) p -> upload_at k p (splice pos l d) (pos + length l) st' -> Q tt st') ->
  wp (x ← get_xfer k;
      put_xfer k (mkFtpXfer (dl x) (wr x) (x_size x) (x_sent x) (list_inserts 0 l (x_chunk x)) (x_chunk_len x) (x_eof x) (x_err x)
        (x_werr x) (x_open x) (wpos x))) st (fun _ st1 => wp (handle_cmd false 0 (FtpWriteChunk (Z.of_nat k) (length l))) st1 Q).
Proof.
  intros [[Hk Hl] (app & q & Hw & Hpos) (ch & Hx & Hch)] Hne Hlen Hroom HQ.
  wp_step. eapply wp_xfer; [exact Hx|]. apply wp_put_xfer. st_cbn. cbn [handle_cmd]. wp_step. unfold ftp_write_chunk.
  rewrite slot_min_id by done. cbv zeta. wp_step. eapply wp_xfer; [slot_lookup|]. wp_step. apply wp_put_xfer. st_cbn.
  rewrite (Nat.min_l _ _ Hlen), list_inserts_split by (cbn -[Nat.add]; lia). rewrite take_0, app_nil_l, take_app_length.
  wp_step. destruct (write_writes (s_fs st) (FTP_ALLOC k) p app d q l Hw Hne) as (fs & E & Er & Ew); [by rewrite <- Hpos|]. rewrite <- Hpos in Ew.
  wp_step. eapply wp_fsop; [exact E|]. wp_step. wp_step. eapply wp_xfer; [slot_lookup|]. apply wp_put_xfer. unfold bump. apply wp_modify.
  rewrite Nat.eqb_refl. apply HQ; [exact Er|]. split.
  - st_cbn. by rewrite !length_insert.
  - exists app, (pos + length l)%nat. split; [exact Ew|]. destruct app; [|done]. rewrite splice_length. subst pos. lia.
  - eexists. st_cbn. rewrite list_lookup_insert_eq by (rewrite !length_insert; lia). split; [reflexivity|].
    cbn [Nat.add]. rewrite length_app, length_drop. lia.
Qed.

(** ** The whole upload *)

(** Nothing sent is nothing written, not even zeros in a gap. *)
Definition written (pos : nat) (l d : list Z) : list Z := if decide (l = []) then d else splice pos l d.

Lemma written_app pos a b d : a <> [] -> written (pos + length a) b (splice pos a d) = written pos (a ++ b) d.
Proof.
  intros Ha. unfold written. rewrite (decide_False (P := a ++ b = [])) by (by destruct a).
  case_decide as E; [by rewrite E, app_nil_r|apply splice_splice].
Qed.

(** A file grows on the way. *)
Lemma written_grows pos a b d : a <> [] -> (length (splice pos a d) <= length (written pos (a ++ b) d))%nat.
Proof.
  intros Ha. rewrite <- written_app by done. unfold written. case_decide; [done|]. rewrite (splice_length (pos + length a)). lia.
Qed.

Definition set_up (bufs : list (list Z)) (w : W) : W := mkWorld (w_store w) (w_data w) bufs (w_next w) (w_ip w) (w_time w).

Lemma stor_loop_ok k p bufs : forall fuel pending d pos (s : Ftp W),
  upload_at k p d pos (w_store (f_env s)) -> w_up (f_env s) = bufs -> Forall (fun b => length b <= 512)%nat bufs ->
  Z.of_nat (length (written pos (stored (type_ascii (f_ses s)) pending bufs) d)) <= capacity (s_fs (w_store (f_env s))) p ->
  (length bufs < fuel)%nat -> slot (f_ses s) = Z.of_nat k ->
  wp (stor_loop fuel pending) s (fun err s' => err = false /\ f_ses s' = f_ses s /\ f_out s' = f_out s /\
    capacity (s_fs (w_store (f_env s'))) p = capacity (s_fs (w_store (f_env s))) p /\
    exists pos', upload_at k p (written pos (stored (type_ascii (f_ses s)) pending bufs) d) pos' (w_store (f_env s'))).
Proof.
  induction bufs as [|b bufs IH]; intros fuel pending d pos s Hu Hb Hl Hroom Hf Hk; (destruct fuel as [|fuel]; [cbn in Hf; lia|]);
    cbn [stor_loop]; unfold ses_get; do 4 wp_step; rewrite Hk; wp_step; apply wp_on_env; cbn [env_read StoreEnv]; unfold wp at 1; rewrite Hb.
  - apply wp_ret. do 4 (split; [done|]). by exists pos.
  - apply list.Forall_cons in Hl as [Hl0 Hl]. cbn [length] in Hf. cbn [stored] in *.
    set (ascii := type_ascii (f_ses s)) in *.
    destruct (if ascii then ascii_in pending b else (pending, b)) as [pd out] eqn:Eo.
    assert (Hout : (length out <= 512)%nat).
    { destruct ascii; [|by injection Eo as _ <-]. pose proof (ascii_in_length pending b) as H. rewrite Eo in H. cbn in H. lia. }
    destruct (decide (out = [])) as [->|Hne].
    { by apply (IH fuel pd d pos (mkFtp (f_ses s) (f_out s) (set_up bufs (f_env s)))); [|done| | |lia|]. }
    assert (Hz : (length out =? 0)%nat = false) by (by destruct out). rewrite Hz. pose proof (written_grows pos out (stored ascii pd bufs) d Hne) as Hg.
    wp_step. apply wp_on_env. cbn [env_put_chunk StoreEnv]. apply wp_on_store. rewrite Nat2Z.id. cbn [f_env set_up w_store].
    eapply wp_mono.
    { apply (write_next k p d pos out _ (fun _ st' => capacity (s_fs st') p = capacity (s_fs (w_store (f_env s))) p /\
        upload_at k p (splice pos out d) (pos + length out) st')); [done|done|done|lia|]. by split. }
    intros [] st1 H1. wp_step. apply wp_rpc. eapply wp_mono; [exact H1|]. intros [] st2 [Hr2 Hu2]. cbn [negb].
    pose proof Hu2 as [_ _ (ch & Hx & _)]. wp_step. apply wp_env_get. cbn [env_xfer StoreEnv]. rewrite ?Nat2Z.id.
    change (w_store (f_env (with_store st2 _))) with st2. rewrite Hx. cbn [default id x_werr].
    rewrite <- (written_app pos out) by done.
    eapply wp_mono; [apply (IH fuel pd (splice pos out d) (pos + length out)%nat); [exact Hu2|done|done| |lia|exact Hk]|].
    + change (w_store (f_env (with_store st2 _))) with st2. cbn [f_ses with_store]. fold ascii. by rewrite Hr2, written_app.
    + intros err s' (H2 & H3 & H4 & H5 & H6). do 3 (split; [done|]). split; [|exact H6].
      rewrite H5. exact Hr2.
Qed.

Lemma close_ok k p d pos (st : St) : upload_at k p d pos st -> Z.of_nat (length d) <= capacity (s_fs st) p ->
  wp (handle_cmd false 0 (FtpCloseWrite (Z.of_nat k))) st (fun _ st' => FTP_RES st' = (true, false, 0) /\ file_at (s_fs st') p = Some d).
Proof.
  intros [[Hk Hl] (app & q & Hw & _) (ch & Hx & Hch)] Hroom. cbn [handle_cmd]. wp_step. unfold ftp_close_write, ftp_close_write_quiet.
  rewrite slot_min_id by done. cbv zeta. do 2 wp_step. eapply wp_drop_wr; [exact Hx|]. st_cbn.
  destruct (close_writes (s_fs st) (FTP_ALLOC k) p app d q Hw Hroom) as (fs & E & Hd). unfold close_or_poison. wp_step.
  eapply wp_fsop; [exact E|]. cbn [is_ok]. repeat wp_step. eapply wp_xfer; [slot_lookup|]. unfold bump. by repeat wp_step.
Qed.

(** The mode that STOR and APPE open the file in. *)
Definition stor_mode (appe : bool) (rest : Z) : FtpWrMode := if appe then Append else if 0 <? rest then Rest rest else Trunc.

Lemma start_le mode old l : (length (start_of mode old).1 <= length (written (start_of mode old).2 l (start_of mode old).1))%nat.
Proof. unfold written. case_decide; [done|]. rewrite splice_length. lia. Qed.

(** C22: An upload stores what was sent.  A session with rights that can open its data
    connection names a file that can be created, and the file can be given the size it
    ends up with.  The reads of the data connection are cut as the network likes, each
    within the 512 bytes of the buffer.  At the end the file holds them: over the whole
    of the old contents (STOR), from the restart position on, with zeros in a gap (REST,
    STOR), or behind them (APPE); the client reads 150 and 226.  A restart position
    beyond the largest one littlefs can seek to is answered 550, and the file is as it
    was, or empty if there was none.  For the binary type what is stored is the
    concatenation of the reads ([stored_binary]). *)
Theorem ftp_stor_stores collect arg (appe : bool) fp p k fuel bufs old pos (s : Ftp W)
    (Hpr : privileged (f_ses s) = true) (Hk : slot (f_ses s) = Z.of_nat k) (Hc : can_connect (f_ses s))
    (Hrest : is_u32 (f_rest (f_ses s)))
    (Hn : norm_path collect (cwd (f_ses s)) arg = Some fp) (Hp : ftp_path_of (FS := FS) (ftp_path_bytes fp) = Some p)
    (Hi : idle_slot k (w_store (f_env s))) (Hcr : creatable (s_fs (w_store (f_env s))) p)
    (Hup : w_up (f_env s) = bufs) (Hlen : Forall (fun b => length b <= 512)%nat bufs) (Hf : (length bufs < fuel)%nat)
    (Hst : start_of (stor_mode appe (f_rest (f_ses s))) (file_at (s_fs (w_store (f_env s))) p) = (old, pos)) :
  let new := written pos (stored (type_ascii (f_ses s)) false bufs) old in
  let far := negb appe && (LFS_FILE_MAX <? f_rest (f_ses s)) in
  Z.of_nat (length (if far then old else new)) <= capacity (s_fs (w_store (f_env s))) p ->
  exists s', cmd_stor collect fuel arg appe s = Some (tt, s') /\
    file_at (s_fs (w_store (f_env s'))) p = Some (if far then old else new) /\
    f_out s' = f_out s ++ if far then [bs "550 Failed to open file" ++ [13; 10]]
                          else [bs "150 Ok to send data" ++ [13; 10]; bs "226 Transfer complete" ++ [13; 10]].
Proof.
  intros new far Hroom. cut (wp (cmd_stor collect fuel arg appe) s (fun _ s' =>
    file_at (s_fs (w_store (f_env s'))) p = Some (if far then old else new) /\
    f_out s' = f_out s ++ if far then [bs "550 Failed to open file" ++ [13; 10]]
                          else [bs "150 Ok to send data" ++ [13; 10]; bs "226 Transfer complete" ++ [13; 10]])).
  { intros H. apply wp_elim in H as ([] & s' & E & H). by exists s'. }
  set (rest := f_rest (f_ses s)) in *. unfold is_u32 in Hrest.
  unfold cmd_stor, ses_get, ses_set. do 2 wp_step. rewrite Hpr. cbn [negb]. wp_step. apply (wp_path _ _ fp); [done|].
  do 4 wp_step. fold rest. fold (stor_mode appe rest). rewrite Hk. cbv zeta. wp_step. unfold rpc_res. wp_step. apply wp_rpc. cbn [handle_cmd]. wp_step.
  revert Hroom. destruct far eqn:Efar; unfold far in Efar; intros Hroom.
  - apply andb_prop in Efar as [Ha Hgt%Z.ltb_lt]. destruct appe; [done|]. unfold stor_mode in *.
    rewrite (proj2 (Z.ltb_lt 0 rest)) in * by (unfold LFS_FILE_MAX in Hgt; lia). injection Hst as Eold _. rewrite <- Eold in *.
    eapply wp_mono; [apply (open_write_far k _ p rest); first [done|lia]|]. intros [] st1 [Hr1 Hd]. unfold bump. apply wp_modify. apply wp_env_get.
    wp_step. apply wp_modify. cbn [env_res StoreEnv f_env with_store set_store w_store FTP_RES set_rpc_seq]. rewrite Hr1. cbn [fst negb].
    apply wp_send_line. by split.
  - assert (Hq : forall q, stor_mode appe rest = Rest q -> 0 <= q <= LFS_FILE_MAX).
    { unfold stor_mode. intros q. destruct appe; [done|]. destruct (Z.ltb_spec 0 rest); [|done]. intros [= <-].
      cbn [negb andb] in Efar. apply Z.ltb_ge in Efar. lia. }
    pose proof (start_le (stor_mode appe rest) (file_at (s_fs (w_store (f_env s))) p) (stored (type_ascii (f_ses s)) false bufs)) as Hle.
    rewrite Hst in Hle. cbn [fst snd] in Hle. fold new in Hle.
    eapply wp_mono; [apply (open_write_ok k _ p (stor_mode appe rest)); [done|done|done|rewrite Hst; cbn [fst]; lia|exact Hq]|].
    intros [] st1 (Hr1 & Hroom1 & Hu). rewrite Hst in Hu. cbn [fst snd] in Hu. unfold bump. apply wp_modify. apply wp_env_get.
    wp_step. apply wp_modify. cbn [env_res StoreEnv f_env with_store set_store w_store FTP_RES set_rpc_seq]. rewrite Hr1. cbn [fst negb].
    wp_step. apply wp_send_line. wp_step. apply wp_open_data; [exact Hc|]. cbn [negb]. wp_step.
    eapply wp_mono; [apply (stor_loop_ok k p bufs fuel false old pos); [|exact Hup|exact Hlen| |exact Hf|exact Hk]|].
    + eapply upload_ext; [| |exact Hu]; reflexivity.
    + cbn [f_env f_ses w_store set_port set_rest type_ascii s_fs]. rewrite <- Hroom1 in Hroom. exact Hroom.
    + intros err s2 (-> & Es & Eo & Er & pos' & Hu2). cbn [f_env f_ses w_store set_port set_rest type_ascii] in Er, Hu2. fold new in Hu2.
      wp_step. wp_step. apply wp_rpc. eapply wp_mono; [apply (close_ok k p _ _ _ Hu2); rewrite Er; cbn; rewrite Hroom1; exact Hroom|].
      intros [] st2 [Hr2 Hd]. apply wp_env_get. wp_step. apply wp_on_env. apply wp_ret.
      cbn [env_res StoreEnv f_env with_store set_store w_store]. rewrite Hr2. cbn [fst negb orb]. apply wp_send_line. cbn.
      split; [exact Hd|]. rewrite Eo. cbn. by rewrite <- app_assoc.
Qed.
End Upload.

(** ** The file system in memory *)

Definition ram_writing (f : RamFs) (c : Cell) : option (list Z * bool * list Z * nat) :=
  match rf_handle c (rf_open f) with
  | Some (p, (app, pos)) => d ← rf_files f !! rf_key p; Some (p, app, d, pos)
  | None => None
  end.

Lemma ram_writing_inv f c p app d pos : ram_writing f c = Some (p, app, d, pos) ->
  rf_handle c (rf_open f) = Some (p, (app, pos)) /\ rf_files f !! rf_key p = Some d.
Proof.
  unfold ram_writing. destruct (rf_handle c (rf_open f)) as [[q [a n]]|]; [|done].
  destruct (rf_files f !! rf_key q) as [e|] eqn:E; [|done]. cbn. by intros [= -> -> -> ->].
Qed.

Definition ram_capacity (f : RamFs) (p : list Z) : Z := Z.min LFS_FILE_MAX (rf_room f + Z.of_nat (length (rf_data p f))).

Lemma ram_seek_writes c q (n : list Z -> Z) (k : list Z -> nat) f p app d pos : ram_writing f c = Some (p, app, d, pos) -> k d = q ->
  exists f', rf_with c (fun d _ => (n d, Some (k d))) f = (Ok (n d), f') /\ ram_capacity f' p = ram_capacity f p /\ ram_writing f' c = Some (p, app, d, q).
Proof.
  intros H <-. apply ram_writing_inv in H as [Hh Hd]. unfold rf_with. rewrite Hh. unfold rf_data. rewrite Hd. cbn. eexists. split; [done|].
  unfold rf_set_pos. rewrite Hh. split; [done|]. unfold ram_writing. cbn. rewrite rf_handle_head. by rewrite Hd.
Qed.

#[export] Program Instance RamWrites : LfsWrites RamFs := {| capacity := ram_capacity; creatable _ _ := True; writing := ram_writing |}.
Next Obligation. intros fs p. unfold ram_capacity. lia. Qed.
Next Obligation.
  intros fs c p app trunc _. cbn. unfold rf_opened. cbn. rewrite andb_false_r. destruct trunc; eexists _, 0%nat; (split; [reflexivity|]).
  - split; [|split; [|done]]; unfold ram_capacity, ram_writing, rf_data; cbn; rewrite ?rf_handle_head, lookup_insert_eq; [|done]. cbn. f_equal. lia.
  - split; [|split; [|done]]; unfold ram_capacity, ram_writing, rf_data; cbn; rewrite ?rf_handle_head, lookup_insert_eq; [|done]. cbn. f_equal. lia.
Qed.
Next Obligation. intros fs c p app d pos H _. by apply (ram_seek_writes c (length d) (fun d => Z.of_nat (length d)) length fs p app d pos). Qed.
Next Obligation.
  intros fs c p app d pos q H _ Hq. cbn. rewrite (proj2 (Z.ltb_ge _ _)) by lia.
  by apply (ram_seek_writes c (Z.to_nat q) (fun _ => q) (fun _ => Z.to_nat q) fs p app d pos).
Qed.
Next Obligation. intros fs c p app d pos q H Hq. cbn. rewrite (proj2 (Z.ltb_lt _ _)) by lia. by exists fs. Qed.
Next Obligation.
  intros fs c p app d pos l H Hne at_ Hr. apply ram_writing_inv in H as [Hh Hd]. cbn. unfold rf_write. rewrite Hh.
  unfold rf_data. rewrite Hd. cbn [default id]. fold at_. fold (splice at_ l d). unfold ram_capacity, rf_data in Hr. rewrite Hd in Hr. cbn in Hr.
  pose proof (splice_length at_ l d) as Hl.
  rewrite (proj2 (Z.ltb_ge _ _)) by lia. rewrite (proj2 (Z.ltb_ge _ _)) by lia. cbn [orb]. eexists. split; [done|].
  unfold rf_set_pos. cbn. rewrite Hh. unfold ram_capacity, ram_writing, rf_data. cbn. rewrite rf_handle_head, lookup_insert_eq, Hd. cbn.
  split; [f_equal; lia|done].
Qed.
Next Obligation.
  intros fs c p app d pos H _. apply ram_writing_inv in H as [Hh Hd]. cbn. rewrite Hh. by eexists.
Qed.

(** The client's "new" goes to position 100 of the file. *)
Lemma ftp_stor_stores_witness : exists s',
  cmd_stor collect_or_panic 3 (bs "data_07281530_12.raw") false (client0 false) = Some (tt, s') /\
  file_at (s_fs (w_store (f_env s'))) (bs "/data_07281530_12.raw") = Some (written 100 (stored true false [bs "new"]) file0) /\
  f_out s' = f_out (client0 false) ++ [bs "150 Ok to send data" ++ [13; 10]; bs "226 Transfer complete" ++ [13; 10]].
Proof.
  refine (ftp_stor_stores collect_or_panic (bs "data_07281530_12.raw") false (bs "/data_07281530_12.raw") (bs "/data_07281530_12.raw") 0 3
    [bs "new"] file0 100 (client0 false) eq_refl eq_refl _ _ _ _ _ I eq_refl _ _ eq_refl _).
  - by right.
  - vm_compute. split; [discriminate|reflexivity].
  - reflexivity.
  - reflexivity.
  - split; [lia|]. split; [reflexivity|]. split; [reflexivity|]. exists FtpXfer_init. repeat split.
  - constructor; [cbn; lia|constructor].
  - cbn. lia.
  - vm_compute. discriminate.
Defined.

(** A position that is far behind the end: the gap must have room too. *)
Definition client_rest (q : Z) : Ftp (World RamFs NorImage) := mkFtp (set_rest q (f_ses (client0 false))) [] (f_env (client0 false)).

Lemma ftp_stor_gap :
  f_out <$> (snd <$> cmd_stor collect_or_panic 3 (bs "up") false (client_rest 200000)) =
    Some [bs "150 Ok to send data" ++ [13; 10]; bs "451 Requested action aborted: local error" ++ [13; 10]] /\
  f_out <$> (snd <$> cmd_stor collect_or_panic 3 (bs "up") false (client_rest 3000000000)) = Some [bs "550 Failed to open file" ++ [13; 10]].
Proof. split; vm_compute; reflexivity. Qed.

(** ** ASCII *)

(** Text without carriage returns comes back as it was. *)
Lemma ascii_roundtrip l : Forall (fun b => b <> 13) l -> ascii_in false (ascii_out l) = (false, l).
Proof.
  intros Hl. unfold ascii_in. cbn [andb].
  assert (Hd : drop_cr (ascii_out l) = l).
  { induction Hl as [|b l Hb _ IH]; [done|]. unfold ascii_out in *. cbn [mbind list_bind]. destruct (Z.eqb_spec b 10) as [->|Hn].
    - cbn [app]. change (drop_cr (13 :: 10 :: (l ≫= fun b => if b =? 10 then [13; 10] else [b])))
        with (10 :: drop_cr (l ≫= fun b => if b =? 10 then [13; 10] else [b])). by rewrite IH.
    - cbn [app drop_cr]. rewrite (proj2 (Z.eqb_neq b 13)) by done. cbn [andb]. by rewrite IH. }
  rewrite Hd, Nat.sub_1_r. destruct (ascii_out l !! _) as [b|] eqn:E; [|done]. rewrite <- last_lookup in E.
  assert (b <> 13) as Hb; [|by rewrite (proj2 (Z.eqb_neq b 13)), andb_false_r by done].
  clear Hd. destruct l as [|c l _] using rev_ind; [done|]. apply list.Forall_app in Hl as [_ Hl]. apply list.Forall_cons in Hl as [Hc _].
  unfold ascii_out in E. rewrite bind_app, last_app in E. cbn in E. destruct (c =? 10); cbn in E; congruence.
Qed.

(** A pair that two reads share is lost. *)
Lemma ascii_split_pair : stored true false [[97; 13; 10; 98]] = [97; 10; 98] /\ stored true false [[97; 13]; [10; 98]] = [97; 98].
Proof. by split. Qed.
