(* ===== verification/Admission.v ===== *)
(** * Who is served (conn_task and reject_task of crates/firmware/src/mbtcp.rs,
      ftp_task and ftp_reject_task of ftpd.rs)

    A port has a fixed number of serving tasks and one that turns excess clients away;
    they share a counter of the occupied slots.  The tasks, the clients and the clock
    take their steps in any order. *)
From S2P Require Import Prelude.

(** A serving task: waiting in [accept], with a client it has not seen yet, in its
    session, in a pause that ends at [till]. *)
Inductive Slot := Accepting | Connected | Serving | Paused (till : Z).

(** The rejecting task: asleep; in [select] of [accept] and 50 ms; with a client it has
    not seen yet; sending its answer. *)
Inductive Rejector := Idle (till : Z) | Armed (till : Z) | Caught | Answering (till : Z).

#[export] Instance Slot_eq_dec : EqDecision Slot.
Proof. solve_decision. Defined.

(** The time in ms, the serving tasks, [BUSY], the rejecting task, and whether its socket
    still has the last client. *)
Record Adm := mkAdm { now : Z; slots : list Slot; BUSY : Z; rej : Rejector; held : bool }.

(** Time passes; a client reaches the task [k], or the rejecting one; tasks are woken. *)
Inductive Ev :=
| Tick (d : Z) | Dial (k : nat) | DialRejector
| Wake (k : nat) | AcceptFails (k : nat) | SessionEnds (k : nat) | Resume (k : nat)
| WakeRejector.

Section Port.
(** The number of serving tasks; how late the executor may wake a task; what the
    rejecting task does with a client. *)
Variables (n : nat) (late : Z) (caught : Adm -> Adm).

Definition Adm_init : Adm := mkAdm 0 (replicate n Accepting) 0 (Idle 0) false.

Definition set_slot (k : nat) (x : Slot) (busy : Z) (s : Adm) : Adm := mkAdm (now s) (<[k := x]> (slots s)) busy (rej s) (held s).

(** From the top of the loop to the next wait.  [accept] fails on a socket that is
    still open; it is aborted, and the loop starts again. *)
Definition rej_loop (s : Adm) : Adm :=
  if Z.of_nat n <=? BUSY s then mkAdm (now s) (slots s) (BUSY s) (Armed (now s + 50)) false
  else mkAdm (now s) (slots s) (BUSY s) (Idle (now s + 5)) (held s).

Definition rej_wake (s : Adm) : option Adm :=
  match rej s with
  | Idle till | Answering till | Armed till => if till <=? now s then Some (rej_loop s) else None
  | Caught => Some (caught s)
  end.

Definition slot_wake (k : nat) (s : Adm) : option Adm :=
  match slots s !! k with Some Connected => Some (set_slot k Serving (as_u8 (BUSY s + 1)) s) | _ => None end.
Definition slot_end (k : nat) (s : Adm) : option Adm :=
  match slots s !! k with Some Serving => Some (set_slot k (Paused (now s + 10)) (as_u8 (BUSY s - 1)) s) | _ => None end.
Definition slot_fail (k : nat) (s : Adm) : option Adm :=
  match slots s !! k with Some Accepting => Some (set_slot k (Paused (now s + 100)) (BUSY s) s) | _ => None end.
Definition slot_resume (k : nat) (s : Adm) : option Adm :=
  match slots s !! k with Some (Paused till) => if till <=? now s then Some (set_slot k Accepting (BUSY s) s) else None | _ => None end.

(** [None]: the event is not possible there. *)
Definition step (e : Ev) (s : Adm) : option Adm :=
  match e with
  | Tick d =>
      if (0 <=? d) && match rej s with Armed till => now s + d <=? till + late | _ => true end
      then Some (mkAdm (now s + d) (slots s) (BUSY s) (rej s) (held s)) else None
  | Dial k => match slots s !! k with Some Accepting => Some (set_slot k Connected (BUSY s) s) | _ => None end
  | DialRejector => match rej s with Armed _ => Some (mkAdm (now s) (slots s) (BUSY s) Caught true) | _ => None end
  | Wake k => slot_wake k s
  | AcceptFails k => slot_fail k s
  | SessionEnds k => slot_end k s
  | Resume k => slot_resume k s
  | WakeRejector => rej_wake s
  end.

(** The states of a run, the last one first. *)
Fixpoint trace (evs : list Ev) (past : list Adm) (s : Adm) : option (list Adm) :=
  match evs with
  | [] => Some (s :: past)
  | e :: evs => s' ← step e s; trace evs (s :: past) s'
  end.

Definition served (s : Adm) : nat := length (filter (fun x => x = Serving) (slots s)).
Definition full (s : Adm) : Prop := Forall (fun x => x = Serving) (slots s).

Lemma served_le s : (served s <= length (slots s))%nat.
Proof. apply length_filter. Qed.

Lemma served_full s : served s = length (slots s) -> full s.
Proof.
  unfold served, full. induction (slots s) as [|x l IH]; [constructor|]. rewrite filter_cons. case_decide; cbn [length]; intros E.
  - constructor; [done|]. apply IH. lia.
  - pose proof (length_filter (fun x => x = Serving) l). lia.
Qed.

Hypothesis Hn : (n <= 255)%nat.

(** The counter counts. *)
Definition counts (s : Adm) : Prop := length (slots s) = n /\ BUSY s = Z.of_nat (served s).
Hypothesis caught_counts : forall s, now (caught s) = now s /\ slots (caught s) = slots s /\ BUSY (caught s) = BUSY s.
Hypothesis caught_arms : forall s t, rej (caught s) = Armed t -> t = now s + 50 /\ Z.of_nat n <= BUSY s.
Hypothesis Hlate : 0 <= late.

Lemma counts_insert k x y b s : counts s -> slots s !! k = Some x ->
  b = as_u8 (BUSY s + (if decide (y = Serving) then 1 else 0) - (if decide (x = Serving) then 1 else 0)) -> counts (set_slot k y b s).
Proof.
  intros [Hl Hb] Hk ->. pose proof (count_insert (fun x => x = Serving) _ _ _ y Hk) as H. pose proof (served_le (set_slot k y 0 s)) as Hle.
  unfold counts, served, set_slot in *. cbn [slots BUSY] in *. rewrite length_insert in *. split; [done|].
  rewrite Hb. unfold as_u8. rewrite Z.mod_small; repeat case_decide; lia.
Qed.

Lemma counts_same s s' : counts s -> slots s' = slots s -> BUSY s' = BUSY s -> counts s'.
Proof. unfold counts, served. by intros ? -> ->. Qed.

Lemma counts_u8 s : counts s -> as_u8 (BUSY s) = BUSY s.
Proof. intros [Hl Hb]. pose proof (served_le s). unfold as_u8. rewrite Z.mod_small; lia. Qed.

Lemma counts_full s : counts s -> Z.of_nat n <= BUSY s -> full s.
Proof. intros [Hl Hb] H. apply served_full. pose proof (served_le s). lia. Qed.

(** While it listens, the rejecting task has seen all the slots taken. *)
Definition listens (s : Adm) (past : list Adm) : Prop :=
  forall till, rej s = Armed till -> now s <= till + late /\ exists s0, s0 ∈ s :: past /\ full s0 /\ till = now s0 + 50.
Definition inv (s : Adm) (past : list Adm) : Prop := counts s /\ listens s past /\ Forall (fun s0 => now s0 <= now s) past.

Lemma listens_same s s' past : listens s past -> rej s' = rej s -> now s' = now s -> listens s' (s :: past).
Proof.
  intros H Er En till Ht. rewrite Er in Ht. destruct (H till Ht) as (H1 & s0 & Hin & H2). rewrite En. split; [done|].
  exists s0. split; [by right|done].
Qed.

Lemma arms_now s s' past : counts s -> counts s' -> now s' = now s -> BUSY s' = BUSY s ->
  (forall t, rej s' = Armed t -> t = now s + 50 /\ Z.of_nat n <= BUSY s) -> listens s' (s :: past).
Proof.
  intros Hc Hc' En Eb H till Ht. destruct (H till Ht) as [-> Hb]. rewrite En. split; [lia|].
  exists s'. split; [by left|]. split; [|by rewrite En]. apply counts_full; [done|by rewrite Eb].
Qed.

Lemma rej_loop_arms s t : rej (rej_loop s) = Armed t -> t = now s + 50 /\ Z.of_nat n <= BUSY s.
Proof. unfold rej_loop. destruct (Z.leb_spec (Z.of_nat n) (BUSY s)); [|done]. by intros [= <-]. Qed.

Lemma rej_loop_same s : now (rej_loop s) = now s /\ slots (rej_loop s) = slots s /\ BUSY (rej_loop s) = BUSY s.
Proof. unfold rej_loop. by case_match. Qed.

(** A step of a serving task. *)
Lemma slot_moves s past k x y b : inv s past -> slots s !! k = Some x ->
  b = as_u8 (BUSY s + (if decide (y = Serving) then 1 else 0) - (if decide (x = Serving) then 1 else 0)) -> inv (set_slot k y b s) (s :: past).
Proof.
  intros (Hc & Hl & Ht) Hk Hb. split; [by eapply counts_insert|]. split; [by apply (listens_same s)|].
  constructor; [cbn; lia|]. eapply list.Forall_impl; [exact Ht|]. done.
Qed.

(** A step of the rejecting task. *)
Lemma rejector_inv s s' past : inv s past -> now s' = now s /\ slots s' = slots s /\ BUSY s' = BUSY s ->
  (forall t, rej s' = Armed t -> t = now s + 50 /\ Z.of_nat n <= BUSY s) -> inv s' (s :: past).
Proof.
  intros (Hc & Hl & Ht) (E1 & E2 & E3) H. assert (counts s') as Hc' by by eapply counts_same.
  split; [done|]. split; [by apply arms_now|]. rewrite E1. constructor; [lia|done].
Qed.

Lemma adm_step_inv e s s' past : inv s past -> step e s = Some s' -> inv s' (s :: past).
Proof.
  intros H E. pose proof (counts_u8 s (proj1 H)) as Hu. destruct e as [d|k| |k|k|k|k|]; cbn [step] in E.
  - destruct (_ && _) eqn:Eg in E; [|done]. injection E as <-. apply andb_true_iff in Eg as [Hd%Z.leb_le Hr]. destruct H as (Hc & Hl & Ht).
    split; [by eapply counts_same|]. split.
    + intros till Et. cbn [rej now] in *. rewrite Et in Hr. apply Z.leb_le in Hr. destruct (Hl till Et) as (_ & s0 & Hin & H0).
      split; [lia|]. exists s0. split; [by right|done].
    + constructor; [cbn; lia|]. eapply list.Forall_impl; [exact Ht|]. cbn. lia.
  - destruct (slots s !! k) as [[]|] eqn:Ek; try done. injection E as <-. eapply slot_moves; [done|exact Ek|]. by rewrite Z.add_0_r, Z.sub_0_r.
  - destruct (rej s) eqn:Er; try done. injection E as <-. apply rejector_inv; [done|done|done].
  - unfold slot_wake in E. destruct (slots s !! k) as [[]|] eqn:Ek; try done. injection E as <-. eapply slot_moves; [done|exact Ek|]. by rewrite Z.sub_0_r.
  - unfold slot_fail in E. destruct (slots s !! k) as [[]|] eqn:Ek; try done. injection E as <-. eapply slot_moves; [done|exact Ek|]. by rewrite Z.add_0_r, Z.sub_0_r.
  - unfold slot_end in E. destruct (slots s !! k) as [[]|] eqn:Ek; try done. injection E as <-. eapply slot_moves; [done|exact Ek|]. by rewrite Z.add_0_r.
  - unfold slot_resume in E. destruct (slots s !! k) as [[]|] eqn:Ek; try done. case_match; [|done]. injection E as <-. eapply slot_moves; [done|exact Ek|]. by rewrite Z.add_0_r, Z.sub_0_r.
  - unfold rej_wake in E. destruct (rej s) eqn:Er.
    1, 2, 4: case_match; [|done]; injection E as <-; apply rejector_inv; [done|apply rej_loop_same|apply rej_loop_arms].
    injection E as <-. apply rejector_inv; [done|apply caught_counts|apply caught_arms].
Qed.

Lemma adm_trace_inv evs : forall past s tr, inv s past -> trace evs past s = Some tr -> exists s' past', tr = s' :: past' /\ inv s' past'.
Proof.
  induction evs as [|e evs IH]; intros past s tr H E; cbn [trace] in E; [injection E as <-; by exists s, past|].
  destruct (step e s) as [s1|] eqn:Es; [|done]. apply (IH (s :: past) s1); [by eapply adm_step_inv|exact E].
Qed.

Lemma adm_init_inv : inv Adm_init [].
Proof.
  split; [|split; [intros t [=]|constructor]]. split; [apply length_replicate|]. cbn [BUSY Adm_init]. unfold served. cbn [slots Adm_init].
  clear. induction n as [|m IH]; [done|]. cbn [replicate]. rewrite filter_cons. by case_decide.
Qed.

Lemma admission evs s past : trace evs [] Adm_init = Some (s :: past) ->
  BUSY s = Z.of_nat (served s) /\ (served s <= n)%nat /\
  (forall s', step DialRejector s = Some s' -> exists s0, s0 ∈ s :: past /\ full s0 /\ now s0 <= now s <= now s0 + 50 + late).
Proof.
  intros E. destruct (adm_trace_inv evs [] Adm_init _ adm_init_inv E) as (s1 & p1 & [= <- <-] & (Hl & Hb) & Hr & Ht).
  split; [done|]. split; [rewrite <- Hl; apply served_le|]. intros s' Es. cbn [step] in Es. destruct (rej s) as [|till| |] eqn:Er; try done.
  destruct (Hr till Er) as (H1 & s0 & Hin & Hf & ->). exists s0. split; [done|]. split; [done|]. split; [|lia].
  apply list.elem_of_cons in Hin as [->|Hin]; [done|]. rewrite list.Forall_forall in Ht. by apply Ht.
Qed.
End Port.

(** Modbus TCP: two masters; a third is reset at once. *)
Definition mb_caught (s : Adm) : Adm := rej_loop 2 (mkAdm (now s) (slots s) (BUSY s) (rej s) false).
Definition mb_step (late : Z) : Ev -> Adm -> option Adm := step 2 late mb_caught.

(** FTP: three sessions; the fourth client gets "421 Too many users" and 50 ms. *)
Definition ftp_caught (s : Adm) : Adm := mkAdm (now s) (slots s) (BUSY s) (Answering (now s + 50)) true.
Definition ftp_step (late : Z) : Ev -> Adm -> option Adm := step 3 late ftp_caught.

Inductive Port := ModbusTcp | Ftp.
Definition slots_of (p : Port) : nat := match p with ModbusTcp => 2 | Ftp => 3 end.
Definition caught_of (p : Port) : Adm -> Adm := match p with ModbusTcp => mb_caught | Ftp => ftp_caught end.
Definition port_trace (p : Port) (late : Z) (evs : list Ev) : option (list Adm) :=
  trace (slots_of p) late (caught_of p) evs [] (Adm_init (slots_of p)).

(** C28: Nobody is turned away without need.  In any interleaving of the tasks of a port,
    its clients and the clock, the shared counter is the number of running sessions, and
    the task that turns clients away takes one only if all the slots were taken at some
    point in the last 50 ms (and the delay of the executor). *)
Theorem turned_away_only_when_full p late evs s past (Hlate : 0 <= late) (Hrun : port_trace p late evs = Some (s :: past)) :
  BUSY s = Z.of_nat (served s) /\ (served s <= slots_of p)%nat /\
  (forall s', step (slots_of p) late (caught_of p) DialRejector s = Some s' ->
    exists s0, s0 ∈ s :: past /\ full s0 /\ now s0 <= now s <= now s0 + 50 + late).
Proof.
  apply (admission (slots_of p) late (caught_of p)) with (evs := evs); [by destruct p; cbn; lia| | |exact Hlate|exact Hrun].
  - intros x. destruct p; [exact (rej_loop_same 2 (mkAdm (now x) (slots x) (BUSY x) (rej x) false))|done].
  - intros x t. destruct p; [exact (rej_loop_arms 2 (mkAdm (now x) (slots x) (BUSY x) (rej x) false) t)|done].
Qed.

(** Three sessions, and a fourth client 40 ms after one of them has ended. *)
Definition ftp_busy : list Ev :=
  [Dial 0; Wake 0; Dial 1; Wake 1; Dial 2; Wake 2; WakeRejector; SessionEnds 1; Tick 40].

Lemma turned_away_only_when_full_witness : exists s past,
  port_trace Ftp 3 ftp_busy = Some (s :: past) /\ (exists s', step 3 3 ftp_caught DialRejector s = Some s') /\
  BUSY s = Z.of_nat (served s) /\ (served s <= 3)%nat /\
  (forall s', step 3 3 ftp_caught DialRejector s = Some s' -> exists s0, s0 ∈ s :: past /\ full s0 /\ now s0 <= now s <= now s0 + 50 + 3).
Proof.
  destruct (port_trace Ftp 3 ftp_busy) as [[|s past]|] eqn:E; [vm_compute in E; discriminate E| |vm_compute in E; discriminate E].
  exists s, past. split; [done|]. split; [vm_compute in E; injection E as <- _; eexists; reflexivity|].
  exact (turned_away_only_when_full Ftp 3 ftp_busy s past ltac:(lia) E).
Defined.

(** The slot that got free is not offered to the fourth client of the witness, who is
    turned away; and the answer is not followed by a close once the load has dropped:
    the socket stays open while the task sleeps. *)
Lemma ftp_421_lingers : exists s past,
  port_trace Ftp 3 (ftp_busy ++ [DialRejector; WakeRejector; Tick 50; WakeRejector; Tick 3600000]) = Some (s :: past) /\
  held s = true /\ rej s = Idle 95.
Proof. eexists _, _. vm_compute. done. Qed.

Lemma held_while_idle late e s s' : held s = true -> BUSY s < 3 -> (exists t, rej s = Idle t) -> ftp_step late e s = Some s' ->
  held s' = true /\ exists t, rej s' = Idle t.
Proof.
  intros Hh Hb [t Ht] E. unfold ftp_step in E. destruct e; cbn [step] in E; rewrite ?Ht in E;
    unfold slot_wake, slot_fail, slot_end, slot_resume, rej_wake, rej_loop in E; rewrite ?Ht in E; repeat case_match; simplify_eq; try (by eauto).
  apply Z.leb_le in H0. lia.
Qed.
