(* ===== verification/Console.v ===== *)
(** * The console (crates/firmware/src/{log,uart_raw,stackmark}.rs)

    The lines of the log, the receive ring that a DMA channel fills, and the register
    of tasks behind the [tasks] command. *)
From Stdlib Require Import ZifyNat.
From S2P Require Import Prelude Text TimeMath RegMap UdpCfg History Channels System StMonad Storage HttpReq Web.

(** ** log.rs *)

(** [{:02}]: the fill is written before the digits. *)
Definition zero2 (n : Z) : list (list Z) := replicate (2 - length (decimal n)) [48] ++ [decimal n].

Definition log_line (level : Z) (msg : list Z) (s : Sys) : list Z :=
  let secs := now_epoch_local s mod 86400 in
  write_pieces 160 ([bs "["] ++ zero2 (secs / 3600) ++ [bs ":"] ++ zero2 (secs mod 3600 / 60) ++ [bs ":"] ++ zero2 (secs mod 60) ++
    [bs ".000]["; [level]; bs "] "; msg; [13; 10]]) [].

(** ** uart_raw.rs, and the consumer in shell.rs *)

Definition RX_RING : nat := 256.

(** The buffer, the counter of the DMA channel, the number of bytes consumed (32 bits). *)
Record Uart := mkUart { rx_buf : list Z; ndtr : nat; rx_count : Z }.
Definition Uart_init : Uart := mkUart (replicate RX_RING 0) RX_RING 0.

Definition rx_available (tail : nat) (u : Uart) : nat :=
  let head := (RX_RING - ndtr u)%nat in if (tail <=? head)%nat then (head - tail)%nat else (RX_RING - tail + head)%nat.

Definition rx_peek (tail : nat) (u : Uart) : Z := rx_buf u !!! (tail mod RX_RING)%nat.

(** One round of [getchar]: a byte, or 2 ms of waiting. *)
Definition getchar (u : Uart) : option Z * Uart :=
  let tail := (Z.to_nat (rx_count u) mod RX_RING)%nat in
  if (0 <? rx_available tail u)%nat then (Some (rx_peek tail u), mkUart (rx_buf u) (ndtr u) (as_u32 (rx_count u + 1))) else (None, u).

(** ** stackmark.rs *)

Definition MAX_TASKS : nat := 24.
Definition PATTERN : Z := 0xA5A5A5A5.

(** The name of a task is a string literal: where it lies, what it says. *)
Definition Lit : Type := Z * list Z.

Record TaskStat := mkTaskStat { ts_name : option Lit; min_sp : Z; loops : Z }.
Definition STATS_init : list TaskStat := replicate MAX_TASKS (mkTaskStat None 0 0).

(** [core::ptr::eq] on two [str]: the same address and length. *)
Definition same_lit (a b : Lit) : bool := (a.1 =? b.1) && (length a.2 =? length b.2)%nat.

Definition has_name (name : Lit) (s : TaskStat) : bool := match ts_name s with Some n => same_lit n name | None => false end.
Definition no_name (s : TaskStat) : bool := match ts_name s with Some _ => false | None => true end.

Definition probe (name : Lit) (sp : Z) (stats : list TaskStat) : list TaskStat :=
  let count s := mkTaskStat (ts_name s) (if (min_sp s =? 0) || (sp <? min_sp s) then sp else min_sp s) (as_u32 (loops s + 1)) in
  match position (has_name name) stats with
  | Some idx => alter count idx stats
  | None =>
      match position no_name stats with
      | None => stats
      | Some idx => alter (fun s => count (mkTaskStat (Some name) (min_sp s) (loops s))) idx stats
      end
  end.

Definition task_count (stats : list TaskStat) : nat := length (filter (fun s => no_name s = false) stats).

(** [lo] is the bottom of the stack; [None] for an index out of range. *)
Definition task_stat (lo : Z) (i : nat) (stats : list TaskStat) : option (option (list Z * option Z * Z)) :=
  s ← stats !! i;
  Some (n ← ts_name s; Some (n.2, if min_sp s =? 0 then None else Some (as_u32 (Z.max 0 (min_sp s - lo))), loops s)).

(** The words of the stack from the bottom up: what is still the pattern was never
    used. *)
Fixpoint untouched (words : list Z) : nat :=
  match words with w :: words => if w =? PATTERN then S (untouched words) else O | [] => O end.
Definition usage (words : list Z) (lo hi : Z) : Z * Z :=
  let total := as_u32 (Z.max 0 (hi - lo)) in (Z.min (as_u32 (4 * Z.of_nat (untouched words))) total, total).
Definition statics_bytes (total : Z) : Z := as_u32 (128 * 1024 - total).
Definition ccm_usage (s e : Z) : Z * Z := (as_u32 (Z.max 0 (e - s)), 64 * 1024).

(** [stackmark::init]: the words from [p] up that lie below the stack pointer. *)
Fixpoint stack_fill (words : list Z) (p sp : Z) : list Z :=
  match words with w :: rest => if p <? sp then PATTERN :: stack_fill rest (p + 4) sp else words | [] => [] end.
Definition stack_init (words : list Z) (lo sp : Z) : list Z := stack_fill words lo (Z.land sp (-4)).

(** ** The ring delivers *)

(** What the DMA channel does with a byte from the line: it goes where the counter
    points, and the counter goes down, from 1 back to the top. *)
Definition dma (b : Z) (u : Uart) : Uart :=
  mkUart (<[(RX_RING - ndtr u)%nat := b]> (rx_buf u)) (if (ndtr u =? 1)%nat then RX_RING else ndtr u - 1)%nat (rx_count u).

Inductive Ev := Arrives (b : Z) | Polls.

(** The bytes delivered and the ones still in the ring, after a history of events;
    [None] when more than 255 bytes were waiting at some point. *)
Fixpoint ring_spec (evs : list Ev) (got waiting : list Z) : option (list Z * list Z) :=
  match evs with
  | [] => Some (got, waiting)
  | Arrives b :: evs => if (length waiting <? 255)%nat then ring_spec evs got (waiting ++ [b]) else None
  | Polls :: evs => match waiting with [] => ring_spec evs got [] | b :: w => ring_spec evs (got ++ [b]) w end
  end.

Fixpoint ring_run (evs : list Ev) (got : list Z) (u : Uart) : list Z * Uart :=
  match evs with
  | [] => (got, u)
  | Arrives b :: evs => ring_run evs got (dma b u)
  | Polls :: evs => let '(r, u) := getchar u in ring_run evs (match r with Some b => got ++ [b] | None => got end) u
  end.

(** [waiting] lies in the ring from the tail on. *)
Record ring_inv (u : Uart) (waiting : list Z) : Prop := {
  ri_len : length (rx_buf u) = 256%nat;
  ri_ndtr : (1 <= ndtr u <= 256)%nat;
  ri_count : is_u32 (rx_count u);
  ri_max : (length waiting <= 255)%nat;
  ri_head : ((256 - ndtr u) = (Z.to_nat (rx_count u) + length waiting) mod 256)%nat;
  ri_bytes i b : waiting !! i = Some b -> rx_buf u !! ((Z.to_nat (rx_count u) + i) mod 256)%nat = Some b
}.

Lemma mod256 a : (a mod 256 < 256)%nat.
Proof. apply Nat.mod_upper_bound. lia. Qed.

Lemma ring_inv_init : ring_inv Uart_init [].
Proof. split; try done; cbn; unfold RX_RING, is_u32; lia. Qed.

Ltac nmod := zify; Z.to_euclidean_division_equations; lia.

Lemma ring_inv_arrives b u w : ring_inv u w -> (length w < 255)%nat -> ring_inv (dma b u) (w ++ [b]).
Proof.
  intros [H1 H2 H3 H4 H5 H6] Hl. unfold RX_RING in *. split; cbn [dma rx_buf ndtr rx_count]; unfold RX_RING.
  - by rewrite length_insert.
  - destruct (Nat.eqb_spec (ndtr u) 1); lia.
  - done.
  - rewrite length_app. cbn. lia.
  - rewrite length_app. cbn [length]. destruct (Nat.eqb_spec (ndtr u) 1); nmod.
  - intros i c E. destruct (decide (i = length w)) as [->|Hi].
    + rewrite lookup_app_r, Nat.sub_diag in E by lia. injection E as <-. rewrite <- H5. apply list_lookup_insert_eq. lia.
    + assert (i < length w)%nat by (apply lookup_lt_Some in E; rewrite length_app in E; cbn in E; lia).
      rewrite lookup_app_l in E by lia. rewrite list_lookup_insert_ne; [by apply H6|]. rewrite H5. nmod.
Qed.

(** The counter wraps at 2^32, a multiple of the ring. *)
Lemma count_succ c : is_u32 c -> (Z.to_nat (as_u32 (c + 1)) mod 256 = (Z.to_nat c + 1) mod 256)%nat.
Proof.
  intros H. unfold is_u32 in H. destruct (decide (c = 4294967295)) as [->|Hc].
  - apply Nat2Z.inj. rewrite !Nat2Z.inj_mod, Nat2Z.inj_add, !Z2Nat.id by (vm_compute; done). reflexivity.
  - rewrite as_u32_id by (unfold is_u32; lia). f_equal. lia.
Qed.

Lemma count_next c k : is_u32 c -> ((Z.to_nat (as_u32 (c + 1)) + k) mod 256 = (Z.to_nat c + S k) mod 256)%nat.
Proof. intros H. rewrite <- Nat.Div0.add_mod_idemp_l, count_succ, Nat.Div0.add_mod_idemp_l by done. f_equal. lia. Qed.

Lemma ring_inv_polls u w : ring_inv u w ->
  match w with
  | [] => getchar u = (None, u)
  | b :: w' => exists u', getchar u = (Some b, u') /\ ring_inv u' w'
  end.
Proof.
  intros Hu. pose proof Hu as [H1 H2 H3 H4 H5 H6]. unfold getchar, rx_available, RX_RING.
  assert (Ha : (let head := 256 - ndtr u in let tail := Z.to_nat (rx_count u) mod 256 in
    if tail <=? head then head - tail else 256 - tail + head)%nat = length w).
  { cbv zeta. rewrite H5. destruct (Nat.leb_spec (Z.to_nat (rx_count u) mod 256) ((Z.to_nat (rx_count u) + length w) mod 256)); nmod. }
  cbv zeta in Ha. rewrite Ha. destruct w as [|b w]; [done|]. cbn [length]. change (0 <? S (length w))%nat with true. cbv iota.
  unfold rx_peek, RX_RING. rewrite Nat.Div0.mod_mod. pose proof (H6 0%nat b eq_refl) as Hb. rewrite Nat.add_0_r in Hb.
  rewrite (list_lookup_total_correct _ _ _ Hb). eexists. split; [done|]. split; cbn [rx_buf ndtr rx_count]; try done.
  - apply as_u32_range.
  - cbn in H4. lia.
  - by rewrite count_next, H5.
  - intros i c E. rewrite count_next by done. exact (H6 (S i) c E).
Qed.

(** C35: The shell receives what the line sent.  As long as no more than 255 bytes are
    waiting, whatever the order of arrivals and polls: the bytes delivered are the
    bytes that arrived, in order, none lost and none twice, also over the wrap of the
    32-bit counter; what has not been delivered is still in the ring. *)
Theorem ring_delivers evs got waiting (H : ring_spec evs [] [] = Some (got, waiting)) :
  (ring_run evs [] Uart_init).1 = got /\ ring_inv (ring_run evs [] Uart_init).2 waiting /\
  got ++ waiting = omap (fun e => match e with Arrives b => Some b | Polls => None end) evs.
Proof.
  enough (G : forall evs g w u, ring_inv u w -> ring_spec evs g w = Some (got, waiting) ->
    (ring_run evs g u).1 = got /\ ring_inv (ring_run evs g u).2 waiting /\
    got ++ waiting = g ++ w ++ omap (fun e => match e with Arrives b => Some b | Polls => None end) evs)
    by exact (G evs [] [] Uart_init ring_inv_init H).
  clear. induction evs as [|[b|] evs IH]; intros g w u Hu H.
  - injection H as -> ->. cbn. by rewrite app_nil_r.
  - cbn [ring_spec] in H. destruct (Nat.ltb_spec (length w) 255); [|done]. cbn [ring_run omap list_omap].
    destruct (IH g (w ++ [b]) (dma b u)) as (E1 & E2 & E3); [by apply ring_inv_arrives|done|]. split; [done|]. split; [done|].
    rewrite E3. by rewrite <- !app_assoc.
  - cbn [ring_spec] in H. cbn [ring_run omap list_omap]. pose proof (ring_inv_polls u w Hu) as Hp. destruct w as [|b w].
    + rewrite Hp. by apply IH.
    + destruct Hp as (u' & -> & Hu'). destruct (IH (g ++ [b]) w u' Hu' H) as (E1 & E2 & E3). split; [done|]. split; [done|].
      rewrite E3. by rewrite <- app_assoc.
Qed.

Lemma ring_delivers_witness :
  let evs := [Polls; Arrives 104; Arrives 105; Polls; Arrives 13; Polls] in
  (ring_run evs [] Uart_init).1 = [104; 105] /\ ring_inv (ring_run evs [] Uart_init).2 [13] /\
  [104; 105] ++ [13] = omap (fun e => match e with Arrives b => Some b | Polls => None end) evs.
Proof. intros evs. apply (ring_delivers evs [104; 105] [13]). reflexivity. Defined.

(** 256 bytes waiting look like none. *)
Lemma ring_overrun : (getchar (Nat.iter 256 (dma 7) Uart_init)).1 = None.
Proof. vm_compute. reflexivity. Qed.

(** A probe touches the row of its task and no other. *)
Lemma probe_frame name sp stats j s : stats !! j = Some s -> has_name name s = false -> no_name s = false ->
  probe name sp stats !! j = Some s.
Proof.
  intros E Hn Hf. unfold probe. destruct (position (has_name name) stats) as [i|] eqn:Ei.
  - apply position_Some in Ei as (a & x & b & -> & <- & Hx & _). destruct (decide (j = length a)) as [->|]; [|by rewrite list_lookup_alter_ne].
    rewrite lookup_app_r, Nat.sub_diag in E by lia. injection E as ->. congruence.
  - destruct (position no_name stats) as [i|] eqn:Ej; [|done].
    apply position_Some in Ej as (a & x & b & -> & <- & Hx & _). destruct (decide (j = length a)) as [->|]; [|by rewrite list_lookup_alter_ne].
    rewrite lookup_app_r, Nat.sub_diag in E by lia. injection E as ->. congruence.
Qed.

(** ** The stack mark *)

Lemma stack_fill_app a b p sp : p + 4 * Z.of_nat (length a) <= sp -> stack_fill (a ++ b) p sp = replicate (length a) PATTERN ++ stack_fill b (p + 4 * Z.of_nat (length a)) sp.
Proof.
  revert p. induction a as [|w a IH]; intros p H; [by rewrite Z.add_0_r|]. cbn [length app stack_fill replicate] in *.
  rewrite (proj2 (Z.ltb_lt _ _)) by lia. rewrite IH by lia. do 3 f_equal. lia.
Qed.

Lemma untouched_app k l : untouched (replicate k PATTERN ++ l) = (k + untouched l)%nat.
Proof. induction k as [|k IH]; [done|]. cbn [replicate app untouched]. by rewrite Z.eqb_refl, IH. Qed.

(** After start-up the [k] lowest words that no call has reached, below the lowest one
    that holds something else, are what [usage] reports as free. *)
Lemma usage_watermark words lo sp hi used w rest :
  Z.land sp (-4) = lo + 4 * Z.of_nat (length words) -> lo <= hi < 4294967296 -> 0 <= lo -> 4 * Z.of_nat used <= hi - lo ->
  w <> PATTERN -> (used <= length words)%nat ->
  usage (take used (stack_init words lo sp) ++ w :: rest) lo hi = (4 * Z.of_nat used, hi - lo).
Proof.
  intros Hs Hb Hl Hu Hw Hk. unfold stack_init. rewrite <- (app_nil_r words), Hs, stack_fill_app, app_nil_r by (rewrite ?app_nil_r; lia).
  rewrite take_replicate, Nat.min_l by done. unfold usage. rewrite untouched_app. cbn [untouched].
  rewrite (proj2 (Z.eqb_neq _ _) Hw). unfold as_u32. rewrite Z.max_r by lia. rewrite !Z.mod_small by lia. f_equal; lia.
Qed.
