(* ===== verification/Shell.v ===== *)
(** * The line editor of the debug shell (crates/firmware/src/shell.rs)

    The buffer of the line, the history ring, Tab completion over the command tree,
    and what a byte from the console does.  What a finished line runs is a parameter
    here; the commands are in ShellCmd.v.  The stack probes are left out. *)
From S2P Require Import Prelude Text StMonad Storage HttpReq Web.

Definition LINE_MAX : nat := 96.
Definition HIST_MAX : nat := 8.

(** ** History *)

Record Hist := mkHist { lines : list (list Z); h_len : nat; newest : nat }.

Definition Hist_new : Hist := mkHist (replicate HIST_MAX (replicate LINE_MAX 0)) 0 0.

(** [None] is an index out of range. *)
Definition hist_store (line : list Z) (h : Hist) : option Hist :=
  cur ← lines h !! newest h;
  dup ← (if (h_len h =? 0)%nat then Some false
         else p ← slice cur 0 (length line);
              if bytes_eqb p line then b ← cur !! length line; Some (b =? 0) else Some false);
  if dup : bool then Some h else
  let newest := ((newest h + 1) mod HIST_MAX)%nat in
  let n := Nat.min (length line) (LINE_MAX - 1) in
  Some (mkHist (<[newest := list_inserts 0 (take n line) (replicate LINE_MAX 0)]> (lines h))
    (if (h_len h <? HIST_MAX)%nat then h_len h + 1 else h_len h)%nat newest).

(** Up to the first NUL. *)
Definition until_nul (l : list Z) : list Z := take (default LINE_MAX (position (Z.eqb 0) l)) l.

(** [nav] 0 is the newest; [None] past the oldest. *)
Definition hist_get (nav : nat) (h : Hist) : option (list Z) :=
  if (h_len h <=? nav)%nat then None else until_nul <$> lines h !! ((newest h + HIST_MAX - nav) mod HIST_MAX)%nat.

(** ** Completion *)

Inductive Cmd := mkCmd (name : list Z) (sub : list Cmd).
Definition c_name (c : Cmd) : list Z := match c with mkCmd n _ => n end.
Definition c_sub (c : Cmd) : list Cmd := match c with mkCmd _ s => s end.
Definition leaf (name : list Z) : Cmd := mkCmd name [].

Definition IO_DO_CMDS : list Cmd := [leaf (bs "set")].
Definition IO_RS485_CMDS : list Cmd := [leaf (bs "baud"); leaf (bs "sid")].
Definition IO_CAN_CMDS : list Cmd := [leaf (bs "id"); leaf (bs "bps")].
Definition IO_CMDS : list Cmd :=
  [leaf (bs "help"); leaf (bs "info"); leaf (bs "di"); mkCmd (bs "do") IO_DO_CMDS; leaf (bs "ai"); mkCmd (bs "rs485") IO_RS485_CMDS;
   mkCmd (bs "can") IO_CAN_CMDS; leaf (bs "ip"); leaf (bs "reg"); leaf (bs "save"); leaf (bs "factory")].
Definition ROOT_CMDS : list Cmd :=
  [leaf (bs "help"); leaf (bs "tasks"); leaf (bs "ps"); leaf (bs "reboot"); mkCmd (bs "io") IO_CMDS].

Definition blank (b : Z) : bool := (b =? 32) || (b =? 9).

(** The first index from [i] on whose byte satisfies [p], within [n]. *)
Definition scan (p : Z -> bool) (line : list Z) (n i : nat) : nat := default n (Nat.add i <$> position p (take (n - i) (drop i line))).

(** The table below a complete word. *)
Definition sub_table (tbl : option (list Cmd)) (word : list Z) : option (list Cmd) :=
  t ← tbl; c ← List.find (fun c => bytes_eqb (c_name c) word) t; match c_sub c with [] => None | s => Some s end.

(** The table for the last word, where that word starts, its length. *)
Fixpoint level_loop (fuel : nat) (line : list Z) (n : nat) (tbl : option (list Cmd)) (i : nat) : option (list Cmd) * nat * nat :=
  match fuel with
  | O => (tbl, n, 0%nat)
  | S fuel =>
      if (n <=? i)%nat then (tbl, n, 0%nat) else
      let w := scan (fun b => negb (blank b)) line n i in
      if (w =? n)%nat then (tbl, n, 0%nat) else
      let i := scan blank line n w in
      if (i =? n)%nat then (tbl, w, (i - w)%nat) else level_loop fuel line n (sub_table tbl (take (i - w) (drop w line))) i
  end.
Definition complete_level (line : list Z) (n : nat) : option (list Cmd) * nat * nat := level_loop (S n) line n (Some ROOT_CMDS) 0.

(** Bytes appended one by one, while the condition allows: [gap] is how much of the
    buffer must stay free. *)
Fixpoint append_while (gap : nat) (bytes line : list Z) (n : nat) : option (list Z * nat) :=
  match bytes with
  | [] => Some (line, n)
  | b :: bytes => if (LINE_MAX <=? n + gap)%nat then Some (line, n) else line ← upd line n b; append_while gap bytes line (n + 1)
  end.

(** [while j < lcp && j < b.len() && a[j] == b[j]] *)
Fixpoint common (a b : list Z) : nat :=
  match a, b with x :: a, y :: b => if x =? y then S (common a b) else O | _, _ => O end.
Definition lcp_of (c0 : list Z) (cs : list (list Z)) : nat := foldl (fun lcp c => common (take lcp c0) c) (length c0) cs.

Definition PROMPT : list Z := bs "io> ".
Definition CRLF : list Z := [13; 10].

Definition match_word (word : list Z) (c : Cmd) : bool := (length word <=? length (c_name c))%nat && bytes_eqb (take (length word) (c_name c)) word.

(** The new line, its length, the bytes sent. *)
Definition complete (line : list Z) (n : nat) : option (list Z * nat * list Z) :=
  let '(tbl, wstart, wlen) := complete_level line n in
  match tbl with
  | None => Some (line, n, [])
  | Some tbl =>
      word ← slice line wstart (wstart + wlen);
      match take 16 (filter (fun c => match_word word c = true) tbl) with
      | [] => Some (line, n, [])
      | [c] =>
          '(line, n1) ← append_while 2 (drop wlen (c_name c)) line n;
          line ← upd line n1 32;
          line ← upd line (n1 + 1) 0;
          out ← slice line n (n1 + 1);
          Some (line, (n1 + 1)%nat, out)
      | c0 :: cs =>
          let lcp := lcp_of (c_name c0) (c_name <$> cs) in
          '(line, n1) ← append_while 1 (drop wlen (take lcp (c_name c0))) line n;
          line ← upd line n1 0;
          let row := writes 128 (imap (fun i c => [if (0 <? i)%nat then [32; 32] else []; c_name c]) (c0 :: cs)) in
          typed ← slice line 0 n1;
          Some (line, n1, CRLF ++ row ++ CRLF ++ PROMPT ++ typed)
      end
  end.

(** ** Editing *)

(** [\x1b[{}X] in a string of 12 bytes. *)
Definition csi (k : nat) (final : Z) : list Z := write_pieces 12 [[27; 91]; decimal (Z.of_nat k); [final]] [].

(** The whole line drawn anew, in a buffer of 112 bytes. *)
Definition redraw (line : list Z) (n pos : nat) : option (list Z) :=
  typed ← slice line 0 n;
  let out := [13] ++ PROMPT ++ typed ++ [27; 91; 75] ++ (if (pos <? n)%nat then csi (n - pos) 68 else []) in
  if (length out <=? LINE_MAX + 16)%nat then Some out else None.

Record Editor := mkEditor {
  ed_line : list Z; draft : list Z; ed_n : nat; ed_pos : nat; esc : Z; nav : Z; prev_cr : bool; hist : Hist
}.

Definition Editor_new : Editor := mkEditor (replicate LINE_MAX 0) (replicate LINE_MAX 0) 0 0 0 (-1) false Hist_new.

Definition set_text (l : list Z) (n pos : nat) (e : Editor) : Editor := mkEditor l (draft e) n pos (esc e) (nav e) (prev_cr e) (hist e).
Definition set_esc (v : Z) (e : Editor) : Editor := mkEditor (ed_line e) (draft e) (ed_n e) (ed_pos e) v (nav e) (prev_cr e) (hist e).
Definition set_nav (v : Z) (e : Editor) : Editor := mkEditor (ed_line e) (draft e) (ed_n e) (ed_pos e) (esc e) v (prev_cr e) (hist e).
Definition set_cr (v : bool) (e : Editor) : Editor := mkEditor (ed_line e) (draft e) (ed_n e) (ed_pos e) (esc e) (nav e) v (hist e).
Definition set_draft (v : list Z) (e : Editor) : Editor := mkEditor (ed_line e) v (ed_n e) (ed_pos e) (esc e) (nav e) (prev_cr e) (hist e).
Definition set_hist (v : Hist) (e : Editor) : Editor := mkEditor (ed_line e) (draft e) (ed_n e) (ed_pos e) (esc e) (nav e) (prev_cr e) v.

(** The line becomes [src], the cursor goes to its end. *)
Definition recall (src : list Z) (e : Editor) : option (Editor * list Z) :=
  l ← blit (replicate LINE_MAX 0) 0 src;
  out ← redraw l (length src) (length src);
  Some (set_text l (length src) (length src) e, out).

(** The arrow keys: the state and the bytes sent. *)
Definition arrow (c : Z) (e : Editor) : option (Editor * list Z) :=
  if c =? 67 then
    Some (if (ed_pos e <? ed_n e)%nat then (set_text (ed_line e) (ed_n e) (ed_pos e + 1) e, [27; 91; 67]) else (e, []))
  else if c =? 68 then
    Some (if (0 <? ed_pos e)%nat then (set_text (ed_line e) (ed_n e) (ed_pos e - 1) e, [27; 91; 68]) else (e, []))
  else if c =? 65 then
    let e := if nav e <? 0 then set_nav 0 (set_draft (ed_line e) e)
             else if nav e + 1 <? Z.of_nat (h_len (hist e)) then set_nav (nav e + 1) e else e in
    match hist_get (Z.to_nat (nav e)) (hist e) with
    | Some h => recall h e
    | None => Some (e, [])
    end
  else
    if nav e <? 0 then Some (e, []) else
    let e := set_nav (nav e - 1) e in
    if nav e <? 0 then recall (until_nul (draft e)) e
    else match hist_get (Z.to_nat (nav e)) (hist e) with Some h => recall h e | None => Some (e, []) end.

Definition backspace (e : Editor) : option (Editor * list Z) :=
  if (ed_pos e =? 0)%nat then Some (e, []) else
  mid ← slice (ed_line e) (ed_pos e) (ed_n e);
  l ← blit (ed_line e) (ed_pos e - 1) mid;
  l ← upd l (ed_n e - 1) 0;
  let e := set_text l (ed_n e - 1) (ed_pos e - 1) e in
  if (ed_pos e =? ed_n e)%nat then Some (e, [8; 32; 8]) else out ← redraw l (ed_n e) (ed_pos e); Some (e, out).

Definition insert_char (c : Z) (e : Editor) : option (Editor * list Z) :=
  if (ed_pos e =? ed_n e)%nat then
    l ← upd (ed_line e) (ed_n e) c;
    l ← upd l (ed_n e + 1) 0;
    Some (set_text l (ed_n e + 1) (ed_n e + 1) e, [c])
  else
    mid ← slice (ed_line e) (ed_pos e) (ed_n e);
    l ← blit (ed_line e) (ed_pos e + 1) mid;
    l ← upd l (ed_pos e) c;
    l ← upd l (ed_n e + 1) 0;
    out ← redraw l (ed_n e + 1) (ed_pos e + 1);
    Some (set_text l (ed_n e + 1) (ed_pos e + 1) e, out).

Definition tab (e : Editor) : option (Editor * list Z) :=
  '(l, m, out) ← complete (ed_line e) (ed_n e);
  Some (set_text l m m e, (if (ed_pos e <? ed_n e)%nat then csi (ed_n e - ed_pos e) 67 else []) ++ out).

(** ** A byte from the console *)

(** The editor, the bytes sent so far, what the commands act on. *)
Record Shell (D : Type) := mkShell { s_ed : Editor; s_tx : list Z; s_dev : D }.
Arguments mkShell {D} _ _ _.
Arguments s_ed {D} _.
Arguments s_tx {D} _.
Arguments s_dev {D} _.

Section Keys.
Context {D : Type}.
(** A line is run: the bytes it sends. *)
Variable run : list Z -> M D (list Z).
Abbreviation T := (M (Shell D)).

Definition raw (l : list Z) : T unit := modify (fun s => mkShell (s_ed s) (s_tx s ++ l) (s_dev s)).
Definition put_ed (e : Editor) : T unit := modify (fun s => mkShell e (s_tx s) (s_dev s)).
Definition edit (f : Editor -> option (Editor * list Z)) : T unit :=
  e ← reads s_ed; '(e, out) ← lift (f e); put_ed e ;; raw out.
Definition run_line (l : list Z) : T unit := fun s =>
  match run l (s_dev s) with Some (out, d) => Some (tt, mkShell (s_ed s) (s_tx s ++ out) d) | None => None end.

Definition enter : T unit :=
  raw CRLF ;;
  e ← reads s_ed;
  (if (ed_n e =? 0)%nat then mret tt else
     typed ← lift (slice (ed_line e) 0 (ed_n e));
     h ← lift (hist_store typed (hist e));
     put_ed (set_nav (-1) (set_hist h e)) ;;
     run_line typed ;;
     e ← reads s_ed;
     l ← lift (upd (ed_line e) 0 0);
     put_ed (set_text l 0 0 e)) ;;
  raw PROMPT.

(** A byte outside an escape sequence. *)
Definition plain_key (c : Z) : T unit :=
  e ← reads s_ed;
  if (c =? 10) && prev_cr e then put_ed (set_cr false e) else
  put_ed (set_cr false e) ;;
  if (c =? 13) || (c =? 10) then put_ed (set_cr (c =? 13) e) ;; enter
  else if (c =? 8) || (c =? 0x7F) then edit backspace
  else if c =? 9 then edit tab
  else if (32 <=? c) && (c <? 0x7F) && (ed_n e + 2 <? LINE_MAX)%nat then edit (insert_char c)
  else mret tt.

Definition key (c : Z) : T unit :=
  e ← reads s_ed;
  if negb (esc e =? 0) then
    if (esc e =? 1) && ((c =? 91) || (c =? 79)) then put_ed (set_esc 2 e)
    else if (esc e =? 2) && (((48 <=? c) && (c <=? 57)) || (c =? 59)) then mret tt
    else put_ed (set_esc 0 e) ;;
      if (65 <=? c) && (c <=? 68) then edit (arrow c) else mret tt
  else if c =? 27 then put_ed (set_esc 1 e)
  else plain_key c.

Fixpoint keys (l : list Z) : T unit := match l with [] => mret tt | c :: l => key c ;; keys l end.

Definition BANNER : list Z := CRLF ++ bs "shell ready (help for commands)" ++ CRLF ++ PROMPT.

(** The task on the bytes it receives. *)
Definition shell_task (input : list Z) (d : D) : option (unit * Shell D) := keys input (mkShell Editor_new BANNER d).
End Keys.
