(* ===== verification/ShellSpec.v ===== *)
(** * What the line editor does

    The editor on plain text: the text typed, a cursor in it, the past lines, newest
    first.  The editor of Shell.v, with its buffers, ring and indices, refines it. *)
From S2P Require Import Prelude Text StMonad Storage HttpReq Web WebText Shell.

(** ** The specification *)

Record Spec := mkSpec {
  t_text : list Z; t_pos : nat; t_draft : list Z; t_past : list (list Z); t_nav : Z; t_esc : Z; t_cr : bool
}.

Definition Spec_new : Spec := mkSpec [] 0 [] [] (-1) 0 false.

Definition with_text (l : list Z) (p : nat) (t : Spec) : Spec := mkSpec l p (t_draft t) (t_past t) (t_nav t) (t_esc t) (t_cr t).
Definition with_esc (v : Z) (t : Spec) : Spec := mkSpec (t_text t) (t_pos t) (t_draft t) (t_past t) (t_nav t) v (t_cr t).
Definition with_nav (v : Z) (t : Spec) : Spec := mkSpec (t_text t) (t_pos t) (t_draft t) (t_past t) v (t_esc t) (t_cr t).
Definition with_cr (v : bool) (t : Spec) : Spec := mkSpec (t_text t) (t_pos t) (t_draft t) (t_past t) (t_nav t) (t_esc t) v.
Definition with_draft (v : list Z) (t : Spec) : Spec := mkSpec (t_text t) (t_pos t) v (t_past t) (t_nav t) (t_esc t) (t_cr t).
Definition with_past (v : list (list Z)) (t : Spec) : Spec := mkSpec (t_text t) (t_pos t) (t_draft t) v (t_nav t) (t_esc t) (t_cr t).

(** The eight last lines, without repetitions in a row. *)
Definition remember (l : list Z) (past : list (list Z)) : list (list Z) :=
  if decide (head past = Some l) then past else take 8 (l :: past).

Definition draw (text : list Z) (pos : nat) : list Z :=
  [13] ++ PROMPT ++ text ++ [27; 91; 75] ++ (if (pos <? length text)%nat then csi (length text - pos) 68 else []).

Definition spec_recall (src : list Z) (t : Spec) : Spec * list Z := (with_text src (length src) t, draw src (length src)).

Definition spec_arrow (c : Z) (t : Spec) : Spec * list Z :=
  if c =? 67 then
    if (t_pos t <? length (t_text t))%nat then (with_text (t_text t) (t_pos t + 1) t, [27; 91; 67]) else (t, [])
  else if c =? 68 then
    if (0 <? t_pos t)%nat then (with_text (t_text t) (t_pos t - 1) t, [27; 91; 68]) else (t, [])
  else if c =? 65 then
    let t := if t_nav t <? 0 then with_nav 0 (with_draft (t_text t) t)
             else if t_nav t + 1 <? Z.of_nat (length (t_past t)) then with_nav (t_nav t + 1) t else t in
    match t_past t !! Z.to_nat (t_nav t) with Some h => spec_recall h t | None => (t, []) end
  else
    if t_nav t <? 0 then (t, []) else
    let t := with_nav (t_nav t - 1) t in
    if t_nav t <? 0 then spec_recall (t_draft t) t
    else match t_past t !! Z.to_nat (t_nav t) with Some h => spec_recall h t | None => (t, []) end.

Definition spec_backspace (t : Spec) : Spec * list Z :=
  if (t_pos t =? 0)%nat then (t, []) else
  let text := take (t_pos t - 1) (t_text t) ++ drop (t_pos t) (t_text t) in
  (with_text text (t_pos t - 1) t, if (t_pos t =? length (t_text t))%nat then [8; 32; 8] else draw text (t_pos t - 1)).

Definition spec_insert (c : Z) (t : Spec) : Spec * list Z :=
  let text := take (t_pos t) (t_text t) ++ c :: drop (t_pos t) (t_text t) in
  (with_text text (t_pos t + 1) t, if (t_pos t =? length (t_text t))%nat then [c] else draw text (t_pos t + 1)).

(** The fields of a text between blanks. *)
Fixpoint fields (l : list Z) : list (list Z) :=
  match l with
  | [] => [[]]
  | b :: l =>
      if blank b then [] :: fields l
      else match fields l with w :: ws => (b :: w) :: ws | [] => [[b]] end
  end.

(** The words but the last lead down the tree of commands; the last is completed. *)
Fixpoint descend (tbl : option (list Cmd)) (fs : list (list Z)) : option (list Cmd) * list Z :=
  match fs with
  | [] => (tbl, [])
  | [w] => (tbl, w)
  | w :: fs => descend (match w with [] => tbl | _ => sub_table tbl w end) fs
  end.

Definition candidates (text : list Z) : list Cmd :=
  let '(tbl, word) := descend (Some ROOT_CMDS) (fields text) in
  match tbl with Some tbl => take 16 (filter (fun c => match_word word c = true) tbl) | None => [] end.
Definition last_word (text : list Z) : list Z := (descend (Some ROOT_CMDS) (fields text)).2.

Definition choices (cs : list Cmd) : list Z := writes 128 (imap (fun i c => [if (0 <? i)%nat then [32; 32] else []; c_name c]) cs).

(** One candidate: the rest of its name and a blank.  Several: what they share, and
    a list of them.  [None] when a blank no longer fits. *)
Definition spec_complete (text : list Z) : option (list Z * list Z) :=
  let w := length (last_word text) in
  match candidates text with
  | [] => Some (text, [])
  | [c] =>
      if (95 <=? length text)%nat then None else
      let ext := take (94 - length text) (drop w (c_name c)) ++ [32] in Some (text ++ ext, ext)
  | c0 :: cs =>
      let text := text ++ take (95 - length text) (drop w (take (lcp_of (c_name c0) (c_name <$> cs)) (c_name c0))) in
      Some (text, CRLF ++ choices (c0 :: cs) ++ CRLF ++ PROMPT ++ text)
  end.

Definition spec_tab (t : Spec) : option (Spec * list Z) :=
  '(text, out) ← spec_complete (t_text t);
  Some (with_text text (length text) t, (if (t_pos t <? length (t_text t))%nat then csi (length (t_text t) - t_pos t) 67 else []) ++ out).

Section SpecKeys.
Context {D : Type}.
Variable run : list Z -> M D (list Z).

(** The new state, the bytes sent, the device; [None] is a panic. *)
Definition spec_enter (t : Spec) (d : D) : option (Spec * list Z * D) :=
  match t_text t with
  | [] => Some (t, CRLF ++ PROMPT, d)
  | text => '(out, d) ← run text d;
            Some (with_text [] 0 (with_nav (-1) (with_past (remember text (t_past t)) t)), CRLF ++ out ++ PROMPT, d)
  end.

Definition keep (d : D) (r : Spec * list Z) : option (Spec * list Z * D) := Some (r.1, r.2, d).

Definition spec_plain (c : Z) (t : Spec) (d : D) : option (Spec * list Z * D) :=
  if (c =? 10) && t_cr t then keep d (with_cr false t, []) else
  let t := with_cr false t in
  if (c =? 13) || (c =? 10) then spec_enter (with_cr (c =? 13) t) d
  else if (c =? 8) || (c =? 0x7F) then keep d (spec_backspace t)
  else if c =? 9 then r ← spec_tab t; keep d r
  else if (32 <=? c) && (c <? 0x7F) && (length (t_text t) <? 94)%nat then keep d (spec_insert c t)
  else keep d (t, []).

Definition spec_key (c : Z) (t : Spec) (d : D) : option (Spec * list Z * D) :=
  if negb (t_esc t =? 0) then
    if (t_esc t =? 1) && ((c =? 91) || (c =? 79)) then keep d (with_esc 2 t, [])
    else if (t_esc t =? 2) && (((48 <=? c) && (c <=? 57)) || (c =? 59)) then keep d (t, [])
    else let t := with_esc 0 t in keep d (if (65 <=? c) && (c <=? 68) then spec_arrow c t else (t, []))
  else if c =? 27 then keep d (with_esc 1 t, [])
  else spec_plain c t d.
End SpecKeys.

(** ** Buffers *)

Lemma upd_app a x b v : upd (a ++ x :: b) (length a) v = Some (a ++ v :: b).
Proof. unfold upd. rewrite decide_True by (len). by rewrite insert_app_r_alt, Nat.sub_diag by done. Qed.

Lemma slice_app {A} (a b c : list A) : slice (a ++ b ++ c) (length a) (length a + length b) = Some b.
Proof. unfold slice. rewrite decide_True by len. rewrite drop_app_length, Nat.add_comm, Nat.add_sub. by rewrite take_app_length. Qed.

Lemma slice_start {A} (b c : list A) : slice (b ++ c) 0 (length b) = Some b.
Proof. exact (slice_app [] b c). Qed.

Lemma blit_app a b c s : length s = length b -> blit (a ++ b ++ c) (length a) s = Some (a ++ s ++ c).
Proof.
  intros H. unfold blit. rewrite decide_True by len. rewrite list_inserts_split by len. rewrite take_app_length, H.
  f_equal. f_equal. f_equal. rewrite drop_app_ge, Nat.add_comm, Nat.add_sub by lia. by rewrite drop_app_length.
Qed.

(** A buffer of 96 bytes that holds a text: NUL-terminated. *)
Definition holds (l text : list Z) : Prop :=
  length l = 96%nat /\ Forall (fun b => b <> 0) text /\ exists rest, l = text ++ 0 :: rest.

Lemma holds_length l text : holds l text -> (length text <= 95)%nat.
Proof. intros (H & _ & rest & ->). rewrite length_app in H. cbn in H. lia. Qed.

Lemma holds_slice l text : holds l text -> slice l 0 (length text) = Some text.
Proof. intros (_ & _ & rest & ->). apply (slice_app [] text). Qed.

Lemma until_nul_app text rest : Forall (fun b => b <> 0) text -> until_nul (text ++ 0 :: rest) = text.
Proof.
  intros H. unfold until_nul. assert (position (Z.eqb 0) (text ++ 0 :: rest) = Some (length text)) as ->.
  { induction H as [|b text Hb _ IH]; [done|]. cbn [app position]. rewrite (proj2 (Z.eqb_neq 0 b)) by done. by rewrite IH. }
  apply take_app_length.
Qed.

Lemma holds_until l text : holds l text -> until_nul l = text.
Proof. intros (_ & H & rest & ->). by apply until_nul_app. Qed.

(** ** Completion *)

Lemma append_while_spec gap bytes : forall text rest, (1 <= gap)%nat -> length (text ++ rest) = LINE_MAX ->
  let tk := take (LINE_MAX - gap - length text) bytes in
  append_while gap bytes (text ++ rest) (length text) = Some (text ++ tk ++ drop (length tk) rest, (length text + length tk)%nat).
Proof.
  induction bytes as [|b bytes IH]; intros text rest Hg Hl tk.
  - unfold tk. rewrite take_nil. cbn. by rewrite Nat.add_0_r.
  - cbn [append_while]. destruct (Nat.leb_spec LINE_MAX (length text + gap)) as [H|H].
    + unfold tk. replace (LINE_MAX - gap - length text)%nat with 0%nat by lia. cbn. by rewrite Nat.add_0_r.
    + rewrite length_app in Hl. destruct rest as [|r rest]; [cbn in Hl; lia|]. rewrite upd_app. cbn [mbind option_bind].
      specialize (IH (text ++ [b]) rest Hg ltac:(rewrite !length_app in *; cbn in *; lia)).
      rewrite <- app_assoc in IH. cbn [app] in IH. rewrite length_app in IH. cbn [length] in IH. rewrite IH. unfold tk.
      destruct (LINE_MAX - gap - length text)%nat as [|m] eqn:E; [lia|]. replace (LINE_MAX - gap - (length text + 1))%nat with m by lia.
      cbn [take length app drop]. rewrite <- app_assoc. cbn. do 2 f_equal. lia.
Qed.

Lemma fields_cons l : exists w ws, fields l = w :: ws.
Proof. destruct l as [|b l]; [by eexists _, _|]. cbn. destruct (blank b); [by eexists _, _|]. destruct (fields l); by eexists _, _. Qed.

Lemma fields_word w l : Forall (fun b => blank b = false) w -> fields (w ++ 32 :: l) = w :: fields l.
Proof. induction 1 as [|b w Hb _ IH]; [done|]. cbn. by rewrite Hb, IH. Qed.

Lemma fields_word_blank w b l : Forall (fun b => blank b = false) w -> blank b = true -> fields (w ++ b :: l) = w :: fields l.
Proof. intros H Hb. induction H as [|x w Hx _ IH]; cbn; [by rewrite Hb|]. by rewrite Hx, IH. Qed.

Lemma fields_last w : Forall (fun b => blank b = false) w -> fields w = [w].
Proof. induction 1 as [|b w Hb _ IH]; [done|]. cbn. by rewrite Hb, IH. Qed.

Lemma descend_blanks bl l tbl : Forall (fun b => blank b = true) bl -> descend tbl (fields (bl ++ l)) = descend tbl (fields l).
Proof.
  induction 1 as [|b bl Hb _ IH]; [done|]. cbn [app fields]. rewrite Hb. cbn [descend].
  destruct (fields_cons (bl ++ l)) as (w & ws & E). by rewrite E in *.
Qed.

Lemma descend_word w b l tbl : w <> [] -> Forall (fun b => blank b = false) w -> blank b = true ->
  descend tbl (fields (w ++ b :: l)) = descend (sub_table tbl w) (fields l).
Proof.
  intros Hw H Hb. rewrite (fields_word_blank w b l H Hb). destruct (fields_cons l) as (x & xs & ->). by destruct w.
Qed.

(** [scan] on what is left of the text. *)
Lemma scan_split p l n i : (i <= n)%nat -> (n <= length l)%nat ->
  exists a b, take (n - i) (drop i l) = a ++ b /\ Forall (fun x => p x = false) a /\
    scan p l n i = (i + length a)%nat /\ match b with [] => scan p l n i = n | x :: _ => p x = true /\ (scan p l n i < n)%nat end.
Proof.
  intros Hi Hn. unfold scan. set (t := take (n - i) (drop i l)). assert (Ht : length t = (n - i)%nat) by (unfold t; len).
  destruct (position p t) as [k|] eqn:E.
  - apply position_Some in E as (a & x & b & Et & Ha & Hx & Hf). exists a, (x :: b). rewrite Et in *. split; [done|]. split; [done|].
    rewrite length_app in Ht. cbn in *. split; [lia|]. split; [done|lia].
  - apply position_None in E. exists t, []. rewrite app_nil_r. split; [done|]. split; [done|]. cbn. split; [lia|done].
Qed.

Lemma take_drop_add {A} (l : list A) n i a b : (i <= n)%nat -> take (n - i) (drop i l) = a ++ b ->
  take (n - (i + length a)) (drop (i + length a) l) = b.
Proof.
  intros Hi E. rewrite <- drop_drop. replace (n - (i + length a))%nat with (n - i - length a)%nat by lia.
  rewrite <- skipn_firstn_comm, E. apply drop_app_length.
Qed.

Lemma level_loop_spec l n fuel : (n <= length l)%nat -> forall tbl i, (i <= n)%nat -> (n - i < fuel)%nat ->
  level_loop fuel l n tbl i = let '(t, w) := descend tbl (fields (take (n - i) (drop i l))) in (t, (n - length w)%nat, length w).
Proof.
  intros Hn. induction fuel as [|fuel IH]; intros tbl i Hi Hf; [lia|]. cbn [level_loop].
  destruct (Nat.leb_spec n i) as [Hni|Hin]; [replace (n - i)%nat with 0%nat by lia; rewrite take_0; cbn [fields descend length]; by rewrite Nat.sub_0_r|].
  destruct (scan_split (fun b => negb (blank b)) l n i Hi Hn) as (bl & t & Et & Hbl & Hs & Ht). rewrite Et.
  rewrite descend_blanks by (eapply Forall_impl; [|exact Hbl]; intros b; cbv beta; by destruct (blank b)).
  destruct t as [|x t]; [rewrite Ht, Nat.eqb_refl; cbn [fields descend length]; by rewrite Nat.sub_0_r|]. destruct Ht as [Hx Hlt]. rewrite (proj2 (Nat.eqb_neq _ _)) by lia.
  pose proof (take_drop_add l n i bl (x :: t) Hi Et) as Ew. rewrite <- Hs in Ew. set (w := scan _ l n i) in *.
  destruct (scan_split blank l n w ltac:(lia) Hn) as (wd & u & Eu & Hwd & Hs2 & Hu). rewrite Ew in Eu. rewrite Hs2.
  assert (Hlen : length (x :: t) = (n - w)%nat) by (rewrite <- Ew; len).
  assert (wd <> []) as Hne.
  { intros ->. cbn [app] in Eu. subst u. destruct Hu as [Hu _]. rewrite Hu in Hx. done. }
  destruct u as [|y u].
  - rewrite app_nil_r in Eu. subst wd. rewrite Hlen. replace (w + (n - w))%nat with n by lia. rewrite Nat.eqb_refl.
    rewrite fields_last by done. cbn [descend]. rewrite Hlen. do 2 f_equal. lia.
  - destruct Hu as [Hy Hlt2]. rewrite Hs2 in Hlt2. rewrite (proj2 (Nat.eqb_neq _ _)) by lia. rewrite Eu, descend_word by done.
    rewrite IH by (destruct wd; [done|cbn [length] in *; lia]).
    assert (take (w + length wd - w) (drop w l) = wd) as ->.
    { replace (w + length wd - w)%nat with (length wd) by lia.
      assert (E2 : take (length wd) (take (n - w) (drop w l)) = wd) by (rewrite Ew, Eu; apply take_app_length).
      by rewrite firstn_firstn, Nat.min_l in E2 by lia. }
    rewrite (take_drop_add l n w wd (y :: u)) by (rewrite ?Ew; lia || done).
    cbn [fields]. rewrite Hy. cbn [descend]. by destruct (fields_cons u) as (q & qs & ->).
Qed.

Lemma complete_level_spec l text : holds l text ->
  complete_level l (length text) = let '(t, w) := descend (Some ROOT_CMDS) (fields text) in (t, (length text - length w)%nat, length w).
Proof.
  intros H. pose proof (holds_length _ _ H) as Hl. destruct H as (H & _ & rest & ->). unfold complete_level.
  rewrite level_loop_spec by (rewrite ?length_app in *; cbn [length] in *; lia). by rewrite Nat.sub_0_r, drop_0, take_app_length.
Qed.

(** The last field is at the end of the text. *)
Lemma descend_last fs : forall tbl, (descend tbl fs).2 = List.last fs [].
Proof. induction fs as [|w fs IH]; intros tbl; [done|]. destruct fs as [|v fs]; [done|]. exact (IH _). Qed.

Lemma fields_single l w : fields l = [w] -> l = w.
Proof.
  revert w. induction l as [|b l IH]; intros w E; cbn in E; [congruence|]. destruct (fields_cons l) as (x & xs & Ex). rewrite Ex in *.
  destruct (blank b); [by destruct xs|]. injection E as <- ->. by rewrite (IH x).
Qed.

Lemma fields_suffix l : exists a, l = a ++ List.last (fields l) [].
Proof.
  induction l as [|b l [a IH]]; [by exists []|]. cbn [fields]. destruct (fields_cons l) as (x & xs & Ex). rewrite Ex in *.
  destruct (blank b); [exists (b :: a); exact (f_equal (cons b) IH)|]. destruct xs as [|y ys].
  - exists []. cbn in *. by rewrite (fields_single l x Ex).
  - exists (b :: a). exact (f_equal (cons b) IH).
Qed.

Lemma last_word_suffix text : exists a, text = a ++ last_word text.
Proof. unfold last_word. rewrite descend_last. apply fields_suffix. Qed.

(** The names of the tree are printable text. *)
Inductive cmd_ok : Cmd -> Prop :=
| cmd_ok_intro name sub : Forall (fun b => 32 <= b < 127) name -> Forall cmd_ok sub -> cmd_ok (mkCmd name sub).

Lemma root_ok : Forall cmd_ok ROOT_CMDS.
Proof. repeat constructor; vm_compute; discriminate. Qed.

Lemma sub_table_ok tbl w t : (forall t0, tbl = Some t0 -> Forall cmd_ok t0) -> sub_table tbl w = Some t -> Forall cmd_ok t.
Proof.
  intros Ht E. destruct tbl as [t0|]; [|done]. specialize (Ht t0 eq_refl). cbn in E.
  destruct (List.find _ t0) as [c|] eqn:Ef; [|done]. apply List.find_some in Ef as [Hin _]. cbn in E.
  rewrite List.Forall_forall in Ht. destruct (Ht c Hin) as [name sub _ Hs]. cbn in E. destruct sub; [done|]. by injection E as <-.
Qed.

Lemma descend_ok fs : forall tbl t, (forall t0, tbl = Some t0 -> Forall cmd_ok t0) -> (descend tbl fs).1 = Some t -> Forall cmd_ok t.
Proof.
  induction fs as [|w fs IH]; intros tbl t Ht E; [by apply Ht|]. destruct fs as [|v fs]; [by apply Ht|].
  apply (IH (match w with [] => tbl | _ => sub_table tbl w end)); [|exact E].
  destruct w; [exact Ht|]. intros t0. by apply sub_table_ok.
Qed.

Lemma candidates_ok text : Forall cmd_ok (candidates text).
Proof.
  unfold candidates. pose proof (descend_ok (fields text) (Some ROOT_CMDS)) as H. destruct (descend _ _) as [[t|] w]; [|constructor].
  apply list.Forall_take. specialize (H t ltac:(intros t0 [= <-]; apply root_ok) eq_refl). rewrite list.Forall_forall in *.
  intros c [_ Hc]%list_elem_of_filter. by apply H.
Qed.

Lemma cmd_ok_name c : cmd_ok c -> Forall (fun b => b <> 0) (c_name c).
Proof. intros [name sub H _]. eapply list.Forall_impl; [exact H|]. cbn. lia. Qed.

Lemma complete_refines l text : holds l text ->
  match spec_complete text with
  | Some (text', out) => exists l', complete l (length text) = Some (l', length text', out) /\ holds l' text'
  | None => complete l (length text) = None
  end.
Proof.
  intros H. pose proof (holds_length _ _ H) as Hl. destruct (last_word_suffix text) as [a Ea].
  pose proof (candidates_ok text) as Hok. unfold spec_complete, complete. rewrite complete_level_spec by done.
  unfold candidates, last_word in *. destruct (descend (Some ROOT_CMDS) (fields text)) as [[tbl|] w] eqn:Ed; cbn [snd] in *; [|by exists l].
  assert (Hw : slice l (length text - length w) (length text - length w + length w) = Some w).
  { destruct H as (_ & _ & rest & ->). rewrite Ea, length_app, <- app_assoc. rewrite Nat.add_sub. apply slice_app. }
  rewrite Hw. cbn [mbind option_bind]. set (cs := take 16 (filter (fun c => match_word w c = true) tbl)) in *.
  destruct H as (Hlen & Htext & rest & ->). destruct cs as [|c0 [|c1 cs]].
  - eexists. split; [done|]. split; [done|]. split; [done|]. by exists rest.
  - apply list.Forall_cons in Hok as [Hc0 _]. destruct (Nat.leb_spec 95 (length text)) as [Hfull|Hroom].
    + rewrite (append_while_spec 2 _ text (0 :: rest)) by (done || lia). replace (LINE_MAX - 2 - length text)%nat with 0%nat by (unfold LINE_MAX; lia).
      rewrite take_0. cbn [length app mbind option_bind]. rewrite drop_0, Nat.add_0_r, upd_app. cbn [mbind option_bind].
      unfold upd at 1. rewrite decide_False; [done|]. rewrite length_app in *. cbn in *. unfold LINE_MAX in *. lia.
    + assert (Hc0' := cmd_ok_name c0 Hc0).
      rewrite (append_while_spec 2 _ text (0 :: rest)) by (done || lia). change (LINE_MAX - 2)%nat with 94%nat.
      set (tk := take (94 - length text) (drop (length w) (c_name c0))). cbn [mbind option_bind].
      assert (Htk : (length tk <= 94 - length text)%nat) by (unfold tk; rewrite length_take; lia).
      rewrite length_app in Hlen. assert (Hd : (2 <= length (drop (length tk) (0%Z :: rest)))%nat) by (rewrite length_drop; cbn [length] in *; unfold LINE_MAX in *; lia).
      destruct (drop (length tk) (0 :: rest)) as [|x [|y rest2]] eqn:Edrop; [cbn in Hd; lia|cbn in Hd; lia|].
      rewrite app_assoc, <- length_app, upd_app. cbn [mbind option_bind].
      replace (length (text ++ tk) + 1)%nat with (length ((text ++ tk) ++ [32])) by (rewrite !length_app; cbn; lia).
      change (32 :: y :: rest2) with ([32] ++ y :: rest2). rewrite app_assoc, upd_app. cbn [mbind option_bind].
      assert (Hs : slice (((text ++ tk) ++ [32]) ++ 0 :: rest2) (length text) (length ((text ++ tk) ++ [32])) = Some (tk ++ [32])).
      { rewrite <- !app_assoc, (app_assoc tk). rewrite length_app. apply slice_app. }
      rewrite Hs. cbn [mbind option_bind]. assert (((text ++ tk) ++ [32]) = text ++ tk ++ [32]) as -> by (by rewrite app_assoc).
      eexists. split; [done|]. split; [|split].
      * apply (f_equal (@length Z)) in Edrop. rewrite length_drop in Edrop. rewrite !length_app. cbn [length] in *. unfold LINE_MAX in *. lia.
      * apply list.Forall_app. split; [done|]. apply list.Forall_app. split; [|by repeat constructor].
        by apply list.Forall_take, list.Forall_drop.
      * by eexists.
  - apply list.Forall_cons in Hok as [Hc0 _]. apply cmd_ok_name in Hc0. cbn [fmap list_fmap].
    set (ext := drop (length w) (take _ (c_name c0))). rewrite (append_while_spec 1 ext text (0 :: rest)) by (done || lia).
    change (LINE_MAX - 1)%nat with 95%nat. set (tk := take (95 - length text) ext). cbn [mbind option_bind].
    assert (Htk : (length tk <= 95 - length text)%nat) by (unfold tk; rewrite length_take; lia).
    rewrite length_app in Hlen. assert (Hd : (1 <= length (drop (length tk) (0%Z :: rest)))%nat) by (rewrite length_drop; cbn [length] in *; unfold LINE_MAX in *; lia).
    destruct (drop (length tk) (0 :: rest)) as [|x rest2] eqn:Edrop; [cbn in Hd; lia|].
    rewrite app_assoc, <- length_app, upd_app. cbn [mbind option_bind]. rewrite slice_start.
    cbn [mbind option_bind]. eexists. split; [done|]. split; [|split].
    + apply (f_equal (@length Z)) in Edrop. rewrite length_drop in Edrop. rewrite !length_app. cbn [length] in *. unfold LINE_MAX in *. lia.
    + apply list.Forall_app. split; [done|]. by apply list.Forall_take, list.Forall_drop, list.Forall_take.
    + by eexists.
Qed.

(** ** History *)

Record hist_ok (h : Hist) (past : list (list Z)) : Prop := {
  ho_lines : length (lines h) = 8%nat;
  ho_newest : (newest h < 8)%nat;
  ho_len : h_len h = length past;
  ho_max : (length past <= 8)%nat;
  ho_slots i x : past !! i = Some x -> exists l, lines h !! ((newest h + 8 - i) mod 8)%nat = Some l /\ holds l x
}.

Lemma plus8 a : ((a + 8) mod 8 = a mod 8)%nat.
Proof. exact (Nat.Div0.mod_add a 1 8). Qed.

Lemma ring_index nw j : (nw < 8)%nat -> (j < 7)%nat ->
  (((nw + 1) mod 8 + 8 - S j) mod 8 = (nw + 8 - j) mod 8)%nat /\ ((nw + 8 - j) mod 8)%nat <> ((nw + 1) mod 8)%nat.
Proof. intros H1 H2. do 8 (destruct nw as [|nw]; [do 7 (destruct j as [|j]; [cbn; lia|]); lia|]). lia. Qed.

Lemma hist_get_ok h past i : hist_ok h past -> hist_get i h = past !! i.
Proof.
  intros [H1 H2 H3 H4 H5]. unfold hist_get, HIST_MAX. rewrite H3. destruct (past !! i) as [x|] eqn:E.
  - pose proof (lookup_lt_Some _ _ _ E) as Hi. rewrite (proj2 (Nat.leb_gt _ _)) by lia.
    destruct (H5 i x E) as (l & -> & Hl). cbn. by rewrite (holds_until l x).
  - apply lookup_ge_None in E. by rewrite (proj2 (Nat.leb_le _ _)) by lia.
Qed.

(** The comparison with the newest line. *)
Lemma holds_same slot x l : holds slot x -> Forall (fun b => b <> 0) l -> (length l <= 95)%nat ->
  exists p, slice slot 0 (length l) = Some p /\
    (if bytes_eqb p l then b ← slot !! length l; Some (b =? 0) else Some false) = Some (bool_decide (x = l)).
Proof.
  intros (Hlen & Hx & rest & E) Hl Hle. unfold slice. rewrite decide_True by lia. rewrite Nat.sub_0_r, drop_0. eexists. split; [done|].
  unfold bytes_eqb. case_bool_decide as Ep.
  - destruct (slot !! length l) as [b|] eqn:Eb; [|apply lookup_ge_None in Eb; lia]. cbn. f_equal.
    pose proof (take_drop_middle _ _ _ Eb) as Em. rewrite Ep in Em. destruct (Z.eqb_spec b 0) as [->|Hb].
    + symmetry. apply bool_decide_eq_true_2. rewrite <- (until_nul_app x rest Hx), <- E, <- Em. by apply until_nul_app.
    + symmetry. apply bool_decide_eq_false_2. intros ->. rewrite E, lookup_app_r, Nat.sub_diag in Eb by lia. by injection Eb as <-.
  - symmetry. f_equal. apply bool_decide_eq_false_2. intros ->. apply Ep. rewrite E. apply take_app_length.
Qed.

Lemma holds_blank_with l : Forall (fun b => b <> 0) l -> (length l <= 95)%nat -> holds (list_inserts 0 l (replicate 96 0)) l.
Proof.
  intros Hl Hle. split; [by rewrite length_inserts, length_replicate|]. split; [done|].
  rewrite list_inserts_split by (rewrite length_replicate; lia). rewrite take_0, app_nil_l, drop_replicate.
  exists (replicate (95 - length l) 0). by replace (96 - (0 + length l))%nat with (S (95 - length l)) by lia.
Qed.

Lemma hist_store_ok h past l : hist_ok h past -> Forall (fun b => b <> 0) l -> (length l <= 95)%nat ->
  exists h', hist_store l h = Some h' /\ hist_ok h' (remember l past).
Proof.
  intros [H1 H2 H3 H4 H5] Hl Hle. unfold hist_store, remember.
  destruct (lines h !! newest h) as [cur|] eqn:Ec; [|apply lookup_ge_None in Ec; lia]. cbn [mbind option_bind].
  assert (Hdup : (if (h_len h =? 0)%nat then Some false
         else p ← slice cur 0 (length l);
              if bytes_eqb p l then b ← cur !! length l; Some (b =? 0) else Some false) = Some (bool_decide (head past = Some l))).
  { rewrite H3. destruct past as [|x past]; [done|]. cbn [length Nat.eqb head].
    destruct (H5 0%nat x eq_refl) as (slot & Es & Hs). rewrite Nat.sub_0_r in Es.
    replace ((newest h + 8) mod 8)%nat with (newest h) in Es by (rewrite plus8, Nat.mod_small by lia; done).
    rewrite Ec in Es. injection Es as <-. destruct (holds_same cur x l Hs Hl Hle) as (p & -> & E). cbn [mbind option_bind]. rewrite E.
    f_equal. apply bool_decide_ext. split; congruence. }
  rewrite Hdup. cbn [mbind option_bind]. case_bool_decide as Eh; [rewrite decide_True by done; by exists h|]. rewrite decide_False by done.
  eexists. split; [done|]. unfold HIST_MAX, LINE_MAX. rewrite Nat.min_l, firstn_all by lia.
  pose proof (Nat.mod_upper_bound (newest h + 1) 8 ltac:(lia)) as Hnw. split; cbn [lines newest h_len].
  - by rewrite length_insert.
  - done.
  - rewrite H3, length_take. cbn [length]. destruct (Nat.ltb_spec (length past) 8); lia.
  - rewrite length_take. lia.
  - intros i x E. apply lookup_take_Some in E as [E Hi]. destruct i as [|i]; cbn in E.
    + injection E as <-. rewrite Nat.sub_0_r. replace (((newest h + 1) mod 8 + 8) mod 8)%nat with ((newest h + 1) mod 8)%nat.
      * rewrite list_lookup_insert_eq by lia. eexists. split; [done|]. by apply holds_blank_with.
      * by rewrite plus8, Nat.Div0.mod_mod.
    + destruct (ring_index (newest h) i H2 ltac:(lia)) as [-> Hne]. rewrite list_lookup_insert_ne by done. by apply H5.
Qed.

(** ** The editor refines the specification *)

Record refines (e : Editor) (t : Spec) : Prop := {
  r_line : holds (ed_line e) (t_text t);
  r_n : ed_n e = length (t_text t);
  r_pos : ed_pos e = t_pos t;
  r_le : (t_pos t <= length (t_text t))%nat;
  r_draft : holds (draft e) (t_draft t);
  r_hist : hist_ok (hist e) (t_past t);
  r_nav : nav e = t_nav t;
  r_nav_ok : -1 <= t_nav t <= 7;
  r_esc : esc e = t_esc t;
  r_cr : prev_cr e = t_cr t
}.

Lemma holds_nil : holds (replicate 96 0) [].
Proof. split; [done|]. split; [constructor|]. by exists (replicate 95 0). Qed.

Lemma refines_new : refines Editor_new Spec_new.
Proof.
  split; try done; try apply holds_nil. split; cbn; try done; lia.
Qed.

Lemma refines_text e t l text p : refines e t -> holds l text -> (p <= length text)%nat ->
  refines (set_text l (length text) p e) (with_text text p t).
Proof. intros [] Hl Hp. by split. Qed.

Lemma csi_value k final : (k <= 95)%nat -> csi k final = 27 :: 91 :: decimal (Z.of_nat k) ++ [final].
Proof.
  intros Hk. assert (length (decimal (Z.of_nat k)) <= 2)%nat.
  { apply decimal_length; [|lia]. change (10 ^ Z.of_nat 2) with 100. lia. }
  unfold csi. rewrite write_pieces_fit; [done|]. cbn [concat app length]. rewrite length_app. cbn [length]. lia.
Qed.

Lemma redraw_ok l text pos : holds l text -> redraw l (length text) pos = Some (draw text pos).
Proof.
  intros H. pose proof (holds_length _ _ H). unfold redraw. rewrite (holds_slice _ _ H). cbn [mbind option_bind]. fold (draw text pos).
  rewrite (proj2 (Nat.leb_le _ _)); [done|]. unfold draw. rewrite !length_app.
  assert (length (if (pos <? length text)%nat then csi (length text - pos) 68 else []) <= 5)%nat.
  { case_match; [|cbn; lia]. rewrite csi_value by lia. cbn [length]. rewrite length_app. cbn [length].
    assert (length (decimal (Z.of_nat (length text - pos))) <= 2)%nat; [|lia].
    apply decimal_length; [|lia]. change (10 ^ Z.of_nat 2) with 100. lia. }
  unfold LINE_MAX. change (length PROMPT) with 4%nat. cbn [length]. lia.
Qed.

Lemma recall_ok e t src : refines e t -> Forall (fun b => b <> 0) src -> (length src <= 95)%nat ->
  exists e', recall src e = Some (e', (spec_recall src t).2) /\ refines e' (spec_recall src t).1.
Proof.
  intros He Hs Hl. unfold recall, blit, LINE_MAX. rewrite decide_True by (rewrite length_replicate; lia). cbn [mbind option_bind].
  pose proof (holds_blank_with src Hs Hl) as Hb. rewrite (redraw_ok _ _ _ Hb). cbn [mbind option_bind].
  eexists. split; [done|]. by apply refines_text.
Qed.

(** A past line is a text. *)
Lemma past_text h past i x : hist_ok h past -> past !! i = Some x -> Forall (fun b => b <> 0) x /\ (length x <= 95)%nat.
Proof. intros H E. destruct (ho_slots _ _ H i x E) as (l & _ & Hl). split; [apply Hl|by apply holds_length in Hl]. Qed.

Lemma arrow_ok c e t : refines e t ->
  exists e', arrow c e = Some (e', (spec_arrow c t).2) /\ refines e' (spec_arrow c t).1.
Proof.
  intros He. pose proof He as []. unfold arrow, spec_arrow. rewrite r_n0, r_pos0, r_nav0.
  destruct (c =? 67).
  { destruct (Nat.ltb_spec (t_pos t) (length (t_text t))); eexists; (split; [done|]); [apply refines_text; [done..|lia]|done]. }
  destruct (c =? 68).
  { destruct (Nat.ltb_spec 0 (t_pos t)); eexists; (split; [done|]); [apply refines_text; [done..|lia]|done]. }
  destruct (c =? 65).
  - set (e1 := if t_nav t <? 0 then _ else _). set (t1 := if t_nav t <? 0 then with_nav 0 _ else _).
    assert (H1 : refines e1 t1).
    { unfold e1, t1. rewrite (ho_len _ _ r_hist0). pose proof (ho_max _ _ r_hist0).
      destruct (t_nav t <? 0); [split; try done; cbn; lia|]. destruct (Z.ltb_spec (t_nav t + 1) (Z.of_nat (length (t_past t)))); [|done].
      split; try done; cbn; lia. }
    clearbody e1 t1. rewrite (r_nav _ _ H1), (hist_get_ok _ _ _ (r_hist _ _ H1)).
    destruct (t_past t1 !! Z.to_nat (t_nav t1)) as [x|] eqn:Ex; [|by exists e1].
    destruct (past_text _ _ _ _ (r_hist _ _ H1) Ex) as [Hx Hl]. by apply recall_ok.
  - destruct (Z.ltb_spec (t_nav t) 0); [by exists e|].
    assert (H1 : refines (set_nav (t_nav t - 1) e) (with_nav (t_nav t - 1) t)) by (split; try done; cbn; lia).
    change (nav (set_nav _ e)) with (t_nav t - 1). change (t_nav (with_nav _ t)) with (t_nav t - 1).
    destruct (t_nav t - 1 <? 0).
    + change (draft (set_nav _ e)) with (draft e). rewrite (holds_until _ _ r_draft0).
      apply recall_ok; [done|apply r_draft0|by apply holds_length in r_draft0].
    + rewrite (hist_get_ok _ _ _ (r_hist _ _ H1)). change (t_past (with_nav _ t)) with (t_past t).
      destruct (t_past t !! Z.to_nat (t_nav t - 1)) as [x|] eqn:Ex; [|by eexists].
      destruct (past_text _ _ _ _ r_hist0 Ex) as [Hx Hl]. by apply recall_ok.
Qed.

(** The text on both sides of the cursor. *)
Lemma cut_text e t : refines e t -> exists a b rest, t_text t = a ++ b /\ length a = t_pos t /\
  ed_line e = a ++ b ++ 0 :: rest /\ Forall (fun x => x <> 0) a /\ Forall (fun x => x <> 0) b /\ (length a + length b + S (length rest) = 96)%nat.
Proof.
  intros []. destruct r_line0 as (Hl & Hf & rest & E). exists (take (t_pos t) (t_text t)), (drop (t_pos t) (t_text t)), rest.
  rewrite take_drop. split; [done|]. split; [rewrite length_take; lia|]. split; [by rewrite app_assoc, take_drop|].
  split; [by apply list.Forall_take|]. split; [by apply list.Forall_drop|].
  rewrite E, length_app in Hl. rewrite length_take, length_drop. cbn [length] in Hl. lia.
Qed.

Lemma holds_app a b rest : Forall (fun x => x <> 0) a -> Forall (fun x => x <> 0) b -> (length a + length b + S (length rest) = 96)%nat ->
  holds (a ++ b ++ 0 :: rest) (a ++ b).
Proof.
  intros Ha Hb Hl. split; [rewrite !length_app; cbn [length]; lia|]. split; [by apply list.Forall_app|]. exists rest. by rewrite app_assoc.
Qed.

Lemma backspace_ok e t : refines e t ->
  exists e', backspace e = Some (e', (spec_backspace t).2) /\ refines e' (spec_backspace t).1.
Proof.
  intros He. destruct (cut_text e t He) as (a & b & rest & Et & Ea & El & Ha & Hb & Hlen). unfold backspace, spec_backspace.
  rewrite (r_pos _ _ He). destruct (Nat.eqb_spec (t_pos t) 0) as [H0|H0]; [by exists e|].
  destruct a as [|x a _] using rev_ind; [cbn in Ea; lia|]. rewrite length_app in Ea, Hlen. cbn [length] in Ea, Hlen.
  apply list.Forall_app in Ha as [Ha _]. rewrite <- app_assoc in El.
  assert (Hn : ed_n e = (length (a ++ [x]) + length b)%nat) by (rewrite (r_n _ _ He), Et, !length_app; lia).
  assert (Hp : t_pos t = length (a ++ [x])) by (rewrite length_app; cbn; lia).
  rewrite El, Hn, Hp. rewrite (app_assoc a [x]). rewrite slice_app. cbn [mbind option_bind].
  replace (length (a ++ [x]) - 1)%nat with (length a) by (rewrite length_app; cbn; lia). rewrite <- app_assoc.
  (* the byte before the cursor moves behind the text *)
  assert (exists u y, [x] ++ b = u ++ [y] /\ length u = length b) as (u & y & Eu & Hu).
  { destruct b as [|z b _] using rev_ind; [by exists [], x|]. exists ([x] ++ b), z. rewrite app_assoc. split; [done|]. rewrite !length_app. cbn. lia. }
  replace ([x] ++ b ++ 0 :: rest) with (u ++ [y] ++ 0 :: rest) by (by rewrite (app_assoc u), <- Eu, <- app_assoc).
  rewrite blit_app by done. cbn [mbind option_bind].
  replace (length (a ++ [x]) + length b - 1)%nat with (length (a ++ b)) by (rewrite !length_app; cbn; lia).
  rewrite (app_assoc a b). cbn [app]. rewrite upd_app. cbn [mbind option_bind].
  assert (Htext : take (length a) (t_text t) ++ drop (length (a ++ [x])) (t_text t) = a ++ b).
  { rewrite Et, drop_app_length, <- app_assoc, take_app_length. done. }
  rewrite Htext. assert (Hh : holds ((a ++ b) ++ 0 :: 0 :: rest) (a ++ b)) by (rewrite <- app_assoc; apply holds_app; [done|done|cbn; lia]).
  cbn [ed_pos ed_n set_text]. rewrite (redraw_ok _ _ _ Hh). cbn [mbind option_bind].
  assert (He' : refines (set_text ((a ++ b) ++ 0 :: 0 :: rest) (length (a ++ b)) (length a) e) (with_text (a ++ b) (length a) t))
    by (apply refines_text; [done|done|rewrite length_app; lia]).
  assert (Heq : (length a =? length (a ++ b))%nat = (length (a ++ [x]) =? length (t_text t))%nat).
  { rewrite Et, !length_app. cbn [length]. destruct (Nat.eqb_spec (length a) (length a + length b)), (Nat.eqb_spec (length a + 1) (length a + 1 + length b)); lia || done. }
  rewrite Heq. destruct (length (a ++ [x]) =? length (t_text t))%nat; eexists; (split; [reflexivity|exact He']).
Qed.

Lemma insert_ok c e t : refines e t -> (length (t_text t) < 94)%nat -> c <> 0 ->
  exists e', insert_char c e = Some (e', (spec_insert c t).2) /\ refines e' (spec_insert c t).1.
Proof.
  intros He Hroom Hc. destruct (cut_text e t He) as (a & b & rest & Et & Ea & El & Ha & Hb & Hlen). unfold insert_char, spec_insert.
  rewrite (r_pos _ _ He), (r_n _ _ He), <- Ea, El, Et, drop_app_length, take_app_length.
  rewrite Et, length_app in Hroom. destruct rest as [|r rest]; [cbn in Hlen; lia|].
  assert (Hh : holds (a ++ (c :: b) ++ 0 :: rest) (a ++ c :: b)) by (apply holds_app; [done|by constructor|cbn in *; lia]).
  assert (He' : forall p, (p <= length (a ++ c :: b))%nat ->
    refines (set_text (a ++ (c :: b) ++ 0 :: rest) (length (a ++ c :: b)) p e) (with_text (a ++ c :: b) p t)) by (intros; by apply refines_text).
  replace (length (a ++ b) + 1)%nat with (length (a ++ c :: b)) by (rewrite !length_app; cbn; lia).
  destruct (Nat.eqb_spec (length a) (length (a ++ b))) as [Hend|Hmid].
  - assert (b = []) as -> by (rewrite length_app in Hend; destruct b; [done|cbn in Hend; lia]). rewrite app_nil_r. cbn [app].
    rewrite upd_app. cbn [mbind option_bind]. replace (a ++ c :: r :: rest) with ((a ++ [c]) ++ r :: rest) by (by rewrite <- app_assoc).
    rewrite upd_app. cbn [mbind option_bind]. replace (length a + 1)%nat with (length (a ++ [c])) by (rewrite length_app; cbn; lia).
    rewrite <- app_assoc. eexists. split; [done|]. by apply He'.
  - rewrite length_app in Hmid. rewrite (length_app a b), slice_app. cbn [mbind option_bind].
    destruct b as [|x b]; [cbn in Hmid; lia|].
    replace (a ++ (x :: b) ++ 0 :: r :: rest) with ((a ++ [x]) ++ (b ++ [0]) ++ r :: rest) by (by rewrite <- !app_assoc).
    replace (length a + 1)%nat with (length (a ++ [x])) by (rewrite length_app; cbn; lia).
    rewrite blit_app by (rewrite length_app; cbn; lia). cbn [mbind option_bind].
    rewrite <- (app_assoc a [x]). cbn [app]. rewrite upd_app. cbn [mbind option_bind].
    replace (a ++ c :: x :: b ++ r :: rest) with ((a ++ c :: x :: b) ++ r :: rest) by (by rewrite <- app_assoc).
    rewrite upd_app. cbn [mbind option_bind]. replace ((a ++ c :: x :: b) ++ 0 :: rest) with (a ++ (c :: x :: b) ++ 0 :: rest) by (by rewrite app_assoc).
    rewrite (redraw_ok _ _ _ Hh). cbn [mbind option_bind]. eexists. split; [done|]. apply He'. rewrite !length_app. cbn. lia.
Qed.

Lemma tab_ok e t : refines e t ->
  match spec_tab t with
  | Some (t', out) => exists e', tab e = Some (e', out) /\ refines e' t'
  | None => tab e = None
  end.
Proof.
  intros He. pose proof (complete_refines _ _ (r_line _ _ He)) as H. unfold tab, spec_tab.
  rewrite (r_n _ _ He), (r_pos _ _ He). destruct (spec_complete (t_text t)) as [[text out]|]; cbn [mbind option_bind].
  - destruct H as (l' & -> & Hh). cbn [mbind option_bind]. eexists. split; [done|]. by apply refines_text.
  - by rewrite H.
Qed.

Section Refinement.
Context {D : Type}.
Variable run : list Z -> M D (list Z).
Abbreviation S := (Shell D).

(** A step of the editor is a step of the specification, and sends the same bytes. *)
Definition simulates (m : M S unit) (s : S) (r : option (Spec * list Z * D)) : Prop :=
  match r with
  | Some (t, out, d) => exists e, m s = Some (tt, mkShell e (s_tx s ++ out) d) /\ refines e t
  | None => m s = None
  end.

Lemma sim_edit f e tx d r : (exists e', f e = Some (e', r.2) /\ refines e' r.1) ->
  simulates (edit f) (mkShell e tx d) (keep d r).
Proof. intros (e' & E & H). unfold simulates, keep, edit, mbind, M_bind, reads, lift. cbn [s_ed]. rewrite E. by exists e'. Qed.

Lemma sim_put e e' tx d t : refines e' t -> simulates (put_ed e') (mkShell e tx d) (keep d (t, [])).
Proof. intros H. exists e'. split; [|done]. unfold put_ed, modify. cbn. by rewrite app_nil_r. Qed.

Lemma sim_ret e tx d t : refines e t -> simulates (mret tt) (mkShell e tx d) (keep d (t, [])).
Proof. intros H. exists e. split; [|done]. cbn. by rewrite app_nil_r. Qed.

Lemma refines_esc v e t : refines e t -> refines (set_esc v e) (with_esc v t).
Proof. by intros []. Qed.
Lemma refines_cr v e t : refines e t -> refines (set_cr v e) (with_cr v t).
Proof. by intros []. Qed.

Lemma sim_get (k : Editor -> M S unit) e tx d r : simulates (k e) (mkShell e tx d) r -> simulates (reads s_ed ≫= k) (mkShell e tx d) r.
Proof. done. Qed.
Lemma sim_put_then e e' m tx d r : simulates m (mkShell e' tx d) r -> simulates (put_ed e' ;; m) (mkShell e tx d) r.
Proof. done. Qed.

(** A line that is not empty is stored, then run. *)
Lemma enter_run e tx d t : refines e t -> t_text t <> [] ->
  exists e', refines e' (with_text [] 0 (with_nav (-1) (with_past (remember (t_text t) (t_past t)) t))) /\
    enter run (mkShell e tx d) =
      match run (t_text t) d with Some (out, d') => Some (tt, mkShell e' (((tx ++ CRLF) ++ out) ++ PROMPT) d') | None => None end.
Proof.
  intros He Ht. pose proof (r_line _ _ He) as Hl. pose proof (holds_length _ _ Hl) as Hle.
  destruct (hist_store_ok _ _ (t_text t) (r_hist _ _ He) ltac:(apply Hl) Hle) as (h & Eh & Hh).
  pose proof (holds_slice _ _ Hl) as Hsl. destruct Hl as (Hlen & Hf & rest & El).
  destruct (t_text t) as [|x text] eqn:Et; [done|].
  exists (set_text (0 :: text ++ 0 :: rest) 0 0 (set_nav (-1) (set_hist h e))). split.
  - destruct He. split; try done; cbn; try lia. split; [rewrite El in Hlen; exact Hlen|]. split; [constructor|]. by eexists.
  - unfold enter, raw, run_line, put_ed, mbind, M_bind, reads, modify, lift, mret, M_ret. cbn [s_ed s_tx s_dev].
    rewrite (r_n _ _ He), Et, Hsl, Eh. cbn [length Nat.eqb s_ed s_tx s_dev].
    destruct (run (x :: text) d) as [[out d']|]; [|done]. cbn [s_ed s_tx s_dev]. change (ed_line (set_nav _ _)) with (ed_line e).
    by rewrite El.
Qed.

Lemma sim_enter e tx d t : refines e t -> simulates (enter run) (mkShell e tx d) (spec_enter run t d).
Proof.
  intros He. unfold spec_enter. destruct (t_text t) as [|x text] eqn:Et.
  - exists e. split; [|done]. unfold enter, raw, mbind, M_bind, reads, modify. cbn [s_ed s_tx s_dev]. rewrite (r_n _ _ He), Et.
    cbn. by rewrite <- app_assoc.
  - destruct (enter_run e tx d t He ltac:(by rewrite Et)) as (e' & He' & E). rewrite Et in *. unfold simulates. rewrite E.
    destruct (run (x :: text) d) as [[out d']|]; [|done]. cbn [mbind option_bind s_tx]. exists e'. by rewrite <- !app_assoc.
Qed.

Lemma sim_plain c e tx d t : refines e t -> simulates (plain_key run c) (mkShell e tx d) (spec_plain run c t d).
Proof.
  intros He. unfold plain_key, spec_plain. apply sim_get. rewrite (r_cr _ _ He), (r_n _ _ He).
  destruct ((c =? 10) && t_cr t); [by apply sim_put, refines_cr|].
  pose proof (refines_cr false e t He) as H1. apply sim_put_then. destruct ((c =? 13) || (c =? 10)).
  { apply sim_put_then, sim_enter. exact (refines_cr (c =? 13) e t He). }
  destruct ((c =? 8) || (c =? 127)); [by apply sim_edit, backspace_ok|].
  destruct (c =? 9).
  { pose proof (tab_ok _ _ H1) as H. destruct (spec_tab (with_cr false t)) as [[t' out]|]; cbn [mbind option_bind]; [by apply (sim_edit _ _ _ _ (t', out))|].
    unfold simulates, edit, mbind, M_bind, reads, lift. cbn [s_ed]. by rewrite H. }
  change (t_text (with_cr false t)) with (t_text t).
  assert ((length (t_text t) + 2 <? LINE_MAX)%nat = (length (t_text t) <? 94)%nat) as ->.
  { unfold LINE_MAX. destruct (Nat.ltb_spec (length (t_text t)) 94), (Nat.ltb_spec (length (t_text t) + 2) 96); lia || done. }
  destruct ((32 <=? c) && (c <? 127) && (length (t_text t) <? 94)%nat) eqn:Eb; [|by apply sim_ret].
  apply andb_true_iff in Eb as [Eb Hr%Nat.ltb_lt]. apply andb_true_iff in Eb as [Hc%Z.leb_le _].
  apply sim_edit, insert_ok; [done|exact Hr|lia].
Qed.

Lemma sim_key c e tx d t : refines e t -> simulates (key run c) (mkShell e tx d) (spec_key run c t d).
Proof.
  intros He. unfold key, spec_key. apply sim_get. rewrite (r_esc _ _ He). destruct (negb (t_esc t =? 0)).
  - destruct (_ && _); [by apply sim_put, refines_esc|]. destruct (_ && _); [by apply sim_ret|].
    pose proof (refines_esc 0 e t He) as H1. apply sim_put_then.
    destruct (_ && _); [by apply sim_edit, arrow_ok|by apply sim_ret].
  - destruct (c =? 27); [by apply sim_put, refines_esc|by apply sim_plain].
Qed.

Fixpoint spec_keys (l : list Z) (t : Spec) (tx : list Z) (d : D) : option (Spec * list Z * D) :=
  match l with
  | [] => Some (t, tx, d)
  | c :: l => '(t, out, d) ← spec_key run c t d; spec_keys l t (tx ++ out) d
  end.

Lemma sim_keys l : forall e tx d t, refines e t ->
  match spec_keys l t tx d with
  | Some (t', tx', d') => exists e', keys run l (mkShell e tx d) = Some (tt, mkShell e' tx' d') /\ refines e' t'
  | None => keys run l (mkShell e tx d) = None
  end.
Proof.
  induction l as [|c l IH]; intros e tx d t He; [by exists e|]. cbn [spec_keys].
  assert (keys run (c :: l) (mkShell e tx d) = match key run c (mkShell e tx d) with Some (_, s) => keys run l s | None => None end) as -> by done.
  pose proof (sim_key c e tx d t He) as H. unfold simulates in H. cbn [s_tx] in H.
  destruct (spec_key run c t d) as [[[t1 out] d1]|]; cbn [mbind option_bind]; [|by rewrite H].
  destruct H as (e1 & -> & H1). by apply IH.
Qed.

(** C16: The shell task is the line editor that the specification describes.  On any
    bytes from the console it shows, keeps and runs the same; it panics exactly where
    the specification has no next state. *)
Theorem shell_task_refines input d :
  match spec_keys input Spec_new BANNER d with
  | Some (t, tx, d') => exists e, shell_task run input d = Some (tt, mkShell e tx d') /\ refines e t
  | None => shell_task run input d = None
  end.
Proof. apply sim_keys, refines_new. Qed.

Lemma spec_keys_app a b : forall t tx d,
  spec_keys (a ++ b) t tx d = '(t, tx, d) ← spec_keys a t tx d; spec_keys b t tx d.
Proof. induction a as [|c a IH]; intros t tx d; [done|]. cbn [app spec_keys]. destruct (spec_key run c t d) as [[[t1 o] d1]|]; [apply IH|done]. Qed.

Lemma spec_complete_None text : (length text <= 95)%nat ->
  spec_complete text = None <-> length text = 95%nat /\ exists c, candidates text = [c].
Proof.
  intros Hl. unfold spec_complete. destruct (candidates text) as [|c0 [|c1 cs]].
  - split; [done|]. by intros (_ & c & ?).
  - destruct (Nat.leb_spec 95 (length text)).
    + split; [|done]. intros _. split; [lia|by exists c0].
    + split; [done|]. intros (? & _). lia.
  - split; [done|]. by intros (_ & c & ?).
Qed.

(** The bytes without a next state, if the commands do not panic. *)
Lemma spec_key_None c t d : (forall l, run l d <> None) -> (length (t_text t) <= 95)%nat ->
  spec_key run c t d = None <-> t_esc t = 0 /\ c = 9 /\ length (t_text t) = 95%nat /\ exists cmd, candidates (t_text t) = [cmd].
Proof.
  intros Hrun Hl. unfold spec_key, keep. destruct (Z.eqb_spec (t_esc t) 0) as [E0|E0]; cbn [negb].
  2: { repeat case_match; split; (done || by intros (? & _)). }
  destruct (Z.eqb_spec c 27) as [->|]; [split; [done|]; by intros (_ & ? & _)|].
  unfold spec_plain, keep. destruct (Z.eqb_spec c 9) as [->|Hc].
  - cbn. unfold spec_tab. cbn. pose proof (spec_complete_None (t_text t) Hl) as Hs.
    destruct (spec_complete (t_text t)) as [[text out]|]; cbn.
    + split; [done|]. intros (_ & _ & H). by apply Hs in H.
    + split; [|done]. intros _. split; [done|]. split; [done|]. by apply Hs.
  - split; [|by intros (_ & ? & _)]. unfold spec_enter. intros H. exfalso.
    repeat case_match; simplify_eq; try done. cbn in *.
    destruct (run _ d) as [[o d1]|] eqn:Er; [done|]. by apply Hrun in Er.
Qed.

(** The device changes only by the lines that are run. *)
Lemma spec_key_dev (P : D -> Prop) c t d t' out d' : (forall l o d', P d -> run l d = Some (o, d') -> P d') -> P d ->
  spec_key run c t d = Some (t', out, d') -> P d'.
Proof.
  intros Hp Hd. unfold spec_key, spec_plain, spec_enter, keep. intros E.
  repeat (case_match; simplify_eq; try done); cbn in *; try done.
  all: repeat match goal with H : (match ?x with _ => _ end) = Some _ |- _ => destruct x eqn:? | H : (_ ≫= _) = Some _ |- _ => apply bind_Some in H as (? & ? & ?) end; simplify_eq; try done.
  all: by eapply Hp.
Qed.

(** What the editor holds fits its buffer. *)
Lemma spec_keys_fits input d t tx d' : spec_keys input Spec_new BANNER d = Some (t, tx, d') -> (length (t_text t) <= 95)%nat.
Proof.
  intros Hin. pose proof (sim_keys input Editor_new BANNER d Spec_new refines_new) as Hr. rewrite Hin in Hr. destruct Hr as (e & _ & He).
  exact (holds_length _ _ (r_line _ _ He)).
Qed.

(** Where a run of the specification ends. *)
Lemma spec_keys_None l : forall t tx d, spec_keys l t tx d = None ->
  exists pre c post t1 tx1 d1, l = pre ++ c :: post /\ spec_keys pre t tx d = Some (t1, tx1, d1) /\ spec_key run c t1 d1 = None.
Proof.
  induction l as [|c l IH]; intros t tx d E; [done|]. cbn [spec_keys] in E. destruct (spec_key run c t d) as [[[t1 out] d1]|] eqn:Ek.
  - destruct (IH _ _ _ E) as (pre & c1 & post & t2 & tx2 & d2 & -> & E1 & E2). exists (c :: pre), c1, post, t2, tx2, d2.
    split; [done|]. split; [|done]. cbn [spec_keys]. by rewrite Ek.
  - by exists [], c, l, t, tx, d.
Qed.

(** C34: When the editor panics.  With commands that do not panic, the only byte that
    stops the task is a Tab on a line of 95 bytes whose last word has exactly one
    completion: the blank goes to the last byte of the buffer and the terminator
    behind it. *)
Theorem shell_panic_iff input c d t tx d'
    (Hrun : forall l d, run l d <> None) (Hin : spec_keys input Spec_new BANNER d = Some (t, tx, d')) :
  shell_task run (input ++ [c]) d = None <->
  t_esc t = 0 /\ c = 9 /\ length (t_text t) = 95%nat /\ exists cmd, candidates (t_text t) = [cmd].
Proof.
  pose proof (spec_keys_fits _ _ _ _ _ Hin) as Hl. rewrite <- (spec_key_None c t d' (fun l => Hrun l d') Hl).
  pose proof (sim_keys (input ++ [c]) Editor_new BANNER d Spec_new refines_new) as H.
  rewrite spec_keys_app, Hin in H. cbn [mbind option_bind spec_keys] in H. unfold shell_task.
  destruct (spec_key run c t d') as [[[t1 o] d1]|]; [|done]. by destruct H as (e1 & -> & _).
Qed.
End Refinement.

(** 89 blanks, [io do], Tab; then one more Tab. *)
Lemma shell_panic_iff_witness :
  let run := fun (l : list Z) (d : list (list Z)) => Some ([] : list Z, d ++ [l]) in
  let input := replicate 89 32 ++ bs "io do" ++ [9] in
  exists t tx d', spec_keys run input Spec_new BANNER [] = Some (t, tx, d') /\
    (shell_task run (input ++ [9]) [] = None <->
     t_esc t = 0 /\ 9 = 9 /\ length (t_text t) = 95%nat /\ exists cmd, candidates (t_text t) = [cmd]).
Proof.
  intros run input. destruct (spec_keys run input Spec_new BANNER []) as [[[t tx] d']|] eqn:E; [|vm_compute in E; discriminate].
  exists t, tx, d'. split; [done|]. apply (shell_panic_iff run input 9 [] t tx d'); [by intros|exact E].
Defined.

Lemma shell_tab_panics :
  shell_task (fun (l : list Z) (d : list (list Z)) => Some ([] : list Z, d ++ [l])) (replicate 89 32 ++ bs "io do" ++ [9; 9]) [] = None.
Proof. vm_compute. reflexivity. Qed.

(** Up on an empty history counts as a recall: a Down then drops what was typed since. *)
Lemma shell_down_drops : exists t tx d,
  spec_keys (fun (l : list Z) (d : list (list Z)) => Some ([] : list Z, d ++ [l])) ([27; 91; 65] ++ bs "reboot" ++ [27; 91; 66]) Spec_new BANNER [] = Some (t, tx, d) /\
  t_text t = [].
Proof. eexists _, _, _. split; vm_compute; reflexivity. Qed.
