(* ===== verification/ShellCmd.v ===== *)
(** * The commands of the debug shell (crates/firmware/src/shell.rs)

    What a finished line does to the device, and what it prints.  The identification
    of the build, the MAC address, the link and the figures of the linker come from
    elsewhere and are parameters. *)
From S2P Require Import Prelude Text Bytes TimeMath RegMap ConfigStore UdpCfg WebJson History Channels System Ws FwUpg FwSession.
From S2P Require Import StMonad FtpArgs Storage HttpReq Web Console Shell.

(** What the commands read besides the device. *)
Record Env := mkEnv {
  FW_VERSION : list Z; FW_BUILD : list Z; current_mac : list Z; net_link_up : bool;
  STATS : list TaskStat; stack_words : list Z; stack_lo : Z; stack_hi : Z; ccm_lo : Z; ccm_hi : Z
}.

(** ** Numbers *)

Definition hex_value (b : Z) : option Z :=
  if is_ascii_digit b then Some (b - 48)
  else if (97 <=? b) && (b <=? 102) then Some (b - 87)
  else if (65 <=? b) && (b <=? 70) then Some (b - 55) else None.

Fixpoint parse_hex (acc : Z) (l : list Z) : option Z :=
  match l with
  | [] => Some acc
  | b :: l => v ← hex_value b; if acc * 16 + v <=? 4294967295 then parse_hex (acc * 16 + v) l else None
  end.

(** [u32::from_str_radix(l, 16)]: one leading plus sign is accepted. *)
Definition from_hex (l : list Z) : option Z :=
  match l with
  | [] => None
  | b :: r => if b =? 43 then (if (length r =? 0)%nat then None else parse_hex 0 r) else parse_hex 0 l
  end.

Definition parse_u32 (s : list Z) : option Z :=
  if (length s =? 0)%nat then None
  else if starts_with s (bs "0x") || starts_with s (bs "0X") then
    let digits := drop 2 s in if (length digits =? 0)%nat then None else from_hex digits
  else parse_uint 4294967295 s.

Definition parse_octet (p : list Z) : option Z :=
  if (length p =? 0)%nat || (3 <? length p)%nat || negb (forallb is_ascii_digit p) then None else parse_uint 255 p.

(** Four numbers between points. *)
Definition parse_ip (s : list Z) : option (list Z) :=
  match split 46 s with
  | [a; b; c; d] => a ← parse_octet a; b ← parse_octet b; c ← parse_octet c; d ← parse_octet d; Some [a; b; c; d]
  | _ => None
  end.

Definition format2 (prefix mid : list Z) : list Z := write_pieces 128 [prefix; mid] [].
Definition format3 (prefix mid suffix : list Z) : list Z := write_pieces 128 [prefix; mid; suffix] [].

(** Hexadecimal, lower case, at least [w] digits. *)
Fixpoint hex_go (fuel : nat) (v : Z) (acc : list Z) : list Z :=
  match fuel with
  | O => acc
  | S fuel => let acc := hex_digit (v mod 16) :: acc in if v <? 16 then acc else hex_go fuel (v / 16) acc
  end.
Definition hexw (w : nat) (v : Z) : list Z := let d := hex_go 8 v [] in replicate (w - length d) 48 ++ d.

(** [{:<w}], [{:w}] and [{:0w}]. *)
Definition padr (w : nat) (s : list Z) : list Z := s ++ replicate (w - length s) 32.
Definition padl (w : nat) (n : Z) : list Z := replicate (w - length (decimal n)) 32 ++ decimal n.
Definition pad0 (w : nat) (n : Z) : list Z := replicate (w - length (decimal n)) 48 ++ decimal n.

(** 1.2M, 45K, 891. *)
Definition fmt_cnt (n : Z) : list Z :=
  if 1000000 <=? n then write_pieces 8 [decimal (n / 1000000); [46]; decimal (n / 100000 mod 10); [77]] []
  else if 10000 <=? n then write_pieces 8 [decimal (n / 1000); [75]] []
  else write_pieces 8 [decimal n] [].

(** ** The console of a command *)

Record Con (F : Type) := mkCon { c_web : Web F; c_out : list Z }.
Arguments mkCon {F} _ _.
Arguments c_web {F} _.
Arguments c_out {F} _.

Section Commands.
Context {F : Type} `{!Flash F}.
Variable env : Env.
Abbreviation T := (M (Con F)).

Definition on_web {A} (m : M (Web F) A) : T A := fun s => match m (c_web s) with Some (a, w) => Some (a, mkCon w (c_out s)) | None => None end.
Definition put_line (s : list Z) : T unit := modify (fun c => mkCon (c_web c) (c_out c ++ s ++ [13; 10])).
(** A line formatted into a string of [cap] bytes. *)
Definition line_of (cap : nat) (pieces : list (list Z)) : T unit := put_line (write_pieces cap pieces []).
Fixpoint put_lines (ls : list (list Z)) : T unit := match ls with [] => mret tt | l :: ls => put_line l ;; put_lines ls end.

(** [regs_snapshot]: the registers in vectors of 64 and 16. *)
Definition snap (cap : nat) (l : list Z) : list Z := if (length l <=? cap)%nat then l else [].
Definition regs_snapshot : T (list Z * list Z) := reads (fun c => (snap 64 (holding (w_regs (c_web c))), snap 16 (input (w_regs (c_web c))))).
Definition at_ (h : list Z) (i : nat) : Z := default 0 (h !! i).

Definition reg_write (addr : nat) (value : Z) : T bool := on_web (on_regs (io_write_holding (Z.of_nat addr) (as_u16 value))).

Definition cmd_help : T unit := put_lines [
  bs "commands:"; bs "  help    this help"; bs "  tasks   task list (embassy: stack watermarks, loops, RAM)";
  bs "  reboot  graceful reboot (history sync + ~3s)"; bs "  io      io-edge-hub debug commands ('io help')"].

Definition stack_usage : Z * Z := usage (stack_words env) (stack_lo env) (stack_hi env).

Definition task_row (i : nat) : T unit :=
  st ← lift (task_stat (stack_lo env) i (STATS env));
  match st with
  | None => mret tt
  | Some (name, free, n) =>
      let stk := match free with Some f => write_pieces 16 [decimal f; [47]; decimal stack_usage.2] [] | None => [45] end in
      line_of 64 [padr 16 name; [32]; padr 16 stk; [32]; fmt_cnt n]
  end.
Fixpoint task_rows (n i : nat) : T unit := match n with O => mret tt | S n => task_row i ;; task_rows n (S i) end.

Definition cmd_tasks : T unit :=
  let '(gfree, total) := stack_usage in
  line_of 64 [padr 16 (bs "task"); [32]; padr 16 (bs "stack free/total"); [32]; bs "loops"] ;;
  task_rows (task_count (STATS env)) 0 ;;
  line_of 64 [decimal (Z.of_nat (task_count (STATS env))); bs " tasks, 1 async executor (cooperative)"] ;;
  line_of 64 [bs "stack min free "; decimal gfree; [47]; decimal total; bs " since boot (tasks+IRQ)"] ;;
  line_of 96 [bs "ram: statics "; decimal (statics_bytes total); bs " + stack "; decimal total; bs " of 131072 SRAM; ccm ";
    decimal (ccm_usage (ccm_lo env) (ccm_hi env)).1; [47]; decimal (ccm_usage (ccm_lo env) (ccm_hi env)).2].

Definition cmd_reboot : T unit :=
  put_line (bs "rebooting (history sync + ~3s)...") ;;
  on_web (send_queue Sync) ;;
  on_web (on_sys (set_reboot_status true)).

Definition time_pieces (c : Civil) (epoch : Z) : list (list Z) :=
  if 2020 <=? year c then
    [bs "time    : "; pad0 4 (year c); [45]; pad0 2 (month c); [45]; pad0 2 (day c); [32]; pad0 2 (hour c); [58];
     pad0 2 (min c); [58]; pad0 2 (sec c); bs " ("; decimal epoch; bs ")"]
  else [bs "time    : 1970-01-01 00:00:00 ("; decimal epoch; bs ")"].

Definition cmd_io_info : T unit :=
  '(h, _) ← regs_snapshot;
  let mac i := hexw 2 (current_mac env !!! i) in
  let g i := decimal (at_ h i) in
  line_of 96 [bs "version : "; FW_VERSION env] ;;
  line_of 96 [bs "build   : "; FW_BUILD env] ;;
  put_line (bs "board   : io_edge_f407vet6") ;;
  line_of 48 [bs "mac     : "; mac 0%nat; [58]; mac 1%nat; [58]; mac 2%nat; [58]; mac 3%nat; [58]; mac 4%nat; [58]; mac 5%nat] ;;
  line_of 48 [bs "ip      : "; g HOLDING_IP_OCTET1_IDX; [46]; g (HOLDING_IP_OCTET1_IDX + 1)%nat; [46]; g (HOLDING_IP_OCTET1_IDX + 2)%nat; [46];
    g (HOLDING_IP_OCTET1_IDX + 3)%nat; bs "/24"] ;;
  line_of 24 [bs "link    : "; if net_link_up env then bs "up" else bs "down"] ;;
  line_of 48 [bs "rs485   : "; g HOLDING_RS485_BAUDRATE_IDX; bs " bps, slave id "; g HOLDING_SLAVE_ID_IDX; bs " (8N1)"] ;;
  line_of 48 [bs "can     : id 0x"; hexw 3 (at_ h HOLDING_CAN_ID_IDX); bs ", "; g HOLDING_CAN_BAUDRATE_IDX; bs " kbit/s"] ;;
  s ← reads (fun c => w_sys (c_web c));
  line_of 48 [bs "uptime  : "; decimal (ticks s / (1000 * tick_khz s)); bs " s"] ;;
  line_of 64 (time_pieces (unix_to_civil (now_epoch_local s)) (epoch s)).

(** Eight inputs or outputs in a row. *)
Definition bit_row (v : Z) (row : nat) : list (list Z) :=
  concat (imap (fun i b => (if (0 <? i)%nat then [[32]] else []) ++ [decimal b])
    ((fun i => Z.land (Z.shiftr v (Z.of_nat i)) 1) <$> seq row 8)).

Definition cmd_io_di : T unit :=
  '(h, i) ← regs_snapshot;
  let di := at_ i INPUT_DI_IDX in
  let en := at_ h HOLDING_DI_ENABLE_IDX in
  line_of 48 [bs "DI: 0x"; hexw 4 di; bs " (enable: 0x"; hexw 4 en; bs ")"] ;;
  line_of 48 ([bs "DI"; padr 3 (decimal 1); [45]; padr 3 (decimal 8); bs ": "] ++ bit_row di 0) ;;
  line_of 48 ([bs "DI"; padr 3 (decimal 9); [45]; padr 3 (decimal 16); bs ": "] ++ bit_row di 8).

Definition cmd_io_do : T unit :=
  '(h, _) ← regs_snapshot;
  let do_v := Z.land (at_ h HOLDING_DO_IDX) 0xFF in
  line_of 32 [bs "DO: 0x"; hexw 2 do_v] ;;
  line_of 48 ([bs "DO1 -8  : "] ++ bit_row do_v 0).

Definition cmd_io_do_set (ch_s val_s : list Z) : T unit :=
  match parse_u32 ch_s with
  | None => put_line (format2 (bs "invalid channel: ") ch_s)
  | Some ch =>
      if negb ((1 <=? ch) && (ch <=? 8)) then put_line (bs "invalid channel (1-8)") else
      match parse_u32 val_s with
      | None => put_line (bs "invalid value (0/1)")
      | Some v =>
          if 1 <? v then put_line (bs "invalid value (0/1)") else
          ok ← on_web (web_write_do_bit (as_u16 ch - 1) (negb (v =? 0)));
          if negb ok then put_line (bs "write failed") else
          '(h, _) ← regs_snapshot;
          line_of 48 [bs "DO"; decimal ch; bs " = "; decimal v; bs " (DO: 0x"; hexw 2 (Z.land (at_ h HOLDING_DO_IDX) 0xFF); bs ")"]
      end
  end.

Definition UNITS : list (list Z) := [bs "mA"; bs "mA"; bs "V"; bs "V"].
Definition ai_row (i : list Z) (k : nat) : T unit :=
  let raw := at_ i (INPUT_AI0_IDX + k) in
  line_of 48 [bs "AI"; decimal (Z.of_nat (k + 1)); bs ": "; padl 5 (raw / 100); [46]; pad0 2 (raw mod 100); [32]; UNITS !!! k; bs " (raw "; decimal raw; bs ")"].

Definition cmd_io_ai : T unit :=
  '(h, i) ← regs_snapshot;
  line_of 32 [bs "AI enable: 0x"; hexw 1 (Z.land (at_ h HOLDING_AI_ENABLE_IDX) 0x0F)] ;;
  ai_row i 0 ;; ai_row i 1 ;; ai_row i 2 ;; ai_row i 3.

(** Six registers to a line. *)
Definition reg_row (h : list Z) (c n : nat) : list (list (list Z)) :=
  (fun j => [if (0 <? j mod 6)%nat then [32] else []; bs "0x"; hexw 2 (Z.of_nat j); bs "="; decimal (at_ h j)]) <$> seq c (Nat.min (c + 6) n - c).
Fixpoint reg_rows (fuel : nat) (h : list Z) (c n : nat) : T unit :=
  match fuel with
  | O => mret tt
  | S fuel => if (c <? n)%nat then put_line (writes 96 (reg_row h c n)) ;; reg_rows fuel h (c + 6) n else mret tt
  end.
Definition dump (name h : list Z) (n : nat) : T unit :=
  line_of 64 [name ++ bs " registers ("; decimal (Z.of_nat n); bs "):"] ;; reg_rows n h 0 n.

Definition show_reg (addr : Z) : T unit :=
  '(h, _) ← regs_snapshot;
  line_of 48 [bs "holding[0x"; hexw 2 addr; bs "] = "; decimal (at_ h (Z.to_nat addr))].

Definition cmd_io_reg (args : list (list Z)) : T unit :=
  match args with
  | [] =>
      '(h, i) ← regs_snapshot;
      dump (bs "holding") h MODBUS_HOLDING_REGISTER_NUMBERS ;;
      dump (bs "input") i MODBUS_INPUT_REGISTER_NUMBERS
  | a :: args =>
      match parse_u32 a with
      | None => put_line (format2 (bs "invalid addr: ") a)
      | Some addr =>
          if Z.of_nat MODBUS_HOLDING_REGISTER_NUMBERS <=? addr then put_line (format2 (bs "invalid addr: ") a) else
          match args with
          | [] => show_reg addr
          | v :: _ =>
              match parse_u32 v with
              | None => put_line (bs "invalid value (0-65535)")
              | Some v =>
                  if 0xFFFF <? v then put_line (bs "invalid value (0-65535)") else
                  ok ← reg_write (Z.to_nat addr) v;
                  if negb ok then put_line (bs "write failed") else show_reg addr
              end
          end
      end
  end.

Definition cmd_io_help : T unit := put_lines [
  bs "io                     IO/config overview"; bs "io info                version / mac / ip / link / uptime";
  bs "io di                  DI1-16 status"; bs "io do [set ch 0|1]     DO1-8 status / control";
  bs "io ai                  AI1-4 values (mA / V)"; bs "io rs485 [baud n|sid n]"; bs "io can [id n|bps n]";
  bs "io ip a.b.c.d          static ip (saved)"; bs "io reg [addr [value]]  register dump / read / write";
  bs "io save                persist parameters"; bs "io factory             factory reset + reboot"].

(** A parameter given as a number: checked, written, shown.  [false] falls through to
    the overview. *)
Definition set_param (arg : list Z) (valid : Z -> bool) (idx : nat) (say : Z -> list (list Z)) : T bool :=
  match parse_u32 arg with
  | Some v =>
      if valid v then
        reg_write idx v ;;
        '(h, _) ← regs_snapshot;
        line_of 96 (say (at_ h idx)) ;; mret true
      else mret false
  | None => mret false
  end.

Definition REBOOT_TXT : list Z := bs " (reboot to apply, 'io save' to persist)".
Definition EFFECT_TXT : list Z := bs "(changes take effect after reboot)".

Definition sub_is (args : list (list Z)) (name : list Z) : bool := (3 <=? length args)%nat && bytes_eqb (args !!! 1%nat) name.

Definition io_rs485 (h : list Z) (args : list (list Z)) : T unit :=
  done ← (if sub_is args (bs "baud") then
            set_param (args !!! 2%nat) (fun v => (1200 <=? v) && (v <=? 115200)) HOLDING_RS485_BAUDRATE_IDX
              (fun v => [bs "rs485 baud -> "; decimal v; REBOOT_TXT])
          else if sub_is args (bs "sid") then
            set_param (args !!! 2%nat) (fun v => (1 <=? v) && (v <=? 247)) HOLDING_SLAVE_ID_IDX (fun v => [bs "slave id -> "; decimal v; REBOOT_TXT])
          else mret false);
  if done : bool then mret tt else
  line_of 64 [bs "rs485: "; decimal (at_ h HOLDING_RS485_BAUDRATE_IDX); bs " bps, slave id "; decimal (at_ h HOLDING_SLAVE_ID_IDX); bs " (8N1)"] ;;
  put_line EFFECT_TXT.

Definition io_can (h : list Z) (args : list (list Z)) : T unit :=
  done ← (if sub_is args (bs "id") then
            set_param (args !!! 2%nat) (fun v => (1 <=? v) && (v <=? 0x7FF)) HOLDING_CAN_ID_IDX (fun v => [bs "can id -> 0x"; hexw 3 v; REBOOT_TXT])
          else if sub_is args (bs "bps") then
            set_param (args !!! 2%nat) (fun v => bool_decide (v ∈ [50; 100; 125; 250; 500; 800; 1000])) HOLDING_CAN_BAUDRATE_IDX
              (fun v => [bs "can bps -> "; decimal v; bs " kbit/s" ++ REBOOT_TXT])
          else mret false);
  if done : bool then mret tt else
  line_of 64 [bs "can: id 0x"; hexw 3 (at_ h HOLDING_CAN_ID_IDX); bs ", "; decimal (at_ h HOLDING_CAN_BAUDRATE_IDX); bs " kbit/s"] ;;
  put_line EFFECT_TXT.

Definition io_ip (args : list (list Z)) : T unit :=
  match args with
  | _ :: arg :: _ =>
      match parse_ip arg with
      | Some [a; b; c; d] =>
          if (a =? 0) || (a =? 127) || (255 <=? a) || (d =? 0) || (d =? 255) then put_line (format2 (bs "invalid ip: ") arg) else
          reg_write HOLDING_IP_OCTET1_IDX a ;;
          reg_write (HOLDING_IP_OCTET1_IDX + 1)%nat b ;;
          reg_write (HOLDING_IP_OCTET1_IDX + 2)%nat c ;;
          reg_write (HOLDING_IP_OCTET1_IDX + 3)%nat d ;;
          on_web (on_sys holding_save) ;;
          line_of 64 [bs "ip -> "; decimal a; [46]; decimal b; [46]; decimal c; [46]; decimal d; bs " (saved, reboot to apply)"]
      | _ => put_line (format2 (bs "invalid ip: ") arg)
      end
  | _ => put_line (bs "invalid ip: ")
  end.

Definition io_overview (h i : list Z) : T unit :=
  line_of 64 [bs "DI: 0x"; hexw 4 (at_ i INPUT_DI_IDX); bs "  DO: 0x"; hexw 2 (Z.land (at_ h HOLDING_DO_IDX) 0xFF); bs "  AI: ";
    decimal (at_ i INPUT_AI0_IDX); [32]; decimal (at_ i (INPUT_AI0_IDX + 1)%nat); [32]; decimal (at_ i (INPUT_AI0_IDX + 2)%nat); [32];
    decimal (at_ i (INPUT_AI0_IDX + 3)%nat)] ;;
  line_of 64 [bs "rs485: "; decimal (at_ h HOLDING_RS485_BAUDRATE_IDX); bs " bps sid "; decimal (at_ h HOLDING_SLAVE_ID_IDX); bs " | can: 0x";
    hexw 3 (at_ h HOLDING_CAN_ID_IDX); [32]; decimal (at_ h HOLDING_CAN_BAUDRATE_IDX); bs " kbit/s"] ;;
  put_line (bs "('io help' for subcommands)").

Definition io_save : T unit := on_web (on_sys holding_save) ;; put_line (bs "parameters saved").
Definition io_factory : T unit :=
  on_web (on_sys config_erase_all) ;; on_web (on_sys (set_reboot_status true)) ;;
  put_line (bs "factory reset done, rebooting (defaults after reboot)").

Definition io_dispatch (args : list (list Z)) : T unit :=
  '(h, i) ← regs_snapshot;
  match args with
  | [] => io_overview h i
  | a :: rest =>
      if bytes_eqb a (bs "help") then cmd_io_help
      else if bytes_eqb a (bs "info") then cmd_io_info
      else if bytes_eqb a (bs "di") then cmd_io_di
      else if bytes_eqb a (bs "do") then
        if (4 <=? length args)%nat && bytes_eqb (args !!! 1%nat) (bs "set") then cmd_io_do_set (args !!! 2%nat) (args !!! 3%nat) else cmd_io_do
      else if bytes_eqb a (bs "ai") then cmd_io_ai
      else if bytes_eqb a (bs "rs485") then io_rs485 h args
      else if bytes_eqb a (bs "can") then io_can h args
      else if bytes_eqb a (bs "ip") then io_ip args
      else if bytes_eqb a (bs "reg") then cmd_io_reg rest
      else if bytes_eqb a (bs "save") then io_save
      else if bytes_eqb a (bs "factory") then io_factory
      else put_line (format3 (bs "unknown io command: ") a (bs " ('io help')"))
  end.

Definition ARG_MAX : nat := 6.

(** At most six words; one that is not UTF-8 is empty. *)
Fixpoint argv_loop (fuel : nat) (line : list Z) (n i argc : nat) : list (list Z) :=
  match fuel with
  | O => []
  | S fuel =>
      if (n <=? i)%nat || (ARG_MAX <=? argc)%nat then [] else
      let w := scan (fun b => negb (blank b)) line n i in
      if (n <=? w)%nat then [] else
      let i := scan blank line n w in
      default [] (from_utf8 (take (i - w) (drop w line))) :: argv_loop fuel line n i (argc + 1)
  end.

Definition dispatch (line : list Z) (n : nat) : T unit :=
  match argv_loop (S n) line n 0 0 with
  | [] => mret tt
  | a :: args =>
      if bytes_eqb a (bs "help") then cmd_help
      else if bytes_eqb a (bs "tasks") || bytes_eqb a (bs "ps") then cmd_tasks
      else if bytes_eqb a (bs "reboot") then cmd_reboot
      else if bytes_eqb a (bs "io") then io_dispatch args
      else put_line (format3 (bs "unknown command: ") a (bs " (help)"))
  end.

(** A line typed into the shell. *)
Definition run_shell (typed : list Z) : M (Web F) (list Z) := fun w =>
  match dispatch typed (length typed) (mkCon w []) with Some (_, c) => Some (c_out c, c_web c) | None => None end.
End Commands.
