(* ===== verification/ShellSafe.v ===== *)
(** * What the shell can do to the device

    The commands never panic and keep the invariant of the device; with the editor in
    front of them, the only way to stop the task is the overlong Tab.  Then what the
    commands mean: the words of a line, the numbers, the parameters they set. *)
From S2P Require Import Prelude Text Bytes TimeMath RegMap MbSpec ConfigStore UdpCfg WebJson History Channels System Outputs.
From S2P Require Import Ws FwUpg W25q NorSpec FwSession StMonad FtpArgs Storage HttpReq Web WsSession WebInv WebText.
From S2P Require Import Console Shell ShellSpec ShellCmd.

(** ** Running to the end

    [runs P m]: from a state with [P] the computation ends, without a panic, in a
    state with [P]. *)
Definition runs {S A} (P : S -> Prop) (m : M S A) : Prop := forall s, P s -> wp m s (fun _ s' => P s').

Section Runs.
Context {S : Type} (P : S -> Prop).
Lemma runs_ret {A} (a : A) : runs P (mret a).
Proof. intros s H. exact H. Qed.
Lemma runs_reads {A} (f : S -> A) : runs P (reads f).
Proof. intros s H. exact H. Qed.
Lemma runs_modify f : (forall s, P s -> P (f s)) -> runs P (modify f).
Proof. intros Hf s H. by apply Hf. Qed.
Lemma runs_bind {A B} (m : M S A) (k : A -> M S B) : runs P m -> (forall a, runs P (k a)) -> runs P (m ≫= k).
Proof. intros Hm Hk s H. apply wp_bind. eapply wp_mono; [exact (Hm s H)|]. intros a s'. apply Hk. Qed.
Lemma runs_lift {A} (o : option A) a : o = Some a -> runs P (lift o).
Proof. intros -> s H. exact H. Qed.
Lemma runs_keeps {A} (m : M S A) : keeps P m -> (forall s, m s <> None) -> runs P m.
Proof. intros Hk Ht s H. specialize (Hk s H). specialize (Ht s). unfold wp. by destruct (m s) as [[a s']|]. Qed.
End Runs.

Ltac runs_with tac :=
  repeat first
    [ tac | apply runs_ret | apply runs_reads
    | match goal with |- runs _ (_ ≫= _) => apply runs_bind; [|intros ?] end
    | match goal with |- runs _ (match ?x with _ => _ end) => destruct x eqn:? end ].

Section Commands.
Context {F : Type} `{!Flash F}.
Variable env : Env.
Definition con_inv (c : Con F) : Prop := device_inv (c_web c).
Abbreviation ok := (runs con_inv).

Lemma ok_web {A} (m : M (Web F) A) : keeps device_inv m -> (forall w, m w <> None) -> ok (on_web m).
Proof.
  intros Hk Ht c Hc. unfold wp, on_web. specialize (Hk _ Hc). specialize (Ht (c_web c)). by destruct (m (c_web c)) as [[a w]|].
Qed.

Lemma ok_line s : ok (put_line s).
Proof. by apply runs_modify. Qed.
Lemma ok_line_of cap ps : ok (line_of cap ps).
Proof. apply ok_line. Qed.
Lemma ok_lines ls : ok (put_lines ls).
Proof. induction ls as [|l ls IH]; cbn [put_lines]; [apply runs_ret|]. apply runs_bind; [apply ok_line|by intros []]. Qed.
Lemma ok_regs : ok regs_snapshot.
Proof. apply runs_reads. Qed.

Lemma ok_write a v : ok (reg_write a v).
Proof.
  apply ok_web; [apply keeps_write; [lia|apply as_u16_range]|]. intros w. unfold on_regs.
  by destruct (io_write_holding _ _ _ _) as [[r regs] sys].
Qed.

Lemma ok_do_bit b st : 0 <= b -> ok (on_web (web_write_do_bit b st)).
Proof.
  intros Hb. apply ok_web; [by apply keeps_do_bit|]. intros w. unfold web_write_do_bit, on_regs.
  by destruct (io_write_do_bit _ _ _ _) as [[r regs] sys].
Qed.

Lemma ok_on_sys f : keeps device_inv (on_sys (F := F) f) -> ok (on_web (on_sys f)).
Proof. intros H. by apply ok_web. Qed.

Lemma ok_queue c : ok (on_web (send_queue c)).
Proof. apply ok_web; [apply keeps_queue|]. intros w. unfold send_queue. by destruct (try_send _ _ _). Qed.

Create HintDb shell.
Hint Resolve ok_line ok_line_of ok_lines ok_regs ok_write ok_on_sys ok_queue keeps_reboot keeps_save keeps_erase : shell.
Ltac walk := runs_with ltac:(solve [auto with shell nocore]).

Lemma ok_set_param arg valid idx say : ok (set_param arg valid idx say).
Proof. unfold set_param. walk. Qed.
Lemma ok_help : ok cmd_help.
Proof. apply ok_lines. Qed.
Lemma ok_io_help : ok cmd_io_help.
Proof. apply ok_lines. Qed.

Lemma ok_task_rows n : forall i, (i + n <= task_count (STATS env))%nat -> ok (task_rows env n i).
Proof.
  induction n as [|n IH]; intros i Hi; cbn [task_rows]; [apply runs_ret|]. apply runs_bind; [|intros _; apply IH; lia].
  assert (Hlen : (i < length (STATS env))%nat).
  { eapply Nat.lt_le_trans; [|apply (length_filter (fun s => no_name s = false) (STATS env))]. unfold task_count in Hi. lia. }
  destruct (lookup_lt_is_Some_2 _ _ Hlen) as [st Est]. unfold task_row, task_stat. rewrite Est. cbn [mbind option_bind].
  apply runs_bind; [by eapply runs_lift|]. intros r. walk.
Qed.

Lemma ok_tasks : ok (cmd_tasks env).
Proof. unfold cmd_tasks. destruct (stack_usage env) as [gfree total]. walk. by apply ok_task_rows. Qed.
Lemma ok_reboot : ok cmd_reboot.
Proof. unfold cmd_reboot. walk. Qed.
Lemma ok_info : ok (cmd_io_info env).
Proof. unfold cmd_io_info. walk. Qed.
Lemma ok_di : ok cmd_io_di.
Proof. unfold cmd_io_di. walk. Qed.
Lemma ok_do : ok cmd_io_do.
Proof. unfold cmd_io_do. walk. Qed.
Lemma ok_ai : ok cmd_io_ai.
Proof. unfold cmd_io_ai, ai_row. cbv zeta. walk. Qed.

Lemma ok_do_set a v : ok (cmd_io_do_set a v).
Proof.
  unfold cmd_io_do_set. destruct (parse_u32 a) as [ch|]; [|walk]. destruct ((1 <=? ch) && (ch <=? 8)) eqn:Ec; cbn [negb]; [|walk].
  apply andb_true_iff in Ec as [?%Z.leb_le ?%Z.leb_le]. assert (0 <= as_u16 ch - 1) by (rewrite as_u16_id by (unfold is_u16; lia); lia).
  runs_with ltac:(first [solve [auto with shell nocore]|by apply ok_do_bit]).
Qed.

Lemma ok_reg_rows fuel h n : forall c, ok (reg_rows fuel h c n).
Proof. induction fuel as [|fuel IH]; intros c; cbn [reg_rows]; walk. Qed.
Hint Resolve ok_reg_rows : shell.
Lemma ok_reg args : ok (cmd_io_reg args).
Proof. unfold cmd_io_reg, dump, show_reg. walk. Qed.
Hint Resolve ok_set_param : shell.
Lemma ok_rs485 h args : ok (io_rs485 h args).
Proof. unfold io_rs485. walk. Qed.
Lemma ok_can h args : ok (io_can h args).
Proof. unfold io_can. walk. Qed.
Lemma ok_ip args : ok (io_ip args).
Proof. unfold io_ip. walk. Qed.
Lemma ok_overview h i : ok (io_overview h i).
Proof. unfold io_overview. walk. Qed.
Hint Resolve ok_help ok_io_help ok_tasks ok_reboot ok_info ok_di ok_do ok_ai ok_do_set ok_reg ok_rs485 ok_can ok_ip ok_overview : shell.

Lemma ok_save : ok io_save.
Proof. unfold io_save. walk. Qed.
Lemma ok_factory : ok io_factory.
Proof. unfold io_factory. walk. Qed.
Hint Resolve ok_save ok_factory : shell.

Lemma ok_io args : ok (io_dispatch env args).
Proof. unfold io_dispatch. walk. Qed.
Hint Resolve ok_io : shell.
Lemma ok_dispatch line n : ok (dispatch env line n).
Proof. unfold dispatch. walk. Qed.

Lemma run_shell_ok typed (w : Web F) : device_inv w -> exists out w', run_shell env typed w = Some (out, w') /\ device_inv w'.
Proof.
  intros Hw. pose proof (ok_dispatch typed (length typed) (mkCon w []) Hw) as H. unfold wp in H. unfold run_shell.
  destruct (dispatch env typed (length typed) (mkCon w [])) as [[u c]|]; [|done]. by eexists _, _.
Qed.
End Commands.

(** ** The whole shell *)

Section Whole.
Context {F : Type} `{!Flash F}.
Variable env : Env.
Abbreviation run := (run_shell (F := F) env).

Lemma spec_keys_inv l : forall t tx (w : Web F) t' tx' w', device_inv w -> spec_keys run l t tx w = Some (t', tx', w') -> device_inv w'.
Proof.
  induction l as [|c l IH]; intros t tx w t' tx' w' Hw E; [by injection E as _ _ <-|]. cbn [spec_keys] in E.
  destruct (spec_key run c t w) as [[[t1 out] w1]|] eqn:Ek; [|done]. apply (IH _ _ _ _ _ _) in E; [done|].
  eapply (spec_key_dev run device_inv); [|exact Hw|exact Ek]. intros l1 o d' Hd Er.
  destruct (run_shell_ok env l1 _ Hd) as (o1 & w2 & E2 & H2). congruence.
Qed.

(** C17: No input breaks the device.  Whatever bytes come over the console, the registers
    stay well formed, the output pins show the DO register and no queue overflows; and
    the task keeps running, unless the input contains a Tab on a line of 95 bytes that
    has exactly one completion. *)
Theorem shell_device_safe input (w : Web F) (Hw : device_inv w) :
  (exists s, shell_task run input w = Some (tt, s) /\ device_inv (s_dev s)) \/
  (exists pre post t tx w1, input = pre ++ 9 :: post /\ spec_keys run pre Spec_new BANNER w = Some (t, tx, w1) /\
    length (t_text t) = 95%nat /\ exists cmd, candidates (t_text t) = [cmd]).
Proof.
  pose proof (sim_keys run input Editor_new BANNER w Spec_new refines_new) as H.
  destruct (spec_keys run input Spec_new BANNER w) as [[[t tx] w']|] eqn:E.
  - left. destruct H as (e & E1 & _). eexists. split; [exact E1|]. by eapply spec_keys_inv.
  - right. apply spec_keys_None in E as (pre & c & post & t & tx & w1 & -> & E1 & E2).
    pose proof (spec_keys_inv _ _ _ _ _ _ _ Hw E1) as Hw1.
    apply spec_key_None in E2 as (_ & -> & Hl & Hc); [by exists pre, post, t, tx, w1| |by eapply spec_keys_fits].
    intros l. destruct (run_shell_ok env l w1 Hw1) as (o & w2 & -> & _). done.
Qed.
End Whole.

Definition env_demo : Env := mkEnv (bs "1.2.13") (bs "abc") [0; 8; 220; 1; 2; 3] true
  (probe (0x8000, bs "sh") 0x20001000 STATS_init) (replicate 512 PATTERN ++ [1]) 0x20010000 0x20020000 0x10000000 0x10009C40.

Lemma shell_device_safe_witness :
  let input := bs "io do set 3 1" ++ [13] ++ bs "io di" ++ [13] in
  device_inv web_blank /\
  ((exists s, shell_task (run_shell env_demo) input web_blank = Some (tt, s) /\ device_inv (s_dev s)) \/
   (exists pre post t tx w1, input = pre ++ 9 :: post /\ spec_keys (run_shell env_demo) pre Spec_new BANNER web_blank = Some (t, tx, w1) /\
     length (t_text t) = 95%nat /\ exists cmd, candidates (t_text t) = [cmd])).
Proof. intros input. split; [exact web_blank_inv|]. exact (shell_device_safe env_demo input web_blank web_blank_inv). Defined.

(** ** Words *)

Lemma argv_loop_words l n fuel : (n <= length l)%nat -> forall i argc, (i <= n)%nat -> (n - i < fuel)%nat ->
  argv_loop fuel l n i argc =
    (fun w => default [] (from_utf8 w)) <$> take (ARG_MAX - argc) (filter (fun w => w <> []) (fields (take (n - i) (drop i l)))).
Proof.
  intros Hn. induction fuel as [|fuel IH]; intros i argc Hi Hf; [lia|]. cbn [argv_loop].
  destruct (Nat.leb_spec n i) as [Hni|Hin].
  { replace (n - i)%nat with 0%nat by lia. rewrite take_0. by destruct (ARG_MAX - argc)%nat. }
  destruct (Nat.leb_spec ARG_MAX argc) as [Ha|Ha]; [replace (ARG_MAX - argc)%nat with 0%nat by lia; by rewrite take_0|]. cbn [orb].
  destruct (scan_split (fun b => negb (blank b)) l n i Hi Hn) as (bl & t & Et & Hbl & Hs & Ht). rewrite Et.
  assert (Hskip : filter (fun w => w <> []) (fields (bl ++ t)) = filter (fun w => w <> []) (fields t)).
  { clear -Hbl. induction bl as [|b bl IHb]; [done|]. apply list.Forall_cons in Hbl as [Hb Hbl]. cbn [app fields].
    destruct (blank b); [|done]. rewrite filter_cons_False by (by intros []). by apply IHb. }
  rewrite Hskip. destruct t as [|x t].
  { rewrite Ht, (proj2 (Nat.leb_le n n)) by lia. by destruct (ARG_MAX - argc)%nat. }
  destruct Ht as [Hx Hlt]. rewrite (proj2 (Nat.leb_gt _ _)) by lia.
  pose proof (take_drop_add l n i bl (x :: t) Hi Et) as Ew. rewrite <- Hs in Ew. set (w := scan _ l n i) in *.
  destruct (scan_split blank l n w ltac:(lia) Hn) as (wd & u & Eu & Hwd & Hs2 & Hu). rewrite Ew in Eu. rewrite Hs2.
  assert (Hne : wd <> []) by (intros ->; cbn [app] in Eu; subst u; destruct Hu as [Hu _]; by rewrite Hu in Hx).
  assert (Hlen : length (x :: t) = (n - w)%nat) by (rewrite <- Ew; len).
  assert (Hwl : (w + length wd <= n)%nat) by (rewrite Eu, length_app in Hlen; lia).
  assert (Et2 : take (w + length wd - w) (drop w l) = wd).
  { replace (w + length wd - w)%nat with (length wd) by lia.
    assert (E2 : take (length wd) (take (n - w) (drop w l)) = wd) by (rewrite Ew, Eu; apply take_app_length).
    by rewrite firstn_firstn, Nat.min_l in E2 by lia. }
  rewrite Et2, IH by (destruct wd; [done|cbn [length] in *; lia]).
  rewrite (take_drop_add l n w wd u) by (rewrite ?Ew; lia || done).
  assert (Hf2 : filter (fun w => w <> []) (fields (x :: t)) = wd :: filter (fun w => w <> []) (fields u)).
  { rewrite Eu. destruct u as [|y u].
    - rewrite app_nil_r, fields_last by done. rewrite filter_cons_True by done. done.
    - destruct Hu as [Hy _]. rewrite fields_word_blank by done. rewrite filter_cons_True by done. cbn [fields]. rewrite Hy.
      by rewrite filter_cons_False by (by intros []). }
  rewrite Hf2. destruct (ARG_MAX - argc)%nat as [|m] eqn:Em; [lia|]. replace (ARG_MAX - (argc + 1))%nat with m by lia. done.
Qed.

(** The arguments of a command are the words of its line, at most six. *)
Lemma argv_words text : argv_loop (S (length text)) text (length text) 0 0 =
  (fun w => default [] (from_utf8 w)) <$> take 6 (filter (fun w => w <> []) (fields text)).
Proof. rewrite argv_loop_words by lia. by rewrite !Nat.sub_0_r, drop_0, firstn_all. Qed.

(** ** Numbers *)

Lemma hex_digit_value v : 0 <= v < 16 -> hex_value (hex_digit v) = Some v.
Proof.
  intros H. assert (forallZ 0 16 (fun v => bool_decide (hex_value (hex_digit v) = Some v)) = true) as A by (vm_compute; done).
  apply (forallZ_spec 0 16 _ A v) in H. by apply bool_decide_eq_true_1 in H.
Qed.

Lemma parse_hex_app l : forall acc b, parse_hex acc (l ++ [b]) =
  v ← parse_hex acc l; d ← hex_value b; if v * 16 + d <=? 4294967295 then Some (v * 16 + d) else None.
Proof.
  induction l as [|x l IH]; intros acc b; cbn [app parse_hex]; [cbn; destruct (hex_value b); cbn; [by case_match|done]|].
  destruct (hex_value x) as [v|]; [|done]. cbn [mbind option_bind]. destruct (_ <=? _); [apply IH|done].
Qed.

Lemma hex_go_app fuel : forall v acc, hex_go fuel v acc = hex_go fuel v [] ++ acc.
Proof.
  induction fuel as [|fuel IH]; intros v acc; [done|]. cbn [hex_go]. destruct (v <? 16); [done|].
  rewrite IH, (IH _ [_]). by rewrite <- app_assoc.
Qed.

Lemma parse_hex_go fuel : forall v, 0 <= v < 16 ^ Z.of_nat fuel -> v <= 4294967295 -> (0 < fuel)%nat -> parse_hex 0 (hex_go fuel v []) = Some v.
Proof.
  induction fuel as [|fuel IH]; intros v Hv Hm Hf; [lia|]. cbn [hex_go]. destruct (Z.ltb_spec v 16) as [Hs|Hs].
  - rewrite Z.mod_small by lia. cbn [parse_hex]. rewrite hex_digit_value by lia. cbn [mbind option_bind].
    rewrite (proj2 (Z.leb_le _ _)) by lia. done.
  - rewrite hex_go_app, parse_hex_app. rewrite Nat2Z.inj_succ, Z.pow_succ_r in Hv by lia.
    destruct fuel as [|fuel]; [cbn in Hv; lia|].
    rewrite IH; [|split; [apply Z.div_pos; lia|apply Z.div_lt_upper_bound; lia]|zdm|lia].
    cbn [mbind option_bind]. rewrite hex_digit_value by (apply Z.mod_pos_bound; lia). cbn [mbind option_bind].
    assert (v / 16 * 16 + v mod 16 = v) as -> by zdm. by rewrite (proj2 (Z.leb_le _ _)) by lia.
Qed.

Lemma hex_go_head fuel v : (0 < fuel)%nat -> exists b r, hex_go fuel v [] = b :: r /\ b <> 43.
Proof.
  intros Hf. assert (forall w, 0 <= w < 16 -> hex_digit w <> 43).
  { intros w Hw E. pose proof (hex_digit_value w Hw) as H. rewrite E in H. vm_compute in H. done. }
  revert v. induction fuel as [|fuel IH]; intros v; [lia|]. cbn [hex_go]. pose proof (Z.mod_pos_bound v 16 ltac:(lia)).
  destruct (v <? 16); [eexists _, _; split; [done|auto]|]. rewrite hex_go_app. destruct fuel as [|fuel]; [by eexists _, _; split; [done|auto]|].
  destruct (IH ltac:(lia) (v / 16)) as (b & r & -> & Hb). by eexists _, _.
Qed.

(** What the shell prints as a number it reads as that number, in both notations. *)
Theorem shell_numbers n (Hn : is_u32 n) :
  parse_u32 (decimal n) = Some n /\ parse_u32 (bs "0x" ++ hex_go 8 n []) = Some n.
Proof.
  unfold is_u32 in Hn. destruct (parse_decimal n 4294967295 ltac:(lia) ltac:(lia)) as (Hp & Hd & Hne). split.
  - unfold parse_u32. destruct (decimal n) as [|b [|x l]]; [done| |]; cbn [length Nat.eqb].
    { unfold starts_with. change (bs "0x") with [48; 120]. change (bs "0X") with [48; 88]. cbn. by destruct (b =? 48). }
    assert (starts_with (b :: x :: l) (bs "0x") || starts_with (b :: x :: l) (bs "0X") = false) as ->; [|done].
    apply list.Forall_cons in Hd as [_ [Hx _]%list.Forall_cons]. cbv beta in Hx.
    change (bs "0x") with [48; 120]. change (bs "0X") with [48; 88]. cbn [starts_with].
    rewrite (proj2 (Z.eqb_neq x 120)), (proj2 (Z.eqb_neq x 88)) by lia. by rewrite !andb_false_r.
  - unfold parse_u32. change (bs "0x" ++ hex_go 8 n []) with (48 :: 120 :: hex_go 8 n []). cbn [length Nat.eqb].
    destruct (hex_go_head 8 n ltac:(lia)) as (b & r & E & Hb). pose proof (parse_hex_go 8 n ltac:(cbn; lia) ltac:(lia) ltac:(lia)) as Hh.
    rewrite E in *. change (starts_with (48 :: 120 :: b :: r) (bs "0x")) with true. cbn [orb drop length Nat.eqb]. unfold from_hex. by rewrite (proj2 (Z.eqb_neq b 43)).
Qed.

Lemma shell_numbers_witness : parse_u32 (decimal 4660) = Some 4660 /\ parse_u32 (bs "0x" ++ hex_go 8 4660 []) = Some 4660.
Proof. apply (shell_numbers 4660). unfold is_u32. lia. Defined.

(** ** Two commands that differ from the rest of the device *)

(** [io rs485 baud 115200] passes the range check, is stored as a 16-bit number and
    reported as 49664. *)
Lemma baud_115200_truncated :
  (fun '(o, w) => (o, holding (w_regs w) !!! HOLDING_RS485_BAUDRATE_IDX)) <$> run_shell env_demo (bs "io rs485 baud 115200") web_blank =
  Some (bs "rs485 baud -> 49664 (reboot to apply, 'io save' to persist)" ++ [13; 10], 49664).
Proof. vm_compute. reflexivity. Qed.

(** [io ip] stores a multicast address, which the other interfaces refuse. *)
Lemma shell_ip_multicast :
  (fun '(o, w) => (o, holding (w_regs w) !!! HOLDING_IP_OCTET1_IDX)) <$> run_shell env_demo (bs "io ip 224.0.0.1") web_blank =
  Some (bs "ip -> 224.0.0.1 (saved, reboot to apply)" ++ [13; 10], 224) /\ ip_addr_valid 224 0 0 1 = false.
Proof. vm_compute. split; reflexivity. Qed.
