(* ===== verification/ShellScreen.v ===== *)
(** * What the user sees

    A terminal that obeys the control characters and sequences the line editor sends,
    on a row that is wide enough.  Whatever the user types, the last row of the screen
    shows the prompt and the text that the editor holds, with the cursor in its place. *)
From S2P Require Import Prelude Text Bytes TimeMath RegMap MbSpec ConfigStore UdpCfg WebJson History Channels System Outputs.
From S2P Require Import FwSession StMonad FtpArgs Storage HttpReq Web WsSession WebInv WebText Console Shell ShellSpec ShellCmd ShellSafe.

(** ** The terminal *)

(** Between characters, after ESC, after ESC [ and some digits. *)
Inductive Mode := Ground | Esc | Csi (n : nat).

(** The row of the cursor from its left end, and the column of the cursor. *)
Record Term := mkTerm { row : list Z; col : nat; mode : Mode }.
Definition Term_new : Term := mkTerm [] 0 Ground.

Definition print_at (c : nat) (b : Z) (r : list Z) : list Z :=
  let r := r ++ replicate (c - length r) 32 in take c r ++ b :: drop (S c) r.

(** BS, LF (a new, empty row), CR, ESC and the printable characters; then [CUF], [CUB]
    with a count of at least one, and [EL]. *)
Definition term_byte (t : Term) (b : Z) : Term :=
  match mode t with
  | Ground =>
      if b =? 8 then mkTerm (row t) (col t - 1) Ground
      else if b =? 10 then mkTerm [] (col t) Ground
      else if b =? 13 then mkTerm (row t) 0 Ground
      else if b =? 27 then mkTerm (row t) (col t) Esc
      else if (32 <=? b) && (b <? 127) then mkTerm (print_at (col t) b (row t)) (S (col t)) Ground
      else t
  | Esc => mkTerm (row t) (col t) (if b =? 91 then Csi 0 else Ground)
  | Csi n =>
      if (48 <=? b) && (b <=? 57) then mkTerm (row t) (col t) (Csi (10 * n + Z.to_nat (b - 48)))
      else if b =? 67 then mkTerm (row t) (col t + Nat.max 1 n) Ground
      else if b =? 68 then mkTerm (row t) (col t - Nat.max 1 n) Ground
      else if b =? 75 then mkTerm (take (col t) (row t)) (col t) Ground
      else mkTerm (row t) (col t) Ground
  end.
Definition display (l : list Z) (t : Term) : Term := foldl term_byte t l.

Lemma display_app a b t : display (a ++ b) t = display b (display a t).
Proof. apply foldl_app. Qed.

Definition printable (l : list Z) : Prop := Forall (fun b => 32 <= b < 127) l.

Lemma print_at_end r b : print_at (length r) b r = r ++ [b].
Proof. unfold print_at. rewrite Nat.sub_diag. cbn [replicate]. by rewrite app_nil_r, take_ge, drop_ge by lia. Qed.

Lemma print_at_over a x r b : print_at (length a) b (a ++ x :: r) = a ++ b :: r.
Proof.
  unfold print_at. replace (length a - length (a ++ x :: r))%nat with 0%nat by (rewrite length_app; lia). cbn [replicate]. rewrite app_nil_r.
  rewrite take_app_length. f_equal. f_equal. replace (S (length a)) with (length a + 1)%nat by lia. by rewrite <- drop_drop, drop_app_length.
Qed.

(** Printable text goes over what the row holds from the cursor on. *)
Lemma display_text l : forall a r, printable l ->
  display l (mkTerm (a ++ r) (length a) Ground) = mkTerm (a ++ l ++ drop (length l) r) (length a + length l) Ground.
Proof.
  induction l as [|b l IH]; intros a r Hl; [cbn; by rewrite Nat.add_0_r|]. apply list.Forall_cons in Hl as [Hb Hl].
  unfold display. cbn [foldl]. unfold term_byte at 2. cbn [mode row col].
  rewrite (proj2 (Z.eqb_neq b 8)), (proj2 (Z.eqb_neq b 10)), (proj2 (Z.eqb_neq b 13)), (proj2 (Z.eqb_neq b 27)) by lia.
  rewrite (proj2 (Z.leb_le 32 b)), (proj2 (Z.ltb_lt b 127)) by lia. cbn [andb].
  assert (print_at (length a) b (a ++ r) = (a ++ [b]) ++ drop 1 r) as ->.
  { destruct r as [|x r]; [by rewrite !app_nil_r, print_at_end|]. rewrite print_at_over, <- app_assoc. done. }
  replace (S (length a)) with (length (a ++ [b])) by (rewrite length_app; cbn; lia).
  fold (display l (mkTerm ((a ++ [b]) ++ drop 1 r) (length (a ++ [b])) Ground)). rewrite IH by done.
  rewrite <- app_assoc, drop_drop. cbn [app length]. f_equal. rewrite length_app. cbn. lia.
Qed.

Lemma display_digits l n r c : Forall (fun b => 48 <= b <= 57) l ->
  display l (mkTerm r c (Csi n)) = mkTerm r c (Csi (foldl (fun n b => 10 * n + Z.to_nat (b - 48))%nat n l)).
Proof.
  revert n. induction l as [|b l IH]; intros n Hl; [done|]. apply list.Forall_cons in Hl as [Hb Hl]. unfold display. cbn [foldl].
  unfold term_byte at 2. cbn [mode row col]. rewrite (proj2 (Z.leb_le 48 b)), (proj2 (Z.leb_le b 57)) by lia. cbn [andb]. by apply IH.
Qed.

(** The counts that occur, by evaluation. *)
Lemma count_read k : (k <= 95)%nat ->
  Forall (fun b => 48 <= b <= 57) (decimal (Z.of_nat k)) /\ foldl (fun n b => 10 * n + Z.to_nat (b - 48))%nat 0%nat (decimal (Z.of_nat k)) = k.
Proof.
  intros Hk. assert (forallb (fun k => forallb (fun b => (48 <=? b) && (b <=? 57)) (decimal (Z.of_nat k)) &&
    (foldl (fun n b => 10 * n + Z.to_nat (b - 48))%nat 0%nat (decimal (Z.of_nat k)) =? k)%nat) (seq 0 96) = true) as A by (vm_compute; done).
  rewrite forallb_forall in A. specialize (A k ltac:(apply in_seq; lia)). apply andb_true_iff in A as [A1 A2%Nat.eqb_eq]. split; [|done].
  rewrite forallb_forall in A1. apply List.Forall_forall. intros b Hb. specialize (A1 b Hb). blia.
Qed.

(** The three sequences. *)
Lemma display_csi k f r c : (1 <= k <= 95)%nat -> f = 67 \/ f = 68 ->
  display (csi k f) (mkTerm r c Ground) = mkTerm r (if f =? 67 then (c + k)%nat else (c - k)%nat) Ground.
Proof.
  intros Hk Hf. rewrite csi_value by lia. change (27 :: 91 :: decimal (Z.of_nat k) ++ [f]) with ([27; 91] ++ decimal (Z.of_nat k) ++ [f]).
  rewrite !display_app. change (display [27; 91] (mkTerm r c Ground)) with (mkTerm r c (Csi 0)).
  destruct (count_read k ltac:(lia)) as [H1 H2]. rewrite display_digits, H2 by done. unfold display. cbn [foldl]. unfold term_byte. cbn [mode row col].
  replace (Nat.max 1 k) with k by lia. by destruct Hf as [-> | ->].
Qed.

(** ** The row of the prompt *)

(** [text] after the prompt, blanks behind it, the cursor at [pos] in it. *)
Definition shows_line (text : list Z) (pos : nat) (t : Term) : Prop :=
  mode t = Ground /\ col t = (4 + pos)%nat /\ exists k, row t = PROMPT ++ text ++ replicate k 32.

Lemma shows_move text pos p2 t f k : shows_line text pos t -> (1 <= k <= 95)%nat -> f = 67 /\ p2 = (pos + k)%nat \/ f = 68 /\ (p2 + k)%nat = pos ->
  shows_line text p2 (display (csi k f) t).
Proof.
  intros (Hm & Hc & j & Hr) Hk Hf. destruct t as [r c m]. cbn [mode col row] in Hm, Hc, Hr. subst m c r.
  rewrite display_csi by (done || tauto || lia). split; [done|]. split; [|by exists j]. cbn [col].
  destruct Hf as [[-> ->]|[-> <-]]; cbn [Z.eqb Pos.eqb]; lia.
Qed.

Lemma printable_check l : forallb (fun b => (32 <=? b) && (b <? 127)) l = true -> printable l.
Proof. intros H. apply List.Forall_forall. intros b Hb. rewrite forallb_forall in H. specialize (H b Hb). blia. Qed.

Lemma prompt_printable : printable PROMPT.
Proof. by apply printable_check. Qed.

(** Prompt and text on a row that may already hold something. *)
Lemma display_line text r : printable text ->
  display (PROMPT ++ text) (mkTerm r 0 Ground) = mkTerm (PROMPT ++ text ++ drop (4 + length text) r) (4 + length text) Ground.
Proof.
  intros Ht. pose proof (display_text (PROMPT ++ text) [] r) as H. rewrite length_app in H. cbn [app length] in H. rewrite <- app_assoc in H.
  apply H. apply list.Forall_app. split; [exact prompt_printable|done].
Qed.

Lemma shows_draw text pos t : printable text -> (pos <= length text <= 95)%nat -> mode t = Ground -> shows_line text pos (display (draw text pos) t).
Proof.
  intros Ht Hp Hm. unfold draw. destruct t as [r c m]. cbn in Hm. subst m. rewrite display_app.
  change (display [13] (mkTerm r c Ground)) with (mkTerm r 0 Ground). rewrite app_assoc, display_app, display_line by done. rewrite display_app.
  assert (display [27; 91; 75] (mkTerm (PROMPT ++ text ++ drop (4 + length text) r) (4 + length text) Ground) = mkTerm (PROMPT ++ text) (4 + length text) Ground) as ->.
  { change (display [27; 91; 75] ?t) with (mkTerm (take (col t) (row t)) (col t) Ground). cbn [row col]. f_equal.
    rewrite app_assoc. apply take_app_length'. by rewrite length_app. }
  assert (shows_line text (length text) (mkTerm (PROMPT ++ text) (4 + length text) Ground)) as H.
  { split; [done|]. split; [done|]. exists 0%nat. cbn [replicate]. by rewrite app_nil_r. }
  destruct (Nat.ltb_spec pos (length text)); [|by replace pos with (length text) by lia]. eapply shows_move; [exact H|lia|right; split; [done|lia]].
Qed.

(** ** What the keys keep *)

(** What the editor holds is printable. *)
Record clean (t : Spec) : Prop := {
  cl_text : printable (t_text t);
  cl_draft : printable (t_draft t);
  cl_past : Forall printable (t_past t);
  cl_len : (length (t_text t) <= 95)%nat /\ (length (t_draft t) <= 95)%nat /\ Forall (fun l => length l <= 95)%nat (t_past t);
  cl_pos : (t_pos t <= length (t_text t))%nat
}.

Lemma printable_app a b : printable (a ++ b) <-> printable a /\ printable b.
Proof. apply list.Forall_app. Qed.

Lemma cmd_printable c : cmd_ok c -> printable (c_name c).
Proof. by intros []. Qed.

Lemma write_pieces_printable cap ps : forall s, printable s -> Forall printable ps -> printable (write_pieces cap ps s).
Proof.
  induction ps as [|p ps IH]; intros s Hs Hp; [done|]. apply list.Forall_cons in Hp as [Hp1 Hp]. cbn [write_pieces].
  case_match; [|done]. apply IH; [by apply printable_app|done].
Qed.

Lemma writes_printable cap ws : Forall (Forall printable) ws -> printable (writes cap ws).
Proof.
  unfold writes. assert (printable []) as H by constructor. revert H. generalize (@nil Z) as s. induction ws as [|p ws IH]; intros s Hs Hw; [done|].
  apply list.Forall_cons in Hw as [Hp Hw]. cbn [foldl]. apply IH; [by apply write_pieces_printable|done].
Qed.

Lemma choices_printable cs : Forall cmd_ok cs -> printable (choices cs).
Proof.
  intros H. apply writes_printable, Forall_lookup_2. intros i p Hp. rewrite list_lookup_imap in Hp.
  destruct (cs !! i) as [c|] eqn:E; [|done]. injection Hp as <-. repeat constructor; [|by apply cmd_printable, (Forall_lookup_1 _ _ _ _ H E)].
  case_match; [|constructor]. by apply printable_check.
Qed.

Lemma shows_type text ext t : shows_line text (length text) t -> printable ext -> shows_line (text ++ ext) (length (text ++ ext)) (display ext t).
Proof.
  intros (Hm & Hc & k & Hr) He. destruct t as [r c m]. cbn [mode col row] in Hm, Hc, Hr. subst m c r.
  pose proof (display_text ext (PROMPT ++ text) (replicate k 32) He) as H. change (length (PROMPT ++ text)) with (4 + length text)%nat in H.
  rewrite app_assoc, H, drop_replicate.
  split; [done|]. split; [cbn [col]; rewrite length_app; lia|]. eexists. cbn [row]. by rewrite <- !app_assoc.
Qed.

Lemma shows_erase text b t : shows_line (text ++ [b]) (length (text ++ [b])) t -> shows_line text (length text) (display [8; 32; 8] t).
Proof.
  intros (Hm & Hc & k & Hr). destruct t as [r c m]. cbn [mode col row] in Hm, Hc, Hr. subst m c r. unfold display. cbn [foldl]. unfold term_byte. cbn [mode row col Z.eqb Pos.eqb Z.leb Z.ltb Z.compare Pos.compare Pos.compare_cont andb].
  rewrite length_app. cbn [length]. replace (4 + (length text + 1) - 1)%nat with (length (PROMPT ++ text)) by (rewrite length_app; cbn; lia).
  rewrite <- app_assoc. cbn [app]. rewrite (app_assoc PROMPT), print_at_over. split; [done|]. split; [cbn [col]; rewrite length_app; cbn; lia|].
  exists (S k). cbn [row replicate]. by rewrite <- app_assoc.
Qed.

Lemma display_crlf t : mode t = Ground -> display CRLF t = Term_new.
Proof. destruct t as [r c m]. cbn [mode]. by intros ->. Qed.

Lemma shows_prompt text : printable text -> shows_line text (length text) (display (PROMPT ++ text) Term_new).
Proof.
  intros Ht. change Term_new with (mkTerm [] 0 Ground). rewrite display_line, drop_nil, app_nil_r by done. split; [done|]. split; [done|].
  exists 0%nat. cbn [row replicate]. by rewrite app_nil_r.
Qed.

Lemma shows_step text pos t f : shows_line text pos t -> f = 67 /\ (pos < length text)%nat \/ f = 68 /\ (0 < pos)%nat ->
  shows_line text (if f =? 67 then (pos + 1)%nat else (pos - 1)%nat) (display [27; 91; f] t).
Proof.
  intros (Hm & Hc & k & Hr) Hf. destruct t as [r c m]. cbn [mode col row] in Hm, Hc, Hr. subst m c r.
  destruct Hf as [[-> Hf]|[-> Hf]]; (split; [done|]); (split; [cbn; lia|by exists k]).
Qed.

(** The screen is what the editor holds. *)
Definition good (t : Spec) (T : Term) : Prop := clean t /\ shows_line (t_text t) (t_pos t) T.
(** A change of the text and what is sent for it. *)
Definition shown (T : Term) (r : Spec * list Z) : Prop := good r.1 (display r.2 T).

(** Tab: the new text and what is sent for it. *)
Lemma tab_shows t t' out T : good t T -> spec_tab t = Some (t', out) -> good t' (display out T).
Proof.
  intros [[Ht Hd Hp (L1 & L2 & L3) Hpos] Hs] E. unfold spec_tab in E. destruct (spec_complete (t_text t)) as [[text o]|] eqn:Ec; [|done].
  cbn [mbind option_bind] in E. injection E as <- <-. cbn [t_text t_pos with_text].
  rewrite display_app. set (T1 := display (if (t_pos t <? length (t_text t))%nat then csi (length (t_text t) - t_pos t) 67 else []) T).
  assert (shows_line (t_text t) (length (t_text t)) T1) as H1.
  { unfold T1. destruct (Nat.ltb_spec (t_pos t) (length (t_text t))); [eapply shows_move; [exact Hs|lia|left; split; [done|lia]]|].
    by replace (length (t_text t)) with (t_pos t) by lia. }
  assert (printable text /\ (length text <= 95)%nat /\ shows_line text (length text) (display o T1)) as (A1 & A2 & A3).
  { clearbody T1. unfold spec_complete in Ec. pose proof (candidates_ok (t_text t)) as Hc. destruct (candidates (t_text t)) as [|c0 [|c1 cs]].
    - by injection Ec as <- <-.
    - case_match eqn:E95; [done|]. apply Nat.leb_gt in E95. injection Ec as <- <-. set (ext := _ ++ [32]).
      assert (printable ext) as He.
      { apply printable_app. split; [|repeat constructor; discriminate]. apply list.Forall_take, list.Forall_drop, cmd_printable. by apply list.Forall_cons in Hc as [Hc _]. }
      split; [by apply printable_app|]. split; [unfold ext; rewrite !length_app, length_take; cbn; lia|]. by apply shows_type.
    - injection Ec as <- <-. set (ext := take _ _). assert (printable ext) as He.
      { apply list.Forall_take, list.Forall_drop, list.Forall_take, cmd_printable. by apply list.Forall_cons in Hc as [Hc0 _]. }
      assert (printable (t_text t ++ ext)) as Hte by (by apply printable_app).
      split; [done|]. split; [unfold ext; rewrite !length_app, length_take; lia|].
      match goal with |- shows_line _ _ (display _ ?T1) =>
        change (shows_line (t_text t ++ ext) (length (t_text t ++ ext)) (display (CRLF ++ choices (c0 :: c1 :: cs) ++ CRLF ++ PROMPT ++ t_text t ++ ext) T1)) end.
      rewrite display_app, display_crlf by apply H1. rewrite display_app.
      pose proof (display_text (choices (c0 :: c1 :: cs)) [] [] (choices_printable _ Hc)) as Hch. cbn [app length] in Hch.
      change Term_new with (mkTerm [] 0 Ground) at 1. rewrite Hch, display_app, display_crlf by done. by apply shows_prompt. }
  split; [by split|done].
Qed.

Lemma clean_text t l p : clean t -> printable l -> (p <= length l <= 95)%nat -> clean (with_text l p t).
Proof. intros [? ? ? (? & ? & ?) ?] ? []. by split. Qed.

Lemma recall_shows src t T : good t T -> printable src -> (length src <= 95)%nat -> shown T (spec_recall src t).
Proof.
  intros [Hc Hs] Hp Hl. split; [by apply clean_text|]. cbn [spec_recall fst snd t_text t_pos with_text]. apply shows_draw; [done|lia|apply Hs].
Qed.

Lemma arrow_shows c t T : good t T -> shown T (spec_arrow c t).
Proof.
  intros H. pose proof H as [[Ht Hd Hp (L1 & L2 & L3) Hpos] Hs]. unfold spec_arrow.
  assert (forall t1 i, good t1 T -> t_past t1 = t_past t ->
    shown T match t_past t1 !! i with Some h => spec_recall h t1 | None => (t1, []) end) as Hpast.
  { intros t1 i H1 E. destruct (t_past t1 !! i) as [h|] eqn:Eh; [|done]. rewrite E in Eh.
    apply recall_shows; [done|exact (Forall_lookup_1 _ _ _ _ Hp Eh)|exact (Forall_lookup_1 _ _ _ _ L3 Eh)]. }
  destruct (Z.eqb_spec c 67).
  { destruct (Nat.ltb_spec (t_pos t) (length (t_text t))) as [Hlt|]; [|done]. split; [apply clean_text; [apply H|done|lia]|].
    apply (shows_step _ _ _ 67 Hs). by left. }
  destruct (Z.eqb_spec c 68).
  { destruct (Nat.ltb_spec 0 (t_pos t)) as [Hlt|]; [|done]. split; [apply clean_text; [apply H|done|lia]|].
    apply (shows_step _ _ _ 68 Hs). by right. }
  destruct (Z.eqb_spec c 65).
  { by apply Hpast; repeat case_match. }
  destruct (t_nav t <? 0); [done|]. cbv zeta.
  destruct (t_nav (with_nav (t_nav t - 1) t) <? 0); [|by apply Hpast]. by apply recall_shows.
Qed.

Lemma backspace_shows t T : good t T -> shown T (spec_backspace t).
Proof.
  intros [Hc Hs]. pose proof Hc as [Ht Hd Hp (L1 & L2 & L3) Hpos]. unfold spec_backspace.
  destruct (Nat.eqb_spec (t_pos t) 0) as [|H0]; [done|]. set (text := _ ++ _).
  assert (printable text) as Hpr by (apply printable_app; split; [by apply list.Forall_take|by apply list.Forall_drop]).
  assert (length text = length (t_text t) - 1)%nat as Hlen by (unfold text; rewrite length_app, length_take, length_drop; lia).
  split; [apply clean_text; [done|done|cbn [t_pos with_text]; lia]|]. cbn [fst snd t_text t_pos with_text].
  destruct (Nat.eqb_spec (t_pos t) (length (t_text t))) as [E|E]; [|apply shows_draw; [done|lia|apply Hs]].
  assert (exists b, t_text t = text ++ [b]) as [b Eb].
  { unfold text. rewrite E, drop_all, app_nil_r. destruct (t_text t) as [|b l _] eqn:Et using rev_ind; [cbn in *; lia|].
    exists b. rewrite length_app. cbn [length]. by rewrite Nat.add_sub, take_app_length. }
  rewrite E, Eb in Hs. rewrite E, <- Hlen. by apply (shows_erase _ b).
Qed.

Lemma insert_shows c t T : good t T -> 32 <= c < 127 -> (length (t_text t) < 94)%nat -> shown T (spec_insert c t).
Proof.
  intros [Hc Hs] Hr Hl. pose proof Hc as [Ht Hd Hp (L1 & L2 & L3) Hpos]. unfold spec_insert. set (text := _ ++ _).
  assert (printable text) as Hpr.
  { apply printable_app; split; [by apply list.Forall_take|]. apply list.Forall_cons. split; [done|by apply list.Forall_drop]. }
  assert (length text = length (t_text t) + 1)%nat as Hlen by (unfold text; rewrite length_app, length_take; cbn [length]; rewrite length_drop; lia).
  split; [apply clean_text; [done|done|cbn [t_pos with_text]; lia]|]. cbn [fst snd t_text t_pos with_text].
  destruct (Nat.eqb_spec (t_pos t) (length (t_text t))) as [E|E]; [|apply shows_draw; [done|lia|apply Hs]].
  assert (text = t_text t ++ [c]) as -> by (unfold text; by rewrite E, take_ge, drop_all by lia).
  rewrite E in *. replace (length (t_text t) + 1)%nat with (length (t_text t ++ [c])) by (rewrite length_app; done).
  apply shows_type; [done|]. constructor; [done|constructor].
Qed.

Section Screen.
Context {D : Type}.
Variable run : list Z -> M D (list Z).

(** A command leaves the terminal at the left end of an empty row. *)
Hypothesis tidy : forall l d out d', printable l -> run l d = Some (out, d') -> display out Term_new = Term_new.

Lemma enter_shows t d t' out d' T : good t T -> spec_enter run t d = Some (t', out, d') -> good t' (display out T).
Proof.
  intros [Hc Hs] E. pose proof Hc as [Ht Hd Hp (L1 & L2 & L3) Hpos]. unfold spec_enter in E.
  assert (forall l, l = [] -> shows_line l 0 (display PROMPT Term_new)) as Hprompt by (intros l ->; apply (shows_prompt []); constructor).
  destruct (t_text t) as [|x text] eqn:Et.
  - assert (t' = t /\ out = CRLF ++ PROMPT) as [-> ->] by (split; congruence).
    split; [done|]. rewrite display_app, display_crlf by apply Hs. rewrite Et in *. cbn [length] in Hpos.
    replace (t_pos t) with 0%nat by lia. by apply Hprompt.
  - destruct (run (x :: text) d) as [[o d1]|] eqn:Er; [|done]. cbn [mbind option_bind] in E.
    match type of E with Some (?t1, _, _) = _ => assert (t' = t1 /\ out = CRLF ++ o ++ PROMPT) as [-> ->] by (split; congruence) end.
    split.
    + assert (forall P, P (x :: text) -> Forall P (t_past t) -> Forall P (remember (x :: text) (t_past t))) as Hr.
      { intros P H1 H2. unfold remember. case_decide; [done|]. apply list.Forall_take. by constructor. }
      split; cbn [t_text t_pos t_draft t_past with_text with_nav with_past]; [constructor|done|by apply Hr| |done].
      split; [cbn; lia|]. split; [done|by apply Hr].
    + rewrite display_app, display_crlf by apply Hs. rewrite display_app. rewrite (tidy _ _ _ _ Ht Er). by apply Hprompt.
Qed.

Lemma key_shows c t d t' out d' T : good t T -> spec_key run c t d = Some (t', out, d') -> good t' (display out T).
Proof.
  intros H E. unfold spec_key, spec_plain, keep in E.
  assert (forall v, good (with_cr v t) T) as Hcr by (intros v; destruct H as [[] ?]; split; [by split|done]).
  assert (forall v, good (with_esc v t) T) as Hesc by (intros v; destruct H as [[] ?]; split; [by split|done]).
  assert (forall r, shown T r -> Some (r.1, r.2, d) = Some (t', out, d') -> good t' (display out T)) as Hr by (by intros r Hg [= <- <- _]).
  repeat match type of E with (if ?b then _ else _) = _ => destruct b eqn:? end;
    try (eapply Hr; [|exact E]; first [apply Hesc|apply Hcr|done]).
  - eapply Hr; [|exact E]. case_match; [apply arrow_shows, Hesc|apply Hesc].
  - eapply enter_shows; [exact (Hcr (c =? 13))|exact E].
  - eapply Hr; [|exact E]. apply backspace_shows, Hcr.
  - destruct (spec_tab _) as [[t1 o]|] eqn:Et; [|done]. eapply (Hr (t1, o)); [|exact E]. by eapply tab_shows; [apply Hcr|].
  - eapply Hr; [|exact E]. repeat match goal with H : _ && _ = true |- _ => apply andb_true_iff in H as [? ?] end. apply insert_shows; [apply Hcr|lia|by apply Nat.ltb_lt].
Qed.

Lemma keys_show l : forall t tx d t' tx' d', good t (display tx Term_new) -> spec_keys run l t tx d = Some (t', tx', d') -> good t' (display tx' Term_new).
Proof.
  induction l as [|c l IH]; intros t tx d t' tx' d' H E; [by injection E as <- <- _|]. cbn [spec_keys] in E.
  destruct (spec_key run c t d) as [[[t1 o] d1]|] eqn:Ek; [|done]. eapply IH; [|exact E]. rewrite display_app. by eapply key_shows.
Qed.

Lemma banner_shows : good Spec_new (display BANNER Term_new).
Proof. split; [by repeat split; try constructor; cbn; lia|]. split; [done|]. split; [done|]. by exists 0%nat. Qed.
End Screen.

(** ** What the commands print *)

Lemma decimal_printable n : printable (decimal n).
Proof.
  unfold decimal. assert (printable []) as H by constructor. revert n H. generalize (@nil Z). generalize 20%nat. intros fuel.
  induction fuel as [|fuel IH]; intros acc n H; [done|]. cbn [digits_go]. pose proof (Z.mod_pos_bound n 10 ltac:(lia)).
  assert (printable (48 + n mod 10 :: acc)) by (constructor; [lia|done]). case_match; [done|by apply IH].
Qed.

Lemma replicate_printable n b : 32 <= b < 127 -> printable (replicate n b).
Proof. intros H. by apply Forall_replicate. Qed.

Lemma hexw_printable w v : printable (hexw w v).
Proof.
  unfold hexw. apply printable_app. split; [by apply replicate_printable|].
  assert (printable []) as H by constructor. revert v H. generalize (@nil Z). generalize 8%nat. intros fuel.
  induction fuel as [|fuel IH]; intros acc v H; [done|]. cbn [hex_go]. pose proof (Z.mod_pos_bound v 16 ltac:(lia)).
  assert (printable (hex_digit (v mod 16) :: acc)) by (constructor; [unfold hex_digit; case_match; lia|done]). case_match; [done|by apply IH].
Qed.

Lemma padr_printable w s : printable s -> printable (padr w s).
Proof. intros H. apply printable_app. split; [done|by apply replicate_printable]. Qed.
Lemma padl_printable w n : printable (padl w n).
Proof. apply printable_app. split; [by apply replicate_printable|apply decimal_printable]. Qed.
Lemma pad0_printable w n : printable (pad0 w n).
Proof. apply printable_app. split; [by apply replicate_printable|apply decimal_printable]. Qed.
Lemma pieces_printable cap ps : Forall printable ps -> printable (write_pieces cap ps []).
Proof. apply write_pieces_printable. constructor. Qed.
Lemma arg_printable args k : Forall printable args -> printable (args !!! k).
Proof. intros H. rewrite list_lookup_total_alt. destruct (args !! k) eqn:E; [exact (Forall_lookup_1 _ _ _ _ H E)|constructor]. Qed.

Create HintDb ink.
#[export] Hint Resolve decimal_printable hexw_printable padr_printable padl_printable pad0_printable pieces_printable arg_printable writes_printable : ink.
Lemma format2_printable a b : Forall printable [a; b] -> printable (format2 a b).
Proof. apply pieces_printable. Qed.
Lemma format3_printable a b c : Forall printable [a; b; c] -> printable (format3 a b c).
Proof. apply pieces_printable. Qed.

(** Down the pieces of a text to the hints. *)
Ltac ink := repeat lazymatch goal with
  | |- Forall printable [] => constructor
  | |- Forall printable (_ :: _) => constructor
  | |- Forall _ (_ ++ _) => apply list.Forall_app; split
  | |- printable (_ ++ _) => apply printable_app; split
  | |- printable (bs _) => apply printable_check; vm_compute; reflexivity
  | |- printable [_] => apply printable_check; reflexivity
  | |- printable [] => constructor
  | |- printable (write_pieces _ _ []) => apply pieces_printable
  | |- printable (padr _ _) => apply padr_printable
  | |- printable (format2 _ _) => apply format2_printable
  | |- printable (format3 _ _ _) => apply format3_printable
  | |- _ => solve [auto with ink nocore]
  end.

Lemma reboot_txt_printable : printable REBOOT_TXT.
Proof. by apply printable_check. Qed.
Lemma effect_txt_printable : printable EFFECT_TXT.
Proof. by apply printable_check. Qed.
Lemma units_printable k : printable (UNITS !!! k).
Proof. apply arg_printable. unfold UNITS. ink. Qed.
#[export] Hint Resolve reboot_txt_printable effect_txt_printable units_printable : ink.

Lemma fmt_cnt_printable n : printable (fmt_cnt n).
Proof. unfold fmt_cnt. repeat case_match; ink. Qed.
#[export] Hint Resolve fmt_cnt_printable : ink.

Lemma bit_row_printable v row : Forall printable (bit_row v row).
Proof.
  unfold bit_row. apply Forall_concat, Forall_lookup_2. intros i l Hl. rewrite list_lookup_imap in Hl. destruct (_ !! i); [|done].
  injection Hl as <-. case_match; cbn [app]; ink.
Qed.

Lemma reg_row_printable h c n : Forall (Forall printable) (reg_row h c n).
Proof. unfold reg_row. apply Forall_fmap, list.Forall_forall. intros j _. cbv beta delta [compose]. case_match; ink. Qed.
#[export] Hint Resolve bit_row_printable reg_row_printable : ink.

(** The build and the tasks have printable names. *)
Record env_ok (env : Env) : Prop := {
  eo_version : printable (FW_VERSION env);
  eo_build : printable (FW_BUILD env);
  eo_tasks : forall s n, s ∈ STATS env -> ts_name s = Some n -> printable n.2
}.

Section Outputs.
Context {F : Type} `{!Flash F}.
Variable env : Env.
Hypothesis Henv : env_ok env.

(** What was printed ends at the left end of an empty row. *)
Definition at_left (c : Con F) : Prop := display (c_out c) Term_new = Term_new.
Abbreviation neat := (keeps at_left).

Lemma neat_line s : printable s -> neat (put_line s).
Proof.
  intros Hs. apply keeps_modify. intros c Hc. unfold at_left. cbn [c_out]. change [13; 10] with CRLF. rewrite !display_app, Hc.
  apply display_crlf. pose proof (display_text s [] [] Hs) as H. cbn [app length] in H. change Term_new with (mkTerm [] 0 Ground). by rewrite H.
Qed.

Lemma neat_line_of cap ps : Forall printable ps -> neat (line_of cap ps).
Proof. intros H. by apply neat_line, pieces_printable. Qed.

Lemma neat_lines ls : Forall printable ls -> neat (put_lines ls).
Proof.
  induction 1 as [|l ls Hl _ IH]; cbn [put_lines]; [apply keeps_ret|]. apply keeps_bind; [by apply neat_line|by intros []].
Qed.

Lemma neat_web {A} (m : M (Web F) A) : neat (on_web m).
Proof. intros c Hc. unfold on_web. by destruct (m (c_web c)) as [[a w]|]. Qed.
Lemma neat_regs : neat regs_snapshot.
Proof. apply keeps_reads. Qed.

Lemma neat_write a v : neat (reg_write a v).
Proof. apply neat_web. Qed.

Create HintDb neat.
Hint Resolve neat_web neat_regs neat_write : neat.
Ltac leaf :=
  lazymatch goal with
  | |- keeps _ (put_line _) => apply neat_line; ink
  | |- keeps _ (line_of _ _) => apply neat_line_of; ink
  | |- keeps _ (put_lines _) => apply neat_lines; ink
  | |- keeps _ (mret _) => apply keeps_ret
  | |- keeps _ (_ ≫= _) => fail
  | |- keeps _ (match _ with _ => _ end) => fail
  | |- _ => solve [auto with neat nocore]
  end.
Ltac walk := keeps_with ltac:(idtac; leaf).

Lemma neat_set_param arg valid idx say : (forall v, Forall printable (say v)) -> neat (set_param arg valid idx say).
Proof. intros Hs. unfold set_param. keeps_with ltac:(first [solve [auto with neat nocore]|by apply neat_line_of]). Qed.

Lemma neat_task_row i : neat (task_row env i).
Proof.
  unfold task_row, task_stat. destruct (STATS env !! i) as [s|] eqn:Es; cbn [mbind option_bind]; [|by intros c].
  destruct (ts_name s) as [n|] eqn:En; cbn [mbind option_bind]; [|by intros c].
  pose proof (eo_tasks _ Henv s n ltac:(by eapply list_elem_of_lookup_2) En) as Hn.
  intros c. apply neat_line_of. repeat case_match; ink.
Qed.
Lemma neat_task_rows n : forall i, neat (task_rows env n i).
Proof. induction n as [|n IH]; intros i; cbn [task_rows]; [apply keeps_ret|]. apply keeps_bind; [apply neat_task_row|intros _; apply IH]. Qed.
Hint Resolve neat_task_rows : neat.

Lemma neat_help : neat cmd_help.
Proof. apply neat_lines. ink. Qed.
Lemma neat_io_help : neat cmd_io_help.
Proof. apply neat_lines. ink. Qed.
Lemma neat_tasks : neat (cmd_tasks env).
Proof. unfold cmd_tasks. destruct (stack_usage env) as [gfree total]. walk. Qed.
Lemma neat_reboot : neat cmd_reboot.
Proof. unfold cmd_reboot. walk. Qed.
Lemma time_printable c e : Forall printable (time_pieces c e).
Proof. unfold time_pieces. case_match; ink. Qed.
Hint Resolve time_printable eo_version eo_build : ink.
Lemma neat_info : neat (cmd_io_info env).
Proof. unfold cmd_io_info. cbv zeta. destruct (net_link_up env); walk. Qed.
Lemma neat_di : neat cmd_io_di.
Proof. unfold cmd_io_di. walk. Qed.
Lemma neat_do : neat cmd_io_do.
Proof. unfold cmd_io_do. walk. Qed.
Lemma neat_ai : neat cmd_io_ai.
Proof. unfold cmd_io_ai, ai_row. cbv zeta. walk. Qed.
Lemma neat_do_set a v : printable a -> neat (cmd_io_do_set a v).
Proof. intros Ha. unfold cmd_io_do_set. walk. Qed.
Lemma neat_reg_rows fuel h n : forall c, neat (reg_rows fuel h c n).
Proof. induction fuel as [|fuel IH]; intros c; cbn [reg_rows]; walk. Qed.
Hint Resolve neat_reg_rows : neat.
Lemma neat_reg args : Forall printable args -> neat (cmd_io_reg args).
Proof. intros H. unfold cmd_io_reg, dump, show_reg. destruct H; walk. Qed.
Lemma neat_rs485 h args : neat (io_rs485 h args).
Proof. unfold io_rs485. keeps_with ltac:(idtac; first [leaf|apply neat_set_param; intros v; ink]). Qed.
Lemma neat_can h args : neat (io_can h args).
Proof. unfold io_can. keeps_with ltac:(idtac; first [leaf|apply neat_set_param; intros v; ink]). Qed.
Lemma neat_ip args : Forall printable args -> neat (io_ip args).
Proof. intros H. unfold io_ip. destruct H as [|a args Ha H]; [walk|]. destruct H; walk. Qed.
Lemma neat_overview h i : neat (io_overview h i).
Proof. unfold io_overview. walk. Qed.
Hint Resolve neat_help neat_io_help neat_tasks neat_reboot neat_info neat_di neat_do neat_ai neat_do_set neat_reg neat_rs485 neat_can neat_ip neat_overview arg_printable : neat.

Lemma neat_save : neat io_save.
Proof. unfold io_save. walk. Qed.
Lemma neat_factory : neat io_factory.
Proof. unfold io_factory. walk. Qed.
Hint Resolve neat_save neat_factory : neat.

Lemma neat_io args : Forall printable args -> neat (io_dispatch env args).
Proof.
  intros H. unfold io_dispatch. apply keeps_bind; [apply neat_regs|]. intros [h i]. pose proof (fun k => arg_printable args k H) as Ha.
  destruct H; [walk|]. assert (Forall printable (x :: l)) by by constructor. walk.
Qed.

Lemma words_printable line n fuel : printable line -> forall i argc, Forall printable (argv_loop fuel line n i argc).
Proof.
  intros H. induction fuel as [|fuel IH]; intros i argc; cbn [argv_loop]; [constructor|]. repeat (case_match; [constructor|]).
  constructor; [|apply IH]. unfold from_utf8. case_match; [|constructor]. by apply list.Forall_take, list.Forall_drop.
Qed.

Lemma neat_dispatch line n : printable line -> neat (dispatch env line n).
Proof.
  intros H. unfold dispatch. pose proof (words_printable line n (S n) H 0 0) as Hw. destruct Hw as [|a args Ha Hargs]; [walk|].
  pose proof (neat_io args Hargs). walk.
Qed.

Lemma run_shell_tidy l (w : Web F) out w' : printable l -> run_shell env l w = Some (out, w') -> display out Term_new = Term_new.
Proof.
  intros Hl E. unfold run_shell in E. destruct (dispatch env l (length l) (mkCon w [])) as [[u c]|] eqn:Ed; [|done].
  injection E as <- <-. exact (keeps_elim _ _ (mkCon w []) _ _ (neat_dispatch l (length l) Hl) eq_refl Ed).
Qed.

(** C18: What the user sees is what will run.  Whatever bytes have come from the
    console, the terminal's last row shows the prompt and the editor's text, nothing
    but blanks behind it, and the cursor in its place in the text; so Enter runs the
    line on the screen. *)
Theorem shell_screen input (w : Web F) t tx w' (Hin : spec_keys (run_shell env) input Spec_new BANNER w = Some (t, tx, w')) :
  (exists e, shell_task (run_shell env) input w = Some (tt, mkShell e tx w') /\ refines e t) /\
  shows_line (t_text t) (t_pos t) (display tx Term_new).
Proof.
  split.
  - pose proof (sim_keys (run_shell env) input Editor_new BANNER w Spec_new refines_new) as H. by rewrite Hin in H.
  - exact (proj2 (keys_show _ run_shell_tidy input _ _ _ _ _ _ banner_shows Hin)).
Qed.
End Outputs.

Lemma env_demo_ok : env_ok env_demo.
Proof.
  split; [by apply printable_check..|]. change (STATS env_demo) with (mkTaskStat (Some (0x8000, bs "sh")) 0x20001000 1 :: replicate 23 (mkTaskStat None 0 0)).
  intros s n [->|[-> _]%elem_of_replicate]%list.elem_of_cons E; [|done]. injection E as <-. by apply printable_check.
Qed.

(** A word, two steps back, a letter in between, Tab, a line that runs. *)
Lemma shell_screen_witness :
  let input := bs "io d" ++ [13] ++ bs "io set" ++ [27; 91; 68; 27; 91; 68] ++ bs "x" ++ [9] ++ bs "ab" ++ [8] in
  exists t tx w', env_ok env_demo /\ spec_keys (run_shell env_demo) input Spec_new BANNER web_blank = Some (t, tx, w') /\
    (exists e, shell_task (run_shell env_demo) input web_blank = Some (tt, mkShell e tx w') /\ refines e t) /\
    shows_line (t_text t) (t_pos t) (display tx Term_new).
Proof.
  intros input. destruct (spec_keys (run_shell env_demo) input Spec_new BANNER web_blank) as [[[t tx] w']|] eqn:E; [|vm_compute in E; discriminate E].
  exists t, tx, w'. split; [exact env_demo_ok|]. split; [done|]. exact (shell_screen env_demo env_demo_ok input web_blank t tx w' E).
Defined.
