(* ===== verification/Heartbeat.v ===== *)
(** * The heartbeat task (crates/firmware/src/main.rs)

    The loop that runs every 100 ms: the delayed reboot, the clock, the watchdog, the
    link, the LED.  Between two turns the other tasks run; they are functions on the
    registers and the statics. *)
From Stdlib Require Import ZifyBool.
From S2P Require Import Prelude TimeMath RegMap MbServer MbSpec UdpCfg History Channels System Outputs.

(** What a turn does outside the memory: [wdt.pet()], [system_reset()], the LED. *)
Inductive Act := Pet | Reset | Led (on : bool).

#[export] Instance Act_eq_dec : EqDecision Act.
Proof. solve_decision. Defined.

(** The local counter of the task, the registers, the statics, [net::LINK_UP]. *)
Record Hb := mkHb { hb_ticks : Z; hb_regs : RegMap; hb_sys : Sys; LINK_UP : bool }.

(** [up] is what the network stack says about the link. *)
Definition hb_turn (up : bool) (h : Hb) : list Act * Hb :=
  let n := as_u32 (hb_ticks h + 1) in
  let '(now_due, s) := due (reboot_due (hb_sys h)) in
  if now_due : bool then ([Reset], mkHb n (hb_regs h) s (LINK_UP h)) else
  let s := if n mod 10 =? 0 then tick_1hz s else s in
  let pet := if n mod 30 =? 0 then [Pet] else [] in
  let '(r, s, l) :=
    if n mod 5 =? 0 then
      if up then (hb_regs h, s, up) else (set_holding (<[HOLDING_DO_IDX := 0]>) (hb_regs h), set_do_led 0 s, up)
    else (hb_regs h, s, LINK_UP h) in
  (pet ++ [Led (n mod 30 <? 3)], mkHb n r s l).

(** What happens up to a turn and in it: the time since the last one in ms, the work of
    the other tasks, the state of the link. *)
Record Beat := mkBeat { b_gap : Z; b_others : RegMap * Sys -> RegMap * Sys; b_up : bool }.

Definition before (b : Beat) (h : Hb) : Hb :=
  let '(r, s) := b_others b (hb_regs h, hb_sys h) in mkHb (hb_ticks h) r s (LINK_UP h).

(** The turns one after another; a reset ends the run. *)
Fixpoint hb_run (bs : list Beat) (h : Hb) : list (Beat * list Act * Hb) :=
  match bs with
  | [] => []
  | b :: bs =>
      let '(acts, h) := hb_turn (b_up b) (before b h) in
      (b, acts, h) :: (if bool_decide (acts = [Reset]) then [] else hb_run bs h)
  end.

(** ** The watchdog *)

(** The watchdog counts from the last [Pet]; it resets the chip when it gets to 30 s. *)
Fixpoint wdt_bites (elapsed : Z) (run : list (Z * list Act)) : bool :=
  match run with
  | [] => false
  | (gap, acts) :: run =>
      (30000 <=? elapsed + gap) || wdt_bites (if bool_decide (Pet ∈ acts) then 0 else elapsed + gap) run
  end.
Definition gaps (run : list (Beat * list Act * Hb)) : list (Z * list Act) := (fun t => (b_gap t.1.1, t.1.2)) <$> run.

Lemma hb_turn_ticks up h : hb_ticks (hb_turn up h).2 = as_u32 (hb_ticks h + 1).
Proof. unfold hb_turn. destruct (due _) as [[|] s]; [done|]. repeat case_match; simplify_eq; done. Qed.

Lemma hb_turn_pet up h : (hb_turn up h).1 = [Reset] \/
  (Pet ∈ (hb_turn up h).1 <-> as_u32 (hb_ticks h + 1) mod 30 = 0).
Proof.
  unfold hb_turn. destruct (due _) as [[|] s]; [by left|]. right.
  assert (forall b : bool, Pet ∈ (if b then [Pet] else []) ++ [Led (as_u32 (hb_ticks h + 1) mod 30 <? 3)] <-> b = true) as A.
  { intros [|]; cbn [app]; [split; [done|intros _; by left]|]. split; [|done]. intros H. apply list_elem_of_singleton in H. done. }
  pose proof (A (as_u32 (hb_ticks h + 1) mod 30 =? 0)) as B. rewrite Z.eqb_eq in B.
  repeat case_match; simplify_eq; exact B.
Qed.

Lemma before_ticks b h : hb_ticks (before b h) = hb_ticks h.
Proof. unfold before. by destruct (b_others b _). Qed.

(** The turns since the last [Pet] are the residue of the counter, across the wrap of
    its 32 bits as well. *)
Lemma ticks_residue n : is_u32 n -> as_u32 (n + 1) mod 30 = 0 \/ as_u32 (n + 1) mod 30 = n mod 30 + 1.
Proof. unfold is_u32, as_u32. intros Hn. destruct (Z.eq_dec n 4294967295) as [->|]; [by left|]. rewrite (Z.mod_small (n + 1) 4294967296) by lia. zdm. Qed.

Lemma wdt_run bs : forall h el, is_u32 (hb_ticks h) -> Forall (fun b => 0 <= b_gap b <= 999) bs ->
  0 <= el <= 999 * (hb_ticks h mod 30) -> wdt_bites el (gaps (hb_run bs h)) = false.
Proof.
  induction bs as [|b bs IH]; intros h el Hn Hb Hel; [done|]. apply list.Forall_cons in Hb as [Hg Hb]. cbn [hb_run].
  pose proof (hb_turn_ticks (b_up b) (before b h)) as Ht. pose proof (hb_turn_pet (b_up b) (before b h)) as Hp.
  rewrite before_ticks in Ht, Hp. destruct (hb_turn (b_up b) (before b h)) as [acts h'] eqn:E. cbn [fst snd] in *.
  pose proof (Z.mod_pos_bound (hb_ticks h) 30 ltac:(lia)) as Hm.
  cbn [gaps fmap list_fmap wdt_bites fst snd]. rewrite (proj2 (Z.leb_gt _ _)) by lia. cbn [orb].
  destruct (bool_decide_reflect (acts = [Reset])) as [_|Hr]; [by cbn|].
  destruct Hp as [|Hp]; [done|]. apply IH; [rewrite Ht; apply as_u32_range|done|rewrite Ht].
  case_bool_decide as Hin; [apply Hp in Hin; lia|].
  destruct (ticks_residue (hb_ticks h) Hn) as [Hz|Hs]; [by apply Hp in Hz|]. rewrite Hs. lia.
Qed.

(** C20: The watchdog never resets the box while the heartbeat runs: if no two turns are a
    second apart (they should be 100 ms apart), the 30 s never go by, in a run of any
    length, whatever the other tasks do, and across the wrap of the turn counter. *)
Theorem watchdog_never_bites bs r s l (Hb : Forall (fun b => 0 <= b_gap b < 1000) bs) :
  wdt_bites 0 (gaps (hb_run bs (mkHb 0 r s l))) = false.
Proof. apply wdt_run; [done| |done]. eapply list.Forall_impl; [exact Hb|]. cbn. lia. Qed.

(** ** Loss of the link *)

Definition io_inv (x : RegMap * Sys) : Prop := reg_inv x.1 /\ pins_show x.1 x.2.
Definition all_off (h : Hb) : Prop :=
  holding (hb_regs h) !! HOLDING_DO_IDX = Some 0 /\ shows (do_outs (hb_sys h)) 0 /\ shows (led_outs (hb_sys h)) 0.

Lemma reboot_poll_frame s : (due (reboot_due s)).2 = set_deadline (deadline_ms (due (reboot_due s)).2) (set_reboot_at (reboot_at (due (reboot_due s)).2) s).
Proof.
  assert (forall y, (due y).2 = set_deadline (deadline_ms (due y).2) y) as A.
  { intros [e r d t o l q tk khz]. unfold due. by repeat case_match. }
  rewrite A at 1. unfold reboot_due. destruct s as [e r d [t|] o l q tk khz]; rewrite A; [|done]. cbn [reboot_at]. by case_match.
Qed.

Lemma clear_do_inv r : reg_inv r -> reg_inv (set_holding (<[HOLDING_DO_IDX := 0]>) r).
Proof.
  intros ((H1 & H2 & H3) & H4 & H5). split; [split; [by rewrite <- H1; apply length_insert|split; [|done]]|].
  - apply Forall_insert; [exact H2|unfold is_u16; lia].
  - split; cbn [holding set_holding]; by rewrite list_lookup_insert_ne.
Qed.

(** One turn: the invariant, and the poll of the link every fifth time. *)
Lemma hb_turn_io up h : io_inv (hb_regs h, hb_sys h) ->
  let '(acts, h') := hb_turn up h in
  io_inv (hb_regs h', hb_sys h') /\ lanes (hb_sys h') = lanes (hb_sys h) /\
  (as_u32 (hb_ticks h + 1) mod 5 = 0 -> acts = [Reset] \/ LINK_UP h' = up /\ (up = false -> all_off h')).
Proof.
  intros [Hr [Hd Hl]]. unfold hb_turn. pose proof (reboot_poll_frame (hb_sys h)) as Hf.
  destruct (due (reboot_due (hb_sys h))) as [now_due s]. cbn [snd fst] in *.
  assert (do_outs s = do_outs (hb_sys h) /\ led_outs s = led_outs (hb_sys h) /\ lanes s = lanes (hb_sys h)) as (E1 & E2 & E3).
  { rewrite Hf. done. }
  destruct now_due; [cbn; unfold io_inv, pins_show; cbn; rewrite E1, E2, E3; auto|].
  set (s' := if as_u32 (hb_ticks h + 1) mod 10 =? 0 then tick_1hz s else s).
  assert (do_outs s' = do_outs s /\ led_outs s' = led_outs s /\ lanes s' = lanes s) as (E4 & E5 & E6) by (unfold s'; by case_match).
  destruct (Z.eqb_spec (as_u32 (hb_ticks h + 1) mod 5) 0) as [H0|H0]; [destruct up|].
  - cbn. unfold io_inv, pins_show. cbn. rewrite E4, E5, E6, E1, E2, E3. split; [done|]. split; [done|]. intros _. right. done.
  - destruct (clear_do_inv (hb_regs h) Hr) as [H1 H2]. pose proof (proj1 Hr) as (Hlen & _).
    assert (shows (drive (do_outs s') 0) 0) as S1 by (rewrite E4, E1; by eapply drive_shows).
    assert (shows (drive (led_outs s') 0) 0) as S2 by (rewrite E5, E2; by eapply drive_shows).
    assert (<[HOLDING_DO_IDX := 0]> (holding (hb_regs h)) !! HOLDING_DO_IDX = Some 0) as Hz.
    { apply list_lookup_insert_eq. rewrite Hlen. unfold HOLDING_DO_IDX, MODBUS_HOLDING_REGISTER_NUMBERS. lia. }
    cbn. rewrite E6, E3. split; [split; [done|]|split; [done|]].
    + unfold pins_show. cbn. by rewrite (list_lookup_total_correct _ _ _ Hz).
    + intros _. right. split; [done|]. intros _. by split.
  - cbn. unfold io_inv, pins_show. cbn. rewrite E4, E5, E6, E1, E2, E3. done.
Qed.

Definition keeps_io (b : Beat) : Prop := forall x, io_inv x -> io_inv (b_others b x).

Lemma before_io b h : keeps_io b -> io_inv (hb_regs h, hb_sys h) -> io_inv (hb_regs (before b h), hb_sys (before b h)).
Proof. intros Hb Hi. apply Hb in Hi. unfold before. by destruct (b_others b _). Qed.

Lemma link_poll bs : forall h, is_u32 (hb_ticks h) -> io_inv (hb_regs h, hb_sys h) ->
  Forall (fun b => b_up b = false /\ keeps_io b) bs -> 5 - hb_ticks h mod 5 <= Z.of_nat (length bs) ->
  exists b acts h', (b, acts, h') ∈ hb_run bs h /\ (acts = [Reset] \/ LINK_UP h' = false /\ all_off h').
Proof.
  induction bs as [|b bs IH]; intros h Hn Hi Hb Hl; [cbn in Hl; zdm|].
  apply list.Forall_cons in Hb as [[Hup Hk] Hb]. cbn [hb_run].
  pose proof (hb_turn_ticks (b_up b) (before b h)) as Ht. pose proof (hb_turn_io (b_up b) (before b h) (before_io b h Hk Hi)) as Hp.
  rewrite before_ticks in Ht, Hp. rewrite Hup in *. destruct (hb_turn false (before b h)) as [acts h'] eqn:E. cbn [fst snd] in *.
  destruct Hp as (Hi' & _ & Hp).
  destruct (Z.eq_dec (as_u32 (hb_ticks h + 1) mod 5) 0) as [H0|H0].
  - exists b, acts, h'. split; [by left|]. destruct (Hp H0) as [|[]]; auto.
  - destruct (bool_decide_reflect (acts = [Reset])) as [Er|_]; [exists b, acts, h'; split; [by left|by left]|].
    destruct (IH h') as (b2 & a2 & h2 & Hin & Hx); [rewrite Ht; apply as_u32_range|done|done| |exists b2, a2, h2; split; [by right|done]].
    rewrite Ht. cbn [length] in Hl. unfold is_u32, as_u32 in *.
    destruct (Z.eq_dec (hb_ticks h) 4294967295) as [Hw|]; [by rewrite Hw in H0|].
    rewrite (Z.mod_small (hb_ticks h + 1) 4294967296) in * by lia. zdm.
Qed.

(** C19: A box that loses its link switches its outputs off: among any five turns with the
    link down (half a second) one ends with the DO register at 0 and every output and
    LED low, or the box resets; whatever the other tasks write in between. *)
Theorem link_loss_stops_outputs bs h (Hn : is_u32 (hb_ticks h)) (Hi : io_inv (hb_regs h, hb_sys h))
    (Hb : Forall (fun b => b_up b = false /\ keeps_io b) bs) (Hl : (5 <= length bs)%nat) :
  exists b acts h', (b, acts, h') ∈ hb_run bs h /\ (acts = [Reset] \/ LINK_UP h' = false /\ all_off h').
Proof. apply link_poll; try done. zdm. Qed.

(** ** The delayed reboot *)

(** The statics of the delayed reboot: the request, the deadline, the tick rate. *)
Definition rb (s : Sys) : option Z * Z * Z := (reboot_at s, deadline_ms s, tick_khz s).

(** The beat comes at tick [t]; whatever else the other tasks have done, they have not
    touched the delayed reboot. *)
Definition quiet_at (t : Z) (b : Beat) : Prop :=
  forall x, ticks (b_others b x).2 = t /\ rb (b_others b x).2 = rb x.2.
Definition quiet (tb : Z * Beat) : Prop := quiet_at tb.1 tb.2.

(** The other tasks only let time go by: to tick [t]. *)
Definition idle (t : Z) : Beat := mkBeat 100 (fun x => (x.1, at_ticks t x.2)) true.

Lemma idle_quiet t : quiet_at t (idle t).
Proof. by intros [r s]. Qed.

Lemma before_quiet t b h : quiet_at t b -> ticks (hb_sys (before b h)) = t /\ rb (hb_sys (before b h)) = rb (hb_sys h).
Proof. intros Hb. specialize (Hb (hb_regs h, hb_sys h)). unfold before. by destruct (b_others b _). Qed.

(** A turn resets exactly when the poll of the delayed reboot says so. *)
Lemma hb_turn_poll up h : let p := due (reboot_due (hb_sys h)) in
  if p.1 then (hb_turn up h).1 = [Reset] else (hb_turn up h).1 <> [Reset] /\ rb (hb_sys (hb_turn up h).2) = rb p.2.
Proof.
  cbv zeta. unfold hb_turn. destruct (due _) as [[|] s]; [done|]. cbn [fst snd].
  destruct (as_u32 (hb_ticks h + 1) mod 10 =? 0), (as_u32 (hb_ticks h + 1) mod 5 =? 0), up,
    (as_u32 (hb_ticks h + 1) mod 30 =? 0); cbn; split; done.
Qed.

(** Turns without a reset, as long as the poll says no and leaves the statics at [P]. *)
Lemma calm_phase P (C : Z -> Prop)
    (HP : forall s, rb s = P -> C (ticks s) -> (due (reboot_due s)).1 = false /\ rb (due (reboot_due s)).2 = P) :
  forall tbs rest h, Forall quiet tbs -> Forall (fun tb => C tb.1) tbs -> rb (hb_sys h) = P ->
  exists run h', hb_run ((snd <$> tbs) ++ rest) h = run ++ hb_run rest h' /\ (fun x => x.1.1) <$> run = snd <$> tbs /\
    Forall (fun x => x.1.2 <> [Reset]) run /\ rb (hb_sys h') = P.
Proof.
  induction tbs as [|[t b] tbs IH]; intros rest h Hq Hc Hh; [by exists [], h|].
  apply list.Forall_cons in Hq as [Hq0 Hq], Hc as [Hc0 Hc]. destruct (before_quiet t b h Hq0) as [Et Eh].
  destruct (HP (hb_sys (before b h))) as [H1 H2]; [by rewrite Eh|by rewrite Et|].
  pose proof (hb_turn_poll (b_up b) (before b h)) as Ht. cbv zeta in Ht. rewrite H1 in Ht. destruct Ht as [Hn Ht]. rewrite H2 in Ht.
  cbn [fmap list_fmap app snd hb_run]. destruct (hb_turn (b_up b) (before b h)) as [acts h1]. cbn [fst snd] in *.
  destruct (IH rest h1 Hq Hc Ht) as (run & h' & -> & E & Hr & Hh'). rewrite bool_decide_false by done.
  exists ((b, acts, h1) :: run), h'. split; [done|]. split; [cbn; by f_equal|]. by split; [constructor|].
Qed.

Lemma due_at d t khz s : deadline_ms s = d -> ticks s = t -> tick_khz s = khz -> 4 <= khz -> 0 < d <= 4294967295 / khz ->
  (due s).1 = (d <=? now_ms s) /\ ((due s).1 = false -> (due s).2 = s).
Proof.
  intros Hd Ht Hk Hq Hb. pose proof (now_ms_bound s ltac:(lia)) as Hn. rewrite Hk in Hn.
  assert (4294967295 / khz <= 1073741824) by (apply Z.div_le_upper_bound; lia).
  unfold due. rewrite Hd, (proj2 (Z.eqb_neq d 0)) by lia.
  assert ((wrapping_sub_u32 (now_ms s) d <? 0x80000000) = (d <=? now_ms s)) as ->; [|by destruct (d <=? now_ms s)].
  unfold wrapping_sub_u32, as_u32. destruct (Z.leb_spec d (now_ms s)); [rewrite Z.mod_small by lia; apply Z.ltb_lt; lia|].
  apply Z.ltb_ge. zdm.
Qed.

(** The millisecond count of [now_ms] at a tick. *)
Abbreviation now khz t := (as_u32 t / khz).

(** Before the time asked for, nothing; then a deadline 100 ms on; then the reset. *)
Lemma poll_early khz a s : rb s = (Some a, 0, khz) -> ticks s / khz < a ->
  (due (reboot_due s)).1 = false /\ rb (due (reboot_due s)).2 = (Some a, 0, khz).
Proof.
  unfold rb. intros [= Ea Ed Ek] Ht. unfold reboot_due, as_millis. rewrite Ea, Ek, (proj2 (Z.leb_gt _ _)) by lia.
  unfold due. rewrite Ed. cbn. by rewrite Ea, Ed, Ek.
Qed.

Lemma poll_first khz a s : 4 <= khz -> rb s = (Some a, 0, khz) -> a <= ticks s / khz -> now khz (ticks s) + 100 <= 4294967295 / khz ->
  (due (reboot_due s)).1 = false /\ rb (due (reboot_due s)).2 = (None, now khz (ticks s) + 100, khz).
Proof.
  unfold rb. intros Hk [= Ea Ed Ek] Ht Hw. unfold reboot_due, as_millis. rewrite Ea, Ek, (proj2 (Z.leb_le _ _)) by lia.
  set (z := cold _). assert (0 <= now khz (ticks s)) by (apply Z.div_pos; [apply as_u32_range|lia]).
  assert (4294967295 / khz < 4294967296) by (apply Z.div_lt_upper_bound; lia).
  assert (deadline_ms z = now khz (ticks s) + 100 /\ tick_khz z = khz /\ now_ms z = now khz (ticks s)) as (E1 & E2 & E3).
  { unfold z, cold, schedule_delayed_ms, now_ms. cbn. rewrite Ek. split; [|done]. unfold as_u32 at 1. by rewrite Z.mod_small by lia. }
  destruct (due_at _ (ticks z) khz z E1 eq_refl E2 Hk ltac:(lia)) as [H1 H2]. rewrite E3, (proj2 (Z.leb_gt _ _)) in H1 by lia.
  split; [done|]. rewrite (H2 H1), E1, E2. done.
Qed.

Lemma poll_late khz d s : 4 <= khz -> rb s = (None, d, khz) -> 0 < d <= 4294967295 / khz ->
  (due (reboot_due s)).1 = (d <=? now khz (ticks s)) /\
  ((due (reboot_due s)).1 = false -> rb (due (reboot_due s)).2 = (None, d, khz)).
Proof.
  unfold rb. intros Hk [= Ea Ed Ek] Hd. unfold reboot_due. rewrite Ea.
  destruct (due_at d (ticks s) khz s Ed eq_refl Ek Hk Hd) as [H1 H2]. unfold now_ms in H1. rewrite Ek in H1. split; [done|].
  intros H. by rewrite (H2 H), Ea, Ed, Ek.
Qed.

(** C21: A reboot that was asked for happens, and when.  From the request on, with no
    other reboot under way: every turn before 250 ms have gone by, the first turn after
    that, and every turn less than 100 ms after that one go on without a reset; the
    first turn 100 ms or more after it resets and is the last of the run - as long as
    the 32-bit millisecond count does not end within those 100 ms.  The other tasks may
    do anything in between but ask for another reboot or cancel this one. *)
Theorem reboot_happens s early t1 b1 wait t2 b2 rest h
    (Hk : 4 <= tick_khz s) (Hd : deadline_ms s = 0) (Hh : hb_sys h = set_reboot_status true s)
    (Hq : Forall quiet (early ++ (t1, b1) :: wait ++ [(t2, b2)]))
    (Hearly : Forall (fun tb => tb.1 / tick_khz s < as_millis s + 250) early)
    (H1 : as_millis s + 250 <= t1 / tick_khz s)
    (Hw : now (tick_khz s) t1 + 100 <= 4294967295 / tick_khz s)
    (Hwait : Forall (fun tb => now (tick_khz s) tb.1 < now (tick_khz s) t1 + 100) wait)
    (H2 : now (tick_khz s) t1 + 100 <= now (tick_khz s) t2) :
  exists run h', hb_run ((snd <$> early) ++ b1 :: (snd <$> wait) ++ b2 :: rest) h = run ++ [(b2, [Reset], h')] /\
    (fun x => x.1.1) <$> run = (snd <$> early) ++ b1 :: (snd <$> wait) /\ Forall (fun x => x.1.2 <> [Reset]) run.
Proof.
  set (khz := tick_khz s) in *. set (a := as_millis s + 250) in *. set (d := now khz t1 + 100) in *.
  assert (0 < d) by (assert (0 <= now khz t1) by (apply Z.div_pos; [apply as_u32_range|lia]); unfold d; lia).
  apply list.Forall_app in Hq as [Hq1 [Hq2 [Hq3 [Hq4 _]%list.Forall_cons]%list.Forall_app]%list.Forall_cons].
  assert (rb (hb_sys h) = (Some a, 0, khz)) as H0 by (rewrite Hh; unfold rb; cbn; by rewrite Hd).
  destruct (calm_phase (Some a, 0, khz) (fun t => t / khz < a) (fun s Hs => poll_early khz a s Hs) early
    (b1 :: (snd <$> wait) ++ b2 :: rest) h Hq1 Hearly H0) as (run1 & h1 & -> & E1 & C1 & R1).
  assert (exists h2 acts, hb_run (b1 :: (snd <$> wait) ++ b2 :: rest) h1 = (b1, acts, h2) :: hb_run ((snd <$> wait) ++ b2 :: rest) h2 /\
    acts <> [Reset] /\ rb (hb_sys h2) = (None, d, khz)) as (h2 & acts & -> & C2 & R2).
  { destruct (before_quiet t1 b1 h1 Hq2) as [Et Eh]. rewrite R1 in Eh.
    destruct (poll_first khz a (hb_sys (before b1 h1)) Hk Eh) as [P1 P2]; [by rewrite Et|by rewrite Et|]. rewrite Et in P2.
    pose proof (hb_turn_poll (b_up b1) (before b1 h1)) as Ht. cbv zeta in Ht. rewrite P1, P2 in Ht. destruct Ht as [Hn Ht].
    cbn [hb_run]. destruct (hb_turn (b_up b1) (before b1 h1)) as [acts h2]. cbn [fst snd] in *. rewrite bool_decide_false by done. by exists h2, acts. }
  destruct (calm_phase (None, d, khz) (fun t => now khz t < d)) with (tbs := wait) (rest := b2 :: rest) (h := h2)
    as (run3 & h3 & -> & E3 & C3 & R3); [|done..|].
  { intros s' Hs Hc. destruct (poll_late khz d s' Hk Hs ltac:(lia)) as [P1 P2]. rewrite (proj2 (Z.leb_gt _ _)) in P1 by lia. by split; [|apply P2]. }
  destruct (before_quiet t2 b2 h3 Hq4) as [Et Eh]. rewrite R3 in Eh.
  destruct (poll_late khz d (hb_sys (before b2 h3)) Hk Eh ltac:(lia)) as [P1 _]. rewrite Et, (proj2 (Z.leb_le _ _)) in P1 by lia.
  pose proof (hb_turn_poll (b_up b2) (before b2 h3)) as Ht. cbv zeta in Ht. rewrite P1 in Ht.
  cbn [hb_run]. destruct (hb_turn (b_up b2) (before b2 h3)) as [acts4 h4]. cbn [fst] in Ht. subst acts4. rewrite bool_decide_true by done.
  exists (run1 ++ (b1, acts, h2) :: run3), h4. split; [by rewrite <- app_assoc|]. split.
  - rewrite fmap_app, fmap_cons. by rewrite E1, E3.
  - apply list.Forall_app. by split; [|constructor].
Qed.

(** ** Witnesses *)

Lemma watchdog_never_bites_witness :
  wdt_bites 0 (gaps (hb_run (replicate 70 (idle 5000)) (mkHb 0 (RegMap_new 7) outputs_demo false))) = false.
Proof. apply (watchdog_never_bites (replicate 70 (idle 5000)) (RegMap_new 7) outputs_demo false). apply Forall_replicate. cbn. lia. Defined.

(** The link is down while a client keeps switching the outputs on. *)
Definition outage (v : Z) : Beat := mkBeat 100 (fun x => run_wr x (WReg (Z.of_nat HOLDING_DO_IDX) v)) false.

Lemma outage_io v : is_u16 v -> keeps_io (outage v).
Proof.
  intros Hv [r s] [Hr Hp]. assert (wr_ok (WReg (Z.of_nat HOLDING_DO_IDX) v)) as Hw by (split; [lia|exact Hv]).
  split; [exact (run_writes_inv [WReg (Z.of_nat HOLDING_DO_IDX) v] (r, s) (Forall_cons_2 _ _ _ Hw (Forall_nil_2 _)) Hr)|by apply run_wr_shows].
Qed.

Lemma link_loss_stops_outputs_witness :
  exists b acts h', (b, acts, h') ∈ hb_run (outage <$> [255; 1; 255; 1; 255]) (mkHb 3 (RegMap_new 7) outputs_demo true) /\
    (acts = [Reset] \/ LINK_UP h' = false /\ all_off h').
Proof.
  apply (link_loss_stops_outputs (outage <$> [255; 1; 255; 1; 255]) (mkHb 3 (RegMap_new 7) outputs_demo true)).
  - split; discriminate || reflexivity.
  - split; [apply RegMap_new_inv; unfold is_u16; lia|]. split; intros i Hi; do 8 (destruct i as [|i]; [reflexivity|]); lia.
  - repeat (constructor; [split; [reflexivity|apply outage_io; unfold is_u16; lia]|]). constructor.
  - cbn. lia.
Defined.

(** The request at 5 s; turns every 100 ms: the first due one is the third, the next one
    resets. *)
Lemma reboot_happens_witness :
  let s := at_ticks 5000000 outputs_demo in
  exists run h', hb_run (idle <$> [5100000; 5200000; 5300000; 5400000; 5500000]) (mkHb 7 (RegMap_new 7) (set_reboot_status true s) true) =
    run ++ [(idle 5400000, [Reset], h')] /\
    (fun x => x.1.1) <$> run = idle <$> [5100000; 5200000; 5300000] /\ Forall (fun x => x.1.2 <> [Reset]) run.
Proof.
  intros s. apply (reboot_happens s [(5100000, idle 5100000); (5200000, idle 5200000)] 5300000 (idle 5300000) [] 5400000 (idle 5400000) [idle 5500000]
    (mkHb 7 (RegMap_new 7) (set_reboot_status true s) true)).
  - cbn. lia.
  - reflexivity.
  - reflexivity.
  - repeat constructor; by destruct x.
  - repeat constructor; vm_compute; reflexivity.
  - vm_compute. discriminate.
  - vm_compute. discriminate.
  - constructor.
  - vm_compute. discriminate.
Defined.
