(* ===== verification/Device.v ===== *)
(** * The whole device

    The tasks of the firmware share the register map, the statics of System.v, the
    Modbus server and the upgrade session.  Here their turns are the steps of one
    transition system, in any order and with any input from outside, from any start:
    power-up with whatever the flash holds.  What lies between two turns of a task that
    only that task sees (a half-received frame, an open connection) is arbitrary. *)
From Stdlib Require Import ZifyBool.
From S2P Require Import Prelude Text Bytes TimeMath RegMap MbServer MbSpec MbTcp RtuFrame ConfigStore StorageCfg UdpCfg History Channels System Outputs.
From S2P Require Import Sampling W25q NorSpec FwSession FwCan StMonad Storage Web Ws WsFrames WsSession WebInv NetUdp Console ShellCmd ShellSafe Heartbeat.

(** ** Start *)

(** The statics as the program is loaded. *)
Definition Sys_static (khz : Z) : Sys :=
  mkSys TS_DEFAULT None 0 None (replicate 8 None) (replicate 8 None) (mkLanes [] []) 0 khz.

(** [io_gpio::init] with sixteen outputs at low level. *)
Definition gpio_init (s : Sys) : Sys := set_outs (replicate 8 (Some false)) (replicate 8 (Some false)) s.

Section Device.
Context {F : Type} `{!Flash F}.

(** [main] up to the spawning of the tasks: outputs, clock, parameters. *)
Definition boot (version_reg khz : Z) (provider : option Civil) (rtc0 : Civil) (nor : option F) : Web F :=
  let s := systime_init provider rtc0 (gpio_init (Sys_static khz)) in
  let c := boot_config_load (mkCfgState nor (None, 0) (RegMap_new version_reg)) in
  mkWeb (REGS c) s (mkFwW FW_init (replicate 16 0) (StorageCfg.NOR c)).

(** What the tasks share: the registers, the statics and the upgrade session; the
    Modbus server of appstate.rs; the state of the UDP commands; the heartbeat. *)
Record Dev := mkDev { v_web : Web F; v_srv : MbServer; v_udp : UdpCfgState; v_beat : Z; v_link : bool }.

Definition with_io (r : RegMap) (s : Sys) (d : Dev) : Dev := mkDev (mkWeb r s (w_fw (v_web d))) (v_srv d) (v_udp d) (v_beat d) (v_link d).
Definition put_web (w : Web F) (d : Dev) : Dev := mkDev w (v_srv d) (v_udp d) (v_beat d) (v_link d).
Definition put_srv (srv : MbServer) (d : Dev) : Dev := mkDev (v_web d) srv (v_udp d) (v_beat d) (v_link d).

Variables (INDEX_GZ : list Z) (info_json : Web F -> list Z).
Variable ver : UdpVersion.

Inductive dev_step (d : Dev) : Dev -> Prop :=
| step_tcp adu out n out' srv r s :          (* mbtcp: one ADU *)
    bytes_ok adu -> (length adu <= 300)%nat -> (MBTCP_ADU_TX_MAX <= length out)%nat ->
    mbtcp_adu_process adu out (v_srv d) (w_regs (v_web d)) (w_sys (v_web d)) = Some (n, out', srv, r, s) ->
    dev_step d (put_srv srv (with_io r s d))
| step_rtu f tx reply f' srv r s tx' :       (* rtu: one frame *)
    rtu_wf f -> length tx = 259%nat ->
    t35_expired f (v_srv d) (w_regs (v_web d)) (w_sys (v_web d)) tx = Some (reply, f', srv, r, s, tx') ->
    dev_step d (put_srv srv (with_io r s d))
| step_http method target body r w :         (* httpd: one request *)
    Web.dispatch INDEX_GZ info_json method target body (v_web d) = Some (r, w) -> dev_step d (put_web w d)
| step_ws data p p' s crc :                  (* httpd: one read of a WebSocket *)
    ws_step data p (mkWsS (v_web d) crc [] true) = Some (p', s) -> dev_step d (put_web (ws_web s) d)
| step_udp src rx rc rg dl sq outs rst n :   (* net: one datagram *)
    bytes_ok rx -> udp_turn ver src rx (mkNet (v_web d) (v_udp d) rc rg dl sq) = Some (outs, rst, n) ->
    dev_step d (mkDev (n_web n) (v_srv d) (n_udp n) (v_beat d) (v_link d))
| step_shell env typed out w :               (* shell: one line *)
    run_shell env typed (v_web d) = Some (out, w) -> dev_step d (put_web w d)
| step_can version f kb mask fs c :          (* fw_can: one frame *)
    can_turn version f (mkCanSt (w_fw (v_web d)) (lanes (w_sys (v_web d))) kb mask false) = Some (fs, c) ->
    dev_step d (put_web (mkWeb (w_regs (v_web d)) (set_lanes (c_lanes c) (w_sys (v_web d))) (c_fw c)) d)
| step_di pins r l ms :                      (* sampling: the digital inputs *)
    length pins = 16%nat -> di_turn pins (epoch (w_sys (v_web d))) (w_regs (v_web d)) (lanes (w_sys (v_web d))) = (r, l, ms) ->
    dev_step d (with_io r (set_lanes l (w_sys (v_web d))) d)
| step_ai raws r l ms :                      (* sampling: the analog inputs *)
    length raws = 4%nat -> Forall (fun x => 0 <= x <= 4095) raws ->
    ai_turn raws (epoch (w_sys (v_web d))) (w_regs (v_web d)) (lanes (w_sys (v_web d))) = (r, l, ms) ->
    dev_step d (with_io r (set_lanes l (w_sys (v_web d))) d)
| step_beat up acts h :                      (* main: one turn of the heartbeat *)
    hb_turn up (mkHb (v_beat d) (w_regs (v_web d)) (w_sys (v_web d)) (v_link d)) = (acts, h) ->
    dev_step d (mkDev (mkWeb (hb_regs h) (hb_sys h) (w_fw (v_web d))) (v_srv d) (v_udp d) (hb_ticks h) (LINK_UP h))
| step_ftp c :                               (* ftpd: a command for the storage task *)
    dev_step d (put_web (set_sys (set_lanes (queue_send c (lanes (w_sys (v_web d)))) (w_sys (v_web d))) (v_web d)) d)
| step_take l :                              (* storage: takes a command from a lane *)
    lanes (w_sys (v_web d)) = mkLanes (queue l) (ctrl_queue l) \/
    (exists c, lanes (w_sys (v_web d)) = mkLanes (c :: queue l) (ctrl_queue l)) \/
    (exists c, lanes (w_sys (v_web d)) = mkLanes (queue l) (c :: ctrl_queue l)) ->
    dev_step d (put_web (set_sys (set_lanes l (w_sys (v_web d))) (v_web d)) d)
| step_erase nor gen :                       (* storage: the factory reset *)
    dev_step d (put_web (set_regs (REGS (cfg_erase_all (mkCfgState nor gen (w_regs (v_web d))))) (v_web d)) d)
| step_time t :                              (* the tick counter *)
    dev_step d (put_web (set_sys (at_ticks t (w_sys (v_web d))) (v_web d)) d).

(** Power-up, or the restart after a reset: with any contents of the flash, as long as
    what it returns are bytes. *)
Definition reads_bytes (f : F) : Prop := forall a n, match (flash_read a n f).1 with Ok l => bytes_ok l | Err => True end.
Definition flash_gives_bytes (nor : option F) : Prop :=
  match nor with Some f => reads_bytes f /\ forall a n, reads_bytes (flash_read a n f).2 | None => True end.

Inductive started : Dev -> Prop :=
| start_intro version_reg khz provider rtc0 nor :
    is_u16 version_reg -> flash_gives_bytes nor ->
    started (mkDev (boot version_reg khz provider rtc0 nor) MbServer_new UdpCfgState_new 0 false).

Inductive reachable : Dev -> Prop :=
| reach_start d : started d -> reachable d
| reach_step d d' : reachable d -> dev_step d d' -> reachable d'.

Definition dev_inv (d : Dev) : Prop := device_inv (v_web d) /\ diag_wf (diag (v_srv d)).

(** ** The start *)

Lemma bytes_total l i : bytes_ok l -> is_u8 (l !!! i).
Proof.
  intros H. destruct (l !! i) as [b|] eqn:E; [rewrite (list_lookup_total_correct _ _ _ E); by eapply Forall_lookup_1|].
  rewrite list_lookup_total_alt, E. cbn. unfold is_u8. lia.
Qed.

Lemma bytes_range l i j : bytes_ok l -> bytes_ok (range l i j).
Proof. intros H. by apply Forall_take, Forall_drop. Qed.

Lemma decode_ok l c gen : bytes_ok l -> decode_record l = Some (c, gen) -> cfg_ok c.
Proof.
  intros H E. unfold decode_record in E. repeat case_match; try done. injection E as <- _.
  assert (forall i, is_u16 (from_le_bytes16 (range l 10 36 !!! (2 * i)%nat) (range l 10 36 !!! (2 * i + 1)%nat))) as A.
  { intros i. pose proof (bytes_total _ (2 * i)%nat (bytes_range l 10 36 H)). pose proof (bytes_total _ (2 * i + 1)%nat (bytes_range l 10 36 H)).
    unfold from_le_bytes16, is_u8, is_u16 in *. lia. }
  split; [done|]. unfold cfg_words, IoCfg_from_bytes. cbn [di_en ai_en di_si ai_si his can_id can_bps rs485_bps slave_id ip app].
  split; repeat (apply Forall_cons_2; [apply A|]); constructor.
Qed.

Lemma apply_cfg_inv r c : reg_inv r -> cfg_ok c -> reg_inv (apply_cfg_to_regs r c) /\ holding (apply_cfg_to_regs r c) !!! HOLDING_DO_IDX = holding r !!! HOLDING_DO_IDX.
Proof.
  intros Hr (Hip & Hc & _). destruct c as [a1 a2 a3 a4 a5 a6 a7 a8 a9 [|i1 [|i2 [|i3 [|i4 [|]]]]]]; try discriminate Hip.
  unfold cfg_words in Hc. cbn [di_en ai_en di_si ai_si his can_id can_bps rs485_bps slave_id ip app] in Hc.
  unfold apply_cfg_to_regs. cbn [foldl di_en ai_en di_si ai_si his can_id can_bps rs485_bps slave_id ip lookup_total list_lookup_total].
  assert (forall x i v, reg_inv x /\ holding x !!! HOLDING_DO_IDX = holding r !!! HOLDING_DO_IDX -> is_u16 v ->
    i <> HOLDING_CONFIG_SAVE_IDX -> i <> HOLDING_REBOOT_IDX -> i <> HOLDING_DO_IDX ->
    reg_inv (set_holding (<[i := v]>) x) /\ holding (set_holding (<[i := v]>) x) !!! HOLDING_DO_IDX = holding r !!! HOLDING_DO_IDX) as A.
  { intros x i v [((H1 & H2 & H3) & H4 & H5) H6] Hv Hs Hb Hd. cbn [holding set_holding]. split; [|by rewrite list_lookup_total_insert_ne].
    split; [split; [by rewrite <- H1; apply length_insert|split; [by apply Forall_insert|done]]|].
    split; cbn [holding set_holding]; by rewrite list_lookup_insert_ne. }
  repeat apply list.Forall_cons in Hc as [? Hc].
  repeat (apply A; [|assumption|discriminate..]). done.
Qed.

Lemma boot_inv version_reg khz provider rtc0 (nor : option F) : is_u16 version_reg -> flash_gives_bytes nor ->
  device_inv (boot version_reg khz provider rtc0 nor).
Proof.
  intros Hv Hf. unfold boot, boot_config_load. cbn [StorageCfg.NOR StorageCfg.REGS].
  destruct (nor_with (flash_read CFG_SLOT_A CFG_REC_LEN) nor) as [ra nor1] eqn:Ea.
  destruct (nor_with (flash_read CFG_SLOT_B CFG_REC_LEN) nor1) as [rb nor2] eqn:Eb.
  set (a := match ra with Some (Ok ra) => decode_record ra | _ => None end).
  set (b := match rb with Some (Ok rb) => decode_record rb | _ => None end).
  assert ((forall c g, a = Some (c, g) -> cfg_ok c) /\ forall c g, b = Some (c, g) -> cfg_ok c) as [Ha Hb].
  { destruct nor as [f|]; cbn in Ea, Hf; [destruct Hf as [H1 H2]|].
    - specialize (H1 CFG_SLOT_A CFG_REC_LEN). specialize (H2 CFG_SLOT_A CFG_REC_LEN).
      destruct (flash_read CFG_SLOT_A CFG_REC_LEN f) as [x f1]. injection Ea as <- <-. cbn [fst snd] in *.
      cbn in Eb. specialize (H2 CFG_SLOT_B CFG_REC_LEN). destruct (flash_read CFG_SLOT_B CFG_REC_LEN f1) as [y f2]. injection Eb as <- <-. cbn [fst] in *.
      subst a b. split; intros c g E; [destruct x|destruct y]; try done; by eapply decode_ok.
    - injection Ea as <- <-. cbn in Eb. injection Eb as <- <-. done. }
  destruct (pick a b) as [[cfg slot] gen] eqn:Ep.
  assert (cfg_ok cfg) as Hc.
  { clearbody a b. unfold pick in Ep. repeat case_match; simplify_eq; eauto.
    split; [done|]. split; repeat constructor; unfold is_u16; cbn; lia. }
  pose proof (RegMap_new_inv version_reg Hv) as Hr0. destruct (apply_cfg_inv _ cfg Hr0 Hc) as [Hr Hd].
  split; [exact Hr|]. cbn [w_regs w_sys].
  assert (do_outs (systime_init provider rtc0 (gpio_init (Sys_static khz))) = replicate 8 (Some false) /\
    led_outs (systime_init provider rtc0 (gpio_init (Sys_static khz))) = replicate 8 (Some false) /\
    lanes (systime_init provider rtc0 (gpio_init (Sys_static khz))) = mkLanes [] []) as (E1 & E2 & E3) by (unfold systime_init; by repeat case_match).
  split; [|rewrite E3; split; apply Nat.le_0_l].
  unfold pins_show. cbn [StorageCfg.REGS]. rewrite E1, E2, Hd. cbn. split; intros i Hi; do 8 (destruct i as [|i]; [reflexivity|]); lia.
Qed.

(** ** Modbus *)

Lemma bump_wf i dg : (i < 5)%nat -> diag_wf dg -> diag_wf (MbSpec.bump i dg).
Proof.
  intros Hi [Hl Hw]. split; [by unfold MbSpec.bump; rewrite length_insert|]. apply Forall_insert; [done|].
  destruct (lookup_lt_is_Some_2 dg i) as [v Hv]; [by rewrite Hl|]. rewrite (list_lookup_total_correct _ _ _ Hv).
  pose proof (Forall_lookup_1 _ _ _ _ Hw Hv) as Hvv. unfold is_u16 in *. cbv beta in Hvv. lia.
Qed.

Lemma mb_spec_diag fc l dg r (s : Sys) : diag_wf dg -> diag_wf (mb_spec fc l dg r s).1.2.
Proof.
  intros Hd. unfold mb_spec. assert (diag_wf (MbSpec.bump 3 (MbSpec.bump 0 dg))) as H by (repeat apply bump_wf; done || lia).
  set (dg2 := MbSpec.bump 3 (MbSpec.bump 0 dg)) in *. clearbody dg2.
  assert (diag_wf (mb_core fc l dg2 r s).1.2) as H2.
  { unfold mb_core, diag_spec. repeat case_decide; cbn [fst snd]; try done; repeat case_match; cbn [fst snd] in *; simplify_eq; try done.
    all: repeat (first [case_decide|case_match]; cbn [fst snd] in *; simplify_eq); try done.
    all: split; [done|repeat constructor; unfold is_u16; lia]. }
  unfold settle. destruct (mb_core fc l dg2 r s) as [[[|?|?] dg'] ws]; cbn [fst snd] in *; [done|done|]. apply bump_wf; [lia|done].
Qed.

Lemma adu_spec_ok adu dg r (s : Sys) : bytes_ok adu -> diag_wf dg ->
  Forall wr_ok (adu_spec adu dg r s).2 /\ diag_wf (adu_spec adu dg r s).1.2.
Proof.
  intros Hb Hd. destruct adu as [|t1 [|t0 [|p1 [|p0 [|l1 [|l0 [|u [|fc rest]]]]]]]]; cbn [adu_spec fst snd]; try (split; [constructor|done]).
  case_decide; cbn [fst snd]; [split; [constructor|done]|].
  set (n := Z.to_nat _). assert (bytes_ok (take n rest)) as Hr by (bytes_inv; by apply Forall_take).
  pose proof (mb_spec_writes_ok fc (take n rest) dg r s Hr) as Hw. pose proof (mb_spec_diag fc (take n rest) dg r s Hd) as Hg.
  destruct (mb_spec fc (take n rest) dg r s) as [[rep dg'] ws]. cbn [fst snd] in *. case_decide; cbn [fst snd]; [|done].
  split; [done|]. apply bump_wf; [lia|done].
Qed.

Lemma rtu_spec_ok l ov me dg r (s : Sys) : bytes_ok l -> diag_wf dg ->
  Forall wr_ok (rtu_spec l ov me dg r s).2 /\ diag_wf (rtu_spec l ov me dg r s).1.2.
Proof.
  intros Hb Hd. unfold rtu_spec. assert (forall i, (i < 5)%nat -> diag_wf (MbSpec.bump i dg)) as B by (intros; by apply bump_wf).
  assert (forall i j, (i < 5)%nat -> (j < 5)%nat -> diag_wf (MbSpec.bump i (MbSpec.bump j dg))) as B2 by (intros; repeat apply bump_wf; done).
  case_decide; [by split; [constructor|]|]. case_match; [split; [constructor|apply B2; lia]|].
  case_decide; [split; [constructor|apply bump_wf; [lia|apply B2; lia]]|].
  assert (bytes_ok (take (length l - 2) l)) as Ht by (by apply Forall_take).
  destruct (take (length l - 2) l) as [|u [|fc rest]]; [by split; [constructor|]..|].
  case_decide; [split; [constructor|apply B2; lia]|]. bytes_inv.
  assert (bytes_ok rest) as Hr by assumption.
  pose proof (mb_spec_writes_ok fc rest dg r s Hr) as Hw. pose proof (mb_spec_diag fc rest dg r s Hd) as Hg.
  destruct (mb_spec fc rest dg r s) as [[rep dg'] ws]. cbn [fst snd] in *. case_decide; cbn [fst snd]; [|done].
  split; [done|]. apply bump_wf; [lia|done].
Qed.

Lemma device_inv_writes ws : forall w : Web F, Forall wr_ok ws -> device_inv w ->
  device_inv (mkWeb (run_writes ws (w_regs w, w_sys w)).1 (run_writes ws (w_regs w, w_sys w)).2 (w_fw w)).
Proof.
  induction ws as [|x ws IH]; intros w Hw Hi; [by destruct w|]. apply list.Forall_cons in Hw as [Hx Hw].
  pose proof (IH _ Hw (device_inv_wr x w Hx Hi)) as H. cbn [w_regs w_sys w_fw] in H.
  change (run_writes (x :: ws) (w_regs w, w_sys w)) with (run_writes ws (run_wr (w_regs w, w_sys w) x)).
  by destruct (run_wr (w_regs w, w_sys w) x).
Qed.

(** ** The other tasks *)

(** A turn that leaves the holding registers and the outputs alone. *)
Lemma device_inv_frame (w w' : Web F) : device_inv w ->
  reg_wf (w_regs w') -> holding (w_regs w') = holding (w_regs w) ->
  do_outs (w_sys w') = do_outs (w_sys w) -> led_outs (w_sys w') = led_outs (w_sys w) -> lanes_wf (lanes (w_sys w')) -> device_inv w'.
Proof.
  intros ((_ & H1 & H2) & [Hd Hl] & _) Hw Hh E1 E2 Hq. split; [|split; [|done]].
  - split; [done|]. by rewrite Hh.
  - unfold pins_show. by rewrite Hh, E1, E2.
Qed.

Lemma can_lanes version f (c c' : CanSt F) fs : lanes_wf (c_lanes c) -> can_turn version f c = Some (fs, c') -> lanes_wf (c_lanes c').
Proof.
  intros Hc E. destruct f as [fid data]. unfold can_turn in E.
  destruct (fid =? PLATFORM_RX).
  { unfold handle_platform in E. destruct (negb (length data =? 8)%nat); [by injection E as <- <-|].
    do 8 (match type of E with context [data !! ?i ≫= _] => destruct (data !! i) end; cbn [mbind option_bind] in E; [|discriminate E]).
    repeat (first [progress simplify_eq | case_match | match type of E with (?o ≫= _) = _ => destruct o as [[? ?]|] eqn:?; [|done]; cbn [mbind option_bind] in E end];
      cbn [c_lanes with_fw with_mask mbind option_bind] in *); try done; try by apply queue_send_wf.
    all: destruct (version_frames _ _ _ _); [|done]; cbn [mbind option_bind] in *; by simplify_eq. }
  destruct (fid =? FW_DATA_RX).
  { unfold handle_fw_data in E. destruct (negb _); [by injection E as <- <-|].
    destruct (write data (c_fw c)) as [[ok u]|]; [|done]. cbn [mbind option_bind] in E. repeat (case_match; simplify_eq); done. }
  destruct (fid =? KEYHASH_RX); [|by injection E as <- <-].
  destruct (handle_keyhash _ _ _) as [[? ?]|]; [|done]. cbn [mbind option_bind] in E. by injection E as <- <-.
Qed.

Lemma di_facts pins ep r l r' l' ms : reg_wf r -> length pins = 16%nat -> lanes_wf l -> di_turn pins ep r l = (r', l', ms) ->
  reg_wf r' /\ holding r' = holding r /\ lanes_wf l'.
Proof.
  intros Hr Hp Hl E. pose proof (di_turn_contract pins 0 r l Hr Hp ltac:(unfold is_u32; lia)) as A.
  unfold di_turn in *. destruct (update_input _ _ r) as [x r1]. injection E as <- <- _. destruct A as (A1 & A2 & _).
  split; [done|]. split; [done|]. case_match; [by apply queue_send_wf|done].
Qed.

Lemma ai_facts raws ep r l r' l' ms : reg_wf r -> length raws = 4%nat -> Forall (fun x => 0 <= x <= 4095) raws -> lanes_wf l ->
  ai_turn raws ep r l = (r', l', ms) -> reg_wf r' /\ holding r' = holding r /\ lanes_wf l'.
Proof.
  intros Hr Hp Hv Hl E. pose proof (ai_turn_contract raws 0 r l Hr Hp Hv ltac:(unfold is_u32; lia)) as A.
  unfold ai_turn in *. set (r4 := sample _ _ 3 _) in *. injection E as <- <- _. destruct A as (A1 & A2 & _).
  split; [done|]. split; [done|]. case_match; [by apply queue_send_wf|done].
Qed.

Lemma erase_regs (nor : option F) gen r :
  REGS (cfg_erase_all (mkCfgState nor gen r)) = r \/ REGS (cfg_erase_all (mkCfgState nor gen r)) = apply_cfg_to_regs r IoCfg_defaults.
Proof. unfold cfg_erase_all. match goal with |- context [let '(_, _) := ?x in _] => destruct x as [[] ?] end; [by right|by left]. Qed.

Lemma step_keeps (Hgit : length (git ver) = 6%nat) d d' : dev_inv d -> dev_step d d' -> dev_inv d'.
Proof.
  intros [Hw Hs] E. pose proof Hw as (Hr & Hp & Hq). destruct E as
    [adu out n out' srv r s Hb Hl Ho E|f tx reply f' srv r s tx' Hf Ht E|method target body r w E|data p p' s crc E|src rx rc rg dl sq outs rst n Hb E
    |env typed out w E|version f kb mask fs c E|pins r l ms Hl E|raws r l ms Hl Hv E|up acts h E|c|l E|nor gen|t].
  - destruct (adu_correct adu out (v_srv d) (w_regs (v_web d)) (w_sys (v_web d)) Hb Hl Ho Hr Hs) as (o2 & A).
    destruct (adu_spec_ok adu (diag (v_srv d)) (w_regs (v_web d)) (w_sys (v_web d)) Hb Hs) as [B1 B2].
    destruct (adu_spec adu _ _ _) as [[rsp dg] ws]. destruct A as (A & _). rewrite A in E. injection E as <- <- <- <- <-.
    split; [by apply device_inv_writes|exact B2].
  - pose proof (t35_correct f (v_srv d) (w_regs (v_web d)) (w_sys (v_web d)) tx Hf Ht Hr Hs) as A.
    destruct (rtu_spec_ok (RtuFrame.received f) (rx_overflow f) (srv_unit f) (diag (v_srv d)) (w_regs (v_web d)) (w_sys (v_web d)) (received_wf f Hf) Hs) as [B1 B2].
    destruct (rtu_spec _ _ _ _ _ _) as [[rsp dg] ws]. destruct A as (o2 & A & _). rewrite A in E. injection E as <- <- <- <- <- <-.
    split; [by apply device_inv_writes|exact B2].
  - split; [|done]. by eapply keeps_elim; [apply keeps_dispatch| |exact E].
  - split; [|done]. eapply (step_inv data p (mkWsS (v_web d) crc [] true)); [|exact E]. split; [done|cbn; lia].
  - split; [|done]. by eapply udp_turn_inv; [|exact Hb|exact Hgit|exact E].
  - split; [|done]. destruct (run_shell_ok env typed _ Hw) as (o1 & w2 & E2 & H2). simplify_eq. exact H2.
  - split; [|done]. apply (device_inv_frame (v_web d)); try done; [apply Hr|]. by eapply can_lanes; [|exact E].
  - split; [|done]. destruct (di_facts _ _ _ _ _ _ _ (proj1 Hr) Hl Hq E) as (A1 & A2 & A3). by apply (device_inv_frame (v_web d)).
  - split; [|done]. destruct (ai_facts _ _ _ _ _ _ _ (proj1 Hr) Hl Hv Hq E) as (A1 & A2 & A3). by apply (device_inv_frame (v_web d)).
  - split; [|done]. pose proof (hb_turn_io up (mkHb (v_beat d) (w_regs (v_web d)) (w_sys (v_web d)) (v_link d)) (conj Hr Hp)) as A.
    rewrite E in A. destruct A as ([A1 A2] & A3 & _). cbn in A3. split; [exact A1|]. split; [exact A2|]. cbn. by rewrite A3.
  - split; [|done]. apply (device_inv_frame (v_web d)); try done; [apply Hr|]. by apply queue_send_wf.
  - split; [|done]. apply (device_inv_frame (v_web d)); try done; [apply Hr|]. cbn. unfold lanes_wf in *.
    destruct E as [E|[[c E]|[c E]]]; rewrite E in Hq; cbn [queue ctrl_queue length] in Hq; lia.
  - split; [|done]. assert (cfg_ok IoCfg_defaults) as Hc by (split; [done|split; repeat constructor; unfold is_u16; cbn; lia]).
    destruct (apply_cfg_inv _ _ Hr Hc) as [A1 A2]. destruct (erase_regs nor gen (w_regs (v_web d))) as [E|E].
    + unfold put_web. cbn [v_web]. rewrite E. by destruct (v_web d).
    + unfold put_web. cbn [v_web]. rewrite E. split; [exact A1|]. split; [|done]. unfold pins_show. cbn [w_regs w_sys set_regs]. by rewrite A2.
  - split; [|done]. by apply (device_inv_frame (v_web d)); try done; apply Hr.
Qed.

(** C6: The whole device keeps its invariant: in every state that any start and any
    sequence of turns of any tasks with any input can reach, the register map is well
    formed, the eight outputs and their LEDs show the DO register, no queue is over its
    capacity, and the Modbus counters are 16-bit numbers. *)
Theorem device_always_safe (Hgit : length (git ver) = 6%nat) d (Hd : reachable d) : dev_inv d.
Proof.
  induction Hd as [d []|d d' _ IH E]; [|by eapply step_keeps].
  split; [by apply boot_inv|]. split; [done|]. repeat constructor; unfold is_u16; lia.
Qed.
End Device.

(** A device that starts without a flash, on whose console an output is switched on. *)
Lemma device_always_safe_witness :
  let info (_ : Web Chip) : list Z := [] in
  exists d, reachable [] info ver_demo d /\ dev_inv d /\ holding (w_regs (v_web d)) !! HOLDING_DO_IDX = Some 4.
Proof.
  intros info.
  destruct (run_shell env_demo (bs "io do set 3 1") (boot (F := Chip) 0x1234 1000 None (unix_to_civil 0) None)) as [[out w]|] eqn:E; [|vm_compute in E; discriminate E].
  set (d0 := mkDev (boot (F := Chip) 0x1234 1000 None (unix_to_civil 0) None) MbServer_new UdpCfgState_new 0 false).
  assert (reachable [] info ver_demo (put_web w d0)) as Hr.
  { eapply reach_step; [apply reach_start|exact (step_shell [] info ver_demo d0 env_demo (bs "io do set 3 1") out w E)].
    apply start_intro; [unfold is_u16; lia|exact I]. }
  exists (put_web w d0). split; [exact Hr|]. split; [exact (device_always_safe [] info ver_demo eq_refl (put_web w d0) Hr)|].
  vm_compute in E. injection E as _ <-. reflexivity.
Defined.
