(* ===== verification/Persist.v ===== *)
(** * Parameters from the request to the next start

    The components put together: a request to save that comes in over Modbus, HTTP or
    the console, the lane to the storage task, its turn, the slot on the flash, and the
    start that follows the next loss of power. *)
From S2P Require Import Prelude Text TimeMath RegMap ConfigStore StorageCfg History Channels System W25q NorSpec FwSession LfsNor StMonad Storage RamFs StorageBoot.
From S2P Require Import Web WsSession WebInv Console ShellCmd ShellSafe Device.

Inductive SaveBy :=
| ByRegister (v : Z)                  (* a write to the save register *)
| ByHttp                              (* POST /api/save *)
| ByShell (env : Env).                (* io save *)

Section Saving.
Context {F : Type} `{!Flash F}.
Variables (INDEX_GZ : list Z) (info_json : Web F -> list Z).

Definition ask_save (by_ : SaveBy) (w : Web F) : option (Web F) :=
  match by_ with
  | ByRegister v => snd <$> on_regs (io_write_holding (Z.of_nat HOLDING_CONFIG_SAVE_IDX) v) w
  | ByHttp => snd <$> Web.dispatch INDEX_GZ info_json (bs "POST") (bs "/api/save") (Some []) w
  | ByShell env => snd <$> run_shell env (bs "io save") w
  end.
Definition asks (by_ : SaveBy) : Prop := match by_ with ByRegister v => v <> 0 | _ => True end.

(** Whatever way is taken, the registers stay as they are and the command is in the
    lane. *)
Lemma ask_save_queues by_ (w : Web F) : device_inv w -> asks by_ ->
  ask_save by_ w = Some (set_sys (set_lanes (ctrl_send CfgSave (lanes (w_sys w))) (w_sys w)) w).
Proof.
  intros (((Hl & _) & Hs & _) & _ & _) Hb. destruct w as [r s fw]. cbn [w_regs w_sys] in *. destruct by_ as [v| |env]; cbn [ask_save].
  - assert (set_holding (<[HOLDING_CONFIG_SAVE_IDX := 0]>) (set_holding (<[HOLDING_CONFIG_SAVE_IDX := v]>) r) = r) as Er.
    { destruct r as [h i]. unfold set_holding. cbn [holding input] in *. f_equal. rewrite list_insert_insert_eq. by apply list_insert_id. }
    unfold on_regs, io_write_holding. cbn [w_regs w_sys]. rewrite Nat2Z.id, Hs.
    destruct (Z.eqb_spec 0 v) as [<-|_]; [done|]. cbv zeta. rewrite Er. done.
  - done.
  - done.
Qed.
End Saving.

Section Survives.
Context {FS : Type} `{!Lfs FS}.
Variables (INDEX_GZ : list Z) (info_json : Web NorImage -> list Z).

(** C4: Saved parameters are there after the next start.  A request to save, by Modbus,
    HTTP or the console, when no other parameter command waits: the next turn of the
    storage task stores the registers, and whatever happens afterwards to the memory,
    the device starts with them; or, if the supply fails during that turn, with them or
    the parameters stored before. *)
Theorem saved_parameters_survive by_ (w : Web NorImage) w' (st : Store FS NorImage) m k old slot gen fw epoch
    (Hw : device_inv w) (Hb : asks by_) (Hidle : ctrl_queue (lanes (w_sys w)) = [])
    (Hask : ask_save INDEX_GZ info_json by_ w = Some w')
    (Hst : s_cfg st = mkCfgState (Some (mkNorImage m k)) (slot, gen) (w_regs w'))
    (Hpick : slots_pick m = (old, slot, gen)) (Hgen : 0 <= gen < 0xFFFFFFFF)
    (Hcol : torn_collision (encode_record (regs_to_cfg (w_regs w)) (gen + 1)) = false) :
  exists st', task_turn true fw epoch (lanes (w_sys w')) st = Some (lanes (w_sys w), st') /\
    forall version_reg khz provider rtc0, is_u16 version_reg ->
      let start := boot version_reg khz provider rtc0 (StorageCfg.NOR (s_cfg st')) in
      (regs_to_cfg (w_regs start) = regs_to_cfg (w_regs w) \/ w_regs start = apply_cfg_to_regs (RegMap_new version_reg) old) /\
      (Z.of_nat k >= CFG_SLOT_SIZE + 40 -> regs_to_cfg (w_regs start) = regs_to_cfg (w_regs w)).
Proof.
  pose proof (ask_save_queues INDEX_GZ info_json by_ w Hw Hb) as E. rewrite Hask in E. injection E as ->.
  change (w_regs (set_sys _ w)) with (w_regs w) in Hst. change (w_sys (set_sys ?s _)) with s.
  change (lanes (set_lanes ?l _)) with l. exists (set_cfg (cfg_save (s_cfg st)) st).
  destruct (lanes (w_sys w)) as [q cq] eqn:El. cbn [ctrl_queue] in Hidle. subst cq. split; [done|].
  intros version_reg khz provider rtc0 Hv. cbv zeta.
  assert (StorageCfg.NOR (s_cfg (set_cfg (cfg_save (s_cfg st)) st)) = StorageCfg.NOR (cfg_save (s_cfg st))) as -> by done.
  set (s0 := mkCfgState (StorageCfg.NOR (cfg_save (s_cfg st))) (None, 0) (RegMap_new version_reg)).
  change (w_regs (boot _ _ _ _ _)) with (REGS (boot_config_load s0)).
  assert (reg_wf (RegMap_new version_reg)) as Hn by by apply RegMap_new_inv.
  assert (reg_wf (REGS (s_cfg st))) as Hr by (rewrite Hst; apply Hw).
  assert (StorageCfg.NOR (s_cfg st) = Some (mkNorImage m k) /\ CFG (s_cfg st) = (slot, gen) /\ REGS (s_cfg st) = w_regs w) as (E1 & E2 & E3) by (rewrite Hst; cbn [StorageCfg.NOR CFG REGS]; split; [reflexivity|split; reflexivity]).
  rewrite <- E3 in Hcol |- *. destruct (save_then_boot (s_cfg st) m k old slot gen E1 Hpick E2 Hr Hgen Hcol s0 eq_refl Hn) as [H1 H2].
  split; [destruct H1 as [H1|[H1 _]]; [by left|by right]|]. intros Hk. by apply H2.
Qed.

(** C5: A factory reset from the console.  When no other parameter command waits, the
    next turn of the storage task erases both slots and a reboot is due; the next start
    has the defaults.  If the supply fails during the turn the next start may instead
    find what the second slot holds, which can be older than what was in use; only a
    failure before the first byte leaves the parameters in use. *)
Theorem factory_reset_restores env (w : Web NorImage) (st : Store FS NorImage) m k slot gen fw epoch
    (Hidle : ctrl_queue (lanes (w_sys w)) = []) (Hst : s_cfg st = mkCfgState (Some (mkNorImage m k)) (slot, gen) (w_regs w)) :
  exists out w' st', run_shell env (bs "io factory") w = Some (out, w') /\ reboot_at (w_sys w') <> None /\
    task_turn true fw epoch (lanes (w_sys w')) st = Some (lanes (w_sys w), st') /\
    forall version_reg khz provider rtc0, exists c,
      w_regs (boot version_reg khz provider rtc0 (StorageCfg.NOR (s_cfg st'))) = apply_cfg_to_regs (RegMap_new version_reg) c /\
      (c = IoCfg_defaults \/ c = slot_b_cfg m \/ k = 0%nat /\ c = (slots_pick m).1.1) /\
      (Z.of_nat k >= 2 * CFG_SLOT_SIZE -> c = IoCfg_defaults).
Proof.
  destruct w as [r s f]. cbn [w_sys w_regs] in *. destruct s as [ep rt dl ra os ls [q cq] tk khz0]. cbn [lanes ctrl_queue] in *. subst cq.
  eexists _, _, (set_cfg (cfg_erase_all (s_cfg st)) st). split; [reflexivity|]. split; [done|]. split; [done|].
  intros version_reg khz provider rtc0. set (s0 := mkCfgState (StorageCfg.NOR (cfg_erase_all (s_cfg st))) (None, 0) (RegMap_new version_reg)).
  destruct (erase_then_boot (s_cfg st) m k) with (s0 := s0) as (c & E & H1 & H2); [by rewrite Hst|done|]. by exists c.
Qed.
End Survives.


(** A new slave address, saved from the console, and a power cycle. *)
Lemma saved_parameters_survive_witness :
  let info (_ : Web NorImage) : list Z := [] in
  let w0 := boot (F := NorImage) 0x1234 1000 None (unix_to_civil 0) None in
  exists out w w' st', run_shell env_demo (bs "io rs485 sid 9") w0 = Some (out, w) /\ ask_save [] info (ByShell env_demo) w = Some w' /\
    let st := Store_init (ram_empty 1000) (mkCfgState (Some (blank (Z.to_nat 40000))) (None, 0) (w_regs w')) in
    task_turn true false 0 (lanes (w_sys w')) st = Some (lanes (w_sys w), st') /\
    slave_id (regs_to_cfg (w_regs (boot 0x1234 1000 None (unix_to_civil 0) (StorageCfg.NOR (s_cfg st'))))) = 9.
Proof.
  intros info w0. assert (is_u16 0x1234) as Hv by (unfold is_u16; lia).
  destruct (run_shell_ok env_demo (bs "io rs485 sid 9") w0 (boot_inv _ _ _ _ None Hv I)) as (out & w & E & Hw).
  assert (ctrl_queue (lanes (w_sys w)) = [] /\ slave_id (regs_to_cfg (w_regs w)) = 9 /\
    torn_collision (encode_record (regs_to_cfg (w_regs w)) (0 + 1)) = false) as (Hi & H9 & Ht).
  { vm_compute in E. injection E as _ <-. vm_compute. done. }
  pose proof (ask_save_queues [] info (ByShell env_demo) w Hw Logic.I) as Ea.
  set (w' := set_sys _ w) in Ea. set (st := Store_init (ram_empty 1000) (mkCfgState (Some (blank (Z.to_nat 40000))) (None, 0) (w_regs w'))).
  destruct (saved_parameters_survive [] info (ByShell env_demo) w w' st (fun _ => 255) (Z.to_nat 40000) IoCfg_defaults None 0 false 0
    Hw Logic.I Hi Ea eq_refl eq_refl ltac:(lia) Ht) as (st' & E1 & H).
  exists out, w, w', st'. split; [exact E|]. split; [exact Ea|]. split; [exact E1|].
  destruct (H 0x1234 1000 None (unix_to_civil 0) Hv) as [_ H2]. rewrite H2; [exact H9|]. rewrite Z2Nat.id by lia. vm_compute. discriminate.
Defined.

Lemma factory_reset_restores_witness :
  let w := boot (F := NorImage) 0x1234 1000 None (unix_to_civil 0) None in
  let st := Store_init (ram_empty 1000) (mkCfgState (Some (blank (Z.to_nat 70000))) (None, 0) (w_regs w)) in
  exists out w' st', run_shell env_demo (bs "io factory") w = Some (out, w') /\ reboot_at (w_sys w') <> None /\
    task_turn true false 0 (lanes (w_sys w')) st = Some (lanes (w_sys w), st') /\
    w_regs (boot 0x1234 1000 None (unix_to_civil 0) (StorageCfg.NOR (s_cfg st'))) = apply_cfg_to_regs (RegMap_new 0x1234) IoCfg_defaults.
Proof.
  intros w st. destruct (factory_reset_restores env_demo w st (fun _ => 255) (Z.to_nat 70000) None 0 false 0 eq_refl eq_refl) as (out & w' & st' & E & Hr & Et & H).
  exists out, w', st'. split; [exact E|]. split; [exact Hr|]. split; [exact Et|].
  destruct (H 0x1234 1000 None (unix_to_civil 0)) as (c & -> & _ & Hc). rewrite Hc; [reflexivity|]. rewrite Z2Nat.id by lia. vm_compute. discriminate.
Defined.

(** Slave address 5 saved, then 9; a factory reset loses its supply after 100 bytes: the
    device starts with address 5. *)
Lemma factory_reset_cut_goes_back :
  let rec a gen := encode_record (regs_to_cfg (set_holding (<[HOLDING_SLAVE_ID_IDX := a]>) (apply_cfg_to_regs (RegMap_new 7) IoCfg_defaults))) gen in
  let m := write_cells CFG_SLOT_A (rec 9 2) (write_cells CFG_SLOT_B (rec 5 1) (fun _ => 255)) in
  let start m k := slave_id (regs_to_cfg (REGS (boot_config_load (mkCfgState (Some (mkNorImage m k)) (None, 0) (RegMap_new 7))))) in
  start m 0%nat = 9 /\
  match StorageCfg.NOR (cfg_erase_all (mkCfgState (Some (mkNorImage m 100)) (Some CFG_SLOT_A, 2) (RegMap_new 7))) with
  | Some n => start (cells n) 0%nat = 5
  | None => False
  end.
Proof. vm_compute. split; reflexivity. Qed.
