(* ===== verification/Libc.v ===== *)
(** * The C string functions (crates/littlefs2-sys/src/lib.rs)

    What littlefs calls from the C library, over a memory that maps addresses to bytes;
    reading an address that is not mapped is undefined behaviour, [None].  The loops
    run on fuel. *)
From stdpp Require Import gmap.
From S2P Require Import Prelude.
#[local] Open Scope Z_scope.

Abbreviation Mem := (gmap Z Z).

Fixpoint strlen_from (fuel : nat) (m : Mem) (s : Z) (n : nat) : option nat :=
  match fuel with
  | O => None
  | S fuel => b ← m !! (s + Z.of_nat n); if b =? 0 then Some n else strlen_from fuel m s (n + 1)
  end.
Definition strlen (fuel : nat) (m : Mem) (s : Z) : option nat := strlen_from fuel m s 0.

(** The inner option is the null pointer. *)
Fixpoint strchr_from (fuel : nat) (m : Mem) (s b : Z) (i : nat) : option (option Z) :=
  match fuel with
  | O => None
  | S fuel =>
      cur ← m !! (s + Z.of_nat i);
      if cur =? b then Some (Some (s + Z.of_nat i)) else if cur =? 0 then Some None else strchr_from fuel m s b (i + 1)
  end.
Definition strchr (fuel : nat) (m : Mem) (s c : Z) : option (option Z) := strchr_from fuel m s (as_u8 c) 0.

(** The inner loop of [strspn] and [strcspn]: is [c] in the string at [set]? *)
Fixpoint in_set (fuel : nat) (m : Mem) (set c : Z) (a : nat) : option bool :=
  match fuel with
  | O => None
  | S fuel => b ← m !! (set + Z.of_nat a); if b =? 0 then Some false else if b =? c then Some true else in_set fuel m set c (a + 1)
  end.

(** [stop] is what the inner loop says of a byte that ends the span. *)
Fixpoint span_from (stop : bool) (fuel : nat) (m : Mem) (s set : Z) (n : nat) : option nat :=
  match fuel with
  | O => None
  | S fuel' =>
      c ← m !! (s + Z.of_nat n);
      if c =? 0 then Some n else
      found ← in_set fuel m set c 0;
      if Bool.eqb found stop then Some n else span_from stop fuel' m s set (n + 1)
  end.
Definition strspn (fuel : nat) (m : Mem) (s accept : Z) : option nat := span_from false fuel m s accept 0.
Definition strcspn (fuel : nat) (m : Mem) (s reject : Z) : option nat := span_from true fuel m s reject 0.

(** ** Strings in memory *)

(** The bytes [l], none of them zero, lie at [s] and a zero follows. *)
Definition cstr (m : Mem) (s : Z) (l : list Z) : Prop :=
  Forall (fun b => b <> 0) l /\ forall i b, (l ++ [0]) !! i = Some b -> m !! (s + Z.of_nat i) = Some b.

(** The length of the longest prefix whose bytes satisfy [p]. *)
Fixpoint prefix_len (p : Z -> bool) (l : list Z) : nat := match l with b :: l => if p b then S (prefix_len p l) else O | [] => O end.

Definition mem_of (b : Z) (l : list Z) : bool := bool_decide (b ∈ l).

Lemma drop_next {A} (l : list A) n b r : drop n l = b :: r -> drop (n + 1) l = r /\ l !! n = Some b.
Proof.
  intros E. split.
  - rewrite <- drop_drop, E. reflexivity.
  - rewrite <- (Nat.add_0_r n), <- lookup_drop, E. reflexivity.
Qed.

(** The byte at an offset inside the string or at its end. *)
Lemma cstr_byte m s l n : cstr m s l -> (n <= length l)%nat -> m !! (s + Z.of_nat n) = Some (match drop n l with b :: _ => b | [] => 0 end).
Proof.
  intros [_ Hm] Hn. apply Hm. rewrite <- (take_drop n l) at 1. rewrite <- app_assoc, lookup_app_r by (rewrite length_take; lia).
  rewrite length_take, Nat.min_l, Nat.sub_diag by lia. by destruct (drop n l).
Qed.

Lemma cstr_nonzero m s l n b r : cstr m s l -> drop n l = b :: r -> b <> 0.
Proof. intros [Hf _] E. apply drop_next in E as [_ E]. exact (Forall_lookup_1 _ _ _ _ Hf E). Qed.

(** One step of a scan at offset [n]. *)
Ltac scan_step Hc n :=
  rewrite (cstr_byte _ _ _ n Hc) by lia; cbn [mbind option_bind];
  let E := fresh "E" in
  match type of Hc with cstr _ _ ?l => destruct (drop n l) as [|b r] eqn:E end;
  [|pose proof (cstr_nonzero _ _ _ _ _ _ Hc E) as Hnz; destruct (drop_next _ _ _ _ E) as [E' Hb]; pose proof (lookup_lt_Some _ _ _ Hb) as Hlt].

Lemma strlen_run m s l : cstr m s l -> forall fuel n, (n <= length l)%nat -> (length l - n < fuel)%nat -> strlen_from fuel m s n = Some (length l).
Proof.
  intros Hc. induction fuel as [|fuel IH]; intros n Hn Hf; [lia|]. cbn [strlen_from]. scan_step Hc n.
  - cbn. f_equal. apply (f_equal length) in E. rewrite length_drop in E. cbn in E. lia.
  - rewrite (proj2 (Z.eqb_neq b 0)) by done. apply IH; lia.
Qed.

Lemma in_set_run m s l c : cstr m s l -> forall fuel n, (n <= length l)%nat -> (length l - n < fuel)%nat -> in_set fuel m s c n = Some (mem_of c (drop n l)).
Proof.
  intros Hc. induction fuel as [|fuel IH]; intros n Hn Hf; [lia|]. cbn [in_set]. scan_step Hc n; [done|].
  rewrite (proj2 (Z.eqb_neq b 0)) by done. unfold mem_of. destruct (Z.eqb_spec b c) as [->|Hne].
  - rewrite bool_decide_eq_true_2; [done|by left].
  - rewrite IH, E' by lia. unfold mem_of. f_equal. apply bool_decide_ext. rewrite list.elem_of_cons. split; [by right|by intros [->|]].
Qed.

Lemma span_run stop m s l set k : cstr m s l -> cstr m set k -> forall fuel n,
  (n <= length l)%nat -> (length l - n < fuel)%nat -> (length k < fuel)%nat -> (length l - n + length k < fuel)%nat ->
  span_from stop fuel m s set n = Some (n + prefix_len (fun b => negb (Bool.eqb (mem_of b k) stop)) (drop n l))%nat.
Proof.
  intros Hc Hk. induction fuel as [|fuel IH]; intros n Hn Hf Hf2 Hf3; [lia|]. cbn [span_from]. scan_step Hc n; [cbn; f_equal; lia|].
  rewrite (proj2 (Z.eqb_neq b 0)) by done. rewrite (in_set_run m set k b Hk (S fuel) 0) by lia. rewrite drop_0. cbn [mbind option_bind prefix_len].
  destruct (Bool.eqb (mem_of b k) stop); cbn [negb]; [f_equal; lia|]. rewrite IH, E' by lia. f_equal. lia.
Qed.

Lemma strchr_run m s l c : cstr m s l -> forall fuel n, (n <= length l)%nat -> (length l - n < fuel)%nat ->
  strchr_from fuel m s c n = Some ((fun i => s + Z.of_nat (n + i)) <$> position (Z.eqb c) (drop n l ++ [0])).
Proof.
  intros Hc. induction fuel as [|fuel IH]; intros n Hn Hf; [lia|]. cbn [strchr_from]. scan_step Hc n.
  - cbn [app position]. rewrite (Z.eqb_sym c 0), Z.eqb_refl. destruct (0 =? c); [|done]. cbn [fmap option_fmap option_map]. do 3 f_equal. lia.
  - cbn [app position]. rewrite (Z.eqb_sym c b). destruct (b =? c); [cbn [fmap option_fmap option_map]; do 3 f_equal; lia|].
    rewrite (proj2 (Z.eqb_neq b 0)) by done. rewrite IH, E' by lia. f_equal.
    destruct (position (Z.eqb c) (r ++ [0])); cbn; [|done]. do 2 f_equal. lia.
Qed.

(** C40: Each of the four terminates on a terminated string and returns what the C standard
    says: the length; the first occurrence of the character, the terminator included,
    or the null pointer; the longest prefix made of, or free of, the bytes of the
    second string. *)
Theorem libc_strings (m : Mem) s l t k c fuel (Hs : cstr m s l) (Ht : cstr m t k) (Hf : (length l + length k < fuel)%nat) :
  strlen fuel m s = Some (length l) /\
  strchr fuel m s c = Some ((fun i => s + Z.of_nat i) <$> position (Z.eqb (as_u8 c)) (l ++ [0])) /\
  strspn fuel m s t = Some (prefix_len (fun b => mem_of b k) l) /\
  strcspn fuel m s t = Some (prefix_len (fun b => negb (mem_of b k)) l).
Proof.
  assert (forall p q, (forall b, p b = q b) -> prefix_len p l = prefix_len q l) as Hp.
  { clear. intros p q H. induction l as [|b l IH]; [done|]. cbn. by rewrite H, IH. }
  split_and!.
  - apply (strlen_run m s l Hs); lia.
  - unfold strchr. rewrite (strchr_run m s l (as_u8 c) Hs) by lia. done.
  - unfold strspn. rewrite (span_run false m s l t k Hs Ht) by lia. f_equal. apply Hp. intros b. by destruct (mem_of b k).
  - unfold strcspn. rewrite (span_run true m s l t k Hs Ht) by lia. f_equal. apply Hp. intros b. by destruct (mem_of b k).
Qed.

(** Two strings in a memory: a path at 100, a separator at 200. *)
Definition mem_demo : Mem := list_to_map (zip [100; 101; 102; 103; 104; 200; 201] (bs "a/bc" ++ [0] ++ bs "/" ++ [0])).

Lemma libc_strings_witness : strcspn 10 mem_demo 100 200 = Some 1%nat /\ strchr 10 mem_demo 100 47 = Some (Some 101).
Proof.
  assert (cstr mem_demo 100 (bs "a/bc") /\ cstr mem_demo 200 (bs "/")) as [Hs Ht].
  { split; (split; [repeat constructor; discriminate|]); intros i b Hi; do 5 (destruct i as [|i]; [cbn in Hi; simplify_eq; reflexivity|]); discriminate Hi. }
  destruct (libc_strings mem_demo 100 (bs "a/bc") 200 (bs "/") 47 10 Hs Ht) as (_ & H2 & _ & H4); [cbn; lia|].
  split; [exact H4|exact H2].
Defined.
